(* ===== verification/_CoqProject ===== *)
-Q . S2P
Prelude.v
GoStrings.v
Config.v
Crypto.v
Json.v
Domain.v
Gin.v
RedisClient.v
RedisKit.v
Idempotency.v
Schema.v
Database.v
Httpx.v
Sql.v
Kafka.v
Outbox.v
IdentityAdapters.v
IdentityRepos.v
SessionStore.v
IdentityServices.v
IdentitySpec.v
Typing.v
Accounts.v
SchemaFacts.v
Progress.v
Registration.v
Passwords.v
Issued.v
Spent.v
Revocation.v
Rotation.v
IdentityHttp.v
HttpSpec.v
Answers.v
Bootstrap.v
Commands.v
Wire.v
