(* ===== verification/Prelude.v ===== *)
(** * Bookstore backend: a verification development

    The program is a Go back end (src/): an HTTP API for accounts, sessions and
    addresses over PostgreSQL and Redis, with an outbox table whose events go to
    Kafka. This library translates its code into executable definitions and proves
    the properties that make the parts and their composition correct. The other
    business modules of the repository (order, payment, inventory, audit) hold no
    code yet.

    ** How the program works

    [cmd/api] loads the configuration from the environment, opens a logger, a
    database pool and a Redis client, builds the services and serves a Gin engine.
    A request passes the platform middlewares (request id, recovery, access log,
    CORS, rate limit), then those of its route (bearer token, token blacklist,
    idempotency key), then a handler, which calls a use case of the identity
    module. Use cases work on domain entities through repositories (SQL), adapters
    (tokens, password hashes, session cache, one-time tokens) and the outbox, inside
    transactions that travel in the context. A dispatcher claims outbox rows and
    publishes them to Kafka; consumers handle messages with retries and a dead
    letter topic, and mark events as processed.

    ** Files and what they model

    - Prelude: errors, results, the state-and-error monad [M], frame ([keeps]) and
      invariant ([preserves]) reasoning with its hints, 64-bit wrap-around, durations.
    - GoStrings: [strings], [strconv], UTF-8. Crypto: SHA-256, hexadecimal,
      [cryptoutil]. Json: [encoding/json] documents.
    - Config: [platform/config], every loader and [MustLoad].
    - Domain: [identity/domain], entities, value objects, policies.
    - Gin: the parts of Gin and net/http the program uses. Httpx: [platform/httpx].
    - RedisClient: Redis as an interface with laws. RedisKit: [platform/redis].
    - Idempotency: [platform/idempotency]: keys, records, store, service, middleware.
    - Schema: the tables and constraints of [migrations/]. Database: the process
      state [World], statements and faults, [platform/tx], processed events.
      Sql: row selection and scanning.
    - Kafka: [platform/kafka]. Outbox: [platform/outbox].
    - IdentityAdapters: [platform/auth] and [identity/infra/adapters].
      IdentityRepos: [identity/infra/postgres]. IdentityServices:
      [identity/app/service]. IdentityHttp: [identity/http] and its middlewares.
    - SessionStore: the interfaces of [identity/domain/repository.go] and the
      read side as classes with the repositories as instances; an abstract book of
      sessions as the contract of the session repository.
    - IdentitySpec and HttpSpec: the theorems about the services and the HTTP
      interface, with a concrete run of the program in [Scenario] and [HttpScenario].
    - Typing: the types of the stored rows through all services, and what the
      profile endpoints read. Accounts: complete accounts through all services, and
      what every reader of the repositories returns. SchemaFacts: when the constraints accept a statement.
      Progress: rules for total correctness, and when login and refresh succeed.
      Registration: when registration succeeds, and concurrent registrations.
      Passwords: when a password can be changed.
    - Issued: what no service call can undo for a refresh token, as two classes.
      Spent: a token that was used. Revocation: what a change or a reset of the
      password ends for good. Rotation: concurrent refresh transactions under row
      locks.
    - Answers: the statuses of the authentication handlers when nothing breaks.
    - Bootstrap: [internal/bootstrap], [cmd/api], the constructors of pool, client
      and logger, the health handlers. Commands: [cmd/migrate], and the worker and
      scheduler applications. Wire: the provider sets of all packages and the calls
      of the generated injector.

    Records have the fields of the source's structs and functions their names; where
    a name is taken, the definition says which one it models. A Go function that
    returns an error and changes state is a computation in [M]; it returns the state
    also on an error. A pointer that may be nil is an [option], an instant is its
    nanoseconds since the epoch, an [int64] is a [Z] with [wrap64] where arithmetic
    can overflow.

    ** What the theorems show

    - Concurrency and retries: at most one request per idempotency key proceeds and
      later ones are answered from the record; locks exclude each other; an offset is
      committed only after its message was handled or a dead letter was sent (whose
      failure is ignored); retries are bounded; an event is marked as processed once. These hold for every
      interleaving of calls, every pattern of failed commands and expiring keys.
    - Storage: transactions are atomic; every sequence of service calls keeps the
      types of the stored rows and complete accounts (credentials, an address that
      reads back, pending exactly while unverified, sessions on devices of their user),
      which makes every reader of the repositories total; recording and publishing an
      event agree, and the loop of the dispatcher marks an event published only after
      the broker accepted it.
    - Success: without driver faults registration succeeds exactly for a well-formed
      request with a free address, login exactly for the right credentials, a refresh exactly for a
      usable session and a change of password exactly for who knows the current one,
      and the handlers answer login and refresh accordingly; the profile endpoints
      show exactly the rows of their user.
    - Refresh tokens under concurrency: of all interleaved refreshes with one token at
      most one commits, and the sequential service performs the steps of that model.
      Of all interleaved registrations of one address at most one succeeds, and the
      one that loses the race is told that the address is taken.
    - Accounts: what a successful registration, login, refresh, reset and change of
      password mean for the database; tokens that work once, for refresh tokens through
      everything that may follow; ownership. After a change or a reset of the
      password the tokens of the sessions it ends are refused for ever, whatever
      calls, background tasks and time follow, if Redis carried out the deletion and
      no task was about to cache them ([retired] is the invariant).
    - HTTP: which requests need a token, through the route table and through the
      whole engine; tokens and cookies travel unchanged; a keyed request is not
      repeated; rate limits.
    - Start-up: when the configuration is accepted, token lifetimes and their
      overflow bounds, that resources are released; that the injector constructs
      exactly what the provider sets say the application needs; what the migration
      command does to the schema.
    - Refinement and interfaces: the Redis store against the abstract store
      [StoreLaws], the session repository against the book of [SessionRepoLaws] (the
      rotation of refresh tokens is verified against these laws), the handlers against
      the use-case classes, each discharged by the implementation.
    - Defects: theorems that prove where the code does not do what it means to, such
      as the outbox state the schema forbids, the route parameters that are never
      bound, the refresh token that survives a logout, the session that is cached after
      it was revoked, the login answer that tells registered addresses from others,
      and the dead letter topic that is never set.

    ** Code outside the repository

    Libraries and servers are classes: [RedisClient] (laws in [RedisLaws]), [Env]
    (clocks, UUIDs, and at which driver call PostgreSQL fails, before or after it
    took effect), [JWT], [Bcrypt], [Rand], [Unicode], [MailParser], [MapJWT],
    [KafkaWriter] and [KafkaReader] (laws in [BrokerLaws] and [WriterLaws]), [Decoder],
    [Validator], [Dotenv], [Runtime], [Migrate]. The laws are documented behaviour; every property that needs one has a witness with
    a concrete instance.

    ** Bounds and fuel

    Loops over bytes take the length of their input as fuel and consume at least one
    byte per step: [trim_front], [runes], [clean_fuel], [unescape_bytes], and the
    64-byte [blocks] of SHA-256; [format_digits] takes the binary length of the
    number. [consume] takes a number of turns of the endless loop, universally
    quantified, and [retry_loop] ConsumerMaxRetries + 1 attempts, the loop's own
    bound, which [handleWithRetry_spec] shows to be exact. All else is structural.

    ** Not modelled

    Log output; timeouts and cancellation of contexts; the wire tool, of whose work
    only the inputs and the result are modelled; struct types with one use, whose
    fields are the parameters of the definitions, and input types of the identity
    module that no code uses; SQL as text, since each query is a function on the tables next to the
    text it stands for; isolation between concurrent transactions except for the
    refresh and the registration (elsewhere a request runs its statements without others in between,
    while Redis commands of different requests interleave).

    ** What is left

    Several dispatchers that claim outbox rows under [SKIP LOCKED], logins of one device
    that race on its session, and when the reset of a password and the address services
    succeed. *)

From Stdlib Require Import ZArith String Ascii Lia.
From stdpp Require Import base strings list gmap.

(** ** Go errors

    A Go [error] is an interface value; the program meets five kinds of them.
    [EDomain] is a [*DomainError] made by [New] of the identity module,
    [ENew] an [errors.New] value (a package-level sentinel, or a plain
    message), [EWrap] an error made by [fmt.Errorf] with one [%w] verb (the
    text before it, the wrapped error, the text after it), [EPg] a
    [*pgconn.PgError] with its SQLSTATE code and the violated constraint, and
    [EIO] any other error value of a library (network, context, driver).
    Sentinels are compared by pointer in Go; every sentinel of the program has
    a text of its own, so structural equality decides the same comparisons. *)

Record DomainError := New { Code : string; Message : string }.

Inductive error :=
| EDomain (e : DomainError)
| ENew (text : string)
| EWrap (pre : string) (inner : error) (post : string)
| EPg (sqlstate : string) (constraint : string)
| EIO (text : string).

#[global] Instance DomainError_eq_dec : EqDecision DomainError.
Proof. solve_decision. Defined.
#[global] Instance error_eq_dec : EqDecision error.
Proof. solve_decision. Defined.

(** [errors.Is]: the error itself or one it wraps. *)
Fixpoint Is (err target : error) : bool :=
  if decide (err = target) then true
  else match err with
       | EWrap _ inner _ => Is inner target
       | _ => false
       end.

(** The text of an error: [err.Error()]. *)
Fixpoint ErrorText (err : error) : string :=
  match err with
  | EDomain e => "[" +:+ Code e +:+ "]: " +:+ Message e
  | ENew s => s
  | EWrap pre inner post => pre +:+ ErrorText inner +:+ post
  | EIO s => s
  | EPg code name => "ERROR: " +:+ name +:+ " (SQLSTATE " +:+ code +:+ ")"
  end.

(** ** Results and the state-and-error monad

    A Go function with an [error] result that reads and writes shared state is
    a computation [M S A]: it returns the state it leaves behind also when it
    fails, because an early [return err] undoes nothing. *)

Inductive result (A : Type) :=
| Ok (a : A)
| Err (e : error).
Arguments Ok {A} a.
Arguments Err {A} e.

#[global] Instance result_eq_dec {A} `{EqDecision A} : EqDecision (result A).
Proof. solve_decision. Defined.

Definition isOk {A} (r : result A) : bool :=
  match r with Ok _ => true | Err _ => false end.

Definition bindR {A B} (r : result A) (k : A -> result B) : result B :=
  match r with Ok a => k a | Err e => Err e end.

Definition M (S A : Type) : Type := S -> S * result A.

Definition retM {S A} (a : A) : M S A := fun s => (s, Ok a).
Definition throwM {S A} (e : error) : M S A := fun s => (s, Err e).
Definition liftM {S A} (r : result A) : M S A := fun s => (s, r).
Definition getM {S} : M S S := fun s => (s, Ok s).
Definition modifyM {S} (f : S -> S) : M S unit := fun s => (f s, Ok tt).

Definition bindM {S A B} (m : M S A) (k : A -> M S B) : M S B :=
  fun s => match m s with
           | (s', Ok a) => k a s'
           | (s', Err e) => (s', Err e)
           end.

(** A call whose error the caller inspects instead of returning it. *)
Definition attemptM {S A} (m : M S A) : M S (result A) :=
  fun s => let '(s', r) := m s in (s', Ok r).

(** Run a computation on a component of a larger state. *)
Definition zoomM {S T A} (get : S -> T) (put : T -> S -> S) (m : M T A) : M S A :=
  fun s => let '(t, r) := m (get s) in (put t s, r).

Declare Scope go_scope.
Delimit Scope go_scope with go.
Notation "'let!' x ':=' m 'in' k" := (bindM m (fun x => k))
  (at level 10, x binder, k at level 200) : go_scope.
Notation "'do!' m 'in' k" := (bindM m (fun _ => k))
  (at level 10, k at level 200) : go_scope.
Notation "'let?' x ':=' r 'in' k" := (bindR r (fun x => k))
  (at level 10, x binder, k at level 200) : go_scope.
#[global] Open Scope go_scope.

(** A clock the program reads: [Now()] cannot fail. *)
Class Clock (S : Type) := {
  Now : S -> S * Z
}.
Definition nowM {S} `{Clock S} : M S Z := fun s => let '(s', t) := Now s in (s', Ok t).

(** *** Inversion lemmas of the monad *)

Lemma bindM_ok {S A B} (m : M S A) (k : A -> M S B) s s' b :
  bindM m k s = (s', Ok b) <->
  exists s1 a, m s = (s1, Ok a) /\ k a s1 = (s', Ok b).
Proof.
  unfold bindM. destruct (m s) as [s1 [a|e]]; split.
  - eauto.
  - intros (s2 & a2 & H & Hk). by simplify_eq.
  - discriminate.
  - intros (s2 & a2 & H & Hk). by simplify_eq.
Qed.

Lemma bindM_err {S A B} (m : M S A) (k : A -> M S B) s s' e :
  bindM m k s = (s', Err e) <->
  m s = (s', Err e) \/
  exists s1 a, m s = (s1, Ok a) /\ k a s1 = (s', Err e).
Proof.
  unfold bindM. destruct (m s) as [s1 [a|e1]]; split.
  - eauto.
  - intros [H|(s2 & a2 & H & Hk)]; by simplify_eq.
  - intros H. left. by simplify_eq.
  - intros [H|(s2 & a2 & H & Hk)]; by simplify_eq.
Qed.

Lemma bindM_out {S A B} (m : M S A) (k : A -> M S B) s s' x :
  bindM m k s = (s', x) ->
  (exists s1 a, m s = (s1, Ok a) /\ k a s1 = (s', x)) \/ (exists e, m s = (s', Err e) /\ x = Err e).
Proof. unfold bindM. destruct (m s) as [s1 [a|e]]; intros H; [left|right]; simplify_eq; eauto. Qed.

Lemma bindM_step {S A B} (m : M S A) (k : A -> M S B) s s1 a :
  m s = (s1, Ok a) -> bindM m k s = k a s1.
Proof. intros H. unfold bindM. by rewrite H. Qed.

Lemma bindM_stop {S A B} (m : M S A) (k : A -> M S B) s s1 e :
  m s = (s1, Err e) -> bindM m k s = (s1, Err e).
Proof. intros H. unfold bindM. by rewrite H. Qed.

(** Two computations that agree step by step. *)
Lemma bindM_cong {S A B} (m m' : M S A) (k k' : A -> M S B) s :
  m s = m' s -> (forall a s1, m s = (s1, Ok a) -> k a s1 = k' a s1) -> bindM m k s = bindM m' k' s.
Proof.
  intros Hm Hk. unfold bindM. rewrite <- Hm. destruct (m s) as [s1 [a|e]] eqn:E; [|done]. by apply Hk.
Qed.

Lemma attemptM_eq {S A} (m : M S A) s s' r :
  attemptM m s = (s', Ok r) <-> m s = (s', r).
Proof. unfold attemptM. destruct (m s) as [s1 r1]. split; intros; by simplify_eq. Qed.

Lemma attemptM_inv {S A} (m : M S A) s s' r : attemptM m s = (s', Ok r) -> m s = (s', r).
Proof. apply attemptM_eq. Qed.

Lemma attemptM_no_err {S A} (m : M S A) s s' e :
  attemptM m s <> (s', Err e).
Proof. unfold attemptM. by destruct (m s). Qed.

(** *** Observations a computation leaves alone

    [keeps f m]: whatever [m] returns, the observation [f] of the state is the
    same before and after it. The rules below are hints, so that the frame
    facts of the handlers are found by search along their structure. *)

Definition keeps {S A T} (f : S -> T) (m : M S A) : Prop :=
  forall s, f (fst (m s)) = f s.

Section Keeps.
Context {S A B T : Type} (f : S -> T).

Lemma keeps_ret (a : A) : keeps f (retM a).
Proof. done. Qed.
Lemma keeps_throw e : keeps f (@throwM S A e).
Proof. done. Qed.
Lemma keeps_lift (r : result A) : keeps f (liftM r).
Proof. done. Qed.
Lemma keeps_get : keeps f getM.
Proof. done. Qed.
Lemma keeps_modify g : (forall s, f (g s) = f s) -> keeps f (modifyM g).
Proof. intros H s. apply H. Qed.
Lemma keeps_bind (m : M S A) (k : A -> M S B) :
  keeps f m -> (forall a, keeps f (k a)) -> keeps f (bindM m k).
Proof.
  intros Hm Hk s. unfold bindM. specialize (Hm s).
  destruct (m s) as [s1 [a|e]]; simpl in *; [|done].
  by rewrite (Hk a s1).
Qed.
Lemma keeps_attempt (m : M S A) : keeps f m -> keeps f (attemptM m).
Proof. intros Hm s. unfold attemptM. specialize (Hm s). by destruct (m s). Qed.
Lemma keeps_zoom {U} (get : S -> U) (put : U -> S -> S) (m : M U A) :
  (forall u s, f (put u s) = f s) -> keeps f (zoomM get put m).
Proof. intros H s. unfold zoomM. destruct (m (get s)); simpl. apply H. Qed.
Lemma keeps_inv (m : M S A) s s' x : keeps f m -> m s = (s', x) -> f s' = f s.
Proof. intros Hk Hm. specialize (Hk s). by rewrite Hm in Hk. Qed.
End Keeps.

Create HintDb go discriminated.
#[export] Hint Constants Opaque : go.
#[export] Hint Resolve keeps_ret keeps_throw keeps_lift keeps_get keeps_modify
  keeps_bind keeps_attempt keeps_zoom : go.

(** Case analysis of the program's tests inside a frame proof. *)
Ltac go_cases :=
  repeat match goal with
  | |- keeps _ (if ?b then _ else _) => destruct b
  | |- keeps _ (match ?x with _ => _ end) => destruct x
  | |- forall _, keeps _ _ => intro
  | |- keeps _ (bindM _ _) => apply keeps_bind
  end.

(** Frame facts by search: the structure of the computation, then hints. *)
Ltac go_frame := intros; go_cases; eauto with go.

(** *** Invariants a computation preserves

    [preserves P m]: from a state that satisfies [P], [m] ends in one, whatever
    it returns. *)

Definition preserves {S A} (P : S -> Prop) (m : M S A) : Prop :=
  forall s, P s -> P (fst (m s)).

Section Preserves.
Context {S A B : Type} (P : S -> Prop).

Lemma preserves_ret (a : A) : preserves P (retM a).
Proof. by intros s Hs. Qed.
Lemma preserves_throw e : preserves P (@throwM S A e).
Proof. by intros s Hs. Qed.
Lemma preserves_lift (r : result A) : preserves P (liftM r).
Proof. by intros s Hs. Qed.
Lemma preserves_get : preserves P getM.
Proof. by intros s Hs. Qed.
Lemma preserves_bind (m : M S A) (k : A -> M S B) :
  preserves P m -> (forall a, preserves P (k a)) -> preserves P (bindM m k).
Proof.
  intros Hm Hk s Hs. unfold bindM. specialize (Hm s Hs).
  destruct (m s) as [s1 [a|e]]; simpl in *; [|done]. by apply Hk.
Qed.
Lemma preserves_attempt (m : M S A) : preserves P m -> preserves P (attemptM m).
Proof. intros Hm s Hs. unfold attemptM. specialize (Hm s Hs). by destruct (m s). Qed.
(** A computation that leaves alone what the invariant looks at. *)
Lemma preserves_keeps {T} (f : S -> T) (Q : T -> Prop) (m : M S A) :
  (forall s, P s <-> Q (f s)) -> keeps f m -> preserves P m.
Proof. intros HQ Hk s Hs. apply HQ. rewrite (Hk s). by apply HQ. Qed.
End Preserves.

#[export] Hint Resolve preserves_ret preserves_throw preserves_lift preserves_get
  preserves_bind preserves_attempt : go.

Ltac go_preserve :=
  intros;
  repeat match goal with
  | |- preserves _ (if ?b then _ else _) => destruct b
  | |- preserves _ (match ?x with _ => _ end) => destruct x
  | |- forall _, preserves _ _ => intro
  | |- preserves _ (bindM _ _) => apply preserves_bind
  | |- preserves _ (attemptM _) => apply preserves_attempt
  end; eauto with go.

(** Forward symbolic execution of a computation known to have succeeded. *)
Ltac m_inv :=
  repeat match goal with
  | H : bindM _ _ _ = (_, Ok _) |- _ =>
      let w := fresh "w" in let a := fresh "a" in let H1 := fresh "Hm" in
      apply bindM_ok in H as (w & a & H1 & H)
  | H : attemptM _ _ = (_, Ok _) |- _ => apply attemptM_inv in H
  | H : retM _ _ = (_, _) |- _ => unfold retM in H; simplify_eq
  | H : throwM _ _ = (_, _) |- _ => unfold throwM in H; simplify_eq
  | H : liftM _ _ = (_, _) |- _ => unfold liftM in H; simplify_eq
  | H : getM _ = (_, _) |- _ => unfold getM in H; simplify_eq
  | H : modifyM _ _ = (_, _) |- _ => unfold modifyM in H; simplify_eq
  | H : (if ?b then throwM _ else _) _ = (_, Ok _) |- _ =>
      let E := fresh "Eb" in destruct b eqn:E
  | H : (if ?b then _ else throwM _) _ = (_, Ok _) |- _ =>
      let E := fresh "Eb" in destruct b eqn:E
  end.

(** ** Lists *)

Section Lists.
Context {A B : Type}.

(** Boolean filter, as a SQL [WHERE] clause uses it. *)
Fixpoint where_ (p : A -> bool) (l : list A) : list A :=
  match l with
  | [] => []
  | x :: l => if p x then x :: where_ p l else where_ p l
  end.

Lemma elem_of_where p l x : x ∈ where_ p l <-> x ∈ l /\ p x = true.
Proof.
  induction l as [|y l IH]; simpl.
  - split; [by intros ?%elem_of_nil|by intros [?%elem_of_nil _]].
  - destruct (p y) eqn:E; rewrite ?elem_of_cons, IH;
      naive_solver congruence.
Qed.

Lemma where_all l : where_ (fun _ => true) l = l.
Proof. induction l as [|x l IH]; simpl; [done|by f_equal]. Qed.

Lemma where_nil p l : where_ p l = [] <-> forall x, x ∈ l -> p x = false.
Proof.
  split.
  - intros H x Hx. destruct (p x) eqn:E; [|done].
    assert (Hin : x ∈ where_ p l) by (by apply elem_of_where).
    rewrite H in Hin. by apply elem_of_nil in Hin.
  - intros H. destruct (where_ p l) as [|y l'] eqn:E; [done|].
    assert (Hin : y ∈ where_ p l) by (rewrite E; left).
    apply elem_of_where in Hin as [Hy Hp]. by rewrite (H y Hy) in Hp.
Qed.

Lemma where_true p l : (forall x, x ∈ l -> p x = true) -> where_ p l = l.
Proof.
  induction l as [|y l IH]; intros H; simpl; [done|].
  rewrite (H y) by left. rewrite IH; [done|]. intros x Hx. apply H. by right.
Qed.

Lemma where_app p l1 l2 : where_ p (l1 ++ l2) = where_ p l1 ++ where_ p l2.
Proof. induction l1 as [|y l1 IH]; simpl; [done|]. destruct (p y); simpl; by rewrite IH. Qed.

Lemma where_length p l : (length (where_ p l) <= length l)%nat.
Proof. induction l as [|y l IH]; simpl; [done|]. destruct (p y); simpl; lia. Qed.

(** [nodupb] decides that a key occurs once in a table. *)
Fixpoint nodupb `{EqDecision K} (key : A -> K) (l : list A) : bool :=
  match l with
  | [] => true
  | x :: l => forallb (fun y => bool_decide (key x <> key y)) l && nodupb key l
  end.

Lemma nodupb_spec `{EqDecision K} (key : A -> K) l :
  nodupb key l = true <-> NoDup (key <$> l).
Proof.
  induction l as [|x l IH]; csimpl.
  - split; [constructor|done].
  - rewrite andb_true_iff, NoDup_cons, IH, forallb_forall.
    split; intros [H1 H2]; split; try done.
    + intros (y & Hy & Hin)%list_elem_of_fmap.
      apply list_elem_of_In in Hin. specialize (H1 y Hin).
      by apply bool_decide_eq_true in H1.
    + intros y Hin%list_elem_of_In. apply bool_decide_eq_true.
      intros Heq. apply H1. rewrite Heq. by apply list_elem_of_fmap_2.
Qed.

End Lists.

(** Two rows with the same key in a table without duplicate keys are one row. *)
Lemma nodup_key_inj {A K} (key : A -> K) (l : list A) x y :
  NoDup (key <$> l) -> x ∈ l -> y ∈ l -> key x = key y -> x = y.
Proof.
  induction l as [|z l IH]; csimpl; [by intros _ ?%elem_of_nil|].
  intros [Hz Hl]%NoDup_cons Hx Hy Hk.
  apply elem_of_cons in Hx, Hy.
  destruct Hx as [->|Hx], Hy as [->|Hy]; auto.
  - exfalso. apply Hz. rewrite Hk. by apply list_elem_of_fmap_2.
  - exfalso. apply Hz. rewrite <- Hk. by apply list_elem_of_fmap_2.
Qed.

(** ** Booleans and integers *)

Lemma bool_decide_refl {A} `{EqDecision A} (x : A) : bool_decide (x = x) = true.
Proof. by apply bool_decide_eq_true. Qed.

#[export] Hint Rewrite @bool_decide_refl andb_true_r andb_false_r orb_true_r
  orb_false_r : go_simp.

(** Go's [int64] (and [int] on a 64-bit platform) range. *)
Definition int64_min : Z := (- 2 ^ 63)%Z.
Definition int64_max : Z := (2 ^ 63 - 1)%Z.
Definition is_int64 (z : Z) : bool := (int64_min <=? z)%Z && (z <=? int64_max)%Z.

(** Two's complement wrap-around of an [int64] operation. *)
Definition wrap64 (z : Z) : Z :=
  let m := (z mod 2 ^ 64)%Z in
  if (m <? 2 ^ 63)%Z then m else (m - 2 ^ 64)%Z.

Lemma wrap64_id z : is_int64 z = true -> wrap64 z = z.
Proof.
  unfold is_int64, wrap64, int64_min, int64_max. intros [H1 H2]%andb_true_iff.
  apply Z.leb_le in H1, H2.
  destruct (decide (0 <= z)%Z).
  - rewrite Z.mod_small by lia. destruct (z <? 2 ^ 63)%Z eqn:E; [done|].
    apply Z.ltb_ge in E. lia.
  - replace (z mod 2 ^ 64)%Z with (z + 2 ^ 64)%Z.
    + destruct (z + 2 ^ 64 <? 2 ^ 63)%Z eqn:E; [apply Z.ltb_lt in E; lia|lia].
    + apply Z.mod_unique with (-1)%Z; lia.
Qed.

Lemma wrap64_int64 z : is_int64 (wrap64 z) = true.
Proof.
  unfold wrap64, is_int64, int64_min, int64_max.
  pose proof (Z.mod_pos_bound z (2 ^ 64)) as H. apply andb_true_iff.
  destruct (Z.ltb_spec (z mod 2 ^ 64) (2 ^ 63)); split; apply Z.leb_le; lia.
Qed.

Lemma wrap64_exact z : wrap64 z = z <-> is_int64 z = true.
Proof. split; [|apply wrap64_id]. intros <-. apply wrap64_int64. Qed.

(** [time.Duration] units in nanoseconds. *)
Definition Millisecond : Z := 1000000.
Definition Second : Z := (1000 * Millisecond)%Z.
Definition Minute : Z := (60 * Second)%Z.
Definition Hour : Z := (60 * Minute)%Z.
