(* ===== verification/GoStrings.v ===== *)
(** * Go strings

    A Go string is a sequence of bytes; it is modelled by the Standard
    Library's [string] (a list of 8-bit characters). This file holds the parts
    of [strings], [strconv], [unicode] and [unicode/utf8] the program uses:
    [TrimSpace] with the exact set of Unicode white space as UTF-8 byte
    sequences, [ToLower], [ReplaceAll], [Split], [Join], [EqualFold], the rune
    loop of [range s], [FormatInt] and [ParseInt]. The case tables above ASCII
    are the class [Unicode]: no theorem depends on their contents. *)

From Stdlib Require Import ZArith NArith String Ascii Lia.
From stdpp Require Import base strings list.
From S2P Require Import Prelude.

Notation bytes_of := String.list_ascii_of_string.
Notation string_of := String.string_of_list_ascii.

Definition byte (n : N) : ascii := ascii_of_N n.
Definition code (c : ascii) : N := N_of_ascii c.

Lemma bytes_of_string_of l : bytes_of (string_of l) = l.
Proof. apply String.list_ascii_of_string_of_list_ascii. Qed.
Lemma string_of_bytes_of s : string_of (bytes_of s) = s.
Proof. apply String.string_of_list_ascii_of_string. Qed.

Lemma bytes_of_inj s t : bytes_of s = bytes_of t -> s = t.
Proof. intros H. by rewrite <- (string_of_bytes_of s), H, string_of_bytes_of. Qed.

Lemma bytes_of_app s t : bytes_of (s +:+ t) = bytes_of s ++ bytes_of t.
Proof. induction s as [|c s IH]; simpl; [done|]. f_equal. apply IH. Qed.

(** ** White space and [strings.TrimSpace] *)

(** The UTF-8 encodings of the runes with [unicode.IsSpace]. *)
Definition space_runes : list (list ascii) :=
  map (fun n => [byte n]) [9; 10; 11; 12; 13; 32]%N ++
  map (fun n => [byte 0xC2; byte n]) [0x85; 0xA0]%N ++
  [[byte 0xE1; byte 0x9A; byte 0x80]] ++
  map (fun n => [byte 0xE2; byte 0x80; byte n])
    [0x80; 0x81; 0x82; 0x83; 0x84; 0x85; 0x86; 0x87; 0x88; 0x89; 0x8A;
     0xA8; 0xA9; 0xAF]%N ++
  [[byte 0xE2; byte 0x81; byte 0x9F]; [byte 0xE3; byte 0x80; byte 0x80]].

Fixpoint strip_prefix (p l : list ascii) : option (list ascii) :=
  match p, l with
  | [], _ => Some l
  | a :: p, b :: l => if Ascii.eqb a b then strip_prefix p l else None
  | _ :: _, [] => None
  end.

(** The rest of [l] after the first of the runes [ps] that starts it. *)
Fixpoint strip_one (ps : list (list ascii)) (l : list ascii) : option (list ascii) :=
  match ps with
  | [] => None
  | p :: ps => match strip_prefix p l with
               | Some r => Some r
               | None => strip_one ps l
               end
  end.

Fixpoint trim_front (ps : list (list ascii)) (fuel : nat) (l : list ascii) : list ascii :=
  match fuel with
  | O => l
  | S n => match strip_one ps l with
           | Some r => trim_front ps n r
           | None => l
           end
  end.

Definition trim_bytes (l : list ascii) : list ascii :=
  let a := trim_front space_runes (length l) l in
  rev (trim_front (map (@rev ascii) space_runes) (length a) (rev a)).

Definition TrimSpace (s : string) : string := string_of (trim_bytes (bytes_of s)).

(** ** Case, replacement, splitting *)

Definition is_ascii (s : string) : bool := forallb (fun c => (code c <? 128)%N) (bytes_of s).

Definition lower_byte (c : ascii) : ascii :=
  if ((65 <=? code c) && (code c <=? 90))%N then byte (code c + 32) else c.

(** What the program uses of the Unicode tables beyond ASCII. *)
Class Unicode := {
  map_to_lower : string -> string;   (** [strings.Map(unicode.ToLower, s)] *)
  upper_table : N -> bool;           (** [unicode.IsUpper] above ASCII *)
  lower_table : N -> bool;
  digit_table : N -> bool
}.

(** Tables without any letter beyond ASCII, to evaluate examples with. *)
Definition ascii_unicode : Unicode :=
  Build_Unicode (fun s => s) (fun _ => false) (fun _ => false) (fun _ => false).

Definition ToLower `{Unicode} (s : string) : string :=
  if is_ascii s then string_of (map lower_byte (bytes_of s)) else map_to_lower s.

(** [strings.ReplaceAll] with a one-byte [old] and [new], its only use. *)
Definition ReplaceAll (s : string) (old new : ascii) : string :=
  string_of (map (fun c => if Ascii.eqb c old then new else c) (bytes_of s)).

(** [strings.Split] at a one-byte separator. *)
Fixpoint split_bytes (sep : ascii) (l acc : list ascii) : list (list ascii) :=
  match l with
  | [] => [rev acc]
  | c :: l => if Ascii.eqb c sep then rev acc :: split_bytes sep l []
              else split_bytes sep l (c :: acc)
  end.

Definition Split (s : string) (sep : ascii) : list string :=
  map string_of (split_bytes sep (bytes_of s) []).

(** [strings.SplitN(s, sep, 2)] at a one-byte separator. *)
Fixpoint cut_bytes (sep : ascii) (l acc : list ascii) : option (list ascii * list ascii) :=
  match l with
  | [] => None
  | c :: l => if Ascii.eqb c sep then Some (rev acc, l) else cut_bytes sep l (c :: acc)
  end.

Definition SplitN2 (s : string) (sep : ascii) : list string :=
  match cut_bytes sep (bytes_of s) [] with
  | Some (a, b) => [string_of a; string_of b]
  | None => [s]
  end.

Fixpoint Join (l : list string) (sep : string) : string :=
  match l with
  | [] => ""
  | [s] => s
  | s :: l => s +:+ sep +:+ Join l sep
  end.

(** [strings.EqualFold(s, t)] for a [t] of ASCII letters other than k and s
    (the two that non-ASCII runes fold to). *)
Definition EqualFold (s t : string) : bool :=
  bool_decide (map lower_byte (bytes_of s) = map lower_byte (bytes_of t)).

(** ** The rune loop [for _, r := range s] *)

Definition in_range (lo hi : N) (c : ascii) : bool := ((lo <=? code c) && (code c <=? hi))%N.
Definition low6 (c : ascii) : N := N.land (code c) 0x3F.
Definition RuneError : N := 0xFFFD.

(** One rune and the bytes after it; an invalid byte is [RuneError] of width 1. *)
Definition decode_rune (l : list ascii) : option (N * list ascii) :=
  match l with
  | [] => None
  | a :: r =>
    if (code a <? 0x80)%N then Some (code a, r)
    else
      let bad := Some (RuneError, r) in
      match r with
      | b :: r2 =>
        if in_range 0xC2 0xDF a then
          if in_range 0x80 0xBF b
          then Some (N.lor (N.shiftl (N.land (code a) 0x1F) 6) (low6 b), r2) else bad
        else
          let lo2 := if (code a =? 0xE0)%N then 0xA0%N
                     else if (code a =? 0xF0)%N then 0x90%N else 0x80%N in
          let hi2 := if (code a =? 0xED)%N then 0x9F%N
                     else if (code a =? 0xF4)%N then 0x8F%N else 0xBF%N in
          match r2 with
          | c :: r3 =>
            if in_range 0xE0 0xEF a then
              if in_range lo2 hi2 b && in_range 0x80 0xBF c
              then Some (N.lor (N.lor (N.shiftl (N.land (code a) 0x0F) 12)
                                      (N.shiftl (low6 b) 6)) (low6 c), r3) else bad
            else
              match r3 with
              | d :: r4 =>
                if in_range 0xF0 0xF4 a && in_range lo2 hi2 b
                   && in_range 0x80 0xBF c && in_range 0x80 0xBF d
                then Some (N.lor (N.lor (N.shiftl (N.land (code a) 0x07) 18)
                                        (N.shiftl (low6 b) 12))
                                 (N.lor (N.shiftl (low6 c) 6) (low6 d)), r4)
                else bad
              | [] => bad
              end
          | [] => bad
          end
      | [] => bad
      end
  end.

Fixpoint runes_fuel (fuel : nat) (l : list ascii) : list N :=
  match fuel with
  | O => []
  | S n => match decode_rune l with
           | Some (r, l') => r :: runes_fuel n l'
           | None => []
           end
  end.

(** Every rune takes at least one byte, so the length is enough fuel. *)
Definition runes (s : string) : list N := runes_fuel (String.length s) (bytes_of s).

Definition IsUpper `{Unicode} (r : N) : bool :=
  if (r <? 128)%N then ((65 <=? r) && (r <=? 90))%N else upper_table r.
Definition IsLower `{Unicode} (r : N) : bool :=
  if (r <? 128)%N then ((97 <=? r) && (r <=? 122))%N else lower_table r.
Definition IsDigit `{Unicode} (r : N) : bool :=
  if (r <? 128)%N then ((48 <=? r) && (r <=? 57))%N else digit_table r.

(** ** [strconv.FormatInt] and [strconv.ParseInt], base 10, 64 bits *)

Definition digit_byte (d : Z) : ascii := byte (Z.to_N (48 + d)).
Definition digit_value (c : ascii) : option Z :=
  if in_range 48 57 c then Some (Z.of_N (code c) - 48)%Z else None.

Fixpoint format_digits (fuel : nat) (n : Z) (acc : list ascii) : list ascii :=
  match fuel with
  | O => acc
  | S f => if (n <? 10)%Z then digit_byte n :: acc
           else format_digits f (n / 10)%Z (digit_byte (n mod 10) :: acc)
  end.

(** [10 ^ (1 + log2 n) > n]: the fuel covers every digit. *)
Definition format_nat (n : Z) : list ascii :=
  format_digits (S (Z.to_nat (Z.log2 n))) n [].

Definition FormatInt (z : Z) : string :=
  string_of (if (z <? 0)%Z then byte 45 :: format_nat (- z) else format_nat z).

Fixpoint parse_digits (l : list ascii) (acc : Z) : option Z :=
  match l with
  | [] => Some acc
  | c :: l => match digit_value c with
              | Some d => parse_digits l (10 * acc + d)%Z
              | None => None
              end
  end.

Definition ErrSyntax : error := ENew "invalid syntax".
Definition ErrRange : error := ENew "value out of range".

(** The value and the error: Go returns 0 on a syntax error and the nearest
    representable value on a range error. *)
Definition ParseInt (s : string) : Z * option error :=
  let '(neg, ds) :=
    match bytes_of s with
    | c :: r => if (code c =? 43)%N then (false, r)
                else if (code c =? 45)%N then (true, r) else (false, c :: r)
    | [] => (false, [])
    end in
  match ds with
  | [] => (0%Z, Some ErrSyntax)
  | _ =>
    match parse_digits ds 0 with
    | None => (0%Z, Some ErrSyntax)
    | Some n =>
      if neg then if (2 ^ 63 <? n)%Z then (- 2 ^ 63, Some ErrRange)%Z else (- n, None)%Z
      else if (2 ^ 63 <=? n)%Z then (2 ^ 63 - 1, Some ErrRange)%Z else (n, None)%Z
    end
  end.

(** ** Laws of [TrimSpace] *)

Section Trim.
Context (ps : list (list ascii)).

Lemma strip_prefix_spec p l r : strip_prefix p l = Some r <-> l = p ++ r.
Proof.
  revert l. induction p as [|a p IH]; intros l; simpl.
  - split; intros; by simplify_eq.
  - destruct l as [|b l]; [split; discriminate|].
    destruct (Ascii.eqb_spec a b) as [->|Hne]; [rewrite IH|]; split; intros;
      simplify_eq; done.
Qed.

Lemma strip_one_some l r : strip_one ps l = Some r -> exists p, p ∈ ps /\ l = p ++ r.
Proof.
  induction ps as [|p qs IH]; simpl; [done|].
  destruct (strip_prefix p l) as [r'|] eqn:E; intros H; simplify_eq.
  - apply strip_prefix_spec in E. exists p. split; [left|done].
  - destruct (IH H) as (q & Hq & ->). exists q. split; [by right|done].
Qed.

Lemma strip_one_none l : strip_one ps l = None <-> forall p r, p ∈ ps -> l <> p ++ r.
Proof.
  induction ps as [|p qs IH]; simpl.
  - split; [by intros _ p r ?%elem_of_nil|done].
  - destruct (strip_prefix p l) as [r'|] eqn:E.
    + apply strip_prefix_spec in E. split; [done|]. intros H. by destruct (H p r'); [left|].
    + rewrite IH. split.
      * intros H q r [->|Hq]%elem_of_cons Heq; [|by eapply H].
        apply strip_prefix_spec in Heq. congruence.
      * intros H q r Hq. apply H. by right.
Qed.

(** A prefix of a list that starts with no rune of [ps] starts with none. *)
Lemma strip_one_none_prefix l l' : strip_one ps (l ++ l') = None -> strip_one ps l = None.
Proof.
  rewrite !strip_one_none. intros H p r Hp ->. apply (H p (r ++ l') Hp). by rewrite app_assoc.
Qed.

Lemma trim_front_suffix fuel l : exists pre, l = pre ++ trim_front ps fuel l.
Proof.
  revert l. induction fuel as [|n IH]; intros l; simpl; [by exists []|].
  destruct (strip_one ps l) as [r|] eqn:E; [|by exists []].
  apply strip_one_some in E as (p & _ & ->). destruct (IH r) as [pre Hpre].
  exists (p ++ pre). rewrite <- app_assoc. by rewrite <- Hpre.
Qed.

Lemma trim_front_id fuel l : strip_one ps l = None -> trim_front ps fuel l = l.
Proof. intros H. destruct fuel; simpl; [done|]. by rewrite H. Qed.

Lemma trim_front_none fuel l :
  Forall (fun p => p <> []) ps -> (length l <= fuel)%nat ->
  strip_one ps (trim_front ps fuel l) = None.
Proof.
  intros Hne. revert l. induction fuel as [|n IH]; intros l Hl; simpl.
  - destruct l; [|simpl in Hl; lia]. apply strip_one_none.
    intros p r Hp Heq. rewrite Forall_forall in Hne. apply (Hne p Hp).
    by destruct p.
  - destruct (strip_one ps l) as [r|] eqn:E; [|done]. apply IH.
    apply strip_one_some in E as (p & Hp & ->).
    rewrite Forall_forall in Hne. specialize (Hne p Hp).
    rewrite length_app in Hl. destruct p; [done|]. simpl in Hl. lia.
Qed.
End Trim.

Lemma space_runes_nonempty : Forall (fun p => p <> []) space_runes.
Proof. apply Forall_forall. intros p Hp. vm_compute in Hp. intros ->.
  repeat (apply elem_of_cons in Hp as [Hp|Hp]; [discriminate|]). by apply elem_of_nil in Hp. Qed.

Lemma space_runes_rev_nonempty : Forall (fun p => p <> []) (map (@rev ascii) space_runes).
Proof. apply Forall_forall. intros p Hp. vm_compute in Hp. intros ->.
  repeat (apply elem_of_cons in Hp as [Hp|Hp]; [discriminate|]). by apply elem_of_nil in Hp. Qed.

(** No white space at either end. *)
Definition trimmed (l : list ascii) : Prop :=
  strip_one space_runes l = None /\ strip_one (map (@rev ascii) space_runes) (rev l) = None.

Lemma trim_bytes_id l : trimmed l -> trim_bytes l = l.
Proof.
  intros [H1 H2]. unfold trim_bytes. rewrite (trim_front_id _ _ l H1).
  rewrite (trim_front_id _ _ _ H2). apply rev_involutive.
Qed.

Lemma trim_bytes_trimmed l : trimmed (trim_bytes l).
Proof.
  unfold trim_bytes. set (a := trim_front space_runes _ l).
  split.
  - destruct (trim_front_suffix (map (@rev ascii) space_runes) (length a) (rev a)) as [pre Hpre].
    apply strip_one_none_prefix with (rev pre).
    rewrite <- rev_app_distr, <- Hpre, rev_involutive.
    apply trim_front_none; [apply space_runes_nonempty|done].
  - rewrite rev_involutive. apply trim_front_none.
    + apply space_runes_rev_nonempty.
    + by rewrite length_rev.
Qed.

Lemma TrimSpace_idem s : TrimSpace (TrimSpace s) = TrimSpace s.
Proof.
  unfold TrimSpace. rewrite bytes_of_string_of. f_equal.
  apply trim_bytes_id, trim_bytes_trimmed.
Qed.

(** ** [ParseInt] inverts [FormatInt] on [int64] *)

Lemma digit_value_byte d : (0 <= d < 10)%Z -> digit_value (digit_byte d) = Some d.
Proof.
  intros H.
  assert (Hd : (d = 0 \/ d = 1 \/ d = 2 \/ d = 3 \/ d = 4 \/ d = 5 \/ d = 6 \/ d = 7 \/
                d = 8 \/ d = 9)%Z) by lia.
  repeat (destruct Hd as [Hd|Hd]; [by subst|]); by subst.
Qed.

Lemma parse_format_digits fuel n acc :
  (0 <= n < 10 ^ Z.of_nat fuel)%Z ->
  parse_digits (format_digits fuel n acc) 0 = parse_digits acc n.
Proof.
  revert n acc. induction fuel as [|f IH]; intros n acc Hn.
  { simpl in Hn. by replace n with 0%Z by lia. }
  simpl. destruct (n <? 10)%Z eqn:E.
  - apply Z.ltb_lt in E. simpl. rewrite digit_value_byte by lia. f_equal; lia.
  - rewrite IH.
    + simpl. rewrite digit_value_byte by (apply Z.mod_pos_bound; lia).
      f_equal. rewrite <- (Z.div_mod n 10) by lia. done.
    + split; [apply Z.div_pos; lia|].
      apply Z.div_lt_upper_bound; [lia|].
      rewrite Nat2Z.inj_succ, Z.pow_succ_r in Hn by lia. lia.
Qed.

Lemma format_digits_hd fuel n acc :
  (0 <= n)%Z -> (0 < fuel)%nat ->
  exists d l, format_digits fuel n acc = digit_byte d :: l /\ (0 <= d < 10)%Z.
Proof.
  revert n acc. induction fuel as [|f IH]; intros n acc Hn Hf; [lia|]. simpl.
  destruct (n <? 10)%Z eqn:E.
  - apply Z.ltb_lt in E. exists n, acc. split; [done|lia].
  - apply Z.ltb_ge in E. destruct f as [|f].
    + exists (n mod 10)%Z, acc. split; [done|]. apply Z.mod_pos_bound. lia.
    + apply IH; [apply Z.div_pos; lia|lia].
Qed.

Lemma format_nat_fuel n : (0 <= n)%Z -> (n < 10 ^ Z.of_nat (S (Z.to_nat (Z.log2 n))))%Z.
Proof.
  intros Hn. rewrite Nat2Z.inj_succ, Z2Nat.id by apply Z.log2_nonneg.
  destruct (decide (n = 0)%Z) as [->|]; [by vm_compute|].
  destruct (Z.log2_spec n) as [_ H]; [lia|].
  eapply Z.lt_le_trans; [exact H|]. apply Z.pow_le_mono_l. lia.
Qed.

Lemma parse_format_nat n : (0 <= n)%Z -> parse_digits (format_nat n) 0 = Some n.
Proof.
  intros Hn. unfold format_nat. rewrite parse_format_digits; [done|].
  split; [done|]. by apply format_nat_fuel.
Qed.

Lemma digit_byte_not_sign d : (0 <= d < 10)%Z ->
  (code (digit_byte d) =? 43)%N = false /\ (code (digit_byte d) =? 45)%N = false.
Proof.
  intros H.
  assert (Hd : (d = 0 \/ d = 1 \/ d = 2 \/ d = 3 \/ d = 4 \/ d = 5 \/ d = 6 \/ d = 7 \/
                d = 8 \/ d = 9)%Z) by lia.
  repeat (destruct Hd as [Hd|Hd]; [by subst|]); by subst.
Qed.

Lemma ParseInt_FormatInt z : is_int64 z = true -> ParseInt (FormatInt z) = (z, None).
Proof.
  unfold is_int64, int64_min, int64_max. intros [H1 H2]%andb_true_iff.
  apply Z.leb_le in H1, H2. unfold ParseInt, FormatInt. rewrite bytes_of_string_of.
  destruct (z <? 0)%Z eqn:E.
  - apply Z.ltb_lt in E. change (code (byte 45)) with 45%N. simpl.
    destruct (format_digits_hd (S (Z.to_nat (Z.log2 (- z)))) (- z) []) as (d & l & Heq & Hd);
      [lia|lia|].
    assert (Hf : format_nat (- z) = digit_byte d :: l) by exact Heq.
    rewrite Hf, <- Hf, parse_format_nat by lia.
    destruct (2 ^ 63 <? - z)%Z eqn:E2; [apply Z.ltb_lt in E2; lia|]. f_equal. lia.
  - apply Z.ltb_ge in E.
    destruct (format_digits_hd (S (Z.to_nat (Z.log2 z))) z []) as (d & l & Heq & Hd); [lia|lia|].
    assert (Hf : format_nat z = digit_byte d :: l) by exact Heq.
    rewrite Hf. destruct (digit_byte_not_sign d Hd) as [-> ->].
    rewrite <- Hf, parse_format_nat by lia. simpl.
    destruct (2 ^ 63 <=? z)%Z eqn:E2; [apply Z.leb_le in E2; lia|done].
Qed.

(** ** ASCII strings *)

Lemma digit_byte_ascii d : (0 <= d < 10)%Z -> (code (digit_byte d) <? 128)%N = true.
Proof.
  intros Hd. assert (d = 0 \/ d = 1 \/ d = 2 \/ d = 3 \/ d = 4 \/ d = 5 \/ d = 6 \/ d = 7 \/ d = 8 \/ d = 9)%Z
    as Hc by lia. by decompose [or] Hc; subst.
Qed.

Lemma format_digits_ascii fuel n acc :
  (0 <= n)%Z -> Forall (fun c => (code c <? 128)%N = true) acc ->
  Forall (fun c => (code c <? 128)%N = true) (format_digits fuel n acc).
Proof.
  revert n acc. induction fuel as [|fuel IH]; intros n acc Hn Hacc; simpl; [done|].
  destruct (Z.ltb_spec n 10); [constructor; [by apply digit_byte_ascii|done]|].
  apply IH; [by apply Z.div_pos; lia|]. constructor; [|done].
  apply digit_byte_ascii, Z.mod_pos_bound. lia.
Qed.

(** Decimal numbers are ASCII text. *)
Lemma FormatInt_ascii z : is_ascii (FormatInt z) = true.
Proof.
  unfold is_ascii, FormatInt. rewrite bytes_of_string_of. apply forallb_forall. intros c Hc%list_elem_of_In.
  revert c Hc. apply Forall_forall. destruct (z <? 0)%Z eqn:Ez; [constructor; [done|]|];
    by apply format_digits_ascii; [lia|].
Qed.

Lemma lower_byte_idem c : lower_byte (lower_byte c) = lower_byte c.
Proof. by destruct c as [[] [] [] [] [] [] [] []]. Qed.

Lemma lower_byte_ascii c : (code c <? 128)%N = true -> (code (lower_byte c) <? 128)%N = true.
Proof. by destruct c as [[] [] [] [] [] [] [] []]. Qed.

Lemma ToLower_ascii `{Unicode} s :
  is_ascii s = true -> ToLower s = string_of (map lower_byte (bytes_of s)).
Proof. intros Hs. unfold ToLower. by rewrite Hs. Qed.

Lemma length_map_bytes (f : ascii -> ascii) s :
  String.length (string_of (map f (bytes_of s))) = String.length s.
Proof. induction s as [|c s IH]; simpl; [done|]. by rewrite IH. Qed.

(** On ASCII text the white space is six bytes, and "trimmed" is a condition on
    the first and the last byte. *)
Definition ascii_space (c : ascii) : bool := in_range 9 13 c || (code c =? 32)%N.

Definition ascii_bytes (l : list ascii) : Prop := Forall (fun c => (code c <? 128)%N = true) l.

Definition head_ok (l : list ascii) : Prop :=
  match l with [] => True | c :: _ => ascii_space c = false end.

Lemma strip_one_ascii c l :
  (code c <? 128)%N = true ->
  (strip_one space_runes (c :: l) = None <-> ascii_space c = false).
Proof. by destruct c as [[] [] [] [] [] [] [] []]. Qed.

Lemma strip_one_rev_ascii c l :
  (code c <? 128)%N = true ->
  (strip_one (map (@rev ascii) space_runes) (c :: l) = None <-> ascii_space c = false).
Proof. by destruct c as [[] [] [] [] [] [] [] []]. Qed.

Lemma trimmed_ascii l : ascii_bytes l -> (trimmed l <-> head_ok l /\ head_ok (rev l)).
Proof.
  intros Ha. unfold trimmed.
  assert (Hr : ascii_bytes (rev l)) by (by apply Forall_rev).
  f_equiv.
  - destruct Ha as [|c l Hc Ha]; [done|]. by apply strip_one_ascii.
  - destruct Hr as [|c r Hc Hr]; [done|]. by apply strip_one_rev_ascii.
Qed.

(** A byte map that creates no white space keeps ASCII text trimmed. *)
Lemma map_trimmed (f : ascii -> ascii) l :
  (forall c, (code c <? 128)%N = true -> (code (f c) <? 128)%N = true) ->
  (forall c, ascii_space c = false -> ascii_space (f c) = false) ->
  ascii_bytes l -> trimmed l -> trimmed (map f l).
Proof.
  intros Hf Hs Ha [H1 H2]%trimmed_ascii; [|done].
  assert (Hm : ascii_bytes (map f l)).
  { unfold ascii_bytes in *. rewrite Forall_map. by eapply Forall_impl. }
  apply trimmed_ascii; [done|]. rewrite <- map_rev. split.
  - destruct l; simpl in *; [done|]. by apply Hs.
  - destruct (rev l); simpl in *; [done|]. by apply Hs.
Qed.

Lemma trim_bytes_incl l : trim_bytes l ⊆ l.
Proof.
  unfold trim_bytes. set (a := trim_front space_runes _ l).
  destruct (trim_front_suffix space_runes (length l) l) as [p1 Hp1].
  destruct (trim_front_suffix (map (@rev ascii) space_runes) (length a) (rev a)) as [p2 Hp2].
  intros c Hc. rewrite Hp1. fold a. apply elem_of_app. right.
  apply list_elem_of_In, in_rev. rewrite Hp2. apply in_or_app. right.
  apply in_rev. by apply list_elem_of_In.
Qed.

Lemma trim_bytes_ascii l : ascii_bytes l -> ascii_bytes (trim_bytes l).
Proof.
  unfold ascii_bytes. rewrite !Forall_forall. intros H c Hc. apply H. by apply trim_bytes_incl.
Qed.

Lemma is_ascii_bytes s : is_ascii s = true <-> ascii_bytes (bytes_of s).
Proof. unfold is_ascii, ascii_bytes. by rewrite forallb_forall, List.Forall_forall. Qed.

Lemma lower_byte_space c : ascii_space c = false -> ascii_space (lower_byte c) = false.
Proof. by destruct c as [[] [] [] [] [] [] [] []]. Qed.

(** Lower-casing trimmed ASCII text gives text that both leave alone. *)
Lemma ToLower_TrimSpace_idem `{Unicode} s :
  is_ascii s = true ->
  let t := ToLower (TrimSpace s) in is_ascii t = true /\ ToLower (TrimSpace t) = t.
Proof.
  intros Hs%is_ascii_bytes t.
  assert (Ht : ascii_bytes (trim_bytes (bytes_of s))) by (by apply trim_bytes_ascii).
  assert (Ht' : is_ascii (TrimSpace s) = true).
  { apply is_ascii_bytes. unfold TrimSpace. by rewrite bytes_of_string_of. }
  assert (Hb : bytes_of t = map lower_byte (trim_bytes (bytes_of s))).
  { unfold t. rewrite ToLower_ascii, bytes_of_string_of by done.
    unfold TrimSpace. by rewrite bytes_of_string_of. }
  assert (Ha : is_ascii t = true).
  { apply is_ascii_bytes. rewrite Hb. unfold ascii_bytes in *. rewrite Forall_map.
    eapply Forall_impl; [done|apply lower_byte_ascii]. }
  assert (HT : TrimSpace t = t).
  { unfold TrimSpace. rewrite trim_bytes_id; [apply string_of_bytes_of|]. rewrite Hb.
    apply map_trimmed; [apply lower_byte_ascii|apply lower_byte_space|done|].
    apply trim_bytes_trimmed. }
  split; [done|]. rewrite HT, ToLower_ascii by done. apply bytes_of_inj.
  rewrite bytes_of_string_of, Hb, map_map. apply map_ext. intros c. apply lower_byte_idem.
Qed.
