(* ===== verification/Config.v ===== *)
(** * Configuration from the environment

    [internal/platform/config]: the process environment as a finite map, the
    readers of [config.go] and one loader per configuration file, composed by
    [MustLoad] in the order Go evaluates them. A required variable that is unset
    or empty ends the process ([Fatal]); [validate] may panic ([Panic]).
    [godotenv.Load] is a parameter: a function on the environment. *)

From Stdlib Require Import ZArith NArith String Ascii Lia.
From stdpp Require Import base strings list gmap.
From S2P Require Import Prelude GoStrings.

Local Open Scope Z_scope.

(** ** Loading *)

Abbreviation environ := (gmap string string).

(** How a start-up step ends: with a value, by [log.Fatalf] or by a panic. *)
Inductive exit (A : Type) :=
| Value (a : A)
| Fatal (message : string)
| Panic (message : string).
Arguments Value {A} a.
Arguments Fatal {A} message.
Arguments Panic {A} message.

Definition Load (A : Type) : Type := environ -> exit A.

Definition retL {A} (a : A) : Load A := fun _ => Value a.
Definition bindL {A B} (m : Load A) (k : A -> Load B) : Load B := fun env =>
  match m env with
  | Value a => k a env
  | Fatal message => Fatal message
  | Panic message => Panic message
  end.
Notation "'let%' x ':=' m 'in' k" := (bindL m (fun x => k))
  (at level 10, x binder, k at level 200) : go_scope.

(** [os.Getenv] *)
Definition Getenv (env : environ) (key : string) : string := default "" (env !! key).

Definition missing (key : string) : string := "missing required env: " +:+ key.

Definition mustGetEnv (key : string) : Load string := fun env =>
  let v := Getenv env key in
  if String.eqb v "" then Fatal (missing key) else Value v.

Definition getEnvAsInt (key : string) (def : Z) : Load Z := fun env =>
  let v := Getenv env key in
  Value (if negb (String.eqb v "")
         then match ParseInt v with (n, None) => n | (_, Some _) => def end
         else def).

(** [strconv.ParseBool] *)
Definition ParseBool (s : string) : option bool :=
  if existsb (String.eqb s) ["1"; "t"; "T"; "true"; "TRUE"; "True"] then Some true
  else if existsb (String.eqb s) ["0"; "f"; "F"; "false"; "FALSE"; "False"] then Some false
  else None.

Definition getEnvAsBool (key : string) (def : bool) : Load bool := fun env =>
  let v := Getenv env key in
  Value (if negb (String.eqb v "") then default def (ParseBool v) else def).

(** [time.Duration(n) * unit] and [int32(n)], which wrap. *)
Definition duration (n unit : Z) : Z := wrap64 (n * unit).
Definition wrap32 (z : Z) : Z := (z + 2 ^ 31) mod 2 ^ 32 - 2 ^ 31.

(** ** The parts of the configuration *)

Module DBConfig.
Record t := mk {
  Host : string; Port : string; Name : string; User : string; Password : string; SSLMode : string;
  MaxOpenConns : Z; MinIdleConns : Z; MaxConnLifetime : Z; MaxConnIdleTime : Z;
  HealthcheckPeriod : Z; MigrationDir : string
}.
End DBConfig.

Definition loadDBConfig : Load DBConfig.t :=
  let% Host := mustGetEnv "DB_HOST" in
  let% Port := mustGetEnv "DB_PORT" in
  let% Name := mustGetEnv "DB_NAME" in
  let% User := mustGetEnv "DB_USER" in
  let% Password := mustGetEnv "DB_PASSWORD" in
  let% SSLMode := mustGetEnv "DB_SSL_MODE" in
  let% maxOpen := getEnvAsInt "DB_MAX_OPEN_CONNS" 25 in
  let% minIdle := getEnvAsInt "DB_MIN_IDLE_CONNS" 5 in
  let% lifetime := getEnvAsInt "DB_CONN_MAX_LIFETIME_MINUTES" 30 in
  let% idleTime := getEnvAsInt "DB_CONN_MAX_IDLE_TIME_MINUTES" 10 in
  let% period := getEnvAsInt "DB_HEALTHCHECK_PERIOD_SECONDS" 30 in
  let% MigrationDir := mustGetEnv "DB_MIGRATION_DIR" in
  retL (DBConfig.mk Host Port Name User Password SSLMode (wrap32 maxOpen) (wrap32 minIdle)
          (duration lifetime Minute) (duration idleTime Minute) (duration period Second) MigrationDir).

Definition DSN (c : DBConfig.t) : string :=
  "postgres://" +:+ DBConfig.User c +:+ ":" +:+ DBConfig.Password c +:+ "@" +:+ DBConfig.Host c
  +:+ ":" +:+ DBConfig.Port c +:+ "/" +:+ DBConfig.Name c +:+ "?sslmode=" +:+ DBConfig.SSLMode c.

Module AppConfig.
Record t := mk {
  Env : string; Name : string; Port : string; Version : string; Debug : bool;
  GracefulShutdownTimeout : Z
}.
End AppConfig.

Definition loadAppConfig : Load AppConfig.t :=
  let% Env := mustGetEnv "APP_ENV" in
  let% Name := mustGetEnv "APP_NAME" in
  let% Port := mustGetEnv "APP_PORT" in
  let% Version := mustGetEnv "APP_VERSION" in
  let% Debug := getEnvAsBool "APP_DEBUG" false in
  let% timeout := getEnvAsInt "APP_GRACEFUL_SHUTDOWN_TIMEOUT_SECONDS" 10 in
  retL (AppConfig.mk Env Name Port Version Debug (duration timeout Second)).

(** [config.RedisConfig] and [config.KafkaConfig]; the packages [redis] and
    [kafka] have configuration types of their own. *)
Module ConfigRedis.
Record t := mk {
  Addr : string; Password : string; DB : Z; PoolSize : Z; MinIdleConns : Z; MaxRetries : Z;
  ReadTimeout : Z; WriteTimeout : Z; IdleTimeout : Z
}.
End ConfigRedis.

Definition loadRedisConfig : Load ConfigRedis.t :=
  let% host := mustGetEnv "REDIS_HOST" in
  let% port := mustGetEnv "REDIS_PORT" in
  let% Password := mustGetEnv "REDIS_PASSWORD" in
  let% DB := getEnvAsInt "REDIS_DB" 0 in
  let% MaxRetries := getEnvAsInt "REDIS_MAX_RETRIES" 3 in
  let% PoolSize := getEnvAsInt "REDIS_POOL_SIZE" 10 in
  let% MinIdleConns := getEnvAsInt "REDIS_MIN_IDLE_CONNS" 5 in
  let% read := getEnvAsInt "REDIS_READ_TIMEOUT_SECONDS" 5 in
  let% write := getEnvAsInt "REDIS_WRITE_TIMEOUT_SECONDS" 5 in
  let% idle := getEnvAsInt "REDIS_DIAL_TIMEOUT_SECONDS" 5 in
  retL (ConfigRedis.mk (host +:+ ":" +:+ port) Password DB PoolSize MinIdleConns MaxRetries
          (duration read Second) (duration write Second) (duration idle Second)).

Module ConfigKafka.
Record t := mk {
  Brokers : list string; ConsumerGroupID : string; ClientID : string; MaxRetry : Z;
  RetryBackoff : Z; ProducerTimeout : Z; ConsumerTimeout : Z; TopicPrefix : string
}.
End ConfigKafka.

Definition loadKafkaConfig : Load ConfigKafka.t :=
  let% brokers := mustGetEnv "KAFKA_BROKERS" in
  let% ConsumerGroupID := mustGetEnv "KAFKA_CONSUMER_GROUP_ID" in
  let% ClientID := mustGetEnv "KAFKA_CLIENT_ID" in
  let% MaxRetry := getEnvAsInt "KAFKA_MAX_RETRY" 3 in
  let% backoff := getEnvAsInt "KAFKA_RETRY_BACKOFF_MS" 500 in
  let% producer := getEnvAsInt "KAFKA_PRODUCER_TIMEOUT_MS" 5000 in
  let% consumer := getEnvAsInt "KAFKA_CONSUMER_TIMEOUT_MS" 10000 in
  let% TopicPrefix := mustGetEnv "KAFKA_TOPIC_PREFIX" in
  retL (ConfigKafka.mk (Split brokers ",") ConsumerGroupID ClientID MaxRetry
          (duration backoff Millisecond) (duration producer Millisecond)
          (duration consumer Millisecond) TopicPrefix).

Module MinioConfig.
Record t := mk {
  Endpoint : string; AccessKey : string; SecretKey : string; UseSSL : bool;
  PresignedUrlExpiry : Z; BucketAvatars : string; BucketBooks : string
}.
End MinioConfig.

Definition loadMinioConfig : Load MinioConfig.t :=
  let% Endpoint := mustGetEnv "MINIO_ENDPOINT" in
  let% AccessKey := mustGetEnv "MINIO_ACCESS_KEY" in
  let% SecretKey := mustGetEnv "MINIO_SECRET_KEY" in
  let% UseSSL := getEnvAsBool "MINIO_USE_SSL" false in
  let% expiry := getEnvAsInt "MINIO_PRESIGNED_URL_EXPIRY_MINUTES" 60 in
  let% BucketAvatars := mustGetEnv "MINIO_BUCKET_AVATARS" in
  let% BucketBooks := mustGetEnv "MINIO_BUCKET_BOOKS" in
  retL (MinioConfig.mk Endpoint AccessKey SecretKey UseSSL (duration expiry Minute) BucketAvatars
          BucketBooks).

Module JWTConfig.
Record t := mk {
  Secret : string; AccessTokenTTL : Z; RefreshTokenTTL : Z; Issuer : string; BcryptCost : Z
}.
End JWTConfig.

Definition loadJWTConfig : Load JWTConfig.t :=
  let% Secret := mustGetEnv "JWT_SECRET" in
  let% access := getEnvAsInt "JWT_ACCESS_TOKEN_TTL_MINUTES" 24 in
  let% refresh := getEnvAsInt "JWT_REFRESH_TOKEN_TTL_DAYS" 30 in
  let% Issuer := mustGetEnv "JWT_ISSUER" in
  let% BcryptCost := getEnvAsInt "BCRYPT_COST" 12 in
  retL (JWTConfig.mk Secret (duration access Hour) (wrap64 (duration refresh Hour * 24)) Issuer
          BcryptCost).

Module EmailConfig.
Record t := mk {
  Host : string; Port : Z; Username : string; Password : string; FromEmail : string;
  FromName : string; UseTLS : bool
}.
End EmailConfig.

Definition loadEmailConfig : Load EmailConfig.t :=
  let% Host := mustGetEnv "SMTP_HOST" in
  let% Port := getEnvAsInt "SMTP_PORT" 1025 in
  let% Username := mustGetEnv "SMTP_USER" in
  let% Password := mustGetEnv "SMTP_PASSWORD" in
  let% FromEmail := mustGetEnv "SMTP_FROM_EMAIL" in
  let% FromName := mustGetEnv "SMTP_FROM_NAME" in
  let% UseTLS := getEnvAsBool "SMTP_TLS" false in
  retL (EmailConfig.mk Host Port Username Password FromEmail FromName UseTLS).

Module VNPayConfig.
Record t := mk {
  TMNCode : string; HashSecret : string; PaymentURL : string; ReturnURL : string; NotifyURL : string
}.
End VNPayConfig.

Definition loadVNPayConfig : Load VNPayConfig.t :=
  let% TMNCode := mustGetEnv "VNPAY_TMN_CODE" in
  let% HashSecret := mustGetEnv "VNPAY_HASH_SECRET" in
  let% PaymentURL := mustGetEnv "VNPAY_PAYMENT_URL" in
  let% ReturnURL := mustGetEnv "VNPAY_RETURN_URL" in
  let% NotifyURL := mustGetEnv "VNPAY_NOTIFY_URL" in
  retL (VNPayConfig.mk TMNCode HashSecret PaymentURL ReturnURL NotifyURL).

Module AsynqConfig.
Record t := mk {
  RedisAddr : string; RedisDB : Z; RedisPass : string; Concurrency : Z; Queues : gmap string Z;
  AsynqMonitorPort : Z
}.
End AsynqConfig.

Definition loadAsynqConfig : Load AsynqConfig.t :=
  let% host := mustGetEnv "REDIS_HOST" in
  let% port := mustGetEnv "REDIS_PORT" in
  let% RedisDB := getEnvAsInt "REDIS_DB" 1 in
  let% RedisPass := mustGetEnv "REDIS_PASSWORD" in
  let% Concurrency := getEnvAsInt "ASYNQ_CONCURRENCY" 10 in
  let% normal := getEnvAsInt "ASYNQ_QUEUES_DEFAULT" 3 in
  let% critical := getEnvAsInt "ASYNQ_QUEUES_CRITICAL" 6 in
  let% AsynqMonitorPort := getEnvAsInt "ASYNQ_MONITOR_PORT" 8081 in
  retL (AsynqConfig.mk (host +:+ ":" +:+ port) RedisDB RedisPass Concurrency
          (<["default" := normal]> {["critical" := critical]}) AsynqMonitorPort).

Module RateLimitConfig.
Record t := mk { Enabled : bool; RequestPerMinute : Z; BurstSize : Z }.
End RateLimitConfig.

Definition loadRateLimitConfig : Load RateLimitConfig.t :=
  let% Enabled := getEnvAsBool "RATE_LIMIT_ENABLED" true in
  let% RequestPerMinute := getEnvAsInt "RATE_LIMIT_REQUESTS_PER_MINUTE" 100 in
  let% BurstSize := getEnvAsInt "RATE_LIMIT_BURST_SIZE" 20 in
  retL (RateLimitConfig.mk Enabled RequestPerMinute BurstSize).

Module CORSConfig.
Record t := mk {
  AllowedOrigins : list string; AllowedMethods : list string; AllowedHeaders : list string;
  AllowCredentials : bool; MaxAge : Z
}.
End CORSConfig.

(** The CORS configuration is fixed; no variable is read. *)
Definition loadCORSConfig : CORSConfig.t :=
  CORSConfig.mk ["http://localhost:3000"; "http://localhost:8080"]
    ["GET"; "POST"; "PUT"; "DELETE"; "OPTIONS"]
    ["Content-Type"; "Authorization"; "X-Request-ID"; "X-Idempotency-Key"] true (Hour * 24).

Module LoggerConfig.
Record t := mk { Level : string; Format : string; Output : string }.
End LoggerConfig.

Definition loadLoggerConfig : Load LoggerConfig.t :=
  let% Level := mustGetEnv "LOG_LEVEL" in
  let% Format := mustGetEnv "LOG_FORMAT" in
  let% Output := mustGetEnv "LOG_OUTPUT" in
  retL (LoggerConfig.mk Level Format Output).

(** ** The whole configuration *)

Module AppSettings.
Record t := mk {
  App : AppConfig.t; DB : DBConfig.t; Redis : ConfigRedis.t; Kafka : ConfigKafka.t;
  Minio : MinioConfig.t; JWT : JWTConfig.t; Email : EmailConfig.t; VNPay : VNPayConfig.t;
  Asynq : AsynqConfig.t; RateLimit : RateLimitConfig.t; CORS : CORSConfig.t;
  Logger : LoggerConfig.t
}.
End AppSettings.

Definition validate (c : AppSettings.t) : exit unit :=
  let db := AppSettings.DB c in
  if String.eqb (JWTConfig.Secret (AppSettings.JWT c)) "" then Panic "missing JWT secret"
  else if String.eqb (DBConfig.Host db) "" || String.eqb (DBConfig.Name db) ""
          || String.eqb (DBConfig.User db) "" then Panic "missing database config"
  else Value tt.

(** [godotenv_Load env] is the environment after [godotenv.Load], whose error
    is ignored. *)
Class Dotenv := { godotenv_Load : environ -> environ }.

Definition loadConfig : Load AppSettings.t :=
  let% db := loadDBConfig in
  let% app := loadAppConfig in
  let% redis := loadRedisConfig in
  let% kafka := loadKafkaConfig in
  let% minio := loadMinioConfig in
  let% jwt := loadJWTConfig in
  let% email := loadEmailConfig in
  let% vnpay := loadVNPayConfig in
  let% asynq := loadAsynqConfig in
  let% rate := loadRateLimitConfig in
  let% logger := loadLoggerConfig in
  let cfg := AppSettings.mk app db redis kafka minio jwt email vnpay asynq rate loadCORSConfig logger in
  let% _ := (fun _ => validate cfg) in
  retL cfg.

Definition MustLoad `{Dotenv} : Load AppSettings.t := fun env => loadConfig (godotenv_Load env).

(** ** Which variables are required *)

(** The required variables, in the order the process looks at them. *)
Definition required_keys : list string :=
  ["DB_HOST"; "DB_PORT"; "DB_NAME"; "DB_USER"; "DB_PASSWORD"; "DB_SSL_MODE"; "DB_MIGRATION_DIR";
   "APP_ENV"; "APP_NAME"; "APP_PORT"; "APP_VERSION";
   "REDIS_HOST"; "REDIS_PORT"; "REDIS_PASSWORD";
   "KAFKA_BROKERS"; "KAFKA_CONSUMER_GROUP_ID"; "KAFKA_CLIENT_ID"; "KAFKA_TOPIC_PREFIX";
   "MINIO_ENDPOINT"; "MINIO_ACCESS_KEY"; "MINIO_SECRET_KEY"; "MINIO_BUCKET_AVATARS"; "MINIO_BUCKET_BOOKS";
   "JWT_SECRET"; "JWT_ISSUER";
   "SMTP_HOST"; "SMTP_USER"; "SMTP_PASSWORD"; "SMTP_FROM_EMAIL"; "SMTP_FROM_NAME";
   "VNPAY_TMN_CODE"; "VNPAY_HASH_SECRET"; "VNPAY_PAYMENT_URL"; "VNPAY_RETURN_URL"; "VNPAY_NOTIFY_URL";
   "REDIS_HOST"; "REDIS_PORT"; "REDIS_PASSWORD";
   "LOG_LEVEL"; "LOG_FORMAT"; "LOG_OUTPUT"].

Definition unset (env : environ) (key : string) : bool := String.eqb (Getenv env key) "".

(** [Reads ks m env a]: in [env], [m] requires exactly [ks], in that order, and
    returns [a] when they are all set. *)
Definition Reads {A} (ks : list string) (m : Load A) (env : environ) (a : A) : Prop :=
  m env = match find (unset env) ks with Some k => Fatal (missing k) | None => Value a end.

Section Reads.
Context (env : environ).

Lemma reads_must key : Reads [key] (mustGetEnv key) env (Getenv env key).
Proof. unfold Reads, mustGetEnv. simpl. unfold unset. by destruct (String.eqb _ _). Qed.

Lemma reads_value {A} (m : Load A) a : m env = Value a -> Reads [] m env a.
Proof. done. Qed.

Lemma find_app {A} (f : A -> bool) l1 l2 :
  find f (l1 ++ l2) = match find f l1 with Some x => Some x | None => find f l2 end.
Proof. induction l1 as [|x l1 IH]; simpl; [done|]. by destruct (f x). Qed.

Lemma reads_bind {A B} ks1 ks2 (m : Load A) (k : A -> Load B) a b :
  Reads ks1 m env a -> (find (unset env) ks1 = None -> Reads ks2 (k a) env b) ->
  Reads (ks1 ++ ks2) (bindL m k) env b.
Proof.
  unfold Reads, bindL. intros -> Hk. rewrite find_app.
  destruct (find (unset env) ks1); [done|]. by apply Hk.
Qed.
End Reads.

(** One reader after the other; what is left are the pure steps. *)
Ltac reads :=
  lazymatch goal with
  | |- Reads _ (bindL _ _) _ _ => eapply reads_bind; [reads|intros _; cbv beta; reads]
  | |- Reads _ (mustGetEnv _) _ _ => apply reads_must
  | |- Reads _ _ _ _ => apply reads_value; reflexivity
  end.

Lemma set_of_find env ks key : find (unset env) ks = None -> key ∈ ks -> unset env key = false.
Proof. intros Hf Hk%list_elem_of_In. exact (find_none _ _ Hf _ Hk). Qed.

(** The database host, name and user and the token secret are required, so
    [validate] finds nothing to complain about. *)
(** A loader, by the list it requires. *)
Lemma reads_keys {A} ks ks' (m : Load A) env a : Reads ks m env a -> ks = ks' -> Reads ks' m env a.
Proof. by intros ? <-. Qed.

(** The keys of one loader, which returns whatever the variables say. *)
Ltac loader := eexists; eapply reads_keys; [reads|reflexivity].

Section Loaders.
Context (env : environ).

Lemma db_reads : exists c,
  Reads ["DB_HOST"; "DB_PORT"; "DB_NAME"; "DB_USER"; "DB_PASSWORD"; "DB_SSL_MODE"; "DB_MIGRATION_DIR"]
    loadDBConfig env c /\
  DBConfig.Host c = Getenv env "DB_HOST" /\ DBConfig.Name c = Getenv env "DB_NAME" /\
  DBConfig.User c = Getenv env "DB_USER".
Proof.
  eexists. split; [eapply reads_keys; [unfold loadDBConfig; reads|reflexivity]|]. by split_and!.
Qed.
Lemma app_reads : exists c,
  Reads ["APP_ENV"; "APP_NAME"; "APP_PORT"; "APP_VERSION"] loadAppConfig env c.
Proof. unfold loadAppConfig. loader. Qed.
Lemma redis_reads : exists c, Reads ["REDIS_HOST"; "REDIS_PORT"; "REDIS_PASSWORD"] loadRedisConfig env c.
Proof. unfold loadRedisConfig. loader. Qed.
Lemma kafka_reads : exists c,
  Reads ["KAFKA_BROKERS"; "KAFKA_CONSUMER_GROUP_ID"; "KAFKA_CLIENT_ID"; "KAFKA_TOPIC_PREFIX"]
    loadKafkaConfig env c /\
  ConfigKafka.Brokers c = Split (Getenv env "KAFKA_BROKERS") "," /\
  ConfigKafka.ConsumerGroupID c = Getenv env "KAFKA_CONSUMER_GROUP_ID" /\
  ConfigKafka.ClientID c = Getenv env "KAFKA_CLIENT_ID".
Proof.
  eexists. split; [eapply reads_keys; [unfold loadKafkaConfig; reads|reflexivity]|]. by split_and!.
Qed.
Lemma minio_reads : exists c,
  Reads ["MINIO_ENDPOINT"; "MINIO_ACCESS_KEY"; "MINIO_SECRET_KEY"; "MINIO_BUCKET_AVATARS";
         "MINIO_BUCKET_BOOKS"] loadMinioConfig env c.
Proof. unfold loadMinioConfig. loader. Qed.
Lemma jwt_reads : exists c,
  Reads ["JWT_SECRET"; "JWT_ISSUER"] loadJWTConfig env c /\
  JWTConfig.Secret c = Getenv env "JWT_SECRET".
Proof. eexists. split; [eapply reads_keys; [unfold loadJWTConfig; reads|reflexivity]|done]. Qed.
Lemma email_reads : exists c,
  Reads ["SMTP_HOST"; "SMTP_USER"; "SMTP_PASSWORD"; "SMTP_FROM_EMAIL"; "SMTP_FROM_NAME"]
    loadEmailConfig env c.
Proof. unfold loadEmailConfig. loader. Qed.
Lemma vnpay_reads : exists c,
  Reads ["VNPAY_TMN_CODE"; "VNPAY_HASH_SECRET"; "VNPAY_PAYMENT_URL"; "VNPAY_RETURN_URL";
         "VNPAY_NOTIFY_URL"] loadVNPayConfig env c.
Proof. unfold loadVNPayConfig. loader. Qed.
Lemma asynq_reads : exists c, Reads ["REDIS_HOST"; "REDIS_PORT"; "REDIS_PASSWORD"] loadAsynqConfig env c.
Proof. unfold loadAsynqConfig. loader. Qed.
Lemma rate_reads : exists c, Reads [] loadRateLimitConfig env c.
Proof. unfold loadRateLimitConfig. loader. Qed.
Lemma logger_reads : exists c, Reads ["LOG_LEVEL"; "LOG_FORMAT"; "LOG_OUTPUT"] loadLoggerConfig env c.
Proof. unfold loadLoggerConfig. loader. Qed.
End Loaders.

Lemma reads_set {A} ks (m : Load A) env a :
  Reads ks m env a -> find (unset env) ks = None -> m env = Value a.
Proof. by intros -> ->. Qed.

Lemma reads_value_inv {A} ks (m : Load A) env a b :
  Reads ks m env a -> m env = Value b -> a = b /\ find (unset env) ks = None.
Proof. unfold Reads. intros ->. destruct (find _ _); [done|]. by intros [= ->]. Qed.

Lemma find_none_sub env ks all :
  find (unset env) all = None -> forallb (fun k => existsb (String.eqb k) all) ks = true ->
  find (unset env) ks = None.
Proof.
  intros Hf Hs. destruct (find (unset env) ks) as [k|] eqn:Hk; [|done].
  apply find_some in Hk as [Hk Hn]. rewrite forallb_forall in Hs.
  apply Hs, existsb_exists in Hk as (k' & Hk' & <-%String.eqb_eq).
  by rewrite (find_none _ _ Hf k Hk') in Hn.
Qed.

(** [validate] accepts settings whose four fields come from required variables. *)
Lemma validate_set env cfg dbks jwtks :
  find (unset env) dbks = None -> find (unset env) jwtks = None ->
  "DB_HOST" ∈ dbks -> "DB_NAME" ∈ dbks -> "DB_USER" ∈ dbks -> "JWT_SECRET" ∈ jwtks ->
  DBConfig.Host (AppSettings.DB cfg) = Getenv env "DB_HOST" ->
  DBConfig.Name (AppSettings.DB cfg) = Getenv env "DB_NAME" ->
  DBConfig.User (AppSettings.DB cfg) = Getenv env "DB_USER" ->
  JWTConfig.Secret (AppSettings.JWT cfg) = Getenv env "JWT_SECRET" ->
  validate cfg = Value tt.
Proof.
  intros H1 H2 Hh Hn Hu Hs E1 E2 E3 E4. unfold validate. rewrite E1, E2, E3, E4.
  apply (set_of_find _ _ _ H2) in Hs. apply (set_of_find _ _ _ H1) in Hh, Hn, Hu.
  unfold unset in *. by rewrite Hs, Hh, Hn, Hu.
Qed.

(** What the settings are, when every required variable is set: each part is what
    its loader returns. *)
Record loaded (env : environ) (cfg : AppSettings.t) : Prop := {
  loaded_db : loadDBConfig env = Value (AppSettings.DB cfg);
  loaded_app : loadAppConfig env = Value (AppSettings.App cfg);
  loaded_redis : loadRedisConfig env = Value (AppSettings.Redis cfg);
  loaded_kafka : loadKafkaConfig env = Value (AppSettings.Kafka cfg);
  loaded_minio : loadMinioConfig env = Value (AppSettings.Minio cfg);
  loaded_jwt : loadJWTConfig env = Value (AppSettings.JWT cfg);
  loaded_email : loadEmailConfig env = Value (AppSettings.Email cfg);
  loaded_vnpay : loadVNPayConfig env = Value (AppSettings.VNPay cfg);
  loaded_asynq : loadAsynqConfig env = Value (AppSettings.Asynq cfg);
  loaded_rate : loadRateLimitConfig env = Value (AppSettings.RateLimit cfg);
  loaded_logger : loadLoggerConfig env = Value (AppSettings.Logger cfg);
  loaded_cors : AppSettings.CORS cfg = loadCORSConfig
}.

Lemma loadConfig_reads env :
  exists cfg, Reads required_keys loadConfig env cfg /\
    (find (unset env) required_keys = None -> loaded env cfg).
Proof.
  destruct (db_reads env) as (db & Hdb & Hh & Hn & Hu), (app_reads env) as (app & Happ),
    (redis_reads env) as (redis & Hredis), (kafka_reads env) as (kafka & Hkafka & _),
    (minio_reads env) as (minio & Hminio), (jwt_reads env) as (jwt & Hjwt & Hs),
    (email_reads env) as (email & Hemail), (vnpay_reads env) as (vnpay & Hvnpay),
    (asynq_reads env) as (asynq & Hasynq), (rate_reads env) as (rate & Hrate),
    (logger_reads env) as (logger & Hlogger).
  exists (AppSettings.mk app db redis kafka minio jwt email vnpay asynq rate loadCORSConfig logger). split.
  - eapply reads_keys; [unfold loadConfig|].
    { eapply reads_bind; [exact Hdb|intros Kdb]. eapply reads_bind; [exact Happ|intros _].
    eapply reads_bind; [exact Hredis|intros _]. eapply reads_bind; [exact Hkafka|intros _].
    eapply reads_bind; [exact Hminio|intros _]. eapply reads_bind; [exact Hjwt|intros Kjwt].
    eapply reads_bind; [exact Hemail|intros _]. eapply reads_bind; [exact Hvnpay|intros _].
    eapply reads_bind; [exact Hasynq|intros _]. eapply reads_bind; [exact Hrate|intros _].
    eapply reads_bind; [exact Hlogger|intros _].
    eapply reads_bind; [|intros _; by apply reads_value].
    apply reads_value. eapply validate_set; [exact Kdb|exact Kjwt|..]; try done; set_solver. }
    reflexivity.
  - intros Hf. pose proof (fun ks => find_none_sub env ks required_keys Hf) as Hsub.
    split; try done; (eapply reads_set; [eassumption|by apply Hsub]).
Qed.

(** The process starts exactly when every required variable is set and not
    empty, after the .env file was taken into account. Otherwise it ends with the
    first missing one in the order of the loaders, and [validate] never panics.
    When it starts, each part of the settings is what its loader returns. *)
Theorem MustLoad_spec `{Dotenv} env :
  let e := godotenv_Load env in
  match find (unset e) required_keys with
  | Some key => MustLoad env = Fatal (missing key)
  | None => exists cfg, MustLoad env = Value cfg /\ loaded e cfg
  end.
Proof.
  intros e. destruct (loadConfig_reads e) as (cfg & Hr & Hl). unfold Reads in Hr.
  unfold MustLoad. fold e. destruct (find (unset e) required_keys); [done|]. eauto.
Qed.

(** ** Lifetimes of tokens *)

Lemma loadJWTConfig_inv env c :
  loadJWTConfig env = Value c -> exists access refresh,
    getEnvAsInt "JWT_ACCESS_TOKEN_TTL_MINUTES" 24 env = Value access /\
    getEnvAsInt "JWT_REFRESH_TOKEN_TTL_DAYS" 30 env = Value refresh /\
    JWTConfig.AccessTokenTTL c = wrap64 (access * Hour) /\
    JWTConfig.RefreshTokenTTL c = wrap64 (wrap64 (refresh * Hour) * 24).
Proof.
  unfold loadJWTConfig, bindL. destruct (mustGetEnv "JWT_SECRET" env); try done.
  cbn [getEnvAsInt]. destruct (mustGetEnv "JWT_ISSUER" env); try done.
  intros [= <-]. do 2 eexists. by repeat split.
Qed.

(** The number of [JWT_ACCESS_TOKEN_TTL_MINUTES] is a number of hours, and
    the access lifetime is that many hours exactly up to 2562047 in either
    direction; the refresh lifetime is the given number of days exactly up to
    106751 days. Outside these bounds the 64-bit nanosecond count wraps. *)
Theorem token_lifetimes env c access refresh :
  loadJWTConfig env = Value c ->
  getEnvAsInt "JWT_ACCESS_TOKEN_TTL_MINUTES" 24 env = Value access ->
  getEnvAsInt "JWT_REFRESH_TOKEN_TTL_DAYS" 30 env = Value refresh ->
  (JWTConfig.AccessTokenTTL c = access * Hour <-> Z.abs access <= 2562047) /\
  (JWTConfig.RefreshTokenTTL c = refresh * (24 * Hour) <-> Z.abs refresh <= 106751).
Proof.
  intros Hl Ha Hr. apply loadJWTConfig_inv in Hl as (a & r & Ha' & Hr' & -> & ->).
  rewrite Ha in Ha'. rewrite Hr in Hr'. injection Ha' as <-. injection Hr' as <-.
  rewrite wrap64_exact. unfold is_int64, int64_min, int64_max. rewrite andb_true_iff, !Z.leb_le.
  change Hour with 3600000000000. split; [split; lia|]. split.
  - intros H. assert (Hw : is_int64 (refresh * (24 * 3600000000000)) = true).
    { rewrite <- H. apply wrap64_int64. }
    unfold is_int64, int64_min, int64_max in Hw. rewrite andb_true_iff, !Z.leb_le in Hw. lia.
  - intros H. rewrite (wrap64_id (refresh * _)), wrap64_id; unfold is_int64, int64_min, int64_max;
      rewrite ?andb_true_iff, ?Z.leb_le; lia.
Qed.

(** ** The connection string *)

(** Text without any of the given characters. *)
Definition free_of (seps : list ascii) (s : string) : bool :=
  forallb (fun c => negb (existsb (Ascii.eqb c) seps)) (bytes_of s).

Lemma sep_inj sep (s1 s2 t1 t2 : string) :
  free_of [sep] s1 = true -> free_of [sep] s2 = true ->
  s1 +:+ String sep t1 = s2 +:+ String sep t2 -> s1 = s2 /\ t1 = t2.
Proof.
  unfold free_of. revert s2. induction s1 as [|c s1 IH]; intros [|d s2]; simpl.
  - intros _ _ [= ?]. done.
  - intros _ [Hd _]%andb_true_iff [= <- _]. by rewrite Ascii.eqb_refl in Hd.
  - intros [Hc _]%andb_true_iff _ [= -> _]. by rewrite Ascii.eqb_refl in Hc.
  - intros [_ H1]%andb_true_iff [_ H2]%andb_true_iff [= -> Heq].
    by destruct (IH s2 H1 H2 Heq) as [-> ->].
Qed.

(** The separators the parts of a connection string must not contain, because
    nothing escapes them. *)
Definition dsn_clean (c : DBConfig.t) : bool :=
  free_of [":"%char] (DBConfig.User c) && free_of ["@"%char] (DBConfig.Password c)
  && free_of [":"%char] (DBConfig.Host c) && free_of ["/"%char] (DBConfig.Port c)
  && free_of ["?"%char] (DBConfig.Name c).

(** A connection string determines the account, the server and the database,
    when the parts do not contain the separators; [DSN] does not escape them. *)
Theorem DSN_inj c1 c2 :
  dsn_clean c1 = true -> dsn_clean c2 = true -> DSN c1 = DSN c2 ->
  DBConfig.User c1 = DBConfig.User c2 /\ DBConfig.Password c1 = DBConfig.Password c2 /\
  DBConfig.Host c1 = DBConfig.Host c2 /\ DBConfig.Port c1 = DBConfig.Port c2 /\
  DBConfig.Name c1 = DBConfig.Name c2 /\ DBConfig.SSLMode c1 = DBConfig.SSLMode c2.
Proof.
  unfold dsn_clean. rewrite !andb_true_iff. intros [[[[U1 P1] H1] O1] N1] [[[[U2 P2] H2] O2] N2] E.
  unfold DSN in E. simpl in E. injection E as E.
  apply (sep_inj ":") in E as [EU E]; [|done..]. apply (sep_inj "@") in E as [EP E]; [|done..].
  apply (sep_inj ":") in E as [EH E]; [|done..]. apply (sep_inj "/") in E as [EO E]; [|done..].
  apply (sep_inj "?") in E as [EN E]; [|done..]. injection E as ES. by split_and!.
Qed.

(** ** The template [.env.dev] *)

Module ConfigDemo.
(** The required variables as the template sets them. *)
Definition env_dev : environ := list_to_map
  [("APP_ENV", "development"); ("APP_NAME", "bookstore-backend"); ("APP_PORT", "8080");
   ("APP_VERSION", "0.0.1"); ("DB_HOST", "localhost"); ("DB_PORT", "5432"); ("DB_NAME", "bookstore");
   ("DB_USER", "bookstore_user"); ("DB_PASSWORD", "bookstore_pass"); ("DB_SSL_MODE", "disable");
   ("DB_MIGRATION_DIR", "./migrations"); ("REDIS_HOST", "localhost"); ("REDIS_PORT", "6379");
   ("REDIS_PASSWORD", ""); ("KAFKA_BROKERS", "localhost:9092");
   ("KAFKA_CONSUMER_GROUP_ID", "bookstore-consumer-group"); ("KAFKA_CLIENT_ID", "bookstore-backend");
   ("KAFKA_TOPIC_PREFIX", "bookstore."); ("JWT_SECRET", "super-secret-jwt-key-change-in-production");
   ("JWT_ACCESS_TOKEN_TTL_MINUTES", "120"); ("JWT_REFRESH_TOKEN_TTL_DAYS", "30");
   ("JWT_ISSUER", "bookstore-backend"); ("BCRYPT_COST", "12"); ("MINIO_ENDPOINT", "localhost:9000");
   ("MINIO_ACCESS_KEY", "minioadmin"); ("MINIO_SECRET_KEY", "minioadmin");
   ("MINIO_BUCKET_BOOKS", "book-assets"); ("MINIO_BUCKET_AVATARS", "user-avatars");
   ("VNPAY_TMN_CODE", "LE15TNDE"); ("VNPAY_HASH_SECRET", "88N84FFGKJ63OG95FACWCPQJF5G73ZFU");
   ("VNPAY_PAYMENT_URL", "https://sandbox.vnpayment.vn/paymentv2");
   ("VNPAY_RETURN_URL", "http://localhost:3000/checkout/success");
   ("VNPAY_NOTIFY_URL", "https://bookstore-vnpay.loca.lt/api/v1/webhooks/vnpay");
   ("SMTP_HOST", "localhost"); ("SMTP_USER", "mail_user"); ("SMTP_PASSWORD", "mail_password");
   ("SMTP_FROM_EMAIL", "noreply@bookstore.local"); ("SMTP_FROM_NAME", "Bookstore");
   ("LOG_LEVEL", "debug"); ("LOG_FORMAT", "json"); ("LOG_OUTPUT", "stdout")].

(** A file with these lines: set variables keep their values. *)
Definition dotenv_file (file : environ) : Dotenv := {| godotenv_Load env := env ∪ file |}.

(** The template as it stands does not start the process, since an empty
    password counts as missing; with a password it does. *)
Theorem env_dev_refused :
  MustLoad (H := dotenv_file env_dev) ∅ = Fatal "missing required env: REDIS_PASSWORD" /\
  exists cfg, MustLoad (H := dotenv_file env_dev) {["REDIS_PASSWORD" := "secret"]} = Value cfg /\
    JWTConfig.AccessTokenTTL (AppSettings.JWT cfg) = 120 * Hour.
Proof. split; [by vm_compute|]. eexists. split; by vm_compute. Qed.

Lemma token_lifetimes_witness :
  exists c, loadJWTConfig env_dev = Value c /\ JWTConfig.AccessTokenTTL c = 120 * Hour /\
    JWTConfig.RefreshTokenTTL c = 30 * (24 * Hour).
Proof.
  assert (Hl : exists c, loadJWTConfig env_dev = Value c) by (eexists; by vm_compute).
  destruct Hl as [c Hl]. exists c. split; [exact Hl|].
  destruct (token_lifetimes env_dev c 120 30 Hl ltac:(by vm_compute) ltac:(by vm_compute)) as [Ha Hr].
  split; [by apply Ha|by apply Hr].
Defined.
End ConfigDemo.
