(* ===== verification/Crypto.v ===== *)
(** * Hashes and random tokens

    [internal/platform/cryptoutil/token.go] and the hash helpers of
    [internal/platform/idempotency/key.go] and [internal/platform/redis/keys.go]:
    SHA-256 (FIPS 180-4) on bytes, lower-case hexadecimal, and
    [GenerateSecureToken] over the class [Rand] of the operating system's
    random source. *)

From Stdlib Require Import ZArith NArith String Ascii Lia.
From stdpp Require Import base strings list.
From S2P Require Import Prelude GoStrings.

(** ** [crypto/sha256] *)

Module Sha256.

Local Open Scope Z_scope.

Definition mask32 : Z := 0xFFFFFFFF.
Definition add32 (a b : Z) : Z := Z.land (a + b) mask32.
Definition rotr (n x : Z) : Z :=
  Z.land (Z.lor (Z.shiftr x n) (Z.shiftl x (32 - n))) mask32.
Definition not32 (x : Z) : Z := Z.lxor x mask32.

Definition Ch (x y z : Z) : Z := Z.lxor (Z.land x y) (Z.land (not32 x) z).
Definition Maj (x y z : Z) : Z :=
  Z.lxor (Z.lxor (Z.land x y) (Z.land x z)) (Z.land y z).
Definition Sigma0 (x : Z) : Z := Z.lxor (Z.lxor (rotr 2 x) (rotr 13 x)) (rotr 22 x).
Definition Sigma1 (x : Z) : Z := Z.lxor (Z.lxor (rotr 6 x) (rotr 11 x)) (rotr 25 x).
Definition sigma0 (x : Z) : Z := Z.lxor (Z.lxor (rotr 7 x) (rotr 18 x)) (Z.shiftr x 3).
Definition sigma1 (x : Z) : Z := Z.lxor (Z.lxor (rotr 17 x) (rotr 19 x)) (Z.shiftr x 10).

(** The round constants: the first 32 bits of the fractional parts of the cube
    roots of the first 64 primes. *)
Definition is_prime (p : nat) : bool :=
  forallb (fun d => negb (Nat.eqb (Nat.modulo p d) 0)) (seq 2 (p - 2)).
Definition primes : list Z := map Z.of_nat (List.filter is_prime (seq 2 310)).

(** Greatest [r] below [2 ^ n] with [r * r * r <= x], bit by bit. *)
Fixpoint cube_root (n : nat) (r x : Z) : Z :=
  match n with
  | O => r
  | S n => let r' := r + Z.shiftl 1 (Z.of_nat n) in
           cube_root n (if r' * r' * r' <=? x then r' else r) x
  end.
Definition K : list Z :=
  Eval vm_compute in map (fun p => Z.land (cube_root 40 0 (Z.shiftl p 96)) mask32) primes.

(** The eight 32-bit words of the chaining value. *)
Record digest := Digest { h0 : Z; h1 : Z; h2 : Z; h3 : Z; h4 : Z; h5 : Z; h6 : Z; h7 : Z }.

Definition init : digest :=
  Digest 0x6a09e667 0xbb67ae85 0x3c6ef372 0xa54ff53a 0x510e527f 0x9b05688c 0x1f83d9ab 0x5be0cd19.

(** The message schedule, newest word first. *)
Fixpoint schedule (n : nat) (ws : list Z) : list Z :=
  match n with
  | O => ws
  | S n =>
    let w i := nth i ws 0 in
    schedule n (add32 (add32 (sigma1 (w 1%nat)) (w 6%nat))
                      (add32 (sigma0 (w 14%nat)) (w 15%nat)) :: ws)
  end.

Definition round (d : digest) (kw : Z * Z) : digest :=
  let '(Digest a b c dd e f g h) := d in
  let t1 := add32 (add32 (add32 h (Sigma1 e)) (Ch e f g)) (add32 (fst kw) (snd kw)) in
  let t2 := add32 (Sigma0 a) (Maj a b c) in
  Digest (add32 t1 t2) a b c (add32 dd t1) e f g.

Definition add_digest (x y : digest) : digest :=
  Digest (add32 (h0 x) (h0 y)) (add32 (h1 x) (h1 y)) (add32 (h2 x) (h2 y)) (add32 (h3 x) (h3 y))
         (add32 (h4 x) (h4 y)) (add32 (h5 x) (h5 y)) (add32 (h6 x) (h6 y)) (add32 (h7 x) (h7 y)).

Definition compress (d : digest) (block : list Z) : digest :=
  add_digest d (fold_left round (combine K (rev (schedule 48 (rev block)))) d).

(** Big-endian words of a byte list. *)
Fixpoint words (n : nat) (l : list Z) : list Z :=
  match n with
  | O => []
  | S n => match l with
           | a :: b :: c :: d :: l =>
               Z.lor (Z.lor (Z.shiftl a 24) (Z.shiftl b 16)) (Z.lor (Z.shiftl c 8) d) :: words n l
           | _ => []
           end
  end.

Definition be_bytes (n : nat) (x : Z) : list Z :=
  map (fun i => Z.land (Z.shiftr x (8 * Z.of_nat i)) 255) (rev (seq 0 n)).

Definition pad (l : list Z) : list Z :=
  let n := Z.of_nat (length l) in
  l ++ [0x80] ++ repeat 0 (Z.to_nat ((55 - n) mod 64)) ++ be_bytes 8 (8 * n).

Fixpoint blocks (fuel : nat) (d : digest) (l : list Z) : digest :=
  match fuel with
  | O => d
  | S n => match l with
           | [] => d
           | _ => blocks n (compress d (words 16 (firstn 64 l))) (skipn 64 l)
           end
  end.

(** A padded message of [n] bytes has [n / 64] blocks, so [n] is enough fuel. *)
Definition sum (l : list Z) : list Z :=
  let p := pad l in
  let '(Digest a b c d e f g h) := blocks (length p) init p in
  flat_map (be_bytes 4) [a; b; c; d; e; f; g; h].

End Sha256.

(** ** [encoding/hex] *)

Definition hex_digit (n : N) : ascii := byte (if (n <? 10)%N then 48 + n else 87 + n).

(** [hex.EncodeToString] *)
Definition EncodeToString (l : list N) : string :=
  string_of (flat_map (fun b => [hex_digit (N.shiftr b 4); hex_digit (N.land b 15)]) l).

(** [sha256.Sum256] of a string, as hexadecimal text. *)
Definition sha256_hex (s : string) : string :=
  EncodeToString (map Z.to_N (Sha256.sum (map (fun c => Z.of_N (code c)) (bytes_of s)))).

(** [cryptoutil.HashToken] *)
Definition HashToken (raw : string) : string := sha256_hex raw.

(** [idempotency.HashBytes] *)
Definition HashBytes (b : string) : string := sha256_hex b.

(** [redis.Hash] *)
Definition Hash (s : string) : string := sha256_hex s.

(** ** [crypto/rand]

    The [n]-th read of 32 bytes: the bytes, or an error of the source. *)
Class Rand := {
  rand_Read : nat -> result (list N)
}.

(** Documented behaviour: a read that reports no error fills the buffer, and
    distinct reads are distinct (up to the collision probability of 256 bits). *)
Class RandLaws `{Rand} : Prop := {
  rand_full : forall n l, rand_Read n = Ok l -> length l = 32%nat /\ Forall (fun b => b < 256)%N l;
  rand_fresh : forall n m l, rand_Read n = Ok l -> rand_Read m = Ok l -> n = m
}.

(** [cryptoutil.GenerateSecureToken]; the state counts the reads of the source. *)
Definition GenerateSecureToken `{Rand} (n : nat) : result string :=
  match rand_Read n with
  | Err e => Err (EWrap "rand.Read: " e "")
  | Ok b => Ok (EncodeToString b)
  end.

(** ** Test vectors of FIPS 180-4 *)

Example sha256_empty :
  sha256_hex "" = "e3b0c44298fc1c149afbf4c8996fb92427ae41e4649b934ca495991b7852b855".
Proof. vm_compute. reflexivity. Qed.

Example sha256_abc :
  sha256_hex "abc" = "ba7816bf8f01cfea414140de5dae2223b00361a396177a9cb410ff61f20015ad".
Proof. vm_compute. reflexivity. Qed.

Example sha256_two_blocks :
  sha256_hex "abcdbcdecdefdefgefghfghighijhijkijkljklmklmnlmnomnopnopq"
  = "248d6a61d20638b8e5c026930c3e6039a33ce45964ff2167f6ecedd419db06c1".
Proof. vm_compute. reflexivity. Qed.

(** ** Shape of the tokens *)

Lemma EncodeToString_length l : String.length (EncodeToString l) = (2 * length l)%nat.
Proof.
  unfold EncodeToString. induction l as [|b l IH]; [done|]. simpl. rewrite IH. lia.
Qed.

Lemma be_bytes_length n x : length (Sha256.be_bytes n x) = n.
Proof. unfold Sha256.be_bytes. by rewrite length_map, length_rev, length_seq. Qed.

Lemma be_words_length l : length (flat_map (Sha256.be_bytes 4) l) = (4 * length l)%nat.
Proof.
  induction l as [|w l IH]; [done|]. cbn [flat_map]. rewrite length_app, be_bytes_length, IH.
  simpl. lia.
Qed.

Lemma HashToken_length raw : String.length (HashToken raw) = 64%nat.
Proof.
  unfold HashToken, sha256_hex. rewrite EncodeToString_length, length_map.
  unfold Sha256.sum. destruct (Sha256.blocks _ _ _). by rewrite be_words_length.
Qed.

Lemma hex_digit_code n : (n < 16)%N -> code (hex_digit n) = (if n <? 10 then 48 + n else 87 + n)%N.
Proof.
  intros Hn. unfold hex_digit, code, byte.
  apply N_ascii_embedding. destruct (N.ltb_spec n 10); lia.
Qed.

Lemma hex_digit_inj a b : (a < 16)%N -> (b < 16)%N -> hex_digit a = hex_digit b -> a = b.
Proof.
  intros Ha Hb H. apply (f_equal code) in H. rewrite !hex_digit_code in H by done.
  destruct (N.ltb_spec a 10), (N.ltb_spec b 10); lia.
Qed.

Lemma EncodeToString_inj l1 l2 :
  Forall (fun b => b < 256)%N l1 -> Forall (fun b => b < 256)%N l2 ->
  EncodeToString l1 = EncodeToString l2 -> l1 = l2.
Proof.
  unfold EncodeToString. intros H1 H2 H%(f_equal bytes_of). rewrite !bytes_of_string_of in H.
  revert l2 H2 H. induction H1 as [|a l1 Ha H1 IH]; intros [|b l2] H2 H; [done|done|done|].
  inversion H2; subst. simpl in H. injection H as Hh Hl Hr.
  assert (Hs : forall x, (x < 256)%N -> (N.shiftr x 4 < 16)%N).
  { intros x Hx. rewrite N.shiftr_div_pow2. apply N.Div0.div_lt_upper_bound. lia. }
  assert (Hm : forall x, N.land x 15 = (x mod 16)%N).
  { intros x. change 15%N with (N.ones 4). by rewrite N.land_ones. }
  apply hex_digit_inj in Hh; [|by apply Hs|by apply Hs].
  apply hex_digit_inj in Hl; [|rewrite Hm; apply N.mod_lt; lia|rewrite Hm; apply N.mod_lt; lia].
  rewrite !Hm in Hl. rewrite !N.shiftr_div_pow2 in Hh. change (2 ^ 4)%N with 16%N in Hh.
  f_equal; [|by apply IH].
  rewrite (N.div_mod' a 16), (N.div_mod' b 16). congruence.
Qed.

(** A secure token is 64 characters, and two reads give two tokens. *)
Lemma GenerateSecureToken_length `{RandLaws} n t :
  GenerateSecureToken n = Ok t -> String.length t = 64%nat.
Proof.
  unfold GenerateSecureToken. destruct (rand_Read n) as [l|] eqn:E; intros Heq; simplify_eq.
  apply rand_full in E as [E _]. by rewrite EncodeToString_length, E.
Qed.

Lemma GenerateSecureToken_fresh `{RandLaws} n m t :
  GenerateSecureToken n = Ok t -> GenerateSecureToken m = Ok t -> n = m.
Proof.
  unfold GenerateSecureToken.
  destruct (rand_Read n) as [l1|] eqn:E1; intros H1; simplify_eq.
  destruct (rand_Read m) as [l2|] eqn:E2; intros H2; simplify_eq.
  destruct (rand_full _ _ E1) as [_ F1], (rand_full _ _ E2) as [_ F2].
  apply EncodeToString_inj in H2; [|done|done]. subst. by eapply rand_fresh.
Qed.

(** Hash text is ASCII. *)
Lemma hex_digit_ascii n : (n < 16)%N -> (code (hex_digit n) <? 128)%N = true.
Proof.
  intros Hn. rewrite hex_digit_code by done. apply N.ltb_lt. destruct (N.ltb_spec n 10); lia.
Qed.

Lemma EncodeToString_ascii l :
  Forall (fun b => b < 256)%N l -> is_ascii (EncodeToString l) = true.
Proof.
  intros Hl. apply is_ascii_bytes. unfold EncodeToString. rewrite bytes_of_string_of.
  induction Hl as [|b l Hb Hl IH]; simpl; [constructor|].
  constructor; [|constructor; [|done]]; apply hex_digit_ascii.
  - rewrite N.shiftr_div_pow2. apply N.Div0.div_lt_upper_bound; simpl; lia.
  - change 15%N with (N.ones 4). rewrite N.land_ones. apply N.mod_lt. done.
Qed.

Lemma be_bytes_range n x : Forall (fun z => 0 <= z < 256)%Z (Sha256.be_bytes n x).
Proof.
  unfold Sha256.be_bytes. apply Forall_map, Forall_forall. intros i _. simpl.
  change 255%Z with (Z.ones 8). rewrite Z.land_ones by lia. apply Z.mod_pos_bound. lia.
Qed.

Lemma sha256_bytes s :
  Forall (fun b => b < 256)%N (map Z.to_N (Sha256.sum (map (fun c => Z.of_N (code c)) (bytes_of s)))).
Proof.
  apply Forall_map.
  assert (Hf : Forall (fun z => 0 <= z < 256)%Z
            (Sha256.sum (map (fun c => Z.of_N (code c)) (bytes_of s)))).
  { unfold Sha256.sum. destruct (Sha256.blocks _ _ _) as [a b c d e f g h].
    cbn [flat_map]. rewrite !Forall_app. repeat split; try apply be_bytes_range. constructor. }
  eapply Forall_impl; [exact Hf|]. simpl. intros z Hz. lia.
Qed.

Lemma sha256_hex_ascii s : is_ascii (sha256_hex s) = true.
Proof. apply EncodeToString_ascii, sha256_bytes. Qed.

(** and has no byte 0. *)
Lemma hex_digit_nonzero n : (n < 16)%N -> hex_digit n <> byte 0.
Proof.
  intros Hn Hz. apply (f_equal code) in Hz. rewrite hex_digit_code in Hz by done.
  change (code (byte 0)) with 0%N in Hz. destruct (N.ltb_spec n 10); lia.
Qed.
Lemma EncodeToString_no_nul l :
  Forall (fun b => b < 256)%N l ->
  forallb (fun c => negb (Ascii.eqb c (byte 0))) (bytes_of (EncodeToString l)) = true.
Proof.
  intros Hl. unfold EncodeToString. rewrite bytes_of_string_of.
  induction Hl as [|b l Hb Hl IH]; [done|]. cbn [flat_map app forallb].
  rewrite IH, andb_true_r. apply andb_true_iff. split; apply negb_true_iff, Ascii.eqb_neq, hex_digit_nonzero.
  - rewrite N.shiftr_div_pow2. apply N.Div0.div_lt_upper_bound; simpl; lia.
  - change 15%N with (N.ones 4). rewrite N.land_ones. apply N.mod_lt. done.
Qed.
Lemma sha256_hex_no_nul s :
  forallb (fun c => negb (Ascii.eqb c (byte 0))) (bytes_of (sha256_hex s)) = true.
Proof. apply EncodeToString_no_nul, sha256_bytes. Qed.
