(* ===== verification/Json.v ===== *)
(** * JSON documents

    The program stores and sends values as JSON text through [encoding/json].
    A document is kept as its syntax tree; what the text level adds is the
    treatment of strings (bytes that are not UTF-8 become U+FFFD), which
    [utf8_clean] reproduces. Times and byte slices, which Go writes as RFC 3339
    and base64 strings, are leaves of their own; a byte slice is kept as its
    pieces, each given by its bytes or as the text of a document. *)

From Stdlib Require Import ZArith NArith String Ascii Lia.
From stdpp Require Import base strings list.
From S2P Require Import Prelude GoStrings.

Inductive json :=
| JNull
| JBool (b : bool)
| JNum (n : Z)
| JStr (s : string)
| JTime (t : Z)
| JBytes (b : list (string + json))
| JArr (l : list json)
| JObj (fields : list (string * json)).

Definition bytes : Type := list (string + json).

(** ** Strings *)

Definition replacement : list ascii := [byte 0xEF; byte 0xBF; byte 0xBD].

Fixpoint clean_fuel (fuel : nat) (l : list ascii) : list ascii :=
  match fuel with
  | O => []
  | S n =>
    match decode_rune l with
    | None => []
    | Some (r, l') =>
      let width := (length l - length l')%nat in
      if (r =? RuneError)%N && (width =? 1)%nat then replacement ++ clean_fuel n l'
      else firstn width l ++ clean_fuel n l'
    end
  end.

(** The string as [json.Marshal] writes and [json.Unmarshal] reads it back. *)
Definition utf8_clean (s : string) : string :=
  string_of (clean_fuel (String.length s) (bytes_of s)).

Definition jstr (s : string) : json := JStr (utf8_clean s).

Lemma clean_fuel_ascii fuel l :
  ascii_bytes l -> (length l <= fuel)%nat -> clean_fuel fuel l = l.
Proof.
  intros Ha. revert fuel. induction Ha as [|c l Hc Ha IH]; intros fuel Hf.
  - by destruct fuel.
  - destruct fuel as [|n]; simpl in Hf; [lia|]. unfold clean_fuel; fold clean_fuel.
    unfold decode_rune. rewrite Hc.
    replace (length (c :: l) - length l)%nat with 1%nat by (simpl; lia).
    assert (Hr : (code c =? RuneError)%N = false).
    { apply N.ltb_lt in Hc. apply N.eqb_neq. unfold RuneError. lia. }
    rewrite Hr. simpl. rewrite IH by lia. by destruct l.
Qed.

Lemma bytes_of_length s : length (bytes_of s) = String.length s.
Proof. induction s; simpl; congruence. Qed.

Lemma utf8_clean_ascii s : is_ascii s = true -> utf8_clean s = s.
Proof.
  intros H%is_ascii_bytes. unfold utf8_clean.
  rewrite clean_fuel_ascii; [apply string_of_bytes_of|done|]. by rewrite bytes_of_length.
Qed.

(** ** Reading fields of a decoded object *)

Fixpoint jfield (name : string) (fields : list (string * json)) : option json :=
  match fields with
  | [] => None
  | (k, v) :: r => if String.eqb k name then Some v else jfield name r
  end.

(** A field that is absent or null leaves the Go zero value; a value of another
    type is an [UnmarshalTypeError]. *)
Definition ErrUnmarshalType : error := ENew "json: cannot unmarshal value into Go struct field".

Section Fields.
Context (fields : list (string * json)).

Definition get_str (name : string) : result string :=
  match jfield name fields with
  | None | Some JNull => Ok ""
  | Some (JStr s) => Ok s
  | _ => Err ErrUnmarshalType
  end.

Definition get_str_opt (name : string) : result (option string) :=
  match jfield name fields with
  | None | Some JNull => Ok None
  | Some (JStr s) => Ok (Some s)
  | _ => Err ErrUnmarshalType
  end.

Definition get_num (name : string) : result Z :=
  match jfield name fields with
  | None | Some JNull => Ok 0%Z
  | Some (JNum n) => Ok n
  | _ => Err ErrUnmarshalType
  end.

Definition get_time (zero : Z) (name : string) : result Z :=
  match jfield name fields with
  | None | Some JNull => Ok zero
  | Some (JTime t) => Ok t
  | _ => Err ErrUnmarshalType
  end.

Definition get_time_opt (name : string) : result (option Z) :=
  match jfield name fields with
  | None | Some JNull => Ok None
  | Some (JTime t) => Ok (Some t)
  | _ => Err ErrUnmarshalType
  end.

Definition get_bytes (name : string) : result (list (string + json)) :=
  match jfield name fields with
  | None | Some JNull => Ok []
  | Some (JBytes b) => Ok b
  | _ => Err ErrUnmarshalType
  end.

End Fields.

(** Pointers are written as their value or null. *)
Definition jopt {A} (f : A -> json) (o : option A) : json :=
  match o with Some a => f a | None => JNull end.

(** The struct tag [omitempty]. *)
Definition omitempty (empty : bool) (name : string) (v : json) : list (string * json) :=
  if empty then [] else [(name, v)].

(** ** Stored values

    A stored or transmitted value is a byte string; JSON text is kept as its
    document. Text that is not JSON is [PRaw]; the only raw text that is also a
    document is the decimal text of an integer. *)
Inductive payload :=
| PRaw (s : string)
| PJson (j : json).

Definition ErrJsonSyntax : error := ENew "invalid character in JSON input".

Definition document (p : payload) : result json :=
  match p with
  | PJson j => Ok j
  | PRaw s => match ParseInt s with
              | (n, None) => if String.eqb (FormatInt n) s then Ok (JNum n) else Err ErrJsonSyntax
              | _ => Err ErrJsonSyntax
              end
  end.

(** A type with its [json.Marshal] and [json.Unmarshal]. *)
Class JsonCodec (T : Type) := {
  to_json : T -> json;
  of_json : json -> result T
}.

Definition Marshal {T} `{JsonCodec T} (v : T) : payload := PJson (to_json v).
Definition Unmarshal {T} `{JsonCodec T} (b : payload) : result T :=
  let? j := document b in of_json j.
