(* ===== verification/Domain.v ===== *)
(** * The identity domain

    [internal/modules/identity/domain]: the domain errors, the value objects
    [Email] and [UserStatus], the entities [User], [Credential], [Session],
    [Device] and [Address] with their methods, the event names and the
    registration and device policies. An instant ([time.Time]) is its number
    of nanoseconds since the Unix epoch; a nil pointer is [None]. *)

From Stdlib Require Import ZArith NArith String Ascii Lia.
From stdpp Require Import base strings list relations.
From S2P Require Import Prelude GoStrings Json.

Local Open Scope Z_scope.

(** The zero [time.Time]: 1 January of year 1, UTC. *)
Definition zero_time : Z := (-62135596800 * Second)%Z.

(** ** Domain errors: [domain/error/errors.go] *)

Definition ErrUserNotFound := EDomain (New "IDENTITY_USER_NOT_FOUND" "user not found").
Definition ErrEmailAlreadyExist := EDomain (New "IDENTITY_EMAIL_DUPLICATE" "email already exists").
Definition ErrAccountSuspended := EDomain (New "IDENTITY_ACCOUNT_SUSPENDED" "account is suspended").
Definition ErrAccountBanned := EDomain (New "IDENTITY_ACCOUNT_BANNED" "account is banned").
Definition ErrEmailNotVerified :=
  EDomain (New "IDENTITY_EMAIL_NOT_VERIFIED" "email verification required").
Definition ErrCredentialNotFound :=
  EDomain (New "IDENTITY_CREDENTIAL_NOT_FOUND" "credential not found").
Definition ErrInvalidCredentials :=
  EDomain (New "IDENTITY_INVALID_CREDENTIALS" "invalid email or password").
Definition ErrPasswordTooWeak :=
  EDomain (New "IDENTITY_PASSWORD_TOO_WEAK" "password does not meet requirements").
Definition ErrResetTokenExpired :=
  EDomain (New "IDENTITY_RESET_TOKEN_EXPIRED" "password reset token is invalid or has expired").
Definition ErrSessionNotFound := EDomain (New "IDENTITY_SESSION_NOT_FOUND" "session not found").
Definition ErrSessionExpired := EDomain (New "IDENTITY_SESSION_EXPIRED" "session has expired").
Definition ErrSessionInvalid := EDomain (New "IDENTITY_SESSION_INVALID" "session is invalid").
Definition ErrSessionRevoked := EDomain (New "IDENTITY_SESSION_REVOKED" "session has been revoked").
Definition ErrDeviceNotFound := EDomain (New "IDENTITY_DEVICE_NOT_FOUND" "device not found").
Definition ErrDeviceRevoked := EDomain (New "IDENTITY_DEVICE_REVOKED" "device has been revoked").
Definition ErrDeviceLimitReached :=
  EDomain (New "IDENTITY_DEVICE_LIMIT" "maximum device limit reached").
Definition ErrDeviceNotOwned :=
  EDomain (New "IDENTITY_DEVICE_NOT_OWNED" "device is not owned by user").
Definition ErrAddressNotFound := EDomain (New "IDENTITY_ADDRESS_NOT_FOUND" "address not found").
Definition ErrAddressNotOwned :=
  EDomain (New "IDENTITY_ADDRESS_NOT_OWNED" "address does not belong to this user").
Definition ErrRoleNotFound := EDomain (New "IDENTITY_ROLE_NOT_FOUND" "role not found").

(** ** [UserStatus]: [domain/value_object/user_status.go] *)

Definition UserStatus : Type := string.
Definition UserStatusActive : UserStatus := "active".
Definition UserStatusBanned : UserStatus := "locked".
Definition UserStatusSuspended : UserStatus := "disabled".
Definition UserStatusPendingVerification : UserStatus := "pending_verification".

Definition IsActive (s : UserStatus) : bool := String.eqb s UserStatusActive.
Definition CanLogin (s : UserStatus) : bool := String.eqb s UserStatusActive.

(** The table [allowed]; a status that is not a key has no successor. *)
Definition allowed (s : UserStatus) : list UserStatus :=
  if String.eqb s UserStatusPendingVerification then [UserStatusActive]
  else if String.eqb s UserStatusActive then [UserStatusSuspended; UserStatusBanned]
  else if String.eqb s UserStatusSuspended then [UserStatusActive; UserStatusBanned]
  else [].

Definition CanTransitionTo (s next : UserStatus) : result unit :=
  if existsb (fun a => String.eqb a next) (allowed s) then Ok tt
  else Err (EDomain (New "IDENTITY_INVALID_STATUS_TRANSITION"
                         ("cannot transition from " +:+ s +:+ " to " +:+ next))).

(** ** [Email]: [domain/value_object/emai.go] *)

(** [net/mail.ParseAddress]: whether a string is an RFC 5322 address. *)
Class MailParser := {
  ParseAddress : string -> bool
}.

Module Email.
Record t := mk { value : string }.
Definition IsZero (e : t) : bool := String.eqb (value e) "".
Definition Equals (e other : t) : bool := String.eqb (value e) (value other).
End Email.

Definition ErrInvalidEmail : error := ENew "invalid email format".
Definition ErrEmailTooLong : error := ENew "email too long".

Definition NewEmail `{Unicode} `{MailParser} (raw : string) : result Email.t :=
  let normalized := ToLower (TrimSpace raw) in
  if negb (ParseAddress normalized) then Err ErrInvalidEmail
  else if (255 <? Z.of_nat (String.length normalized)) then Err ErrEmailTooLong
  else Ok (Email.mk normalized).

(** ** Entities: [domain/entity] *)

Definition UserTypeCustomer : string := "customer".
Definition UserTypeAdmin : string := "admin".
Definition PasswordAlgoBcrypt : string := "bcrypt".
Definition AccountStatusPending : string := "pending_verification".
Definition AccountStatusActive : string := "active".
Definition AccountStatusLocked : string := "locked".

(** A [map[string]interface{}], nil or with its members. *)
Definition metadata : Type := option json.

Module User.
Record t := mk {
  ID : Z;
  Email : Email.t;
  FullName : string;
  Phone : option string;
  UserType : string;
  Status : UserStatus;
  EmailVerifiedAt : option Z;
  LastLoginAt : option Z;
  LockedReason : option string;
  Metadata : metadata;
  Version : Z;
  CreatedAt : Z;
  UpdatedAt : Z
}.

Definition IsEmailVerified (u : t) : bool :=
  match EmailVerifiedAt u with Some _ => true | None => false end.

Definition CanPerformDigitalActions (u : t) : result unit :=
  if negb (IsEmailVerified u) then Err ErrEmailNotVerified else Ok tt.

(** The assignments of [MarkEmailVerified], [Suspend] and [Ban]. *)
Definition with_status (u : t) (status : UserStatus) (verified : option Z) (now : Z) : t :=
  mk (ID u) (Email u) (FullName u) (Phone u) (UserType u) status verified (LastLoginAt u)
     (LockedReason u) (Metadata u) (Version u) (CreatedAt u) now.

Definition MarkEmailVerified (u : t) (now : Z) : t :=
  if IsEmailVerified u then u
  else with_status u UserStatusActive (Some now) now.

(** [Suspend] and [Ban] read the clock themselves: [now] is that reading. *)
Definition Suspend (u : t) (now : Z) : t * result unit :=
  match CanTransitionTo (Status u) UserStatusSuspended with
  | Err e => (u, Err e)
  | Ok _ => (with_status u UserStatusSuspended (EmailVerifiedAt u) now, Ok tt)
  end.

Definition Ban (u : t) (now : Z) : t * result unit :=
  match CanTransitionTo (Status u) UserStatusBanned with
  | Err e => (u, Err e)
  | Ok _ => (with_status u UserStatusBanned (EmailVerifiedAt u) now, Ok tt)
  end.
End User.

Module Credential.
Record t := mk {
  UserID : Z;
  PasswordHash : string;
  PasswordAlgo : string;
  PasswordChangedAt : Z;
  FailedLoginCount : Z;
  LastFailedLoginAt : option Z
}.

Definition MarkPasswordChanged (c : t) (newHash algo : string) (now : Z) : t :=
  mk (UserID c) newHash algo now (FailedLoginCount c) (LastFailedLoginAt c).
End Credential.

Module Session.
Record t := mk {
  ID : Z;
  UserID : Z;
  RefreshTokenHash : string;
  DeviceID : Z;
  SessionStatus : string;
  ExpiredAt : Z;
  IPAddress : option string;
  UserAgent : string;
  LastSeenAt : Z;
  RevokedAt : option Z;
  RevokedReason : option string;
  CreatedAt : Z;
  UpdatedAt : Z
}.

Definition IsRevoked (s : t) : bool :=
  match RevokedAt s with Some _ => true | None => false end.

(** [now.After(s.ExpiredAt)] *)
Definition IsExpired (s : t) (now : Z) : bool := ExpiredAt s <? now.

Definition Revoke (s : t) (now : Z) : t :=
  if IsRevoked s then s
  else mk (ID s) (UserID s) (RefreshTokenHash s) (DeviceID s) (SessionStatus s) (ExpiredAt s)
          (IPAddress s) (UserAgent s) (LastSeenAt s) (Some now) (RevokedReason s)
          (CreatedAt s) (UpdatedAt s).

Definition isUseable (s : t) (now : Z) : result unit :=
  if IsRevoked s then Err ErrSessionRevoked
  else if IsExpired s now then Err ErrSessionExpired
  else Ok tt.

Definition Rotate (s : t) (newRefreshTokenHash : string) (now : Z) : t :=
  mk (ID s) (UserID s) newRefreshTokenHash (DeviceID s) (SessionStatus s) (ExpiredAt s)
     (IPAddress s) (UserAgent s) now (RevokedAt s) (RevokedReason s) (CreatedAt s) (UpdatedAt s).

(** The assignment [s.ExpiredAt = exp]. *)
Definition with_ExpiredAt (s : t) (exp : Z) : t :=
  mk (ID s) (UserID s) (RefreshTokenHash s) (DeviceID s) (SessionStatus s) exp
     (IPAddress s) (UserAgent s) (LastSeenAt s) (RevokedAt s) (RevokedReason s)
     (CreatedAt s) (UpdatedAt s).
End Session.

Module Device.
Record t := mk {
  ID : Z;
  UserID : Z;
  Fingerprint : string;
  Label : string;
  FirstSeenAt : Z;
  LastSeenAt : Z;
  RevokedAt : option Z;
  RevokedReason : option string;
  Metadata : metadata;
  CreatedAt : Z;
  UpdatedAt : Z
}.

(** [&entity.Device{}] *)
Definition zero : t := mk 0 0 "" "" zero_time zero_time None None None zero_time zero_time.

Definition IsRevoked (d : t) : bool :=
  match RevokedAt d with Some _ => true | None => false end.

Definition Revoke (d : t) (now : Z) : t :=
  if IsRevoked d then d
  else mk (ID d) (UserID d) (Fingerprint d) (Label d) (FirstSeenAt d) (LastSeenAt d) (Some now)
          (RevokedReason d) (Metadata d) (CreatedAt d) (UpdatedAt d).

Definition AssertOwnership (d : t) (userID : Z) : result unit :=
  if negb (UserID d =? userID) then Err ErrDeviceNotOwned else Ok tt.

Definition UpdateLastSeen (d : t) (now : Z) : t :=
  mk (ID d) (UserID d) (Fingerprint d) (Label d) (FirstSeenAt d) now (RevokedAt d)
     (RevokedReason d) (Metadata d) (CreatedAt d) (UpdatedAt d).
End Device.

Module Address.
Record t := mk {
  ID : Z;
  UserID : Z;
  RecipientName : string;
  RecipientPhone : string;
  Line1 : string;
  Line2 : string;
  Province : string;
  District : string;
  Ward : string;
  PostalCode : string;
  CountryCode : string;
  IsDefault : bool;
  Version : Z;
  CreatedAt : Z;
  UpdatedAt : Z
}.

Definition AssertOwnership (a : t) (userID : Z) : result unit :=
  if negb (UserID a =? userID) then Err ErrAddressNotOwned else Ok tt.
End Address.

(** ** Event names: [domain/event/event.go] *)

Definition RegisterEvent : string := "user.registered".
Definition LoginEvent : string := "user.login".
Definition LogoutEvent : string := "user.logout".
Definition ResetPasswordRequestedEvent : string := "user.reset_password_requested".
Definition ResetPasswordCompletedEvent : string := "user.reset_password_completed".

(** ** Policies: [domain/policy] *)

Record RegisterPolicy := mkRegisterPolicy { MinPassLength : Z; MaxPassLength : Z }.
Definition NewRegisterPolicy : RegisterPolicy := mkRegisterPolicy 8 72.

(** The flags [hasUpper, hasLower, hasDigit] after one rune of the loop: the
    first matching case of the [switch] sets its flag. *)
Definition password_rune `{Unicode} (f : bool * bool * bool) (r : N) : bool * bool * bool :=
  let '(up, lo, di) := f in
  if IsUpper r then (true, lo, di)
  else if IsLower r then (up, true, di)
  else if IsDigit r then (up, lo, true)
  else f.

Definition ValidatePassword `{Unicode} (p : RegisterPolicy) (password : string) : result unit :=
  let length := Z.of_nat (String.length password) in
  if (length <? MinPassLength p) || (MaxPassLength p <? length) then Err ErrPasswordTooWeak
  else
    let '(hasUpper, hasLower, hasDigit) :=
      fold_left password_rune (runes password) (false, false, false) in
    if negb hasUpper || negb hasLower || negb hasDigit then Err ErrPasswordTooWeak
    else Ok tt.

Definition ErrEmailRequired : error := EDomain (New "IDENTITY_EMAIL_REQUIRED" "email is required").

Definition ValidateRegistration `{Unicode} (p : RegisterPolicy) (email : Email.t)
    (password : string) : result unit :=
  if Email.IsZero email then Err ErrEmailRequired else ValidatePassword p password.

Record DevicePolicy := mkDevicePolicy { MaxDevicesPerUser : Z; MaxSessionTTL : Z }.
Definition NewDevicePolicy : DevicePolicy := mkDevicePolicy 5 30.

Definition CanRegisterNewDevice (p : DevicePolicy) (activeDevices : list Device.t) : result unit :=
  if MaxDevicesPerUser p <=? Z.of_nat (length activeDevices) then Err ErrDeviceLimitReached
  else Ok tt.

(** ** Properties *)

(** *** Password policy *)

Section Password.
Context `{Unicode}.

(** The rune classes as the [switch] of the policy tells them apart. *)
Definition counts_upper (r : N) : bool := IsUpper r.
Definition counts_lower (r : N) : bool := negb (IsUpper r) && IsLower r.
Definition counts_digit (r : N) : bool := negb (IsUpper r) && negb (IsLower r) && IsDigit r.

Lemma password_flags l f1 f2 f3 :
  fold_left password_rune l (f1, f2, f3) =
  (f1 || existsb counts_upper l, f2 || existsb counts_lower l, f3 || existsb counts_digit l).
Proof.
  revert f1 f2 f3. induction l as [|r l IH]; intros f1 f2 f3; simpl.
  - by rewrite !orb_false_r.
  - unfold counts_upper, counts_lower, counts_digit.
    destruct (IsUpper r) eqn:E1; simpl; [rewrite IH; by rewrite ?orb_true_r|].
    destruct (IsLower r) eqn:E2; simpl; [rewrite IH; by rewrite ?orb_true_r|].
    destruct (IsDigit r) eqn:E3; simpl; rewrite IH; by rewrite ?orb_true_r.
Qed.

(** [ValidatePassword] accepts exactly the passwords of admissible
    byte length with an upper-case, a lower-case and a digit rune. *)
Theorem ValidatePassword_spec p pw :
  ValidatePassword p pw = Ok tt <->
  (MinPassLength p <= Z.of_nat (String.length pw) <= MaxPassLength p) /\
  existsb counts_upper (runes pw) = true /\
  existsb counts_lower (runes pw) = true /\
  existsb counts_digit (runes pw) = true.
Proof.
  unfold ValidatePassword. rewrite password_flags. simpl.
  destruct (Z.ltb_spec (Z.of_nat (String.length pw)) (MinPassLength p)); simpl;
    [split; [done|lia]|].
  destruct (Z.ltb_spec (MaxPassLength p) (Z.of_nat (String.length pw))); simpl;
    [split; [done|lia]|].
  destruct (existsb counts_upper _), (existsb counts_lower _), (existsb counts_digit _);
    simpl; naive_solver lia.
Qed.
End Password.

(** *** E-mail addresses *)

Section EmailFacts.
Context `{Unicode} `{MailParser}.

Lemma NewEmail_value raw e : NewEmail raw = Ok e -> Email.value e = ToLower (TrimSpace raw).
Proof. unfold NewEmail. intros Hn. repeat case_match; by simplify_eq. Qed.

(** The normal form of an ASCII address is a fixed point: re-reading a stored
    address through [NewEmail] gives the same value. *)
Lemma NewEmail_stable raw e :
  is_ascii raw = true -> NewEmail raw = Ok e -> NewEmail (Email.value e) = Ok e.
Proof.
  intros Ha Hn. assert (Hv := NewEmail_value _ _ Hn).
  destruct (ToLower_TrimSpace_idem raw Ha) as [_ Hid].
  unfold NewEmail in *. rewrite Hv, Hid. done.
Qed.
End EmailFacts.

(** *** User life cycle *)

Inductive user_step : User.t -> User.t -> Prop :=
| step_verify u now : user_step u (User.MarkEmailVerified u now)
| step_suspend u u' now : User.Suspend u now = (u', Ok tt) -> user_step u u'
| step_ban u u' now : User.Ban u now = (u', Ok tt) -> user_step u u'.

(** What [Register] creates. *)
Definition registered (u : User.t) : Prop :=
  User.Status u = UserStatusPendingVerification /\ User.EmailVerifiedAt u = None.

(** The invariant of every user reached from a registered one. *)
Definition user_inv (u : User.t) : Prop :=
  if User.IsEmailVerified u
  then User.Status u = UserStatusActive \/ User.Status u = UserStatusSuspended \/
       User.Status u = UserStatusBanned
  else User.Status u = UserStatusPendingVerification.

Lemma CanTransitionTo_ok s next : CanTransitionTo s next = Ok tt <-> next ∈ allowed s.
Proof.
  unfold CanTransitionTo. destruct (existsb _ _) eqn:E; split; try done.
  - intros _. apply existsb_exists in E as (a & Ha & ->%String.eqb_eq). by apply list_elem_of_In.
  - intros Hin%list_elem_of_In. exfalso. apply not_true_iff_false in E. apply E.
    apply existsb_exists. exists next. split; [done|apply String.eqb_refl].
Qed.

Lemma Suspend_ok u u' now :
  User.Suspend u now = (u', Ok tt) ->
  UserStatusSuspended ∈ allowed (User.Status u) /\
  u' = User.with_status u UserStatusSuspended (User.EmailVerifiedAt u) now.
Proof.
  unfold User.Suspend. destruct (CanTransitionTo _ _) as [[]|] eqn:E; intros Hs; simplify_eq.
  split; [by apply CanTransitionTo_ok|done].
Qed.

Lemma Ban_ok u u' now :
  User.Ban u now = (u', Ok tt) ->
  UserStatusBanned ∈ allowed (User.Status u) /\
  u' = User.with_status u UserStatusBanned (User.EmailVerifiedAt u) now.
Proof.
  unfold User.Ban. destruct (CanTransitionTo _ _) as [[]|] eqn:E; intros Hs; simplify_eq.
  split; [by apply CanTransitionTo_ok|done].
Qed.

Lemma allowed_pending_or_verified u s :
  user_inv u -> s ∈ allowed (User.Status u) -> s <> UserStatusActive ->
  User.IsEmailVerified u = true.
Proof.
  unfold user_inv. destruct (User.IsEmailVerified u); [done|]. intros -> Hs Hne.
  vm_compute in Hs. apply list_elem_of_singleton in Hs. by subst.
Qed.

Lemma user_step_inv u u' : user_inv u -> user_step u u' -> user_inv u'.
Proof.
  intros Hi Hs. destruct Hs as [u now|u u' now Hs|u u' now Hs].
  - unfold User.MarkEmailVerified. destruct (User.IsEmailVerified u) eqn:E; [done|].
    unfold user_inv. simpl. by left.
  - apply Suspend_ok in Hs as [Hal ->]. apply allowed_pending_or_verified in Hal; [|done|done].
    unfold user_inv, User.IsEmailVerified in *. simpl.
    destruct (User.EmailVerifiedAt u); [|done]. by right; left.
  - apply Ban_ok in Hs as [Hal ->]. apply allowed_pending_or_verified in Hal; [|done|done].
    unfold user_inv, User.IsEmailVerified in *. simpl.
    destruct (User.EmailVerifiedAt u); [|done]. by right; right.
Qed.

Lemma user_reach_inv u0 u : registered u0 -> rtc user_step u0 u -> user_inv u.
Proof.
  intros [Hst Hver] Hr.
  assert (H0 : user_inv u0) by (unfold user_inv, User.IsEmailVerified; by rewrite Hver).
  clear Hst Hver. induction Hr; eauto using user_step_inv.
Qed.

(** On every user reached from a fresh registration by [MarkEmailVerified],
    [Suspend] and [Ban], in any order and number, the status is
    [pending_verification] exactly while the e-mail is unverified, and a banned
    user stays banned under every further operation: [locked] is terminal,
    although [MarkEmailVerified] does not consult [CanTransitionTo]. *)
Theorem user_lifecycle u0 u :
  registered u0 -> rtc user_step u0 u ->
  (User.Status u = UserStatusPendingVerification <-> User.IsEmailVerified u = false) /\
  (User.Status u = UserStatusBanned ->
   forall u', rtc user_step u u' -> User.Status u' = UserStatusBanned).
Proof.
  intros H0 Hr. assert (Hi := user_reach_inv _ _ H0 Hr). split.
  - unfold user_inv in Hi. destruct (User.IsEmailVerified u); [|done].
    split; [|done]. intros Hp. rewrite Hp in Hi. naive_solver discriminate.
  - intros Hb u' Hr'. clear H0 Hr u0. induction Hr' as [|u v w Hs Hr' IH]; [done|].
    apply IH; [by eapply user_step_inv|].
    destruct Hs as [u now|u u' now Hs|u u' now Hs].
    + unfold User.MarkEmailVerified, user_inv in *. destruct (User.IsEmailVerified u); [done|].
      rewrite Hb in Hi. discriminate.
    + apply Suspend_ok in Hs as [Hal _]. rewrite Hb in Hal. vm_compute in Hal.
      by apply elem_of_nil in Hal.
    + by apply Ban_ok in Hs as [_ ->].
Qed.

Definition demo_user : User.t :=
  User.mk 7 (Email.mk "a@b.vn") "A" None UserTypeCustomer UserStatusPendingVerification None None
    None None 1 0 0.

Lemma user_lifecycle_witness :
  let u := fst (User.Ban (User.MarkEmailVerified demo_user 5) 9) in
  registered demo_user /\ User.Status u = UserStatusBanned /\
  User.Status (User.MarkEmailVerified u 11) = UserStatusBanned.
Proof.
  intros u. split; [done|]. split; [reflexivity|].
  apply (proj2 (user_lifecycle demo_user u ltac:(done)
    ltac:(eapply rtc_l; [apply (step_verify _ 5)|eapply rtc_l; [by apply (step_ban _ _ 9)|apply rtc_refl]]))
    ltac:(reflexivity)).
  eapply rtc_l; [apply (step_verify _ 11)|apply rtc_refl].
Defined.

Lemma ValidatePassword_spec_witness :
  ValidatePassword (H:=ascii_unicode) NewRegisterPolicy "SuperSecret123!" = Ok tt.
Proof. apply ValidatePassword_spec. vm_compute. repeat split; discriminate. Defined.
