(* ===== verification/Gin.v ===== *)
(** * HTTP requests and responses

    What the program uses of [net/http] and of the [gin] framework: header
    maps, the response writer with its one-time status, the request context and
    the functions that write a response. A handler of a [gin] chain is a
    function on the request's [gin.Context] and the state of the process; a
    middleware receives the rest of the chain, which [c.Next()] runs. *)

From Stdlib Require Import ZArith NArith String Ascii Lia.
From stdpp Require Import base strings list gmap.
From S2P Require Import Prelude GoStrings Json.

Local Open Scope Z_scope.

(** ** Header maps *)

Abbreviation Header := (gmap string (list string)).

(** Bytes of a header name token (RFC 9110). *)
Definition token_byte (c : ascii) : bool :=
  in_range 48 57 c || in_range 65 90 c || in_range 97 122 c ||
  existsb (Ascii.eqb c) (bytes_of "!#$%&'*+-.^_`|~").

Definition upper_byte (c : ascii) : ascii :=
  if in_range 97 122 c then byte (code c - 32) else c.

Fixpoint canonical_bytes (up : bool) (l : list ascii) : list ascii :=
  match l with
  | [] => []
  | c :: l => (if up then upper_byte c else lower_byte c) :: canonical_bytes (Ascii.eqb c "-") l
  end.

(** [textproto.CanonicalMIMEHeaderKey] *)
Definition CanonicalKey (k : string) : string :=
  if forallb token_byte (bytes_of k) then string_of (canonical_bytes true (bytes_of k)) else k.

Definition header_Set (h : Header) (k v : string) : Header := <[CanonicalKey k := [v]]> h.
Definition header_Add (h : Header) (k v : string) : Header :=
  <[CanonicalKey k := default [] (h !! CanonicalKey k) ++ [v]]> h.
Definition header_Del (h : Header) (k : string) : Header := delete (CanonicalKey k) h.
Definition header_Get (h : Header) (k : string) : string :=
  match h !! CanonicalKey k with Some (v :: _) => v | _ => "" end.

(** ** The response writer *)

(** [w_rec] is the buffer of a recorder wrapped around the writer, if any. *)
Record Writer := mkWriter {
  w_status : Z;
  w_written : bool;
  w_header : Header;
  w_body : bytes;
  w_rec : option bytes
}.

Definition new_writer : Writer := mkWriter 200 false ∅ [] None.

Definition WriteHeader (code : Z) (w : Writer) : Writer :=
  if (0 <? code) && negb (w_status w =? code) && negb (w_written w)
  then mkWriter code (w_written w) (w_header w) (w_body w) (w_rec w) else w.

Definition WriteHeaderNow (w : Writer) : Writer :=
  mkWriter (w_status w) true (w_header w) (w_body w) (w_rec w).

Definition write_bytes (b : bytes) (w : Writer) : Writer :=
  mkWriter (w_status w) true (w_header w) (w_body w ++ b)
           (match w_rec w with Some r => Some (r ++ b) | None => None end).

Definition set_header (f : Header -> Header) (w : Writer) : Writer :=
  mkWriter (w_status w) (w_written w) (f (w_header w)) (w_body w) (w_rec w).

Definition write_content_type (ct : string) (w : Writer) : Writer :=
  match w_header w !! "Content-Type" with
  | Some (_ :: _) => w
  | _ => set_header (fun h => <["Content-Type" := [ct]]> h) w
  end.

Definition bodyAllowedForStatus (status : Z) : bool :=
  negb ((100 <=? status) && (status <=? 199) || (status =? 204) || (status =? 304)).

(** [c.Render] with the data already encoded. *)
Definition render (code : Z) (ct : string) (b : bytes) (w : Writer) : Writer :=
  let w := WriteHeader code w in
  if bodyAllowedForStatus code then write_bytes b (write_content_type ct w)
  else WriteHeaderNow (write_content_type ct w).

Definition json_ct : string := "application/json; charset=utf-8".

(** ** The request *)

(** Values carried by a [context.Context]: the idempotency key, the request id
    and the open transaction. *)
Record Ctx := mkCtx {
  ctx_idem : option string;
  ctx_reqid : option string;
  ctx_tx : bool
}.
Definition Background : Ctx := mkCtx None None false.

(** [AuthContext] of the identity middleware. *)
Record AuthContext := mkAuthContext {
  ac_UserID : Z; ac_Email : string; ac_Role : string;
  ac_DeviceID : Z; ac_SessionID : Z; ac_JTI : string
}.

(** Values stored with [c.Set]. *)
Inductive any :=
| AString (s : string)
| ABool (b : bool)
| AAuth (ac : AuthContext).

Record gctx := mkGctx {
  g_method : string;
  g_ip : string;
  g_header : Header;
  g_params : gmap string string;
  g_cookies : list (string * string);
  g_body : option string;
  g_ctx : Ctx;
  g_keys : gmap string any;
  g_w : Writer;
  g_aborted : bool
}.

Definition with_w (f : Writer -> Writer) (c : gctx) : gctx :=
  mkGctx (g_method c) (g_ip c) (g_header c) (g_params c) (g_cookies c) (g_body c) (g_ctx c)
         (g_keys c) (f (g_w c)) (g_aborted c).
Definition with_ctx (x : Ctx) (c : gctx) : gctx :=
  mkGctx (g_method c) (g_ip c) (g_header c) (g_params c) (g_cookies c) (g_body c) x
         (g_keys c) (g_w c) (g_aborted c).
Definition g_Set (k : string) (v : any) (c : gctx) : gctx :=
  mkGctx (g_method c) (g_ip c) (g_header c) (g_params c) (g_cookies c) (g_body c) (g_ctx c)
         (<[k := v]> (g_keys c)) (g_w c) (g_aborted c).
Definition Abort (c : gctx) : gctx :=
  mkGctx (g_method c) (g_ip c) (g_header c) (g_params c) (g_cookies c) (g_body c) (g_ctx c)
         (g_keys c) (g_w c) true.

Definition GetHeader (c : gctx) (k : string) : string := header_Get (g_header c) k.
Definition Param (c : gctx) (k : string) : string := default "" (g_params c !! k).

(** [c.Header(k, v)]: an empty value deletes the header. *)
Definition c_Header (k v : string) (c : gctx) : gctx :=
  with_w (set_header (fun h => if String.eqb v "" then header_Del h k else header_Set h k v)) c.

Definition c_JSON (code : Z) (j : json) (c : gctx) : gctx :=
  with_w (render code json_ct [inr j]) c.
Definition c_Data (code : Z) (ct : string) (b : bytes) (c : gctx) : gctx :=
  with_w (render code ct b) c.
Definition AbortWithStatusJSON (code : Z) (j : json) (c : gctx) : gctx := c_JSON code j (Abort c).
Definition AbortWithStatus (code : Z) (c : gctx) : gctx :=
  Abort (with_w WriteHeaderNow (with_w (WriteHeader code) c)).

(** ** Handlers *)

Definition Handler (S : Type) : Type := gctx -> S -> S * gctx.

(** ** [httpx/response.go] *)

Definition Success (statusCode : Z) (message : string) (data : option json) (c : gctx) : gctx :=
  c_JSON statusCode (JObj ([("success", JBool true); ("message", jstr message)]
    ++ omitempty (match data with None => true | _ => false end) "data" (default JNull data)
    ++ [("code", JNum statusCode)])) c.

Definition Error (statusCode : Z) (message err : string) (c : gctx) : gctx :=
  AbortWithStatusJSON statusCode (JObj [("success", JBool false); ("message", jstr message);
    ("error", jstr err); ("code", JNum statusCode)]) c.

(** A fresh response carries exactly what one rendering wrote. *)
Lemma render_fresh code ct b w :
  w_written w = false -> 0 < code -> bodyAllowedForStatus code = true ->
  w_status (render code ct b w) = code /\ w_body (render code ct b w) = w_body w ++ b.
Proof.
  intros Hw Hc Hb. unfold render, WriteHeader, write_content_type. rewrite Hb, Hw.
  rewrite (proj2 (Z.ltb_lt 0 code) Hc). simpl.
  destruct (Z.eqb_spec (w_status w) code); simpl;
    destruct (w_header w !! "Content-Type") as [[|]|]; done.
Qed.

Lemma write_content_type_other ct w k :
  k <> "Content-Type" -> w_header (write_content_type ct w) !! k = w_header w !! k.
Proof.
  intros Hk. unfold write_content_type. destruct (w_header w !! "Content-Type") as [[|]|]; simpl;
    by rewrite ?lookup_insert_ne.
Qed.

Lemma render_header_other code ct b w k :
  k <> "Content-Type" -> w_header (render code ct b w) !! k = w_header w !! k.
Proof.
  intros Hk. unfold render. destruct (bodyAllowedForStatus code); simpl;
    rewrite write_content_type_other by done; unfold WriteHeader; by case_match.
Qed.

(** The canonical form of a canonical key is itself. *)
Lemma upper_byte_dash c : Ascii.eqb (upper_byte c) "-" = Ascii.eqb c "-".
Proof. destruct c as [[] [] [] [] [] [] [] []]; reflexivity. Qed.
Lemma lower_byte_dash c : Ascii.eqb (lower_byte c) "-" = Ascii.eqb c "-".
Proof. destruct c as [[] [] [] [] [] [] [] []]; reflexivity. Qed.
Lemma upper_byte_idem c : upper_byte (upper_byte c) = upper_byte c.
Proof. destruct c as [[] [] [] [] [] [] [] []]; reflexivity. Qed.
Lemma token_upper c : token_byte c = true -> token_byte (upper_byte c) = true.
Proof. destruct c as [[] [] [] [] [] [] [] []]; done. Qed.
Lemma token_lower c : token_byte c = true -> token_byte (lower_byte c) = true.
Proof. destruct c as [[] [] [] [] [] [] [] []]; done. Qed.

Lemma canonical_bytes_idem up l :
  canonical_bytes up (canonical_bytes up l) = canonical_bytes up l.
Proof.
  revert up. induction l as [|c l IH]; intros up; simpl; [done|]. destruct up; f_equal.
  - apply upper_byte_idem.
  - rewrite upper_byte_dash. apply IH.
  - apply lower_byte_idem.
  - rewrite lower_byte_dash. apply IH.
Qed.

Lemma canonical_bytes_token up l :
  forallb token_byte l = true -> forallb token_byte (canonical_bytes up l) = true.
Proof.
  revert up. induction l as [|c l IH]; intros up; simpl; [done|].
  intros [Hc Hl]%andb_true_iff. rewrite (IH _ Hl). destruct up; simpl;
    by rewrite ?(token_upper c Hc), ?(token_lower c Hc).
Qed.

Lemma CanonicalKey_idem k : CanonicalKey (CanonicalKey k) = CanonicalKey k.
Proof.
  unfold CanonicalKey. destruct (forallb token_byte (bytes_of k)) eqn:E; [|by rewrite E].
  rewrite bytes_of_string_of, canonical_bytes_token by done. by rewrite canonical_bytes_idem.
Qed.
