(* ===== verification/RedisClient.v ===== *)
(** * The Redis client

    Redis and the [go-redis] client are not part of the repository: they are
    the class [RedisClient], a state and one entry point for commands. What the
    program relies on is [RedisLaws]: a command that returns without error has
    the documented effect [cmd_spec] on the keys and values of the server, a
    command that fails had that effect or none (the connection broke after or
    before the server ran it), and keys vanish when their time to live is over.
    [Script] is a client of that kind, used to show that the laws can hold. *)

From Stdlib Require Import ZArith NArith String Ascii Lia.
From stdpp Require Import base strings list gmap.
From S2P Require Import Prelude GoStrings Json.

Local Open Scope Z_scope.

(** Live keys: the value and the remaining time to live ([None]: no expiry). *)
Abbreviation store := (gmap string (payload * option Z)).

Inductive cmd :=
| SET (k : string) (v : payload) (ttl : Z)
| SETNX (k : string) (v : payload) (ttl : Z)
| GET (k : string)
| GETDEL (k : string)
| DEL (ks : list string)
| EXISTS (k : string)
| INCR (k : string)
| EXPIRE (k : string) (ttl : Z)
| TTL (k : string)
| EVAL (script : store -> store * Z)
| PING.

Inductive reply :=
| RStatus
| RNil
| RVal (v : payload)
| RInt (n : Z)
| RErr (msg : string).

(** A positive duration as the client sends it: whole milliseconds, at least one. *)
Definition ms_ttl (ttl : Z) : Z :=
  if ttl <? Millisecond then Millisecond else Millisecond * (ttl / Millisecond).

(** The expiry a [SET] leaves: positive durations expire, [KeepTTL] (-1) keeps
    the old expiry, any other value means none. *)
Definition set_ttl (old : option Z) (ttl : Z) : option Z :=
  if 0 <? ttl then Some (ms_ttl ttl) else if ttl =? -1 then old else None.

(** [EXPIRE] works in whole seconds, at least one for a positive duration. *)
Definition expire_secs (d : Z) : Z :=
  if (0 <? d) && (d <? Second) then Second else Second * (d ÷ Second).

(** [TTL] answers in seconds, rounded to the nearest. *)
Definition ttl_secs (d : Z) : Z := (d / Millisecond + 500) / 1000 * Second.

Definition old_ttl (m : store) (k : string) : option Z := m !! k ≫= snd.

(** The integer a counter key holds: its canonical decimal text; a missing key is 0. *)
Definition incr_value (m : store) (k : string) : option Z :=
  match m !! k with
  | None => Some 0
  | Some (PRaw s, _) =>
      match ParseInt s with
      | (n, None) => if String.eqb (FormatInt n) s then Some n else None
      | (_, Some _) => None
      end
  | Some (PJson _, _) => None
  end.

(** The documented effect of the commands on the key space. *)
Definition cmd_spec (c : cmd) (m : store) : store * reply :=
  match c with
  | SET k v ttl => (<[k := (v, set_ttl (old_ttl m k) ttl)]> m, RStatus)
  | SETNX k v ttl =>
      if ttl <? -1 then (m, RErr "ERR invalid expire time in 'set' command") else
      match m !! k with
      | Some _ => (m, RInt 0)
      | None => (<[k := (v, set_ttl None ttl)]> m, RInt 1)
      end
  | GET k => (m, match m !! k with Some (v, _) => RVal v | None => RNil end)
  | GETDEL k => (delete k m, match m !! k with Some (v, _) => RVal v | None => RNil end)
  | DEL ks => (foldr delete m ks,
               RInt (Z.of_nat (length (where_ (fun k => bool_decide (is_Some (m !! k)))
                                              (remove_dups ks)))))
  | EXISTS k => (m, RInt (if decide (is_Some (m !! k)) then 1 else 0))
  | INCR k =>
      match incr_value m k with
      | None => (m, RErr "ERR value is not an integer or out of range")
      | Some n => if n =? int64_max then (m, RErr "ERR increment or decrement would overflow")
                  else (<[k := (PRaw (FormatInt (n + 1)), old_ttl m k)]> m, RInt (n + 1))
      end
  | EXPIRE k ttl =>
      match m !! k with
      | None => (m, RInt 0)
      | Some (v, _) => if expire_secs ttl <=? 0 then (delete k m, RInt 1)
                       else (<[k := (v, Some (expire_secs ttl))]> m, RInt 1)
      end
  | TTL k => (m, RInt (match m !! k with
                       | None => -2
                       | Some (_, None) => -1
                       | Some (_, Some d) => ttl_secs d
                       end))
  | EVAL script => let '(m', n) := script m in (m', RInt n)
  | PING => (m, RStatus)
  end.

(** [d] nanoseconds pass: keys whose time is over are gone. *)
Definition age (d : Z) (e : payload * option Z) : option (payload * option Z) :=
  match snd e with
  | None => Some e
  | Some t => if d <? t then Some (fst e, Some (t - d)) else None
  end.
Definition elapse (d : Z) (m : store) : store := omap (age d) m.

Class RedisClient (R : Type) := {
  rd_do : cmd -> M R reply;
  rd_elapse : Z -> R -> R
}.

Class RedisView (R : Type) := {
  rd_abs : R -> store
}.

(** [redis.Nil], the error of a missing key. *)
Definition ERedisNil : error := ENew "redis: nil".

Class RedisLaws (R : Type) `{RedisClient R} `{RedisView R} : Prop := {
  rd_ok : forall c r r' rep, rd_do c r = (r', Ok rep) -> cmd_spec c (rd_abs r) = (rd_abs r', rep);
  rd_err : forall c r r' e, rd_do c r = (r', Err e) ->
    rd_abs r' = rd_abs r \/ rd_abs r' = fst (cmd_spec c (rd_abs r));
  rd_err_io : forall c r r' e, rd_do c r = (r', Err e) -> exists text, e = EIO text;
  rd_time : forall d r, 0 <= d -> rd_abs (rd_elapse d r) = elapse d (rd_abs r)
}.

(** ** The typed commands of the client

    Each sends one command and decodes the reply; [redis.Nil] reports a missing
    key and an error reply is an error. *)

Section Commands.
Context {R : Type} {RC : RedisClient R}.

Definition ErrReply (msg : string) : error := EIO msg.
Definition ErrUnexpectedReply : error := EIO "redis: unexpected reply".

Definition expect_status (rep : reply) : result unit :=
  match rep with
  | RStatus => Ok tt | RErr m => Err (ErrReply m) | RNil => Err ERedisNil
  | _ => Err ErrUnexpectedReply
  end.
Definition expect_int (rep : reply) : result Z :=
  match rep with
  | RInt n => Ok n | RErr m => Err (ErrReply m) | RNil => Err ERedisNil
  | _ => Err ErrUnexpectedReply
  end.
Definition expect_val (rep : reply) : result payload :=
  match rep with
  | RVal v => Ok v | RErr m => Err (ErrReply m) | RNil => Err ERedisNil
  | _ => Err ErrUnexpectedReply
  end.

Definition rdb_Set (k : string) (v : payload) (ttl : Z) : M R unit :=
  let! rep := rd_do (SET k v ttl) in liftM (expect_status rep).
Definition rdb_SetNX (k : string) (v : payload) (ttl : Z) : M R bool :=
  let! rep := rd_do (SETNX k v ttl) in
  liftM (let? n := expect_int rep in Ok (n =? 1)).
Definition rdb_Get (k : string) : M R payload :=
  let! rep := rd_do (GET k) in liftM (expect_val rep).
Definition rdb_GetDel (k : string) : M R payload :=
  let! rep := rd_do (GETDEL k) in liftM (expect_val rep).
Definition rdb_Del (ks : list string) : M R Z :=
  let! rep := rd_do (DEL ks) in liftM (expect_int rep).
Definition rdb_Exists (k : string) : M R Z :=
  let! rep := rd_do (EXISTS k) in liftM (expect_int rep).
Definition rdb_Incr (k : string) : M R Z :=
  let! rep := rd_do (INCR k) in liftM (expect_int rep).
Definition rdb_Expire (k : string) (ttl : Z) : M R bool :=
  let! rep := rd_do (EXPIRE k ttl) in
  liftM (let? n := expect_int rep in Ok (n =? 1)).
Definition rdb_TTL (k : string) : M R Z :=
  let! rep := rd_do (TTL k) in liftM (expect_int rep).
Definition rdb_Eval (script : store -> store * Z) : M R Z :=
  let! rep := rd_do (EVAL script) in liftM (expect_int rep).
Definition rdb_Ping : M R unit :=
  let! rep := rd_do PING in liftM (expect_status rep).
End Commands.

(** ** Effects of the typed commands *)

Section Effects.
Context {R : Type} {RC : RedisClient R} {RV : RedisView R} {RL : RedisLaws R}.

(** Either outcome of one command: its effect, or (on failure only) none. *)
Lemma rd_cases c r :
  (exists r' rep, rd_do c r = (r', Ok rep) /\ cmd_spec c (rd_abs r) = (rd_abs r', rep)) \/
  (exists r' e, rd_do c r = (r', Err e) /\ (exists text, e = EIO text) /\
     (rd_abs r' = rd_abs r \/ rd_abs r' = fst (cmd_spec c (rd_abs r)))).
Proof.
  destruct (rd_do c r) as [r' [rep|e]] eqn:E.
  - left. eauto using rd_ok.
  - right. exists r', e. eauto using rd_err, rd_err_io.
Qed.

(** A test on the reply does not change the state. *)
Lemma do_then {A} c (k : reply -> result A) r r' x :
  (let! rep := rd_do c in liftM (k rep)) r = (r', x) ->
  (exists rep, cmd_spec c (rd_abs r) = (rd_abs r', rep) /\ x = k rep) \/
  (exists e, x = Err e /\ (exists text, e = EIO text) /\
     (rd_abs r' = rd_abs r \/ rd_abs r' = fst (cmd_spec c (rd_abs r)))).
Proof.
  destruct (rd_cases c r) as [(r1 & rep & E & Hs)|(r1 & e & E & Hne & Hs)]; unfold bindM, liftM;
    rewrite E; intros Heq; simplify_eq; [left|right]; eauto.
Qed.

Lemma rdb_Set_ok k v ttl r r' :
  rdb_Set k v ttl r = (r', Ok tt) ->
  rd_abs r' = <[k := (v, set_ttl (old_ttl (rd_abs r) k) ttl)]> (rd_abs r).
Proof. intros [(rep & Hs & Hx)|(e & He & _)]%do_then; simpl in *; by simplify_eq. Qed.

Lemma rdb_Get_ok k r r' v :
  rdb_Get k r = (r', Ok v) -> rd_abs r' = rd_abs r /\ exists t, rd_abs r !! k = Some (v, t).
Proof.
  intros [(rep & Hs & Hx)|(e & He & _)]%do_then; [|done]. simpl in *. simplify_eq.
  split; [done|]. destruct (rd_abs r !! k) as [[v' t]|]; simpl in *; simplify_eq. eauto.
Qed.

Lemma rdb_Get_nil k r r' :
  rdb_Get k r = (r', Err ERedisNil) -> rd_abs r' = rd_abs r /\ rd_abs r !! k = None.
Proof.
  intros [(rep & Hs & Hx)|(e & He & [text ->] & _)]%do_then; [|by simplify_eq]. simpl in *. simplify_eq.
  split; [done|]. by destruct (rd_abs r !! k) as [[v' t]|].
Qed.

Lemma rdb_Get_err k r r' e :
  rdb_Get k r = (r', Err e) ->
  (e = ERedisNil /\ rd_abs r !! k = None) \/ exists text, e = EIO text.
Proof.
  intros [(rep & Hs & Hx)|(e' & He & Hne & _)]%do_then; [|simplify_eq; by right].
  simpl in *. destruct (rd_abs r !! k) as [[v t]|]; simplify_eq/=. by left.
Qed.

Lemma rdb_Get_abs k r r' x : rdb_Get k r = (r', x) -> rd_abs r' = rd_abs r.
Proof. intros [(rep & Hs & Hx)|(e & He & Hne & [Ha|Ha])]%do_then; simpl in *; by simplify_eq. Qed.

Lemma rdb_GetDel_ok k r r' v :
  rdb_GetDel k r = (r', Ok v) ->
  rd_abs r' = delete k (rd_abs r) /\ exists t, rd_abs r !! k = Some (v, t).
Proof.
  intros [(rep & Hs & Hx)|(e & He & _)]%do_then; [|done]. simpl in *. simplify_eq.
  split; [done|]. destruct (rd_abs r !! k) as [[v' t]|]; simpl in *; simplify_eq. eauto.
Qed.

Lemma rdb_GetDel_missing k r r' v :
  rd_abs r !! k = None -> rdb_GetDel k r <> (r', Ok v).
Proof. intros Hk (_ & t & Ht)%rdb_GetDel_ok. congruence. Qed.

Lemma rdb_Del_ok ks r r' n :
  rdb_Del ks r = (r', Ok n) -> rd_abs r' = foldr delete (rd_abs r) ks.
Proof. intros [(rep & Hs & Hx)|(e & He & _)]%do_then; simpl in *; by simplify_eq. Qed.

Lemma rdb_Exists_ok k r r' n :
  rdb_Exists k r = (r', Ok n) ->
  rd_abs r' = rd_abs r /\ (0 < n <-> is_Some (rd_abs r !! k)).
Proof.
  intros [(rep & Hs & Hx)|(e & He & _)]%do_then; [|done]. simpl in *. simplify_eq.
  split; [done|]. case_decide; simpl in *; simplify_eq; naive_solver lia.
Qed.

Lemma rdb_SetNX_ok k v ttl r r' b :
  rdb_SetNX k v ttl r = (r', Ok b) ->
  (b = true /\ rd_abs r !! k = None /\ rd_abs r' = <[k := (v, set_ttl None ttl)]> (rd_abs r)) \/
  (b = false /\ is_Some (rd_abs r !! k) /\ rd_abs r' = rd_abs r).
Proof.
  intros (r1 & rep & Hd & Hk)%bindM_ok. apply rd_ok in Hd. simpl in Hd.
  destruct (ttl <? -1); [by simplify_eq/=|].
  destruct (rd_abs r !! k) eqn:E; simplify_eq; unfold liftM in Hk;
    simpl in Hk; simplify_eq; [right|left]; eauto.
Qed.

(** A failed [SETNX] set the key or did nothing. *)
Lemma rdb_SetNX_err k v ttl r r' e :
  rdb_SetNX k v ttl r = (r', Err e) ->
  rd_abs r' = rd_abs r \/
  (rd_abs r !! k = None /\ rd_abs r' = <[k := (v, set_ttl None ttl)]> (rd_abs r)).
Proof.
  unfold rdb_SetNX, bindM, liftM.
  destruct (rd_cases (SETNX k v ttl) r) as [(r1 & rep & E & Hs)|(r1 & e1 & E & _ & Hs)];
    rewrite E; simpl in Hs; destruct (ttl <? -1), (rd_abs r !! k) eqn:Ek; simpl in Hs;
    intros Heq; simplify_eq/=; naive_solver.
Qed.

Lemma rdb_Incr_ok k r r' n :
  rdb_Incr k r = (r', Ok n) ->
  exists n0, incr_value (rd_abs r) k = Some n0 /\ n = n0 + 1 /\ n0 <> int64_max /\
    rd_abs r' = <[k := (PRaw (FormatInt n), old_ttl (rd_abs r) k)]> (rd_abs r).
Proof.
  intros [(rep & Hs & Hx)|(e & He & _)]%do_then; [|done]. simpl in *.
  destruct (incr_value (rd_abs r) k) as [n0|]; [|by simplify_eq].
  destruct (Z.eqb_spec n0 int64_max); simplify_eq/=. eauto.
Qed.

Lemma rdb_Eval_ok f r r' n :
  rdb_Eval f r = (r', Ok n) -> f (rd_abs r) = (rd_abs r', n).
Proof.
  intros [(rep & Hs & Hx)|(e & He & _)]%do_then; [|done]. simpl in *.
  destruct (f (rd_abs r)); simplify_eq/=. done.
Qed.
End Effects.

(** ** Time *)

Lemma elapse_lookup_none d m k : m !! k = None -> elapse d m !! k = None.
Proof. intros Hk. unfold elapse. rewrite lookup_omap, Hk. done. Qed.

Lemma elapse_lookup_live d m k v t :
  m !! k = Some (v, Some t) -> d < t -> elapse d m !! k = Some (v, Some (t - d)).
Proof.
  intros Hk Hd. unfold elapse. rewrite lookup_omap, Hk. simpl. unfold age. simpl.
  by rewrite (proj2 (Z.ltb_lt d t) Hd).
Qed.

Lemma elapse_lookup_over d m k v t :
  m !! k = Some (v, Some t) -> t <= d -> elapse d m !! k = None.
Proof.
  intros Hk Hd. unfold elapse. rewrite lookup_omap, Hk. simpl. unfold age. simpl.
  by rewrite (proj2 (Z.ltb_ge d t) Hd).
Qed.

(** ** A client that satisfies the laws

    It runs every command on the key space; a script of booleans says which of
    the coming commands fail with a connection error before they take effect. *)

Module Script.
Record t := mk { keys : store; faults : list bool }.

Definition ErrConn : error := EIO "dial tcp: connection refused".

Definition exec (c : cmd) : M t reply := fun r =>
  match faults r with
  | true :: fs => (mk (keys r) fs, Err ErrConn)
  | false :: fs => let '(m, rep) := cmd_spec c (keys r) in (mk m fs, Ok rep)
  | [] => let '(m, rep) := cmd_spec c (keys r) in (mk m [], Ok rep)
  end.
End Script.

#[export] Instance script_client : RedisClient Script.t := {|
  rd_do := Script.exec;
  rd_elapse d r := Script.mk (elapse d (Script.keys r)) (Script.faults r)
|}.
#[export] Instance script_view : RedisView Script.t := {| rd_abs := Script.keys |}.

#[export] Instance script_laws : RedisLaws Script.t.
Proof.
  split; simpl.
  - intros c r r' rep. unfold Script.exec. destruct (Script.faults r) as [|[] fs];
      destruct (cmd_spec c (Script.keys r)); intros; by simplify_eq.
  - intros c r r' e. unfold Script.exec. destruct (Script.faults r) as [|[] fs];
      destruct (cmd_spec c (Script.keys r)); intros; simplify_eq; by left.
  - intros c r r' e. unfold Script.exec. destruct (Script.faults r) as [|[] fs];
      destruct (cmd_spec c (Script.keys r)); intros; simplify_eq; eauto.
  - done.
Qed.
