(* ===== verification/RedisKit.v ===== *)
(** * The Redis toolkit

    [internal/platform/redis]: configuration defaults, key builders, the JSON
    cache, the lock, the rate limiter, the quota counter and the health check,
    each over the client of RedisClient.v. [context.Context] arguments only
    carry cancellation here and are left out. *)

From Stdlib Require Import ZArith NArith String Ascii Lia.
From stdpp Require Import base strings list gmap relations.
From S2P Require Import Prelude GoStrings Crypto Json RedisClient.

Local Open Scope Z_scope.

(** ** Errors: [errors.go] *)

Definition ErrCacheMiss : error := ENew "redis: cache miss".
Definition ErrLockNotHeld : error := ENew "redis: lock not held".
Definition ErrLockNotAcquired : error := ENew "redis: lock not acquired".
Definition ErrUnavailable : error := ENew "redis: unavailable".

(** ** Configuration: [config.go] *)

Module RedisConfig.
Record t := mk {
  Addr : string; Username : string; Password : string; DB : Z; KeyPrefix : string;
  DialTimeout : Z; ReadTimeout : Z; WriteTimeout : Z; PoolSize : Z; MinIdleConns : Z
}.

Definition withDefaults (c : t) : t :=
  mk (if String.eqb (Addr c) "" then "127.0.0.1:6379" else Addr c)
     (Username c) (Password c) (DB c)
     (if String.eqb (KeyPrefix c) "" then "app" else KeyPrefix c)
     (if DialTimeout c <=? 0 then 3 * Second else DialTimeout c)
     (if ReadTimeout c <=? 0 then 2 * Second else ReadTimeout c)
     (if WriteTimeout c <=? 0 then 2 * Second else WriteTimeout c)
     (if PoolSize c <=? 0 then 20 else PoolSize c)
     (MinIdleConns c).
End RedisConfig.

(** The options [NewClient] of client.go hands to go-redis. *)
Module Options.
Record t := mk {
  Addr : string; Username : string; Password : string; DB : Z; DialTimeout : Z; ReadTimeout : Z;
  WriteTimeout : Z; PoolSize : Z; MinIdleConns : Z
}.
End Options.
Definition NewClient (cfg : RedisConfig.t) : Options.t :=
  let cfg := RedisConfig.withDefaults cfg in
  Options.mk (RedisConfig.Addr cfg) (RedisConfig.Username cfg) (RedisConfig.Password cfg) (RedisConfig.DB cfg)
    (RedisConfig.DialTimeout cfg) (RedisConfig.ReadTimeout cfg) (RedisConfig.WriteTimeout cfg)
    (RedisConfig.PoolSize cfg) (RedisConfig.MinIdleConns cfg).

(** ** Keys: [Key] of redis.go and [KeyBuilder] of keys.go *)

(** The accumulator of the loop is [res]; [first] says whether [i > 0] fails. *)
Fixpoint key_loop (res : string) (first : bool) (parts : list string) : string :=
  match parts with
  | [] => res
  | p :: parts => key_loop ((if first then res else res +:+ ":") +:+ p) false parts
  end.
Definition Key (parts : list string) : string := key_loop "" true parts.

Module KeyBuilder.
Record t := mk { prefix : string }.

Definition NewKeyBuilder (prefix : string) : t :=
  mk (if String.eqb (TrimSpace prefix) "" then "app" else prefix).

Definition join (b : t) (parts : list string) : string :=
  let kept := where_ (fun p => negb (String.eqb (TrimSpace p) "")) parts in
  Join (prefix b :: map TrimSpace kept) ":".

Definition CatalogList (b : t) (hash : string) := join b ["catalog_list"; hash].
Definition BookDetail (b : t) (bookID : string) := join b ["book_detail"; bookID].
Definition SearchBooks (b : t) (hash : string) := join b ["search_books"; hash].
Definition Cart (b : t) (userID : Z) := join b ["cart"; FormatInt userID].
Definition Session (b : t) (sessionID : string) := join b ["session"; sessionID].
Definition UserSessions (b : t) (userID : Z) := join b ["user_sessions"; FormatInt userID].
Definition Device (b : t) (userID deviceID : Z) :=
  join b ["device"; FormatInt userID; FormatInt deviceID].
Definition Idempotency (b : t) (scope key : string) := join b ["idempotency"; scope; key].
Definition Lock (b : t) (resource : string) := join b ["lock"; resource].
Definition QuotaDownload (b : t) (userID bookID : Z) :=
  join b ["quota"; "download"; FormatInt userID; FormatInt bookID].
Definition Rate (b : t) (scope subject : string) := join b ["rate"; scope; subject].
Definition JobDedup (b : t) (jobType bizKey : string) := join b ["job_dedup"; jobType; bizKey].
Definition DownloadToken (b : t) (tokenID : string) := join b ["dl_token"; tokenID].
Definition Hold (b : t) (orderID : Z) := join b ["hold"; FormatInt orderID].
End KeyBuilder.

Definition ProvideKeyBuilder (cfg : RedisConfig.t) : KeyBuilder.t :=
  KeyBuilder.NewKeyBuilder (RedisConfig.KeyPrefix (RedisConfig.withDefaults cfg)).

Lemma default_positive x d : 0 < d -> 0 < (if x <=? 0 then d else x).
Proof. destruct (Z.leb_spec x 0); lia. Qed.

(** Every client has an address, timeouts and a pool, and every key a prefix, however
    little is configured. *)
Theorem NewClient_usable cfg :
  let o := NewClient cfg in
  Options.Addr o <> "" /\ 0 < Options.DialTimeout o /\ 0 < Options.ReadTimeout o /\ 0 < Options.WriteTimeout o /\
  0 < Options.PoolSize o /\ TrimSpace (KeyBuilder.prefix (ProvideKeyBuilder cfg)) <> "".
Proof.
  unfold NewClient, RedisConfig.withDefaults. cbn [Options.Addr Options.DialTimeout Options.ReadTimeout
    Options.WriteTimeout Options.PoolSize RedisConfig.Addr RedisConfig.DialTimeout RedisConfig.ReadTimeout
    RedisConfig.WriteTimeout RedisConfig.PoolSize].
  split; [by destruct (String.eqb_spec (RedisConfig.Addr cfg) "")|].
  repeat (split; [by apply default_positive|]).
  unfold ProvideKeyBuilder, KeyBuilder.NewKeyBuilder. cbn [KeyBuilder.prefix].
  destruct (String.eqb_spec (TrimSpace (RedisConfig.KeyPrefix (RedisConfig.withDefaults cfg))) ""); [by vm_compute|done].
Qed.

(** ** The components *)

Section Kit.
Context {R : Type} {RC : RedisClient R}.

(** Every error of the call becomes [ErrUnavailable]. *)
Definition or_unavailable {A} (m : M R A) : M R A :=
  let! x := attemptM m in
  match x with Ok a => retM a | Err _ => throwM ErrUnavailable end.

Definition Ping : M R unit := rdb_Ping.

(** [HealthChecker.Check] *)
Definition Check : M R unit := or_unavailable rdb_Ping.

(** [Cache]: the value is written as JSON and read back into [out]. *)
Definition cache_Get {T} `{JsonCodec T} (key : string) : M R T :=
  let! b := attemptM (rdb_Get key) in
  match b with
  | Err e => if Is e ERedisNil then throwM ErrCacheMiss else throwM ErrUnavailable
  | Ok b => liftM (Unmarshal b)
  end.

Definition cache_Set {T} `{JsonCodec T} (key : string) (value : T) (ttl : Z) : M R unit :=
  or_unavailable (rdb_Set key (Marshal value) ttl).

Definition cache_Delete (keys : list string) : M R unit :=
  match keys with
  | [] => retM tt
  | _ => do! or_unavailable (rdb_Del keys) in retM tt
  end.

(** [Locker] *)
Record Lock := mkLock { lock_Key : string; lock_Token : string; lock_TTL : Z }.

(** [token] is the reading of [uuid.NewString()]. *)
Definition Acquire (token key : string) (ttl : Z) : M R Lock :=
  let! ok := or_unavailable (rdb_SetNX key (PRaw token) ttl) in
  if negb ok then throwM ErrLockNotAcquired else retM (mkLock key token ttl).

(** The Lua script: [GET] of the key compared with the token, then [DEL]. *)
Definition releaseLockScript (key token : string) (m : store) : store * Z :=
  match m !! key with
  | Some (PRaw s, _) => if String.eqb s token then (delete key m, 1) else (m, 0)
  | _ => (m, 0)
  end.

Definition Release (lock : option Lock) : M R unit :=
  match lock with
  | None => retM tt
  | Some l =>
      let! n := or_unavailable (rdb_Eval (releaseLockScript (lock_Key l) (lock_Token l))) in
      if n =? 0 then throwM ErrLockNotHeld else retM tt
  end.

(** [RateLimiter] *)
Record RateLimitResult := mkRateLimitResult {
  Allowed : bool; Count : Z; Remaining : Z; ResetIn : Z
}.

Definition Allow (key : string) (limit window : Z) : M R RateLimitResult :=
  let! n := or_unavailable (rdb_Incr key) in
  do! (if n =? 1 then do! or_unavailable (rdb_Expire key window) in retM tt else retM tt) in
  let! ttl := or_unavailable (rdb_TTL key) in
  let remaining := wrap64 (limit - n) in
  let remaining := if remaining <? 0 then 0 else remaining in
  retM (mkRateLimitResult (n <=? limit) n remaining ttl).

(** [QuotaStore] *)
Definition quota_Increment (key : string) (ttl : Z) : M R Z :=
  let! n := or_unavailable (rdb_Incr key) in
  do! (if (n =? 1) && (0 <? ttl) then do! or_unavailable (rdb_Expire key ttl) in retM tt
       else retM tt) in
  retM n.

(** [Get(...).Int64()]: the value parsed as an integer. *)
Definition quota_Get (key : string) : M R Z :=
  or_unavailable (
    let! v := rdb_Get key in
    match v with
    | PRaw s => match ParseInt s with (n, None) => retM n | (_, Some e) => throwM e end
    | PJson _ => throwM ErrSyntax
    end).
End Kit.

(** ** Properties *)

Section KitLemmas.
Context {R : Type} {RC : RedisClient R} {RV : RedisView R} {RL : RedisLaws R}.

Lemma or_unavailable_ok {A} (m : M R A) r r' a :
  or_unavailable m r = (r', Ok a) -> m r = (r', Ok a).
Proof.
  unfold or_unavailable, attemptM, bindM. destruct (m r) as [r1 [a1|e1]]; simpl;
    unfold retM, throwM; intros; by simplify_eq.
Qed.

Lemma or_unavailable_err {A} (m : M R A) r r' e :
  or_unavailable m r = (r', Err e) -> e = ErrUnavailable /\ exists e0, m r = (r', Err e0).
Proof.
  unfold or_unavailable, attemptM, bindM. destruct (m r) as [r1 [a1|e1]]; simpl;
    unfold retM, throwM; intros; simplify_eq; eauto.
Qed.

(** *** Locks *)

Lemma Acquire_ok token key ttl r r' l :
  Acquire token key ttl r = (r', Ok l) ->
  l = mkLock key token ttl /\ rd_abs r !! key = None /\
  rd_abs r' = <[key := (PRaw token, set_ttl None ttl)]> (rd_abs r).
Proof.
  unfold Acquire. intros (r1 & ok & Ha & Hk)%bindM_ok. apply or_unavailable_ok in Ha.
  apply rdb_SetNX_ok in Ha as [(-> & Hn & Hs)|(-> & _ & _)]; simpl in Hk;
    unfold retM, throwM in Hk; by simplify_eq.
Qed.

(** A refused acquisition changed nothing, or (the reply was lost) set a free key. *)
Lemma Acquire_err token key ttl r r' e :
  Acquire token key ttl r = (r', Err e) ->
  rd_abs r' = rd_abs r \/
  (rd_abs r !! key = None /\ rd_abs r' = <[key := (PRaw token, set_ttl None ttl)]> (rd_abs r)).
Proof.
  unfold Acquire. intros [Ha|(r1 & ok & Ha & Hk)]%bindM_err.
  - apply or_unavailable_err in Ha as (_ & e0 & Ha). by eapply rdb_SetNX_err.
  - apply or_unavailable_ok in Ha. left.
    apply rdb_SetNX_ok in Ha as [(-> & _ & _)|(-> & _ & Hs)]; simpl in Hk;
      unfold retM, throwM in Hk; by simplify_eq.
Qed.

Lemma releaseLockScript_store key token m :
  fst (releaseLockScript key token m) = m \/
  (fst (releaseLockScript key token m) = delete key m /\ exists t, m !! key = Some (PRaw token, t)).
Proof.
  unfold releaseLockScript. destruct (m !! key) as [[[s|j] t]|] eqn:E; simpl; auto.
  destruct (String.eqb_spec s token) as [->|]; simpl; eauto.
Qed.

(** Whatever [Release] returns, it removed at most the key, and only while the
    key held the caller's token. *)
Lemma Release_store l r r' x :
  Release (Some l) r = (r', x) ->
  rd_abs r' = rd_abs r \/
  (rd_abs r' = delete (lock_Key l) (rd_abs r) /\
   exists t, rd_abs r !! lock_Key l = Some (PRaw (lock_Token l), t)).
Proof.
  intros Hr. assert (Hs := releaseLockScript_store (lock_Key l) (lock_Token l) (rd_abs r)).
  cut (rd_abs r' = rd_abs r \/
       rd_abs r' = fst (releaseLockScript (lock_Key l) (lock_Token l) (rd_abs r)));
    [intros [Ha|Ha]; rewrite Ha; [by left|destruct Hs as [Hs|[Hs ?]]; rewrite Hs; auto]|].
  clear Hs. unfold Release, or_unavailable, attemptM, rdb_Eval, bindM, liftM in Hr.
  destruct (rd_cases (EVAL (releaseLockScript (lock_Key l) (lock_Token l))) r)
    as [(r1 & rep & E & Hc)|(r1 & e & E & _ & Hc)]; rewrite E in Hr; simpl in Hc;
    destruct (releaseLockScript (lock_Key l) (lock_Token l) (rd_abs r)) as [m n];
    simplify_eq/=; unfold retM, throwM in *.
  - destruct (n =? 0); simplify_eq/=; auto.
  - naive_solver.
Qed.
End KitLemmas.

(** Clients that take and give back locks, with time passing and other traffic.
    [l_held] are the locks a client believes to hold: acquired, not yet given
    to [Release], their time to live (kept in the second component) not over. *)
Section LockSystem.
Context {R : Type} {RC : RedisClient R} {RV : RedisView R} {RL : RedisLaws R}.

Record lsys := mkLsys {
  l_redis : R; l_held : list (Lock * Z); l_issued : list Lock; l_used : list string
}.

Definition held_age (d : Z) (h : list (Lock * Z)) : list (Lock * Z) :=
  map (fun '(l, t) => (l, t - d)) (where_ (fun '(_, t) => d <? t) h).

#[local] Instance Lock_eq_dec : EqDecision Lock.
Proof. solve_decision. Defined.

Inductive lock_step : lsys -> lsys -> Prop :=
| ls_acquired s token key ttl r' l :
    token ∉ l_used s -> 0 < ttl -> Acquire token key ttl (l_redis s) = (r', Ok l) ->
    lock_step s (mkLsys r' ((l, ms_ttl ttl) :: l_held s) (l :: l_issued s) (token :: l_used s))
| ls_refused s token key ttl r' e :
    token ∉ l_used s -> Acquire token key ttl (l_redis s) = (r', Err e) ->
    lock_step s (mkLsys r' (l_held s) (l_issued s) (token :: l_used s))
| ls_release s l r' x :
    l ∈ l_issued s -> Release (Some l) (l_redis s) = (r', x) ->
    lock_step s (mkLsys r' (where_ (fun h => negb (bool_decide (fst h = l))) (l_held s))
                        (l_issued s) (l_used s))
| ls_elapse s d :
    0 <= d ->
    lock_step s (mkLsys (rd_elapse d (l_redis s)) (held_age d (l_held s)) (l_issued s) (l_used s))
| ls_other s r' :
    (forall h, h ∈ l_held s ->
       rd_abs r' !! lock_Key (fst h) = rd_abs (l_redis s) !! lock_Key (fst h)) ->
    lock_step s (mkLsys r' (l_held s) (l_issued s) (l_used s)).

Record lock_inv (s : lsys) : Prop := {
  li_stored : forall l t, (l, t) ∈ l_held s ->
    rd_abs (l_redis s) !! lock_Key l = Some (PRaw (lock_Token l), Some t);
  li_issued : forall l t, (l, t) ∈ l_held s -> l ∈ l_issued s;
  li_tokens : NoDup (lock_Token <$> l_issued s);
  li_used : forall l, l ∈ l_issued s -> lock_Token l ∈ l_used s
}.

Lemma lock_inv_acquired s token key ttl r' l :
  lock_inv s -> token ∉ l_used s -> 0 < ttl -> Acquire token key ttl (l_redis s) = (r', Ok l) ->
  lock_inv (mkLsys r' ((l, ms_ttl ttl) :: l_held s) (l :: l_issued s) (token :: l_used s)).
Proof.
  intros [H1 H2 H3 H4] Hf Ht (-> & Hn & Hs)%Acquire_ok. unfold set_ttl in Hs.
  rewrite (proj2 (Z.ltb_lt 0 ttl) Ht) in Hs. split; simpl.
  - rewrite Hs. intros l t [Heq|Hin]%elem_of_cons.
    + simplify_eq/=. by rewrite lookup_insert_eq.
    + specialize (H1 _ _ Hin). rewrite lookup_insert_ne; [done|]. congruence.
  - intros l t [Heq|Hin]%elem_of_cons; [simplify_eq; left|right; eauto].
  - csimpl. apply NoDup_cons. split; [|done]. intros (l' & Hl & Hin)%list_elem_of_fmap.
    apply Hf. rewrite Hl. eauto.
  - intros l [->|Hin]%elem_of_cons; simpl; [left|right; eauto].
Qed.

Lemma lock_inv_refused s token key ttl r' e :
  lock_inv s -> Acquire token key ttl (l_redis s) = (r', Err e) ->
  lock_inv (mkLsys r' (l_held s) (l_issued s) (token :: l_used s)).
Proof.
  intros [H1 H2 H3 H4] Ha%Acquire_err. split; simpl; [|by eauto|done|].
  - intros l t Hin. specialize (H1 _ _ Hin). destruct Ha as [->|[Hn ->]]; [done|].
    rewrite lookup_insert_ne; [done|]. congruence.
  - intros l Hin. right. eauto.
Qed.

Lemma lock_inv_release s l r' x :
  lock_inv s -> l ∈ l_issued s -> Release (Some l) (l_redis s) = (r', x) ->
  lock_inv (mkLsys r' (where_ (fun h => negb (bool_decide (fst h = l))) (l_held s))
                   (l_issued s) (l_used s)).
Proof.
  intros [H1 H2 H3 H4] Hl Hr%Release_store. split; simpl; [|..|done|done].
  - intros l' t [Hin Hne]%elem_of_where. simpl in Hne. apply negb_true_iff in Hne.
    apply bool_decide_eq_false in Hne. pose proof (H1 _ _ Hin) as H1'.
    destruct Hr as [->|[-> (t' & Ht')]]; [done|].
    rewrite lookup_delete_ne; [done|]. intros Hk. rewrite Hk in Ht'. rewrite H1' in Ht'.
    simplify_eq. destruct Hne.
    by apply (nodup_key_inj lock_Token (l_issued s)); eauto.
  - intros l' t [Hin _]%elem_of_where. eauto.
Qed.

Lemma lock_step_inv s s' : lock_inv s -> lock_step s s' -> lock_inv s'.
Proof.
  intros Hi Hs. destruct Hs as [s token key ttl r' l Hf Ht Ha|s token key ttl r' e Hf Ha
    |s l r' x Hl Hr|s d Hd|s r' Ho].
  - by eapply lock_inv_acquired.
  - by eapply lock_inv_refused.
  - by eapply lock_inv_release.
  - destruct Hi as [H1 H2 H3 H4]. unfold held_age. split; simpl; [|..|done|done].
    + intros l t ([l' t'] & Heq & Hin)%list_elem_of_fmap. simplify_eq.
      apply elem_of_where in Hin as [Hin Hlt%Z.ltb_lt]. rewrite rd_time by done.
      by apply elapse_lookup_live; eauto.
    + intros l t ([l' t'] & Heq & Hin)%list_elem_of_fmap. simplify_eq.
      apply elem_of_where in Hin as [Hin _]. eauto.
  - destruct Hi as [H1 H2 H3 H4]. split; simpl; [|done|done|done].
    intros l t Hin. specialize (Ho _ Hin). simpl in Ho. by rewrite Ho, (H1 _ _ Hin).
Qed.

Lemma lock_reach_inv s s' : lock_inv s -> rtc lock_step s s' -> lock_inv s'.
Proof. intros Hi Hr. induction Hr; eauto using lock_step_inv. Qed.

(** C2: Mutual exclusion of [Locker]. Clients acquire and release locks in any
    order with fresh tokens, commands fail at any point (before or after Redis
    ran them), time passes and other traffic leaves the lock keys alone: two
    locks on one key that their owners believe to hold are the same lock, and
    Redis still stores its token. *)
Theorem lock_mutual_exclusion r s l1 t1 l2 t2 :
  rtc lock_step (mkLsys r [] [] []) s ->
  (l1, t1) ∈ l_held s -> (l2, t2) ∈ l_held s -> lock_Key l1 = lock_Key l2 ->
  l1 = l2 /\ rd_abs (l_redis s) !! lock_Key l1 = Some (PRaw (lock_Token l1), Some t1).
Proof.
  intros Hr Hin1 Hin2 Hk.
  assert (Hi : lock_inv s).
  { eapply lock_reach_inv; [|done]. split; simpl; try (by intros ? ? ?%elem_of_nil).
    - constructor.
    - by intros ? ?%elem_of_nil. }
  pose proof (li_stored _ Hi _ _ Hin1) as E1. pose proof (li_stored _ Hi _ _ Hin2) as E2.
  split; [|done]. rewrite <- Hk, E1 in E2. simplify_eq.
  by apply (nodup_key_inj lock_Token (l_issued s)); eauto using li_issued, li_tokens.
Qed.
End LockSystem.

Module LockDemo.
Definition r0 : Script.t := Script.mk ∅ [].
Definition l1 : Lock := mkLock "app:lock:a" "token-1" (30 * Second).
Definition l2 : Lock := mkLock "app:lock:a" "token-2" (30 * Second).
Definition r1 := fst (Acquire "token-1" "app:lock:a" (30 * Second) r0).
Definition r2 := rd_elapse (30 * Second) r1.
Definition r3 := fst (Acquire "token-2" "app:lock:a" (30 * Second) r2).
Definition r4 := fst (Release (Some l1) r3).
(** The first owner's lock ran out, a second client took the key, and the first
    owner's late [Release] left it alone. *)
Definition s4 : lsys := mkLsys r4 [(l2, 30 * Second)] [l2; l1] ["token-2"; "token-1"].

Lemma lock_trace : rtc lock_step (mkLsys r0 [] [] []) s4.
Proof.
  eapply rtc_l; [apply (ls_acquired (mkLsys r0 [] [] []) "token-1" "app:lock:a" (30 * Second) r1 l1);
    [by apply not_elem_of_nil|done|by vm_compute]|].
  eapply rtc_l; [apply (ls_elapse _ (30 * Second)); done|].
  eapply rtc_l; [eapply (ls_acquired _ "token-2" "app:lock:a" (30 * Second) r3 l2);
    [by intros [?|?%elem_of_nil]%elem_of_cons|done|by vm_compute]|].
  eapply rtc_l; [|apply rtc_refl].
  eapply (ls_release (mkLsys r3 [(l2, 30 * Second)] [l2; l1] ["token-2"; "token-1"]) l1 r4);
    [by right; left|by vm_compute].
Qed.
End LockDemo.

Lemma lock_mutual_exclusion_witness :
  rd_abs LockDemo.r4 !! "app:lock:a" = Some (PRaw "token-2", Some (30 * Second)).
Proof.
  apply (proj2 (lock_mutual_exclusion LockDemo.r0 LockDemo.s4 LockDemo.l2 (30 * Second)
    LockDemo.l2 (30 * Second) LockDemo.lock_trace ltac:(by left) ltac:(by left) eq_refl)).
Defined.

(** *** Rate limiting *)

Section RateLimit.
Context {R : Type} {RC : RedisClient R} {RV : RedisView R} {RL : RedisLaws R}.
Context (key : string) (limit window : Z).

(** Calls of [Allow], each after [d] nanoseconds. *)
Fixpoint run_allow (ds : list Z) (r : R) : R * list (result RateLimitResult) :=
  match ds with
  | [] => (r, [])
  | d :: ds =>
      let '(r1, x) := Allow key limit window (rd_elapse d r) in
      let '(r2, xs) := run_allow ds r1 in (r2, x :: xs)
  end.

Definition is_allowed (x : result RateLimitResult) : bool :=
  match x with Ok a => Allowed a | Err _ => false end.

Definition admitted (xs : list (result RateLimitResult)) : Z :=
  Z.of_nat (length (where_ is_allowed xs)).

(** The counter has reached [c] and does not expire within [b]. *)
Definition counter (m : store) (c b : Z) : Prop :=
  (m !! key = None /\ c = 0) \/
  exists n ot, m !! key = Some (PRaw (FormatInt n), ot) /\ is_int64 n = true /\ c <= n /\
    forall t, ot = Some t -> b < t.

Lemma incr_value_counter m n ot :
  m !! key = Some (PRaw (FormatInt n), ot) -> is_int64 n = true -> incr_value m key = Some n.
Proof.
  intros Hm Hn. unfold incr_value. rewrite Hm, ParseInt_FormatInt by done.
  by rewrite String.eqb_refl.
Qed.

Lemma counter_incr m c b n :
  counter m c b -> incr_value m key = Some n -> n <> int64_max ->
  c + 1 <= n + 1 /\ counter (<[key := (PRaw (FormatInt (n + 1)), old_ttl m key)]> m) (n + 1) b.
Proof.
  intros [[Hm ->]|(n' & ot & Hm & Hn & Hc & Ht)] Hv Hmax.
  - unfold incr_value in Hv. rewrite Hm in Hv. simplify_eq. split; [lia|]. right.
    exists 1, None. unfold old_ttl. rewrite Hm. by rewrite lookup_insert_eq.
  - rewrite (incr_value_counter _ _ _ Hm Hn) in Hv. simplify_eq. split; [lia|]. right.
    exists (n + 1), ot. unfold old_ttl. rewrite Hm, lookup_insert_eq. split; [done|].
    split; [|split; [lia|done]]. unfold is_int64 in *. apply andb_true_iff in Hn as [H1 H2].
    apply Z.leb_le in H1, H2. apply andb_true_iff. split; apply Z.leb_le; lia.
Qed.

Lemma counter_incr_any m m' c b :
  counter m c b -> m' = m \/ m' = fst (cmd_spec (INCR key) m) -> counter m' c b.
Proof.
  intros Hc [->| ->]; [done|]. simpl. destruct (incr_value m key) as [n|] eqn:E; [|done].
  destruct (Z.eqb_spec n int64_max); [done|]. simpl.
  destruct (counter_incr _ _ _ _ Hc E ltac:(done)) as [Hle [[Hx ->]|(n' & ot & H1 & H2 & H3 & H4)]].
  - by rewrite lookup_insert_eq in Hx.
  - right. exists n', ot. split_and!; try done. lia.
Qed.

Lemma counter_expire m m' c b :
  b < expire_secs window -> 0 <= b -> counter m c b ->
  m' = m \/ m' = fst (cmd_spec (EXPIRE key window) m) -> counter m' c b.
Proof.
  intros Hb H0 Hc [->| ->]; [done|]. simpl.
  destruct Hc as [[Hm ->]|(n & ot & Hm & Hn & Hc & Ht)]; rewrite Hm; [by left|].
  destruct (Z.leb_spec (expire_secs window) 0); [lia|]. simpl. right.
  exists n, (Some (expire_secs window)). rewrite lookup_insert_eq.
  split_and!; try done. by intros t [= <-].
Qed.

Lemma counter_elapse m c b d :
  0 <= d <= b -> counter m c b -> counter (elapse d m) c (b - d).
Proof.
  intros Hd [[Hm ->]|(n & ot & Hm & Hn & Hc & Ht)].
  - left. split; [by apply elapse_lookup_none|done].
  - right. exists n. destruct ot as [t|].
    + exists (Some (t - d)). specialize (Ht t eq_refl). split_and!; try done.
      * apply elapse_lookup_live; [done|lia].
      * intros t' [= <-]. lia.
    + exists None. split_and!; try done. unfold elapse. by rewrite lookup_omap, Hm.
Qed.

(** Effect of a command that only reads the reply. *)
Lemma unavailable_do {A} c (k : reply -> result A) r r' x :
  or_unavailable (let! rep := rd_do c in liftM (k rep)) r = (r', x) ->
  rd_abs r' = rd_abs r \/ rd_abs r' = fst (cmd_spec c (rd_abs r)).
Proof.
  destruct x as [a|e]; [intros Ha%or_unavailable_ok|intros (_ & e0 & Ha)%or_unavailable_err];
    apply do_then in Ha as [(rep & Hs & Hx)|(e' & He & _ & Ho)]; auto; right; by rewrite Hs.
Qed.

(** One call: the counter never falls, and an admitted call raised it to at
    most [limit]. *)
Lemma Allow_counter c b r r' x :
  b < expire_secs window -> 0 <= b -> counter (rd_abs r) c b ->
  Allow key limit window r = (r', x) ->
  exists c', counter (rd_abs r') c' b /\ c <= c' /\
    (is_allowed x = true -> c + 1 <= c' /\ c' <= limit).
Proof.
  intros Hb H0 Hc. unfold Allow, bindM.
  destruct (or_unavailable (rdb_Incr key) r) as [r1 [n|e]] eqn:E1.
  2: { intros. simplify_eq. exists c. split; [|split; [lia|done]].
       eapply counter_incr_any; [done|]. exact (unavailable_do _ _ _ _ _ E1). }
  apply or_unavailable_ok, rdb_Incr_ok in E1 as (n0 & Hv & -> & Hmax & Hs).
  destruct (counter_incr _ _ _ _ Hc Hv Hmax) as [Hle Hc1]. rewrite <- Hs in Hc1. clear Hc Hs.
  assert (Hx : forall r2 x, (if n0 + 1 =? 1 then or_unavailable (rdb_Expire key window) r1
                              else (r1, Ok true)) = (r2, x) -> counter (rd_abs r2) (n0 + 1) b).
  { intros r2 x0. destruct (n0 + 1 =? 1); intros E; simplify_eq; [|done].
    eapply counter_expire; [done|done|done|]. exact (unavailable_do _ _ _ _ _ E). }
  intros Hk. exists (n0 + 1).
  destruct (n0 + 1 =? 1) eqn:En; unfold retM in Hk.
  - destruct (or_unavailable (rdb_Expire key window) r1) as [r2 [u|e]] eqn:E2;
      [|simplify_eq; split; [eauto|split; [lia|done]]].
    specialize (Hx _ _ eq_refl).
    destruct (or_unavailable (rdb_TTL key) r2) as [r3 [t|e]] eqn:E3;
      apply unavailable_do in E3; simpl in E3; simplify_eq; simpl;
      (split; [by destruct E3 as [E3|E3]; rewrite E3|split; [lia|try done]]).
    intros Hal%Z.leb_le. lia.
  - specialize (Hx _ _ eq_refl).
    destruct (or_unavailable (rdb_TTL key) r1) as [r3 [t|e]] eqn:E3;
      apply unavailable_do in E3; simpl in E3; simplify_eq; simpl;
      (split; [by destruct E3 as [E3|E3]; rewrite E3|split; [lia|try done]]).
    intros Hal%Z.leb_le. lia.
Qed.

Lemma run_allow_bound ds c b r :
  b < expire_secs window -> Forall (fun d => 0 <= d) ds -> foldr Z.add 0 ds <= b ->
  counter (rd_abs r) c b ->
  admitted (snd (run_allow ds r)) <= Z.max 0 (limit - c).
Proof.
  revert c b r. induction ds as [|d ds IH]; intros c b r Hb Hd Hs Hc; simpl; [unfold admitted; simpl; lia|].
  simpl in Hs. apply Forall_cons in Hd as [Hd0 Hd].
  assert (Hsum : 0 <= foldr Z.add 0 ds) by (clear -Hd; induction Hd; simpl; lia).
  destruct (Allow key limit window (rd_elapse d r)) as [r1 x] eqn:E.
  apply (counter_elapse _ _ _ d) in Hc; [|lia]. rewrite <- rd_time in Hc by done.
  apply (Allow_counter c (b - d)) in E as (c' & Hc' & Hle & Hal); [|lia|lia|done].
  specialize (IH c' (b - d) r1). destruct (run_allow ds r1) as [r2 xs]. simpl in *.
  specialize (IH ltac:(lia) Hd ltac:(lia) Hc'). unfold admitted in *. simpl.
  destruct (is_allowed x); [|lia]. specialize (Hal eq_refl). simpl length. lia.
Qed.

(** [RateLimiter.Allow] admits at most [limit] calls per window: from a state
    where the key is free, over any sequence of calls within one window, with
    command failures anywhere (also an [EXPIRE] that is never executed). *)
Theorem rate_limit_window ds r :
  rd_abs r !! key = None -> Forall (fun d => 0 <= d) ds -> foldr Z.add 0 ds < expire_secs window ->
  admitted (snd (run_allow ds r)) <= Z.max 0 limit.
Proof.
  intros Hk Hd Hs.
  pose proof (run_allow_bound ds 0 (foldr Z.add 0 ds) r Hs Hd ltac:(lia) ltac:(by left)) as Hb.
  by rewrite Z.sub_0_r in Hb.
Qed.
End RateLimit.

Lemma rate_limit_window_witness :
  let out := snd (run_allow "rate:login:1" 2 Minute [0; Second; Second; Second] LockDemo.r0) in
  map is_allowed out = [true; true; false; false] /\ admitted out <= 2.
Proof.
  intros out. split; [by vm_compute|].
  by apply (rate_limit_window "rate:login:1" 2 Minute [0; Second; Second; Second] LockDemo.r0);
    [|repeat constructor|].
Defined.

