(* ===== verification/Idempotency.v ===== *)
(** * Idempotent requests

    [internal/platform/idempotency]: keys (key.go), records (record.go), the
    [Store] interface with its Redis implementation (interface.go,
    redis_store.go), the service (service.go) and the HTTP middleware
    (middleware.go). The service and the middleware are written and proved
    against the class [Store]; [redis_store] implements it and [redis_store_laws]
    discharges its contract. The store of processed events is a table of the
    database and follows in Database.v. *)

From Stdlib Require Import ZArith NArith String Ascii Lia.
From stdpp Require Import base strings list gmap relations.
From S2P Require Import Prelude GoStrings Crypto Json Gin RedisClient.

Local Open Scope Z_scope.

(** The zero [time.Time] (1 January of year 1). *)
Definition time_zero : Z := -62135596800 * Second.

(** ** Errors: [errors.go] *)

Definition ErrMissingKey : error := ENew "idempotency key is required".
Definition ErrRequestInProgress : error :=
  ENew "request with same idempotency key is in progress".
Definition ErrRequestHashMismatch : error :=
  ENew "same idempotency key used with different payload".
Definition ErrRecordNotFound : error := ENew "idempotency record not found".
Definition ErrMissingConsumerName : error := ENew "consumer name is required".
Definition ErrMissingEventID : error := ENew "event ID is required".

(** ** Keys: [key.go] *)

Definition DefaultRedisKeyPrefix : string := "idempotency:".

Definition NormalizeScope `{Unicode} (scope : string) : string :=
  let scope := TrimSpace (ToLower scope) in
  let scope := ReplaceAll scope " " "_" in
  let scope := ReplaceAll scope "/" "_" in
  let scope := ReplaceAll scope ":" "_" in
  if String.eqb scope "" then "default" else scope.

Definition NormalizeKey (raw : string) : string := TrimSpace raw.

Definition BuildKey `{Unicode} (scope rawKey : string) : string :=
  DefaultRedisKeyPrefix +:+ NormalizeScope scope +:+ ":" +:+ NormalizeKey rawKey.

Definition WithIdempotencyKey (ctx : Ctx) (key : string) : Ctx :=
  mkCtx (Some key) (ctx_reqid ctx) (ctx_tx ctx).
Definition GetIdempotencyKey (ctx : Ctx) : string := default "" (ctx_idem ctx).
Definition WithRequestIdKey (ctx : Ctx) (key : string) : Ctx :=
  mkCtx (ctx_idem ctx) (Some key) (ctx_tx ctx).
Definition GetRequestIdKey (ctx : Ctx) : string := default "" (ctx_reqid ctx).

(** ** Records: [record.go] *)

Definition StatusInProgress : string := "in_progress".
Definition StatusCompleted : string := "completed".

Inductive ReserveDecision := ReserveAcquired | ReserveExisting.
Inductive BeginDecision := BeginProceed | BeginReplay | BeginConflict.

Record Record_ := mkRecord {
  Key_ : string;
  Scope : string;
  Status : string;
  RequestHash : string;
  ResponseCode : Z;
  ResponseBody : bytes;
  Headers : gmap string string;
  StartedAt : Z;
  CompletedAt : Z
}.

Record Result := mkResult {
  StatusCode : Z;
  Body : bytes;
  ResultHeaders : gmap string string
}.

Record BeginResult := mkBeginResult {
  Decision : option BeginDecision;
  BeginRecord : option Record_
}.

(** *** JSON form, with the struct tags of record.go

    The members of an object that stands for a Go map have no order that
    decoding could observe. *)

Definition headers_json (h : gmap string string) : json :=
  JObj (map (fun '(k, v) => (utf8_clean k, jstr v)) (map_to_list h)).

Fixpoint json_headers (l : list (string * json)) : result (gmap string string) :=
  match l with
  | [] => Ok ∅
  | (k, v) :: l =>
      let? h := json_headers l in
      match v with
      | JStr s => Ok (<[k := s]> h)
      | JNull => Ok (<[k := ""]> h)
      | _ => Err ErrUnmarshalType
      end
  end.

Definition get_headers (fields : list (string * json)) : result (gmap string string) :=
  match jfield "headers" fields with
  | None | Some JNull => Ok ∅
  | Some (JObj l) => json_headers l
  | _ => Err ErrUnmarshalType
  end.

Definition record_json (r : Record_) : json :=
  JObj ([("key", jstr (Key_ r)); ("scope", jstr (Scope r)); ("status", jstr (Status r))]
    ++ omitempty (String.eqb (RequestHash r) "") "request_hash" (jstr (RequestHash r))
    ++ omitempty (ResponseCode r =? 0) "response_code" (JNum (ResponseCode r))
    ++ omitempty (bool_decide (length (ResponseBody r) = 0%nat)) "response_body"
         (JBytes (ResponseBody r))
    ++ omitempty (bool_decide (Headers r = ∅)) "headers" (headers_json (Headers r))
    ++ [("started_at", JTime (StartedAt r)); ("completed_at", JTime (CompletedAt r))]).

Definition json_record (j : json) : result Record_ :=
  match j with
  | JNull => Ok (mkRecord "" "" "" "" 0 [] ∅ time_zero time_zero)
  | JObj f =>
      let? k := get_str f "key" in
      let? sc := get_str f "scope" in
      let? st := get_str f "status" in
      let? h := get_str f "request_hash" in
      let? c := get_num f "response_code" in
      let? b := get_bytes f "response_body" in
      let? hs := get_headers f in
      let? t1 := get_time f time_zero "started_at" in
      let? t2 := get_time f time_zero "completed_at" in
      Ok (mkRecord k sc st h c b hs t1 t2)
  | _ => Err ErrUnmarshalType
  end.

#[export] Instance record_codec : JsonCodec Record_ := {|
  to_json := record_json; of_json := json_record
|}.

(** ** The store *)

(** [Store] of interface.go. *)
Class Store (S : Type) := {
  Reserve : Record_ -> Z -> M S (ReserveDecision * option Record_);
  store_Get : string -> M S Record_;
  Complete : string -> Result -> Z -> Z -> M S unit;
  store_Release : string -> M S unit
}.

(** A process state with a Redis connection. *)
Class HasRedis (S R : Type) := {
  get_redis : S -> R;
  set_redis : R -> S -> S
}.
Class HasRedisLaws (S R : Type) `{HasRedis S R} : Prop := {
  get_set_redis : forall r s, get_redis (set_redis r s) = r
}.
Definition redisM {S R A} `{HasRedis S R} (m : M R A) : M S A := zoomM get_redis set_redis m.

Definition cloneHeaders (h : gmap string string) : gmap string string := h.

(** The assignments [Complete] makes to the record it has read. *)
Definition completed (rec : Record_) (result : Result) (now : Z) : Record_ :=
  mkRecord (Key_ rec) (Scope rec) StatusCompleted (RequestHash rec) (StatusCode result)
    (Body result) (cloneHeaders (ResultHeaders result)) (StartedAt rec) now.

Section RedisStore.
Context {R : Type} {RC : RedisClient R}.

Definition redisKey (key : string) : string := key.

Definition wrapRedisErr (err : error) : error :=
  if Is err ERedisNil then ErrRecordNotFound else err.

Definition rs_Get (key : string) : M R Record_ :=
  let! raw := attemptM (rdb_Get (redisKey key)) in
  match raw with
  | Err e => if Is e ERedisNil then throwM ErrRecordNotFound else throwM e
  | Ok raw => liftM (Unmarshal raw)
  end.

Definition rs_Reserve (rec : Record_) (ttl : Z) : M R (ReserveDecision * option Record_) :=
  let key := redisKey (Key_ rec) in
  let payload := Marshal rec in
  let! ok := rdb_SetNX key payload ttl in
  if ok : bool then retM (ReserveAcquired, Some rec)
  else
    let! existing := rs_Get (Key_ rec) in
    retM (ReserveExisting, Some existing).

Definition rs_Complete (key : string) (result : Result) (ttl now : Z) : M R unit :=
  let! rec := attemptM (rs_Get key) in
  match rec with
  | Err e => if Is e ErrRecordNotFound then retM tt else throwM e
  | Ok rec =>
      let payload := Marshal (completed rec result now) in
      let! x := attemptM (rdb_Set (redisKey key) payload ttl) in
      match x with
      | Err e => throwM (wrapRedisErr e)
      | Ok _ => retM tt
      end
  end.

Definition rs_Release (key : string) : M R unit :=
  let! x := attemptM (rdb_Del [redisKey key]) in
  match x with
  | Err e => throwM (wrapRedisErr e)
  | Ok _ => retM tt
  end.
End RedisStore.

(** [NewRedisStore]: the store of a process with a Redis connection. *)
#[export] Instance redis_store {S R} `{HasRedis S R} `{RedisClient R} : Store S := {|
  Reserve rec ttl := redisM (rs_Reserve rec ttl);
  store_Get key := redisM (rs_Get key);
  Complete key result ttl now := redisM (rs_Complete key result ttl now);
  store_Release key := redisM (rs_Release key)
|}.

(** ** The service: [service.go] *)

Record Config := mkConfig { InProgressTTL : Z; CompletedTTL : Z }.

(** [NewDefaultConfig] of provider.go *)
Definition NewDefaultConfig : Config := mkConfig (5 * Minute) (24 * Hour).

(** [ProcessedEventStore] of interface.go. *)
Class ProcessedEventStore (S : Type) := {
  TryMarkProcessed : string -> string -> Z -> json -> M S bool
}.

Section Service.
Context {S : Type} {U : Unicode} {ST : Store S} {CL : Clock S}.

(** [NewService]: the configuration the service works with. *)
Definition NewService (config : Config) : Config :=
  mkConfig (if InProgressTTL config <=? 0 then 3 * Minute else InProgressTTL config)
           (if CompletedTTL config <=? 0 then 24 * Hour else CompletedTTL config).

Context (config : Config).

Definition no_begin : BeginResult := mkBeginResult None None.

(** The result and the error are returned side by side. *)
Definition BeginHTTP (scope rawKey requestHash : string) : M S (BeginResult * option error) :=
  if String.eqb (TrimSpace rawKey) "" then retM (no_begin, Some ErrMissingKey) else
  let scope := NormalizeScope scope in
  let key := BuildKey scope rawKey in
  let! now := nowM in
  let record := mkRecord key scope StatusInProgress requestHash 0 [] ∅ now time_zero in
  let! reserved := attemptM (Reserve record (InProgressTTL config)) in
  match reserved with
  | Err e => retM (no_begin, Some e)
  | Ok (ReserveAcquired, _) => retM (mkBeginResult (Some BeginProceed) (Some record), None)
  | Ok (ReserveExisting, None) => retM (no_begin, Some ErrRecordNotFound)
  | Ok (ReserveExisting, Some existing) =>
      if negb (String.eqb (RequestHash existing) "") &&
         negb (String.eqb requestHash (RequestHash existing))
      then retM (no_begin, Some ErrRequestHashMismatch)
      else if String.eqb (Status existing) StatusCompleted
      then retM (mkBeginResult (Some BeginReplay) (Some existing), None)
      else retM (mkBeginResult (Some BeginConflict) (Some existing), Some ErrRequestInProgress)
  end.

Definition CompleteHTTP (scope rawKey : string) (result : Result) : M S unit :=
  if String.eqb (TrimSpace rawKey) "" then throwM ErrMissingKey else
  let key := BuildKey scope rawKey in
  let! now := nowM in
  Complete key result (CompletedTTL config) now.

Definition ReleaseHTTP (scope rawKey : string) : M S unit :=
  if String.eqb (TrimSpace rawKey) "" then throwM ErrMissingKey
  else store_Release (BuildKey scope rawKey).

Definition GetHTTP (scope rawKey : string) : M S Record_ :=
  if String.eqb (TrimSpace rawKey) "" then throwM ErrMissingKey
  else store_Get (BuildKey scope rawKey).

Definition TryProcessEvent `{ProcessedEventStore S} (consumerName eventID : string)
    (metadata : json) : M S bool :=
  if String.eqb (TrimSpace consumerName) "" then throwM ErrMissingConsumerName
  else if String.eqb (TrimSpace eventID) "" then throwM ErrMissingEventID
  else let! now := nowM in TryMarkProcessed consumerName eventID now metadata.

(** ** The middleware: [middleware.go] *)

Record MiddlewareConfig := mkMiddlewareConfig {
  KeyHeader : string;
  ScopeResolver : option (gctx -> string);
  RequestHasher : option (gctx -> string -> result string)
}.

Definition contentType (headers : gmap string string) : string :=
  match headers !! "Content-Type" with
  | Some v => if String.eqb v "" then json_ct else v
  | None => json_ct
  end.

(** The first value of every header that has one. *)
Definition flattenHeaders (h : Header) : gmap string string := omap head h.

(** [newResponseRecorder]: from here on every write is also kept. *)
Definition newResponseRecorder (w : Writer) : Writer :=
  mkWriter (w_status w) (w_written w) (w_header w) (w_body w) (Some []).

Definition recorded (w : Writer) : Result :=
  mkResult (w_status w) (default [] (w_rec w)) (flattenHeaders (w_header w)).

Definition error_body (e : error) : json := JObj [("error", jstr (ErrorText e))].

Definition replay (rec : Record_) (c : gctx) : gctx :=
  let c := foldr (fun '(k, v) c => c_Header k v c) c (map_to_list (Headers rec)) in
  let c := c_Header "X-Idempotency-Replayed" "true" c in
  Abort (c_Data (ResponseCode rec) (contentType (Headers rec)) (ResponseBody rec) c).

Definition GinMiddleware (cfg : MiddlewareConfig) (next : Handler S) : Handler S :=
  let keyHeader := if String.eqb (KeyHeader cfg) "" then "Idempotency-Key" else KeyHeader cfg in
  fun c s =>
    let rawKey := GetHeader c keyHeader in
    let scope := match ScopeResolver cfg with Some f => f c | None => "default" end in
    if String.eqb rawKey "" then (s, AbortWithStatusJSON 400 (error_body ErrMissingKey) c) else
    let c := with_ctx (WithIdempotencyKey (g_ctx c) rawKey) c in
    let body := default "" (g_body c) in
    match match RequestHasher cfg with Some f => f c body | None => Ok (HashBytes body) end with
    | Err e => (s, AbortWithStatusJSON 400 (error_body e) c)
    | Ok requestHash =>
      let '(s, r) := BeginHTTP scope rawKey requestHash s in
      let '(begin, err) := match r with Ok x => x | Err e => (no_begin, Some e) end in
      match err with
      | Some e =>
          if bool_decide (e = ErrRequestHashMismatch) || bool_decide (e = ErrRequestInProgress)
          then (s, AbortWithStatusJSON 409 (error_body e) c)
          else (s, AbortWithStatusJSON 500 (error_body e) c)
      | None =>
          match Decision begin, BeginRecord begin with
          | Some BeginReplay, Some rec => (s, replay rec c)
          | _, _ =>
              let '(s, c) := next (with_w newResponseRecorder c) s in
              (fst (CompleteHTTP scope rawKey (recorded (g_w c)) s), c)
          end
      end
    end.
End Service.

(** ** Properties *)

(** *** Keys *)

Section Keys.
Context `{Unicode}.

(** The three replacements as one pass over the bytes. *)
Definition scope_byte (c : ascii) : ascii :=
  if Ascii.eqb c " " || Ascii.eqb c "/" || Ascii.eqb c ":" then "_"%char else c.

Lemma ReplaceAll_scope s :
  ReplaceAll (ReplaceAll (ReplaceAll s " " "_") "/" "_") ":" "_" =
  string_of (map scope_byte (bytes_of s)).
Proof.
  unfold ReplaceAll. rewrite !bytes_of_string_of, !map_map. f_equal. apply map_ext.
  intros c. unfold scope_byte.
  destruct (Ascii.eqb_spec c " ") as [->|]; [reflexivity|].
  destruct (Ascii.eqb_spec c "/") as [->|]; [reflexivity|]. simpl.
  by destruct (Ascii.eqb_spec c ":") as [->|].
Qed.

Lemma NormalizeScope_bytes s :
  NormalizeScope s =
  (let u := string_of (map scope_byte (bytes_of (TrimSpace (ToLower s)))) in
   if String.eqb u "" then "default" else u).
Proof. unfold NormalizeScope. by rewrite ReplaceAll_scope. Qed.

Lemma scope_byte_lower c : lower_byte (scope_byte (lower_byte c)) = scope_byte (lower_byte c).
Proof. by destruct c as [[] [] [] [] [] [] [] []]. Qed.
Lemma scope_byte_idem c : scope_byte (scope_byte c) = scope_byte c.
Proof. by destruct c as [[] [] [] [] [] [] [] []]. Qed.
Lemma scope_byte_ascii c : (code c <? 128)%N = true -> (code (scope_byte c) <? 128)%N = true.
Proof. by destruct c as [[] [] [] [] [] [] [] []]. Qed.
Lemma scope_byte_space c : ascii_space c = false -> ascii_space (scope_byte c) = false.
Proof. by destruct c as [[] [] [] [] [] [] [] []]. Qed.
Lemma scope_byte_colon c : scope_byte c <> ":"%char.
Proof. by destruct c as [[] [] [] [] [] [] [] []]. Qed.

(** The bytes of a normalized ASCII scope are fixed by every pass. *)
Lemma NormalizeScope_fixed (t : list ascii) (s : list ascii) :
  ascii_bytes s -> t = trim_bytes (map lower_byte s) ->
  let u := string_of (map scope_byte t) in
  is_ascii u = true /\ ToLower u = u /\ TrimSpace u = u /\
  string_of (map scope_byte (bytes_of u)) = u.
Proof.
  intros Hs Ht u.
  assert (Ha : ascii_bytes (map lower_byte s)).
  { unfold ascii_bytes in *. rewrite Forall_map. eapply Forall_impl; [done|apply lower_byte_ascii]. }
  assert (Hta : ascii_bytes t) by (rewrite Ht; by apply trim_bytes_ascii).
  assert (Hu : is_ascii u = true).
  { apply is_ascii_bytes. unfold u. rewrite bytes_of_string_of. unfold ascii_bytes in *.
    rewrite Forall_map. eapply Forall_impl; [done|apply scope_byte_ascii]. }
  split; [done|]. rewrite ToLower_ascii by done. unfold u, TrimSpace.
  rewrite !bytes_of_string_of, !map_map. split_and!.
  - f_equal. apply map_ext_in. intros c Hc%list_elem_of_In. rewrite Ht in Hc.
    apply trim_bytes_incl, list_elem_of_fmap in Hc as (c' & -> & _). apply scope_byte_lower.
  - f_equal. apply trim_bytes_id. apply map_trimmed; [apply scope_byte_ascii|apply scope_byte_space|done|].
    rewrite Ht. apply trim_bytes_trimmed.
  - f_equal. apply map_ext. apply scope_byte_idem.
Qed.

Lemma NormalizeScope_default : NormalizeScope "default" = "default".
Proof. vm_compute. reflexivity. Qed.

Lemma NormalizeScope_idem s :
  is_ascii s = true -> NormalizeScope (NormalizeScope s) = NormalizeScope s.
Proof.
  intros Hs. rewrite (NormalizeScope_bytes s), (ToLower_ascii s) by done.
  destruct (NormalizeScope_fixed (bytes_of (TrimSpace (string_of (map lower_byte (bytes_of s)))))
    (bytes_of s)) as (H1 & H2 & H3 & H4).
  - by apply is_ascii_bytes.
  - unfold TrimSpace. by rewrite !bytes_of_string_of.
  - simpl in *. set (u := string_of (map scope_byte _)) in *.
    destruct (String.eqb_spec u "") as [E|E]; [apply NormalizeScope_default|].
    rewrite NormalizeScope_bytes, H2, H3, H4. simpl. by rewrite (proj2 (String.eqb_neq _ _) E).
Qed.

Lemma NormalizeScope_no_colon s : ":"%char ∉ bytes_of (NormalizeScope s).
Proof.
  rewrite NormalizeScope_bytes. simpl. case_match.
  - apply (bool_decide_unpack _). by vm_compute.
  - rewrite bytes_of_string_of. intros (c & Hc & _)%list_elem_of_fmap. by destruct (scope_byte_colon c).
Qed.

Lemma cut_unique (c : ascii) a1 a2 b1 b2 :
  c ∉ a1 -> c ∉ a2 -> a1 ++ c :: b1 = a2 ++ c :: b2 -> a1 = a2 /\ b1 = b2.
Proof.
  revert a2. induction a1 as [|x a1 IH]; intros [|y a2] H1 H2 Heq; simplify_eq/=.
  - done.
  - destruct H2. left.
  - destruct H1. left.
  - rewrite not_elem_of_cons in H1, H2. destruct (IH a2) as [-> ->]; naive_solver.
Qed.

(** Two (scope, key) pairs share a Redis key exactly when their normal
    forms agree: no choice of scope and key collides with another one, since a
    normalized scope never contains the separator. *)
Theorem BuildKey_inj scope1 key1 scope2 key2 :
  BuildKey scope1 key1 = BuildKey scope2 key2 <->
  NormalizeScope scope1 = NormalizeScope scope2 /\ NormalizeKey key1 = NormalizeKey key2.
Proof.
  unfold BuildKey. split; [|by intros [-> ->]].
  intros Heq. apply (f_equal bytes_of) in Heq. rewrite !bytes_of_app in Heq.
  apply app_inv_head in Heq. simpl in Heq.
  apply cut_unique in Heq as [H1 H2]; try apply NormalizeScope_no_colon.
  split; by apply bytes_of_inj.
Qed.
End Keys.

(** *** Records and their JSON form *)

Definition headers_clean (h : gmap string string) : gmap string string :=
  list_to_map (map (fun '(k, v) => (utf8_clean k, utf8_clean v)) (map_to_list h)).

(** What a record looks like after it was stored and read back: strings keep
    their valid UTF-8, everything else is unchanged. *)
Definition rec_clean (r : Record_) : Record_ :=
  mkRecord (utf8_clean (Key_ r)) (utf8_clean (Scope r)) (utf8_clean (Status r))
    (utf8_clean (RequestHash r)) (ResponseCode r) (ResponseBody r) (headers_clean (Headers r))
    (StartedAt r) (CompletedAt r).

Lemma json_headers_json l :
  json_headers (map (fun '(k, v) => (utf8_clean k, jstr v)) l) =
  Ok (list_to_map (map (fun '(k, v) => (utf8_clean k, utf8_clean v)) l)).
Proof. induction l as [|[k v] l IH]; simpl; [done|]. by rewrite IH. Qed.

Lemma json_record_json r : json_record (record_json r) = Ok (rec_clean r).
Proof.
  destruct r as [k sc st h c b hs t1 t2]. unfold record_json, rec_clean. simpl.
  destruct (String.eqb_spec h "") as [->|]; destruct (Z.eqb_spec c 0) as [->|];
    destruct (bool_decide_reflect (length b = 0%nat)) as [Hb|];
    destruct (bool_decide_reflect (hs = ∅)) as [->|]; simpl;
    unfold get_headers; simpl; rewrite ?json_headers_json; simpl;
    try (apply nil_length_inv in Hb as ->); done.
Qed.

Lemma headers_clean_ascii h :
  map_Forall (fun k v => is_ascii k = true /\ is_ascii v = true) h -> headers_clean h = h.
Proof.
  intros Hh. unfold headers_clean. rewrite <- (list_to_map_to_list h) at 2. f_equal.
  assert (Hl : Forall (fun kv => is_ascii (fst kv) = true /\ is_ascii (snd kv) = true) (map_to_list h)).
  { apply Forall_forall. intros [k v] Hin%elem_of_map_to_list. by apply Hh. }
  induction Hl as [|[k v] l [Hk Hv] Hl IH]; simpl in *; [done|].
  by rewrite !utf8_clean_ascii, IH.
Qed.

(** *** The contract of the store *)

(** [st_view]: the records of a state, each with its remaining time to live. *)
Class StoreView (S : Type) := {
  st_view : S -> gmap string (Record_ * option Z);
  st_elapse : Z -> S -> S
}.

Definition rec_age (d : Z) (e : Record_ * option Z) : option (Record_ * option Z) :=
  match snd e with
  | None => Some e
  | Some t => if d <? t then Some (fst e, Some (t - d)) else None
  end.

(** The record [Complete] leaves when it finds [(rec, t)]. *)
Definition completed_entry (result : Result) (ttl now : Z) (e : Record_ * option Z) :
    Record_ * option Z :=
  (rec_clean (completed (fst e) result now), set_ttl (snd e) ttl).

(** What every store promises: [Reserve] creates a record only where there was
    none and tells apart the two cases, [Complete] rewrites an existing record
    only, a failed operation had its effect or none. *)
Class StoreLaws (S : Type) `{Store S} `{StoreView S} : Prop := {
  reserve_acquired : forall rec ttl s s' o,
    Reserve rec ttl s = (s', Ok (ReserveAcquired, o)) ->
    st_view s !! Key_ rec = None /\
    st_view s' = <[Key_ rec := (rec_clean rec, set_ttl None ttl)]> (st_view s);
  reserve_existing : forall rec ttl s s' o,
    Reserve rec ttl s = (s', Ok (ReserveExisting, o)) ->
    st_view s' = st_view s /\
    exists r t, st_view s !! Key_ rec = Some (r, t) /\ o = Some r;
  reserve_err : forall rec ttl s s' e,
    Reserve rec ttl s = (s', Err e) ->
    st_view s' = st_view s \/
    (st_view s !! Key_ rec = None /\
     st_view s' = <[Key_ rec := (rec_clean rec, set_ttl None ttl)]> (st_view s));
  complete_ok : forall key result ttl now s s',
    Complete key result ttl now s = (s', Ok tt) ->
    match st_view s !! key with
    | None => st_view s' = st_view s
    | Some e => st_view s' = <[key := completed_entry result ttl now e]> (st_view s)
    end;
  complete_err : forall key result ttl now s s' e,
    Complete key result ttl now s = (s', Err e) ->
    st_view s' = st_view s \/
    exists r, st_view s !! key = Some r /\
      st_view s' = <[key := completed_entry result ttl now r]> (st_view s);
  view_elapse : forall d s, 0 <= d -> st_view (st_elapse d s) = omap (rec_age d) (st_view s)
}.

(** *** The Redis store meets the contract *)

Section RedisStoreLaws.
Context {S R : Type} {HR : HasRedis S R} {HL : HasRedisLaws S R}
  {RC : RedisClient R} {RV : RedisView R} {RL : RedisLaws R}.

Definition decode (e : payload * option Z) : option (Record_ * option Z) :=
  match Unmarshal (T:=Record_) (fst e) with Ok r => Some (r, snd e) | Err _ => None end.

#[export] Instance redis_store_view : StoreView S := {|
  st_view s := omap decode (rd_abs (get_redis s));
  st_elapse d s := set_redis (rd_elapse d (get_redis s)) s
|}.

Lemma decode_marshal rec t : decode (Marshal rec, t) = Some (rec_clean rec, t).
Proof.
  unfold decode. cbn [fst snd].
  change (Unmarshal (Marshal rec)) with (json_record (record_json rec)).
  by rewrite json_record_json.
Qed.

(** The only decoding errors are about the shape of the document. *)
Definition shape_err {A} (x : result A) : Prop :=
  match x with Ok _ => True | Err e => e = ErrUnmarshalType end.

Lemma shape_bind {A B} (x : result A) (k : A -> result B) :
  shape_err x -> (forall a, shape_err (k a)) -> shape_err (bindR x k).
Proof. destruct x; simpl; auto. Qed.
Lemma shape_str f n : shape_err (get_str f n).
Proof. unfold get_str. by destruct (jfield n f) as [[]|]. Qed.
Lemma shape_num f n : shape_err (get_num f n).
Proof. unfold get_num. by destruct (jfield n f) as [[]|]. Qed.
Lemma shape_time f z n : shape_err (get_time f z n).
Proof. unfold get_time. by destruct (jfield n f) as [[]|]. Qed.
Lemma shape_bytes f n : shape_err (get_bytes f n).
Proof. unfold get_bytes. by destruct (jfield n f) as [[]|]. Qed.
Lemma shape_json_headers l : shape_err (json_headers l).
Proof. induction l as [|[k v] l IH]; simpl; [done|]. apply shape_bind; [done|]. by destruct v. Qed.
Lemma shape_headers f : shape_err (get_headers f).
Proof.
  unfold get_headers. destruct (jfield "headers" f) as [[]|]; try done. apply shape_json_headers.
Qed.
#[local] Hint Resolve shape_str shape_num shape_time shape_bytes shape_headers : core.

Lemma shape_record j : shape_err (json_record j).
Proof. destruct j; try done. unfold json_record. repeat (apply shape_bind; [by auto|intros ?]). done. Qed.

Lemma unmarshal_record_err (p : payload) e :
  Unmarshal (T:=Record_) p = Err e -> Is e ErrRecordNotFound = false.
Proof.
  unfold Unmarshal. destruct (document p) as [j|e'] eqn:Ed; cbn [bindR].
  - intros Hj. pose proof (shape_record j) as Hs. change (of_json j) with (json_record j) in Hj.
    rewrite Hj in Hs. simpl in Hs. by subst.
  - intros Heq. injection Heq as ->. unfold document in Ed. by repeat case_match; simplify_eq.
Qed.

(** Reading a record leaves the keys alone and returns what the view shows. *)
Lemma rs_Get_view key (r r' : R) x :
  rs_Get key r = (r', x) ->
  rd_abs r' = rd_abs r /\
  match x with
  | Ok rec => exists p t, rd_abs r !! key = Some (p, t) /\ decode (p, t) = Some (rec, t)
  | Err e => Is e ErrRecordNotFound = true -> rd_abs r !! key = None
  end.
Proof.
  unfold rs_Get, redisKey, bindM, attemptM.
  destruct (rdb_Get key r) as [r1 [p|e]] eqn:E; unfold throwM, liftM.
  - apply rdb_Get_ok in E as [Ha (t & Ht)]. intros Heq. injection Heq as -> <-. split; [done|].
    destruct (Unmarshal p) as [rec|e] eqn:Eu.
    + exists p, t. split; [done|]. unfold decode. cbn [fst snd]. by rewrite Eu.
    + by rewrite (unmarshal_record_err _ _ Eu).
  - pose proof (rdb_Get_abs _ _ _ _ E) as Ha.
    destruct (rdb_Get_err _ _ _ _ E) as [[-> Hn]|[text ->]]; simpl;
      intros Heq; injection Heq as -> <-; by split.
Qed.

Lemma redisM_inv {A} (m : M R A) (s s' : S) x :
  redisM m s = (s', x) -> m (get_redis s) = (get_redis s', x).
Proof.
  unfold redisM, zoomM. destruct (m (get_redis s)) as [r1 y] eqn:E. intros Heq. simplify_eq.
  by rewrite get_set_redis.
Qed.

Lemma view_lookup (m : store) key p t :
  m !! key = Some (p, t) -> omap decode m !! key = decode (p, t).
Proof. intros Hm. by rewrite lookup_omap, Hm. Qed.

Lemma view_insert (m : store) key rec t :
  omap decode (<[key := (Marshal rec, t)]> m) = <[key := (rec_clean rec, t)]> (omap decode m).
Proof. apply omap_insert_Some, decode_marshal. Qed.

Lemma rs_Complete_view key result ttl now (r r' : R) x :
  rs_Complete key result ttl now r = (r', x) ->
  (rd_abs r' = rd_abs r /\ (x = Ok tt -> rd_abs r !! key = None)) \/
  exists e, omap decode (rd_abs r) !! key = Some e /\
    omap decode (rd_abs r') = <[key := completed_entry result ttl now e]> (omap decode (rd_abs r)).
Proof.
  unfold rs_Complete, bindM at 1, attemptM at 1.
  destruct (rs_Get key r) as [r1 y] eqn:E. apply rs_Get_view in E as [Ha Hy].
  destruct y as [rec|e].
  - destruct Hy as (p & t & Hp & Hd). intros Hk.
    assert (Hset : rd_abs r' = rd_abs r1 /\ x <> Ok tt \/
      rd_abs r' = <[key := (Marshal (completed rec result now), set_ttl (old_ttl (rd_abs r1) key) ttl)]> (rd_abs r1)).
    { unfold bindM, attemptM, redisKey in Hk.
      destruct (rdb_Set key _ ttl r1) as [r2 z] eqn:Es. unfold rdb_Set in Es.
      apply do_then in Es as [(rep & Hs & Hx)|(e & -> & _ & Hs)].
      - injection Hs as Hs <-. subst z. unfold retM in Hk. simplify_eq/=. by right.
      - unfold throwM in Hk. simplify_eq/=. destruct Hs as [->|Hs]; [by left|by right]. }
    rewrite Ha in Hset. destruct Hset as [[Hr Hx]|Hr]; [by left|]. right.
    exists (rec, t). split; [by rewrite (view_lookup _ _ _ _ Hp)|].
    rewrite Hr, view_insert. unfold completed_entry, old_ttl. rewrite Hp. done.
  - destruct (Is e ErrRecordNotFound) eqn:Ei; unfold retM, throwM; intros; simplify_eq; left;
      (split; [done|]); intros; simplify_eq; auto.
Qed.

Lemma view_get (s : S) : st_view s = omap decode (rd_abs (get_redis s)).
Proof. done. Qed.

#[export] Instance redis_store_laws : StoreLaws S.
Proof.
  split.
  - intros rec ttl s s' o Hr%redisM_inv. rewrite !view_get. unfold rs_Reserve, redisKey in Hr.
    apply bindM_ok in Hr as (r1 & ok & Hs & Hk).
    apply rdb_SetNX_ok in Hs as [(-> & Hn & Hs)|(-> & _ & Hs)].
    + unfold retM in Hk. simplify_eq. rewrite Hs, view_insert. split; [|done].
      by rewrite lookup_omap, Hn.
    + apply bindM_ok in Hk as (r2 & ex & _ & Hk). unfold retM in Hk. by simplify_eq.
  - intros rec ttl s s' o Hr%redisM_inv. rewrite !view_get. unfold rs_Reserve, redisKey in Hr.
    apply bindM_ok in Hr as (r1 & ok & Hs & Hk).
    apply rdb_SetNX_ok in Hs as [(-> & _ & _)|(-> & _ & Hs)]; [unfold retM in Hk; by simplify_eq|].
    apply bindM_ok in Hk as (r2 & ex & Hg & Hk). unfold retM in Hk. simplify_eq.
    apply rs_Get_view in Hg as [Ha (p & t & Hp & Hd)]. rewrite Ha, Hs. split; [done|].
    exists ex, t. rewrite Hs in Hp. by rewrite (view_lookup _ _ _ _ Hp).
  - intros rec ttl s s' e Hr%redisM_inv. rewrite !view_get. unfold rs_Reserve, redisKey in Hr.
    apply bindM_err in Hr as [Hs|(r1 & ok & Hs & Hk)].
    + apply rdb_SetNX_err in Hs as [->|[Hn ->]]; [by left|right].
      rewrite view_insert. split; [|done]. by rewrite lookup_omap, Hn.
    + left. apply rdb_SetNX_ok in Hs as [(-> & _ & _)|(-> & _ & Hs)]; [unfold retM in Hk; by simplify_eq|].
      apply bindM_err in Hk as [Hg|(r2 & ex & _ & Hk)]; [|unfold retM in Hk; by simplify_eq].
      apply rs_Get_view in Hg as [-> _]. by rewrite Hs.
  - intros key result ttl now s s' Hr%redisM_inv. rewrite !view_get.
    apply rs_Complete_view in Hr as [[-> Hn]|(e & -> & ->)]; [|done].
    by rewrite lookup_omap, Hn.
  - intros key result ttl now s s' e Hr%redisM_inv. rewrite !view_get.
    apply rs_Complete_view in Hr as [[-> _]|(e' & He & ->)]; [by left|eauto].
  - intros d s Hd. rewrite !view_get. simpl. rewrite get_set_redis, rd_time by done.
    apply map_eq. intros k. unfold elapse. rewrite !lookup_omap.
    destruct (rd_abs (get_redis s) !! k) as [[p [t|]]|]; simpl; [|unfold decode; simpl; by destruct (Unmarshal p)|done].
    unfold age. simpl. destruct (d <? t) eqn:Et; simpl; unfold decode; simpl;
      destruct (Unmarshal p); simpl; unfold rec_age; simpl; by rewrite ?Et.
Qed.

(** C28: The Redis store refines the abstract store of reservations: seen through the
    records it holds, [Reserve] creates a record exactly where there was none and
    otherwise returns the one in place, [Complete] rewrites an existing record and
    nothing else, a command that fails took effect or did not, and records age as
    their expiry says. *)
Theorem redis_store_refines : StoreLaws S.
Proof. exact redis_store_laws. Qed.
End RedisStoreLaws.

(** *** The service against the contract of its store *)

Section ServiceLaws.
Context {S : Type} {U : Unicode} {ST : Store S} {SV : StoreView S} {SL : StoreLaws S} {CL : Clock S}.
Context (clock_frame : forall s : S, st_view (fst (Now s)) = st_view s).
Context (config : Config).

(** The answer to a request whose key has the record [r]. *)
Definition answer (r : Record_) (requestHash : string) : BeginResult * option error :=
  if negb (String.eqb (RequestHash r) "") && negb (String.eqb requestHash (RequestHash r))
  then (no_begin, Some ErrRequestHashMismatch)
  else if String.eqb (Status r) StatusCompleted
  then (mkBeginResult (Some BeginReplay) (Some r), None)
  else (mkBeginResult (Some BeginConflict) (Some r), Some ErrRequestInProgress).

Definition fresh_record (scope rawKey requestHash : string) (now : Z) : Record_ :=
  mkRecord (BuildKey scope rawKey) (NormalizeScope scope) StatusInProgress requestHash 0 [] ∅ now
    time_zero.

Definition fresh_entry (scope rawKey requestHash : string) (now : Z) : Record_ * option Z :=
  (rec_clean (fresh_record scope rawKey requestHash now), set_ttl None (InProgressTTL config)).

(** The three outcomes of [BeginHTTP]. *)
Inductive begin_outcome (key : string) (mk : Z -> Record_ * option Z) (h : string) (s s' : S) :
    BeginResult * option error -> Prop :=
| begin_proceed now rec :
    st_view s !! key = None -> st_view s' = <[key := mk now]> (st_view s) ->
    begin_outcome key mk h s s' (mkBeginResult (Some BeginProceed) (Some rec), None)
| begin_existing r t :
    st_view s !! key = Some (r, t) -> st_view s' = st_view s ->
    begin_outcome key mk h s s' (answer r h)
| begin_failed e :
    (st_view s' = st_view s \/
     exists now, st_view s !! key = None /\ st_view s' = <[key := mk now]> (st_view s)) ->
    begin_outcome key mk h s s' (no_begin, Some e).

Lemma BuildKey_normalized scope rawKey :
  is_ascii scope = true -> BuildKey (NormalizeScope scope) rawKey = BuildKey scope rawKey.
Proof. intros Ha. unfold BuildKey. by rewrite NormalizeScope_idem. Qed.

Lemma nowM_view (s : S) : exists s1 t, nowM s = (s1, Ok t) /\ st_view s1 = st_view s.
Proof.
  unfold nowM. pose proof (clock_frame s) as Hf. destruct (Now s) as [s1 t]. simpl in Hf. eauto.
Qed.

Lemma BeginHTTP_outcome scope rawKey h s :
  is_ascii scope = true -> TrimSpace rawKey <> "" ->
  exists s' out, BeginHTTP config scope rawKey h s = (s', Ok out) /\
    begin_outcome (BuildKey scope rawKey) (fresh_entry scope rawKey h) h s s' out.
Proof.
  intros Ha Hk. unfold BeginHTTP. rewrite (proj2 (String.eqb_neq _ _) Hk).
  destruct (nowM_view s) as (s1 & now & Hn & Hv). rewrite (bindM_step _ _ _ _ _ Hn).
  rewrite BuildKey_normalized by done. fold (fresh_record scope rawKey h now).
  unfold bindM, attemptM.
  destruct (Reserve (fresh_record scope rawKey h now) (InProgressTTL config) s1)
    as [s2 [[[] o]|e]] eqn:Er.
  - apply reserve_acquired in Er as [Hno Hins]. rewrite Hv in *. do 2 eexists. split; [done|].
    by apply (begin_proceed _ _ _ _ _ now).
  - apply reserve_existing in Er as [Hsame (r & t & Hr & ->)]. rewrite Hv in *.
    exists s2, (answer r h). split; [|by apply (begin_existing _ _ _ _ _ r t)].
    unfold answer. by repeat case_match.
  - apply reserve_err in Er. rewrite Hv in *. do 2 eexists. split; [done|].
    apply begin_failed. destruct Er as [Hs|[Hno Hins]]; [by left|right; eauto].
Qed.

Lemma CompleteHTTP_view scope rawKey result s s' x :
  TrimSpace rawKey <> "" -> CompleteHTTP config scope rawKey result s = (s', x) ->
  (st_view s' = st_view s /\ (x = Ok tt -> st_view s !! BuildKey scope rawKey = None)) \/
  exists e now, st_view s !! BuildKey scope rawKey = Some e /\
    st_view s' = <[BuildKey scope rawKey := completed_entry result (CompletedTTL config) now e]>
                 (st_view s).
Proof.
  intros Hk. unfold CompleteHTTP. rewrite (proj2 (String.eqb_neq _ _) Hk).
  destruct (nowM_view s) as (s1 & now & Hn & Hv). rewrite (bindM_step _ _ _ _ _ Hn), <- Hv.
  destruct x as [[]|e]; intros Hc.
  - apply complete_ok in Hc. destruct (st_view s1 !! BuildKey scope rawKey) as [e|] eqn:E; eauto.
  - apply complete_err in Hc as [Hs|(e' & He & Hs)]; [by left|eauto].
Qed.

(** *** At most one execution per key

    A run of requests that carry the same key, with any payloads: they begin
    and complete in any order, time passes, other requests work on other keys.
    The run counts the requests told to proceed and the time elapsed. *)

Record run := mkRun { run_state : S; run_proceeds : nat; run_time : Z }.

Definition proceeds (out : BeginResult * option error) : bool :=
  match out with
  | (mkBeginResult (Some BeginProceed) _, None) => true
  | _ => false
  end.

Inductive request_step (scope rawKey : string) : run -> run -> Prop :=
| rs_begin s n t h s' out :
    BeginHTTP config scope rawKey h s = (s', Ok out) ->
    request_step scope rawKey (mkRun s n t)
      (mkRun s' (if proceeds out then Datatypes.S n else n) t)
| rs_complete s n t result s' x :
    CompleteHTTP config scope rawKey result s = (s', x) ->
    request_step scope rawKey (mkRun s n t) (mkRun s' n t)
| rs_elapse s n t d :
    0 <= d -> request_step scope rawKey (mkRun s n t) (mkRun (st_elapse d s) n (t + d))
| rs_other s n t s' :
    st_view s' !! BuildKey scope rawKey = st_view s !! BuildKey scope rawKey ->
    request_step scope rawKey (mkRun s n t) (mkRun s' n t).

(** The shorter of the two lifetimes a record can have. *)
Definition key_lifetime : Z := Z.min (ms_ttl (InProgressTTL config)) (ms_ttl (CompletedTTL config)).

Definition run_inv (key : string) (r : run) : Prop :=
  run_time r < key_lifetime ->
  run_proceeds r = 0%nat \/
  run_proceeds r = 1%nat /\ exists rec t, st_view (run_state r) !! key = Some (rec, Some t) /\
    key_lifetime <= t + run_time r.

Lemma answer_not_proceeds r h : proceeds (answer r h) = false.
Proof. unfold answer. by repeat case_match. Qed.

Lemma request_step_inv scope rawKey r r' :
  is_ascii scope = true -> TrimSpace rawKey <> "" ->
  0 < InProgressTTL config -> 0 < CompletedTTL config -> 0 <= run_time r ->
  run_inv (BuildKey scope rawKey) r -> request_step scope rawKey r r' ->
  run_inv (BuildKey scope rawKey) r' /\ 0 <= run_time r'.
Proof.
  intros Ha Hk HI HC Ht Hi Hs. unfold run_inv in *.
  destruct Hs as [s n t h s' out Hb|s n t result s' x Hc|s n t d Hd|s n t s' Ho]; simpl in *.
  - split; [|done]. intros Hlt. specialize (Hi Hlt).
    destruct (BeginHTTP_outcome scope rawKey h s Ha Hk) as (s1 & o1 & Hb' & Ho).
    rewrite Hb in Hb'. simplify_eq.
    destruct Ho as [now rec Hno Hins|rec tt0 Hr Hsame|e [Hsame|(now & Hno & Hins)]].
    + destruct Hi as [->|(_ & rec' & t' & Hv & _)]; [|congruence]. right. split; [done|].
      unfold fresh_entry, set_ttl in Hins. rewrite (proj2 (Z.ltb_lt 0 _) HI) in Hins.
      do 2 eexists. rewrite Hins, lookup_insert_eq. split; [done|]. unfold key_lifetime. lia.
    + rewrite answer_not_proceeds, Hsame. done.
    + simpl. by rewrite Hsame.
    + simpl. destruct Hi as [->|(_ & rec' & t' & Hv & _)]; [by left|congruence].
  - split; [|done]. intros Hlt. specialize (Hi Hlt).
    apply CompleteHTTP_view in Hc as [[Hsame _]|(e & now & He & Hins)]; [by rewrite Hsame| |done].
    destruct Hi as [->|(-> & rec' & t' & Hv & Hle)]; [by left|right]. split; [done|].
    unfold completed_entry, set_ttl in Hins. rewrite (proj2 (Z.ltb_lt 0 _) HC) in Hins.
    do 2 eexists. rewrite Hins, lookup_insert_eq. split; [done|]. unfold key_lifetime. lia.
  - split; [|lia]. intros Hlt. specialize (Hi ltac:(lia)).
    destruct Hi as [->|(-> & rec' & t' & Hv & Hle)]; [by left|right]. split; [done|].
    rewrite view_elapse, lookup_omap, Hv by done. simpl. unfold rec_age. simpl.
    destruct (Z.ltb_spec d t'); [|lia]. do 2 eexists. split; [done|]. lia.
  - split; [|done]. by rewrite Ho.
Qed.

(** C1: At most one execution per key. Whatever the store fails at and however
    the requests with one key interleave, [BeginHTTP] tells at most one of them
    to proceed within the lifetime of a record. *)
Theorem idempotency_at_most_once scope rawKey s0 r :
  is_ascii scope = true -> TrimSpace rawKey <> "" ->
  0 < InProgressTTL config -> 0 < CompletedTTL config ->
  rtc (request_step scope rawKey) (mkRun s0 0 0) r -> run_time r < key_lifetime ->
  (run_proceeds r <= 1)%nat.
Proof.
  intros Ha Hk HI HC Hr Hlt.
  assert (Hi : run_inv (BuildKey scope rawKey) r /\ 0 <= run_time r).
  { remember (mkRun s0 0 0) as r0 eqn:E0.
    assert (H0 : run_inv (BuildKey scope rawKey) r0 /\ 0 <= run_time r0) by (subst; split; [by left|done]).
    clear E0 Hlt. induction Hr as [|r1 r2 r3 Hs Hr IH]; [done|].
    destruct H0. apply IH. by eapply request_step_inv. }
  destruct Hi as [Hi _]. destruct (Hi Hlt) as [->|(-> & _)]; lia.
Qed.

(** *** Replay through the middleware *)

Definition mw_key (cfg : MiddlewareConfig) (c : gctx) : string :=
  GetHeader c (if String.eqb (KeyHeader cfg) "" then "Idempotency-Key" else KeyHeader cfg).
Definition mw_scope (cfg : MiddlewareConfig) (c : gctx) : string :=
  match ScopeResolver cfg with Some f => f c | None => "default" end.

Lemma replay_headers l c :
  let c' := foldr (fun '(k, v) c => c_Header k v c) c l in
  w_status (g_w c') = w_status (g_w c) /\ w_written (g_w c') = w_written (g_w c) /\
  w_body (g_w c') = w_body (g_w c).
Proof. induction l as [|[k v] l IH]; simpl in *; [done|]. destruct IH as (-> & -> & ->). done. Qed.

(** The replayed response on a writer nothing was written to. *)
Lemma replay_response rec c :
  w_written (g_w c) = false -> w_body (g_w c) = [] ->
  0 < ResponseCode rec -> bodyAllowedForStatus (ResponseCode rec) = true ->
  w_status (g_w (replay rec c)) = ResponseCode rec /\
  w_body (g_w (replay rec c)) = ResponseBody rec /\
  header_Get (w_header (g_w (replay rec c))) "X-Idempotency-Replayed" = "true" /\
  g_aborted (replay rec c) = true.
Proof.
  intros Hw Hb Hc Hal. unfold replay.
  destruct (replay_headers (map_to_list (Headers rec)) c) as (Hst & Hwr & Hbd).
  set (c1 := foldr _ c _) in *. set (c2 := c_Header "X-Idempotency-Replayed" "true" c1).
  assert (Hh : w_header (g_w c2) !! CanonicalKey "X-Idempotency-Replayed" = Some ["true"]).
  { subst c2. unfold c_Header. simpl. unfold header_Set. by rewrite lookup_insert_eq. }
  change (g_w (Abort (c_Data (ResponseCode rec) (contentType (Headers rec)) (ResponseBody rec) c2)))
    with (render (ResponseCode rec) (contentType (Headers rec)) (ResponseBody rec) (g_w c2)).
  destruct (render_fresh (ResponseCode rec) (contentType (Headers rec)) (ResponseBody rec) (g_w c2))
    as [H1 H2]; [by rewrite <- Hw, <- Hwr|done|done|].
  split_and!; [done| |unfold header_Get; by rewrite render_header_other, Hh by done|done].
  rewrite H2. change (w_body (g_w c2)) with (w_body (g_w c1)). by rewrite Hbd, Hb.
Qed.

(** The one command the middleware sends to the store for a request. *)
Definition mw_reserve (cfg : MiddlewareConfig) (c : gctx) (s : S) :
    S * result (ReserveDecision * option Record_) :=
  Reserve (fresh_record (mw_scope cfg c) (mw_key cfg c) (HashBytes (default "" (g_body c))) (snd (Now s)))
    (InProgressTTL config) (fst (Now s)).

(** The answer to an error of the store. *)
Definition refuse (e : error) (c : gctx) : gctx :=
  AbortWithStatusJSON
    (if bool_decide (e = ErrRequestHashMismatch) || bool_decide (e = ErrRequestInProgress) then 409 else 500)
    (error_body e) c.

(** A request whose key has the record [r]: the rest of the chain is not run, and
    the answer is [answer r], or the error the store returned to the request. *)
Lemma GinMiddleware_existing cfg next c s r t s' x :
  RequestHasher cfg = None -> is_ascii (mw_scope cfg c) = true ->
  TrimSpace (mw_key cfg c) <> "" ->
  st_view s !! BuildKey (mw_scope cfg c) (mw_key cfg c) = Some (r, t) ->
  mw_reserve cfg c s = (s', x) ->
  let c0 := with_ctx (WithIdempotencyKey (g_ctx c) (mw_key cfg c)) c in
  GinMiddleware config cfg next c s =
    (s', match x with
         | Err e => refuse e c0
         | Ok _ => match answer r (HashBytes (default "" (g_body c))) with
                   | (mkBeginResult (Some BeginReplay) (Some rec), None) => replay rec c0
                   | (_, Some e) => AbortWithStatusJSON 409 (error_body e) c0
                   | _ => c0
                   end
         end).
Proof.
  intros Hh Ha Hk Hv Hr c0. unfold GinMiddleware. fold (mw_key cfg c) (mw_scope cfg c) c0.
  assert (Hne : mw_key cfg c <> "") by (intros E; by rewrite E in Hk).
  rewrite (proj2 (String.eqb_neq _ _) Hne), Hh. change (g_body c0) with (g_body c).
  set (h := HashBytes (default "" (g_body c))) in *. unfold mw_reserve in Hr. fold h in Hr.
  rewrite <- (clock_frame s) in Hv.
  unfold BeginHTTP. rewrite (proj2 (String.eqb_neq _ _) Hk). unfold nowM. unfold bindM at 1.
  destruct (Now s) as [s1 now]. simpl in Hv, Hr. rewrite BuildKey_normalized by done.
  fold (fresh_record (mw_scope cfg c) (mw_key cfg c) h now). unfold bindM, attemptM. rewrite Hr.
  destruct x as [[[] o]|e].
  - apply reserve_acquired in Hr as [Hno _]. simpl in Hno. congruence.
  - apply reserve_existing in Hr as [_ (r' & t' & Hr' & ->)]. simpl in Hr'. rewrite Hv in Hr'.
    simplify_eq. unfold answer, retM. destruct (negb _ && negb _); [by rewrite bool_decide_refl|].
    destruct (String.eqb _ _); [done|]. by rewrite bool_decide_refl, orb_true_r.
  - unfold retM, refuse. by destruct (bool_decide (e = ErrRequestHashMismatch) || _).
Qed.

(** C27: Replay. When a request is told to proceed, runs its handler and its
    result is recorded, then every later request with the same key, scope and
    body, while the record lives, is answered without running its handler and with
    one command to the store: if that command succeeds, with the recorded status and
    body and the replay header; if the store returns an error to it, with that
    error. *)
Theorem middleware_replays cfg next c1 s1 sb b sn cn s2 c2 s3 next' :
  let key := mw_key cfg c1 in let scope := mw_scope cfg c1 in
  let hash := HashBytes (default "" (g_body c1)) in
  RequestHasher cfg = None -> is_ascii scope = true -> TrimSpace key <> "" ->
  BeginHTTP config scope key hash s1 = (sb, Ok (b, None)) -> Decision b = Some BeginProceed ->
  next (with_w newResponseRecorder (with_ctx (WithIdempotencyKey (g_ctx c1) key) c1)) sb = (sn, cn) ->
  st_view sn !! BuildKey scope key = st_view sb !! BuildKey scope key ->
  CompleteHTTP config scope key (recorded (g_w cn)) sn = (s2, Ok tt) ->
  mw_key cfg c2 = key -> mw_scope cfg c2 = scope -> g_body c2 = g_body c1 ->
  w_written (g_w c2) = false -> w_body (g_w c2) = [] ->
  0 < w_status (g_w cn) -> bodyAllowedForStatus (w_status (g_w cn)) = true ->
  fst <$> st_view s3 !! BuildKey scope key = fst <$> st_view s2 !! BuildKey scope key ->
  GinMiddleware config cfg next c1 s1 = (s2, cn) /\
  exists s4 x c2', mw_reserve cfg c2 s3 = (s4, x) /\
    GinMiddleware config cfg next' c2 s3 = (s4, c2') /\ g_aborted c2' = true /\
    match x with
    | Ok _ => w_status (g_w c2') = w_status (g_w cn) /\ w_body (g_w c2') = default [] (w_rec (g_w cn)) /\
        header_Get (w_header (g_w c2')) "X-Idempotency-Replayed" = "true"
    | Err e => c2' = refuse e (with_ctx (WithIdempotencyKey (g_ctx c2) key) c2)
    end.
Proof.
  intros key scope hash Hh Ha Hk Hb Hd Hn Hvn Hc K2 S2 B2 W2 E2 Hst Hal Hlive. split.
  { unfold GinMiddleware. fold (mw_key cfg c1) (mw_scope cfg c1) key scope.
    assert (Hne : key <> "") by (intros E; by rewrite E in Hk).
    rewrite (proj2 (String.eqb_neq _ _) Hne), Hh. simpl. fold hash. rewrite Hb, Hd, Hn, Hc. done. }
  destruct (BeginHTTP_outcome scope key hash s1 Ha Hk) as (s' & out & Hb' & Ho).
  rewrite Hb in Hb'. injection Hb' as <- <-.
  assert (Hp : exists now, st_view sb !! BuildKey scope key = Some (fresh_entry scope key hash now)).
  { inversion Ho as [now rec Hno Hins|r t Hr Hsame Hans|]; subst; [|].
    - exists now. by rewrite Hins, lookup_insert_eq.
    - exfalso. clear -Hans Hd. unfold answer in Hans. repeat case_match; by simplify_eq. }
  destruct Hp as [now Hp].
  apply CompleteHTTP_view in Hc as [[_ Hno]|(e & now2 & He & Hins)]; [|
    |done]; [specialize (Hno eq_refl); rewrite Hvn, Hp in Hno; done|].
  rewrite Hvn, Hp in He. injection He as <-.
  rewrite Hins, lookup_insert_eq in Hlive. simpl in Hlive.
  destruct (st_view s3 !! BuildKey scope key) as [[r t]|] eqn:E3; simplify_eq/=.
  rewrite <- K2, <- S2 in E3. destruct (mw_reserve cfg c2 s3) as [s4 x] eqn:Er.
  assert (Hm := GinMiddleware_existing cfg next' c2 s3 _ _ s4 x Hh ltac:(by rewrite S2)
    ltac:(by rewrite K2) E3 Er). rewrite K2 in Hm. exists s4, x. destruct x as [o|e].
  - rewrite B2 in Hm. fold hash in Hm. unfold answer in Hm. simpl in Hm.
    rewrite !(utf8_clean_ascii hash) in Hm by apply sha256_hex_ascii.
    rewrite String.eqb_refl, andb_false_r in Hm.
    replace (utf8_clean StatusCompleted =? StatusCompleted)%string with true in Hm by (by vm_compute).
    eexists. split; [done|]. split; [exact Hm|].
    match goal with |- context [replay ?r ?c] => destruct (replay_response r c) as (R1 & R2 & R3 & R4) end;
      [done|done|done|done|]. split; [done|]. done.
  - eexists. split; [done|]. split; [exact Hm|]. unfold refuse.
    by destruct (bool_decide _ || bool_decide _).
Qed.
End ServiceLaws.

(** ** A process to run the examples on: a Redis script and a counting clock *)

Module IdemDemo.
Record t := mk { redis : Script.t; ticks : Z }.

#[export] Instance has_redis : HasRedis t Script.t := {|
  get_redis := redis; set_redis r s := mk r (ticks s)
|}.
#[export] Instance has_redis_laws : HasRedisLaws t Script.t.
Proof. by split. Qed.
#[export] Instance clock : Clock t := {| Now s := (mk (redis s) (ticks s + 1), ticks s) |}.
#[export] Existing Instance ascii_unicode.

Lemma clock_frame (s : t) : st_view (fst (Now s)) = st_view s.
Proof. done. Qed.

Definition s0 : t := mk (Script.mk ∅ []) 1000.
Definition cfg : Config := NewService NewDefaultConfig.
Definition scope : string := "POST /api/v1/auth/register".
Definition key : string := " 4f1c-77 ".

Definition s1 := fst (BeginHTTP cfg scope key "h" s0).
Definition s2 := st_elapse Second s1.
Definition s3 := fst (BeginHTTP cfg scope key "h" s2).
Definition s4 := fst (CompleteHTTP cfg scope key (mkResult 201 [inl "ok"] ∅) s3).

Lemma requests_trace : rtc (request_step cfg scope key) (mkRun s0 0 0) (mkRun s4 1 Second).
Proof.
  eapply rtc_l; [eapply (rs_begin _ _ _ _ _ _ "h" s1); by vm_compute|].
  eapply rtc_l; [apply (rs_elapse _ _ _ _ _ _ Second); done|].
  eapply rtc_l; [eapply (rs_begin _ _ _ _ _ _ "h" s3); by vm_compute|].
  eapply rtc_l; [eapply (rs_complete _ _ _ _ _ _ (mkResult 201 [inl "ok"] ∅) s4 (Ok tt)); by vm_compute|].
  apply rtc_refl.
Qed.

Definition mw : MiddlewareConfig := mkMiddlewareConfig "" None None.
Definition req : gctx :=
  mkGctx "POST" "10.0.0.1" {["Idempotency-Key" := ["4f1c-77"]]} ∅ [] (Some "{}") Background ∅
    new_writer false.
Definition created : Handler t := fun c s => (s, Success 201 "REGISTER_SUCCESS" None c).
Definition failing : Handler t := fun c s => (s, Gin.Error 500 "INTERNAL_ERROR" "boom" c).

Definition hash : string := HashBytes "{}".
Definition b1 := match BeginHTTP cfg "default" "4f1c-77" hash s0 with
                 | (_, Ok (b, _)) => b | _ => no_begin end.
Definition m1 := fst (BeginHTTP cfg "default" "4f1c-77" hash s0).
Definition out1 := snd (created (with_w newResponseRecorder
  (with_ctx (WithIdempotencyKey (g_ctx req) "4f1c-77") req)) m1).
Definition m2 := fst (CompleteHTTP cfg "default" "4f1c-77" (recorded (g_w out1)) m1).

Lemma redis_store_refines_witness : StoreLaws t.
Proof. exact (redis_store_refines (S := t) (R := Script.t)). Defined.

Lemma idempotency_at_most_once_witness : (run_proceeds (mkRun s4 1 Second) <= 1)%nat.
Proof.
  apply (idempotency_at_most_once clock_frame cfg scope key
    s0); [by vm_compute|by vm_compute|done|done|apply requests_trace|done].
Defined.

(** The answer 23 hours later, in front of a handler that would fail. *)
Lemma middleware_replays_witness :
  exists s4 c2', GinMiddleware cfg mw failing req (st_elapse (23 * Hour) m2) = (s4, c2') /\
    g_aborted c2' = true /\ w_status (g_w c2') = w_status (g_w out1).
Proof.
  destruct (middleware_replays clock_frame cfg mw created req s0 m1 b1 m1 out1 m2 req
    (st_elapse (23 * Hour) m2) failing) as (_ & s4 & x & c2' & Hr & Hm & Hab & Hc);
    [reflexivity | | | ..]; [vm_compute; reflexivity|vm_compute; discriminate|..];
    [vm_compute; reflexivity..|].
  exists s4, c2'. split; [exact Hm|split; [exact Hab|]].
  assert (Hx : exists o, x = Ok o).
  { change x with (snd (s4, x)). rewrite <- Hr. eexists. vm_compute. reflexivity. }
  destruct Hx as [o ->]. exact (proj1 Hc).
Defined.
End IdemDemo.
