(* ===== verification/Schema.v ===== *)
(** * The database schema

    The tables of [migrations/000002] to [000008] and [000011] that the program
    uses, as lists of rows, with the constraints PostgreSQL enforces on them:
    column lengths, [CHECK]s, unique indexes and foreign keys, each with its
    SQLSTATE. [sqlval] is a column value as the driver hands it to [Scan]. *)

From Stdlib Require Import ZArith NArith String Ascii Lia.
From stdpp Require Import base strings list.
From S2P Require Import Prelude GoStrings Json Domain.

Local Open Scope Z_scope.

(** ** Column values *)

Inductive sqlval :=
| VNull
| VInt (z : Z)
| VText (s : string)
| VBool (b : bool)
| VTime (t : Z)
| VJson (j : json).

Definition nullable {A} (f : A -> sqlval) (o : option A) : sqlval :=
  match o with Some a => f a | None => VNull end.

(** [TIMESTAMPTZ] keeps microseconds. *)
Definition pg_time (t : Z) : Z := 1000 * (t / 1000).

(** ** Rows *)

Module Users.
Record row := mk {
  id : Z; email : string; full_name : string; phone : option string; user_type : string;
  account_status : string; email_verified_at : option Z; last_login_at : option Z;
  locked_reason : option string; metadata : option json; version : Z;
  created_at : Z; updated_at : Z
}.
Definition column (r : row) (c : string) : sqlval :=
  if String.eqb c "id" then VInt (id r)
  else if String.eqb c "email" then VText (email r)
  else if String.eqb c "full_name" then VText (full_name r)
  else if String.eqb c "phone" then nullable VText (phone r)
  else if String.eqb c "user_type" then VText (user_type r)
  else if String.eqb c "account_status" then VText (account_status r)
  else if String.eqb c "email_verified_at" then nullable VTime (email_verified_at r)
  else if String.eqb c "last_login_at" then nullable VTime (last_login_at r)
  else if String.eqb c "locked_reason" then nullable VText (locked_reason r)
  else if String.eqb c "metadata" then nullable VJson (metadata r)
  else if String.eqb c "version" then VInt (version r)
  else if String.eqb c "created_at" then VTime (created_at r)
  else if String.eqb c "updated_at" then VTime (updated_at r)
  else VNull.
End Users.

Module Credentials.
Record row := mk {
  user_id : Z; password_hash : string; password_algo : string; password_changed_at : Z;
  failed_login_count : Z; last_failed_login_at : option Z
}.
Definition column (r : row) (c : string) : sqlval :=
  if String.eqb c "user_id" then VInt (user_id r)
  else if String.eqb c "password_hash" then VText (password_hash r)
  else if String.eqb c "password_algo" then VText (password_algo r)
  else if String.eqb c "password_changed_at" then VTime (password_changed_at r)
  else if String.eqb c "failed_login_count" then VInt (failed_login_count r)
  else if String.eqb c "last_failed_login_at" then nullable VTime (last_failed_login_at r)
  else VNull.
End Credentials.

Module Devices.
Record row := mk {
  id : Z; user_id : Z; fingerprint_hash : string; device_label : option string;
  first_seen_at : Z; last_seen_at : Z; revoked_at : option Z; revoked_reason : option string;
  metadata : json; created_at : Z; updated_at : Z
}.
Definition column (r : row) (c : string) : sqlval :=
  if String.eqb c "id" then VInt (id r)
  else if String.eqb c "user_id" then VInt (user_id r)
  else if String.eqb c "fingerprint_hash" then VText (fingerprint_hash r)
  else if String.eqb c "device_label" then nullable VText (device_label r)
  else if String.eqb c "first_seen_at" then VTime (first_seen_at r)
  else if String.eqb c "last_seen_at" then VTime (last_seen_at r)
  else if String.eqb c "revoked_at" then nullable VTime (revoked_at r)
  else if String.eqb c "revoked_reason" then nullable VText (revoked_reason r)
  else if String.eqb c "metadata" then VJson (metadata r)
  else if String.eqb c "created_at" then VTime (created_at r)
  else if String.eqb c "updated_at" then VTime (updated_at r)
  else VNull.
End Devices.

Module Sessions.
Record row := mk {
  id : Z; user_id : Z; device_id : Z; refresh_token_hash : string; session_status : string;
  expires_at : Z; ip_address : option string; user_agent : option string; last_seen_at : Z;
  revoked_at : option Z; revoked_reason : option string; created_at : Z; updated_at : Z
}.
Definition column (r : row) (c : string) : sqlval :=
  if String.eqb c "id" then VInt (id r)
  else if String.eqb c "user_id" then VInt (user_id r)
  else if String.eqb c "device_id" then VInt (device_id r)
  else if String.eqb c "refresh_token_hash" then VText (refresh_token_hash r)
  else if String.eqb c "session_status" then VText (session_status r)
  else if String.eqb c "expires_at" then VTime (expires_at r)
  else if String.eqb c "ip_address" then nullable VText (ip_address r)
  else if String.eqb c "user_agent" then nullable VText (user_agent r)
  else if String.eqb c "last_seen_at" then VTime (last_seen_at r)
  else if String.eqb c "revoked_at" then nullable VTime (revoked_at r)
  else if String.eqb c "revoked_reason" then nullable VText (revoked_reason r)
  else if String.eqb c "created_at" then VTime (created_at r)
  else if String.eqb c "updated_at" then VTime (updated_at r)
  else VNull.
End Sessions.

Module Addresses.
Record row := mk {
  id : Z; user_id : Z; recipient_name : string; recipient_phone : string;
  address_line1 : string; address_line2 : option string; province_code : string;
  district_code : string; ward_code : string; postal_code : option string;
  country_code : string; is_default : bool; version : Z; created_at : Z; updated_at : Z
}.
Definition column (r : row) (c : string) : sqlval :=
  if String.eqb c "id" then VInt (id r)
  else if String.eqb c "user_id" then VInt (user_id r)
  else if String.eqb c "recipient_name" then VText (recipient_name r)
  else if String.eqb c "recipient_phone" then VText (recipient_phone r)
  else if String.eqb c "address_line1" then VText (address_line1 r)
  else if String.eqb c "address_line2" then nullable VText (address_line2 r)
  else if String.eqb c "province_code" then VText (province_code r)
  else if String.eqb c "district_code" then VText (district_code r)
  else if String.eqb c "ward_code" then VText (ward_code r)
  else if String.eqb c "postal_code" then nullable VText (postal_code r)
  else if String.eqb c "country_code" then VText (country_code r)
  else if String.eqb c "is_default" then VBool (is_default r)
  else if String.eqb c "version" then VInt (version r)
  else if String.eqb c "created_at" then VTime (created_at r)
  else if String.eqb c "updated_at" then VTime (updated_at r)
  else VNull.
End Addresses.

Module OutboxEvents.
Record row := mk {
  id : Z; topic : string; event_key : string; aggregate_type : string;
  aggregate_id : option string; event_type : string; payload : json; metadata : option json;
  state : string; created_at : Z; published_at : option Z; last_error : option string
}.
Definition column (r : row) (c : string) : sqlval :=
  if String.eqb c "id" then VInt (id r)
  else if String.eqb c "topic" then VText (topic r)
  else if String.eqb c "event_key" then VText (event_key r)
  else if String.eqb c "aggregate_type" then VText (aggregate_type r)
  else if String.eqb c "aggregate_id" then nullable VText (aggregate_id r)
  else if String.eqb c "event_type" then VText (event_type r)
  else if String.eqb c "payload" then VJson (payload r)
  else if String.eqb c "metadata" then nullable VJson (metadata r)
  else if String.eqb c "state" then VText (state r)
  else if String.eqb c "created_at" then VTime (created_at r)
  else if String.eqb c "published_at" then nullable VTime (published_at r)
  else if String.eqb c "last_error" then nullable VText (last_error r)
  else VNull.
End OutboxEvents.

Module ProcessedEvents.
Record row := mk {
  consumer_name : string; event_id : string; processed_at : Z; metadata : json
}.
End ProcessedEvents.

Record DB := mkDB {
  users : list Users.row;
  user_credentials : list Credentials.row;
  user_devices : list Devices.row;
  user_sessions : list Sessions.row;
  addresses : list Addresses.row;
  outbox_events : list OutboxEvents.row;
  processed_events : list ProcessedEvents.row
}.

Definition empty_db : DB := mkDB [] [] [] [] [] [] [].

Definition with_users f db := mkDB (f (users db)) (user_credentials db) (user_devices db)
  (user_sessions db) (addresses db) (outbox_events db) (processed_events db).
Definition with_credentials f db := mkDB (users db) (f (user_credentials db)) (user_devices db)
  (user_sessions db) (addresses db) (outbox_events db) (processed_events db).
Definition with_devices f db := mkDB (users db) (user_credentials db) (f (user_devices db))
  (user_sessions db) (addresses db) (outbox_events db) (processed_events db).
Definition with_sessions f db := mkDB (users db) (user_credentials db) (user_devices db)
  (f (user_sessions db)) (addresses db) (outbox_events db) (processed_events db).
Definition with_addresses f db := mkDB (users db) (user_credentials db) (user_devices db)
  (user_sessions db) (f (addresses db)) (outbox_events db) (processed_events db).
Definition with_outbox f db := mkDB (users db) (user_credentials db) (user_devices db)
  (user_sessions db) (addresses db) (f (outbox_events db)) (processed_events db).
Definition with_processed f db := mkDB (users db) (user_credentials db) (user_devices db)
  (user_sessions db) (addresses db) (outbox_events db) (f (processed_events db)).

(** The [BIGSERIAL] counters: the next value of each. *)
Record Seqs := mkSeqs {
  users_seq : Z; devices_seq : Z; sessions_seq : Z; addresses_seq : Z; outbox_seq : Z
}.

(** ** Constraints *)

(** A [TEXT] value: valid UTF-8 without the byte 0. *)
Definition valid_text (s : string) : bool :=
  String.eqb (utf8_clean s) s && forallb (fun c => negb (Ascii.eqb c (byte 0))) (bytes_of s).
Definition varchar (n : nat) (s : string) : bool := (length (runes s) <=? n)%nat.
Definition optb {A} (p : A -> bool) (o : option A) : bool :=
  match o with Some a => p a | None => true end.
Definition one_of (l : list string) (s : string) : bool := existsb (String.eqb s) l.

Definition user_texts (r : Users.row) : bool :=
  valid_text (Users.email r) && valid_text (Users.full_name r) && optb valid_text (Users.phone r).
Definition user_lengths (r : Users.row) : bool :=
  varchar 255 (Users.email r) && varchar 255 (Users.full_name r) &&
  optb (varchar 20) (Users.phone r) && varchar 30 (Users.user_type r) &&
  varchar 30 (Users.account_status r) && optb (varchar 255) (Users.locked_reason r).
Definition user_checks (r : Users.row) : bool :=
  one_of ["customer"; "admin"; "operator"] (Users.user_type r) &&
  one_of ["pending_verification"; "active"; "locked"; "disabled"] (Users.account_status r) &&
  (0 <? Users.version r).

Definition credential_checks (r : Credentials.row) : bool :=
  valid_text (Credentials.password_hash r) && varchar 30 (Credentials.password_algo r) &&
  (0 <=? Credentials.failed_login_count r).

Definition device_texts (r : Devices.row) : bool :=
  valid_text (Devices.fingerprint_hash r) && optb valid_text (Devices.device_label r).
Definition device_lengths (r : Devices.row) : bool :=
  optb (varchar 255) (Devices.device_label r) && optb (varchar 255) (Devices.revoked_reason r).

Definition session_texts (r : Sessions.row) : bool :=
  valid_text (Sessions.refresh_token_hash r) && optb valid_text (Sessions.ip_address r) &&
  optb valid_text (Sessions.user_agent r).
Definition session_lengths (r : Sessions.row) : bool :=
  varchar 20 (Sessions.session_status r) && optb (varchar 45) (Sessions.ip_address r) &&
  optb (varchar 255) (Sessions.revoked_reason r).
Definition session_checks (r : Sessions.row) : bool :=
  one_of ["active"; "revoked"; "expired"] (Sessions.session_status r).

Definition address_texts (r : Addresses.row) : bool :=
  forallb valid_text [Addresses.recipient_name r; Addresses.recipient_phone r;
    Addresses.address_line1 r; Addresses.province_code r; Addresses.district_code r;
    Addresses.ward_code r; Addresses.country_code r] &&
  optb valid_text (Addresses.address_line2 r) && optb valid_text (Addresses.postal_code r).
Definition address_lengths (r : Addresses.row) : bool :=
  varchar 255 (Addresses.recipient_name r) && varchar 20 (Addresses.recipient_phone r) &&
  varchar 255 (Addresses.address_line1 r) && optb (varchar 255) (Addresses.address_line2 r) &&
  varchar 20 (Addresses.province_code r) && varchar 20 (Addresses.district_code r) &&
  varchar 20 (Addresses.ward_code r) && optb (varchar 10) (Addresses.postal_code r) &&
  varchar 10 (Addresses.country_code r).

Definition outbox_lengths (r : OutboxEvents.row) : bool :=
  varchar 100 (OutboxEvents.topic r) && varchar 255 (OutboxEvents.event_key r) &&
  varchar 50 (OutboxEvents.aggregate_type r) && optb (varchar 255) (OutboxEvents.aggregate_id r) &&
  varchar 100 (OutboxEvents.event_type r) && varchar 30 (OutboxEvents.state r).
Definition outbox_texts (r : OutboxEvents.row) : bool :=
  valid_text (OutboxEvents.event_key r) && optb valid_text (OutboxEvents.aggregate_id r) &&
  optb valid_text (OutboxEvents.last_error r).

(** [CHECK (state IN ('pending', 'published', 'failed'))] *)
Definition outbox_checks (r : OutboxEvents.row) : bool :=
  one_of ["pending"; "published"; "failed"] (OutboxEvents.state r).

Definition processed_lengths (r : ProcessedEvents.row) : bool :=
  varchar 100 (ProcessedEvents.consumer_name r) && varchar 255 (ProcessedEvents.event_id r).
Definition processed_texts (r : ProcessedEvents.row) : bool :=
  valid_text (ProcessedEvents.consumer_name r) && valid_text (ProcessedEvents.event_id r).

Definition user_exists (db : DB) (id : Z) : bool := existsb (fun u => Users.id u =? id) (users db).
Definition device_exists (db : DB) (id : Z) : bool :=
  existsb (fun d => Devices.id d =? id) (user_devices db).

(** SQLSTATE, name and test of every constraint. *)
Definition constraints : list (string * string * (DB -> bool)) :=
  [ ("22021", "users", fun db => forallb user_texts (users db));
    ("22021", "user_devices", fun db => forallb device_texts (user_devices db));
    ("22021", "user_sessions", fun db => forallb session_texts (user_sessions db));
    ("22021", "addresses", fun db => forallb address_texts (addresses db));
    ("22021", "outbox_events", fun db => forallb outbox_texts (outbox_events db));
    ("22021", "processed_events", fun db => forallb processed_texts (processed_events db));
    ("22001", "users", fun db => forallb user_lengths (users db));
    ("22001", "user_devices", fun db => forallb device_lengths (user_devices db));
    ("22001", "user_sessions", fun db => forallb session_lengths (user_sessions db));
    ("22001", "addresses", fun db => forallb address_lengths (addresses db));
    ("22001", "outbox_events", fun db => forallb outbox_lengths (outbox_events db));
    ("22001", "processed_events", fun db => forallb processed_lengths (processed_events db));
    ("23514", "users_check", fun db => forallb user_checks (users db));
    ("23514", "user_credentials_check", fun db => forallb credential_checks (user_credentials db));
    ("23514", "user_sessions_check", fun db => forallb session_checks (user_sessions db));
    ("23514", "addresses_version_check",
       fun db => forallb (fun a => 0 <? Addresses.version a) (addresses db));
    ("23514", "outbox_events_state_check", fun db => forallb outbox_checks (outbox_events db));
    ("23505", "users_pkey", fun db => nodupb Users.id (users db));
    ("23505", "users_email_key", fun db => nodupb Users.email (users db));
    ("23505", "user_credentials_pkey",
       fun db => nodupb Credentials.user_id (user_credentials db));
    ("23505", "user_devices_pkey", fun db => nodupb Devices.id (user_devices db));
    ("23505", "user_devices_user_id_fingerprint_hash_key",
       fun db => nodupb (fun d => (Devices.user_id d, Devices.fingerprint_hash d)) (user_devices db));
    ("23505", "user_sessions_pkey", fun db => nodupb Sessions.id (user_sessions db));
    ("23505", "user_sessions_refresh_token_hash_key",
       fun db => nodupb Sessions.refresh_token_hash (user_sessions db));
    ("23505", "user_sessions_user_id_device_id_key",
       fun db => nodupb (fun s => (Sessions.user_id s, Sessions.device_id s)) (user_sessions db));
    ("23505", "addresses_pkey", fun db => nodupb Addresses.id (addresses db));
    ("23505", "idx_addresses_unique_default",
       fun db => nodupb Addresses.user_id (where_ Addresses.is_default (addresses db)));
    ("23505", "outbox_events_pkey", fun db => nodupb OutboxEvents.id (outbox_events db));
    ("23505", "processed_events_pkey",
       fun db => nodupb (fun p => (ProcessedEvents.consumer_name p, ProcessedEvents.event_id p))
                        (processed_events db));
    ("23503", "user_credentials_user_id_fkey",
       fun db => forallb (fun c => user_exists db (Credentials.user_id c)) (user_credentials db));
    ("23503", "user_devices_user_id_fkey",
       fun db => forallb (fun d => user_exists db (Devices.user_id d)) (user_devices db));
    ("23503", "user_sessions_user_id_fkey",
       fun db => forallb (fun s => user_exists db (Sessions.user_id s)) (user_sessions db));
    ("23503", "user_sessions_device_id_fkey",
       fun db => forallb (fun s => device_exists db (Sessions.device_id s)) (user_sessions db));
    ("23503", "addresses_user_id_fkey",
       fun db => forallb (fun a => user_exists db (Addresses.user_id a)) (addresses db)) ].

Definition first_violated (db : DB) (l : list (string * string * (DB -> bool))) : option error :=
  match List.find (fun '(_, _, ok) => negb (ok db)) l with
  | Some (code, name, _) => Some (EPg code name)
  | None => None
  end.

Definition violated (db : DB) : option error := first_violated db constraints.

(** A database that satisfies its schema. *)
Definition consistent (db : DB) : Prop := violated db = None.

#[global] Instance consistent_dec db : Decision (consistent db).
Proof. unfold consistent. apply _. Defined.

Lemma find_none {A} (p : A -> bool) l : List.find p l = None <-> forall x, x ∈ l -> p x = false.
Proof.
  induction l as [|y l IH]; simpl.
  - split; [by intros _ x ?%elem_of_nil|done].
  - destruct (p y) eqn:E; [split; [done|intros H; specialize (H y ltac:(left)); congruence]|].
    rewrite IH. split; intros H x; [intros [->|Hx]%elem_of_cons; auto|intros Hx; apply H; by right].
Qed.

Lemma violated_none db :
  consistent db <-> forall code name ok, (code, name, ok) ∈ constraints -> ok db = true.
Proof.
  unfold consistent, violated, first_violated.
  destruct (List.find _ constraints) as [[[code name] ok]|] eqn:E.
  - split; [done|]. intros H. exfalso. apply find_some in E as [Hin Hp].
    apply list_elem_of_In in Hin. by rewrite (H _ _ _ Hin) in Hp.
  - split; [|done]. intros _ code name ok Hin. rewrite find_none in E.
    specialize (E _ Hin). simpl in E. by destruct (ok db).
Qed.

Section Consistent.
Context (db : DB) (H : consistent db).

Lemma consistent_nth n :
  (n < length constraints)%nat -> (nth n constraints ("", "", fun _ => true)).2 db = true.
Proof.
  intros Hn. assert (Hin : nth n constraints ("", "", fun _ => true) ∈ constraints)
    by (by apply list_elem_of_In, nth_In).
  destruct (nth n constraints _) as [[code name] ok]. simpl.
  by apply (proj1 (violated_none db) H code name).
Qed.

Lemma unique_user_id : NoDup (Users.id <$> users db).
Proof. apply nodupb_spec. apply (consistent_nth 17). simpl. lia. Qed.
Lemma unique_email : NoDup (Users.email <$> users db).
Proof. apply nodupb_spec. apply (consistent_nth 18). simpl. lia. Qed.
Lemma unique_credential : NoDup (Credentials.user_id <$> user_credentials db).
Proof. apply nodupb_spec. apply (consistent_nth 19). simpl. lia. Qed.
Lemma unique_device_id : NoDup (Devices.id <$> user_devices db).
Proof. apply nodupb_spec. apply (consistent_nth 20). simpl. lia. Qed.
Lemma unique_fingerprint :
  NoDup ((fun d => (Devices.user_id d, Devices.fingerprint_hash d)) <$> user_devices db).
Proof. apply nodupb_spec. apply (consistent_nth 21). simpl. lia. Qed.
Lemma unique_session_id : NoDup (Sessions.id <$> user_sessions db).
Proof. apply nodupb_spec. apply (consistent_nth 22). simpl. lia. Qed.
Lemma unique_refresh_hash : NoDup (Sessions.refresh_token_hash <$> user_sessions db).
Proof. apply nodupb_spec. apply (consistent_nth 23). simpl. lia. Qed.
Lemma unique_session_device :
  NoDup ((fun s => (Sessions.user_id s, Sessions.device_id s)) <$> user_sessions db).
Proof. apply nodupb_spec. apply (consistent_nth 24). simpl. lia. Qed.
Lemma unique_address_id : NoDup (Addresses.id <$> addresses db).
Proof. apply nodupb_spec. apply (consistent_nth 25). simpl. lia. Qed.
Lemma unique_default_address :
  NoDup (Addresses.user_id <$> where_ Addresses.is_default (addresses db)).
Proof. apply nodupb_spec. apply (consistent_nth 26). simpl. lia. Qed.
Lemma unique_processed :
  NoDup ((fun p => (ProcessedEvents.consumer_name p, ProcessedEvents.event_id p)) <$> processed_events db).
Proof. apply nodupb_spec. apply (consistent_nth 28). simpl. lia. Qed.
Lemma outbox_states : forallb outbox_checks (outbox_events db) = true.
Proof. apply (consistent_nth 16). simpl. lia. Qed.
End Consistent.
