(* ===== verification/Database.v ===== *)
(** * The process state, SQL execution and transactions

    [World] is the state a request handler works on: the committed database,
    the open transaction, the sequences, the Redis connection, and the positions
    in the streams of outside readings (clock, randomness, UUIDs, driver calls).
    [run] executes one SQL statement through the executor [GetExecutor] chooses
    from the context; [WithinTransaction] is the transaction manager of
    [internal/platform/tx]. Every driver call may fail ([pg_fault]). *)

From Stdlib Require Import ZArith NArith String Ascii Lia.
From stdpp Require Import base strings list gmap.
From S2P Require Import Prelude GoStrings Crypto Json Domain Gin RedisClient Idempotency Schema.

Local Open Scope Z_scope.

(** ** The outside world *)

(** Readings of the system clock and of [uuid.New], and the PostgreSQL server:
    its clock at the [n]-th call and the fault of the [n]-th call, if any, with
    whether the server had carried the call out when the connection broke. *)
Class Env := {
  env_clock : nat -> Z;
  env_uuid : nat -> string;
  pg_clock : nat -> Z;
  pg_fault : nat -> option (bool * string)
}.

(** A task handed to a goroutine. *)
Inductive task :=
| TStoreSession (hash : string) (session : Session.t) (ttl : Z).

(** An open transaction: its working copy, its start time (the value of
    [NOW()]), and whether an error has aborted it. *)
Record Tx := mkTx { tx_db : DB; tx_now : Z; tx_failed : bool }.

Record World (R : Type) := mkWorld {
  w_db : DB;
  w_tx : option Tx;
  w_seq : Seqs;
  w_redis : R;
  w_pg : nat;
  w_ticks : nat;
  w_reads : nat;
  w_uuids : nat;
  w_tasks : list task
}.
Arguments mkWorld {R} _ _ _ _ _ _ _ _ _.
Arguments w_db {R} _.
Arguments w_tx {R} _.
Arguments w_seq {R} _.
Arguments w_redis {R} _.
Arguments w_pg {R} _.
Arguments w_ticks {R} _.
Arguments w_reads {R} _.
Arguments w_uuids {R} _.
Arguments w_tasks {R} _.

Section Setters.
Context {R : Type}.
Implicit Type w : World R.

Definition set_db (db : DB) w := mkWorld db (w_tx w) (w_seq w) (w_redis w) (w_pg w) (w_ticks w)
  (w_reads w) (w_uuids w) (w_tasks w).
Definition set_tx (t : option Tx) w := mkWorld (w_db w) t (w_seq w) (w_redis w) (w_pg w) (w_ticks w)
  (w_reads w) (w_uuids w) (w_tasks w).
Definition set_seq (q : Seqs) w := mkWorld (w_db w) (w_tx w) q (w_redis w) (w_pg w) (w_ticks w)
  (w_reads w) (w_uuids w) (w_tasks w).
Definition set_rd (r : R) w := mkWorld (w_db w) (w_tx w) (w_seq w) r (w_pg w) (w_ticks w)
  (w_reads w) (w_uuids w) (w_tasks w).
Definition tick_pg w := mkWorld (w_db w) (w_tx w) (w_seq w) (w_redis w) (S (w_pg w)) (w_ticks w)
  (w_reads w) (w_uuids w) (w_tasks w).
Definition tick_clock w := mkWorld (w_db w) (w_tx w) (w_seq w) (w_redis w) (w_pg w) (S (w_ticks w))
  (w_reads w) (w_uuids w) (w_tasks w).
Definition tick_rand w := mkWorld (w_db w) (w_tx w) (w_seq w) (w_redis w) (w_pg w) (w_ticks w)
  (S (w_reads w)) (w_uuids w) (w_tasks w).
Definition tick_uuid w := mkWorld (w_db w) (w_tx w) (w_seq w) (w_redis w) (w_pg w) (w_ticks w)
  (w_reads w) (S (w_uuids w)) (w_tasks w).
Definition add_task (t : task) w := mkWorld (w_db w) (w_tx w) (w_seq w) (w_redis w) (w_pg w)
  (w_ticks w) (w_reads w) (w_uuids w) (w_tasks w ++ [t]).
Definition set_tasks (l : list task) w := mkWorld (w_db w) (w_tx w) (w_seq w) (w_redis w) (w_pg w)
  (w_ticks w) (w_reads w) (w_uuids w) l.
End Setters.

#[export] Instance world_has_redis R : HasRedis (World R) R := {|
  get_redis := w_redis; set_redis := set_rd
|}.
#[export] Instance world_has_redis_laws R : HasRedisLaws (World R) R.
Proof. by split. Qed.
#[export] Instance world_clock {E : Env} {R} : Clock (World R) := {|
  Now w := (tick_clock w, env_clock (w_ticks w))
|}.

Section Readings.
Context {E : Env} {R : Type}.

(** [uuid.NewString()] *)
Definition NewString : M (World R) string := fun w => (tick_uuid w, Ok (env_uuid (w_uuids w))).

(** [cryptoutil.GenerateSecureToken()] *)
Definition secureToken `{Rand} : M (World R) string :=
  fun w => (tick_rand w, GenerateSecureToken (w_reads w)).
End Readings.

(** ** Statements *)

Definition ErrNoRows : error := ENew "no rows in result set".
Definition ErrTxClosed : error := ENew "tx is closed".
Definition ErrTxCommitRollback : error := ENew "commit unexpectedly resulted in rollback".
(** [in_failed_sql_transaction] *)
Definition ErrInFailedTx : error := EPg "25P02" "".

(** A statement works at a time ([NOW()]) on a database; sequence values stay
    consumed when it fails. *)
Definition stmt (A : Type) : Type := Z -> DB -> Seqs -> Seqs * result (DB * A).

Definition select {A} (q : DB -> A) : stmt A := fun _ db sq => (sq, Ok (db, q db)).

(** [INSERT], [UPDATE], [DELETE]: the change happens if no constraint is violated. *)
Definition dml {A} (f : Z -> DB -> Seqs -> Seqs * DB * A) : stmt A :=
  fun now db sq =>
    let '(sq', db', a) := f now db sq in
    match violated db' with
    | Some e => (sq', Err e)
    | None => (sq', Ok (db', a))
    end.

(** ** Executors: [tx/context.go] *)

Inductive Executor := ExPool | ExTx.

Definition ExtractTx (ctx : Ctx) : bool := ctx_tx ctx.

Definition GetExecutor (ctx : Ctx) : Executor := if ExtractTx ctx then ExTx else ExPool.

Definition inject (ctx : Ctx) : Ctx := mkCtx (ctx_idem ctx) (ctx_reqid ctx) true.

Section Run.
Context {E : Env} {R : Type}.

Definition run_pool {A} (s : stmt A) : M (World R) A := fun w =>
  let n := w_pg w in
  let '(sq, x) := s (pg_clock n) (w_db w) (w_seq w) in
  match pg_fault n with
  | Some (false, e) => (tick_pg w, Err (EIO e))
  | Some (true, e) =>
      (tick_pg (set_seq sq (match x with Ok (db, _) => set_db db w | Err _ => w end)), Err (EIO e))
  | None =>
      match x with
      | Ok (db, a) => (tick_pg (set_seq sq (set_db db w)), Ok a)
      | Err e => (tick_pg (set_seq sq w), Err e)
      end
  end.

Definition fail_tx (t : Tx) : Tx := mkTx (tx_db t) (tx_now t) true.

Definition run_tx {A} (s : stmt A) : M (World R) A := fun w =>
  match w_tx w with
  | None => (w, Err ErrTxClosed)
  | Some t =>
      if tx_failed t then (tick_pg w, Err ErrInFailedTx)
      else match pg_fault (w_pg w) with
           | Some (_, e) => (tick_pg (set_tx (Some (fail_tx t)) w), Err (EIO e))
           | None =>
               match s (tx_now t) (tx_db t) (w_seq w) with
               | (sq, Ok (db, a)) =>
                   (tick_pg (set_seq sq (set_tx (Some (mkTx db (tx_now t) false)) w)), Ok a)
               | (sq, Err e) => (tick_pg (set_seq sq (set_tx (Some (fail_tx t)) w)), Err e)
               end
           end
  end.

Definition run {A} (ctx : Ctx) (s : stmt A) : M (World R) A :=
  match GetExecutor ctx with
  | ExPool => run_pool s
  | ExTx => run_tx s
  end.

(** ** The transaction manager: [tx/tx.go] *)

Definition ErrNilPool : error := ENew "tx: nil pgx pool".
Definition ErrNilCallback : error := ENew "tx: nil transaction callback".
Definition ErrCommitFailed : error := ENew "tx: commit failed".
Definition ErrRollbackFailed : error := ENew "tx: rollback failed".

(** [pool.BeginTx] *)
Definition BeginTx : M (World R) unit := fun w =>
  match pg_fault (w_pg w) with
  | Some (_, e) => (tick_pg w, Err (EIO e))
  | None => (tick_pg (set_tx (Some (mkTx (w_db w) (pg_clock (w_pg w)) false)) w), Ok tt)
  end.

(** [tx.Rollback]: the server drops the transaction also when the call fails. *)
Definition Rollback : M (World R) unit := fun w =>
  match w_tx w with
  | None => (w, Err ErrTxClosed)
  | Some _ =>
      (tick_pg (set_tx None w),
       match pg_fault (w_pg w) with Some (_, e) => Err (EIO e) | None => Ok tt end)
  end.

(** [tx.Commit]: an aborted transaction is rolled back and reported; a fault of
    the call leaves open whether the server committed. *)
Definition Commit : M (World R) unit := fun w =>
  match w_tx w with
  | None => (w, Err ErrTxClosed)
  | Some t =>
      match pg_fault (w_pg w) with
      | Some (done, e) =>
          (tick_pg (set_tx None (if done && negb (tx_failed t) then set_db (tx_db t) w else w)),
           Err (EIO e))
      | None =>
          if tx_failed t then (tick_pg (set_tx None w), Err ErrTxCommitRollback)
          else (tick_pg (set_tx None (set_db (tx_db t) w)), Ok tt)
      end
  end.

(** [Manager]: whether the pool is set. *)
Record Manager := mkManager { pool : bool }.

Definition WithinTransaction {A} (m : Manager) (ctx : Ctx) (fn : option (Ctx -> M (World R) A)) :
    M (World R) A :=
  match fn with
  | None => throwM ErrNilCallback
  | Some fn =>
      if negb (pool m) then throwM ErrNilPool
      else if ExtractTx ctx then fn ctx
      else
        do! BeginTx in
        let! x := attemptM (fn (inject ctx)) in
        match x with
        | Err err =>
            let! rb := attemptM Rollback in
            match rb with
            | Err rbErr =>
                if negb (Is rbErr ErrTxClosed)
                then throwM (EWrap "" ErrRollbackFailed
                       (": " +:+ ErrorText rbErr +:+ "; original error: " +:+ ErrorText err))
                else throwM err
            | Ok _ => throwM err
            end
        | Ok a =>
            let! c := attemptM Commit in
            do! attemptM Rollback in
            match c with
            | Err e => throwM (EWrap "" ErrCommitFailed (": " +:+ ErrorText e))
            | Ok _ => retM a
            end
        end
  end.
End Run.

(** ** Properties of execution *)

Section Frames.
Context {E : Env} {R : Type}.

Lemma run_tx_db {A} (s : stmt A) : keeps (w_db (R:=R)) (run_tx s).
Proof.
  intros w. unfold run_tx. destruct (w_tx w) as [t|]; [|done]. destruct (tx_failed t); [done|].
  destruct (pg_fault (w_pg w)) as [[]|]; [done|].
  by destruct (s (tx_now t) (tx_db t) (w_seq w)) as [sq [[db a]|e]].
Qed.

(** Inside a transaction nothing reaches the committed database. *)
Lemma run_in_tx_db {A} ctx (s : stmt A) :
  ExtractTx ctx = true -> keeps (w_db (R:=R)) (run ctx s).
Proof. intros Hc. unfold run, GetExecutor. rewrite Hc. apply run_tx_db. Qed.

(** Queries change nothing. *)
Lemma run_select_db {A} ctx (q : DB -> A) : keeps (w_db (R:=R)) (run ctx (select q)).
Proof.
  intros w. unfold run. destruct (GetExecutor ctx); [|apply run_tx_db].
  unfold run_pool. simpl. by destruct (pg_fault (w_pg w)) as [[[] ?]|].
Qed.

(** What a statement cannot touch. *)
Lemma run_keeps {A T} (f : World R -> T) ctx (s : stmt A) :
  (forall w, f (tick_pg w) = f w) -> (forall db w, f (set_db db w) = f w) ->
  (forall t w, f (set_tx t w) = f w) -> (forall sq w, f (set_seq sq w) = f w) -> keeps f (run ctx s).
Proof.
  intros H1 H2 H3 H4 w. unfold run, run_tx, run_pool. destruct (GetExecutor ctx).
  - destruct (s (pg_clock (w_pg w)) (w_db w) (w_seq w)) as [sq [[db a]|e]];
      destruct (pg_fault (w_pg w)) as [[[] ?]|]; simpl; by rewrite H1, ?H4, ?H2.
  - destruct (w_tx w) as [t|]; [|done]. destruct (tx_failed t); [apply H1|].
    destruct (pg_fault (w_pg w)) as [[]|]; [simpl; by rewrite H1, H3|].
    destruct (s (tx_now t) (tx_db t) (w_seq w)) as [sq [[db a]|e]]; simpl; by rewrite H1, H4, H3.
Qed.
Lemma run_redis {A} ctx (s : stmt A) : keeps (w_redis (R:=R)) (run ctx s).
Proof. by apply run_keeps. Qed.
Lemma run_reads {A} ctx (s : stmt A) : keeps (w_reads (R:=R)) (run ctx s).
Proof. by apply run_keeps. Qed.

Lemma redisM_db {A} (m : M R A) : keeps (w_db (R:=R)) (redisM m).
Proof. apply keeps_zoom. done. Qed.
Lemma redisM_tx {A} (m : M R A) : keeps (w_tx (R:=R)) (redisM m).
Proof. apply keeps_zoom. done. Qed.
Lemma nowM_db : keeps (w_db (R:=R)) nowM.
Proof. done. Qed.
Lemma nowM_tx : keeps (w_tx (R:=R)) nowM.
Proof. done. Qed.
Lemma NewString_db : keeps (w_db (R:=R)) NewString.
Proof. done. Qed.
Lemma secureToken_db `{Rand} : keeps (w_db (R:=R)) secureToken.
Proof. done. Qed.

(** *** The schema is an invariant *)

(** Both the committed database and the working copy satisfy the schema. *)
Definition world_ok (w : World R) : Prop :=
  consistent (w_db w) /\ match w_tx w with Some t => consistent (tx_db t) | None => True end.

Definition sound {A} (s : stmt A) : Prop :=
  forall now db sq sq' db' a, consistent db -> s now db sq = (sq', Ok (db', a)) -> consistent db'.

Lemma select_sound {A} (q : DB -> A) : sound (select q).
Proof. intros now db sq sq' db' a Hc Hs. unfold select in Hs. by simplify_eq. Qed.
Lemma dml_sound {A} (f : Z -> DB -> Seqs -> Seqs * DB * A) : sound (dml f).
Proof.
  intros now db sq sq' db' a Hc Hs. unfold dml in Hs.
  destruct (f now db sq) as [[sq1 db1] a1]. by destruct (violated db1) eqn:Ev; simplify_eq/=.
Qed.

Lemma run_ok {A} ctx (s : stmt A) : sound s -> preserves world_ok (run ctx s).
Proof.
  intros Hs w [Hdb Htx]. unfold run, run_pool, run_tx. destruct (GetExecutor ctx).
  - destruct (s (pg_clock (w_pg w)) (w_db w) (w_seq w)) as [sq [[db a]|e]] eqn:Es;
      destruct (pg_fault (w_pg w)) as [[[] ?]|]; split; simpl; eauto.
  - destruct (w_tx w) as [t|] eqn:Et; [|split; simpl; by rewrite ?Et].
    destruct (tx_failed t); [split; simpl; by rewrite ?Et|].
    destruct (pg_fault (w_pg w)) as [[]|]; [by split|].
    destruct (s (tx_now t) (tx_db t) (w_seq w)) as [sq [[db a]|e]] eqn:Es; split; simpl; eauto.
Qed.

Lemma redisM_ok {A} (m : M R A) : preserves world_ok (redisM m).
Proof.
  intros w Hw. unfold redisM, zoomM. destruct (m (get_redis w)) as [r x]. by destruct Hw.
Qed.
Lemma nowM_ok : preserves world_ok nowM.
Proof. intros w Hw. by destruct Hw. Qed.
Lemma NewString_ok : preserves world_ok NewString.
Proof. intros w Hw. by destruct Hw. Qed.
Lemma secureToken_ok `{Rand} : preserves world_ok secureToken.
Proof. intros w Hw. by destruct Hw. Qed.

(** An invariant that opening and closing a transaction keep is kept by a
    transaction whose callback keeps it. *)
Class TxStable (P : World R -> Prop) : Prop := {
  stable_begin : preserves P BeginTx;
  stable_commit : preserves P Commit;
  stable_rollback : preserves P Rollback
}.

Lemma WithinTransaction_preserves (P : World R -> Prop) `{!TxStable P} {A} m ctx
    (fn : Ctx -> M (World R) A) :
  (forall c, preserves P (fn c)) -> preserves P (WithinTransaction m ctx (Some fn)).
Proof.
  intros Hf. unfold WithinTransaction. assert (Hb := stable_begin (P:=P)).
  assert (Hc := stable_commit (P:=P)). assert (Hr := stable_rollback (P:=P)). go_preserve.
Qed.

#[export] Instance world_ok_stable : TxStable world_ok.
Proof.
  split; intros w [H1 H2].
  - unfold BeginTx. by destruct (pg_fault (w_pg w)) as [[]|]; split.
  - unfold Commit. destruct (w_tx w) as [t|] eqn:Et; [|by split; [|simpl; rewrite Et]].
    destruct (pg_fault (w_pg w)) as [[[] ?]|], (tx_failed t); by split.
  - unfold Rollback. destruct (w_tx w) eqn:Et; split; try done. simpl. by rewrite Et.
Qed.
End Frames.

#[export] Hint Resolve run_in_tx_db run_select_db run_redis run_reads redisM_db redisM_tx nowM_db nowM_tx NewString_db
  secureToken_db select_sound dml_sound run_ok redisM_ok nowM_ok NewString_ok secureToken_ok : go.

(** *** Invariants of the stored data

    A property of the sequences and a database, required of the committed database
    and of the working copy of an open transaction. *)

Section DataInvariants.
Context {E : Env} {R : Type} (P : Seqs -> DB -> Prop).
Implicit Type w : World R.

Definition holds w : Prop :=
  P (w_seq w) (w_db w) /\ match w_tx w with Some t => P (w_seq w) (tx_db t) | None => True end.

(** The statement keeps the property of the database it works on and, although it
    advances sequences, of the others. *)
Definition maintains {A} (s : stmt A) : Prop :=
  forall now db sq sq' x, s now db sq = (sq', x) ->
    (forall db0, P sq db0 -> P sq' db0) /\
    (P sq db -> match x with Ok (db', _) => P sq' db' | Err _ => True end).

Lemma select_maintains {A} (q : DB -> A) : maintains (select q).
Proof. intros now db sq sq' x. unfold select. intros. simplify_eq. done. Qed.

Lemma dml_maintains {A} (f : Z -> DB -> Seqs -> Seqs * DB * A) :
  (forall now db sq sq' db' a, f now db sq = (sq', db', a) ->
     (forall db0, P sq db0 -> P sq' db0) /\ (P sq db -> P sq' db')) -> maintains (dml f).
Proof.
  intros Hf now db sq sq' x. unfold dml. destruct (f now db sq) as [[sq1 db1] a] eqn:Ef.
  apply Hf in Ef as [Hle Ht]. by destruct (violated db1); intros; simplify_eq.
Qed.

(** A statement that is refused before it runs, or runs. *)
Lemma guarded_maintains {A} (s : stmt A) (g : bool) e :
  maintains s -> maintains (fun now db sq => if g then (sq, Err e) else s now db sq).
Proof. intros Hs now db sq sq' x. destruct g; [intros; by simplify_eq|apply Hs]. Qed.

Lemma run_holds {A} ctx (s : stmt A) : maintains s -> preserves holds (run ctx s).
Proof.
  intros Hs w [Hdb Htx]. unfold run, run_pool, run_tx. destruct (GetExecutor ctx).
  - destruct (s (pg_clock (w_pg w)) (w_db w) (w_seq w)) as [sq x] eqn:Es.
    apply Hs in Es as [Hle Ht]. specialize (Ht Hdb).
    destruct (pg_fault (w_pg w)) as [[[] ?]|]; destruct x as [[db a]|e]; split; simpl; auto;
      destruct (w_tx w); auto.
  - destruct (w_tx w) as [t|] eqn:Et; [|split; simpl; by rewrite ?Et].
    destruct (tx_failed t); [split; simpl; by rewrite ?Et|].
    destruct (pg_fault (w_pg w)) as [[]|]; [by split|].
    destruct (s (tx_now t) (tx_db t) (w_seq w)) as [sq [[db a]|e]] eqn:Es;
      apply Hs in Es as [Hle Ht]; split; simpl; auto.
Qed.

#[export] Instance holds_stable : TxStable holds.
Proof.
  split; intros w [H1 H2].
  - unfold BeginTx. by destruct (pg_fault (w_pg w)) as [[]|]; split.
  - unfold Commit. destruct (w_tx w) as [t|] eqn:Et; [|by split; [|simpl; rewrite Et]].
    destruct (pg_fault (w_pg w)) as [[[] ?]|], (tx_failed t); by split.
  - unfold Rollback. destruct (w_tx w) eqn:Et; split; try done. simpl. by rewrite Et.
Qed.

(** Effects outside the database. *)
Lemma keeps_holds {A} (m : M (World R) A) :
  keeps (fun w => (w_seq w, w_db w, w_tx w)) m -> preserves holds m.
Proof.
  intros Hk w [H1 H2]. specialize (Hk w). simpl in Hk. injection Hk as Hq Hd Ht.
  unfold holds. by rewrite Hq, Hd, Ht.
Qed.
Lemma redisM_holds {A} (m : M R A) : preserves holds (redisM m).
Proof. apply keeps_holds. by apply keeps_zoom. Qed.
Lemma nowM_holds : preserves holds nowM.
Proof. by apply keeps_holds. Qed.
Lemma NewString_holds : preserves holds NewString.
Proof. by apply keeps_holds. Qed.
Lemma secureToken_holds `{Rand} : preserves holds secureToken.
Proof. by apply keeps_holds. Qed.
End DataInvariants.

#[export] Hint Resolve select_maintains run_holds redisM_holds nowM_holds NewString_holds
  secureToken_holds : go.

(** *** The clock goes forward *)

(** At least [k] clock readings have been made. *)
Definition past {R} (k : nat) (w : World R) : Prop := (k <= w_ticks w)%nat.

Section Past.
Context {E : Env} {R : Type} (k : nat).

Lemma keeps_past {A} (m : M (World R) A) : keeps w_ticks m -> preserves (past k) m.
Proof. intros Hk. apply (preserves_keeps _ w_ticks (fun n => (k <= n)%nat)); [done|done]. Qed.

Lemma run_ticks {A} ctx (s : stmt A) : keeps (w_ticks (R:=R)) (run ctx s).
Proof. by apply run_keeps. Qed.
Lemma run_past {A} ctx (s : stmt A) : preserves (past (R:=R) k) (run ctx s).
Proof. apply keeps_past, run_ticks. Qed.
Lemma redisM_past {A} (m : M R A) : preserves (past k) (redisM m).
Proof. apply keeps_past. by apply keeps_zoom. Qed.
Lemma nowM_past : preserves (past (R:=R) k) nowM.
Proof. intros w Hw. unfold past in *. simpl. lia. Qed.
Lemma NewString_past : preserves (past (R:=R) k) NewString.
Proof. by intros w Hw. Qed.
Lemma secureToken_past `{Rand} : preserves (past (R:=R) k) secureToken.
Proof. by intros w Hw. Qed.
#[export] Instance past_stable : TxStable (past (R:=R) k).
Proof.
  split; apply keeps_past; intros w.
  - unfold BeginTx. by destruct (pg_fault (w_pg w)) as [[]|].
  - unfold Commit. destruct (w_tx w) as [t|]; [|done].
    by destruct (pg_fault (w_pg w)) as [[[] ?]|], (tx_failed t).
  - unfold Rollback. by destruct (w_tx w).
Qed.
End Past.

#[export] Hint Resolve run_past redisM_past nowM_past NewString_past secureToken_past : go.

(** *** Search

    [go_world] proves [preserves] and [keeps] facts of an operation: it follows
    the structure of the computation, uses the hints for what it knows and
    unfolds the operation at the head otherwise. *)

Ltac head_of t :=
  lazymatch t with
  | ?f _ => head_of f
  | _ => t
  end.

Ltac go_unfold :=
  lazymatch goal with
  | |- preserves _ ?m => let h := head_of m in unfold h
  | |- keeps _ ?m => let h := head_of m in unfold h
  | |- sound ?s => let h := head_of s in unfold h
  end; cbv beta zeta.

(** The methods behind an interface, where one is used. *)
Ltac go_iface := fail.

Ltac go_world :=
  intros;
  lazymatch goal with
  | |- forall _, _ => intro; go_world
  | |- preserves _ (bindM _ _) => apply preserves_bind; go_world
  | |- preserves _ (attemptM _) => apply preserves_attempt; go_world
  | |- preserves _ (if ?b then _ else _) => destruct b; go_world
  | |- preserves _ (match ?x with _ => _ end) => destruct x; go_world
  | |- preserves world_ok (run _ _) => apply run_ok; go_world
  | |- preserves _ (WithinTransaction _ _ (Some _)) => apply WithinTransaction_preserves; [apply _|]; go_world
  | |- keeps _ (bindM _ _) => apply keeps_bind; go_world
  | |- keeps _ (attemptM _) => apply keeps_attempt; go_world
  | |- preserves _ (run _ ?q) =>
      first [ solve [eauto with go]
            | let h := head_of q in unfold h; cbv beta zeta; solve [eauto with go] ]
  | |- keeps _ (run _ ?q) =>
      first [ solve [eauto with go]
            | let h := head_of q in unfold h; cbv beta zeta; solve [eauto with go] ]
  | |- keeps _ (if ?b then _ else _) => destruct b; go_world
  | |- keeps _ (match ?x with _ => _ end) => destruct x; go_world
  | |- sound (select _) => apply select_sound
  | |- sound (dml _) => apply dml_sound
  | |- _ => first [solve [eauto with go] | go_iface; go_world | go_unfold; go_world]
  end.

(** ** What a statement sees and does *)

Section RunInv.
Context {E : Env} {R : Type}.

(** The database a context works on. *)
Definition cur_db (ctx : Ctx) (w : World R) : DB :=
  if ExtractTx ctx then match w_tx w with Some t => tx_db t | None => w_db w end else w_db w.

(** A statement that succeeded saw the context's database and left its result there. *)
Lemma run_inv {A} ctx (s : stmt A) w w' a :
  run ctx s w = (w', Ok a) ->
  exists now sq db, s now (cur_db ctx w) (w_seq w) = (sq, Ok (db, a)) /\ cur_db ctx w' = db /\
    w_seq w' = sq /\ w_redis w' = w_redis w.
Proof.
  unfold run, GetExecutor, cur_db, run_tx, run_pool. destruct (ExtractTx ctx) eqn:Ec.
  - destruct (w_tx w) as [t|]; [|done]. destruct (tx_failed t); [done|].
    destruct (pg_fault (w_pg w)) as [[]|]; [done|].
    destruct (s (tx_now t) (tx_db t) (w_seq w)) as [sq [[db b]|e]] eqn:Es; intros; simplify_eq/=.
    by exists (tx_now t), sq, db.
  - destruct (s (pg_clock (w_pg w)) (w_db w) (w_seq w)) as [sq [[db b]|e]] eqn:Es;
      destruct (pg_fault (w_pg w)) as [[[] ?]|]; intros; simplify_eq/=.
    by exists (pg_clock (w_pg w)), sq, db.
Qed.

Lemma run_select {A} ctx (q : DB -> A) w w' a :
  run ctx (select q) w = (w', Ok a) -> a = q (cur_db ctx w) /\ cur_db ctx w' = cur_db ctx w.
Proof.
  intros (now & sq & db & Hs & Hc & _)%run_inv. unfold select in Hs. by simplify_eq.
Qed.

Lemma run_dml {A} ctx (f : Z -> DB -> Seqs -> Seqs * DB * A) w w' a :
  run ctx (dml f) w = (w', Ok a) ->
  exists now sq, f now (cur_db ctx w) (w_seq w) = (sq, cur_db ctx w', a) /\
    consistent (cur_db ctx w').
Proof.
  intros (now & sq & db & Hs & Hc & _)%run_inv. unfold dml in Hs.
  destruct (f now (cur_db ctx w) (w_seq w)) as [[sq1 db1] a1] eqn:Ef.
  destruct (violated db1) eqn:Ev; simplify_eq. by exists now, sq.
Qed.

Lemma cur_db_pool ctx w : ExtractTx ctx = false -> cur_db ctx w = w_db w.
Proof. unfold cur_db. by intros ->. Qed.

(** Whatever leaves the database and the transaction alone. *)
Lemma redisM_cur {A} ctx (m : M R A) : keeps (cur_db ctx) (redisM m).
Proof. by apply keeps_zoom. Qed.
Lemma nowM_cur ctx : keeps (cur_db ctx) nowM.
Proof. done. Qed.
Lemma NewString_cur ctx : keeps (cur_db ctx) NewString.
Proof. done. Qed.
Lemma secureToken_cur `{Rand} ctx : keeps (cur_db ctx) secureToken.
Proof. done. Qed.
End RunInv.

#[export] Hint Resolve redisM_cur nowM_cur NewString_cur secureToken_cur : go.

(** ** Atomicity of transactions *)

Section Atomic.
Context {E : Env} {R : Type}.

(** The world right after [BeginTx] succeeded. *)
Definition begun (w : World R) : World R :=
  tick_pg (set_tx (Some (mkTx (w_db w) (pg_clock (w_pg w)) false)) w).

Lemma Rollback_db : keeps (w_db (R:=R)) Rollback.
Proof. intros w. unfold Rollback. by destruct (w_tx w). Qed.

Lemma Commit_db w w' (x : result unit) :
  Commit (R:=R) w = (w', x) ->
  (w_db w' = w_db w /\ x <> Ok tt) \/
  exists t, w_tx w = Some t /\ tx_failed t = false /\ w_db w' = tx_db t.
Proof.
  unfold Commit. destruct (w_tx w) as [t|] eqn:Et; [|intros; simplify_eq; by left].
  destruct (pg_fault (w_pg w)) as [[[] e]|], (tx_failed t) eqn:Ef; intros; simplify_eq;
    solve [by left | right; eauto].
Qed.

(** A transaction that committed, step by step. *)
Lemma WithinTransaction_committed {A} m ctx (fn : Ctx -> M (World R) A) w w' a :
  pool m = true -> ExtractTx ctx = false -> WithinTransaction m ctx (Some fn) w = (w', Ok a) ->
  exists w1, fn (inject ctx) (begun w) = (w1, Ok a) /\ cur_db (inject ctx) w1 = w_db w' /\
    w_ticks w' = w_ticks w1 /\ w_redis w' = w_redis w1.
Proof.
  intros Hp Hc. unfold WithinTransaction. rewrite Hp, Hc. simpl. unfold bindM at 1, BeginTx.
  fold (begun w). destruct (pg_fault (w_pg w)) as [[d e]|]; [done|]. unfold bindM at 1, attemptM at 1.
  destruct (fn (inject ctx) (begun w)) as [w1 [b|err]].
  - unfold bindM, attemptM, Commit. destruct (w_tx w1) as [t|] eqn:Et.
    + destruct (pg_fault (w_pg w1)) as [[d e]|]; [by destruct (Rollback _)|].
      destruct (tx_failed t); [by destruct (Rollback _)|]. unfold Rollback, retM. simpl.
      intros. simplify_eq. exists w1. unfold cur_db. simpl. by rewrite Et.
    + by destruct (Rollback w1).
  - unfold bindM, attemptM. destruct (Rollback w1) as [w2 [|re]]; [done|].
    by destruct (negb (Is re ErrTxClosed)).
Qed.

(** What neither the calls of the driver nor the callback touch. *)
Lemma WithinTransaction_keeps {A T} (f : World R -> T) m ctx (fn : Ctx -> M (World R) A) :
  (forall w, f (tick_pg w) = f w) -> (forall db w, f (set_db db w) = f w) ->
  (forall t w, f (set_tx t w) = f w) -> (forall c, keeps f (fn c)) ->
  keeps f (WithinTransaction m ctx (Some fn)).
Proof.
  intros H1 H2 H3 Hf. unfold WithinTransaction.
  assert (Hb : keeps f BeginTx)
    by (intros w; unfold BeginTx; destruct (pg_fault (w_pg w)) as [[]|]; simpl; by rewrite H1, ?H3).
  assert (Hr : keeps f Rollback)
    by (intros w; unfold Rollback; destruct (w_tx w); simpl; by rewrite ?H1, ?H3).
  assert (Hc : keeps f Commit).
  { intros w. unfold Commit. destruct (w_tx w) as [t|]; [|done].
    destruct (pg_fault (w_pg w)) as [[[] ?]|], (tx_failed t); simpl; by rewrite H1, H3, ?H2. }
  go_frame.
Qed.
Lemma WithinTransaction_redis {A} m ctx (fn : Ctx -> M (World R) A) :
  (forall c, keeps w_redis (fn c)) -> keeps w_redis (WithinTransaction m ctx (Some fn)).
Proof. by apply WithinTransaction_keeps. Qed.

(** A transaction that succeeded is closed. *)
Lemma WithinTransaction_closed {A} m ctx (fn : Ctx -> M (World R) A) w w' a :
  ExtractTx ctx = false -> WithinTransaction m ctx (Some fn) w = (w', Ok a) -> w_tx w' = None.
Proof.
  intros Hc. unfold WithinTransaction. rewrite Hc. destruct (negb (pool m)); [done|].
  intros (w1 & u & _ & H)%bindM_ok. apply bindM_ok in H as (w2 & x & _ & H). destruct x as [b|e].
  - apply bindM_ok in H as (w3 & c & _ & H). apply bindM_ok in H as (w4 & rb & Hr & H).
    apply attemptM_inv in Hr. unfold Rollback in Hr. destruct c; [|done]. unfold retM in H. simplify_eq.
    destruct (w_tx w3) eqn:Et; by simplify_eq.
  - apply bindM_ok in H as (w3 & rb & _ & H). destruct rb; [done|]. by destruct (negb _).
Qed.

(** What a transaction with the callback [fn] leaves behind. *)
Lemma WithinTransaction_inv {A} m ctx (fn : Ctx -> M (World R) A) w w' (x : result A) :
  pool m = true -> ExtractTx ctx = false -> keeps w_db (fn (inject ctx)) ->
  WithinTransaction m ctx (Some fn) w = (w', x) ->
  match x with
  | Ok a => exists w1 t, fn (inject ctx) (begun w) = (w1, Ok a) /\ w_tx w1 = Some t /\
      tx_failed t = false /\ w_db w' = tx_db t
  | Err e => w_db w' = w_db w \/
      (Is e ErrCommitFailed = true /\
       exists w1 t a, fn (inject ctx) (begun w) = (w1, Ok a) /\ w_tx w1 = Some t /\
         tx_failed t = false /\ w_db w' = tx_db t)
  end.
Proof.
  intros Hp Hc Hk. unfold WithinTransaction. rewrite Hp, Hc. simpl.
  unfold bindM at 1. unfold BeginTx at 1. fold (begun w).
  destruct (pg_fault (w_pg w)) as [[d e]|]; [intros; simplify_eq; by left|].
  specialize (Hk (begun w)). unfold bindM at 1, attemptM at 1.
  destruct (fn (inject ctx) (begun w)) as [w1 [a|err]]; simpl in Hk.
  - unfold bindM at 1, attemptM at 1. destruct (Commit w1) as [w2 c] eqn:Ec. unfold bindM, attemptM.
    pose proof (Rollback_db w2) as Hr. destruct (Rollback w2) as [w3 rb]. simpl in Hr.
    apply Commit_db in Ec as [[Hdb Hx]|(t & Ht & Hf & Hdb)];
      (destruct c as [[]|e]; unfold retM, throwM; intros; simplify_eq).
    + left. by rewrite Hr, Hdb.
    + exists w1, t. by rewrite Hr.
    + right. split; [done|]. exists w1, t, a. by rewrite Hr.
  - unfold bindM, attemptM. pose proof (Rollback_db w1) as Hr. destruct (Rollback w1) as [w2 rb].
    simpl in Hr. intros Hx. assert (Hw : w2 = w' /\ exists e, x = Err e).
    { destruct rb as [|re]; [|destruct (negb (Is re ErrTxClosed))]; unfold throwM in Hx;
        simplify_eq; eauto. }
    destruct Hw as [-> [e ->]]. left. by rewrite Hr, Hk.
Qed.

(** C3: Transactions are atomic. When the callback works through the context it
    is given (its statements leave the committed database alone), a successful
    [WithinTransaction] commits exactly the callback's final working copy; a
    failed one leaves the committed database unchanged, except that a failed
    commit call may have been carried out by the server, which the error
    [ErrCommitFailed] reports. *)
Theorem WithinTransaction_atomic {A} m ctx (fn : Ctx -> M (World R) A) w w' (x : result A) :
  pool m = true -> ExtractTx ctx = false -> keeps w_db (fn (inject ctx)) ->
  WithinTransaction m ctx (Some fn) w = (w', x) ->
  match x with
  | Ok a => exists w1 t, fn (inject ctx) (begun w) = (w1, Ok a) /\ w_tx w1 = Some t /\
      tx_failed t = false /\ w_db w' = tx_db t
  | Err e => w_db w' = w_db w \/
      (Is e ErrCommitFailed = true /\
       exists w1 t a, fn (inject ctx) (begun w) = (w1, Ok a) /\ w_tx w1 = Some t /\
         tx_failed t = false /\ w_db w' = tx_db t)
  end.
Proof. apply WithinTransaction_inv. Qed.
End Atomic.

#[export] Hint Resolve WithinTransaction_redis : go.

(** ** The store of processed events: [idempotency/processed_event_store.go]

    It is given the pool and so never joins the caller's transaction. *)

Section ProcessedEventStore.
Context {E : Env} {R : Type}.

(** The statement [q] of [TryMarkProcessed]; the result is [RowsAffected]. *)
Definition insert_processed (consumerName eventID : string) (processedAt : Z) (rawMeta : json) :
    stmt Z :=
  dml (fun _ db sq =>
    if existsb (fun p => String.eqb (ProcessedEvents.consumer_name p) consumerName &&
                         String.eqb (ProcessedEvents.event_id p) eventID) (processed_events db)
    then (sq, db, 0)
    else (sq, with_processed (fun l => l ++ [ProcessedEvents.mk consumerName eventID
                                               (pg_time processedAt) rawMeta]) db, 1)).

Definition processed_TryMarkProcessed (consumerName eventID : string) (processedAt : Z)
    (metadata : json) : M (World R) bool :=
  let! tag := run_pool (insert_processed consumerName eventID processedAt metadata) in
  retM (tag =? 1).
End ProcessedEventStore.

#[export] Instance world_processed_events {E : Env} {R} : ProcessedEventStore (World R) := {|
  TryMarkProcessed := processed_TryMarkProcessed
|}.

(** *** An event is processed once *)

Section ProcessedOnce.
Context {E : Env} {R : Type}.

Definition is_processed (db : DB) (consumerName eventID : string) : bool :=
  existsb (fun p => String.eqb (ProcessedEvents.consumer_name p) consumerName &&
                    String.eqb (ProcessedEvents.event_id p) eventID) (processed_events db).

(** A consumer processes an event once: when [TryMarkProcessed] answers true,
    the event was unprocessed before and is processed after it; when it answers
    false the event was already processed and nothing changed. So of several
    deliveries at most one is told to process. *)
Theorem TryMarkProcessed_once consumerName eventID at_ meta (w w' : World R) (b : bool) :
  TryMarkProcessed consumerName eventID at_ meta w = (w', Ok b) ->
  is_processed (w_db w) consumerName eventID = negb b /\
  is_processed (w_db w') consumerName eventID = true /\
  (b = false -> w_db w' = w_db w).
Proof.
  simpl. unfold processed_TryMarkProcessed. intros (w1 & tag & Hr & Hk)%bindM_ok.
  unfold retM in Hk. simplify_eq. unfold run_pool in Hr.
  destruct (insert_processed _ _ _ _ _ _ _) as [sq x] eqn:Ei.
  destruct (pg_fault (w_pg w)) as [[[] e]|]; [done|done|].
  destruct x as [[db n]|e]; simplify_eq/=. unfold insert_processed, dml in Ei.
  fold (is_processed (w_db w) consumerName eventID) in Ei.
  destruct (is_processed (w_db w) consumerName eventID) eqn:Ep;
    destruct (violated _); simplify_eq/=; [done|]. split; [done|]. split; [|done].
  unfold is_processed. simpl. rewrite existsb_app. simpl. rewrite !String.eqb_refl.
  by rewrite orb_true_r.
Qed.
End ProcessedOnce.

(** ** A world to run the examples in

    No driver call fails but the one with number [bad], which the server carried
    out; clocks count seconds. *)

Definition demo_env (bad : option nat) : Env := {|
  env_clock n := Second * Z.of_nat n;
  env_uuid n := "uuid-" +:+ FormatInt (Z.of_nat n);
  pg_clock n := Second * Z.of_nat n;
  pg_fault n := if decide (bad = Some n) then Some (true, "conn closed") else None
|}.

Definition demo_world : World Script.t :=
  mkWorld empty_db None (mkSeqs 1 1 1 1 1) (Script.mk ∅ []) 0 0 0 0 [].

Lemma WithinTransaction_atomic_witness :
  let mark := fun ctx => run (E:=demo_env (Some 2%nat)) ctx (insert_processed "mailer" "e1" 0 JNull) in
  let run_it := WithinTransaction (E:=demo_env (Some 2%nat)) (mkManager true) Background
                  (Some mark) demo_world in
  isOk (snd run_it) = false /\ length (processed_events (w_db (fst run_it))) = 1%nat.
Proof.
  intros mark run_it. split; [by vm_compute|].
  destruct (WithinTransaction_atomic (E:=demo_env (Some 2%nat)) (mkManager true) Background
    mark demo_world (fst run_it)
    (Err (EWrap "" ErrCommitFailed ": conn closed")) eq_refl eq_refl
    ltac:(by apply run_in_tx_db) ltac:(by vm_compute))
    as [Hdb|(_ & w1 & t & a & Hf & Ht & _ & Hdb)]; [by vm_compute in Hdb|].
  rewrite Hdb. vm_compute in Hf. simplify_eq. by simplify_eq/=.
Defined.

Lemma TryMarkProcessed_once_witness :
  let w1 := fst (TryMarkProcessed (ProcessedEventStore:=world_processed_events (E:=demo_env None))
                   "mailer" "e1" 0 JNull demo_world) in
  is_processed (w_db w1) "mailer" "e1" = true.
Proof.
  intros w1. apply (TryMarkProcessed_once (E:=demo_env None) "mailer" "e1" 0 JNull demo_world w1 true).
  by vm_compute.
Defined.
