(* ===== verification/Httpx.v ===== *)
(** * The HTTP platform

    [internal/platform/httpx]: the middlewares every request passes, in the
    order [NewRouter] installs them, and the bearer middleware of
    [auth_context.go]. Cookies, as [net/http], [net/url] and the [gin] context
    handle them, are here too. Logging is left out; the clock readings of the
    request logger are kept. *)

From Stdlib Require Import ZArith NArith String Ascii Lia.
From stdpp Require Import base strings list gmap.
From S2P Require Import Prelude GoStrings Config Crypto Json Domain Gin RedisClient RedisKit Idempotency.
From S2P Require Import Schema Database.

Local Open Scope Z_scope.

(** ** Cookies *)

Definition upper_hex (n : N) : ascii := byte (if (n <? 10)%N then 48 + n else 55 + n)%N.

Definition hex_value (c : ascii) : option N :=
  if in_range 48 57 c then Some (code c - 48)%N
  else if in_range 65 70 c then Some (code c - 55)%N
  else if in_range 97 102 c then Some (code c - 87)%N else None.

(** Bytes [url.QueryEscape] leaves as they are. *)
Definition unreserved (c : ascii) : bool :=
  in_range 48 57 c || in_range 65 90 c || in_range 97 122 c || existsb (Ascii.eqb c) (bytes_of "-_.~").

Definition escape_byte (c : ascii) : list ascii :=
  if unreserved c then [c]
  else if Ascii.eqb c " " then ["+"%char]
  else ["%"%char; upper_hex (code c / 16); upper_hex (N.modulo (code c) 16)].

Definition QueryEscape (s : string) : string := string_of (bytes_of s ≫= escape_byte).

Fixpoint unescape_bytes (fuel : nat) (l : list ascii) : option (list ascii) :=
  match fuel, l with
  | _, [] => Some []
  | O, _ => None
  | S fuel, c :: l =>
      if Ascii.eqb c "%" then
        match l with
        | a :: b :: l =>
            match hex_value a, hex_value b with
            | Some x, Some y => cons (byte (16 * x + y)) <$> unescape_bytes fuel l
            | _, _ => None
            end
        | _ => None
        end
      else cons (if Ascii.eqb c "+" then " "%char else c) <$> unescape_bytes fuel l
  end.

Definition QueryUnescape (s : string) : option string :=
  string_of <$> unescape_bytes (String.length s) (bytes_of s).

(** [c.SetCookie] with a path and no domain: one more [Set-Cookie] header. An
    escaped value needs no quoting. *)
Definition cookie_string (name value : string) (maxAge : Z) (path : string) (secure httpOnly : bool) : string :=
  name +:+ "=" +:+ QueryEscape value +:+ "; Path=" +:+ path
  +:+ (if 0 <? maxAge then "; Max-Age=" +:+ FormatInt maxAge
       else if maxAge <? 0 then "; Max-Age=0" else "")
  +:+ (if httpOnly then "; HttpOnly" else "") +:+ (if secure then "; Secure" else "").

Definition SetCookie (name value : string) (maxAge : Z) (path : string) (secure httpOnly : bool)
    (c : gctx) : gctx :=
  with_w (set_header (fun h =>
    header_Add h "Set-Cookie" (cookie_string name value maxAge path secure httpOnly))) c.

Definition ErrNoCookie : error := ENew "http: named cookie not present".

(** [c.Cookie]: the first cookie of the name; a value that cannot be unescaped
    reads as the empty string. *)
Fixpoint find_cookie (name : string) (l : list (string * string)) : option string :=
  match l with
  | [] => None
  | (k, v) :: l => if String.eqb k name then Some v else find_cookie name l
  end.

Definition Cookie (c : gctx) (name : string) : result string :=
  match find_cookie name (g_cookies c) with
  | None => Err ErrNoCookie
  | Some v => Ok (default "" (QueryUnescape v))
  end.

Definition FormatBool (b : bool) : string := if b then "true" else "false".

(** ** Middlewares *)

Section Generic.
Context {S : Type}.

(** [cors.go] *)
Definition cors_headers (cfg : CORSConfig.t) (origin : string) (c : gctx) : gctx :=
  with_w (set_header (fun h =>
    header_Set (header_Set (header_Set (header_Set h
      "Access-Control-Allow-Origin" origin)
      "Access-Control-Allow-Methods" (Join (CORSConfig.AllowedMethods cfg) ","))
      "Access-Control-Allow-Headers" (Join (CORSConfig.AllowedHeaders cfg) ","))
      "Access-Control-Allow-Credentials" (FormatBool (CORSConfig.AllowCredentials cfg)))) c.

Definition CORSMiddleware (cfg : CORSConfig.t) (next : Handler S) : Handler S := fun c s =>
  let origin := GetHeader c "Origin" in
  if String.eqb origin "" then next c s
  else
    let c := if existsb (fun allowed => String.eqb (TrimSpace allowed) origin) (CORSConfig.AllowedOrigins cfg)
             then cors_headers cfg origin c else c in
    if String.eqb (g_method c) "OPTIONS" then (s, AbortWithStatus 204 c) else next c s.

(** [recovery.go]: a chain that may panic; [Some] is the recovered value. *)
Definition RecoveryMiddleware (next : gctx -> S -> S * gctx * option string) : Handler S := fun c s =>
  let '(s, c, recovered) := next c s in
  match recovered with
  | None => (s, c)
  | Some _ =>
      (s, AbortWithStatusJSON 500 (JObj [("error", JObj [("code", jstr "INTERNAL_ERROR");
            ("message", jstr "internal server error")]); ("success", JBool false)]) c)
  end.

Definition no_panic (next : Handler S) : gctx -> S -> S * gctx * option string :=
  fun c s => (next c s, None).

(** [logger.go]: two clock readings around the chain. *)
Definition LoggerMiddleware `{Clock S} (next : Handler S) : Handler S := fun c s =>
  let '(s, _) := Now s in
  let '(s, c) := next c s in
  let '(s, _) := Now s in (s, c).

(** [ratelimit.go] *)
Context {R : Type} `{HasRedis S R} `{RedisClient R}.

Definition rate_key (ip : string) : string := "rate:global:" +:+ ip.

Definition RateLimitMiddleware (cfg : RateLimitConfig.t) (next : Handler S) : Handler S :=
  if negb (RateLimitConfig.Enabled cfg) then next else
  let limit := RateLimitConfig.RequestPerMinute cfg in
  fun c s =>
    let key := rate_key (g_ip c) in
    let '(s, x) := redisM (rdb_Incr key) s in
    match x with
    | Err _ => next c s
    | Ok count =>
        let s := if count =? 1 then fst (redisM (rdb_Expire key Minute) s) else s in
        let remaining := if wrap64 (limit - count) <? 0 then 0 else wrap64 (limit - count) in
        let c := c_Header "X-RateLimit-Remaining" (FormatInt remaining)
                   (c_Header "X-RateLimit-Limit" (FormatInt limit) c) in
        if limit <? count
        then (s, Error 429 "RATE_LIMIT_EXCEEDED" "too many requests, please slow down"
                   (c_Header "Retry-After" "60" c))
        else next c s
    end.
End Generic.

Section Router.
Context {E : Env} {R : Type} {RC : RedisClient R}.

(** [request_id.go] *)
Definition RequestIDMiddleware (next : Handler (World R)) : Handler (World R) := fun c w =>
  let requestID := GetHeader c "X-Request-ID" in
  let '(w, requestID) :=
    if String.eqb requestID "" then (tick_uuid w, env_uuid (w_uuids w)) else (w, requestID) in
  let c := g_Set "request_id" (AString requestID) c in
  let c := with_ctx (WithRequestIdKey (g_ctx c) requestID) c in
  next (c_Header "X-Request-ID" requestID c) w.

(** [router.go]: the chain in front of every route. *)
Definition NewRouter (cors : CORSConfig.t) (rate : RateLimitConfig.t) (next : Handler (World R)) :
    Handler (World R) :=
  RequestIDMiddleware (RecoveryMiddleware (no_panic
    (LoggerMiddleware (CORSMiddleware cors (RateLimitMiddleware rate next))))).
End Router.

(** ** The bearer middleware of [auth_context.go]

    [map_parse secret now token] is [jwt.ParseWithClaims] into [jwt.MapClaims]
    with the key function of the middleware: the claims and the [Valid] flag;
    [uuid_parse] is [uuid.Parse]. *)
Class MapJWT := {
  map_parse : string -> Z -> string -> result (gmap string json * bool);
  uuid_parse : string -> result string
}.

Section Bearer.
Context {S : Type} `{Clock S} `{MapJWT}.

Definition unauthorized (message : string) (c : gctx) : gctx :=
  AbortWithStatusJSON 401 (JObj [("error", JObj [("code", jstr "UNAUTHORIZED"); ("message", jstr message)]);
    ("success", JBool false)]) c.

(** [JWT_SECRET] is read from the environment at each request. *)
Definition AuthMiddleware (secret : string) (next : Handler S) : Handler S := fun c s =>
  let authHeader := GetHeader c "Authorization" in
  if String.eqb authHeader "" then (s, unauthorized "missing authorization header" c)
  else match Split authHeader " " with
  | [p; tokenString] =>
      if negb (String.eqb p "Bearer") then (s, unauthorized "invalid authorization header format" c)
      else
        let '(s, now) := Now s in
        match map_parse secret now tokenString with
        | Err _ => (s, unauthorized "invalid token" c)
        | Ok (claims, valid) =>
            if negb valid then (s, unauthorized "invalid token" c)
            else match claims !! "user_id" with
            | Some (JStr userIDStr) =>
                match uuid_parse userIDStr with
                | Err _ => (s, Abort (c_JSON 401 (JObj [("error", jstr "invalid UUID format")]) c))
                | Ok userID => next (g_Set "user_id" (AString userID) (g_Set "is_authenticated" (ABool true) c)) s
                end
            | _ => (s, Abort (c_JSON 401 (JObj [("error", jstr "invalid user ID in token")]) c))
            end
        end
  | _ => (s, unauthorized "invalid authorization header format" c)
  end.
End Bearer.

(** ** Properties *)

(** *** Cookie values survive the trip *)

Lemma hex_value_upper n : (n < 16)%N -> hex_value (upper_hex n) = Some n.
Proof.
  intros Hn. assert (Hb : forallb (fun k => bool_decide (hex_value (upper_hex (N.of_nat k)) = Some (N.of_nat k)))
    (seq 0 16) = true) by reflexivity.
  rewrite forallb_forall in Hb. specialize (Hb (N.to_nat n)). rewrite N2Nat.id in Hb.
  apply bool_decide_eq_true in Hb; [done|]. apply in_seq. lia.
Qed.

Lemma unescape_escape_byte c fuel rest :
  unescape_bytes (S fuel) (escape_byte c ++ rest) = cons c <$> unescape_bytes fuel rest.
Proof.
  unfold escape_byte. destruct (unreserved c) eqn:Eu.
  - simpl. assert (Hp : Ascii.eqb c "%" = false) by (destruct (Ascii.eqb_spec c "%"); [by subst|done]).
    assert (Hq : Ascii.eqb c "+" = false) by (destruct (Ascii.eqb_spec c "+"); [by subst|done]).
    by rewrite Hp, Hq.
  - destruct (Ascii.eqb_spec c " ") as [->|Hs]; [done|]. simpl.
    assert (Hc : (code c < 256)%N) by apply N_ascii_bounded.
    rewrite !hex_value_upper; [|apply N.mod_lt; lia|apply N.Div0.div_lt_upper_bound; lia].
    rewrite <- N.div_mod' by done. unfold byte, code. by rewrite ascii_N_embedding.
Qed.

Lemma unescape_bytes_escape l fuel :
  (length l <= fuel)%nat -> unescape_bytes fuel (l ≫= escape_byte) = Some l.
Proof.
  revert fuel. induction l as [|c l IH]; intros fuel Hf; [by destruct fuel|].
  destruct fuel as [|fuel]; simpl in Hf; [lia|].
  change ((c :: l) ≫= escape_byte) with (escape_byte c ++ (l ≫= escape_byte)).
  rewrite unescape_escape_byte, IH by lia. done.
Qed.

Lemma escape_bytes_length l : (length l <= length (l ≫= escape_byte))%nat.
Proof.
  induction l as [|c l IH]; [done|].
  change ((c :: l) ≫= escape_byte) with (escape_byte c ++ (l ≫= escape_byte)).
  rewrite length_app. simpl. assert (1 <= length (escape_byte c))%nat; [|lia].
  unfold escape_byte. repeat case_match; simpl; lia.
Qed.

Lemma QueryUnescape_QueryEscape s : QueryUnescape (QueryEscape s) = Some s.
Proof.
  unfold QueryUnescape, QueryEscape. rewrite bytes_of_string_of, <- bytes_of_length, bytes_of_string_of.
  rewrite unescape_bytes_escape by apply escape_bytes_length. simpl. by rewrite string_of_bytes_of.
Qed.

(** *** The global rate limit *)

Section RateWindow.
Context {S R : Type} `{HasRedis S R} `{!HasRedisLaws S R}.
Context {RC : RedisClient R} {RV : RedisView R} {RL : RedisLaws R}.
(** [count] is any measure of the requests the rest of the chain has run; the rest
    of the chain leaves the counter of this address alone. *)
Context (ip : string) (cfg : RateLimitConfig.t) (next : Handler S) (count : S -> Z).

Definition view (s : S) : store := rd_abs (get_redis s).

Record counts_requests : Prop := {
  count_next c s : count (fst (next c s)) = count s + 1;
  count_redis r s : count (set_redis r s) = count s;
  next_key c s : view (fst (next c s)) !! rate_key ip = view s !! rate_key ip
}.

(** Requests, each [d] nanoseconds after the one before, and how often [INCR] failed. *)
Definition wait (d : Z) (s : S) : S := set_redis (rd_elapse d (get_redis s)) s.
Definition incr_fails (s : S) : Z :=
  if isOk (snd (rdb_Incr (rate_key ip) (get_redis s))) then 0 else 1.
Fixpoint run_requests (reqs : list (Z * gctx)) (s : S) : S * Z :=
  match reqs with
  | [] => (s, 0)
  | (d, c) :: reqs =>
      let s := wait d s in
      let '(s', n) := run_requests reqs (fst (RateLimitMiddleware cfg next c s)) in
      (s', incr_fails s + n)
  end.

Lemma counter_ext m m' c b : m !! rate_key ip = m' !! rate_key ip ->
  counter (rate_key ip) m c b -> counter (rate_key ip) m' c b.
Proof. unfold counter. by intros ->. Qed.

Lemma redisM_run {A} (m : M R A) s :
  redisM m s = (set_redis (fst (m (get_redis s))) s, snd (m (get_redis s))).
Proof. unfold redisM, zoomM. by destruct (m (get_redis s)). Qed.

Lemma rdb_Expire_store key ttl r :
  rd_abs (fst (rdb_Expire key ttl r)) = rd_abs r \/
  rd_abs (fst (rdb_Expire key ttl r)) = fst (cmd_spec (EXPIRE key ttl) (rd_abs r)).
Proof.
  destruct (rdb_Expire key ttl r) as [r' x] eqn:E. apply do_then in E as
    [(rep & Hs & Hx)|(e' & He & _ & Ho)]; [|done]. right. by rewrite Hs.
Qed.

(** One request: the counter never falls; a request that is passed on raised it
    to at most the limit, or met a failing [INCR]. *)
Lemma RateLimit_step c b n s :
  counts_requests -> RateLimitConfig.Enabled cfg = true -> g_ip c = ip ->
  b < expire_secs Minute -> 0 <= b -> counter (rate_key ip) (view s) n b ->
  let s' := fst (RateLimitMiddleware cfg next c s) in
  exists n', counter (rate_key ip) (view s') n' b /\ n <= n' /\
    (count s' = count s \/ (count s' = count s + 1 /\
      (incr_fails s = 1 \/ (n + 1 <= n' /\ n' <= RateLimitConfig.RequestPerMinute cfg)))).
Proof.
  intros [Hn Hr Hk] He Hip Hb H0 Hc. unfold view in Hc. unfold RateLimitMiddleware. rewrite He. cbn [negb].
  rewrite redisM_run, Hip. unfold incr_fails.
  destruct (rdb_Incr (rate_key ip) (get_redis s)) as [r1 [m|e]] eqn:E1; cbn [fst snd isOk].
  - apply rdb_Incr_ok in E1 as (n0 & Hv & -> & Hmax & Hs).
    destruct (counter_incr _ _ _ _ _ Hc Hv Hmax) as [Hle Hc1]. rewrite <- Hs in Hc1.
    set (s1 := if n0 + 1 =? 1 then _ else _).
    assert (Hs1 : counter (rate_key ip) (view s1) (n0 + 1) b /\ count s1 = count s).
    { subst s1. destruct (n0 + 1 =? 1); [|split; [unfold view; by rewrite get_set_redis|by rewrite Hr]].
      rewrite redisM_run. cbn [fst]. rewrite !Hr. split; [|done]. unfold view. rewrite !get_set_redis.
      eapply counter_expire; [done|done|done|apply rdb_Expire_store]. }
    destruct Hs1 as [Hs1 Hc2]. exists (n0 + 1).
    destruct (Z.ltb_spec (RateLimitConfig.RequestPerMinute cfg) (n0 + 1)); cbn [fst].
    + split; [done|split; [lia|by left]].
    + rewrite Hn, Hc2. split; [by eapply counter_ext; [symmetry; apply Hk|]|]. split; [lia|]. right.
      split; [done|right]. lia.
  - exists n. rewrite Hn, Hr. split; [|split; [lia|right; split; [done|by left]]].
    eapply counter_ext; [symmetry; apply Hk|]. unfold view. rewrite get_set_redis.
    eapply counter_incr_any; [done|]. apply do_then in E1 as [(rep & Hs & Hx)|(e' & _ & _ & Ho)]; [|done].
    right. by rewrite Hs.
Qed.

Lemma RateLimit_run reqs n b s :
  counts_requests -> RateLimitConfig.Enabled cfg = true ->
  Forall (fun x => 0 <= fst x /\ g_ip (snd x) = ip) reqs ->
  b < expire_secs Minute -> foldr (fun x => Z.add (fst x)) 0 reqs <= b ->
  counter (rate_key ip) (view s) n b ->
  count (fst (run_requests reqs s)) <=
    count s + snd (run_requests reqs s) + Z.max 0 (RateLimitConfig.RequestPerMinute cfg - n).
Proof.
  intros Hcr He. revert n b s. induction reqs as [|[d c] reqs IH]; intros n b s Hf Hb Hsum Hc; simpl; [lia|].
  apply Forall_cons in Hf as [[Hd Hip] Hf]. simpl in Hd, Hip, Hsum.
  assert (Hrest : 0 <= foldr (fun x => Z.add (fst x)) 0 reqs)
    by (clear -Hf; induction Hf as [|? ? []]; simpl; lia).
  assert (Hw : counter (rate_key ip) (view (wait d s)) n (b - d)).
  { unfold view, wait. rewrite get_set_redis, rd_time by done. by apply counter_elapse; [lia|]. }
  assert (Hcw : count (wait d s) = count s) by apply Hcr.
  destruct (RateLimit_step c (b - d) n (wait d s) Hcr He Hip ltac:(lia) ltac:(lia) Hw)
    as (n' & Hc' & Hle & Hcase).
  specialize (IH n' (b - d) _ Hf ltac:(lia) ltac:(lia) Hc').
  destruct (run_requests reqs _) as [s' f]. simpl in *.
  assert (0 <= incr_fails (wait d s)) by (unfold incr_fails; case_match; lia).
  destruct Hcase as [Hs|[Hs [Hi|Hi]]]; lia.
Qed.

(** C36: The global rate limit in one window. From a state in which the address has no
    counter, over any requests of that address within less than a minute, the rest of
    the chain runs at most [RequestPerMinute] times, plus once for every [INCR] that
    failed (the middleware fails open); a lost [EXPIRE] does not weaken the bound. The
    window is fixed, it starts with the first request that finds no counter: a minute
    that spans the end of one window and the start of the next may see the limit of
    both. *)
Theorem RateLimit_window reqs s :
  counts_requests -> RateLimitConfig.Enabled cfg = true -> 0 <= RateLimitConfig.RequestPerMinute cfg ->
  Forall (fun x => 0 <= fst x /\ g_ip (snd x) = ip) reqs ->
  foldr (fun x => Z.add (fst x)) 0 reqs < expire_secs Minute ->
  view s !! rate_key ip = None ->
  count (fst (run_requests reqs s)) - count s <=
    RateLimitConfig.RequestPerMinute cfg + snd (run_requests reqs s).
Proof.
  intros Hcr He Hl Hf Hsum Hk.
  pose proof (RateLimit_run reqs 0 _ s Hcr He Hf Hsum ltac:(lia) ltac:(by left)). lia.
Qed.
End RateWindow.

(** A state with a Redis script and a counter of the requests served. *)
Module RateDemo.
Record t := mk { redis : Script.t; served : Z }.

#[export] Instance has_redis : HasRedis t Script.t := {|
  get_redis := redis; set_redis r s := mk r (served s)
|}.
#[export] Instance has_redis_laws : HasRedisLaws t Script.t.
Proof. by split. Qed.

Definition handler : Handler t := fun c s => (mk (redis s) (served s + 1), Success 200 "OK" None c).
Definition limit : RateLimitConfig.t := RateLimitConfig.mk true 2 20.
Definition req : gctx := mkGctx "GET" "10.0.0.1" ∅ ∅ [] None Background ∅ new_writer false.
(** The connection breaks once. *)
Definition s0 : t := mk (Script.mk ∅ [true; true; false]) 0.

Lemma RateLimit_window_witness :
  let reqs := [(0, req); (Second, req); (Second, req); (Second, req)] in
  let out := run_requests "10.0.0.1" limit handler reqs s0 in
  served (fst out) <= 2 + snd out.
Proof.
  intros reqs out. rewrite <- (Z.sub_0_r (served (fst out))).
  refine (RateLimit_window "10.0.0.1" limit handler served reqs s0
    _ eq_refl _ _ _ eq_refl); [by split|by vm_compute|repeat constructor; by vm_compute|by vm_compute].
Defined.
End RateDemo.
