(* ===== verification/Sql.v ===== *)
(** * SQL building blocks and row scanning

    What the repositories share: the selection, ordering and update of table rows
    as a statement of SQL does it, and the driver's [Scan] of a row into
    destinations. *)

From Stdlib Require Import ZArith NArith String Ascii Lia Sorted.
From stdpp Require Import base strings list gmap.
From S2P Require Import Prelude GoStrings Json Domain Gin Schema Database.

Local Open Scope Z_scope.

(** ** SQL building blocks *)

Definition rowset : Type := list (list sqlval).

(** [SELECT cols FROM table WHERE p] *)
Definition pick {A} (column : A -> string -> sqlval) (cols : list string) (rows : list A) : rowset :=
  map (fun r => map (column r) cols) rows.

(** [ORDER BY]: insertion sort; rows that compare equal keep the table order. *)
Fixpoint insert_by {A} (before : A -> A -> bool) (x : A) (l : list A) : list A :=
  match l with
  | [] => [x]
  | y :: l => if before x y then x :: y :: l else y :: insert_by before x l
  end.
Definition order_by {A} (before : A -> A -> bool) (l : list A) : list A :=
  foldr (insert_by before) [] l.
Definition desc {A} (key : A -> Z) (x y : A) : bool := key y <=? key x.

(** [UPDATE table SET f WHERE p], and the number of rows it affects. *)
Definition update_where {A} (p : A -> bool) (f : A -> A) (l : list A) : list A :=
  map (fun r => if p r then f r else r) l.
Definition affected {A} (p : A -> bool) (l : list A) : Z := Z.of_nat (length (where_ p l)).

Lemma insert_by_perm {A} (before : A -> A -> bool) x l : insert_by before x l ≡ₚ x :: l.
Proof.
  induction l as [|y l IH]; simpl; [done|]. destruct (before x y); [done|].
  rewrite IH. apply Permutation_swap.
Qed.
Lemma order_by_perm {A} (before : A -> A -> bool) l : order_by before l ≡ₚ l.
Proof. induction l as [|x l IH]; simpl; [done|]. by rewrite insert_by_perm, IH. Qed.

(** The rows come in the order that was asked for. *)
Lemma insert_by_sorted {A} (before : A -> A -> bool) x l :
  (forall a b, before a b = true \/ before b a = true) ->
  (forall a b c, before a b = true -> before b c = true -> before a c = true) ->
  StronglySorted (fun a b => before a b = true) l ->
  StronglySorted (fun a b => before a b = true) (insert_by before x l).
Proof.
  intros Htot Htr. induction 1 as [|y l Hl IH Hy]; simpl; [by repeat constructor|].
  destruct (before x y) eqn:Exy.
  - constructor; [by constructor|]. constructor; [done|]. eapply Forall_impl; [done|]. eauto.
  - constructor; [done|]. rewrite (insert_by_perm before x l). constructor; [|done].
    destruct (Htot x y); congruence.
Qed.
Lemma order_by_sorted {A} (before : A -> A -> bool) l :
  (forall a b, before a b = true \/ before b a = true) ->
  (forall a b c, before a b = true -> before b c = true -> before a c = true) ->
  StronglySorted (fun a b => before a b = true) (order_by before l).
Proof.
  intros Htot Htr. induction l as [|x l IH]; simpl; [constructor|]. by apply insert_by_sorted.
Qed.
Lemma sorted_weaken {A} (P Q : A -> A -> Prop) l :
  (forall a b, P a b -> Q a b) -> StronglySorted P l -> StronglySorted Q l.
Proof.
  intros Hpq. induction 1 as [|x l Hl IH Hx]; constructor; [done|]. eapply Forall_impl; eauto.
Qed.
Lemma desc_sorted {A} (key : A -> Z) l :
  StronglySorted (fun a b => key b <= key a) (order_by (desc key) l).
Proof.
  eapply sorted_weaken; [|apply order_by_sorted]; unfold desc;
    [intros a b Hab; by apply Z.leb_le in Hab|intros a b; rewrite !Z.leb_le; lia|].
  intros a b c. rewrite !Z.leb_le. lia.
Qed.

Lemma elem_of_update_where {A} (p : A -> bool) f l x :
  x ∈ update_where p f l <-> exists y, y ∈ l /\ x = if p y then f y else y.
Proof.
  unfold update_where. rewrite list_elem_of_fmap. naive_solver.
Qed.

Lemma update_where_none {A} (p : A -> bool) f l : where_ p l = [] -> update_where p f l = l.
Proof.
  rewrite where_nil. intros H. induction l as [|y l IH]; simpl; [done|].
  rewrite (H y) by left. f_equal. apply IH. intros x Hx. apply H. by right.
Qed.

(** ** Scanning *)

Definition ErrScan : error := EIO "can't scan into dest".

(** One destination of [Scan]: takes the next column, which must have its type;
    only pointer destinations accept NULL. *)
Definition dest (A : Type) : Type := sqlval -> result A.
Definition d_int : dest Z := fun v => match v with VInt z => Ok z | _ => Err ErrScan end.
Definition d_text : dest string := fun v => match v with VText s => Ok s | _ => Err ErrScan end.
Definition d_bool : dest bool := fun v => match v with VBool b => Ok b | _ => Err ErrScan end.
Definition d_time : dest Z := fun v => match v with VTime t => Ok t | _ => Err ErrScan end.
Definition d_map : dest metadata := fun v =>
  match v with
  | VJson (JObj f) => Ok (Some (JObj f))
  | VJson JNull | VNull => Ok None
  | _ => Err ErrScan
  end.
Definition d_json : dest json := fun v => match v with VJson j => Ok j | _ => Err ErrScan end.
Definition d_ptr {A} (d : dest A) : dest (option A) := fun v =>
  match v with VNull => Ok None | _ => let? a := d v in Ok (Some a) end.

Definition next {A B} (d : dest A) (k : A -> list sqlval -> result B) (l : list sqlval) : result B :=
  match l with
  | [] => Err ErrScan
  | v :: l => let? a := d v in k a l
  end.
(** The number of columns must be the number of destinations. *)
Definition finish {B} (b : B) (l : list sqlval) : result B :=
  match l with [] => Ok b | _ => Err ErrScan end.

(** ** Running a statement *)

Section Rows.
Context {E : Env} {R : Type}.

(** [QueryRow(...).Scan]: the first row, or [pgx.ErrNoRows]. *)
Definition QueryRow {A} (ctx : Ctx) (q : stmt rowset) (scan : list sqlval -> result A) :
    M (World R) A :=
  let! rows := run ctx q in
  match rows with
  | [] => throwM ErrNoRows
  | r :: _ => liftM (scan r)
  end.

(** [Query] with the loop over [rows.Next()]. *)
Fixpoint scan_all {A} (scan : list sqlval -> result A) (rows : rowset) : result (list A) :=
  match rows with
  | [] => Ok []
  | r :: rows => let? a := scan r in let? l := scan_all scan rows in Ok (a :: l)
  end.
Definition Query {A} (ctx : Ctx) (q : stmt rowset) (scan : list sqlval -> result A) :
    M (World R) (list A) :=
  let! rows := run ctx q in liftM (scan_all scan rows).

(** [Exec]: the number of affected rows of the command tag. *)
Definition Exec (ctx : Ctx) (q : stmt Z) : M (World R) Z := run ctx q.

Lemma QueryRow_ok {A} ctx q (scan : list sqlval -> result A) :
  sound q -> preserves (world_ok (R:=R)) (QueryRow ctx q scan).
Proof. go_world. Qed.
Lemma Query_ok {A} ctx q (scan : list sqlval -> result A) :
  sound q -> preserves (world_ok (R:=R)) (Query ctx q scan).
Proof. go_world. Qed.

(** A query on the pool returns what it selects unless the driver fails. *)
Lemma run_select_pool {A} ctx (q : DB -> A) (w : World R) :
  ExtractTx ctx = false ->
  run ctx (select q) w =
    (tick_pg w,
     match pg_fault (w_pg w) with Some (_, e) => Err (EIO e) | None => Ok (q (w_db w)) end).
Proof.
  intros Hc. unfold run, GetExecutor. rewrite Hc. unfold run_pool. simpl. destruct w. simpl.
  by destruct (pg_fault _) as [[[] e]|].
Qed.

(** The row a successful [QueryRow] on a table returned. *)
Lemma QueryRow_select {A T} ctx (tbl : DB -> list T) (rows : list T -> list T) col cols
    (scan : list sqlval -> result A) (w w' : World R) a :
  QueryRow ctx (select (fun db => pick col cols (rows (tbl db)))) scan w = (w', Ok a) ->
  (exists r, r ∈ rows (tbl (cur_db ctx w)) /\ scan (map (col r) cols) = Ok a) /\
  cur_db ctx w' = cur_db ctx w.
Proof.
  unfold QueryRow. intros (w1 & l & Hr & Hs)%bindM_ok. apply run_select in Hr as [-> Hc].
  destruct (rows (tbl (cur_db ctx w))) as [|r l] eqn:El; [done|]. simpl in Hs.
  unfold liftM in Hs. simplify_eq. split; [|done]. exists r. split; [left|done].
Qed.

Lemma scan_all_ok {A T} (scan : list sqlval -> result A) (col : T -> string -> sqlval) cols rows l :
  scan_all scan (pick col cols rows) = Ok l -> Forall2 (fun r a => scan (map (col r) cols) = Ok a) rows l.
Proof.
  revert l. induction rows as [|r rows IH]; intros l; simpl; [intros; simplify_eq; constructor|].
  destruct (scan (map (col r) cols)) as [a|] eqn:Es; [|done]. simpl.
  fold (pick col cols rows). destruct (scan_all scan (pick col cols rows)) as [l'|]; [|done].
  intros [= <-]. constructor; [done|by apply IH].
Qed.

(** The rows a successful [Query] on a table returned, in order. *)
Lemma Query_select {A T} ctx (rows : DB -> list T) col cols (scan : list sqlval -> result A) (w w' : World R) l :
  Query ctx (select (fun db => pick col cols (rows db))) scan w = (w', Ok l) ->
  Forall2 (fun r a => scan (map (col r) cols) = Ok a) (rows (cur_db ctx w)) l /\ cur_db ctx w' = cur_db ctx w.
Proof.
  unfold Query. intros (w1 & t & Hr & Hs)%bindM_ok. apply run_select in Hr as [-> Hc].
  unfold liftM in Hs. injection Hs as <- Hs. split; [by apply scan_all_ok|done].
Qed.

Lemma Exec_dml ctx f (w w' : World R) n :
  Exec ctx (dml f) w = (w', Ok n) ->
  exists now sq, f now (cur_db ctx w) (w_seq w) = (sq, cur_db ctx w', n) /\
    consistent (cur_db ctx w').
Proof. apply run_dml. Qed.

Lemma QueryRow_dml {A} ctx f (scan : list sqlval -> result A) (w w' : World R) a :
  QueryRow ctx (dml f) scan w = (w', Ok a) ->
  exists now sq r rest, f now (cur_db ctx w) (w_seq w) = (sq, cur_db ctx w', r :: rest) /\
    scan r = Ok a /\ consistent (cur_db ctx w').
Proof.
  unfold QueryRow. intros (w1 & l & Hr & Hs)%bindM_ok.
  apply run_dml in Hr as (now & sq & Hf & Hc). destruct l as [|r l]; [done|].
  unfold liftM in Hs. simplify_eq. by exists now, sq, r, l.
Qed.
End Rows.
