(* ===== verification/Kafka.v ===== *)
(** * Kafka: envelopes, headers, producer, dead letters and the consumer loop

    [internal/platform/kafka]. The broker and the [kafka-go] client are the
    classes [KafkaWriter] and [KafkaReader]; [BrokerLaws] states what the theorems
    rely on. A message handler may panic, so its result is an [outcome]. *)

From Stdlib Require Import ZArith NArith String Ascii Lia.
From stdpp Require Import base strings list gmap.
From S2P Require Import Prelude GoStrings Json.

Local Open Scope Z_scope.

(** ** Text of an instant: [Time.Format] in UTC *)

(** Year, month and day of a day number counted from 1 January 1970. *)
Definition civil (days : Z) : Z * Z * Z :=
  let z := days + 719468 in
  let era := z / 146097 in
  let doe := z mod 146097 in
  let yoe := (doe - doe / 1460 + doe / 36524 - doe / 146096) / 365 in
  let doy := doe - (365 * yoe + yoe / 4 - yoe / 100) in
  let mp := (5 * doy + 2) / 153 in
  let m := if mp <? 10 then mp + 3 else mp - 9 in
  ((yoe + era * 400) + (if m <=? 2 then 1 else 0), m, doy - (153 * mp + 2) / 5 + 1).

Definition zeros (n : nat) : string := string_of (repeat (byte 48) n).
Definition padded (width : nat) (n : Z) : string :=
  zeros (width - String.length (FormatInt n)) +:+ FormatInt n.

Fixpoint drop_zeros (l : list ascii) : list ascii :=
  match l with
  | c :: l' => if Ascii.eqb c (byte 48) then drop_zeros l' else l
  | [] => []
  end.

(** The fraction of RFC3339Nano: nine digits less the trailing zeros. *)
Definition fraction (nanos : Z) : string :=
  if nanos =? 0 then ""
  else "." +:+ string_of (rev (drop_zeros (rev (bytes_of (padded 9 nanos))))).

Definition seconds_text (t : Z) : string :=
  let secs := t / Second in
  let '(y, m, d) := civil (secs / 86400) in
  let s := secs mod 86400 in
  padded 4 y +:+ "-" +:+ padded 2 m +:+ "-" +:+ padded 2 d +:+ "T" +:+
  padded 2 (s / 3600) +:+ ":" +:+ padded 2 (s / 60 mod 60) +:+ ":" +:+ padded 2 (s mod 60).

Definition RFC3339 (t : Z) : string := seconds_text t +:+ "Z".
Definition RFC3339Nano (t : Z) : string := seconds_text t +:+ fraction (t mod Second) +:+ "Z".

Example RFC3339Nano_sample :
  RFC3339Nano (1700000000 * Second + 120000000) = "2023-11-14T22:13:20.12Z".
Proof. vm_compute. reflexivity. Qed.

(** [Time.MarshalJSON] accepts the years 0 to 9999. *)
Definition year_ok (t : Z) : bool :=
  (-62167219200 * Second <=? t) && (t <? 253402300800 * Second).

(** [time.Now().String()]: local zone and monotonic reading included. *)
Class NowText (S : Type) := {
  NowString : S -> S * string
}.
Definition nowTextM {S} `{NowText S} : M S string :=
  fun s => let '(s', t) := NowString s in (s', Ok t).

(** ** Topics and keys: [topic.go] *)

Definition TopicOrderEvents : string := "order.events.v1".
Definition TopicPaymentEvents : string := "payment.events.v1".
Definition TopicMembershipEvents : string := "membership.events.v1".
Definition TopicEntitlementEvents : string := "entitlement.events.v1".
Definition TopicInventoryEvents : string := "inventory.events.v1".
Definition TopicShipmentEvents : string := "shipment.events.v1".
Definition TopicNotificationCmds : string := "notification.commands.v1".
Definition TopicSchedulerCmds : string := "scheduler.commands.v1".
Definition TopicAuditEvents : string := "audit.events.v1".
Definition TopicReportingEvents : string := "reporting.events.v1".
Definition TopicDLQGeneral : string := "dlq.general.v1".

Definition AggOrder : string := "order".
Definition AggPayment : string := "payment".
Definition AggUser : string := "user".
Definition AggMembership : string := "membership".
Definition AggInventory : string := "inventory".
Definition AggShipment : string := "shipment".
Definition aggregate_types : list string :=
  [AggOrder; AggPayment; AggUser; AggMembership; AggInventory; AggShipment].

Definition EventKey (aggType aggID : string) : string := aggType +:+ ":" +:+ aggID.

(** What the messages of a topic are keyed by. *)
Definition TopicKeyStrategy : gmap string string := list_to_map [
  (TopicOrderEvents, "order_id"); (TopicPaymentEvents, "order_id or payment_id");
  (TopicMembershipEvents, "user_id"); (TopicEntitlementEvents, "user_id"); (TopicInventoryEvents, "book_id");
  (TopicShipmentEvents, "shipment_id"); (TopicNotificationCmds, "recipient or business_key");
  (TopicSchedulerCmds, "command_key"); (TopicAuditEvents, "resource_id"); (TopicReportingEvents, "business_key")].

(** ** Envelopes: [envelope.go] *)

(** [Payload] is a [json.RawMessage]: nil, or bytes that should be a document. *)
Record Envelope := mkEnvelope {
  EventID : string; EventType : string; AggregateType : string; AggregateID : string;
  OccurredAt : Z; ProducedAt : Z; TraceID : string; CorrelationID : string; CausationID : string;
  ActorType : string; ActorID : Z; SchemaVersion : Z; IdempotencyKey : string;
  Payload : option payload
}.

Definition EnvelopeOption : Type := Envelope -> Envelope.

Definition WithTraceID (traceID : string) : EnvelopeOption := fun e =>
  mkEnvelope (EventID e) (EventType e) (AggregateType e) (AggregateID e) (OccurredAt e)
    (ProducedAt e) traceID (CorrelationID e) (CausationID e) (ActorType e) (ActorID e)
    (SchemaVersion e) (IdempotencyKey e) (Payload e).
Definition WithCorrelationID (id : string) : EnvelopeOption := fun e =>
  mkEnvelope (EventID e) (EventType e) (AggregateType e) (AggregateID e) (OccurredAt e)
    (ProducedAt e) (TraceID e) id (CausationID e) (ActorType e) (ActorID e)
    (SchemaVersion e) (IdempotencyKey e) (Payload e).
Definition WithCausationID (id : string) : EnvelopeOption := fun e =>
  mkEnvelope (EventID e) (EventType e) (AggregateType e) (AggregateID e) (OccurredAt e)
    (ProducedAt e) (TraceID e) (CorrelationID e) id (ActorType e) (ActorID e)
    (SchemaVersion e) (IdempotencyKey e) (Payload e).
Definition WithActor (actorType : string) (actorID : Z) : EnvelopeOption := fun e =>
  mkEnvelope (EventID e) (EventType e) (AggregateType e) (AggregateID e) (OccurredAt e)
    (ProducedAt e) (TraceID e) (CorrelationID e) (CausationID e) actorType actorID
    (SchemaVersion e) (IdempotencyKey e) (Payload e).
Definition WithIdKey (key : string) : EnvelopeOption := fun e =>
  mkEnvelope (EventID e) (EventType e) (AggregateType e) (AggregateID e) (OccurredAt e)
    (ProducedAt e) (TraceID e) (CorrelationID e) (CausationID e) (ActorType e) (ActorID e)
    (SchemaVersion e) key (Payload e).
Definition WithSchemaVersion (v : Z) : EnvelopeOption := fun e =>
  mkEnvelope (EventID e) (EventType e) (AggregateType e) (AggregateID e) (OccurredAt e)
    (ProducedAt e) (TraceID e) (CorrelationID e) (CausationID e) (ActorType e) (ActorID e)
    v (IdempotencyKey e) (Payload e).

Definition newUUID {S} `{NowText S} : M S string := nowTextM.

Definition NewEnvelope {S} `{NowText S} `{Clock S} (eventType aggregateType aggregateID : string)
    (occurredAt : Z) (payload_ : option payload) (opts : list EnvelopeOption) : M S Envelope :=
  let! eventID := newUUID in
  let! produced := nowM in
  retM (fold_left (fun e opt => opt e) opts
    (mkEnvelope eventID eventType aggregateType aggregateID occurredAt produced "" "" "" "" 0 1
       eventID payload_)).

(** *** The JSON text of an envelope *)

Definition ErrMarshalTime : error := ENew "json: error calling MarshalJSON for type time.Time".

(** A [RawMessage] must be a document; nil is written as null. *)
Definition raw_message (p : option payload) : result json :=
  match p with None => Ok JNull | Some b => document b end.

Definition str_empty (s : string) : bool := String.eqb s "".

Definition marshal_envelope (e : Envelope) : result payload :=
  if negb (year_ok (OccurredAt e) && year_ok (ProducedAt e)) then Err ErrMarshalTime
  else
    let? body := raw_message (Payload e) in
    Ok (PJson (JObj (
      [("event_id", jstr (EventID e)); ("event_type", jstr (EventType e));
       ("aggregate_type", jstr (AggregateType e)); ("aggregate_id", jstr (AggregateID e));
       ("occurred_at", JTime (OccurredAt e)); ("produced_at", JTime (ProducedAt e))]
      ++ omitempty (str_empty (TraceID e)) "trace_id" (jstr (TraceID e))
      ++ omitempty (str_empty (CorrelationID e)) "correlation_id" (jstr (CorrelationID e))
      ++ omitempty (str_empty (CausationID e)) "causation_id" (jstr (CausationID e))
      ++ [("actor_type", jstr (ActorType e)); ("actor_id", JNum (ActorID e));
          ("schema_version", JNum (SchemaVersion e));
          ("idempotency_key", jstr (IdempotencyKey e)); ("payload", body)]))).

Definition get_int64 (fields : list (string * json)) (name : string) : result Z :=
  let? n := get_num fields name in if is_int64 n then Ok n else Err ErrUnmarshalType.

Definition unmarshal_envelope (b : payload) : result Envelope :=
  let? j := document b in
  match j with
  | JNull => Ok (mkEnvelope "" "" "" "" (-62135596800 * Second) (-62135596800 * Second)
                   "" "" "" "" 0 0 "" None)
  | JObj f =>
      let? event_id := get_str f "event_id" in
      let? event_type := get_str f "event_type" in
      let? aggregate_type := get_str f "aggregate_type" in
      let? aggregate_id := get_str f "aggregate_id" in
      let? occurred_at := get_time f (-62135596800 * Second) "occurred_at" in
      let? produced_at := get_time f (-62135596800 * Second) "produced_at" in
      let? trace_id := get_str f "trace_id" in
      let? correlation_id := get_str f "correlation_id" in
      let? causation_id := get_str f "causation_id" in
      let? actor_type := get_str f "actor_type" in
      let? actor_id := get_int64 f "actor_id" in
      let? schema_version := get_int64 f "schema_version" in
      let? idempotency_key := get_str f "idempotency_key" in
      Ok (mkEnvelope event_id event_type aggregate_type aggregate_id occurred_at produced_at
            trace_id correlation_id causation_id actor_type actor_id schema_version
            idempotency_key (PJson <$> jfield "payload" f))
  | _ => Err ErrUnmarshalType
  end.

(** ** Headers: [headers.go] *)

Definition HeaderTraceID : string := "x-trace-id".
Definition HeaderCorrelationID : string := "x-correlation-id".
Definition HeaderCausationID : string := "x-causation-id".
Definition HeaderEventType : string := "x-event-type".
Definition HeaderSchemaVersion : string := "x-schema-version".
Definition HeaderProducedAt : string := "x-produced-at".

(** [kafka.Header]: key and value. *)
Definition kheader : Type := string * string.

Definition BuildHeaders (e : Envelope) : list kheader :=
  [(HeaderEventType, EventType e); (HeaderSchemaVersion, FormatInt (SchemaVersion e));
   (HeaderProducedAt, RFC3339Nano (ProducedAt e))]
  ++ (if negb (str_empty (TraceID e)) then [(HeaderTraceID, TraceID e)] else [])
  ++ (if negb (str_empty (CorrelationID e)) then [(HeaderCorrelationID, CorrelationID e)] else [])
  ++ (if negb (str_empty (CausationID e)) then [(HeaderCausationID, CausationID e)] else []).

Module MessageMetadata.
Record t := mk { TraceID : string; CorrelationID : string; CausationID : string; EventType : string }.
End MessageMetadata.

Definition extract_one (m : MessageMetadata.t) (h : kheader) : MessageMetadata.t :=
  let '(key, v) := h in
  let '(MessageMetadata.mk tr co ca ev) := m in
  if String.eqb key HeaderTraceID then MessageMetadata.mk v co ca ev
  else if String.eqb key HeaderCorrelationID then MessageMetadata.mk tr v ca ev
  else if String.eqb key HeaderCausationID then MessageMetadata.mk tr co v ev
  else if String.eqb key HeaderEventType then MessageMetadata.mk tr co ca v
  else m.

Definition ExtractMetadata (headers : list kheader) : MessageMetadata.t :=
  fold_left extract_one headers (MessageMetadata.mk "" "" "" "").

Fixpoint first_header (key : string) (headers : list kheader) : string :=
  match headers with
  | [] => ""
  | (k, v) :: r => if String.eqb k key then v else first_header key r
  end.
Definition ExtractTraceID (headers : list kheader) : string := first_header HeaderTraceID headers.
Definition ExtractCorrelationID (headers : list kheader) : string :=
  first_header HeaderCorrelationID headers.

(** ** The broker client *)

(** [kafka.Message]: the fields the program sets and reads; a nil value is [None]. *)
Record kmsg := mkMsg {
  k_Topic : string; k_Key : string; k_Value : option payload; k_Headers : list kheader; k_Time : Z;
  k_Offset : Z
}.

Class KafkaWriter (S : Type) := {
  WriteMessages : list kmsg -> M S unit;
  writer_Close : M S unit
}.
(** A reader of one topic under the consumer group's context: whether the
    context is cancelled, and the two calls of the loop. *)
Class KafkaReader (S : Type) := {
  ctxDone : S -> bool;
  FetchMessage : M S kmsg;
  CommitMessages : list kmsg -> M S unit
}.
Class Sleeper (S : Type) := {
  Sleep : Z -> S -> S
}.

(** ** Producer: [producer.go] *)

Section Producer.
Context {S : Type} {KW : KafkaWriter S}.

Definition envelope_msg (topic : string) (e : Envelope) (body : payload) : kmsg :=
  mkMsg topic (EventKey (AggregateType e) (AggregateID e)) (Some body) (BuildHeaders e)
    (ProducedAt e) 0.

Definition PublishEnvelope (topic : string) (e : Envelope) : M S unit :=
  match marshal_envelope e with
  | Err err => throwM (EWrap "kafka producer: marshal envelope: " err "")
  | Ok body =>
      let! x := attemptM (WriteMessages [envelope_msg topic e body]) in
      match x with
      | Err err => throwM (EWrap ("kafka producer: write message [" +:+ topic +:+ "/" +:+
                                  EventType e +:+ "]: ") err "")
      | Ok _ => retM tt
      end
  end.

Record TopicMessage := mkTopicMessage { tm_Topic : string; tm_Envelope : Envelope }.

Fixpoint batch_messages (messages : list TopicMessage) : result (list kmsg) :=
  match messages with
  | [] => Ok []
  | tm :: r =>
      match marshal_envelope (tm_Envelope tm) with
      | Err err => Err (EWrap ("kafka producer: marshal envelope [" +:+
                               EventType (tm_Envelope tm) +:+ "]: ") err "")
      | Ok body =>
          let? l := batch_messages r in
          Ok (envelope_msg (tm_Topic tm) (tm_Envelope tm) body :: l)
      end
  end.

Definition PublishBatch (messages : list TopicMessage) : M S unit :=
  match messages with
  | [] => retM tt
  | _ =>
      let! kmsgs := liftM (batch_messages messages) in
      let! x := attemptM (WriteMessages kmsgs) in
      match x with
      | Err err => throwM (EWrap "kafka producer: batch write failed: " err "")
      | Ok _ => retM tt
      end
  end.

Definition producer_Close : M S unit := writer_Close.
End Producer.

(** ** Dead letters: [dlq.go] *)

Record DLQEnvelope := mkDLQ {
  OriginalTopic : string; OriginalKey : string; OriginalPayload : option payload;
  OriginalHeaders : list kheader; FailureReason : string; FailureError : string; FailedAt : Z;
  ConsumerGroup_ : string; Attempt : Z
}.

Definition header_pair (h : kheader) : json :=
  JObj [("key", jstr h.1); ("value", jstr h.2)].

Definition marshal_dlq (d : DLQEnvelope) : result payload :=
  if negb (year_ok (FailedAt d)) then Err ErrMarshalTime
  else
    let? body := raw_message (OriginalPayload d) in
    Ok (PJson (JObj [("original_topic", jstr (OriginalTopic d)); ("original_key", jstr (OriginalKey d));
      ("original_payload", body); ("original_headers", JArr (map header_pair (OriginalHeaders d)));
      ("failure_reason", jstr (FailureReason d)); ("failure_error", jstr (FailureError d));
      ("failed_at", JTime (FailedAt d)); ("consumer_group", jstr (ConsumerGroup_ d));
      ("attempt", JNum (Attempt d))])).

(** [errorString] of a non-nil error; a nil one is [None]. *)
Definition errorString (err : option error) : string :=
  match err with None => "" | Some e => ErrorText e end.

Section Dlq.
Context {S : Type} {KW : KafkaWriter S} {CK : Clock S}.

Definition dlq_msg (topic : string) (original : kmsg) (reason : string) (failedAt : Z)
    (body : payload) : kmsg :=
  mkMsg topic (k_Key original) (Some body)
    [("x-original-topic", k_Topic original); ("x-failure-reason", reason);
     ("x-failed-at", RFC3339 failedAt)] (-62135596800 * Second) 0.

Definition dlq_Publish (topic : string) (original : kmsg) (reason : string) (err : option error) :
    M S unit :=
  let! failedAt := nowM in
  let dlqEnv := mkDLQ (k_Topic original) (k_Key original) (k_Value original) (k_Headers original)
                  reason (errorString err) failedAt "" 1 in
  match marshal_dlq dlqEnv with
  | Err e => throwM (EWrap "dlq: marshal failed: " e "")
  | Ok body =>
      let! x := attemptM (WriteMessages [dlq_msg topic original reason failedAt body]) in
      match x with
      | Err e => throwM (EWrap "dlq: write failed: " e "")
      | Ok _ => retM tt
      end
  end.
End Dlq.

(** ** Handlers and middleware: [handler.go] *)

(** [Message] carries the envelope and the raw message with its identifiers. *)
Record Message_ := mkMessage {
  m_Envelope : Envelope; m_Raw : kmsg; m_TraceID : string; m_CorrelationID : string
}.

(** The values of the consumer's context: those of [TracingMiddleware], and
    those of [injectTraceContext], whose keys are local to that function. *)
Record KCtx := mkKCtx {
  kc_trace : option string; kc_correlation : option string;
  kc_local_trace : option string; kc_local_correlation : option string
}.
Definition kBackground : KCtx := mkKCtx None None None None.

Inductive outcome :=
| Returned (r : result unit)
| Panicked (v : string).

Record KHandler (S : Type) := mkHandler {
  Handle : KCtx -> Message_ -> S -> S * outcome;
  Topics : list string
}.
Arguments mkHandler {S} _ _.
Arguments Handle {S} _ _ _ _.
Arguments Topics {S} _.

(** [NewHandlerFunc]: a function with its topics. *)
Definition NewHandlerFunc {S} (handler : KCtx -> Message_ -> S -> S * outcome) (topics : list string) :
    KHandler S := mkHandler handler topics.

Definition Middleware (S : Type) : Type := KHandler S -> KHandler S.

(** The loop wraps from the last middleware to the first. *)
Definition Chain {S} (middlewares : list (Middleware S)) : Middleware S :=
  fun next => foldr (fun mw h => mw h) next middlewares.

Section Middlewares.
Context {S : Type} {NT : NowText S}.

Definition TracingMiddleware : Middleware S := fun next =>
  mkHandler (fun ctx msg s =>
    let meta := ExtractMetadata (k_Headers (m_Raw msg)) in
    let '(s1, trace) :=
      if str_empty (MessageMetadata.TraceID meta)
      then let '(s1, t) := NowString s in (s1, "generated-trace-" +:+ t)
      else (s, MessageMetadata.TraceID meta) in
    Handle next (mkKCtx (Some trace) (Some (MessageMetadata.CorrelationID meta))
                   (kc_local_trace ctx) (kc_local_correlation ctx)) msg s1) (Topics next).

Definition RecoveryMiddleware : Middleware S := fun next =>
  mkHandler (fun ctx msg s =>
    match Handle next ctx msg s with
    | (s', Panicked v) => (s', Returned (Err (ENew ("panic in consumer handler: " +:+ v))))
    | r => r
    end) (Topics next).
End Middlewares.

(** ** Configuration: [config.go] *)

Module KafkaConfig.
Record t := mk {
  Brokers : list string; ClientID : string;
  ProducerMaxRetries : Z; ProducerRetryBackoff : Z; ProducerWriteTimeout : Z;
  ProducerRequiredAcks : Z; ProducerIdempotent : bool; ProducerBatchSize : Z; ProducerLingerMs : Z;
  ConsumerGroupID : string; ConsumerReadTimeout : Z; ConsumerMaxRetries : Z;
  ConsumerRetryBackoff : Z; ConsumerAutoOffsetReset : string; ConsumerEnableAutoCommit : bool;
  DLQTopic : string; SASLUsername : string; SASLPassword : string; TLSEnabled : bool
}.
End KafkaConfig.

Definition DefaultConfig : KafkaConfig.t :=
  KafkaConfig.mk ["localhost:9092"] "bookstore-backend" 3 (500 * Millisecond) (10 * Second) (-1) true
    1048576 (5 * Millisecond) "bookstore-kafka" (10 * Second) 5 (1 * Second) "earliest" false
    "" "" "" false.

(** [provider.go]: a dead letter publisher is its topic, the configured one. *)
Definition ProvideDLQPublisher (cfg : KafkaConfig.t) : string := KafkaConfig.DLQTopic cfg.

(** ** The consumer group: [consumer.go] *)

(** [shouldRetryConsumer] is a placeholder in the source. *)
Definition shouldRetryConsumer (err : error) : bool := true.

Definition parseMessage (rawMsg : kmsg) : result Message_ :=
  match (match k_Value rawMsg with
         | None => Err ErrJsonSyntax
         | Some b => unmarshal_envelope b
         end) with
  | Err err => Err (EWrap "unmarshal envelope: " err "")
  | Ok envelope =>
      let meta := ExtractMetadata (k_Headers rawMsg) in
      Ok (mkMessage envelope rawMsg (MessageMetadata.TraceID meta)
            (MessageMetadata.CorrelationID meta))
  end.

Definition injectTraceContext (ctx : KCtx) (msg : Message_) : KCtx :=
  mkKCtx (kc_trace ctx) (kc_correlation ctx) (Some (m_TraceID msg)) (Some (m_CorrelationID msg)).

Definition ErrCanceled : error := ENew "context canceled".

(** How one turn of the loop ends. *)
Inductive turn :=
| Continue
| Exit
| Crash (v : string).

Section Consumer.
Context {S : Type} {KW : KafkaWriter S} {KR : KafkaReader S} {CK : Clock S} {SL : Sleeper S}.
Context (cfg : KafkaConfig.t).

(** The body of the loop from [attempt] on, [n] attempts being left. *)
Fixpoint retry_loop (n : nat) (attempt : Z) (ctx : KCtx) (handler : KHandler S) (msg : Message_)
    (lastErr : result unit) (s : S) : S * outcome :=
  match n with
  | O => (s, Returned lastErr)
  | Datatypes.S n' =>
      let s := if 0 <? attempt
               then Sleep (wrap64 (KafkaConfig.ConsumerRetryBackoff cfg * attempt)) s else s in
      match Handle handler ctx msg s with
      | (s', Panicked v) => (s', Panicked v)
      | (s', Returned (Ok _)) => (s', Returned (Ok tt))
      | (s', Returned (Err err)) =>
          if negb (shouldRetryConsumer err) then (s', Returned (Err err))
          else retry_loop n' (attempt + 1) ctx handler msg (Err err) s'
      end
  end.

Definition handleWithRetry (ctx : KCtx) (handler : KHandler S) (msg : Message_) (s : S) :
    S * outcome :=
  retry_loop (Z.to_nat (KafkaConfig.ConsumerMaxRetries cfg + 1)) 0 ctx handler msg (Ok tt) s.

(** A call whose error is dropped. *)
Definition ignore {A} (m : M S A) (s : S) : S := fst (m s).

(** One turn of [consume]; [dlq_topic] is the publisher's topic. *)
Definition consume_turn (dlq_topic : string) (handler : KHandler S) (s : S) : S * turn :=
  if ctxDone s then (s, Exit)
  else
    match FetchMessage s with
    | (s, Err err) =>
        if Is err ErrCanceled then (s, Exit)
        else (Sleep (KafkaConfig.ConsumerRetryBackoff cfg) s, Continue)
    | (s, Ok rawMsg) =>
        match parseMessage rawMsg with
        | Err parseErr =>
            let s := ignore (dlq_Publish dlq_topic rawMsg "parse_error" (Some parseErr)) s in
            (ignore (CommitMessages [rawMsg]) s, Continue)
        | Ok msg =>
            let ctx := injectTraceContext kBackground msg in
            match handleWithRetry ctx handler msg s with
            | (s, Panicked v) => (s, Crash v)
            | (s, Returned r) =>
                let s := match r with
                         | Err err => ignore (dlq_Publish dlq_topic rawMsg "retry_exhausted" (Some err)) s
                         | Ok _ => s
                         end in
                (ignore (CommitMessages [rawMsg]) s, Continue)
            end
        end
    end.

(** [n] turns of the loop, or fewer when it ends before. *)
Fixpoint consume (n : nat) (dlq_topic : string) (handler : KHandler S) (s : S) : S * turn :=
  match n with
  | O => (s, Continue)
  | Datatypes.S n' =>
      match consume_turn dlq_topic handler s with
      | (s', Continue) => consume n' dlq_topic handler s'
      | r => r
      end
  end.
End Consumer.

(** *** Registration *)

(** The reader settings of [Register]; [LastOffset] is -1. *)
Record ReaderConfig := mkReaderConfig {
  rc_Brokers : list string; rc_GroupID : string; rc_Topic : string; rc_MinBytes : Z; rc_MaxBytes : Z;
  rc_MaxWait : Z; rc_StartOffset : Z; rc_CommitInterval : Z
}.

(** The readers of the map by their position among those that were created; each
    has a worker. *)
Record ConsumerGroup (S : Type) := mkGroup {
  cg_cfg : KafkaConfig.t;
  cg_readers : gmap string nat;
  cg_workers : list (ReaderConfig * KHandler S)
}.
Arguments mkGroup {S} _ _ _.
Arguments cg_cfg {S} _.
Arguments cg_readers {S} _.
Arguments cg_workers {S} _.

Definition NewConsumerGroup {S} (cfg : KafkaConfig.t) : ConsumerGroup S := mkGroup cfg ∅ [].

(** One turn of the loop in [Register]. *)
Definition register_topic {S} (handler : KHandler S) (c : ConsumerGroup S) (topic : string) :
    ConsumerGroup S :=
  let reader := mkReaderConfig (KafkaConfig.Brokers (cg_cfg c)) (KafkaConfig.ConsumerGroupID (cg_cfg c))
                  topic 1 10000000 (KafkaConfig.ConsumerReadTimeout (cg_cfg c)) (-1) 0 in
  mkGroup (cg_cfg c) (<[topic := length (cg_workers c)]> (cg_readers c))
    (cg_workers c ++ [(reader, handler)]).

Definition Register {S} (handler : KHandler S) (middlewares : list (Middleware S))
    (c : ConsumerGroup S) : ConsumerGroup S :=
  fold_left (register_topic (Chain middlewares handler)) (Topics handler) c.

(** *** Shutdown

    [Close] after the workers have stopped. [reader_Close] is the client's [Close];
    [order] is the order in which Go iterates over the map. *)
Section Close.
Context {S : Type} (reader_Close : nat -> S -> S * option error).

Fixpoint close_readers (order : list (string * nat)) (s : S) : S * list string :=
  match order with
  | [] => (s, [])
  | (topic, i) :: order =>
      let '(s, err) := reader_Close i s in
      let '(s, errs) := close_readers order s in
      (s, match err with
          | None => errs
          | Some e => ("close reader [" +:+ topic +:+ "]: " +:+ ErrorText e) :: errs
          end)
  end.

Definition cg_Close (order : list (string * nat)) (s : S) : S * result unit :=
  let '(s, errs) := close_readers order s in
  (s, match errs with
      | [] => Ok tt
      | _ => Err (ENew ("consumer group close errors: [" +:+ Join errs " " +:+ "]"))
      end).
End Close.

(** ** Properties *)

(** *** Closing the group *)

Section CloseSpec.
Context {S : Type}.
Implicit Type c : ConsumerGroup S.

(** A group on which handlers were registered. *)
Inductive group_registered : ConsumerGroup S -> Prop :=
| group_new cfg : group_registered (NewConsumerGroup cfg)
| group_more h ms c : group_registered c -> group_registered (Register h ms c).

(** The reader created last for its topic. *)
Definition last_reader c (topic : string) (i : nat) : Prop :=
  (exists w, cg_workers c !! i = Some w /\ rc_Topic (fst w) = topic) /\
  (forall j w, (i < j)%nat -> cg_workers c !! j = Some w -> rc_Topic (fst w) <> topic).

Definition readers_last c : Prop :=
  forall topic i, cg_readers c !! topic = Some i <-> last_reader c topic i.

Lemma register_topic_last h c topic : readers_last c -> readers_last (register_topic h c topic).
Proof.
  intros Hl t i. unfold register_topic, last_reader. simpl. set (n := length (cg_workers c)).
  destruct (decide (t = topic)) as [->|Hne].
  - rewrite lookup_insert_eq. split.
    + intros [= <-]. split; [by eexists; split; [by rewrite lookup_app_r, Nat.sub_diag by done|]|].
      intros j w Hj Hw. apply lookup_lt_Some in Hw. rewrite length_app in Hw. simpl in Hw. unfold n in Hj. lia.
    + intros [[w [Hw _]] Hlast]. f_equal. destruct (decide (i < n)%nat) as [Hi|Hi].
      * edestruct (Hlast n); [done|by rewrite lookup_app_r, Nat.sub_diag by done|done].
      * apply lookup_lt_Some in Hw. rewrite length_app in Hw. simpl in Hw. unfold n in *. lia.
  - rewrite lookup_insert_ne by done. rewrite (Hl t i). unfold last_reader. split.
    + intros [[w [Hw Ht]] Hlast]. split; [exists w; split; [by apply lookup_app_l_Some|done]|].
      intros j w' Hj [Hw'|[Hj' Hw']]%lookup_app_Some; [by eapply Hlast|].
      apply list_lookup_singleton_Some in Hw' as [_ <-]. simpl. congruence.
    + intros [[w [Hw Ht]] Hlast]. split.
      * exists w. split; [|done]. apply lookup_app_Some in Hw as [Hw|[_ Hw]]; [done|].
        apply list_lookup_singleton_Some in Hw as [_ <-]. simpl in Ht. congruence.
      * intros j w' Hj Hw'. eapply Hlast; [done|]. by apply lookup_app_l_Some.
Qed.

Lemma group_readers_last c : group_registered c -> readers_last c.
Proof.
  induction 1 as [cfg|h ms c _ IH].
  - intros t i. simpl. rewrite lookup_empty. split; [done|]. by intros [[w [Hw _]] _].
  - unfold Register. generalize (Topics h). intros l. revert c IH. induction l as [|t l IHl]; intros c Hc; simpl; [done|].
    by apply IHl, register_topic_last.
Qed.

(** [Close] closes, in the order of the map, exactly the readers that are the last
    of their topic, and reports an error exactly when one of them did. When two
    handlers have a topic in common, the first reader of that topic is not closed. *)
Theorem cg_Close_spec (reader_Close : nat -> S -> S * option error) c order s :
  group_registered c -> order ≡ₚ map_to_list (cg_readers c) ->
  (forall i, i ∈ order.*2 <-> exists topic, last_reader c topic i) /\
  fst (cg_Close reader_Close order s) = foldl (fun s i => fst (reader_Close i s)) s order.*2 /\
  ((forall i s, snd (reader_Close i s) = None) -> snd (cg_Close reader_Close order s) = Ok tt).
Proof.
  intros Hc Ho. split; [|split].
  - intros i. rewrite list_elem_of_fmap. split.
    + intros ([topic j] & -> & Hin). exists topic. apply group_readers_last; [done|]. simpl.
      rewrite Ho in Hin. by apply elem_of_map_to_list in Hin.
    + intros [topic Hl%group_readers_last]; [|done]. exists (topic, i). split; [done|].
      rewrite Ho. by apply elem_of_map_to_list.
  - unfold cg_Close. assert (H : fst (close_readers reader_Close order s) =
      foldl (fun s i => fst (reader_Close i s)) s order.*2).
    { clear Ho. revert s. induction order as [|[topic i] l IH]; intros s; simpl; [done|].
      destruct (reader_Close i s) as [s1 e]. simpl. rewrite <- IH. by destruct (close_readers reader_Close l s1). }
    rewrite <- H. by destruct (close_readers reader_Close order s).
  - intros Hok. unfold cg_Close. assert (H : snd (close_readers reader_Close order s) = []).
    { clear Ho. revert s. induction order as [|[topic i] l IH]; intros s; simpl; [done|].
      specialize (Hok i s). destruct (reader_Close i s) as [s1 e]. simpl in Hok. subst e.
      specialize (IH s1). by destruct (close_readers reader_Close l s1). }
    destruct (close_readers reader_Close order s) as [s1 errs]. simpl in H. by subst errs.
Qed.
End CloseSpec.

(** *** Keys and headers *)

Definition no_colon (s : string) : bool :=
  forallb (fun c => negb (Ascii.eqb c ":")) (bytes_of s).

(** Partition keys tell aggregates apart: with aggregate types without a
    colon, as the declared ones are, equal keys come from the same aggregate. *)
Theorem EventKey_inj t1 i1 t2 i2 :
  no_colon t1 = true -> no_colon t2 = true -> EventKey t1 i1 = EventKey t2 i2 ->
  t1 = t2 /\ i1 = i2.
Proof.
  unfold EventKey. revert t2. induction t1 as [|c t1 IH]; intros [|d t2]; simpl.
  - intros _ _ [= ?]. done.
  - intros _ [Hd _]%andb_true_iff [= <- _]. done.
  - intros [Hc _]%andb_true_iff _ [= -> _]. done.
  - intros [_ H1]%andb_true_iff [_ H2]%andb_true_iff [= -> Heq].
    by destruct (IH t2 H1 H2 Heq) as [-> ->].
Qed.

Lemma EventKey_inj_witness :
  forallb no_colon aggregate_types = true /\
  (EventKey AggUser "7:1" = EventKey AggUser "7:1" -> AggUser = AggUser /\ "7:1" = "7:1").
Proof.
  split; [reflexivity|]. intros H. by apply (EventKey_inj AggUser "7:1" AggUser "7:1").
Defined.

Lemma ExtractMetadata_BuildHeaders e :
  ExtractMetadata (BuildHeaders e) =
  MessageMetadata.mk (TraceID e) (CorrelationID e) (CausationID e) (EventType e).
Proof.
  unfold BuildHeaders, str_empty.
  destruct (String.eqb_spec (TraceID e) ""), (String.eqb_spec (CorrelationID e) ""),
    (String.eqb_spec (CausationID e) ""); simpl; unfold ExtractMetadata; simpl; congruence.
Qed.

(** *** What is published is what the consumer reads *)

Definition clean (s : string) : bool := String.eqb (utf8_clean s) s.

(** The strings of the envelope are UTF-8 and its numbers Go integers. *)
Definition envelope_clean (e : Envelope) : bool :=
  forallb clean [EventID e; EventType e; AggregateType e; AggregateID e; TraceID e;
    CorrelationID e; CausationID e; ActorType e; IdempotencyKey e] &&
  is_int64 (ActorID e) && is_int64 (SchemaVersion e).

(** The envelope with its payload as the document it is the text of. *)
Definition with_document (e : Envelope) (j : json) : Envelope :=
  mkEnvelope (EventID e) (EventType e) (AggregateType e) (AggregateID e) (OccurredAt e)
    (ProducedAt e) (TraceID e) (CorrelationID e) (CausationID e) (ActorType e) (ActorID e)
    (SchemaVersion e) (IdempotencyKey e) (Some (PJson j)).

Lemma clean_eq s : clean s = true -> utf8_clean s = s.
Proof. apply String.eqb_eq. Qed.

Lemma unmarshal_marshal_envelope e j body :
  envelope_clean e = true -> raw_message (Payload e) = Ok j -> marshal_envelope e = Ok body ->
  unmarshal_envelope body = Ok (with_document e j).
Proof.
  unfold envelope_clean, marshal_envelope. intros Hc Hj.
  rewrite Hj. destruct (negb _); [done|]. simpl.
  apply andb_true_iff in Hc as [[Hc Ha]%andb_true_iff Hs]. simpl in Hc.
  repeat (apply andb_true_iff in Hc as [H%clean_eq Hc]; revert H). intros.
  destruct e as [ei et at_ ai oc pr tr co ca ac an sv ik pl]; simpl in *. simplify_eq.
  unfold jstr. repeat match goal with H : utf8_clean ?x = ?x |- _ => rewrite H; clear H end.
  unfold str_empty, omitempty, with_document. simpl.
  destruct (String.eqb_spec tr ""), (String.eqb_spec co ""), (String.eqb_spec ca "");
    unfold unmarshal_envelope, get_int64; cbn -[is_int64 Z.mul]; rewrite Ha; cbn -[is_int64 Z.mul];
    rewrite Hs; subst; reflexivity.
Qed.

(** C31: Round trip through the broker: the message [PublishEnvelope] writes for an
    envelope is parsed by the consumer into that envelope, its identifiers also
    being those of the headers. *)
Theorem publish_parse_roundtrip topic e j body :
  envelope_clean e = true -> raw_message (Payload e) = Ok j -> marshal_envelope e = Ok body ->
  parseMessage (envelope_msg topic e body) =
  Ok (mkMessage (with_document e j) (envelope_msg topic e body) (TraceID e) (CorrelationID e)).
Proof.
  intros Hc Hj Hm. unfold parseMessage. cbn [k_Value envelope_msg k_Headers].
  rewrite (unmarshal_marshal_envelope e j body Hc Hj Hm), ExtractMetadata_BuildHeaders. done.
Qed.

Lemma publish_parse_roundtrip_witness :
  let e := mkEnvelope "e1" "user.registered" "user" "7" 0 Second "t1" "" "c1" "system" 7 1 "e1"
             (Some (PJson (JObj [("user_id", JNum 7)]))) in
  match marshal_envelope e with
  | Ok body => parseMessage (envelope_msg "order.events.v1" e body) =
               Ok (mkMessage e (envelope_msg "order.events.v1" e body) "t1" "")
  | Err _ => False
  end.
Proof.
  intros e. destruct (marshal_envelope e) as [body|] eqn:Em; [|by vm_compute in Em].
  apply (publish_parse_roundtrip "order.events.v1" e (JObj [("user_id", JNum 7)]) body);
    [by vm_compute|done|done].
Defined.

(** *** Retries *)

Section Retry.
Context {S : Type} {SL : Sleeper S}.
Context (cfg : KafkaConfig.t) (ctx : KCtx) (handler : KHandler S) (msg : Message_).

(** The pause before an attempt: none before the first one. *)
Definition pause (attempt : Z) (s : S) : S :=
  if 0 <? attempt then Sleep (wrap64 (KafkaConfig.ConsumerRetryBackoff cfg * attempt)) s else s.

(** [failed a n s s' r]: the attempts [a], ..., [a + n - 1] were made one after
    the other and failed, the last one with the error [r]. *)
Inductive failed (a : Z) : nat -> S -> S -> result unit -> result unit -> Prop :=
| failed_none s r : failed a 0 s s r r
| failed_more n s s1 s' e r0 r :
    Handle handler ctx msg (pause a s) = (s1, Returned (Err e)) ->
    failed (a + 1) n s1 s' (Err e) r ->
    failed a (Datatypes.S n) s s' r0 r.

Lemma retry_loop_spec n a r0 s s' r :
  retry_loop cfg n a ctx handler msg r0 s = (s', Returned r) ->
  (exists k s1, (k < n)%nat /\ (exists e, failed a k s s1 r0 e) /\ r = Ok tt /\
     Handle handler ctx msg (pause (a + Z.of_nat k) s1) = (s', Returned (Ok tt))) \/
  failed a n s s' r0 r.
Proof.
  revert a r0 s. induction n as [|n IH]; intros a r0 s; cbn [retry_loop].
  - intros [= <- <-]. right. constructor.
  - fold (pause a s). destruct (Handle handler ctx msg (pause a s)) as [s1 [[[]|e]|v]] eqn:Eh.
    + intros [= <- <-]. left. exists 0%nat, s. split; [lia|]. split; [exists r0; constructor|].
      split; [done|]. by rewrite Z.add_0_r.
    + simpl. intros [(k & s2 & Hk & [e' Hf] & Hr & Hh)|Hf]%IH.
      * left. exists (Datatypes.S k), s2. split; [lia|]. split; [exists e'; by econstructor|].
        split; [done|]. by replace (a + Z.of_nat (Datatypes.S k)) with (a + 1 + Z.of_nat k) by lia.
      * right. by econstructor.
    + done.
Qed.

Lemma failed_last a n s s' r0 r :
  failed a n s s' r0 r -> (0 < n)%nat -> exists e, r = Err e.
Proof.
  induction 1 as [|a n s s1 s' e r0 r _ Hf IH]; [lia|]. intros _.
  destruct n as [|n]; [inversion Hf; eauto|apply IH; lia].
Qed.

(** [handleWithRetry] returns nil only after a successful call. *)
Lemma handleWithRetry_nil s s' u :
  0 <= KafkaConfig.ConsumerMaxRetries cfg ->
  handleWithRetry cfg ctx handler msg s = (s', Returned (Ok u)) ->
  exists k s1 e, 0 <= k <= KafkaConfig.ConsumerMaxRetries cfg /\
    failed 0 (Z.to_nat k) s s1 (Ok tt) e /\
    Handle handler ctx msg (pause k s1) = (s', Returned (Ok tt)).
Proof.
  intros Hm [(k & s1 & Hk & [e Hf] & _ & Hh)|Hf]%retry_loop_spec.
  - exists (Z.of_nat k), s1, e. rewrite Nat2Z.id. split; [lia|]. split; [done|].
    by rewrite Z.add_0_l in Hh.
  - destruct (failed_last _ _ _ _ _ _ Hf) as [e [=]]. lia.
Qed.

(** C30: Retries are bounded and end at the first success. When [handleWithRetry]
    returns nil the handler succeeded at attempt [k <= ConsumerMaxRetries] after
    [k] failures; when it returns an error, exactly [ConsumerMaxRetries + 1]
    attempts were made and all failed, whatever their errors were:
    [shouldRetryConsumer] is a placeholder that takes every error for a passing one. *)
Theorem handleWithRetry_spec s s' r :
  0 <= KafkaConfig.ConsumerMaxRetries cfg ->
  handleWithRetry cfg ctx handler msg s = (s', Returned r) ->
  match r with
  | Ok _ => exists k s1 e, 0 <= k <= KafkaConfig.ConsumerMaxRetries cfg /\
      failed 0 (Z.to_nat k) s s1 (Ok tt) e /\
      Handle handler ctx msg (pause k s1) = (s', Returned (Ok tt))
  | Err e => failed 0 (Z.to_nat (KafkaConfig.ConsumerMaxRetries cfg + 1)) s s' (Ok tt) (Err e)
  end.
Proof.
  intros Hm Hr. destruct r as [u|e]; [by apply handleWithRetry_nil in Hr|].
  by apply retry_loop_spec in Hr as [(k & s1 & _ & _ & [=] & _)|Hf].
Qed.
End Retry.

(** *** Delivery *)

(** What the theorems rely on of the broker client: [written] is the log of the
    messages the broker accepted and [committed] that of the offsets committed.
    A write that returns nil has appended its messages; committing and reading
    the clock write nothing; a message without topic is refused. *)
Class BrokerLaws (S : Type) `{KafkaWriter S} `{KafkaReader S} `{Clock S} := {
  written : S -> list kmsg;
  committed : S -> list kmsg;
  write_ok ms s s' : WriteMessages ms s = (s', Ok tt) ->
    written s' = written s ++ ms /\ committed s' = committed s;
  write_no_topic m s : k_Topic m = "" ->
    exists s' e, WriteMessages [m] s = (s', Err e) /\ written s' = written s /\
      committed s' = committed s;
  commit_written ms s : written (fst (CommitMessages ms s)) = written s;
  commit_ok ms s s' : CommitMessages ms s = (s', Ok tt) -> committed s' = committed s ++ ms;
  now_log s : written (fst (Now s)) = written s /\ committed (fst (Now s)) = committed s
}.

Section Delivery.
Context {S : Type} {KW : KafkaWriter S} {KR : KafkaReader S} {CK : Clock S} {SL : Sleeper S}.
Context {BL : BrokerLaws S}.
Context (cfg : KafkaConfig.t).

(** The dead letter of a message, with its key, headers and document. *)
Definition dead_letter (topic : string) (raw : kmsg) (reason : string) (err : error) (at_ : Z)
    (m : kmsg) : Prop :=
  exists body, m = dlq_msg topic raw reason at_ body /\
    marshal_dlq (mkDLQ (k_Topic raw) (k_Key raw) (k_Value raw) (k_Headers raw) reason (ErrorText err)
                   at_ "" 1) = Ok body.

Lemma ignore_bind_now {A} (k : Z -> M S A) s :
  ignore (let! t := nowM in k t) s = fst (k (snd (Now s)) (fst (Now s))).
Proof. unfold ignore, bindM, nowM. by destruct (Now s). Qed.

(** The publisher makes one write, of the dead letter. *)
Lemma dlq_Publish_writes topic raw reason err s j :
  year_ok (snd (Now s)) = true -> raw_message (k_Value raw) = Ok j ->
  exists m y, dead_letter topic raw reason err (snd (Now s)) m /\
    WriteMessages [m] (fst (Now s)) = (ignore (dlq_Publish topic raw reason (Some err)) s, y).
Proof.
  intros Hy Hd. unfold dlq_Publish. rewrite ignore_bind_now.
  destruct (marshal_dlq _) as [body|e] eqn:Em.
  - set (m := dlq_msg topic raw reason (snd (Now s)) body). unfold bindM, attemptM.
    destruct (WriteMessages [m] (fst (Now s))) as [s' y] eqn:Ew. exists m, y.
    split; [by exists body|]. rewrite Ew. by destruct y.
  - exfalso. unfold marshal_dlq in Em. simpl in Em. rewrite Hy, Hd in Em. done.
Qed.

(** Without a topic no dead letter is ever written. *)
Lemma dlq_no_topic raw reason err s :
  exists s' e, dlq_Publish "" raw reason err s = (s', Err e) /\ written s' = written s /\
    committed s' = committed s.
Proof.
  unfold dlq_Publish, bindM at 1, nowM. destruct (Now s) as [s1 t] eqn:En.
  destruct (now_log s) as [H1 H2]. rewrite En in H1, H2. simpl in H1, H2.
  destruct (marshal_dlq _) as [body|e]; [|by eauto].
  destruct (write_no_topic (dlq_msg "" raw reason t body) s1 eq_refl) as (s2 & e & Hw & H3 & H4).
  unfold bindM, attemptM. rewrite Hw. exists s2. eexists. split; [done|]. by rewrite H3, H4.
Qed.

(** C29: A message is committed only after it was handled or a dead letter for it was
    sent. In a turn of the loop that fetched a message whose value is a JSON document
    and goes on, the commit is the last step, and the state it starts from is the
    one left by a call of the handler that returned nil, or by one write to the dead
    letter topic: of the message with its key, headers and document, the reason
    [parse_error] with the parser's error, or [retry_exhausted] with the error of the
    exhausted retries. If that write returns nil the broker has the dead letter
    before the commit; its error is not looked at. *)
Theorem consume_no_silent_loss topic handler raw j s s1 s' :
  (forall s, year_ok (snd (Now s)) = true) ->
  0 <= KafkaConfig.ConsumerMaxRetries cfg ->
  ctxDone s = false -> FetchMessage s = (s1, Ok raw) -> raw_message (k_Value raw) = Ok j ->
  consume_turn cfg topic handler s = (s', Continue) ->
  exists s3, s' = fst (CommitMessages [raw] s3) /\
   ((exists msg k sa, parseMessage raw = Ok msg /\
       Handle handler (injectTraceContext kBackground msg) msg (pause cfg k sa) = (s3, Returned (Ok tt))) \/
    (exists reason err s2 m y,
       ((reason = "parse_error" /\ parseMessage raw = Err err /\ s2 = s1) \/
        (reason = "retry_exhausted" /\ exists msg, parseMessage raw = Ok msg /\
           handleWithRetry cfg (injectTraceContext kBackground msg) handler msg s1 = (s2, Returned (Err err)))) /\
       dead_letter topic raw reason err (snd (Now s2)) m /\
       WriteMessages [m] (fst (Now s2)) = (s3, y) /\ (y = Ok tt -> m ∈ written s3))).
Proof.
  intros Hy Hr Hc Hf Hj. unfold consume_turn. rewrite Hc, Hf.
  assert (Hin : forall m s2 s3 y, WriteMessages [m] s2 = (s3, y) -> y = Ok tt -> m ∈ written s3).
  { intros m s2 s3 y Hw ->. destruct (write_ok _ _ _ Hw) as [-> _]. apply elem_of_app. right. left. }
  destruct (parseMessage raw) as [msg|e] eqn:Ep.
  - destruct (handleWithRetry cfg _ handler msg s1) as [s2 [[[]|e]|v]] eqn:Eh; [| |done]; intros [= <-].
    + exists s2. split; [done|]. left. apply handleWithRetry_nil in Eh; [|done].
      destruct Eh as (k & sa & e & _ & _ & Hh). by eauto.
    + destruct (dlq_Publish_writes topic raw "retry_exhausted" e s2 j (Hy s2) Hj) as (m & y & Hd & Hw).
      eexists. split; [done|]. right. exists "retry_exhausted", e, s2, m, y. split; [right; eauto|]. eauto.
  - intros [= <-].
    destruct (dlq_Publish_writes topic raw "parse_error" e s1 j (Hy s1) Hj) as (m & y & Hd & Hw).
    eexists. split; [done|]. right. exists "parse_error", e, s1, m, y. split; [by left|]. eauto.
Qed.

Lemma unmarshal_no_document b e : document b = Err e -> unmarshal_envelope b = Err e.
Proof. intros H. unfold unmarshal_envelope. by rewrite H. Qed.

(** A value that is not JSON at all never reaches the dead letter topic: the
    dead letter embeds it as a [json.RawMessage], which cannot be marshalled, and
    the offset is committed all the same. *)
Theorem poison_pill_lost topic handler raw b e s s1 s' t :
  ctxDone s = false -> FetchMessage s = (s1, Ok raw) ->
  k_Value raw = Some b -> document b = Err e ->
  consume_turn cfg topic handler s = (s', t) ->
  t = Continue /\ written s' = written s1 /\
  exists s2, s' = fst (CommitMessages [raw] s2) /\ committed s2 = committed s1.
Proof.
  intros Hc Hf Hv Hd. unfold consume_turn. rewrite Hc, Hf.
  unfold parseMessage. rewrite Hv, (unmarshal_no_document b e Hd). intros [= <- <-].
  unfold dlq_Publish. rewrite ignore_bind_now. unfold ignore. rewrite commit_written. unfold marshal_dlq. simpl.
  rewrite Hv. simpl. rewrite Hd. destruct (now_log s1) as [Hn1 Hn2].
  destruct (year_ok (snd (Now s1))); simpl; eauto.
Qed.

(** A panic of a handler under [RecoveryMiddleware] does not end the consumer:
    whatever the handler does, no number of turns of the loop crashes. *)
Theorem recovery_never_crashes topic handler n s s' v :
  consume cfg n topic (RecoveryMiddleware handler) s <> (s', Crash v).
Proof.
  assert (Hh : forall m a ctx msg r0 s s' v,
    retry_loop cfg m a ctx (RecoveryMiddleware handler) msg r0 s <> (s', Panicked v)).
  { induction m as [|m IH]; intros a ctx msg r0 s0 s0' v0; cbn [retry_loop]; [done|].
    destruct (Handle (RecoveryMiddleware handler) ctx msg _) as [s1 [[[]|e]|w]] eqn:Eh; [done| |].
    - simpl. apply IH.
    - simpl in Eh. destruct (Handle handler ctx msg _) as [s2 []]; discriminate. }
  revert s. induction n as [|n IH]; intros s; cbn [consume]; [done|].
  destruct (consume_turn cfg topic (RecoveryMiddleware handler) s) as [s1 t] eqn:Et.
  destruct t as [| |v1]; [apply IH|congruence|]. intros _. revert Et. unfold consume_turn.
  destruct (ctxDone s); [done|]. destruct (FetchMessage s) as [s2 [raw|e]];
    [|by destruct (Is e ErrCanceled)].
  destruct (parseMessage raw) as [msg|e]; [|done].
  destruct (handleWithRetry cfg _ _ msg s2) as [s3 [r|v2]] eqn:Eh; [done|].
  unfold handleWithRetry in Eh. by apply Hh in Eh.
Qed.
End Delivery.

(** *** A broker to run the examples on: the pending messages, both logs, the
    clock, and the handler calls made. *)

Module DemoBroker.
Record t := mk { inbox : list kmsg; out : list kmsg; done_ : list kmsg; ticks : Z }.
End DemoBroker.

#[export] Instance demo_writer : KafkaWriter DemoBroker.t := {|
  WriteMessages ms b :=
    if existsb (fun m => str_empty (k_Topic m)) ms
    then (b, Err (EIO "kafka.(*Writer): Topic must be set"))
    else (DemoBroker.mk (DemoBroker.inbox b) (DemoBroker.out b ++ ms) (DemoBroker.done_ b)
            (DemoBroker.ticks b), Ok tt);
  writer_Close := retM tt
|}.
#[export] Instance demo_reader : KafkaReader DemoBroker.t := {|
  ctxDone b := match DemoBroker.inbox b with [] => true | _ => false end;
  FetchMessage b :=
    match DemoBroker.inbox b with
    | [] => (b, Err ErrCanceled)
    | m :: r => (DemoBroker.mk r (DemoBroker.out b) (DemoBroker.done_ b) (DemoBroker.ticks b), Ok m)
    end;
  CommitMessages ms b :=
    (DemoBroker.mk (DemoBroker.inbox b) (DemoBroker.out b) (DemoBroker.done_ b ++ ms)
       (DemoBroker.ticks b), Ok tt)
|}.
#[export] Instance demo_broker_clock : Clock DemoBroker.t := {| Now b := (b, 0) |}.
#[export] Instance demo_sleeper : Sleeper DemoBroker.t := {|
  Sleep d b := DemoBroker.mk (DemoBroker.inbox b) (DemoBroker.out b) (DemoBroker.done_ b)
                 (DemoBroker.ticks b + d)
|}.
#[export] Program Instance demo_broker_laws : BrokerLaws DemoBroker.t := {|
  written := DemoBroker.out; committed := DemoBroker.done_
|}.
Next Obligation. intros ms s s'. simpl. destruct (existsb _ ms); intros; by simplify_eq. Qed.
Next Obligation. intros m s Hm. simpl. rewrite Hm. simpl. by eauto. Qed.
Next Obligation. done. Qed.
Next Obligation. intros ms s s' H. simpl in H. by simplify_eq. Qed.
Next Obligation. done. Qed.

Definition demo_raw (v : option payload) : kmsg := mkMsg "order.events.v1" "order:1" v [] 0 5.
Definition failing_handler : KHandler DemoBroker.t :=
  mkHandler (fun _ _ b => (b, Returned (Err (ENew "boom")))) ["order.events.v1"].

Lemma handleWithRetry_spec_witness :
  let msg := mkMessage (mkEnvelope "" "" "" "" 0 0 "" "" "" "" 0 0 "" None) (demo_raw None) "" "" in
  exists s', handleWithRetry DefaultConfig kBackground failing_handler msg (DemoBroker.mk [] [] [] 0)
    = (s', Returned (Err (ENew "boom"))) /\ DemoBroker.ticks s' = 15 * Second /\
  failed DefaultConfig kBackground failing_handler msg 0 6 (DemoBroker.mk [] [] [] 0) s' (Ok tt)
    (Err (ENew "boom")).
Proof.
  intros msg. eexists. split; [vm_compute; reflexivity|]. split; [reflexivity|].
  apply (handleWithRetry_spec DefaultConfig kBackground failing_handler msg
    (DemoBroker.mk [] [] [] 0) _ (Err (ENew "boom"))); [by vm_compute|vm_compute; reflexivity].
Defined.

Definition letter := demo_raw (Some (PJson (JObj [("event_id", jstr "e1")]))).

Lemma consume_no_silent_loss_witness :
  exists s', consume_turn DefaultConfig "dlq.general.v1" failing_handler
    (DemoBroker.mk [letter] [] [] 0) = (s', Continue) /\
  exists s3 m y, s' = fst (CommitMessages [letter] s3) /\
    dead_letter "dlq.general.v1" letter "retry_exhausted" (ENew "boom") 0 m /\ (y = Ok tt -> m ∈ written s3).
Proof.
  eexists. split; [vm_compute; reflexivity|].
  destruct (consume_no_silent_loss DefaultConfig "dlq.general.v1" failing_handler letter
    (JObj [("event_id", jstr "e1")]) (DemoBroker.mk [letter] [] [] 0) (DemoBroker.mk [] [] [] 0)
    (fst (consume_turn DefaultConfig "dlq.general.v1" failing_handler (DemoBroker.mk [letter] [] [] 0))))
    as (s3 & Hc & [(msg & k & sa & _ & H)|(reason & err & s2 & m & y & Hw & Hd & _ & Hm)]); try done.
  exists s3, m, y. split; [exact Hc|]. split; [|exact Hm].
  destruct Hw as [(_ & Hp & _)|(-> & msg & Hp & Hh)]; [discriminate Hp|].
  vm_compute in Hp. injection Hp as <-. vm_compute in Hh. injection Hh as <- <-. exact Hd.
Defined.

Lemma poison_pill_lost_witness :
  let raw := demo_raw (Some (PRaw "{broken")) in
  exists s', consume_turn DefaultConfig "dlq.general.v1" failing_handler
    (DemoBroker.mk [raw] [] [] 0) = (s', Continue) /\ written s' = [] /\ committed s' = [raw].
Proof.
  intros raw. eexists. split; [vm_compute; reflexivity|]. split; [|reflexivity].
  destruct (poison_pill_lost DefaultConfig "dlq.general.v1" failing_handler raw (PRaw "{broken")
    ErrJsonSyntax (DemoBroker.mk [raw] [] [] 0) (DemoBroker.mk [] [] [] 0)
    (fst (consume_turn DefaultConfig "dlq.general.v1" failing_handler (DemoBroker.mk [raw] [] [] 0)))
    Continue) as (_ & Hw & _); [done..|exact Hw].
Defined.
