(* ===== verification/Outbox.v ===== *)
(** * The transactional outbox

    [internal/platform/outbox]: the recorder that stores an event in the caller's
    transaction, the repository on [outbox_events], the publisher that turns a
    stored envelope into a Kafka message and the dispatcher that moves events from
    the table to the broker. The dispatcher is written against the interfaces
    [Repository] and [Publisher] of the source, here the classes of those names.
    A Go map is the JSON object it is written as; the order of its members is
    immaterial. *)

From Stdlib Require Import ZArith NArith String Ascii Lia.
From stdpp Require Import base strings list gmap.
From S2P Require Import Prelude GoStrings Json Domain Gin Idempotency Schema Database Sql Kafka.

Local Open Scope Z_scope.

(** ** Envelopes: [envelope.go] *)

Module OEnvelope.
Record t := mk {
  EventID : string; EventType : string; AggregateType : string; AggregateID : option string;
  OccurredAt : Z; ProducedAt : Z; TraceID : string; CorrelationID : string; CausationID : string;
  ActorType : string; ActorID : option Z; SchemaVersion : Z; IdempotencyKey : string;
  Payload : metadata
}.
End OEnvelope.

Definition is_none {A} (o : option A) : bool := match o with None => true | Some _ => false end.

(** [json.Marshal] of an envelope. *)
Definition marshal_outbox (e : OEnvelope.t) : result payload :=
  if negb (year_ok (OEnvelope.OccurredAt e) && year_ok (OEnvelope.ProducedAt e))
  then Err ErrMarshalTime
  else Ok (PJson (JObj (
    [("event_id", jstr (OEnvelope.EventID e)); ("event_type", jstr (OEnvelope.EventType e));
     ("aggregate_type", jstr (OEnvelope.AggregateType e))]
    ++ omitempty (is_none (OEnvelope.AggregateID e)) "aggregate_id" (jopt jstr (OEnvelope.AggregateID e))
    ++ [("occurred_at", JTime (OEnvelope.OccurredAt e)); ("produced_at", JTime (OEnvelope.ProducedAt e))]
    ++ omitempty (str_empty (OEnvelope.TraceID e)) "trace_id" (jstr (OEnvelope.TraceID e))
    ++ omitempty (str_empty (OEnvelope.CorrelationID e)) "correlation_id" (jstr (OEnvelope.CorrelationID e))
    ++ omitempty (str_empty (OEnvelope.CausationID e)) "causation_id" (jstr (OEnvelope.CausationID e))
    ++ omitempty (str_empty (OEnvelope.ActorType e)) "actor_type" (jstr (OEnvelope.ActorType e))
    ++ omitempty (is_none (OEnvelope.ActorID e)) "actor_id" (jopt JNum (OEnvelope.ActorID e))
    ++ [("schema_version", JNum (OEnvelope.SchemaVersion e))]
    ++ omitempty (str_empty (OEnvelope.IdempotencyKey e)) "idempotency_key"
         (jstr (OEnvelope.IdempotencyKey e))
    ++ [("payload", default JNull (OEnvelope.Payload e))]))).

(** A JSON number read into an [any] is a [float64]: 53 significant bits. *)
Definition round53 (n : Z) : Z :=
  let a := Z.abs n in
  let e := Z.log2 a - 52 in
  if e <=? 0 then n
  else
    let q := a / 2 ^ e in
    let r := a mod 2 ^ e in
    let half := 2 ^ (e - 1) in
    let q' := if (half <? r) || ((half =? r) && Z.odd q) then q + 1 else q in
    Z.sgn n * (q' * 2 ^ e).

(** A document read into an [any]. *)
Fixpoint any_of_json (j : json) : json :=
  match j with
  | JNum n => JNum (round53 n)
  | JTime t => JStr (RFC3339Nano t)
  | JArr l => JArr (map any_of_json l)
  | JObj f => JObj (map (fun '(k, v) => (k, any_of_json v)) f)
  | _ => j
  end.

Definition get_int64_opt (fields : list (string * json)) (name : string) : result (option Z) :=
  match jfield name fields with
  | None | Some JNull => Ok None
  | Some (JNum n) => if is_int64 n then Ok (Some n) else Err ErrUnmarshalType
  | _ => Err ErrUnmarshalType
  end.
Definition map_of (j : json) : result metadata :=
  match j with
  | JNull => Ok None
  | JObj f => Ok (Some (any_of_json (JObj f)))
  | _ => Err ErrUnmarshalType
  end.
Definition get_map (fields : list (string * json)) (name : string) : result metadata :=
  match jfield name fields with None => Ok None | Some j => map_of j end.

Definition unmarshal_outbox (b : payload) : result OEnvelope.t :=
  let? j := document b in
  match j with
  | JNull => Ok (OEnvelope.mk "" "" "" None zero_time zero_time "" "" "" "" None 0 "" None)
  | JObj f =>
      let? event_id := get_str f "event_id" in
      let? event_type := get_str f "event_type" in
      let? aggregate_type := get_str f "aggregate_type" in
      let? aggregate_id := get_str_opt f "aggregate_id" in
      let? occurred_at := get_time f zero_time "occurred_at" in
      let? produced_at := get_time f zero_time "produced_at" in
      let? trace_id := get_str f "trace_id" in
      let? correlation_id := get_str f "correlation_id" in
      let? causation_id := get_str f "causation_id" in
      let? actor_type := get_str f "actor_type" in
      let? actor_id := get_int64_opt f "actor_id" in
      let? schema_version := get_int64 f "schema_version" in
      let? idempotency_key := get_str f "idempotency_key" in
      let? body := get_map f "payload" in
      Ok (OEnvelope.mk event_id event_type aggregate_type aggregate_id occurred_at produced_at
            trace_id correlation_id causation_id actor_type actor_id schema_version
            idempotency_key body)
  | _ => Err ErrUnmarshalType
  end.

(** ** Events: [model.go], [errors.go] *)

Definition StatePending : string := "pending".
Definition StatePublished : string := "published".
Definition StateFailed : string := "failed".

Definition ErrOutboxNoRows : error := ENew "outbox: no rows affected".
Definition ErrMarshal : error := ENew "outbox: payload marshal failed".
Definition ErrAlreadyDone : error := ENew "outbox: event already published or failed".

Module OutboxEvent.
Record t := mk {
  ID : Z; Topic : string; EventKey : string; AggregateType : string; AggregateID : option string;
  EventType : string; Payload : payload; Metadata : option payload; State : string;
  CreatedAt : Z; PublishedAt : option Z; LastError : option string
}.
End OutboxEvent.

Module RecordParams.
Record t := mk {
  Topic : string; EventKey : string; AggregateType : string; AggregateID : option string;
  EventType : string; OccurredAt : Z; TraceID : string; CorrelationID : string;
  CausationID : string; ActorType : string; ActorID : option Z; SchemaVersion : Z;
  IdempotencyKey : string; Payload : metadata
}.
End RecordParams.

(** ** Interfaces: [repository.go] *)

Class Repository (S : Type) := {
  ob_Insert : Ctx -> OutboxEvent.t -> M S unit;
  ob_ClaimPending : Ctx -> Z -> M S (list OutboxEvent.t);
  ob_MarkPublished : Ctx -> Z -> M S unit;
  ob_MarkFailed : Ctx -> Z -> string -> M S unit
}.
Class Publisher (S : Type) := {
  ob_Publish : Ctx -> string -> string -> payload -> M S unit
}.

(** ** The repository: [postgres_repository.go] *)

(** A [jsonb] parameter: the text must be JSON, without the escape of the NUL
    character. *)
Definition no_nul (s : string) : bool := forallb (fun c => negb (Ascii.eqb c (byte 0))) (bytes_of s).
Fixpoint jsonb_ok (j : json) : bool :=
  match j with
  | JStr s => no_nul s
  | JArr l => forallb jsonb_ok l
  | JObj f => forallb (fun '(k, v) => no_nul k && jsonb_ok v) f
  | _ => true
  end.
Definition jsonb_in (p : payload) : result json :=
  match document p with
  | Ok j => if jsonb_ok j then Ok j else Err (EPg "22P05" "")
  | Err _ => Err (EPg "22P02" "")
  end.
Definition jsonb_in_opt (p : option payload) : result (option json) :=
  match p with None => Ok None | Some b => let? j := jsonb_in b in Ok (Some j) end.

Definition outbox_columns : list string :=
  ["id"; "topic"; "event_key"; "aggregate_type"; "aggregate_id"; "event_type"; "payload";
   "metadata"; "state"; "created_at"; "published_at"; "last_error"].

Definition outbox_insert (e : OutboxEvent.t) : stmt Z := fun now db sq =>
  match jsonb_in (OutboxEvent.Payload e), jsonb_in_opt (OutboxEvent.Metadata e) with
  | Err err, _ | _, Err err => (sq, Err err)
  | Ok body, Ok meta =>
      dml (fun _ db sq =>
        let id := outbox_seq sq in
        (mkSeqs (users_seq sq) (devices_seq sq) (sessions_seq sq) (addresses_seq sq) (id + 1),
         with_outbox (fun l => l ++ [OutboxEvents.mk id (OutboxEvent.Topic e) (OutboxEvent.EventKey e)
           (OutboxEvent.AggregateType e) (OutboxEvent.AggregateID e) (OutboxEvent.EventType e) body meta
           (OutboxEvent.State e) (pg_time (OutboxEvent.CreatedAt e)) None None]) db, 1)) now db sq
  end.

Definition set_state (state : string) (published : option Z) (err : option string)
    (r : OutboxEvents.row) : OutboxEvents.row :=
  OutboxEvents.mk (OutboxEvents.id r) (OutboxEvents.topic r) (OutboxEvents.event_key r)
    (OutboxEvents.aggregate_type r) (OutboxEvents.aggregate_id r) (OutboxEvents.event_type r)
    (OutboxEvents.payload r) (OutboxEvents.metadata r) state (OutboxEvents.created_at r)
    published err.

Definition is_pending (r : OutboxEvents.row) : bool := String.eqb (OutboxEvents.state r) "pending".

(** The ids of the subquery: the oldest pending events, at most [limit]. *)
Definition claimable (limit : Z) (db : DB) : list Z :=
  map OutboxEvents.id
    (take (Z.to_nat limit)
       (order_by (fun x y => OutboxEvents.created_at x <=? OutboxEvents.created_at y)
          (where_ is_pending (outbox_events db)))).

Definition outbox_claim (limit : Z) : stmt rowset := fun now db sq =>
  if limit <? 0 then (sq, Err (EPg "2201W" ""))
  else dml (fun _ db sq =>
    let p r := bool_decide (OutboxEvents.id r ∈ claimable limit db) in
    let f r := set_state "publishing" (OutboxEvents.published_at r) (OutboxEvents.last_error r) r in
    (sq, with_outbox (update_where p f) db,
     pick OutboxEvents.column outbox_columns (map f (where_ p (outbox_events db))))) now db sq.

Definition outbox_mark_published (id at_ : Z) : stmt Z :=
  dml (fun _ db sq =>
    let p r := OutboxEvents.id r =? id in
    (sq, with_outbox (update_where p (fun r => set_state "published" (Some (pg_time at_))
                                                 (OutboxEvents.last_error r) r)) db,
     affected p (outbox_events db))).

Definition outbox_mark_failed (id : Z) (msg : string) : stmt Z :=
  dml (fun _ db sq =>
    let p r := OutboxEvents.id r =? id in
    (sq, with_outbox (update_where p (fun r => set_state "failed" (OutboxEvents.published_at r)
                                                 (Some msg) r)) db,
     affected p (outbox_events db))).

Definition scanOutbox : list sqlval -> result OutboxEvent.t :=
  next d_int (fun id => next d_text (fun topic => next d_text (fun key => next d_text (fun agg =>
  next (d_ptr d_text) (fun agg_id => next d_text (fun type_ => next d_json (fun body =>
  next (d_ptr d_json) (fun meta => next d_text (fun state => next d_time (fun created =>
  next (d_ptr d_time) (fun published => next (d_ptr d_text) (fun last_err =>
  finish (OutboxEvent.mk id topic key agg agg_id type_ (PJson body) (PJson <$> meta) state created
            published last_err))))))))))))).

Module PostgresRepository.
Section Repo.
Context {E : Env} {R : Type}.

Definition Insert (ctx : Ctx) (e : OutboxEvent.t) : M (World R) unit :=
  let! x := attemptM (Exec ctx (outbox_insert e)) in
  match x with
  | Err err => throwM (EWrap "outbox repo: insert: " err "")
  | Ok _ => retM tt
  end.

(** An error of the statement itself is met by [rows.Err()]; one of the
    connection by [Query]. *)
Definition ClaimPending (ctx : Ctx) (limit : Z) : M (World R) (list OutboxEvent.t) :=
  let! x := attemptM (run ctx (outbox_claim limit)) in
  match x with
  | Err (EPg code name) => throwM (EPg code name)
  | Err err => throwM (EWrap "outbox repo: claim pending: " err "")
  | Ok rows =>
      match scan_all scanOutbox rows with
      | Err err => throwM (EWrap "outbox repo: scan: " err "")
      | Ok events => retM events
      end
  end.

Definition marked (what : string) (m : M (World R) Z) : M (World R) unit :=
  let! x := attemptM m in
  match x with
  | Err err => throwM (EWrap ("outbox repo: " +:+ what +:+ ": ") err "")
  | Ok tag => if tag =? 0 then throwM ErrOutboxNoRows else retM tt
  end.

Definition MarkPublished (ctx : Ctx) (id : Z) : M (World R) unit :=
  let! now := nowM in
  marked "mark published" (Exec ctx (outbox_mark_published id now)).
Definition MarkFailed (ctx : Ctx) (id : Z) (errMsg : string) : M (World R) unit :=
  marked "mark failed" (Exec ctx (outbox_mark_failed id errMsg)).
End Repo.
End PostgresRepository.

#[export] Instance postgres_repository {E : Env} {R} : Repository (World R) := {|
  ob_Insert := PostgresRepository.Insert;
  ob_ClaimPending := PostgresRepository.ClaimPending;
  ob_MarkPublished := PostgresRepository.MarkPublished;
  ob_MarkFailed := PostgresRepository.MarkFailed
|}.

(** ** The recorder: [service.go] *)

Section Recorder.
Context {E : Env} {R : Type}.

Definition record_envelope (eventID : string) (p : RecordParams.t) : OEnvelope.t :=
  OEnvelope.mk eventID (RecordParams.EventType p) (RecordParams.AggregateType p)
    (RecordParams.AggregateID p) (RecordParams.OccurredAt p) zero_time (RecordParams.TraceID p)
    (RecordParams.CorrelationID p) (RecordParams.CausationID p) (RecordParams.ActorType p)
    (RecordParams.ActorID p) (RecordParams.SchemaVersion p) (RecordParams.IdempotencyKey p)
    (RecordParams.Payload p).

Definition metadataJSON (p : RecordParams.t) : option payload :=
  let tr := RecordParams.TraceID p in
  let co := RecordParams.CorrelationID p in
  let ca := RecordParams.CausationID p in
  if negb (str_empty tr) || negb (str_empty co) || negb (str_empty ca)
  then Some (PJson (JObj (omitempty (str_empty ca) "causation_id" (jstr ca)
         ++ omitempty (str_empty co) "correlation_id" (jstr co)
         ++ omitempty (str_empty tr) "trace_id" (jstr tr))))
  else None.

Definition Record (ctx : Ctx) (params : RecordParams.t) : M (World R) unit :=
  let! eventID := NewString in
  match marshal_outbox (record_envelope eventID params) with
  | Err err => throwM (EWrap "" ErrMarshal (": " +:+ ErrorText err))
  | Ok payloadJSON =>
      let! now := nowM in
      ob_Insert ctx (OutboxEvent.mk 0 (RecordParams.Topic params) (RecordParams.EventKey params)
        (RecordParams.AggregateType params) (RecordParams.AggregateID params)
        (RecordParams.EventType params) payloadJSON (metadataJSON params) StatePending now None None)
  end.
End Recorder.

(** ** The publisher: [publisher.go] *)

(** The assignments on the envelope after [NewEnvelope]. *)
Definition complete_envelope (env : OEnvelope.t) (now : Z) (k : Envelope) : Envelope :=
  let or_keep s old := if str_empty s then old else s in
  mkEnvelope (OEnvelope.EventID env) (EventType k) (AggregateType k) (AggregateID k) (OccurredAt k) now
    (or_keep (OEnvelope.TraceID env) (TraceID k))
    (or_keep (OEnvelope.CorrelationID env) (CorrelationID k))
    (or_keep (OEnvelope.CausationID env) (CausationID k))
    (or_keep (OEnvelope.ActorType env) (ActorType k))
    (if str_empty (OEnvelope.ActorType env) then ActorID k
     else default (ActorID k) (OEnvelope.ActorID env))
    (SchemaVersion k) (OEnvelope.IdempotencyKey env) (Payload k).

Definition KafkaPublish {S} {KW : KafkaWriter S} {CK : Clock S} {NT : NowText S}
    (ctx : Ctx) (topic key : string) (payload_ : payload) : M S unit :=
  match unmarshal_outbox payload_ with
  | Err err => throwM (EWrap "outbox publisher: unmarshal envelope: " err "")
  | Ok env =>
      let payloadBytes := PJson (default JNull (OEnvelope.Payload env)) in
      let aggID := default "" (OEnvelope.AggregateID env) in
      let! kafkaEnv := NewEnvelope (OEnvelope.EventType env) (OEnvelope.AggregateType env) aggID
                         (OEnvelope.OccurredAt env) (Some payloadBytes)
                         [WithSchemaVersion (OEnvelope.SchemaVersion env);
                          WithIdKey (OEnvelope.IdempotencyKey env)] in
      let! now := nowM in
      PublishEnvelope topic (complete_envelope env now kafkaEnv)
  end.

#[export] Instance kafka_publisher {S} {KW : KafkaWriter S} {CK : Clock S} {NT : NowText S} :
    Publisher S := {| ob_Publish := KafkaPublish |}.

(** ** The dispatcher: [dispatcher.go] *)

Section Dispatcher.
Context {S : Type} {RP : Repository S} {PB : Publisher S}.

Fixpoint dispatch_events (ctx : Ctx) (events : list OutboxEvent.t) (published : Z) : M S Z :=
  match events with
  | [] => retM published
  | e :: r =>
      let! x := attemptM (ob_Publish ctx (OutboxEvent.Topic e) (OutboxEvent.EventKey e)
                            (OutboxEvent.Payload e)) in
      match x with
      | Err err =>
          do! attemptM (ob_MarkFailed ctx (OutboxEvent.ID e) (ErrorText err)) in
          dispatch_events ctx r published
      | Ok _ =>
          let! y := attemptM (ob_MarkPublished ctx (OutboxEvent.ID e)) in
          match y with
          | Err _ => dispatch_events ctx r published
          | Ok _ => dispatch_events ctx r (published + 1)
          end
      end
  end.

Definition DispatchOnce (ctx : Ctx) (limit : Z) : M S Z :=
  let! x := attemptM (ob_ClaimPending ctx limit) in
  match x with
  | Err err => throwM (EWrap "outbox dispatcher: claim: " err "")
  | Ok events => dispatch_events ctx events 0
  end.
End Dispatcher.

(** ** Properties *)

(** *** Recording *)

(** The strings are UTF-8, the numbers Go integers, and the payload, if any, an
    object that survives a reading into a map. *)
Definition params_clean (p : RecordParams.t) : bool :=
  forallb clean [RecordParams.EventType p; RecordParams.AggregateType p; RecordParams.TraceID p;
    RecordParams.CorrelationID p; RecordParams.CausationID p; RecordParams.ActorType p;
    RecordParams.IdempotencyKey p] &&
  optb clean (RecordParams.AggregateID p) && optb is_int64 (RecordParams.ActorID p) &&
  is_int64 (RecordParams.SchemaVersion p).
Definition payload_map (m : metadata) : Prop :=
  match m with
  | None => True
  | Some j => any_of_json j = j /\ exists f, j = JObj f
  end.

Lemma unmarshal_marshal_outbox id p body :
  params_clean p = true -> clean id = true -> payload_map (RecordParams.Payload p) ->
  marshal_outbox (record_envelope id p) = Ok body ->
  unmarshal_outbox body = Ok (record_envelope id p).
Proof.
  unfold params_clean, marshal_outbox. intros Hc Hid%clean_eq Hp. destruct (negb _); [done|].
  intros [= <-].
  apply andb_true_iff in Hc as [[[Hc Ha]%andb_true_iff Hn]%andb_true_iff Hs]. simpl in Hc.
  destruct p as [to ek at_ ai et oc tr co ca ac an sv ik pl]; simpl in *.
  repeat (apply andb_true_iff in Hc as [H%clean_eq Hc]; revert H). intros.
  assert (Hai : utf8_clean <$> ai = ai) by (destruct ai; simpl in *; [by rewrite (clean_eq _ Ha)|done]).
  unfold jstr. repeat match goal with H : utf8_clean ?x = ?x |- _ => rewrite H; clear H end.
  assert (Hpl : map_of (default JNull pl) = Ok pl).
  { destruct pl as [j|]; [|done]. destruct Hp as [Hj [f ->]].
    change (map_of _) with (@Ok metadata (Some (any_of_json (JObj f)))). by rewrite Hj. }
  unfold str_empty, omitempty, record_envelope. simpl.
  destruct ai as [ai|], an as [an|]; simpl in *; simplify_eq;
    destruct (String.eqb_spec tr ""), (String.eqb_spec co ""), (String.eqb_spec ca ""),
      (String.eqb_spec ac ""), (String.eqb_spec ik "");
    unfold unmarshal_outbox, get_int64, get_int64_opt, get_map;
    cbn -[is_int64 Z.mul map_of utf8_clean]; rewrite ?Hn;
    cbn -[is_int64 Z.mul map_of utf8_clean]; rewrite Hs;
    cbn -[is_int64 Z.mul map_of utf8_clean]; rewrite Hpl, ?Hai; subst; reflexivity.
Qed.

Section Recording.
Context {E : Env} {R : Type}.

Lemma Exec_inv ctx q (w w' : World R) n :
  Exec ctx q w = (w', Ok n) ->
  exists now sq, q now (cur_db ctx w) (w_seq w) = (sq, Ok (cur_db ctx w', n)).
Proof. unfold Exec. intros (now & sq & db & Hs & -> & _)%run_inv. eauto. Qed.

Lemma jsonb_in_json j j' : jsonb_in (PJson j) = Ok j' -> j' = j.
Proof. unfold jsonb_in. simpl. by destruct (jsonb_ok j); intros; simplify_eq. Qed.

(** The row a successful [Record] adds. *)
Definition recorded_row (id now : Z) (p : RecordParams.t) (body : json) (meta : option json) :
    OutboxEvents.row :=
  OutboxEvents.mk id (RecordParams.Topic p) (RecordParams.EventKey p) (RecordParams.AggregateType p)
    (RecordParams.AggregateID p) (RecordParams.EventType p) body meta StatePending (pg_time now) None None.

Lemma Record_inv ctx p (w w' : World R) :
  Record ctx p w = (w', Ok tt) ->
  exists seq now body meta,
    cur_db ctx w' = with_outbox (fun l => l ++ [recorded_row seq now p body meta]) (cur_db ctx w) /\
    marshal_outbox (record_envelope (env_uuid (w_uuids w)) p) = Ok (PJson body).
Proof.
  unfold Record. intros (w1 & id & Hn & H)%bindM_ok.
  assert (id = env_uuid (w_uuids w)) as -> by (unfold NewString in Hn; by simplify_eq).
  destruct (marshal_outbox _) as [body|e] eqn:Em; [|done].
  apply bindM_ok in H as (w2 & now & Ht & H).
  apply (keeps_inv _ _ _ _ _ (NewString_cur ctx)) in Hn.
  apply (keeps_inv _ _ _ _ _ (nowM_cur ctx)) in Ht.
  change (ob_Insert ctx) with (PostgresRepository.Insert (E:=E) (R:=R) ctx) in H.
  unfold PostgresRepository.Insert in H. apply bindM_ok in H as (w3 & [n|e] & He & H); [|discriminate H].
  apply attemptM_inv in He. injection H as ->.
  apply Exec_inv in He as (t & sq & Hq). unfold outbox_insert in Hq. simpl in Hq.
  destruct (jsonb_in body) as [j|] eqn:Ej; [|done].
  destruct (jsonb_in_opt (metadataJSON p)) as [meta|]; [|done].
  assert (body = PJson j) as ->.
  { unfold marshal_outbox in Em. destruct (negb _); simplify_eq. f_equal.
    symmetry. by apply jsonb_in_json. }
  unfold dml in Hq. destruct (violated _); [done|]. injection Hq as _ Hdb _.
  exists (outbox_seq (w_seq w2)), now, j, meta. by rewrite <- Hdb, Ht, Hn.
Qed.

(** C32: Recording an event stores it with the business change. A successful
    [Record] adds exactly one row to the outbox of the context's database (the
    transaction's working copy inside one), pending and unpublished, whose payload
    is read back by the publisher as the envelope of the parameters. *)
Theorem Record_stores ctx p (w w' : World R) :
  params_clean p = true -> payload_map (RecordParams.Payload p) ->
  clean (env_uuid (w_uuids w)) = true ->
  Record ctx p w = (w', Ok tt) ->
  exists row id, cur_db ctx w' = with_outbox (fun l => l ++ [row]) (cur_db ctx w) /\
    OutboxEvents.state row = StatePending /\ OutboxEvents.published_at row = None /\
    OutboxEvents.topic row = RecordParams.Topic p /\
    OutboxEvents.event_key row = RecordParams.EventKey p /\
    unmarshal_outbox (PJson (OutboxEvents.payload row)) = Ok (record_envelope id p).
Proof.
  intros Hc Hp Hu (seq & now & body & meta & Hdb & Hm)%Record_inv.
  exists (recorded_row seq now p body meta), (env_uuid (w_uuids w)).
  split; [done|]. repeat (split; [done|]). by apply unmarshal_marshal_outbox.
Qed.

(** The Kafka envelope of a recorded event, produced at [now]. *)
Definition sent_envelope (id : string) (p : RecordParams.t) (now : Z) : Envelope :=
  mkEnvelope id (RecordParams.EventType p) (RecordParams.AggregateType p)
    (default "" (RecordParams.AggregateID p)) (RecordParams.OccurredAt p) now
    (RecordParams.TraceID p) (RecordParams.CorrelationID p) (RecordParams.CausationID p)
    (RecordParams.ActorType p)
    (if str_empty (RecordParams.ActorType p) then 0 else default 0 (RecordParams.ActorID p))
    (RecordParams.SchemaVersion p) (RecordParams.IdempotencyKey p)
    (Some (PJson (default JNull (RecordParams.Payload p)))).

(** C33: What was recorded is what is sent: publishing the stored payload reads one
    identifier and the clock twice and then is one call of the broker client, with one
    message whose envelope carries the recorded event id, type, aggregate, time,
    identifiers and business payload and the second time read; its outcome is the
    outcome of that call, with the error wrapped (an envelope that cannot be encoded
    is reported without a call). *)
Theorem Publish_recorded {S} {KW : KafkaWriter S} {CK : Clock S} {NT : NowText S}
    ctx topic key id p body (s : S) :
  params_clean p = true -> clean id = true -> payload_map (RecordParams.Payload p) ->
  marshal_outbox (record_envelope id p) = Ok body ->
  let s2 := fst (Now (fst (NowString s))) in
  let s3 := fst (Now s2) in
  let env := sent_envelope id p (snd (Now s2)) in
  ob_Publish ctx topic key body s =
    match marshal_envelope env with
    | Err err => (s3, Err (EWrap "kafka producer: marshal envelope: " err ""))
    | Ok doc =>
        match WriteMessages [envelope_msg topic env doc] s3 with
        | (s4, Ok _) => (s4, Ok tt)
        | (s4, Err err) => (s4, Err (EWrap ("kafka producer: write message [" +:+ topic +:+ "/" +:+
                                            RecordParams.EventType p +:+ "]: ") err ""))
        end
    end.
Proof.
  intros Hc Hid Hp Hm. simpl. unfold KafkaPublish.
  rewrite (unmarshal_marshal_outbox _ _ _ Hc Hid Hp Hm).
  unfold NewEnvelope, newUUID, nowTextM, bindM, nowM, retM.
  destruct (NowString s) as [s1 t1]. simpl. destruct (Now s1) as [s2 t2]. simpl.
  destruct (Now s2) as [s3 t3]. simpl.
  assert (He : forall i o, complete_envelope (record_envelope id p) t3
      (WithIdKey (RecordParams.IdempotencyKey p) (WithSchemaVersion (RecordParams.SchemaVersion p)
        (mkEnvelope i (RecordParams.EventType p) (RecordParams.AggregateType p)
           (default "" (RecordParams.AggregateID p)) (RecordParams.OccurredAt p) o "" "" "" "" 0 1 i
           (Some (PJson (default JNull (RecordParams.Payload p))))))) = sent_envelope id p t3).
  { intros i o. unfold complete_envelope, sent_envelope. simpl. unfold str_empty.
    by destruct (String.eqb_spec (RecordParams.TraceID p) "") as [->|],
      (String.eqb_spec (RecordParams.CorrelationID p) "") as [->|],
      (String.eqb_spec (RecordParams.CausationID p) "") as [->|],
      (String.eqb_spec (RecordParams.ActorType p) "") as [->|]. }
  simpl in He. rewrite He. unfold PublishEnvelope.
  destruct (marshal_envelope _) as [doc|e]; [|done]. unfold bindM, attemptM.
  by destruct (WriteMessages _ s3) as [s4 [[]|e]].
Qed.
End Recording.

(** *** Frames of the recorder *)

Section RecorderFrames.
Context {E : Env} {R : Type}.

Lemma outbox_insert_sound e : sound (outbox_insert e).
Proof.
  intros now db sq sq' db' a Hc. unfold outbox_insert.
  destruct (jsonb_in _) as [j|]; [|done]. destruct (jsonb_in_opt _) as [m|]; [|done].
  by apply dml_sound.
Qed.
Lemma repository_Insert_ok ctx e : preserves (world_ok (R:=R)) (ob_Insert ctx e).
Proof.
  change (preserves (world_ok (R:=R)) (PostgresRepository.Insert ctx e)).
  unfold PostgresRepository.Insert, Exec. go_preserve. auto using run_ok, outbox_insert_sound.
Qed.
Lemma repository_Insert_db ctx e : ExtractTx ctx = true -> keeps (w_db (R:=R)) (ob_Insert ctx e).
Proof. intros Hc. change (keeps (w_db (R:=R)) (PostgresRepository.Insert ctx e)). go_world. Qed.
Lemma repository_Insert_redis ctx e : keeps (w_redis (R:=R)) (ob_Insert ctx e).
Proof. change (keeps (w_redis (R:=R)) (PostgresRepository.Insert ctx e)). go_world. Qed.
Lemma repository_Insert_past k ctx e : preserves (past (R:=R) k) (ob_Insert ctx e).
Proof. change (preserves (past (R:=R) k) (PostgresRepository.Insert ctx e)). go_world. Qed.
End RecorderFrames.

#[export] Hint Resolve outbox_insert_sound repository_Insert_ok repository_Insert_db
  repository_Insert_redis repository_Insert_past : go.

(** *** Claiming on the real table *)

(** The dispatcher of the worker process works on the database and the broker. *)
#[export] Instance pair_repository {A B} `{Repository A} : Repository (A * B) := {|
  ob_Insert ctx e := zoomM fst (fun a s => (a, snd s)) (ob_Insert ctx e);
  ob_ClaimPending ctx n := zoomM fst (fun a s => (a, snd s)) (ob_ClaimPending ctx n);
  ob_MarkPublished ctx id := zoomM fst (fun a s => (a, snd s)) (ob_MarkPublished ctx id);
  ob_MarkFailed ctx id msg := zoomM fst (fun a s => (a, snd s)) (ob_MarkFailed ctx id msg)
|}.
#[export] Instance pair_publisher {A B} `{Publisher B} : Publisher (A * B) := {|
  ob_Publish ctx topic key b := zoomM snd (fun b s => (fst s, b)) (ob_Publish ctx topic key b)
|}.

Section Claiming.
Context {E : Env} {R : Type}.

Lemma publishing_violates db r :
  r ∈ outbox_events db -> OutboxEvents.state r = "publishing" -> violated db <> None.
Proof.
  intros Hr Hs Hv. assert (Ho := outbox_states db Hv). rewrite forallb_forall in Ho.
  specialize (Ho r (proj1 (list_elem_of_In _ _) Hr)). unfold outbox_checks in Ho. by rewrite Hs in Ho.
Qed.

(** The oldest pending event is claimable. *)
Lemma claimable_some limit db r :
  0 < limit -> r ∈ outbox_events db -> is_pending r = true ->
  exists r', r' ∈ outbox_events db /\ OutboxEvents.id r' ∈ claimable limit db.
Proof.
  intros Hl Hr Hp. unfold claimable.
  assert (Hin : r ∈ where_ is_pending (outbox_events db)) by (by apply elem_of_where).
  set (l := order_by _ _). assert (Hperm : l ≡ₚ where_ is_pending (outbox_events db)) by apply order_by_perm.
  destruct l as [|h l'] eqn:El; [by rewrite <- Hperm in Hin; apply elem_of_nil in Hin|].
  assert (Hh : h ∈ where_ is_pending (outbox_events db)) by (rewrite <- Hperm; left).
  apply elem_of_where in Hh as [Hh _]. exists h. split; [done|].
  destruct (Z.to_nat limit) eqn:En; [lia|]. simpl. left.
Qed.

Lemma outbox_claim_fails limit now db sq r :
  0 < limit -> r ∈ outbox_events db -> is_pending r = true ->
  exists e, outbox_claim limit now db sq = (sq, Err e).
Proof.
  intros Hl Hr Hp. unfold outbox_claim. rewrite (proj2 (Z.ltb_ge limit 0)) by lia.
  destruct (claimable_some limit db r Hl Hr Hp) as (r' & Hr' & Hc). unfold dml.
  destruct (violated _) as [e|] eqn:Ev; [by eauto|]. exfalso.
  refine (publishing_violates _ (set_state "publishing" (OutboxEvents.published_at r')
    (OutboxEvents.last_error r') r') _ _ Ev); [|done].
  simpl. apply elem_of_update_where. exists r'. by rewrite bool_decide_eq_true_2.
Qed.

Lemma ClaimPending_fails limit (w w' : World R) x r :
  0 < limit -> r ∈ outbox_events (w_db w) -> is_pending r = true ->
  PostgresRepository.ClaimPending Background limit w = (w', x) ->
  (exists err, x = Err err) /\ w_db w' = w_db w.
Proof.
  intros Hl Hr Hp. unfold PostgresRepository.ClaimPending, bindM, attemptM, run, run_pool. simpl.
  destruct (outbox_claim_fails limit (pg_clock (w_pg w)) (w_db w) (w_seq w) r Hl Hr Hp) as [e ->].
  destruct (pg_fault (w_pg w)) as [[[] f]|].
  - unfold throwM. intros. simplify_eq. split; [eauto|done].
  - unfold throwM. intros. simplify_eq. split; [eauto|done].
  - destruct e; unfold throwM; intros; simplify_eq; (split; [eauto|done]).
Qed.

(** C39: No recorded event is ever published. [ClaimPending] moves events to the
    state publishing, which the table's CHECK constraint forbids, so with a
    pending event in the table every run of the dispatcher fails, sends nothing
    and changes nothing. *)
Theorem dispatch_never_publishes {K} {PB : Publisher K} limit (w : World R) (k : K) s' x r :
  0 < limit -> r ∈ outbox_events (w_db w) -> OutboxEvents.state r = StatePending ->
  DispatchOnce Background limit (w, k) = (s', x) ->
  (exists err, x = Err err) /\ w_db (fst s') = w_db w /\ snd s' = k.
Proof.
  intros Hl Hr Hp. unfold DispatchOnce, bindM, attemptM. simpl. unfold zoomM. simpl.
  destruct (PostgresRepository.ClaimPending Background limit w) as [w' y] eqn:Ec.
  assert (Hp' : is_pending r = true) by (unfold is_pending; by rewrite Hp).
  destruct (ClaimPending_fails limit w w' y r Hl Hr Hp' Ec) as [[e ->] Hdb].
  unfold throwM. intros. simplify_eq. eauto.
Qed.
End Claiming.

(** *** The loop of the dispatcher, on the repository and the publisher *)

(** What the loop relies on of the broker client and its process: [broker_log] is the
    log of the messages the broker accepted, it only grows, and a write that returns
    nil has appended its messages. *)
Class WriterLaws (K : Type) `{KafkaWriter K} `{Clock K} `{NowText K} := {
  broker_log : K -> list kmsg;
  write_log ms k k' x : WriteMessages ms k = (k', x) ->
    exists l, broker_log k' = broker_log k ++ l /\ (x = Ok tt -> l = ms);
  clock_log k : broker_log (fst (Now k)) = broker_log k;
  text_log k : broker_log (fst (NowString k)) = broker_log k
}.

Section Dispatching.
Context {E : Env} {R K : Type} {KW : KafkaWriter K} {CK : Clock K} {NT : NowText K} {WL : WriterLaws K}.
Implicit Types (w : World R) (k : K) (e : OutboxEvent.t).

(** The message carries the event: its topic, and an envelope with the identifier,
    type, aggregate, time and document of the stored one. *)
Definition carries e (m : kmsg) : Prop :=
  exists env kenv doc, unmarshal_outbox (OutboxEvent.Payload e) = Ok env /\
    marshal_envelope kenv = Ok doc /\ m = envelope_msg (OutboxEvent.Topic e) kenv doc /\
    EventID kenv = OEnvelope.EventID env /\ EventType kenv = OEnvelope.EventType env /\
    AggregateType kenv = OEnvelope.AggregateType env /\
    AggregateID kenv = default "" (OEnvelope.AggregateID env) /\
    OccurredAt kenv = OEnvelope.OccurredAt env /\
    Payload kenv = Some (PJson (default JNull (OEnvelope.Payload env))).
Definition accepted k e : Prop := exists m, m ∈ broker_log k /\ carries e m.

(** What the loop over [l] may make of a row, [k] being the broker at its end. *)
Definition row_after (l : list OutboxEvent.t) k (r r' : OutboxEvents.row) : Prop :=
  r' = r \/
  exists e, e ∈ l /\ OutboxEvent.ID e = OutboxEvents.id r /\
    ((exists msg, r' = set_state "failed" (OutboxEvents.published_at r) (Some msg) r) \/
     (exists t, r' = set_state "published" (Some t) (OutboxEvents.last_error r) r /\ accepted k e)).

Lemma KafkaPublish_log ctx e k k' x :
  KafkaPublish ctx (OutboxEvent.Topic e) (OutboxEvent.EventKey e) (OutboxEvent.Payload e) k = (k', x) ->
  exists l, broker_log k' = broker_log k ++ l /\ (x = Ok tt -> exists m, l = [m] /\ carries e m).
Proof.
  unfold KafkaPublish. destruct (unmarshal_outbox _) as [env|err] eqn:Eu.
  2:{ unfold throwM. intros. simplify_eq. exists []. by rewrite app_nil_r. }
  unfold NewEnvelope, newUUID, nowTextM, nowM, retM, bindM, PublishEnvelope.
  pose proof (text_log k) as H1. destruct (NowString k) as [k1 t1].
  pose proof (clock_log k1) as H2. destruct (Now k1) as [k2 t2].
  pose proof (clock_log k2) as H3. destruct (Now k2) as [k3 t3]. simpl in H1, H2, H3.
  assert (Hk : broker_log k3 = broker_log k) by congruence.
  cbn [fold_left]. set (kenv := complete_envelope _ _ _).
  destruct (marshal_envelope kenv) as [doc|err] eqn:Em.
  2:{ unfold throwM. intros. simplify_eq. exists []. by rewrite app_nil_r. }
  unfold bindM, attemptM. destruct (WriteMessages _ k3) as [k4 y] eqn:Ew.
  destruct (write_log _ _ _ _ Ew) as (l & Hl & Hok). rewrite Hk in Hl.
  destruct y as [[]|err]; unfold retM, throwM; intros; simplify_eq; exists l; (split; [done|]); [|done].
  intros _. eexists. split; [by apply Hok|]. by exists env, kenv, doc.
Qed.

(** A statement outside a transaction had its effect or none; nil means it had. *)
Lemma Exec_pool ctx f w w' y :
  ExtractTx ctx = false -> Exec ctx (dml f) w = (w', y) ->
  (w_db w' = w_db w /\ exists err, y = Err err) \/
  exists now sq n, f now (w_db w) (w_seq w) = (sq, w_db w', n) /\ ((exists err, y = Err err) \/ y = Ok n).
Proof.
  intros Hc. unfold Exec, run, GetExecutor. rewrite Hc. unfold run_pool, dml.
  destruct (f (pg_clock (w_pg w)) (w_db w) (w_seq w)) as [[sq db'] n] eqn:Ef.
  destruct (violated db'), (pg_fault (w_pg w)) as [[[] err]|]; intros; simplify_eq; simpl; eauto 10.
Qed.

Lemma MarkPublished_rows ctx id w w' x :
  ExtractTx ctx = false -> PostgresRepository.MarkPublished ctx id w = (w', x) ->
  (w_db w' = w_db w /\ exists err, x = Err err) \/
  exists t, w_db w' = with_outbox (update_where (fun r => OutboxEvents.id r =? id)
      (fun r => set_state "published" (Some t) (OutboxEvents.last_error r) r)) (w_db w) /\
    (x = Ok tt -> exists r, r ∈ outbox_events (w_db w) /\ OutboxEvents.id r = id).
Proof.
  intros Hc. unfold PostgresRepository.MarkPublished. unfold bindM at 1. simpl.
  unfold PostgresRepository.marked, bindM, attemptM, outbox_mark_published.
  destruct (Exec ctx _ _) as [w1 y] eqn:Ex.
  apply Exec_pool in Ex as [(Hdb & e & ->)|(now & sq & n & Hf & Hy)]; [| |done].
  - unfold throwM. intros. simplify_eq. left. eauto.
  - injection Hf as _ Hdb Hn. simpl in Hdb, Hn. intros H. right.
    assert (w1 = w') as -> by (destruct y; unfold throwM, retM in H; repeat case_match; by simplify_eq).
    eexists. split; [by rewrite <- Hdb|]. intros ->.
    destruct Hy as [[e ->]|Hy]; [done|]. subst y. destruct (Z.eqb_spec n 0) as [|Hz]; [done|].
    unfold affected in Hn. destruct (where_ _ _) as [|r l] eqn:Ew; [done|].
    exists r. assert (Hr : r ∈ where_ (fun r => OutboxEvents.id r =? id) (outbox_events (w_db w)))
      by (rewrite Ew; left). by apply elem_of_where in Hr as [Hr Hi%Z.eqb_eq].
Qed.

Lemma MarkFailed_rows ctx id msg w w' x :
  ExtractTx ctx = false -> PostgresRepository.MarkFailed ctx id msg w = (w', x) ->
  w_db w' = w_db w \/
  w_db w' = with_outbox (update_where (fun r => OutboxEvents.id r =? id)
      (fun r => set_state "failed" (OutboxEvents.published_at r) (Some msg) r)) (w_db w).
Proof.
  intros Hc. unfold PostgresRepository.MarkFailed, PostgresRepository.marked, bindM, attemptM, outbox_mark_failed.
  destruct (Exec ctx _ _) as [w1 y] eqn:Ex. intros H.
  assert (w1 = w') as -> by (destruct y; unfold throwM, retM in H; repeat case_match; by simplify_eq).
  apply Exec_pool in Ex as [(Hdb & _)|(now & sq & n & Hf & _)]; [by left| |done].
  injection Hf as _ Hdb _. right. by rewrite <- Hdb.
Qed.

(** The effect of one statement on the rows. *)
Lemma rows_same l k (rows : list OutboxEvents.row) : Forall2 (row_after l k) rows rows.
Proof. induction rows; constructor; [by left|done]. Qed.
Lemma rows_marked e k f (rows : list OutboxEvents.row) :
  (forall r, OutboxEvents.id r = OutboxEvent.ID e -> row_after [e] k r (f r)) ->
  Forall2 (row_after [e] k) rows (update_where (fun r => OutboxEvents.id r =? OutboxEvent.ID e) f rows).
Proof.
  intros Hf. unfold update_where. induction rows as [|r rows IH]; simpl; constructor; [|done].
  destruct (Z.eqb_spec (OutboxEvents.id r) (OutboxEvent.ID e)); [by apply Hf|by left].
Qed.

Lemma accepted_more k k' sent e : broker_log k' = broker_log k ++ sent -> accepted k e -> accepted k' e.
Proof. intros Hk (m & Hm & Hc). exists m. split; [rewrite Hk; apply elem_of_app; by left|done]. Qed.

(** One event, then the rest: no row is changed twice. *)
Lemma row_after_trans e l k1 k sent r r1 r2 :
  OutboxEvent.ID e ∉ OutboxEvent.ID <$> l -> broker_log k = broker_log k1 ++ sent ->
  row_after [e] k1 r r1 -> row_after l k r1 r2 -> row_after (e :: l) k r r2.
Proof.
  intros Hnd Hk [->|(e0 & ->%list_elem_of_singleton & Hid & Hr)] H2.
  - destruct H2 as [->|(e' & He' & H)]; [by left|]. right. exists e'. split; [by right|done].
  - assert (r2 = r1) as ->.
    { destruct H2 as [->|(e' & He' & Hid' & _)]; [done|]. exfalso. apply Hnd.
      assert (Hi : OutboxEvents.id r1 = OutboxEvents.id r) by (by destruct Hr as [[? ->]|[? [-> _]]]).
      rewrite Hid, <- Hi, <- Hid'. by apply list_elem_of_fmap_2. }
    right. exists e. split; [left|]. split; [done|].
    destruct Hr as [?|(t & Ht & Hacc)]; [by left|right]. exists t. split; [done|].
    by eapply accepted_more.
Qed.

(** What the loop guarantees: the rows of [pub] are the ones it counts. *)
Definition dispatched l w k w' k' (n : Z) : Prop :=
  Forall2 (row_after l k') (outbox_events (w_db w)) (outbox_events (w_db w')) /\
  w_db w' = with_outbox (fun _ => outbox_events (w_db w')) (w_db w) /\
  (exists sent, broker_log k' = broker_log k ++ sent) /\
  exists pub, sublist pub l /\ n = Z.of_nat (length pub) /\
    Forall (fun e => accepted k' e /\ exists r, r ∈ outbox_events (w_db w') /\
      OutboxEvents.id r = OutboxEvent.ID e /\ OutboxEvents.state r = "published") pub.

Lemma dispatched_cons e l w k w1 k1 w' k' (b : bool) n :
  OutboxEvent.ID e ∉ OutboxEvent.ID <$> l ->
  Forall2 (row_after [e] k1) (outbox_events (w_db w)) (outbox_events (w_db w1)) ->
  w_db w1 = with_outbox (fun _ => outbox_events (w_db w1)) (w_db w) ->
  (exists sent, broker_log k1 = broker_log k ++ sent) ->
  (b = true -> accepted k1 e /\ exists r, r ∈ outbox_events (w_db w1) /\
     OutboxEvents.id r = OutboxEvent.ID e /\ OutboxEvents.state r = "published") ->
  dispatched l w1 k1 w' k' n -> dispatched (e :: l) w k w' k' ((if b then 1 else 0) + n).
Proof.
  intros Hnd Hrow Hdb [s1 Hs1] Hb (Hrow' & Hdb' & [s2 Hs2] & pub & Hsub & -> & Hpub). split_and!.
  - eapply Forall2_trans; [|exact Hrow|exact Hrow']. intros r r1 r2. by eapply row_after_trans.
  - rewrite Hdb'. simpl. by rewrite Hdb.
  - exists (s1 ++ s2). by rewrite Hs2, Hs1, app_assoc.
  - destruct b; [|exists pub; split; [by apply sublist_cons|done]].
    exists (e :: pub). split; [by apply sublist_skip|]. split; [simpl; lia|]. constructor; [|done].
    destruct (Hb eq_refl) as (Hacc & r & Hr & Hid & Hst). split; [by eapply accepted_more|].
    exists r. split; [|done]. apply list_elem_of_lookup in Hr as [i Hi].
    destruct (Forall2_lookup_l _ _ _ _ _ Hrow' Hi) as (r' & Hi' & [->|(e' & He' & Hid' & _)]).
    + by apply list_elem_of_lookup_2 in Hi'.
    + exfalso. apply Hnd. rewrite <- Hid, <- Hid'. by apply list_elem_of_fmap_2.
Qed.

(** Publishing and marking one event. *)
Lemma dispatch_one ctx e w k k1 x :
  ExtractTx ctx = false ->
  KafkaPublish ctx (OutboxEvent.Topic e) (OutboxEvent.EventKey e) (OutboxEvent.Payload e) k = (k1, x) ->
  (exists sent, broker_log k1 = broker_log k ++ sent) /\
  (forall msg w1 y, x <> Ok tt -> PostgresRepository.MarkFailed ctx (OutboxEvent.ID e) msg w = (w1, y) ->
     Forall2 (row_after [e] k1) (outbox_events (w_db w)) (outbox_events (w_db w1)) /\
     w_db w1 = with_outbox (fun _ => outbox_events (w_db w1)) (w_db w)) /\
  (forall w1 y, x = Ok tt -> PostgresRepository.MarkPublished ctx (OutboxEvent.ID e) w = (w1, y) ->
     Forall2 (row_after [e] k1) (outbox_events (w_db w)) (outbox_events (w_db w1)) /\
     w_db w1 = with_outbox (fun _ => outbox_events (w_db w1)) (w_db w) /\
     (y = Ok tt -> accepted k1 e /\ exists r, r ∈ outbox_events (w_db w1) /\
        OutboxEvents.id r = OutboxEvent.ID e /\ OutboxEvents.state r = "published")).
Proof.
  intros Hc (sent & Hs & Hok)%KafkaPublish_log. split; [eauto|]. split.
  - intros msg w1 y _ [Hdb|Hdb]%MarkFailed_rows; [| |done]; rewrite Hdb;
      (split; [|by destruct (w_db w)]); [apply rows_same|].
    apply rows_marked. intros r Hr. right. exists e. split; [left|]. split; [done|]. left. by eexists.
  - intros w1 y Hx H. destruct (Hok Hx) as (m & -> & Hm).
    assert (Hacc : accepted k1 e) by (exists m; split; [rewrite Hs; apply elem_of_app; right; left|done]).
    apply MarkPublished_rows in H as [(Hdb & err & ->)|(t & Hdb & Hy)]; [| |done]; rewrite Hdb.
    + split; [apply rows_same|]. split; [by destruct (w_db w)|done].
    + split; [|split; [by destruct (w_db w)|]].
      * apply rows_marked. intros r Hr. right. exists e. split; [left|]. split; [done|]. right. by exists t.
      * intros Hy'. split; [done|]. destruct (Hy Hy') as (r & Hr & Hid).
        eexists. split; [apply elem_of_update_where; exists r; split; [done|reflexivity]|].
        by rewrite Hid, Z.eqb_refl.
Qed.

End Dispatching.

(** *** Witnesses *)

#[export] Instance demo_now_text : NowText DemoBroker.t := {| NowString b := (b, "2023-11-14") |}.

Definition demo_params : RecordParams.t :=
  RecordParams.mk "notification.commands.v1" "user:7" "user" (Some "7") "user.registered" 0
    "r1" "r1" "r1" "" None 1 "k1" (Some (JObj [("user_id", JNum 7)])).

Lemma Record_stores_witness :
  exists w', Record (E:=demo_env None) Background demo_params demo_world = (w', Ok tt) /\
  exists row id, w_db w' = with_outbox (fun l => l ++ [row]) empty_db /\
    unmarshal_outbox (PJson (OutboxEvents.payload row)) = Ok (record_envelope id demo_params).
Proof.
  eexists. split; [vm_compute; reflexivity|].
  destruct (Record_stores (E:=demo_env None) Background demo_params demo_world
    (fst (Record (E:=demo_env None) Background demo_params demo_world))
    ltac:(by vm_compute) ltac:(simpl; eauto)
    ltac:(by vm_compute) ltac:(by vm_compute))
    as (row & id & Hdb & _ & _ & _ & _ & Hu).
  exists row, id. by split.
Defined.

Lemma Publish_recorded_witness :
  exists body s', marshal_outbox (record_envelope "id1" demo_params) = Ok body /\
    ob_Publish Background "notification.commands.v1" "user:7" body (DemoBroker.mk [] [] [] 0) = (s', Ok tt) /\
    exists doc, marshal_envelope (sent_envelope "id1" demo_params 0) = Ok doc /\
      DemoBroker.out s' = [envelope_msg "notification.commands.v1" (sent_envelope "id1" demo_params 0) doc].
Proof.
  destruct (marshal_outbox (record_envelope "id1" demo_params)) as [b|] eqn:Em; [|by vm_compute in Em].
  exists b. eexists. split; [done|].
  rewrite (Publish_recorded Background "notification.commands.v1" "user:7" "id1" demo_params b
    (DemoBroker.mk [] [] [] 0) ltac:(by vm_compute) ltac:(by vm_compute) ltac:(simpl; eauto) Em).
  split; [vm_compute; reflexivity|]. eexists. split; vm_compute; reflexivity.
Defined.

Lemma dispatch_never_publishes_witness :
  let w := fst (Record (E:=demo_env None) Background demo_params demo_world) in
  exists s' x, DispatchOnce (RP:=pair_repository (H:=postgres_repository (E:=demo_env None)))
    Background 10 (w, DemoBroker.mk [] [] [] 0) = (s', x) /\
  length (outbox_events (w_db (fst s'))) = 1%nat /\ DemoBroker.out (snd s') = [].
Proof.
  intros w.
  destruct (DispatchOnce (RP:=pair_repository (H:=postgres_repository (E:=demo_env None)))
    Background 10 (w, DemoBroker.mk [] [] [] 0)) as [s' x] eqn:Ed.
  assert (Hr : match outbox_events (w_db w) with r :: _ => OutboxEvents.state r = StatePending | [] => False end)
    by (vm_compute; reflexivity).
  destruct (outbox_events (w_db w)) as [|r l] eqn:Eo; [done|].
  destruct (dispatch_never_publishes (E:=demo_env None) 10 w (DemoBroker.mk [] [] [] 0) s' x r)
    as (_ & Hdb & Hk); [lia|rewrite Eo; left|done|done|].
  exists s', x. split; [done|]. rewrite Hdb, Hk. split; vm_compute; reflexivity.
Defined.

(** The broker of the examples as a client that logs. *)
#[export] Program Instance demo_writer_laws : WriterLaws DemoBroker.t := {| broker_log := DemoBroker.out |}.
Next Obligation.
  intros ms k k' x. simpl. destruct (existsb _ ms); intros; simplify_eq.
  - exists []. by rewrite app_nil_r.
  - by exists ms.
Qed.
Next Obligation. done. Qed.
Next Obligation. done. Qed.

(** The recorded event, read as the dispatcher reads it. *)
Definition demo_event : OutboxEvent.t :=
  match outbox_events (w_db (fst (Record (E:=demo_env None) Background demo_params demo_world))) with
  | r :: _ => match scanOutbox (map (OutboxEvents.column r) outbox_columns) with
              | Ok e => e
              | Err _ => OutboxEvent.mk 0 "" "" "" None "" (PRaw "") None "" 0 None None
              end
  | [] => OutboxEvent.mk 0 "" "" "" None "" (PRaw "") None "" 0 None None
  end.

