(* ===== verification/IdentityAdapters.v ===== *)
(** * Tokens, passwords and the adapters of the identity module

    [internal/platform/auth] and [internal/modules/identity/infra/adapters]: signed
    tokens, password hashes, the session cache and one-time tokens in Redis, the
    access-token blacklist and the event publisher on the outbox. The JWT and
    bcrypt libraries are the classes [JWT] and [Bcrypt]. *)

From Stdlib Require Import ZArith NArith String Ascii Lia.
From stdpp Require Import base strings list gmap.
From S2P Require Import Prelude GoStrings Config Crypto Json Domain Gin RedisClient Idempotency Schema.
From S2P Require Import Database Sql Kafka Outbox.

Local Open Scope Z_scope.

(** ** Signed tokens: [auth/jwt_auth.go] *)

(** [Claims] with the registered claims the program sets. *)
Module Claims.
Record t := mk {
  UserID : Z; Email : string; Role : string; Type_ : string; SessionID : string;
  DeviceID : string; ID : string; ExpiresAt : option Z; IssuedAt : option Z
}.
End Claims.

Definition AccessType : string := "access".
Definition RefreshType : string := "refresh".

(** [jwt_sign secret claims] is [SignedString] with HS256; [jwt_parse secret now
    token] is [ParseWithClaims] with the key function of [parseToken], which
    refuses methods other than HMAC. *)
Class JWT := {
  jwt_sign : string -> Claims.t -> result string;
  jwt_parse : string -> Z -> string -> result Claims.t
}.

(** [NewNumericDate] keeps whole seconds. *)
Definition NewNumericDate (t : Z) : Z := Second * (t / Second).

Definition claims_clean (c : Claims.t) : bool :=
  forallb clean [Claims.Email c; Claims.Role c; Claims.Type_ c; Claims.SessionID c;
    Claims.DeviceID c; Claims.ID c].

(** Documented behaviour: a token is valid until it expires and carries the
    claims it was signed with; an expired token is refused; the claims are part of
    the token and do not depend on the time. *)
Class JwtLaws `{JWT} : Prop := {
  jwt_valid secret c t now : jwt_sign secret c = Ok t -> claims_clean c = true ->
    (forall e, Claims.ExpiresAt c = Some e -> now < e) -> jwt_parse secret now t = Ok c;
  jwt_expiry secret c t now e : jwt_parse secret now t = Ok c -> Claims.ExpiresAt c = Some e -> now < e;
  jwt_claims secret n1 n2 t c1 c2 :
    jwt_parse secret n1 t = Ok c1 -> jwt_parse secret n2 t = Ok c2 -> c1 = c2
}.

(** ** Password hashes *)

(** [bcrypt_hash cost n password]: [GenerateFromPassword] with the [n]-th salt;
    [bcrypt_compare hash password]: [CompareHashAndPassword]. *)
Class Bcrypt := {
  bcrypt_hash : Z -> nat -> string -> result string;
  bcrypt_compare : string -> string -> result unit
}.
Class BcryptLaws `{Bcrypt} : Prop := {
  bcrypt_accepts cost n pw h : bcrypt_hash cost n pw = Ok h -> bcrypt_compare h pw = Ok tt
}.

Section Auth.
Context {E : Env} {R : Type} {JW : JWT} {BC : Bcrypt}.
Context (a : JWTConfig.t).

Definition GenerateAccessToken (userID : Z) (email role sessionID deviceID : string) :
    M (World R) (string * Z) :=
  let! now := nowM in
  let expiresAt := now + JWTConfig.AccessTokenTTL a in
  let! id := NewString in
  let! issued := nowM in
  let raw := Claims.mk userID email role AccessType sessionID deviceID id
               (Some (NewNumericDate expiresAt)) (Some (NewNumericDate issued)) in
  let! tokenString := liftM (jwt_sign (JWTConfig.Secret a) raw) in
  retM (tokenString, expiresAt).

Definition GenerateRefreshToken (userID : Z) (email role deviceID : string) : M (World R) string :=
  let! now := nowM in
  let expiresAt := now + JWTConfig.RefreshTokenTTL a in
  let! id := NewString in
  let! issued := nowM in
  let raw := Claims.mk userID email role RefreshType "" deviceID id
               (Some (NewNumericDate expiresAt)) (Some (NewNumericDate issued)) in
  liftM (jwt_sign (JWTConfig.Secret a) raw).

(** The library reads the clock to check the expiry. *)
Definition parseToken (tokenString : string) : M (World R) Claims.t :=
  let! now := nowM in
  liftM (jwt_parse (JWTConfig.Secret a) now tokenString).

Definition ValidateAccessToken (token : string) : M (World R) Claims.t :=
  let! claims := parseToken token in
  if negb (String.eqb (Claims.Type_ claims) AccessType)
  then throwM (ENew "invalid token type: expected access") else retM claims.

Definition ValidateRefreshToken (token : string) : M (World R) Claims.t :=
  let! claims := parseToken token in
  if negb (String.eqb (Claims.Type_ claims) RefreshType)
  then throwM (ENew "invalid token type: expected refresh") else retM claims.

Definition HashPassword (password : string) : M (World R) string :=
  fun w => (tick_rand w, bcrypt_hash (JWTConfig.BcryptCost a) (w_reads w) password).

Definition VerifyPassword (password hash : string) : result unit := bcrypt_compare hash password.
End Auth.

(** [auth/bcrypt_hasher.go] *)
Record BcryptHasher := mkHasher { cost : Z }.
Definition hasher_Hash {R} {BC : Bcrypt} (h : BcryptHasher) (raw : string) : M (World R) string :=
  fun w => (tick_rand w, bcrypt_hash (cost h) (w_reads w) raw).
Definition hasher_Verify {BC : Bcrypt} (h : BcryptHasher) (raw hash : string) : result unit :=
  bcrypt_compare hash raw.

(** ** Sessions and one-time tokens in Redis: [redis_session_adapter.go] *)

Definition sessionPrefix : string := "identity:refresh_token:".
Definition resetPasswordPrefix : string := "identity:reset_password:".
Definition emailVerifyPrefix : string := "identity:email_verify:".
Definition emailVerifyTTL : Z := 24 * Hour.

(** A [Session] has no JSON tags: its fields under their own names. *)
Definition session_json (s : Session.t) : json :=
  JObj [("ID", JNum (Session.ID s)); ("UserID", JNum (Session.UserID s));
    ("RefreshTokenHash", jstr (Session.RefreshTokenHash s)); ("DeviceID", JNum (Session.DeviceID s));
    ("SessionStatus", jstr (Session.SessionStatus s)); ("ExpiredAt", JTime (Session.ExpiredAt s));
    ("IPAddress", jopt jstr (Session.IPAddress s)); ("UserAgent", jstr (Session.UserAgent s));
    ("LastSeenAt", JTime (Session.LastSeenAt s)); ("RevokedAt", jopt JTime (Session.RevokedAt s));
    ("RevokedReason", jopt jstr (Session.RevokedReason s)); ("CreatedAt", JTime (Session.CreatedAt s));
    ("UpdatedAt", JTime (Session.UpdatedAt s))].

Definition session_times_ok (s : Session.t) : bool :=
  year_ok (Session.ExpiredAt s) && year_ok (Session.LastSeenAt s) &&
  optb year_ok (Session.RevokedAt s) && year_ok (Session.CreatedAt s) && year_ok (Session.UpdatedAt s).

Definition marshal_session (s : Session.t) : result payload :=
  if session_times_ok s then Ok (PJson (session_json s)) else Err ErrMarshalTime.

Definition unmarshal_session (b : payload) : result Session.t :=
  let? j := document b in
  match j with
  | JNull => Ok (Session.mk 0 0 "" 0 "" zero_time None "" zero_time None None zero_time zero_time)
  | JObj f =>
      let? id := get_int64 f "ID" in
      let? user_id := get_int64 f "UserID" in
      let? hash := get_str f "RefreshTokenHash" in
      let? device_id := get_int64 f "DeviceID" in
      let? status := get_str f "SessionStatus" in
      let? expires := get_time f zero_time "ExpiredAt" in
      let? ip := get_str_opt f "IPAddress" in
      let? agent := get_str f "UserAgent" in
      let? last_seen := get_time f zero_time "LastSeenAt" in
      let? revoked := get_time_opt f "RevokedAt" in
      let? reason := get_str_opt f "RevokedReason" in
      let? created := get_time f zero_time "CreatedAt" in
      let? updated := get_time f zero_time "UpdatedAt" in
      Ok (Session.mk id user_id hash device_id status expires ip agent last_seen revoked reason
            created updated)
  | _ => Err ErrUnmarshalType
  end.

(** [strconv.ParseInt] of a stored value; no other JSON text is an integer. *)
Definition parse_stored (v : payload) : result Z :=
  match v with
  | PRaw s => match ParseInt s with (n, None) => Ok n | (_, Some e) => Err e end
  | PJson (JNum n) => if is_int64 n then Ok n else Err ErrRange
  | PJson _ => Err ErrSyntax
  end.

Section RedisSession.
Context {E : Env} {R : Type} {RC : RedisClient R} {RD : Rand}.

Definition IssueVerifyToken (userID : Z) : M (World R) string :=
  let! rawToken := attemptM secureToken in
  match rawToken with
  | Err err => throwM (EWrap "generate verify token: " err "")
  | Ok rawToken =>
      let! x := attemptM (redisM (rdb_Set (emailVerifyPrefix +:+ rawToken) (PRaw (FormatInt userID))
                                    emailVerifyTTL)) in
      match x with
      | Err err => throwM (EWrap "store verify token: " err "")
      | Ok _ => retM rawToken
      end
  end.

(** [GetDel] and the parsing of the user id, with the messages of the caller. *)
Definition take_user (key missing get parse : string) : M (World R) Z :=
  let! x := attemptM (redisM (rdb_GetDel key)) in
  match x with
  | Err err => if Is err ERedisNil then throwM (ENew missing) else throwM (EWrap get err "")
  | Ok v => match parse_stored v with
            | Err err => throwM (EWrap parse err "")
            | Ok userID => retM userID
            end
  end.

Definition ParseVerifyToken (token : string) : M (World R) Z :=
  take_user (emailVerifyPrefix +:+ token) "verification token not found or already used"
    "get verify token: " "parse user id from verify token: ".

Definition ParsePasswordResetToken (rawToken : string) : M (World R) Z :=
  take_user (resetPasswordPrefix +:+ HashToken rawToken) "reset token not found or expired"
    "get reset token: " "parse user id from reset token: ".

Definition StorePasswordResetToken (rawToken : string) (userID ttl : Z) : M (World R) unit :=
  redisM (rdb_Set (resetPasswordPrefix +:+ HashToken rawToken) (PRaw (FormatInt userID)) ttl).

Definition StoreSession (refreshTokenHash : string) (session : Session.t) (ttl : Z) :
    M (World R) unit :=
  match marshal_session session with
  | Err err => throwM (EWrap "marshal session: " err "")
  | Ok b => redisM (rdb_Set (sessionPrefix +:+ refreshTokenHash) b ttl)
  end.

(** [None] is the nil session of a cache miss. *)
Definition GetSession (refreshTokenHash : string) : M (World R) (option Session.t) :=
  let! x := attemptM (redisM (rdb_Get (sessionPrefix +:+ refreshTokenHash))) in
  match x with
  | Err err => if Is err ERedisNil then retM None else throwM (EWrap "get session from cache: " err "")
  | Ok data => match unmarshal_session data with
               | Err err => throwM (EWrap "unmarshal session: " err "")
               | Ok session => retM (Some session)
               end
  end.

Definition DeleteSession (refreshTokenHash : string) : M (World R) unit :=
  do! redisM (rdb_Del [sessionPrefix +:+ refreshTokenHash]) in retM tt.

Definition DeleteSessions (refreshTokenHashes : list string) : M (World R) unit :=
  match refreshTokenHashes with
  | [] => retM tt
  | _ =>
      let! x := attemptM (redisM (rdb_Del (map (fun h => sessionPrefix +:+ h) refreshTokenHashes))) in
      match x with
      | Err err => throwM (EWrap "redis delete sessions failed: " err "")
      | Ok _ => retM tt
      end
  end.

(** [redis_blacklist.go] *)

Definition AddToBlacklist (jti : string) (expiration : Z) : M (World R) unit :=
  redisM (rdb_Set ("blacklist:access_token:" +:+ jti) (PRaw "revoked") expiration).
Definition IsTokenBlacklisted (jti : string) : M (World R) bool :=
  let! n := redisM (rdb_Exists ("blacklist:access_token:" +:+ jti)) in retM (0 <? n).
End RedisSession.

(** ** Events: [outbox_event_publisher.go] *)

Section EventPublisher.
Context {E : Env} {R : Type}.

Definition record_or_wrap (ctx : Ctx) (p : RecordParams.t) : M (World R) unit :=
  let! x := attemptM (Record ctx p) in
  match x with
  | Err err => throwM (EWrap "outbox recorder failed: " err "")
  | Ok _ => retM tt
  end.

(** The parameters the three events share. *)
Definition user_event (ctx : Ctx) (aggID type_ : string) (now : Z) (idem : string) (body : json) :
    RecordParams.t :=
  let request_id := GetRequestIdKey ctx in
  RecordParams.mk TopicNotificationCmds (EventKey AggUser aggID) AggUser (Some aggID) type_ now
    request_id request_id request_id "" None 1 idem (Some body).

Definition PublishUserRegistered (ctx : Ctx) (userID : Z) (email token : string) : M (World R) unit :=
  if String.eqb token "" then throwM (ENew "UserRegistered event: verification token is empty")
  else
    let! now := nowM in
    record_or_wrap ctx (user_event ctx (FormatInt userID) RegisterEvent now (GetIdempotencyKey ctx)
      (JObj [("email", jstr email); ("token", jstr token); ("user_id", JNum userID)])).

Definition PublishResetPasswordCompleted (ctx : Ctx) (userID : Z) (email : string) : M (World R) unit :=
  let! now := nowM in
  record_or_wrap ctx (user_event ctx (FormatInt userID) ResetPasswordCompletedEvent now ""
    (JObj [("email", jstr email); ("user_id", JNum userID)])).

Definition PublishResetPasswordRequested (ctx : Ctx) (userID : Z) (email token : string) :
    M (World R) unit :=
  if String.eqb token "" then throwM (ENew "ResetPasswordRequested event: reset token is empty")
  else
    let! now := nowM in
    record_or_wrap ctx (user_event ctx email ResetPasswordRequestedEvent now (GetIdempotencyKey ctx)
      (JObj [("email", jstr email); ("token", jstr token); ("user_id", JNum userID)])).
End EventPublisher.

(** ** Properties *)

(** *** Tokens *)

Section Tokens.
Context {E : Env} {R : Type} {JW : JWT} {JL : JwtLaws}.
Context (a : JWTConfig.t).

(** The only claims a signed token can be read as. *)
Lemma parse_signed c t now c' :
  jwt_sign (JWTConfig.Secret a) c = Ok t -> claims_clean c = true ->
  jwt_parse (JWTConfig.Secret a) now t = Ok c' -> c' = c.
Proof.
  intros Hs Hc Hp. eapply jwt_claims; [exact Hp|].
  apply (jwt_valid (JWTConfig.Secret a) c t (default 0 (Claims.ExpiresAt c) - 1) Hs Hc).
  intros e He. rewrite He. simpl. lia.
Qed.

(** The token and the claims it was signed with. *)
Lemma GenerateAccessToken_inv userID email role sid did t exp (w w' : World R) :
  GenerateAccessToken a userID email role sid did w = (w', Ok (t, exp)) ->
  exists issued, jwt_sign (JWTConfig.Secret a) (Claims.mk userID email role AccessType sid did
    (env_uuid (w_uuids w)) (Some (NewNumericDate exp)) issued) = Ok t.
Proof.
  unfold GenerateAccessToken, bindM, nowM, NewString, liftM, retM. simpl.
  set (c := Claims.mk _ _ _ _ _ _ _ _ _). destruct (jwt_sign (JWTConfig.Secret a) c) as [tok|] eqn:Es;
    intros; simplify_eq. eauto.
Qed.

(** A token that was signed is accepted until it expires. *)
Lemma ValidateAccessToken_signed c t (v : World R) :
  jwt_sign (JWTConfig.Secret a) c = Ok t -> claims_clean c = true -> Claims.Type_ c = AccessType ->
  (forall e, Claims.ExpiresAt c = Some e -> env_clock (w_ticks v) < e) ->
  ValidateAccessToken a t v = (tick_clock v, Ok c).
Proof.
  intros Hs Hc Ht He. unfold ValidateAccessToken, parseToken, bindM, nowM, liftM. simpl.
  rewrite (jwt_valid _ c t _ Hs Hc He), Ht. reflexivity.
Qed.

(** C37: An access token is what it says. Until its expiry it is accepted with the
    identity, session and device it was issued for; from then on it is refused;
    and it is never accepted as a refresh token. *)
Theorem access_token_roundtrip userID email role sid did t exp (w w' v : World R) :
  clean email = true -> clean role = true -> clean sid = true -> clean did = true ->
  clean (env_uuid (w_uuids w)) = true ->
  GenerateAccessToken a userID email role sid did w = (w', Ok (t, exp)) ->
  (env_clock (w_ticks v) < NewNumericDate exp ->
     exists v' claims, ValidateAccessToken a t v = (v', Ok claims) /\
       Claims.UserID claims = userID /\ Claims.Email claims = email /\ Claims.Role claims = role /\
       Claims.SessionID claims = sid /\ Claims.DeviceID claims = did /\
       Claims.ID claims = env_uuid (w_uuids w)) /\
  (NewNumericDate exp <= env_clock (w_ticks v) -> exists v' e, ValidateAccessToken a t v = (v', Err e)) /\
  (exists v' e, ValidateRefreshToken a t v = (v', Err e)).
Proof.
  intros H1 H2 H3 H4 H5 [issued Es]%GenerateAccessToken_inv. set (c := Claims.mk _ _ _ _ _ _ _ _ _) in Es.
  assert (Hc : claims_clean c = true) by (unfold claims_clean; simpl; by rewrite H1, H2, H3, H4, H5).
  split; [|split].
  - intros Hlt. exists (tick_clock v), c. split; [|done].
    apply ValidateAccessToken_signed; [done|done|done|]. by intros e [= <-].
  - intros Hle. unfold ValidateAccessToken, parseToken, bindM, nowM, liftM. simpl.
    destruct (jwt_parse _ _ t) as [c'|e] eqn:Ep; [|eauto]. assert (c' = c) as -> by (by eapply parse_signed).
    pose proof (jwt_expiry _ c t _ _ Ep eq_refl). lia.
  - unfold ValidateRefreshToken, parseToken, bindM, nowM, liftM, throwM. simpl.
    destruct (jwt_parse _ _ t) as [c'|e] eqn:Ep; [|eauto]. assert (c' = c) as -> by (by eapply parse_signed).
    simpl. eauto.
Qed.
End Tokens.

(** *** The session cache *)

Definition session_clean (s : Session.t) : bool :=
  clean (Session.RefreshTokenHash s) && clean (Session.SessionStatus s) &&
  optb clean (Session.IPAddress s) && clean (Session.UserAgent s) &&
  optb clean (Session.RevokedReason s) && is_int64 (Session.ID s) && is_int64 (Session.UserID s) &&
  is_int64 (Session.DeviceID s).

Lemma unmarshal_marshal_session s b :
  session_clean s = true -> marshal_session s = Ok b -> unmarshal_session b = Ok s.
Proof.
  unfold marshal_session. destruct (session_times_ok s); [|done]. intros Hc [= <-].
  destruct s as [i u h d st ex ip ua ls rv rr cr up]. unfold session_clean in Hc. simpl in Hc.
  repeat (apply andb_true_iff in Hc as [Hc ?]).
  repeat match goal with H : clean _ = true |- _ => apply clean_eq in H end.
  assert (Hip : utf8_clean <$> ip = ip)
    by (destruct ip; simpl in *; [f_equal; by apply clean_eq|done]).
  assert (Hrr : utf8_clean <$> rr = rr)
    by (destruct rr; simpl in *; [f_equal; by apply clean_eq|done]).
  unfold session_json, jstr. simpl.
  repeat match goal with H : utf8_clean ?x = ?x |- _ => rewrite H; clear H end.
  unfold unmarshal_session, get_int64.
  destruct ip as [ip|], rr as [rr|], rv as [rv|]; simpl in Hip, Hrr; simplify_eq;
    cbn -[is_int64 Z.mul utf8_clean];
    repeat match goal with H : is_int64 _ = true |- _ =>
      rewrite H; cbn -[is_int64 Z.mul utf8_clean]; clear H end;
    rewrite ?Hip, ?Hrr; reflexivity.
Qed.

Section Cache.
Context {E : Env} {R : Type} {RC : RedisClient R} {RV : RedisView R} {RL : RedisLaws R} {RD : Rand}.

Lemma redisM_world {A} (m : M R A) (w w' : World R) x :
  redisM m w = (w', x) -> exists r, m (w_redis w) = (r, x) /\ w' = set_rd r w.
Proof.
  unfold redisM, zoomM. simpl. destruct (m (w_redis w)) as [r y]. intros Heq. simplify_eq. eauto.
Qed.

(** The session cache returns what was stored: after a successful
    [StoreSession], [GetSession] of that hash returns an equal session, or reports
    an error of the connection. *)
Theorem session_cache_roundtrip h s ttl (w w1 w2 : World R) x :
  session_clean s = true ->
  StoreSession h s ttl w = (w1, Ok tt) -> GetSession h w1 = (w2, x) ->
  x = Ok (Some s) \/ exists text, x = Err (EWrap "get session from cache: " (EIO text) "").
Proof.
  intros Hc Hs Hg. unfold StoreSession in Hs.
  destruct (marshal_session s) as [b|] eqn:Em; [|done].
  apply redisM_world in Hs as (r & Hr & ->). apply rdb_Set_ok in Hr.
  unfold GetSession, bindM, attemptM in Hg.
  destruct (redisM _ (set_rd r w)) as [w3 [v|e]] eqn:Eg; apply redisM_world in Eg as (r' & Eg & ->).
  - apply rdb_Get_ok in Eg as [_ [t Hl]]. simpl in Hl. rewrite Hr, lookup_insert_eq in Hl.
    injection Hl as <- _. rewrite (unmarshal_marshal_session s _ Hc Em) in Hg. unfold retM in Hg. simplify_eq.
    by left.
  - apply rdb_Get_err in Eg as [[-> Hl]|[text ->]].
    + simpl in Hl. by rewrite Hr, lookup_insert_eq in Hl.
    + unfold throwM in Hg. simpl in Hg. simplify_eq. right. eauto.
Qed.

(** *** One-time tokens *)

Lemma take_user_ok key m1 m2 m3 (w w' : World R) uid :
  take_user key m1 m2 m3 w = (w', Ok uid) ->
  (exists v t, rd_abs (w_redis w) !! key = Some (v, t) /\ parse_stored v = Ok uid) /\
  exists r, w' = set_rd r w /\ rd_abs r = delete key (rd_abs (w_redis w)).
Proof.
  unfold take_user, bindM, attemptM. destruct (redisM _ w) as [w1 [v|e]] eqn:Eg;
    apply redisM_world in Eg as (r & Eg & ->).
  - apply rdb_GetDel_ok in Eg as [Hr [t Hl]]. destruct (parse_stored v) as [n|] eqn:Ep; unfold retM, throwM;
      intros; simplify_eq. split; eauto.
  - destruct (Is e ERedisNil); done.
Qed.

(** A token that was taken cannot be taken again. *)
Lemma take_user_missing key m1 m2 m3 (w w' : World R) x :
  rd_abs (w_redis w) !! key = None -> take_user key m1 m2 m3 w = (w', x) ->
  (exists e, x = Err e) /\ w_db w' = w_db w /\ rd_abs (w_redis w') !! key = None.
Proof.
  intros Hk. unfold take_user, bindM, attemptM. destruct (redisM _ w) as [w1 [v|e]] eqn:Eg;
    apply redisM_world in Eg as (r & Eg & ->).
  - by apply rdb_GetDel_missing in Eg.
  - assert (Ha : rd_abs r !! key = None).
    { unfold rdb_GetDel in Eg. apply do_then in Eg as [(rep & Hs & _)|(e' & _ & _ & [->| ->])]; simpl in *.
      - injection Hs as <- _. apply lookup_delete_eq.
      - done.
      - apply lookup_delete_eq. }
    destruct (Is e ERedisNil); unfold throwM; intros; simplify_eq; eauto.
Qed.
End Cache.

(** ** Instances to run the examples with

    A token is the secret followed by the fields of its claims, refused when it has
    expired; claims that would be misread are not signed; a password hash is the
    password with a prefix; the first 256 random reads differ in one byte. *)

#[global] Instance claims_eq_dec : EqDecision Claims.t.
Proof. solve_decision. Defined.

Module IdentityDemo.

Definition sep : ascii := byte 31.

(** Fields ended by the separator. *)
Fixpoint write_fields (l : list string) : list ascii :=
  match l with
  | [] => []
  | f :: l => bytes_of f ++ sep :: write_fields l
  end.
Fixpoint read_fields (acc l : list ascii) : list string :=
  match l with
  | [] => []
  | c :: l => if Ascii.eqb c sep then string_of (rev acc) :: read_fields [] l
              else read_fields (c :: acc) l
  end.

Definition write_opt (o : option Z) : string := match o with Some n => FormatInt n | None => "" end.
Definition read_opt (f : string) : option Z := if str_empty f then None else Some (fst (ParseInt f)).

Definition fields_of (c : Claims.t) : list string :=
  [FormatInt (Claims.UserID c); Claims.Email c; Claims.Role c; Claims.Type_ c; Claims.SessionID c;
   Claims.DeviceID c; Claims.ID c; write_opt (Claims.ExpiresAt c); write_opt (Claims.IssuedAt c)].

Definition read_token (l : list ascii) : option Claims.t :=
  match read_fields [] l with
  | [u; e; r; ty; sid; d; i; ex; ia] =>
      Some (Claims.mk (fst (ParseInt u)) e r ty sid d i (read_opt ex) (read_opt ia))
  | _ => None
  end.

(** The claims that are read back from their token. *)
Definition signable (c : Claims.t) : bool := bool_decide (read_token (write_fields (fields_of c)) = Some c).

#[export] Instance demo_jwt : JWT := {|
  jwt_sign secret c :=
    if signable c then Ok (secret +:+ string_of (write_fields (fields_of c)))
    else Err (ENew "json: unsupported value");
  jwt_parse secret now t :=
    match strip_prefix (bytes_of secret) (bytes_of t) with
    | None => Err (ENew "token signature is invalid")
    | Some r =>
        match read_token r with
        | None => Err (ENew "token is malformed")
        | Some c =>
            match Claims.ExpiresAt c with
            | Some e => if now <? e then Ok c else Err (ENew "token is expired")
            | None => Ok c
            end
        end
    end
|}.

#[export] Instance demo_jwt_laws : JwtLaws.
Proof.
  split; cbn [jwt_sign jwt_parse demo_jwt].
  - intros secret c t now Hs _ Hn. destruct (signable c) eqn:Es; [|done].
    assert (t = secret +:+ string_of (write_fields (fields_of c))) as -> by congruence.
    assert (Hp : strip_prefix (bytes_of secret)
      (bytes_of (secret +:+ string_of (write_fields (fields_of c)))) = Some (write_fields (fields_of c))).
    { apply strip_prefix_spec. by rewrite bytes_of_app, bytes_of_string_of. }
    rewrite Hp.
    apply bool_decide_eq_true in Es. rewrite Es.
    destruct (Claims.ExpiresAt c) as [e|]; [|done]. by rewrite (proj2 (Z.ltb_lt now e) (Hn e eq_refl)).
  - intros secret c t now e. destruct (strip_prefix _ _); [|done]. destruct (read_token _); [|done].
    destruct (Claims.ExpiresAt _) eqn:Ee; [|intros; by simplify_eq].
    destruct (Z.ltb_spec now z); intros; simplify_eq. lia.
  - intros secret n1 n2 t c1 c2. destruct (strip_prefix _ _); [|done].
    destruct (read_token _) as [c|]; [|done]. destruct (Claims.ExpiresAt c) as [e|]; [|by intros; simplify_eq].
    destruct (n1 <? e), (n2 <? e); intros; by simplify_eq.
Qed.

Definition ErrMismatched : error := ENew "crypto/bcrypt: hashedPassword is not the hash of the given password".
#[export] Instance demo_bcrypt : Bcrypt := {|
  bcrypt_hash _ _ pw := Ok ("bcrypt$" +:+ pw);
  bcrypt_compare h pw := if String.eqb h ("bcrypt$" +:+ pw) then Ok tt else Err ErrMismatched
|}.
#[export] Instance demo_bcrypt_laws : BcryptLaws.
Proof. split. simpl. intros _ _ pw h [= <-]. by rewrite String.eqb_refl. Qed.

#[export] Instance demo_rand : Rand := {|
  rand_Read n := if (n <? 256)%nat then Ok (N.of_nat n :: repeat 0%N 31) else Err (EIO "entropy")
|}.
#[export] Instance demo_rand_laws : RandLaws.
Proof.
  split.
  - intros n l. simpl. destruct (Nat.ltb_spec n 256); [|done]. intros [= <-]. split; [done|].
    constructor; [lia|]. by repeat constructor.
  - intros n m l. simpl. destruct (n <? 256)%nat, (m <? 256)%nat; try done. intros [= <-] [= Heq]. lia.
Qed.

#[export] Instance demo_mail : MailParser := {| ParseAddress s := existsb (Ascii.eqb "@") (bytes_of s) |}.
#[export] Instance demo_unicode : Unicode := ascii_unicode.
#[export] Instance demo_environment : Env := demo_env None.

Definition demo_jwt_config : JWTConfig.t := JWTConfig.mk "k" (24 * Hour) (30 * 24 * Hour) "bookstore" 12.

Definition demo_access : World Script.t * result (string * Z) :=
  GenerateAccessToken demo_jwt_config 7 "a@b.c" "customer" "3" "5" demo_world.
Definition demo_token : string * Z := match snd demo_access with Ok x => x | Err _ => ("", 0) end.

Lemma access_token_roundtrip_witness :
  exists v' claims, ValidateAccessToken demo_jwt_config demo_token.1 demo_world = (v', Ok claims) /\
    Claims.UserID claims = 7 /\ Claims.SessionID claims = "3".
Proof.
  assert (Eg : GenerateAccessToken demo_jwt_config 7 "a@b.c" "customer" "3" "5" demo_world =
    (fst demo_access, Ok (demo_token.1, demo_token.2))) by (vm_compute; reflexivity).
  assert (He : env_clock (w_ticks demo_world) < NewNumericDate demo_token.2) by (vm_compute; reflexivity).
  destruct (proj1 (access_token_roundtrip (E:=demo_environment) demo_jwt_config 7 "a@b.c" "customer" "3" "5" demo_token.1
    demo_token.2 demo_world (fst demo_access) demo_world ltac:(by vm_compute)
    ltac:(by vm_compute) ltac:(by vm_compute) ltac:(by vm_compute) ltac:(by vm_compute) Eg) He) as (v' & claims & Hv & Hu & _ & _ & Hs & _).
  exists v', claims. exact (conj Hv (conj Hu Hs)).
Defined.

Definition demo_session : Session.t :=
  Session.mk 1 7 "h1" 5 "active" (30 * Hour) (Some "10.0.0.1") "curl" 0 None None 0 0.

Lemma session_cache_roundtrip_witness :
  let w1 := fst (StoreSession "h1" demo_session Hour demo_world) in
  snd (GetSession "h1" w1) = Ok (Some demo_session) \/
  exists text, snd (GetSession "h1" w1) = Err (EWrap "get session from cache: " (EIO text) "").
Proof.
  intros w1. apply (session_cache_roundtrip "h1" demo_session Hour demo_world w1 (fst (GetSession "h1" w1)));
    [vm_compute; reflexivity|vm_compute; reflexivity|]. by destruct (GetSession "h1" w1).
Defined.
End IdentityDemo.
