(* ===== verification/IdentityRepos.v ===== *)
(** * The identity repositories

    [internal/modules/identity/infra/postgres]: row structs (rows.go), scanning
    (scan.go), mapping to entities and views (mapper.go), error tests (errors.go)
    and the repositories. A SQL constant of the source is a statement of the same
    name: the selected columns are listed as in the text and read by position in
    [Scan], as the driver does (see Sql). *)

From Stdlib Require Import ZArith NArith String Ascii Lia.
From stdpp Require Import base strings list gmap.
From S2P Require Import Prelude GoStrings Crypto Json Domain Gin RedisClient Idempotency Schema.
From S2P Require Import Database Sql.

Local Open Scope Z_scope.

(** ** Errors: [errors.go] *)

Definition isNoRows (err : error) : bool := Is err ErrNoRows.

(** [errors.As(err, &pgErr)]: the first [*pgconn.PgError] of the chain. *)
Fixpoint as_pg (err : error) : option string :=
  match err with
  | EPg code _ => Some code
  | EWrap _ inner _ => as_pg inner
  | _ => None
  end.

Definition isUniqueViolation (err : error) : bool :=
  match as_pg err with Some code => String.eqb code "23505" | None => false end.

(** ** Row structs: [rows.go] *)

Module userRow.
Record t := mk {
  ID : Z; Email : string; FullName : string; Phone : option string; UserType : string;
  Status : string; EmailVerifiedAt : option Z; LastLoginAt : option Z;
  LockedReason : option string; Metadata : metadata; Version : Z; CreatedAt : Z; UpdatedAt : Z
}.
End userRow.

Module sessionRow.
Record t := mk {
  ID : Z; UserID : Z; DeviceID : Z; RefreshTokenHash : string; SessionStatus : string;
  ExpiredAt : Z; IPAddress : option string; UserAgent : string; LastSeenAt : Z;
  RevokedAt : option Z; RevokedReason : option string; CreatedAt : Z; UpdatedAt : Z
}.
End sessionRow.

Module deviceRow.
Record t := mk {
  ID : Z; UserID : Z; Fingerprint : string; Label : string; FirstSeenAt : Z; LastSeenAt : Z;
  RevokedAt : option Z; RevokedReason : option string; Metadata : metadata;
  CreatedAt : Z; UpdatedAt : Z
}.
End deviceRow.

Module addressRow.
Record t := mk {
  ID : Z; UserID : Z; RecipientName : string; RecipientPhone : string; Line1 : string;
  Line2 : string; Province : string; District : string; Ward : string; PostalCode : string;
  CountryCode : string; IsDefault : bool; Version : Z; CreatedAt : Z; UpdatedAt : Z
}.
End addressRow.

Module credentialRow.
Record t := mk {
  UserID : Z; PasswordHash : string; PasswordAlgo : string; PasswordChangedAt : Z;
  FailedLoginCount : Z; LastFailedLoginAt : option Z
}.
End credentialRow.

(** ** Scanning: [scan.go] *)

Definition scanUser : list sqlval -> result userRow.t :=
  next d_int (fun id => next d_text (fun email => next d_text (fun full_name =>
  next (d_ptr d_text) (fun phone => next d_text (fun user_type => next d_text (fun status =>
  next (d_ptr d_time) (fun verified => next (d_ptr d_time) (fun last_login =>
  next (d_ptr d_text) (fun reason => next d_map (fun meta => next d_int (fun version =>
  next d_time (fun created => next d_time (fun updated =>
  finish (userRow.mk id email full_name phone user_type status verified last_login reason meta
            version created updated)))))))))))))).

Definition scanSession : list sqlval -> result sessionRow.t :=
  next d_int (fun id => next d_int (fun user_id => next d_int (fun device_id =>
  next d_text (fun hash => next d_text (fun status => next d_time (fun expires =>
  next (d_ptr d_text) (fun ip => next d_text (fun agent => next d_time (fun last_seen =>
  next (d_ptr d_time) (fun revoked => next (d_ptr d_text) (fun reason =>
  next d_time (fun created => next d_time (fun updated =>
  finish (sessionRow.mk id user_id device_id hash status expires ip agent last_seen revoked reason
            created updated)))))))))))))).

Definition scanDevice : list sqlval -> result deviceRow.t :=
  next d_int (fun id => next d_int (fun user_id => next d_text (fun fingerprint =>
  next d_text (fun label => next d_time (fun first_seen => next d_time (fun last_seen =>
  next (d_ptr d_time) (fun revoked => next (d_ptr d_text) (fun reason => next d_map (fun meta =>
  next d_time (fun created => next d_time (fun updated =>
  finish (deviceRow.mk id user_id fingerprint label first_seen last_seen revoked reason meta
            created updated)))))))))))).

Definition scanAddress : list sqlval -> result addressRow.t :=
  next d_int (fun id => next d_int (fun user_id => next d_text (fun name => next d_text (fun phone =>
  next d_text (fun line1 => next d_text (fun line2 => next d_text (fun province =>
  next d_text (fun district => next d_text (fun ward => next d_text (fun postal =>
  next d_text (fun country => next d_bool (fun is_default => next d_int (fun version =>
  next d_time (fun created => next d_time (fun updated =>
  finish (addressRow.mk id user_id name phone line1 line2 province district ward postal country
            is_default version created updated)))))))))))))))).

Definition scanCredential : list sqlval -> result credentialRow.t :=
  next d_int (fun user_id => next d_text (fun hash => next d_text (fun algo =>
  next d_time (fun changed => next d_int (fun failed => next (d_ptr d_time) (fun last_failed =>
  finish (credentialRow.mk user_id hash algo changed failed last_failed))))))).

(** ** Mapping: [mapper.go] *)

Definition mapUserRowToEntity `{Unicode} `{MailParser} (r : userRow.t) : result User.t :=
  match NewEmail (userRow.Email r) with
  | Err e => Err (EWrap ("invalid email in users row id=" +:+ FormatInt (userRow.ID r) +:+ ": ") e "")
  | Ok email =>
      Ok (User.mk (userRow.ID r) email (userRow.FullName r) (userRow.Phone r) (userRow.UserType r)
            (userRow.Status r) (userRow.EmailVerifiedAt r) None None None 0
            (userRow.CreatedAt r) (userRow.UpdatedAt r))
  end.

Definition mapCredentialRowToEntity (r : credentialRow.t) : Credential.t :=
  Credential.mk (credentialRow.UserID r) (credentialRow.PasswordHash r)
    (credentialRow.PasswordAlgo r) (credentialRow.PasswordChangedAt r)
    (credentialRow.FailedLoginCount r) (credentialRow.LastFailedLoginAt r).

Definition mapSessionRowToEntity (r : sessionRow.t) : Session.t :=
  Session.mk (sessionRow.ID r) (sessionRow.UserID r) (sessionRow.RefreshTokenHash r)
    (sessionRow.DeviceID r) (sessionRow.SessionStatus r) (sessionRow.ExpiredAt r)
    (sessionRow.IPAddress r) (sessionRow.UserAgent r) (sessionRow.LastSeenAt r)
    (sessionRow.RevokedAt r) (sessionRow.RevokedReason r) (sessionRow.CreatedAt r)
    (sessionRow.UpdatedAt r).

Definition mapAddressRowToEntity (r : addressRow.t) : Address.t :=
  Address.mk (addressRow.ID r) (addressRow.UserID r) (addressRow.RecipientName r)
    (addressRow.RecipientPhone r) (addressRow.Line1 r) (addressRow.Line2 r) (addressRow.Province r)
    (addressRow.District r) (addressRow.Ward r) (addressRow.PostalCode r)
    (addressRow.CountryCode r) (addressRow.IsDefault r) (addressRow.Version r)
    (addressRow.CreatedAt r) (addressRow.UpdatedAt r).

Definition mapDeviceRowToEntity (r : deviceRow.t) : Device.t :=
  Device.mk (deviceRow.ID r) (deviceRow.UserID r) (deviceRow.Fingerprint r) (deviceRow.Label r)
    (deviceRow.FirstSeenAt r) (deviceRow.LastSeenAt r) (deviceRow.RevokedAt r)
    (deviceRow.RevokedReason r) (deviceRow.Metadata r) (deviceRow.CreatedAt r)
    (deviceRow.UpdatedAt r).

(** Views: [app/query/model.go] *)

Record MeView := mkMeView {
  me_UserID : Z; me_Email : string; me_FullName : string; me_Status : string;
  me_EmailVerifiedAt : option Z; me_CreatedAt : Z
}.
Record SessionView := mkSessionView {
  sv_ID : Z; sv_DeviceID : Z; sv_IPAddress : option string; sv_UserAgent : string;
  sv_ExpiredAt : Z; sv_RevokedAt : option Z; sv_CreatedAt : Z
}.
Record DeviceView := mkDeviceView {
  dv_ID : Z; dv_Fingerprint : string; dv_Label : string; dv_FirstSeenAt : Z; dv_LastSeenAt : Z;
  dv_RevokedAt : option Z
}.
Record AddressView := mkAddressView {
  av_ID : Z; av_RecipientName : string; av_RecipientPhone : string; av_Province : string;
  av_District : string; av_Ward : string; av_Line1 : string; av_Line2 : string;
  av_IsDefault : bool
}.

Definition mapUserRowToMeView (r : userRow.t) : MeView :=
  mkMeView (userRow.ID r) (userRow.Email r) (userRow.FullName r) (userRow.Status r)
    (userRow.EmailVerifiedAt r) (userRow.CreatedAt r).
Definition mapSessionRowToView (r : sessionRow.t) : SessionView :=
  mkSessionView (sessionRow.ID r) (sessionRow.DeviceID r) (sessionRow.IPAddress r)
    (sessionRow.UserAgent r) (sessionRow.ExpiredAt r) (sessionRow.RevokedAt r)
    (sessionRow.CreatedAt r).
Definition mapDeviceRowToView (r : deviceRow.t) : DeviceView :=
  mkDeviceView (deviceRow.ID r) (deviceRow.Fingerprint r) (deviceRow.Label r)
    (deviceRow.FirstSeenAt r) (deviceRow.LastSeenAt r) (deviceRow.RevokedAt r).
Definition mapAddressRowToView (r : addressRow.t) : AddressView :=
  mkAddressView (addressRow.ID r) (addressRow.RecipientName r) (addressRow.RecipientPhone r)
    (addressRow.Province r) (addressRow.District r) (addressRow.Ward r) (addressRow.Line1 r)
    (addressRow.Line2 r) (addressRow.IsDefault r).

Section Rows.
Context {E : Env} {R : Type}.

(** The pattern [if isNoRows(err) { return notFound }]. *)
Definition or_not_found {A} (notFound : error) (m : M (World R) A) : M (World R) A :=
  let! x := attemptM m in
  match x with
  | Ok a => retM a
  | Err e => if isNoRows e then throwM notFound else throwM e
  end.
End Rows.

(** ** Users: [user_repo.go] *)

Definition user_columns : list string :=
  ["id"; "email"; "full_name"; "phone"; "user_type"; "account_status"; "email_verified_at";
   "last_login_at"; "locked_reason"; "metadata"; "version"; "created_at"; "updated_at"].

Module UserRepository.

Definition queryGetUserByID (id : Z) : stmt rowset :=
  select (fun db => pick Users.column user_columns (where_ (fun u => Users.id u =? id) (users db))).
Definition queryGetUserByEmail (email : string) : stmt rowset :=
  select (fun db => pick Users.column user_columns
                      (where_ (fun u => String.eqb (Users.email u) email) (users db))).
Definition queryCheckExistEmail (email : string) : stmt rowset :=
  select (fun db => [[VBool (existsb (fun u => String.eqb (Users.email u) email) (users db))]]).

Definition queryInsertUser (email full_name : string) (phone : option string)
    (user_type account_status : string) (email_verified_at : option Z) (metadata : option json)
    (version : Z) : stmt rowset :=
  dml (fun now db sq =>
    let id := users_seq sq in
    (mkSeqs (id + 1) (devices_seq sq) (sessions_seq sq) (addresses_seq sq) (outbox_seq sq),
     with_users (fun l => l ++ [Users.mk id email full_name phone user_type account_status
       (pg_time <$> email_verified_at) None None metadata version (pg_time now) (pg_time now)]) db,
     [[VInt id]])).

(** The trigger [update_updated_at_column] sets [updated_at] on every update. *)
Definition set_status (status : string) (verified : option Z) (now : Z) (u : Users.row) : Users.row :=
  Users.mk (Users.id u) (Users.email u) (Users.full_name u) (Users.phone u) (Users.user_type u)
    status verified (Users.last_login_at u) (Users.locked_reason u) (Users.metadata u)
    (Users.version u + 1) (Users.created_at u) (pg_time now).

Definition queryUpdateStatus (status : string) (id : Z) : stmt Z :=
  dml (fun now db sq =>
    let p u := Users.id u =? id in
    (sq, with_users (update_where p (fun u => set_status status (Users.email_verified_at u) now u)) db,
     affected p (users db))).

Definition queryMarkEmailVerified (verifiedAt id : Z) : stmt Z :=
  dml (fun now db sq =>
    let p u := (Users.id u =? id) && match Users.email_verified_at u with None => true | _ => false end in
    (sq, with_users (update_where p (set_status "active" (Some (pg_time verifiedAt)) now)) db,
     affected p (users db))).

Section Repo.
Context {E : Env} {R : Type} {U : Unicode} {MP : MailParser}.

Definition GetByID (ctx : Ctx) (id : Z) : M (World R) User.t :=
  let! user := or_not_found ErrUserNotFound (QueryRow ctx (queryGetUserByID id) scanUser) in
  liftM (mapUserRowToEntity user).

Definition GetByEmail (ctx : Ctx) (email : Email.t) : M (World R) User.t :=
  let! user := or_not_found ErrUserNotFound
                 (QueryRow ctx (queryGetUserByEmail (Email.value email)) scanUser) in
  liftM (mapUserRowToEntity user).

Definition ExistsByEmail (ctx : Ctx) (email : Email.t) : M (World R) bool :=
  QueryRow ctx (queryCheckExistEmail (Email.value email)) (next d_bool finish).

(** Returns the user with the identifier the database assigned. *)
Definition Insert (ctx : Ctx) (user : User.t) : M (World R) User.t :=
  let! id := attemptM (QueryRow ctx (queryInsertUser (Email.value (User.Email user))
      (User.FullName user) (User.Phone user) (User.UserType user) (User.Status user)
      (User.EmailVerifiedAt user) (User.Metadata user) (User.Version user)) (next d_int finish)) in
  match id with
  | Err e => if isUniqueViolation e then throwM ErrEmailAlreadyExist else throwM e
  | Ok id => retM (User.mk id (User.Email user) (User.FullName user) (User.Phone user)
      (User.UserType user) (User.Status user) (User.EmailVerifiedAt user) (User.LastLoginAt user)
      (User.LockedReason user) (User.Metadata user) (User.Version user) (User.CreatedAt user)
      (User.UpdatedAt user))
  end.

Definition UpdateStatus (ctx : Ctx) (id : Z) (status : UserStatus) : M (World R) unit :=
  let! tag := Exec ctx (queryUpdateStatus status id) in
  if tag =? 0 then throwM ErrUserNotFound else retM tt.

Definition MarkEmailVerified (ctx : Ctx) (id verifiedAt : Z) : M (World R) unit :=
  let! tag := Exec ctx (queryMarkEmailVerified verifiedAt id) in
  if tag =? 0 then throwM ErrUserNotFound else retM tt.
End Repo.
End UserRepository.

(** ** Credentials: [credential_repo.go] *)

Module CredentialRepository.

Definition queryCredentialGetByUserID (userID : Z) : stmt rowset :=
  select (fun db => pick Credentials.column
    ["user_id"; "password_hash"; "password_algo"; "password_changed_at"; "failed_login_count";
     "last_failed_login_at"]
    (where_ (fun c => Credentials.user_id c =? userID) (user_credentials db))).

Definition queryInsert (userID : Z) (hash algo : string) (changedAt failed : Z)
    (lastFailed : option Z) : stmt Z :=
  dml (fun _ db sq =>
    (sq, with_credentials (fun l => l ++ [Credentials.mk userID hash algo (pg_time changedAt) failed
                                            (pg_time <$> lastFailed)]) db, 1)).

Definition queryUpdatePasswordHash (userID : Z) (hash : string) (changedAt : Z) : stmt Z :=
  dml (fun _ db sq =>
    let p c := Credentials.user_id c =? userID in
    let f c := Credentials.mk (Credentials.user_id c) hash (Credentials.password_algo c)
                 (pg_time changedAt) (Credentials.failed_login_count c)
                 (Credentials.last_failed_login_at c) in
    (sq, with_credentials (update_where p f) db, affected p (user_credentials db))).

Section Repo.
Context {E : Env} {R : Type}.

Definition GetByUserID (ctx : Ctx) (userID : Z) : M (World R) Credential.t :=
  let! row := or_not_found ErrCredentialNotFound
                (QueryRow ctx (queryCredentialGetByUserID userID) scanCredential) in
  retM (mapCredentialRowToEntity row).

Definition Insert (ctx : Ctx) (cred : Credential.t) : M (World R) unit :=
  do! Exec ctx (queryInsert (Credential.UserID cred) (Credential.PasswordHash cred)
        (Credential.PasswordAlgo cred) (Credential.PasswordChangedAt cred)
        (Credential.FailedLoginCount cred) (Credential.LastFailedLoginAt cred)) in
  retM tt.

Definition UpdatePasswordHash (ctx : Ctx) (userID : Z) (hash : string) (changedAt : Z) :
    M (World R) unit :=
  let! tag := Exec ctx (queryUpdatePasswordHash userID hash changedAt) in
  if tag =? 0 then throwM ErrCredentialNotFound else retM tt.
End Repo.
End CredentialRepository.

(** ** Sessions: [session_repo.go] *)

Definition session_columns : list string :=
  ["id"; "user_id"; "device_id"; "refresh_token_hash"; "session_status"; "expires_at";
   "ip_address"; "user_agent"; "last_seen_at"; "revoked_at"; "revoked_reason"; "created_at";
   "updated_at"].

Module SessionRepository.

Definition revoked_null (s : Sessions.row) : bool :=
  match Sessions.revoked_at s with None => true | Some _ => false end.

(** The row an [INSERT] of the eight columns creates. *)
Definition new_row (id userID deviceID : Z) (hash status : string) (expires : Z)
    (ip : option string) (agent : string) (lastSeen now : Z) : Sessions.row :=
  Sessions.mk id userID deviceID hash status (pg_time expires) ip (Some agent) (pg_time lastSeen)
    None None (pg_time now) (pg_time now).

(** An update of a row, with the trigger's [updated_at]. *)
Definition set_row (hash status : string) (expires : Z) (ip agent : option string)
    (lastSeen : Z) (revoked : option Z) (now : Z) (s : Sessions.row) : Sessions.row :=
  Sessions.mk (Sessions.id s) (Sessions.user_id s) (Sessions.device_id s) hash status expires ip
    agent lastSeen revoked (Sessions.revoked_reason s) (Sessions.created_at s) (pg_time now).

Definition next_seq (sq : Seqs) : Seqs :=
  mkSeqs (users_seq sq) (devices_seq sq) (sessions_seq sq + 1) (addresses_seq sq) (outbox_seq sq).

Definition returning (s : Sessions.row) : rowset :=
  pick Sessions.column ["id"; "created_at"; "updated_at"] [s].

Definition queryInsertSession (userID deviceID : Z) (hash status : string) (expires : Z)
    (ip : option string) (agent : string) (lastSeen : Z) : stmt rowset :=
  dml (fun now db sq =>
    let s := new_row (sessions_seq sq) userID deviceID hash status expires ip agent lastSeen now in
    (next_seq sq, with_sessions (fun l => l ++ [s]) db, returning s)).

Definition queryGetByRefreshTokenHash (hash : string) : stmt rowset :=
  select (fun db => pick Sessions.column session_columns
    (where_ (fun s => String.eqb (Sessions.refresh_token_hash s) hash) (user_sessions db))).

Definition queryListActiveByUserID (userID now : Z) : stmt rowset :=
  select (fun db => pick Sessions.column session_columns
    (order_by (desc Sessions.created_at)
      (where_ (fun s => (Sessions.user_id s =? userID) && revoked_null s &&
                        (pg_time now <? Sessions.expires_at s)) (user_sessions db)))).

(** The assignments [revoked_at = at, session_status = status]. *)
Definition revoke_row (at_ : Z) (status : string) (now : Z) (s : Sessions.row) : Sessions.row :=
  set_row (Sessions.refresh_token_hash s) status (Sessions.expires_at s) (Sessions.ip_address s)
    (Sessions.user_agent s) (Sessions.last_seen_at s) (Some at_) now s.

Definition queryRevokeSession (deviceID revokedAt userID : Z) : stmt Z :=
  dml (fun now db sq =>
    let p s := (Sessions.user_id s =? userID) && (Sessions.device_id s =? deviceID) &&
               revoked_null s && String.eqb (Sessions.session_status s) "active" in
    (sq, with_sessions (update_where p (revoke_row (pg_time revokedAt) "revoked" now)) db,
     affected p (user_sessions db))).

(** [COALESCE(revoked_at, $2)]; the status is left as it is. *)
Definition queryRevokeAllByUserID (userID revokedAt at_ : Z) : stmt Z :=
  dml (fun now db sq =>
    let p s := (Sessions.user_id s =? userID) && revoked_null s &&
               (pg_time at_ <? Sessions.expires_at s) in
    let f s := revoke_row (default (pg_time revokedAt) (Sessions.revoked_at s))
                 (Sessions.session_status s) now s in
    (sq, with_sessions (update_where p f) db, affected p (user_sessions db))).

Definition queryUpdateSession (id : Z) (hash : string) (expires lastSeen : Z) : stmt Z :=
  dml (fun now db sq =>
    let p s := Sessions.id s =? id in
    let f s := set_row hash (Sessions.session_status s) (pg_time expires) (Sessions.ip_address s)
                 (Sessions.user_agent s) (pg_time lastSeen) (Sessions.revoked_at s) now s in
    (sq, with_sessions (update_where p f) db, affected p (user_sessions db))).

Definition queryGetByDeviceID (userID deviceID : Z) : stmt rowset :=
  select (fun db => pick Sessions.column
    ["id"; "user_id"; "device_id"; "refresh_token_hash"; "session_status"; "expires_at";
     "ip_address"; "user_agent"; "last_seen_at"]
    (where_ (fun s => (Sessions.user_id s =? userID) && (Sessions.device_id s =? deviceID) &&
                      revoked_null s) (user_sessions db))).

(** [ON CONFLICT (user_id, device_id) DO UPDATE]; the sequence advances anyway. *)
Definition queryUpsertSession (userID deviceID : Z) (hash status : string) (expires : Z)
    (ip : option string) (agent : string) (lastSeen : Z) : stmt rowset :=
  dml (fun now db sq =>
    let p s := (Sessions.user_id s =? userID) && (Sessions.device_id s =? deviceID) in
    let f := set_row hash status (pg_time expires) ip (Some agent) (pg_time lastSeen) None now in
    match where_ p (user_sessions db) with
    | old :: _ => (next_seq sq, with_sessions (update_where p f) db, returning (f old))
    | [] =>
        let s := new_row (sessions_seq sq) userID deviceID hash status expires ip agent lastSeen now in
        (next_seq sq, with_sessions (fun l => l ++ [s]) db, returning s)
    end).

Definition queryRevokeAllExcept (userID exceptID revokedAt : Z) : stmt Z :=
  dml (fun now db sq =>
    let p s := (Sessions.user_id s =? userID) && negb (Sessions.id s =? exceptID) &&
               revoked_null s && String.eqb (Sessions.session_status s) "active" in
    (sq, with_sessions (update_where p (revoke_row (pg_time revokedAt) "revoked" now)) db,
     affected p (user_sessions db))).

(** The nine destinations of [GetByDeviceID]; the other fields stay zero. *)
Definition scan_device_session : list sqlval -> result sessionRow.t :=
  next d_int (fun id => next d_int (fun user_id => next d_int (fun device_id =>
  next d_text (fun hash => next d_text (fun status => next d_time (fun expires =>
  next (d_ptr d_text) (fun ip => next d_text (fun agent => next d_time (fun last_seen =>
  finish (sessionRow.mk id user_id device_id hash status expires ip agent last_seen None None
            zero_time zero_time)))))))))).

(** The destinations [&session.ID, &session.CreatedAt, &session.UpdatedAt]. *)
Definition scan_stored (s : Session.t) : list sqlval -> result Session.t :=
  next d_int (fun id => next d_time (fun created => next d_time (fun updated =>
  finish (Session.mk id (Session.UserID s) (Session.RefreshTokenHash s) (Session.DeviceID s)
    (Session.SessionStatus s) (Session.ExpiredAt s) (Session.IPAddress s) (Session.UserAgent s)
    (Session.LastSeenAt s) (Session.RevokedAt s) (Session.RevokedReason s) created updated)))).

Section Repo.
Context {E : Env} {R : Type}.

Definition GetByDeviceID (ctx : Ctx) (userID deviceID : Z) : M (World R) Session.t :=
  let! row := or_not_found ErrSessionNotFound
                (QueryRow ctx (queryGetByDeviceID userID deviceID) scan_device_session) in
  retM (mapSessionRowToEntity row).

(** [Upsert] and [Insert] return the session with the fields the database set. *)
Definition Upsert (ctx : Ctx) (s : Session.t) : M (World R) Session.t :=
  QueryRow ctx (queryUpsertSession (Session.UserID s) (Session.DeviceID s)
    (Session.RefreshTokenHash s) (Session.SessionStatus s) (Session.ExpiredAt s)
    (Session.IPAddress s) (Session.UserAgent s) (Session.LastSeenAt s)) (scan_stored s).

Definition Insert (ctx : Ctx) (s : Session.t) : M (World R) Session.t :=
  QueryRow ctx (queryInsertSession (Session.UserID s) (Session.DeviceID s)
    (Session.RefreshTokenHash s) (Session.SessionStatus s) (Session.ExpiredAt s)
    (Session.IPAddress s) (Session.UserAgent s) (Session.LastSeenAt s)) (scan_stored s).

Definition Update (ctx : Ctx) (s : Session.t) : M (World R) unit :=
  do! Exec ctx (queryUpdateSession (Session.ID s) (Session.RefreshTokenHash s)
        (Session.ExpiredAt s) (Session.LastSeenAt s)) in
  retM tt.

(** [forUpdate] adds [FOR UPDATE] to the query. The rows are the same: the lock it
    takes is part of the step relation of file Rotation ([step_lock]). *)
Definition getByRefreshTokenHash (ctx : Ctx) (hash : string) (forUpdate : bool) :
    M (World R) Session.t :=
  let! row := or_not_found ErrSessionNotFound
                (QueryRow ctx (queryGetByRefreshTokenHash hash) scanSession) in
  retM (mapSessionRowToEntity row).

Definition GetByRefreshTokenHash (ctx : Ctx) (hash : string) : M (World R) Session.t :=
  getByRefreshTokenHash ctx hash false.
Definition GetByRefreshTokenHashForUpdate (ctx : Ctx) (hash : string) : M (World R) Session.t :=
  getByRefreshTokenHash ctx hash true.

Definition ListActiveByUserID (ctx : Ctx) (userID : Z) : M (World R) (list Session.t) :=
  let! now := nowM in
  let! rows := Query ctx (queryListActiveByUserID userID now) scanSession in
  retM (map mapSessionRowToEntity rows).

Definition Revoke (ctx : Ctx) (deviceID userID revokedAt : Z) : M (World R) unit :=
  let! tag := Exec ctx (queryRevokeSession deviceID revokedAt userID) in
  if tag =? 0 then throwM ErrSessionNotFound else retM tt.

Definition RevokeAllByUserID (ctx : Ctx) (userID revokedAt : Z) : M (World R) unit :=
  let! now := nowM in
  do! Exec ctx (queryRevokeAllByUserID userID revokedAt now) in
  retM tt.

Definition RevokeAllExcept (ctx : Ctx) (userID exceptSessionID revokedAt : Z) : M (World R) unit :=
  do! Exec ctx (queryRevokeAllExcept userID exceptSessionID revokedAt) in
  retM tt.
End Repo.
End SessionRepository.

(** ** Devices: [device_repo.go] *)

Definition device_columns : list string :=
  ["id"; "user_id"; "fingerprint_hash"; "device_label"; "first_seen_at"; "last_seen_at";
   "revoked_at"; "revoked_reason"; "metadata"; "created_at"; "updated_at"].

Module DeviceRepository.

Definition queryGetDeviceByID (id : Z) : stmt rowset :=
  select (fun db => pick Devices.column device_columns
    (where_ (fun d => Devices.id d =? id) (user_devices db))).
Definition queryGetDeviceByFingerprint (userID : Z) (fingerprint : string) : stmt rowset :=
  select (fun db => pick Devices.column device_columns
    (where_ (fun d => (Devices.user_id d =? userID) &&
                      String.eqb (Devices.fingerprint_hash d) fingerprint) (user_devices db))).
Definition queryListActiveDeviceByUserID (userID : Z) : stmt rowset :=
  select (fun db => pick Devices.column device_columns
    (order_by (desc Devices.last_seen_at)
      (where_ (fun d => (Devices.user_id d =? userID) &&
                 match Devices.revoked_at d with None => true | _ => false end) (user_devices db)))).

Definition set_row (label : option string) (lastSeen : Z) (revoked : option Z) (now : Z)
    (d : Devices.row) : Devices.row :=
  Devices.mk (Devices.id d) (Devices.user_id d) (Devices.fingerprint_hash d) label
    (Devices.first_seen_at d) lastSeen revoked (Devices.revoked_reason d) (Devices.metadata d)
    (Devices.created_at d) (pg_time now).

Definition queryUpsertDevice (userID : Z) (fingerprint label : string) (firstSeen lastSeen : Z)
    (revoked : option Z) : stmt rowset :=
  dml (fun now db sq =>
    let sq' := mkSeqs (users_seq sq) (devices_seq sq + 1) (sessions_seq sq) (addresses_seq sq)
                 (outbox_seq sq) in
    let ret d := pick Devices.column ["id"; "first_seen_at"] [d] in
    let p d := (Devices.user_id d =? userID) && String.eqb (Devices.fingerprint_hash d) fingerprint in
    let f := set_row (Some label) (pg_time lastSeen) None now in
    match where_ p (user_devices db) with
    | old :: _ => (sq', with_devices (update_where p f) db, ret (f old))
    | [] =>
        let d := Devices.mk (devices_seq sq) userID fingerprint (Some label) (pg_time firstSeen)
                   (pg_time lastSeen) (pg_time <$> revoked) None (JObj []) (pg_time now) (pg_time now) in
        (sq', with_devices (fun l => l ++ [d]) db, ret d)
    end).

Definition queryRevokeDevice (id revokedAt : Z) : stmt Z :=
  dml (fun now db sq =>
    let p d := Devices.id d =? id in
    let f d := set_row (Devices.device_label d) (Devices.last_seen_at d)
                 (Some (default (pg_time revokedAt) (Devices.revoked_at d))) now d in
    (sq, with_devices (update_where p f) db, affected p (user_devices db))).

(** [Scan(&device.ID, &device.LastSeenAt)] *)
Definition scan_stored (d : Device.t) : list sqlval -> result Device.t :=
  next d_int (fun id => next d_time (fun last_seen =>
  finish (Device.mk id (Device.UserID d) (Device.Fingerprint d) (Device.Label d)
    (Device.FirstSeenAt d) last_seen (Device.RevokedAt d) (Device.RevokedReason d)
    (Device.Metadata d) (Device.CreatedAt d) (Device.UpdatedAt d)))).

Section Repo.
Context {E : Env} {R : Type}.

Definition GetByID (ctx : Ctx) (id : Z) : M (World R) Device.t :=
  let! row := QueryRow ctx (queryGetDeviceByID id) scanDevice in
  retM (mapDeviceRowToEntity row).

(** The result is a pointer; no row gives a pointer to a zero [Device]. *)
Definition GetByFingerprint (ctx : Ctx) (userID : Z) (fingerprint : string) :
    M (World R) (option Device.t) :=
  let! row := attemptM (QueryRow ctx (queryGetDeviceByFingerprint userID fingerprint) scanDevice) in
  match row with
  | Err e => if bool_decide (e = ErrNoRows) then retM (Some Device.zero) else throwM e
  | Ok row => retM (Some (mapDeviceRowToEntity row))
  end.

Definition ListActiveByUserID (ctx : Ctx) (userID : Z) : M (World R) (list Device.t) :=
  let! rows := attemptM (Query ctx (queryListActiveDeviceByUserID userID) scanDevice) in
  match rows with
  | Err e => if bool_decide (e = ErrNoRows) then retM [] else throwM e
  | Ok rows => retM (map mapDeviceRowToEntity rows)
  end.

Definition Upsert (ctx : Ctx) (d : Device.t) : M (World R) Device.t :=
  QueryRow ctx (queryUpsertDevice (Device.UserID d) (Device.Fingerprint d) (Device.Label d)
    (Device.FirstSeenAt d) (Device.LastSeenAt d) (Device.RevokedAt d)) (scan_stored d).

Definition Revoke (ctx : Ctx) (id revokedAt : Z) : M (World R) unit :=
  do! Exec ctx (queryRevokeDevice id revokedAt) in
  retM tt.
End Repo.
End DeviceRepository.

(** ** Addresses: [address_repo.go] *)

Definition address_columns : list string :=
  ["id"; "user_id"; "recipient_name"; "recipient_phone"; "address_line1"; "address_line2";
   "province_code"; "district_code"; "ward_code"; "postal_code"; "country_code"; "is_default";
   "version"; "created_at"; "updated_at"].

(** [ORDER BY is_default DESC, created_at DESC] *)
Definition default_first (x y : Addresses.row) : bool :=
  if Bool.eqb (Addresses.is_default x) (Addresses.is_default y)
  then Addresses.created_at y <=? Addresses.created_at x
  else Addresses.is_default x.

Module AddressRepository.

Definition queryGetAddressByID (id : Z) : stmt rowset :=
  select (fun db => pick Addresses.column address_columns
    (where_ (fun a => Addresses.id a =? id) (addresses db))).
Definition queryListAddressByUserID (userID : Z) : stmt rowset :=
  select (fun db => pick Addresses.column address_columns
    (order_by default_first (where_ (fun a => Addresses.user_id a =? userID) (addresses db)))).

Definition queryInsertAddress (a : Address.t) : stmt rowset :=
  dml (fun now db sq =>
    let id := addresses_seq sq in
    (mkSeqs (users_seq sq) (devices_seq sq) (sessions_seq sq) (id + 1) (outbox_seq sq),
     with_addresses (fun l => l ++ [Addresses.mk id (Address.UserID a) (Address.RecipientName a)
       (Address.RecipientPhone a) (Address.Line1 a) (Some (Address.Line2 a)) (Address.Province a)
       (Address.District a) (Address.Ward a) (Some (Address.PostalCode a)) (Address.CountryCode a)
       (Address.IsDefault a) 1 (pg_time now) (pg_time now)]) db,
     [[VInt id]])).

Definition queryUpdateAddress (a : Address.t) : stmt Z :=
  dml (fun now db sq =>
    let p r := Addresses.id r =? Address.ID a in
    let f r := Addresses.mk (Addresses.id r) (Addresses.user_id r) (Address.RecipientName a)
       (Address.RecipientPhone a) (Address.Line1 a) (Some (Address.Line2 a)) (Address.Province a)
       (Address.District a) (Address.Ward a) (Some (Address.PostalCode a)) (Address.CountryCode a)
       (Address.IsDefault a) (Addresses.version r) (Addresses.created_at r) (pg_time now) in
    (sq, with_addresses (update_where p f) db, affected p (addresses db))).

Definition queryDeleteAddress (id : Z) : stmt Z :=
  dml (fun _ db sq =>
    let p r := Addresses.id r =? id in
    (sq, with_addresses (where_ (fun r => negb (p r))) db, affected p (addresses db))).

Definition unset_default (now : Z) (r : Addresses.row) : Addresses.row :=
  Addresses.mk (Addresses.id r) (Addresses.user_id r) (Addresses.recipient_name r)
    (Addresses.recipient_phone r) (Addresses.address_line1 r) (Addresses.address_line2 r)
    (Addresses.province_code r) (Addresses.district_code r) (Addresses.ward_code r)
    (Addresses.postal_code r) (Addresses.country_code r) false (Addresses.version r)
    (Addresses.created_at r) (pg_time now).

Definition queryUnsetDefaultByUserID (userID : Z) : stmt Z :=
  dml (fun now db sq =>
    let p r := Addresses.user_id r =? userID in
    (sq, with_addresses (update_where p (unset_default now)) db, affected p (addresses db))).

Section Repo.
Context {E : Env} {R : Type}.

Definition GetByID (ctx : Ctx) (id : Z) : M (World R) Address.t :=
  let! row := or_not_found ErrAddressNotFound (QueryRow ctx (queryGetAddressByID id) scanAddress) in
  retM (mapAddressRowToEntity row).

Definition ListByUserID (ctx : Ctx) (userID : Z) : M (World R) (list Address.t) :=
  let! rows := Query ctx (queryListAddressByUserID userID) scanAddress in
  retM (map mapAddressRowToEntity rows).

(** Returns the identifier stored in [address.ID]. *)
Definition Insert (ctx : Ctx) (a : Address.t) : M (World R) Z :=
  QueryRow ctx (queryInsertAddress a) (next d_int finish).

(** The command tag of a failed [Exec] is empty, so its row count is 0 and is
    tested before the error. *)
Definition tag_or_not_found (m : M (World R) Z) : M (World R) unit :=
  let! x := attemptM m in
  let tag := match x with Ok n => n | Err _ => 0 end in
  if tag =? 0 then throwM ErrAddressNotFound
  else match x with Ok _ => retM tt | Err e => throwM e end.

Definition Update (ctx : Ctx) (a : Address.t) : M (World R) unit :=
  tag_or_not_found (Exec ctx (queryUpdateAddress a)).
Definition Delete (ctx : Ctx) (id : Z) : M (World R) unit :=
  tag_or_not_found (Exec ctx (queryDeleteAddress id)).

Definition UnsetDefaultByUserID (ctx : Ctx) (userID : Z) : M (World R) unit :=
  do! Exec ctx (queryUnsetDefaultByUserID userID) in
  retM tt.
End Repo.
End AddressRepository.

(** ** Read models: [query_repo.go] *)

Module QueryRepository.

Definition queryMe (userID : Z) : stmt rowset :=
  select (fun db => pick Users.column
    ["id"; "email"; "full_name"; "phone"; "user_type"; "account_status"; "email_verified_at";
     "last_login_at"; "locked_reason"; "metadata"; "version"; "created_at"; "updated_at"]
    (where_ (fun u => Users.id u =? userID) (users db))).
Definition queryListSession (userID : Z) : stmt rowset :=
  select (fun db => pick Sessions.column
    ["id"; "user_id"; "device_id"; "refresh_token_hash"; "session_status"; "expires_at";
     "ip_address"; "user_agent"; "last_seen_at"; "revoked_at"; "revoked_reason"; "created_at";
     "updated_at"]
    (order_by (desc Sessions.created_at)
      (where_ (fun s => Sessions.user_id s =? userID) (user_sessions db)))).
Definition queryListDevice (userID : Z) : stmt rowset :=
  select (fun db => pick Devices.column
    ["id"; "user_id"; "fingerprint_hash"; "device_label"; "first_seen_at"; "last_seen_at";
     "revoked_at"; "revoked_reason"; "metadata"; "created_at"; "updated_at"]
    (order_by (desc Devices.created_at)
      (where_ (fun d => Devices.user_id d =? userID) (user_devices db)))).
Definition queryListAddress (userID : Z) : stmt rowset :=
  select (fun db => pick Addresses.column
    ["id"; "user_id"; "recipient_name"; "recipient_phone"; "address_line1"; "address_line2";
     "province_code"; "district_code"; "ward_code"; "postal_code"; "country_code"; "is_default";
     "version"; "created_at"; "updated_at"]
    (order_by default_first (where_ (fun a => Addresses.user_id a =? userID) (addresses db)))).

Section Repo.
Context {E : Env} {R : Type}.

Definition GetMe (ctx : Ctx) (userID : Z) : M (World R) MeView :=
  let! user := or_not_found ErrUserNotFound (QueryRow ctx (queryMe userID) scanUser) in
  retM (mapUserRowToMeView user).
Definition ListSessions (ctx : Ctx) (userID : Z) : M (World R) (list SessionView) :=
  let! rows := Query ctx (queryListSession userID) scanSession in
  retM (map mapSessionRowToView rows).
Definition ListDevices (ctx : Ctx) (userID : Z) : M (World R) (list DeviceView) :=
  let! rows := Query ctx (queryListDevice userID) scanDevice in
  retM (map mapDeviceRowToView rows).
Definition ListAddresses (ctx : Ctx) (userID : Z) : M (World R) (list AddressView) :=
  let! rows := Query ctx (queryListAddress userID) scanAddress in
  retM (map mapAddressRowToView rows).
End Repo.
End QueryRepository.

(** ** Properties *)

(** *** What is selected is what is scanned

    The column lists of the queries and the destination lists of the scan
    functions agree, in number, order, type and nullability. *)

Definition map_ok (m : option json) : bool :=
  match m with None | Some (JObj _) => true | _ => false end.

Definition user_of (r : Users.row) : userRow.t :=
  userRow.mk (Users.id r) (Users.email r) (Users.full_name r) (Users.phone r) (Users.user_type r)
    (Users.account_status r) (Users.email_verified_at r) (Users.last_login_at r)
    (Users.locked_reason r) (Users.metadata r) (Users.version r) (Users.created_at r)
    (Users.updated_at r).
Definition session_of (r : Sessions.row) : sessionRow.t :=
  sessionRow.mk (Sessions.id r) (Sessions.user_id r) (Sessions.device_id r)
    (Sessions.refresh_token_hash r) (Sessions.session_status r) (Sessions.expires_at r)
    (Sessions.ip_address r) (default "" (Sessions.user_agent r)) (Sessions.last_seen_at r)
    (Sessions.revoked_at r) (Sessions.revoked_reason r) (Sessions.created_at r)
    (Sessions.updated_at r).
Definition device_of (r : Devices.row) : deviceRow.t :=
  deviceRow.mk (Devices.id r) (Devices.user_id r) (Devices.fingerprint_hash r)
    (default "" (Devices.device_label r)) (Devices.first_seen_at r) (Devices.last_seen_at r)
    (Devices.revoked_at r) (Devices.revoked_reason r) (Some (Devices.metadata r))
    (Devices.created_at r) (Devices.updated_at r).
Definition address_of (r : Addresses.row) : addressRow.t :=
  addressRow.mk (Addresses.id r) (Addresses.user_id r) (Addresses.recipient_name r)
    (Addresses.recipient_phone r) (Addresses.address_line1 r)
    (default "" (Addresses.address_line2 r)) (Addresses.province_code r)
    (Addresses.district_code r) (Addresses.ward_code r) (default "" (Addresses.postal_code r))
    (Addresses.country_code r) (Addresses.is_default r) (Addresses.version r)
    (Addresses.created_at r) (Addresses.updated_at r).
Definition credential_of (r : Credentials.row) : credentialRow.t :=
  credentialRow.mk (Credentials.user_id r) (Credentials.password_hash r)
    (Credentials.password_algo r) (Credentials.password_changed_at r)
    (Credentials.failed_login_count r) (Credentials.last_failed_login_at r).

(** Rows are taken apart, nullable columns by cases, and the two sides computed. *)
Ltac scan_agrees :=
  repeat match goal with
  | o : option _ |- _ => destruct o
  end; reflexivity.

Lemma scanUser_column r :
  map_ok (Users.metadata r) = true ->
  scanUser (map (Users.column r) user_columns) = Ok (user_of r).
Proof.
  destruct r as [? ? ? ? ? ? ? ? ? [[]|]]; simpl; intros Hm; try done; scan_agrees.
Qed.
Lemma scanSession_column r :
  is_Some (Sessions.user_agent r) ->
  scanSession (map (Sessions.column r) session_columns) = Ok (session_of r).
Proof. intros [a Ha]. destruct r; simpl in *; subst; scan_agrees. Qed.
Lemma scanDevice_column r :
  is_Some (Devices.device_label r) -> map_ok (Some (Devices.metadata r)) = true ->
  scanDevice (map (Devices.column r) device_columns) = Ok (device_of r).
Proof.
  intros [a Ha] Hm. destruct r as [? ? ? ? ? ? ? ? []]; simpl in *; try done; subst; scan_agrees.
Qed.
Lemma scanAddress_column r :
  is_Some (Addresses.address_line2 r) -> is_Some (Addresses.postal_code r) ->
  scanAddress (map (Addresses.column r) address_columns) = Ok (address_of r).
Proof.
  intros [a Ha] [p Hp]. destruct r; simpl in *; subst; reflexivity.
Qed.
Lemma scanCredential_column r :
  scanCredential (map (Credentials.column r)
    ["user_id"; "password_hash"; "password_algo"; "password_changed_at"; "failed_login_count";
     "last_failed_login_at"]) = Ok (credential_of r).
Proof. destruct r; scan_agrees. Qed.

(** *** What a successful scan read *)

Lemma scanUser_inv r x :
  scanUser (map (Users.column r) user_columns) = Ok x ->
  map_ok (Users.metadata r) = true \/ Users.metadata r = Some JNull.
Proof.
  destruct r as [? ? ? ph ? ? ev ll lr md ? ? ?]; simpl. destruct md as [[]|]; auto;
    destruct ph, ev, ll, lr; done.
Qed.
Lemma scanSession_inv r x :
  scanSession (map (Sessions.column r) session_columns) = Ok x -> x = session_of r.
Proof.
  destruct r as [? ? ? ? ? ? ip [ua|] ? rv rr ? ?]; destruct ip, rv, rr; simpl; intros; by simplify_eq.
Qed.
Lemma scanDevice_inv r x :
  scanDevice (map (Devices.column r) device_columns) = Ok x ->
  deviceRow.ID x = Devices.id r /\ deviceRow.UserID x = Devices.user_id r /\
  deviceRow.FirstSeenAt x = Devices.first_seen_at r.
Proof.
  destruct r as [? ? ? [lb|] ? ? rv rr []]; destruct rv, rr; simpl; intros; by simplify_eq.
Qed.
Lemma scanAddress_inv r x :
  scanAddress (map (Addresses.column r) address_columns) = Ok x -> x = address_of r.
Proof.
  destruct r as [? ? ? ? ? [l2|] ? ? ? [pc|] ? ? ? ? ?]; simpl; intros; by simplify_eq.
Qed.
Lemma scanCredential_inv r x :
  scanCredential (map (Credentials.column r)
    ["user_id"; "password_hash"; "password_algo"; "password_changed_at"; "failed_login_count";
     "last_failed_login_at"]) = Ok x -> x = credential_of r.
Proof. rewrite scanCredential_column. by intros [= ->]. Qed.

(** The fields of a scanned user the services look at. *)
Lemma scanUser_fields r x :
  scanUser (map (Users.column r) user_columns) = Ok x ->
  userRow.ID x = Users.id r /\ userRow.Email x = Users.email r /\
  userRow.UserType x = Users.user_type r /\ userRow.Status x = Users.account_status r /\
  userRow.EmailVerifiedAt x = Users.email_verified_at r.
Proof.
  intros H. destruct (scanUser_inv r x H) as [Hm|Hm].
  - rewrite (scanUser_column r Hm) in H. by simplify_eq.
  - destruct r as [? ? ? ph ? ? ev ll lr md ? ? ?]; simpl in *. subst md.
    destruct ph, ev, ll, lr; simpl in H; by simplify_eq.
Qed.

(** *** What a successful read returned *)

Section Reads.
Context {E : Env} {R : Type} {U : Unicode} {MP : MailParser}.

Lemma or_not_found_ok {A} e (m : M (World R) A) w w' a :
  or_not_found e m w = (w', Ok a) -> m w = (w', Ok a).
Proof.
  unfold or_not_found. intros (w1 & x & Hm & Hx)%bindM_ok. apply attemptM_inv in Hm.
  destruct x as [b|err]; [unfold retM in Hx; by simplify_eq|].
  by destruct (isNoRows err).
Qed.

(** The stored user an entity was read from. *)
Definition user_row (u : User.t) (r : Users.row) : Prop :=
  User.ID u = Users.id r /\ User.UserType u = Users.user_type r /\
  User.Status u = Users.account_status r /\ User.EmailVerifiedAt u = Users.email_verified_at r /\
  NewEmail (Users.email r) = Ok (User.Email u).

Lemma mapUser_row r x u :
  scanUser (map (Users.column r) user_columns) = Ok x -> mapUserRowToEntity x = Ok u ->
  user_row u r.
Proof.
  intros (H1 & H2 & H3 & H4 & H5)%scanUser_fields. unfold mapUserRowToEntity.
  destruct (NewEmail (userRow.Email x)) as [e|] eqn:Ee; [|done]. intros [= <-].
  unfold user_row. simpl. by rewrite <- H1, <- H2, <- H3, <- H4, <- H5.
Qed.

Lemma user_GetByEmail_inv ctx email (w w' : World R) u :
  UserRepository.GetByEmail ctx email w = (w', Ok u) ->
  exists r, r ∈ users (cur_db ctx w) /\ Users.email r = Email.value email /\ user_row u r /\
    cur_db ctx w' = cur_db ctx w.
Proof.
  unfold UserRepository.GetByEmail. intros (w1 & x & Hq & Hm)%bindM_ok.
  apply or_not_found_ok in Hq.
  apply (QueryRow_select ctx users (where_ _)) in Hq as [(r & Hr & Hs) Hc].
  apply elem_of_where in Hr as [Hin He]. apply String.eqb_eq in He.
  unfold liftM in Hm. simplify_eq. exists r. split; [done|]. split; [done|].
  split; [by eapply mapUser_row|done].
Qed.

Lemma user_GetByID_inv ctx id (w w' : World R) u :
  UserRepository.GetByID ctx id w = (w', Ok u) ->
  exists r, r ∈ users (cur_db ctx w) /\ Users.id r = id /\ user_row u r /\
    cur_db ctx w' = cur_db ctx w.
Proof.
  unfold UserRepository.GetByID. intros (w1 & x & Hq & Hm)%bindM_ok.
  apply or_not_found_ok in Hq.
  apply (QueryRow_select ctx users (where_ _)) in Hq as [(r & Hr & Hs) Hc].
  apply elem_of_where in Hr as [Hin He]. apply Z.eqb_eq in He.
  unfold liftM in Hm. simplify_eq. exists r. split; [done|]. split; [done|].
  split; [by eapply mapUser_row|done].
Qed.

Lemma credential_GetByUserID_inv ctx uid (w w' : World R) c :
  CredentialRepository.GetByUserID ctx uid w = (w', Ok c) ->
  exists r, r ∈ user_credentials (cur_db ctx w) /\ Credentials.user_id r = uid /\
    c = mapCredentialRowToEntity (credential_of r) /\ cur_db ctx w' = cur_db ctx w.
Proof.
  unfold CredentialRepository.GetByUserID. intros (w1 & x & Hq & Hm)%bindM_ok.
  apply or_not_found_ok in Hq.
  apply (QueryRow_select ctx user_credentials (where_ _)) in Hq as [(r & Hr & Hs) Hc].
  apply elem_of_where in Hr as [Hin He]. apply Z.eqb_eq in He. apply scanCredential_inv in Hs as ->.
  unfold retM in Hm. simplify_eq. by exists r.
Qed.

Lemma session_GetByHash_inv ctx hash fu (w w' : World R) s :
  SessionRepository.getByRefreshTokenHash ctx hash fu w = (w', Ok s) ->
  exists r, r ∈ user_sessions (cur_db ctx w) /\ Sessions.refresh_token_hash r = hash /\
    s = mapSessionRowToEntity (session_of r) /\ cur_db ctx w' = cur_db ctx w.
Proof.
  unfold SessionRepository.getByRefreshTokenHash. intros (w1 & x & Hq & Hm)%bindM_ok.
  apply or_not_found_ok in Hq.
  apply (QueryRow_select ctx user_sessions (where_ _)) in Hq as [(r & Hr & Hs) Hc].
  apply elem_of_where in Hr as [Hin He]. apply String.eqb_eq in He. apply scanSession_inv in Hs as ->.
  unfold retM in Hm. simplify_eq. by exists r.
Qed.

Lemma address_GetByID_inv ctx id (w w' : World R) a :
  AddressRepository.GetByID ctx id w = (w', Ok a) ->
  exists r, r ∈ addresses (cur_db ctx w) /\ Addresses.id r = id /\
    a = mapAddressRowToEntity (address_of r) /\ cur_db ctx w' = cur_db ctx w.
Proof.
  unfold AddressRepository.GetByID. intros (w1 & x & Hq & Hm)%bindM_ok.
  apply or_not_found_ok in Hq.
  apply (QueryRow_select ctx addresses (where_ _)) in Hq as [(r & Hr & Hs) Hc].
  apply elem_of_where in Hr as [Hin He]. apply Z.eqb_eq in He. apply scanAddress_inv in Hs as ->.
  unfold retM in Hm. simplify_eq. by exists r.
Qed.

Lemma device_GetByID_inv ctx id (w w' : World R) d :
  DeviceRepository.GetByID ctx id w = (w', Ok d) ->
  exists r, r ∈ user_devices (cur_db ctx w) /\ Devices.id r = id /\
    Device.UserID d = Devices.user_id r /\ cur_db ctx w' = cur_db ctx w.
Proof.
  unfold DeviceRepository.GetByID. intros (w1 & x & Hq & Hm)%bindM_ok.
  apply (QueryRow_select ctx user_devices (where_ _)) in Hq as [(r & Hr & Hs) Hc].
  apply elem_of_where in Hr as [Hin He]. apply Z.eqb_eq in He.
  apply scanDevice_inv in Hs as (_ & Hu & _). unfold retM in Hm. simplify_eq. by exists r.
Qed.

(** No row gives a pointer to a zero device, never nil. *)
Lemma GetByFingerprint_not_nil ctx uid fp (w w' : World R) :
  DeviceRepository.GetByFingerprint ctx uid fp w <> (w', Ok None).
Proof.
  unfold DeviceRepository.GetByFingerprint. intros (w1 & x & _ & Hx)%bindM_ok.
  destruct x as [r|e]; [done|]. by destruct (bool_decide (e = ErrNoRows)).
Qed.
End Reads.
