(* ===== verification/SessionStore.v ===== *)
(** * The session repository as an abstract map

    [domain/repository.go] declares what the services need of their repositories.
    This file states it for the sessions: an abstract book of sessions, at most one
    per user and device, with the operations of the interface on it, and proves that
    the repository of [session_repo.go] on the table [user_sessions] implements it.
    What holds of every run of the abstract operations holds of the repository. *)

From Stdlib Require Import ZArith NArith String Ascii Lia.
From stdpp Require Import base strings list gmap relations.
From S2P Require Import Prelude GoStrings Json Domain Gin Schema.
From S2P Require Import Database Sql IdentityRepos.

Local Open Scope Z_scope.
#[local] Opaque violated.

(** ** The interfaces of [domain/repository.go]

    A method that fills in the entity it is given returns it, or its identifier. *)

Class UserRepo (S : Type) := {
  user_GetByID : Ctx -> Z -> M S User.t;
  user_GetByEmail : Ctx -> Email.t -> M S User.t;
  user_ExistsByEmail : Ctx -> Email.t -> M S bool;
  user_Insert : Ctx -> User.t -> M S User.t;
  user_UpdateStatus : Ctx -> Z -> UserStatus -> M S unit;
  user_MarkEmailVerified : Ctx -> Z -> Z -> M S unit
}.

Class CredentialRepo (S : Type) := {
  cred_GetByUserID : Ctx -> Z -> M S Credential.t;
  cred_Insert : Ctx -> Credential.t -> M S unit;
  cred_UpdatePasswordHash : Ctx -> Z -> string -> Z -> M S unit
}.

Class SessionRepo (S : Type) := {
  sess_Update : Ctx -> Session.t -> M S unit;
  sess_Insert : Ctx -> Session.t -> M S Session.t;
  sess_GetByRefreshTokenHash : Ctx -> string -> M S Session.t;
  sess_ListActiveByUserID : Ctx -> Z -> M S (list Session.t);
  sess_Revoke : Ctx -> Z -> Z -> Z -> M S unit;
  sess_GetByRefreshTokenHashForUpdate : Ctx -> string -> M S Session.t;
  sess_RevokeAllByUserID : Ctx -> Z -> Z -> M S unit;
  sess_RevokeAllExcept : Ctx -> Z -> Z -> Z -> M S unit;
  sess_GetByDeviceID : Ctx -> Z -> Z -> M S Session.t;
  sess_Upsert : Ctx -> Session.t -> M S Session.t
}.

Class DeviceRepo (S : Type) := {
  dev_GetByID : Ctx -> Z -> M S Device.t;
  dev_GetByFingerprint : Ctx -> Z -> string -> M S (option Device.t);
  dev_ListActiveByUserID : Ctx -> Z -> M S (list Device.t);
  dev_Upsert : Ctx -> Device.t -> M S Device.t;
  dev_Revoke : Ctx -> Z -> Z -> M S unit
}.

Class AddressRepo (S : Type) := {
  addr_GetByID : Ctx -> Z -> M S Address.t;
  addr_ListByUserID : Ctx -> Z -> M S (list Address.t);
  addr_Insert : Ctx -> Address.t -> M S Z;
  addr_Update : Ctx -> Address.t -> M S unit;
  addr_Delete : Ctx -> Z -> M S unit;
  addr_UnsetDefaultByUserID : Ctx -> Z -> M S unit
}.

(** The read side, [query/repository.go]. *)
Class QueryRepo (S : Type) := {
  q_GetMe : Ctx -> Z -> M S MeView;
  q_ListSessions : Ctx -> Z -> M S (list SessionView);
  q_ListDevices : Ctx -> Z -> M S (list DeviceView);
  q_ListAddresses : Ctx -> Z -> M S (list AddressView)
}.

(** What [infra/postgres/provider.go] binds to them. *)
Section Providers.
Context {E : Env} {R : Type}.

#[export] Instance NewUserRepository `{Unicode} `{MailParser} : UserRepo (World R) := {|
  user_GetByID := UserRepository.GetByID; user_GetByEmail := UserRepository.GetByEmail;
  user_ExistsByEmail := UserRepository.ExistsByEmail; user_Insert := UserRepository.Insert;
  user_UpdateStatus := UserRepository.UpdateStatus;
  user_MarkEmailVerified := UserRepository.MarkEmailVerified
|}.
#[export] Instance NewCredentialRepository : CredentialRepo (World R) := {|
  cred_GetByUserID := CredentialRepository.GetByUserID; cred_Insert := CredentialRepository.Insert;
  cred_UpdatePasswordHash := CredentialRepository.UpdatePasswordHash
|}.
#[export] Instance NewSessionRepository : SessionRepo (World R) := {|
  sess_Update := SessionRepository.Update; sess_Insert := SessionRepository.Insert;
  sess_GetByRefreshTokenHash := SessionRepository.GetByRefreshTokenHash;
  sess_ListActiveByUserID := SessionRepository.ListActiveByUserID;
  sess_Revoke := SessionRepository.Revoke;
  sess_GetByRefreshTokenHashForUpdate := SessionRepository.GetByRefreshTokenHashForUpdate;
  sess_RevokeAllByUserID := SessionRepository.RevokeAllByUserID;
  sess_RevokeAllExcept := SessionRepository.RevokeAllExcept;
  sess_GetByDeviceID := SessionRepository.GetByDeviceID; sess_Upsert := SessionRepository.Upsert
|}.
#[export] Instance NewDeviceRepository : DeviceRepo (World R) := {|
  dev_GetByID := DeviceRepository.GetByID; dev_GetByFingerprint := DeviceRepository.GetByFingerprint;
  dev_ListActiveByUserID := DeviceRepository.ListActiveByUserID;
  dev_Upsert := DeviceRepository.Upsert; dev_Revoke := DeviceRepository.Revoke
|}.
#[export] Instance NewAddressRepository : AddressRepo (World R) := {|
  addr_GetByID := AddressRepository.GetByID; addr_ListByUserID := AddressRepository.ListByUserID;
  addr_Insert := AddressRepository.Insert; addr_Update := AddressRepository.Update;
  addr_Delete := AddressRepository.Delete;
  addr_UnsetDefaultByUserID := AddressRepository.UnsetDefaultByUserID
|}.
#[export] Instance NewQueryRepository : QueryRepo (World R) := {|
  q_GetMe := QueryRepository.GetMe; q_ListSessions := QueryRepository.ListSessions;
  q_ListDevices := QueryRepository.ListDevices; q_ListAddresses := QueryRepository.ListAddresses
|}.
End Providers.

(** ** The abstract book of sessions *)

Record entry := mkEntry {
  e_id : Z; e_hash : string; e_status : string; e_expires : Z; e_revoked : option Z; e_seen : Z;
  e_ip : option string; e_agent : option string
}.

(** At most one session per user and device. *)
Abbreviation book := (gmap (Z * Z) entry).

(** An entry as the services see it. *)
Definition shows (k : Z * Z) (e : entry) (se : Session.t) : Prop :=
  Session.ID se = e_id e /\ Session.UserID se = k.1 /\ Session.DeviceID se = k.2 /\
  Session.RefreshTokenHash se = e_hash e /\ Session.SessionStatus se = e_status e /\
  Session.ExpiredAt se = e_expires e /\ Session.RevokedAt se = e_revoked e.

(** Every entry for which [p] holds is changed by [f]. *)
Definition change_all (p : Z * Z -> entry -> bool) (f : entry -> entry) (b : book) : book :=
  map_imap (fun k e => Some (if p k e then f e else e)) b.

Definition not_revoked (e : entry) : bool := match e_revoked e with None => true | Some _ => false end.
Definition active (e : entry) : bool := not_revoked e && String.eqb (e_status e) "active".
Definition revoke_entry (at_ : Z) (status : string) (e : entry) : entry :=
  mkEntry (e_id e) (e_hash e) status (e_expires e) (Some at_) (e_seen e) (e_ip e) (e_agent e).
Definition rotate_entry (hash : string) (expires seen : Z) (e : entry) : entry :=
  mkEntry (e_id e) hash (e_status e) expires (e_revoked e) seen (e_ip e) (e_agent e).

(** The entry of a new session, with the identifier the store gave it. *)
Definition fresh_entry (se se' : Session.t) : entry :=
  mkEntry (Session.ID se') (Session.RefreshTokenHash se) (Session.SessionStatus se)
    (pg_time (Session.ExpiredAt se)) None (pg_time (Session.LastSeenAt se)) (Session.IPAddress se)
    (Some (Session.UserAgent se)).

(** ** What the interface promises

    [sound_in ctx st]: the store is in order for the context; every operation that
    succeeds keeps it so. Times are stored with microseconds ([pg_time]). *)
Class SessionRepoLaws (S : Type) `{SessionRepo S} (view : Ctx -> S -> book) (sound_in : Ctx -> S -> Prop) : Prop := {
  law_unique c st k1 k2 e1 e2 : sound_in c st -> view c st !! k1 = Some e1 -> view c st !! k2 = Some e2 ->
    e_hash e1 = e_hash e2 \/ e_id e1 = e_id e2 -> k1 = k2;
  law_get c h st st' se : sound_in c st ->
    sess_GetByRefreshTokenHashForUpdate c h st = (st', Ok se) ->
    sound_in c st' /\ view c st' = view c st /\
    exists k e, view c st !! k = Some e /\ e_hash e = h /\ shows k e se;
  law_find c h st st' se : sound_in c st ->
    sess_GetByRefreshTokenHash c h st = (st', Ok se) ->
    sound_in c st' /\ view c st' = view c st /\
    exists k e, view c st !! k = Some e /\ e_hash e = h /\ shows k e se;
  law_list c uid st st' l : sound_in c st ->
    sess_ListActiveByUserID c uid st = (st', Ok l) ->
    sound_in c st' /\ view c st' = view c st /\
    exists now, let listed (k : Z * Z) e := (k.1 =? uid) && not_revoked e && (now <? e_expires e) in
      (forall se, se ∈ l -> exists k e, view c st !! k = Some e /\ listed k e = true /\ shows k e se) /\
      (forall k e, view c st !! k = Some e -> listed k e = true -> exists se, se ∈ l /\ shows k e se);
  law_insert c se st st' se' : sound_in c st ->
    sess_Insert c se st = (st', Ok se') ->
    let k := (Session.UserID se, Session.DeviceID se) in
    sound_in c st' /\ view c st !! k = None /\
    view c st' = <[k := fresh_entry se se']> (view c st);
  law_device c uid did st st' se : sound_in c st ->
    sess_GetByDeviceID c uid did st = (st', Ok se) ->
    sound_in c st' /\ view c st' = view c st /\
    exists e, view c st !! (uid, did) = Some e /\ not_revoked e = true /\ Session.ID se = e_id e /\
      Session.RefreshTokenHash se = e_hash e;
  law_upsert c se st st' se' : sound_in c st ->
    sess_Upsert c se st = (st', Ok se') ->
    let k := (Session.UserID se, Session.DeviceID se) in
    sound_in c st' /\ (forall e, view c st !! k = Some e -> Session.ID se' = e_id e) /\
    view c st' = <[k := fresh_entry se se']> (view c st);
  law_update c se st st' : sound_in c st ->
    sess_Update c se st = (st', Ok tt) ->
    sound_in c st' /\
    view c st' = change_all (fun _ e => e_id e =? Session.ID se)
      (rotate_entry (Session.RefreshTokenHash se) (pg_time (Session.ExpiredAt se))
        (pg_time (Session.LastSeenAt se))) (view c st);
  law_revoke c did uid at_ st st' : sound_in c st ->
    sess_Revoke c did uid at_ st = (st', Ok tt) ->
    sound_in c st' /\
    exists e, view c st !! (uid, did) = Some e /\ active e = true /\
      view c st' = <[(uid, did) := revoke_entry (pg_time at_) "revoked" e]> (view c st);
  law_revoke_except c uid keep at_ st st' : sound_in c st ->
    sess_RevokeAllExcept c uid keep at_ st = (st', Ok tt) ->
    sound_in c st' /\
    view c st' = change_all (fun k e => (k.1 =? uid) && negb (e_id e =? keep) && active e)
      (revoke_entry (pg_time at_) "revoked") (view c st);
  law_revoke_all c uid at_ st st' : sound_in c st ->
    sess_RevokeAllByUserID c uid at_ st = (st', Ok tt) ->
    sound_in c st' /\
    exists now, view c st' = change_all (fun k e => (k.1 =? uid) && not_revoked e && (now <? e_expires e))
      (fun e => revoke_entry (pg_time at_) (e_status e) e) (view c st)
}.

(** ** The table as a book *)

Definition session_key (r : Sessions.row) : Z * Z := (Sessions.user_id r, Sessions.device_id r).
Definition entry_of (r : Sessions.row) : entry :=
  mkEntry (Sessions.id r) (Sessions.refresh_token_hash r) (Sessions.session_status r) (Sessions.expires_at r)
    (Sessions.revoked_at r) (Sessions.last_seen_at r) (Sessions.ip_address r) (Sessions.user_agent r).
#[local] Arguments session_key _ : simpl never.
#[local] Arguments entry_of _ : simpl never.
Definition book_of (l : list Sessions.row) : book :=
  list_to_map ((fun r => (session_key r, entry_of r)) <$> l).

Lemma book_keys (l : list Sessions.row) : ((fun r => (session_key r, entry_of r)) <$> l).*1 = session_key <$> l.
Proof. rewrite <- list_fmap_compose. done. Qed.

Lemma book_lookup l k e :
  NoDup (session_key <$> l) ->
  book_of l !! k = Some e <-> exists r, r ∈ l /\ session_key r = k /\ entry_of r = e.
Proof.
  intros Hd. unfold book_of. rewrite <- elem_of_list_to_map by (by rewrite book_keys).
  rewrite list_elem_of_fmap. split.
  - intros (r & Hr & Hin). injection Hr as -> ->. by exists r.
  - intros (r & Hin & <- & <-). by exists r.
Qed.

Lemma book_insert l r :
  session_key r ∉ (session_key <$> l) -> book_of (l ++ [r]) = <[session_key r := entry_of r]> (book_of l).
Proof.
  intros Hn. unfold book_of. rewrite fmap_app. simpl. rewrite list_to_map_snoc; [done|]. by rewrite book_keys.
Qed.

Lemma book_update p f l P F :
  (forall r, p r = P (session_key r) (entry_of r)) ->
  (forall r, session_key (f r) = session_key r) -> (forall r, entry_of (f r) = F (entry_of r)) ->
  book_of (update_where p f l) = change_all P F (book_of l).
Proof.
  intros Hp Hk He. unfold book_of, change_all. induction l as [|r l IH]; csimpl; [by rewrite map_imap_empty|].
  erewrite map_imap_insert_Some; [|reflexivity]. rewrite IH, <- Hp.
  destruct (p r); [by rewrite Hk, He|done].
Qed.

Lemma change_all_lookup (p : Z * Z -> entry -> bool) (f : entry -> entry) (b : book) k :
  change_all p f b !! k = (fun e => if p k e then f e else e) <$> (b !! k).
Proof. unfold change_all. rewrite map_lookup_imap. by destruct (b !! k). Qed.
Lemma change_all_ext (p : Z * Z -> entry -> bool) (f g : entry -> entry) (b : book) :
  (forall k e, p k e = true -> f e = g e) -> change_all p f b = change_all p g b.
Proof.
  intros Hfg. apply map_eq. intros k. rewrite !change_all_lookup. destruct (b !! k) as [e|]; [|done].
  simpl. destruct (p k e) eqn:Ep; [|done]. by rewrite (Hfg k e Ep).
Qed.

(** A change of the one entry under a key. *)
Lemma change_one (b : book) (p : Z * Z -> entry -> bool) f k e :
  b !! k = Some e -> p k e = true -> (forall k' e', b !! k' = Some e' -> p k' e' = true -> k' = k) ->
  change_all p f b = <[k := f e]> b.
Proof.
  intros Hk Hp Hu. apply map_eq. intros k'. unfold change_all. rewrite map_lookup_imap.
  destruct (decide (k' = k)) as [->|Hne].
  - rewrite lookup_insert_eq, Hk. simpl. by rewrite Hp.
  - rewrite lookup_insert_ne by done. destruct (b !! k') as [e'|] eqn:Ek; [|done]. simpl.
    destruct (p k' e') eqn:Ep; [|done]. by destruct Hne, (Hu k' e').
Qed.

(** ** PostgreSQL keeps the promise *)

Section Postgres.
Context {E : Env} {R : Type}.
Implicit Type w : World R.

Definition stored_book (c : Ctx) w : book := book_of (user_sessions (cur_db c w)).
Definition stored_sound (c : Ctx) w : Prop := consistent (cur_db c w).

Lemma stored_sound_pool c w : ExtractTx c = false -> world_ok w -> stored_sound c w.
Proof. intros Hc [Hw _]. unfold stored_sound. by rewrite cur_db_pool. Qed.

Lemma stored_sound_ok c w : world_ok w -> stored_sound c w.
Proof.
  intros [Hw Ht]. unfold stored_sound, cur_db. destruct (ExtractTx c); [|exact Hw].
  destruct (w_tx w); [exact Ht|exact Hw].
Qed.
Lemma stored_lookup c w k e :
  stored_sound c w ->
  stored_book c w !! k = Some e <-> exists r, r ∈ user_sessions (cur_db c w) /\ session_key r = k /\ entry_of r = e.
Proof. intros Hc. apply book_lookup. exact (unique_session_device _ Hc). Qed.

Lemma stored_entry c w r :
  stored_sound c w -> r ∈ user_sessions (cur_db c w) -> stored_book c w !! session_key r = Some (entry_of r).
Proof. intros Hc Hr. apply stored_lookup; [exact Hc|]. exists r. by split. Qed.

(** An [UPDATE] of sessions that succeeded. *)
Lemma Exec_sessions c p f w w' n P F :
  (forall r, p r = P (session_key r) (entry_of r)) ->
  (forall t r, session_key (f t r) = session_key r) -> (forall t r, entry_of (f t r) = F (entry_of r)) ->
  Exec c (dml (fun now db sq => (sq, with_sessions (update_where p (f now)) db, affected p (user_sessions db)))) w
    = (w', Ok n) ->
  stored_sound c w' /\ stored_book c w' = change_all P F (stored_book c w) /\
  n = affected p (user_sessions (cur_db c w)).
Proof.
  intros Hp Hk He (t & sq & Hf & Hc)%Exec_dml. injection Hf as _ Hdb Hn. split; [exact Hc|]. split; [|done].
  unfold stored_book. rewrite <- Hdb. simpl. by apply book_update.
Qed.

Lemma revoked_null_entry r : SessionRepository.revoked_null r = not_revoked (entry_of r).
Proof. done. Qed.

Lemma stored_unique c w k1 k2 e1 e2 :
  stored_sound c w -> stored_book c w !! k1 = Some e1 -> stored_book c w !! k2 = Some e2 ->
  e_hash e1 = e_hash e2 \/ e_id e1 = e_id e2 -> k1 = k2.
Proof.
  intros Hc (r1 & H1 & <- & <-)%stored_lookup (r2 & H2 & <- & <-)%stored_lookup He; [|exact Hc..]. f_equal.
  destruct He as [He|He].
  - by apply (nodup_key_inj _ _ _ _ (unique_refresh_hash _ Hc)).
  - by apply (nodup_key_inj _ _ _ _ (unique_session_id _ Hc)).
Qed.

Lemma entry_shows r : shows (session_key r) (entry_of r) (mapSessionRowToEntity (session_of r)).
Proof. done. Qed.

Lemma stored_get c h fu w w' se :
  stored_sound c w -> SessionRepository.getByRefreshTokenHash c h fu w = (w', Ok se) ->
  stored_sound c w' /\ stored_book c w' = stored_book c w /\
  exists k e, stored_book c w !! k = Some e /\ e_hash e = h /\ shows k e se.
Proof.
  intros Hc (r & Hr & Hh & -> & Hd)%(session_GetByHash_inv c h fu).
  unfold stored_sound, stored_book. rewrite Hd. split; [done|]. split; [done|].
  exists (session_key r), (entry_of r). split; [|split; [done|apply entry_shows]].
  apply stored_lookup; [done|]. by exists r.
Qed.

(** The sessions a user may be listed with at [now]. *)
Definition listed (uid now : Z) (k : Z * Z) (e : entry) : bool :=
  (k.1 =? uid) && not_revoked e && (now <? e_expires e).

Lemma stored_list_now c uid w w' l :
  stored_sound c w -> SessionRepository.ListActiveByUserID c uid w = (w', Ok l) ->
  let now := pg_time (env_clock (w_ticks w)) in
  stored_sound c w' /\ stored_book c w' = stored_book c w /\
  (forall se, se ∈ l -> exists k e, stored_book c w !! k = Some e /\ listed uid now k e = true /\ shows k e se) /\
  (forall k e, stored_book c w !! k = Some e -> listed uid now k e = true -> exists se, se ∈ l /\ shows k e se).
Proof.
  intros Hc. unfold SessionRepository.ListActiveByUserID. intros (w0 & now & Hn & H)%bindM_ok.
  apply bindM_ok in H as (w1 & rows & Hq & Hm). unfold retM in Hm. injection Hm as <- <-.
  apply Query_select in Hq as [Hrows Hd]. rewrite (keeps_inv _ _ _ _ _ (nowM_cur c) Hn) in Hrows, Hd.
  unfold nowM in Hn. simpl in Hn. injection Hn as _ <-.
  unfold stored_sound, stored_book. rewrite Hd. split; [exact Hc|]. split; [reflexivity|]. split.
  - intros se (x & -> & Hx)%list_elem_of_fmap. apply list_elem_of_lookup in Hx as [i Hi].
    destruct (Forall2_lookup_r _ _ _ _ _ Hrows Hi) as (r & Hr & ->%scanSession_inv).
    apply list_elem_of_lookup_2 in Hr. rewrite order_by_perm in Hr. apply elem_of_where in Hr as [Hin Hp].
    exists (session_key r), (entry_of r). split; [|split; [exact Hp|apply entry_shows]].
    by apply (stored_entry c w).
  - intros k e (r & Hin & <- & <-)%(stored_lookup c w) Hp; [|exact Hc].
    assert (Hr : r ∈ order_by (desc Sessions.created_at) (where_ (fun s => (Sessions.user_id s =? uid) &&
      SessionRepository.revoked_null s && (pg_time (env_clock (w_ticks w)) <? Sessions.expires_at s))
      (user_sessions (cur_db c w)))).
    { rewrite order_by_perm. apply elem_of_where. split; [exact Hin|exact Hp]. }
    apply list_elem_of_lookup in Hr as [i Hi].
    destruct (Forall2_lookup_l _ _ _ _ _ Hrows Hi) as (x & Hx & ->%scanSession_inv).
    exists (mapSessionRowToEntity (session_of r)). split; [|apply entry_shows].
    apply list_elem_of_fmap. exists (session_of r). split; [reflexivity|]. by apply list_elem_of_lookup_2 in Hx.
Qed.
Lemma stored_list c uid w w' l :
  stored_sound c w -> SessionRepository.ListActiveByUserID c uid w = (w', Ok l) ->
  stored_sound c w' /\ stored_book c w' = stored_book c w /\
  exists now, let listed (k : Z * Z) e := (k.1 =? uid) && not_revoked e && (now <? e_expires e) in
    (forall se, se ∈ l -> exists k e, stored_book c w !! k = Some e /\ listed k e = true /\ shows k e se) /\
    (forall k e, stored_book c w !! k = Some e -> listed k e = true -> exists se, se ∈ l /\ shows k e se).
Proof.
  intros Hc (H1 & H2 & H3)%stored_list_now; [|exact Hc]. split; [exact H1|]. split; [exact H2|].
  by exists (pg_time (env_clock (w_ticks w))).
Qed.

Lemma stored_insert c se w w' se' :
  stored_sound c w -> SessionRepository.Insert c se w = (w', Ok se') ->
  let k := (Session.UserID se, Session.DeviceID se) in
  stored_sound c w' /\ stored_book c w !! k = None /\
  stored_book c w' = <[k := fresh_entry se se']> (stored_book c w).
Proof.
  intros Hc Hi k. unfold SessionRepository.Insert, SessionRepository.queryInsertSession in Hi.
  apply QueryRow_dml in Hi as (now & sq & row & rest & Hf & Hs & Hc'). cbv zeta in Hf.
  injection Hf as _ Hdb Hrow _. subst row. injection Hs as <-.
  assert (Hn : k ∉ (session_key <$> user_sessions (cur_db c w))).
  { pose proof (unique_session_device _ Hc') as Hu. rewrite <- Hdb in Hu. simpl in Hu.
    rewrite fmap_app in Hu. apply NoDup_app in Hu as (_ & Hu & _). intros Hin. apply (Hu k Hin). left. }
  split; [exact Hc'|]. split.
  - apply not_elem_of_list_to_map_1. by rewrite book_keys.
  - unfold stored_book. rewrite <- Hdb. simpl. by apply (book_insert _ (SessionRepository.new_row _ _ _ _ _ _ _ _ _ _)).
Qed.

Lemma stored_device c uid did w w' se :
  stored_sound c w -> SessionRepository.GetByDeviceID c uid did w = (w', Ok se) ->
  stored_sound c w' /\ stored_book c w' = stored_book c w /\
  exists e, stored_book c w !! (uid, did) = Some e /\ not_revoked e = true /\ Session.ID se = e_id e /\
    Session.RefreshTokenHash se = e_hash e.
Proof.
  intros Hc. unfold SessionRepository.GetByDeviceID. intros (w1 & x & Hq & Hm)%bindM_ok.
  apply or_not_found_ok in Hq.
  apply (QueryRow_select c user_sessions (where_ _)) in Hq as [(r & Hr & Hs) Hd].
  apply elem_of_where in Hr as [Hin [[Hu%Z.eqb_eq Hdv%Z.eqb_eq]%andb_true_iff Hn]%andb_true_iff].
  unfold retM in Hm. injection Hm as <- <-. unfold stored_sound, stored_book. rewrite Hd.
  split; [exact Hc|]. split; [reflexivity|]. exists (entry_of r). split.
  { apply stored_lookup; [exact Hc|]. exists r. split; [exact Hin|]. split; [|reflexivity].
    unfold session_key. by rewrite Hu, Hdv. }
  split; [exact Hn|].
  destruct r as [? ? ? ? ? ? ip [ua|] ?]; destruct ip; simpl in Hs; by simplify_eq.
Qed.

Lemma stored_upsert c se w w' se' :
  stored_sound c w -> SessionRepository.Upsert c se w = (w', Ok se') ->
  let k := (Session.UserID se, Session.DeviceID se) in
  stored_sound c w' /\ (forall e, stored_book c w !! k = Some e -> Session.ID se' = e_id e) /\
  stored_book c w' = <[k := fresh_entry se se']> (stored_book c w).
Proof.
  intros Hc Hu k. unfold SessionRepository.Upsert, SessionRepository.queryUpsertSession in Hu.
  apply QueryRow_dml in Hu as (now & sq & row & rest & Hf & Hs & Hc'). split; [exact Hc'|].
  revert Hf. cbv zeta. set (p := fun x => _ && _).
  assert (Hp : forall r, p r = bool_decide (session_key r = k)).
  { intros r. unfold p, session_key, k. destruct (Z.eqb_spec (Sessions.user_id r) (Session.UserID se)),
      (Z.eqb_spec (Sessions.device_id r) (Session.DeviceID se)); simpl; symmetry;
      [apply bool_decide_eq_true; congruence|apply bool_decide_eq_false; congruence..]. }
  destruct (where_ p (user_sessions (cur_db c w))) as [|old l] eqn:Ew; intros [= _ Hdb Hrow _];
    subst row; injection Hs as <-; unfold stored_book; rewrite <- Hdb; simpl.
  - assert (Hno : forall r, r ∈ user_sessions (cur_db c w) -> session_key r <> k).
    { intros r Hr. rewrite where_nil in Ew. specialize (Ew r Hr). rewrite Hp in Ew. by apply bool_decide_eq_false in Ew. }
    split.
    + intros e He. apply (proj1 (stored_lookup c w k e Hc)) in He as (r & Hr & Hk & _). by destruct (Hno r Hr).
    + apply book_insert. intros (r & Hk & Hr)%list_elem_of_fmap. by apply (Hno r Hr).
  - assert (Hold : old ∈ user_sessions (cur_db c w) /\ p old = true) by (apply elem_of_where; rewrite Ew; left).
    destruct Hold as [Hin Hpo]. rewrite Hp in Hpo. apply bool_decide_eq_true in Hpo.
    assert (Hlk : stored_book c w !! k = Some (entry_of old)) by (apply (stored_lookup c w); [exact Hc|by exists old]).
    fold (stored_book c w). split; [intros e He; rewrite Hlk in He; by simplify_eq|].
    rewrite (book_update _ _ _ (fun k' _ => bool_decide (k' = k))
      (fun e => mkEntry (e_id e) (Session.RefreshTokenHash se) (Session.SessionStatus se)
         (pg_time (Session.ExpiredAt se)) None (pg_time (Session.LastSeenAt se)) (Session.IPAddress se)
         (Some (Session.UserAgent se))) Hp); [|done|done].
    rewrite (change_one _ _ _ k (entry_of old)); [done|exact Hlk|by apply bool_decide_eq_true|].
    intros k' e' _ Hk'. by apply bool_decide_eq_true in Hk'.
Qed.

Lemma stored_update c se w w' :
  stored_sound c w -> SessionRepository.Update c se w = (w', Ok tt) ->
  stored_sound c w' /\
  stored_book c w' = change_all (fun _ e => e_id e =? Session.ID se)
    (rotate_entry (Session.RefreshTokenHash se) (pg_time (Session.ExpiredAt se))
      (pg_time (Session.LastSeenAt se))) (stored_book c w).
Proof.
  intros _. unfold SessionRepository.Update. intros (w1 & n & He & Hr)%bindM_ok. unfold retM in Hr.
  injection Hr as <-. eapply Exec_sessions in He as (H1 & H2 & _); [split; [exact H1|exact H2]|..]; by intros.
Qed.

Lemma stored_revoke_except c uid keep at_ w w' :
  stored_sound c w -> SessionRepository.RevokeAllExcept c uid keep at_ w = (w', Ok tt) ->
  stored_sound c w' /\
  stored_book c w' = change_all (fun k e => (k.1 =? uid) && negb (e_id e =? keep) && active e)
    (revoke_entry (pg_time at_) "revoked") (stored_book c w).
Proof.
  intros _. unfold SessionRepository.RevokeAllExcept. intros (w1 & n & He & Hr)%bindM_ok. unfold retM in Hr.
  injection Hr as <-. eapply Exec_sessions in He as (H1 & H2 & _); [split; [exact H1|exact H2]|..]; intros; try done.
  unfold active. by rewrite andb_assoc.
Qed.

Lemma stored_revoke_all_now c uid at_ w w' :
  stored_sound c w -> SessionRepository.RevokeAllByUserID c uid at_ w = (w', Ok tt) ->
  stored_sound c w' /\
  stored_book c w' = change_all (listed uid (pg_time (env_clock (w_ticks w))))
    (fun e => revoke_entry (pg_time at_) (e_status e) e) (stored_book c w).
Proof.
  intros _. unfold SessionRepository.RevokeAllByUserID. intros (w0 & now & Hn & H)%bindM_ok.
  apply bindM_ok in H as (w1 & n & He & Hr). unfold retM in Hr. injection Hr as <-.
  assert (Hv : stored_book c w0 = stored_book c w).
  { unfold stored_book. f_equal. f_equal. exact (keeps_inv _ _ _ _ _ (nowM_cur c) Hn). }
  unfold nowM in Hn. simpl in Hn. injection Hn as _ <-.
  eapply (Exec_sessions c _ _ _ _ _ (listed uid (pg_time (env_clock (w_ticks w))))
    (fun e => revoke_entry (default (pg_time at_) (e_revoked e)) (e_status e) e)) in He as (H1 & H2 & _); [|by intros..].
  split; [exact H1|]. rewrite H2, Hv. apply change_all_ext.
  intros k e [[_ Hrev]%andb_true_iff _]%andb_true_iff. unfold not_revoked in Hrev.
  unfold revoke_entry. by destruct (e_revoked e).
Qed.
Lemma stored_revoke_all c uid at_ w w' :
  stored_sound c w -> SessionRepository.RevokeAllByUserID c uid at_ w = (w', Ok tt) ->
  stored_sound c w' /\
  exists now, stored_book c w' = change_all (fun k e => (k.1 =? uid) && not_revoked e && (now <? e_expires e))
    (fun e => revoke_entry (pg_time at_) (e_status e) e) (stored_book c w).
Proof.
  intros Hc (H1 & H2)%stored_revoke_all_now; [|exact Hc]. split; [exact H1|].
  by exists (pg_time (env_clock (w_ticks w))).
Qed.

Lemma stored_revoke c did uid at_ w w' :
  stored_sound c w -> SessionRepository.Revoke c did uid at_ w = (w', Ok tt) ->
  stored_sound c w' /\
  exists e, stored_book c w !! (uid, did) = Some e /\ active e = true /\
    stored_book c w' = <[(uid, did) := revoke_entry (pg_time at_) "revoked" e]> (stored_book c w).
Proof.
  intros Hc. unfold SessionRepository.Revoke. intros (w1 & n & He & H)%bindM_ok.
  destruct (Z.eqb_spec n 0) as [|Hn]; [done|]. unfold retM in H. injection H as <-.
  eapply (Exec_sessions c _ _ _ _ _ (fun k e => (k.1 =? uid) && (k.2 =? did) && not_revoked e &&
    String.eqb (e_status e) "active") (revoke_entry (pg_time at_) "revoked")) in He as (H1 & H2 & Haff); [|by intros..].
  split; [exact H1|]. unfold affected in Haff.
  destruct (where_ _ (user_sessions (cur_db c w))) as [|r l] eqn:Ew; [done|].
  assert (Hr : r ∈ where_ _ (user_sessions (cur_db c w))) by (rewrite Ew; left).
  apply elem_of_where in Hr as [Hin [[[Hu%Z.eqb_eq Hd%Z.eqb_eq]%andb_true_iff Hrev]%andb_true_iff Hst]%andb_true_iff].
  exists (entry_of r). assert (Hk : stored_book c w !! (uid, did) = Some (entry_of r)).
  { apply (stored_lookup c w); [exact Hc|]. exists r. split; [done|]. split; [|done].
    unfold session_key. by rewrite Hu, Hd. }
  assert (Hact : active (entry_of r) = true).
  { unfold active. apply andb_true_iff. split; [exact Hrev|exact Hst]. }
  split; [exact Hk|]. split; [exact Hact|]. rewrite H2. apply change_one; [exact Hk| |].
  - simpl. rewrite !Z.eqb_refl. exact Hact.
  - intros [u d] e' _ [[[Hu'%Z.eqb_eq Hd'%Z.eqb_eq]%andb_true_iff _]%andb_true_iff _]%andb_true_iff.
    simpl in Hu', Hd'. congruence.
Qed.
End Postgres.

#[export] Instance postgres_session_laws {E : Env} {R : Type} :
  SessionRepoLaws (World R) stored_book stored_sound.
Proof.
  split.
  - apply stored_unique.
  - intros c h. apply (stored_get c h true).
  - intros c h. apply (stored_get c h false).
  - apply stored_list.
  - apply stored_insert.
  - apply stored_device.
  - apply stored_upsert.
  - apply stored_update.
  - apply stored_revoke.
  - apply stored_revoke_except.
  - apply stored_revoke_all.
Qed.

(** ** Runs of the interface and runs of the book *)

(** The abstract steps; the label is the device whose session is replaced by a new
    one, if any. *)
Inductive book_step : option (Z * Z) -> book -> book -> Prop :=
| BRead b : book_step None b b
| BUpsert k e b :
    (forall old, b !! k = Some old -> e_id e = e_id old) -> e_revoked e = None ->
    book_step (Some k) b (<[k := e]> b)
| BRotate id hash expires seen b :
    book_step None b (change_all (fun _ e => e_id e =? id) (rotate_entry hash expires seen) b)
| BRevoke k at_ e b :
    b !! k = Some e -> active e = true -> book_step None b (<[k := revoke_entry at_ "revoked" e]> b)
| BRevokeExcept uid keep at_ b :
    book_step None b (change_all (fun k e => (k.1 =? uid) && negb (e_id e =? keep) && active e)
      (revoke_entry at_ "revoked") b)
| BRevokeAll uid at_ now b :
    book_step None b (change_all (fun k e => (k.1 =? uid) && not_revoked e && (now <? e_expires e))
      (fun e => revoke_entry at_ (e_status e) e) b).

Inductive book_run : list (Z * Z) -> book -> book -> Prop :=
| book_done b : book_run [] b b
| book_more l ls b b1 b2 : book_step l b b1 -> book_run ls b1 b2 -> book_run (option_list l ++ ls) b b2.

Section Runs.
Context {S : Type} {SR : SessionRepo S} {view : Ctx -> S -> book} {sound_in : Ctx -> S -> Prop}.
Context {SL : SessionRepoLaws S view sound_in}.
Context (c : Ctx).

(** The calls of the interface, with the device whose session they replace. *)
Inductive session_call : option (Z * Z) -> forall A, M S A -> Prop :=
| SGet h : session_call None _ (sess_GetByRefreshTokenHashForUpdate c h)
| SFind h : session_call None _ (sess_GetByRefreshTokenHash c h)
| SList uid : session_call None _ (sess_ListActiveByUserID c uid)
| SInsert se : session_call (Some (Session.UserID se, Session.DeviceID se)) _ (sess_Insert c se)
| SDevice uid did : session_call None _ (sess_GetByDeviceID c uid did)
| SUpsert se : session_call (Some (Session.UserID se, Session.DeviceID se)) _ (sess_Upsert c se)
| SUpdate se : session_call None _ (sess_Update c se)
| SRevoke did uid at_ : session_call None _ (sess_Revoke c did uid at_)
| SRevokeExcept uid keep at_ : session_call None _ (sess_RevokeAllExcept c uid keep at_)
| SRevokeAll uid at_ : session_call None _ (sess_RevokeAllByUserID c uid at_).

(** Successful calls, one after the other. *)
Inductive session_run : list (Z * Z) -> S -> S -> Prop :=
| run_done st : session_run [] st st
| run_more l ls A (m : M S A) st st1 st2 x :
    session_call l A m -> m st = (st1, Ok x) -> session_run ls st1 st2 ->
    session_run (option_list l ++ ls) st st2.

Lemma session_call_step l A (m : M S A) st st' x :
  sound_in c st -> session_call l A m -> m st = (st', Ok x) ->
  sound_in c st' /\ book_step l (view c st) (view c st').
Proof.
  intros Hs Hc. destruct Hc; intros Hm; repeat match goal with x : unit |- _ => destruct x end.
  - destruct (law_get _ _ _ _ _ Hs Hm) as (H1 & -> & _). split; [done|constructor].
  - destruct (law_find _ _ _ _ _ Hs Hm) as (H1 & -> & _). split; [done|constructor].
  - destruct (law_list _ _ _ _ _ Hs Hm) as (H1 & -> & _). split; [done|constructor].
  - destruct (law_insert _ _ _ _ _ Hs Hm) as (H1 & H2 & ->). split; [done|]. constructor; [|done].
    intros old Ho. by rewrite H2 in Ho.
  - destruct (law_device _ _ _ _ _ _ Hs Hm) as (H1 & -> & _). split; [done|constructor].
  - destruct (law_upsert _ _ _ _ _ Hs Hm) as (H1 & H2 & ->). split; [done|]. by constructor.
  - destruct (law_update _ _ _ _ Hs Hm) as (H1 & ->). split; [done|constructor].
  - destruct (law_revoke _ _ _ _ _ _ Hs Hm) as (H1 & e & He & Ha & ->). split; [done|]. by constructor.
  - destruct (law_revoke_except _ _ _ _ _ _ Hs Hm) as (H1 & ->). split; [done|constructor].
  - destruct (law_revoke_all _ _ _ _ _ Hs Hm) as (H1 & now & ->). split; [done|constructor].
Qed.

(** Any implementation of the interface simulates the book. *)
Lemma session_run_sim ls st st' :
  sound_in c st -> session_run ls st st' -> sound_in c st' /\ book_run ls (view c st) (view c st').
Proof.
  intros Hs Hr. induction Hr as [st|l ls A m st st1 st2 x Hc Hm _ IH]; [split; [done|constructor]|].
  destruct (session_call_step l A m st st1 x Hs Hc Hm) as [Hs1 Hst]. destruct (IH Hs1) as [Hs2 Hr2].
  split; [done|]. by econstructor.
Qed.
End Runs.

(** A revoked session stays revoked until its device gets a new one. *)
Definition ended (b : book) (k : Z * Z) : Prop := exists e, b !! k = Some e /\ e_revoked e <> None.

Lemma book_step_ended l b b' k : book_step l b b' -> l <> Some k -> ended b k -> ended b' k.
Proof.
  intros Hs Hl (e & He & Hr). unfold ended. destruct Hs as [b|k' e' b Ho Hn|id h ex sn b|k' at_ e' b Hk Ha|uid kp at_ b|uid at_ now b].
  - by exists e.
  - exists e. rewrite lookup_insert_ne by congruence. done.
  - eexists. rewrite change_all_lookup, He. split; [reflexivity|]. by destruct (_ =? _).
  - destruct (decide (k' = k)) as [->|Hne]; [|exists e; by rewrite lookup_insert_ne].
    rewrite Hk in He. injection He as ->. unfold active, not_revoked in Ha. by destruct (e_revoked e).
  - eexists. rewrite change_all_lookup, He. split; [reflexivity|]. by destruct (_ && _).
  - eexists. rewrite change_all_lookup, He. split; [reflexivity|]. by destruct (_ && _).
Qed.

Lemma book_run_ended ls b b' k : book_run ls b b' -> k ∉ ls -> ended b k -> ended b' k.
Proof.
  induction 1 as [b|l ls b b1 b2 Hs _ IH]; [done|]. rewrite not_elem_of_app. intros [Hl Hls] Hb.
  apply IH; [done|]. eapply book_step_ended; [done| |done]. intros ->. apply Hl. left.
Qed.

(** C9: The session repository implements the contract of its interface. On a
    consistent database every run of successful calls of [SessionRepository] does to
    the table what the abstract operations do to a book of sessions with one entry
    per user and device (reads change nothing, [Insert] adds one
    for a device that has none, [Upsert] replaces the entry of the device and keeps its identifier, [Update] rotates one entry, the revocations
    change exactly the entries they name); so a session that was revoked stays
    revoked until its device logs in again. *)
Theorem session_repository_refines {E : Env} {R : Type} c ls (w w' : World R) :
  stored_sound c w -> session_run c ls w w' ->
  stored_sound c w' /\ book_run ls (stored_book c w) (stored_book c w') /\
  (forall k, k ∉ ls -> ended (stored_book c w) k -> ended (stored_book c w') k).
Proof.
  intros Hs Hr. destruct (session_run_sim c ls w w' Hs Hr) as [Hs' Hb]. split; [done|]. split; [done|].
  intros k Hk. by apply (book_run_ended ls).
Qed.

(** One call is a run. *)
Lemma revoke_run {E : Env} {R : Type} c did uid at_ (w w' : World R) :
  SessionRepository.Revoke c did uid at_ w = (w', Ok tt) -> session_run c [] w w'.
Proof. intros Hr. exact (run_more c None [] _ _ _ _ _ tt (SRevoke c did uid at_) Hr (run_done c _)). Qed.

(** Search through the interface: a call of it is the repository's method. *)
Ltac go_iface ::=
  progress cbn [sess_Update sess_Insert sess_GetByRefreshTokenHash sess_ListActiveByUserID sess_Revoke
    sess_GetByRefreshTokenHashForUpdate sess_RevokeAllByUserID sess_RevokeAllExcept sess_GetByDeviceID
    sess_Upsert NewSessionRepository].
