(* ===== verification/IdentityServices.v ===== *)
(** * The identity services

    [internal/modules/identity/app/service]: [AuthService], [ProfileService] and
    [AddressService], with the commands of [app/command] and the outputs of
    [app/dto]. The services run on the concrete repositories and adapters the
    program wires them with. A goroutine started by a handler is a task of the
    world, which [run_task] executes at some later point. *)

From Stdlib Require Import ZArith NArith String Ascii Lia.
From stdpp Require Import base strings list gmap.
From S2P Require Import Prelude GoStrings Config Crypto Json Domain Gin RedisClient Idempotency Schema.
From S2P Require Import Database Sql Kafka Outbox IdentityAdapters IdentityRepos SessionStore.

Local Open Scope Z_scope.

(** ** Commands and outputs *)

Module RegisterCommand.
Record t := mk { Email : string; Password : string; FullName : string; Phone : option string }.
End RegisterCommand.
Module LoginCommand.
Record t := mk {
  Email : string; Password : string; DeviceFingerprint : string; DeviceLabel : string;
  IPAddress : string; UserAgent : string
}.
End LoginCommand.
Module ChangePasswordCommand.
Record t := mk {
  UserID : Z; CurrentPassword : string; NewPassword : string; CurrentSessionID : Z
}.
End ChangePasswordCommand.
Module LogoutCommand.
Record t := mk { DeviceID : Z; UserID : Z }.
End LogoutCommand.
Module ResetPasswordCommand.
Record t := mk { Token : string; NewPassword : string }.
End ResetPasswordCommand.

Record RegisterOutput := mkRegisterOutput { ro_UserID : Z; ro_Email : string; ro_Message : string }.
(** [LoginOutput] and [RefreshTokenOutput] have the same fields. *)
Record LoginOutput := mkLoginOutput {
  AccessToken : string; RefreshToken_ : string; AccessTokenExpiresAt : Z; RefreshTokenExpiresAt : Z
}.

(** [dto/auth.go] *)
Definition ErrSameAsOldPassword : error := ENew "new password must be different from current password".
Definition ErrInvalidCurrentPassword : error := ENew "invalid current password".

(** ** The authentication service: [auth_service.go] *)

Record AuthService := mkAuthService {
  txManager : Manager;
  authManager : JWTConfig.t;
  registerPolicy : RegisterPolicy;
  devicePolicy : DevicePolicy
}.

Definition normalizeOptionalString (v : option string) : option string :=
  match v with
  | None => None
  | Some v => let v := TrimSpace v in if String.eqb v "" then None else Some v
  end.

Section AuthService.
Context {E : Env} {R : Type} {RC : RedisClient R} {RD : Rand} {U : Unicode} {MP : MailParser}.
Context {JW : JWT} {BC : Bcrypt}.
Context (s : AuthService).

(** The callback of the transaction: account, credential, token and event. *)
Definition register_tx (user : User.t) (hashedPassword : string) (now : Z) (txCtx : Ctx) :
    M (World R) User.t :=
  let! user := UserRepository.Insert txCtx user in
  do! CredentialRepository.Insert txCtx
        (Credential.mk (User.ID user) hashedPassword PasswordAlgoBcrypt now 0 None) in
  let! verifyToken := IssueVerifyToken (User.ID user) in
  do! PublishUserRegistered txCtx (User.ID user) (Email.value (User.Email user)) verifyToken in
  retM user.

Definition Register (ctx : Ctx) (cmd : RegisterCommand.t) : M (World R) RegisterOutput :=
  let! email := liftM (NewEmail (RegisterCommand.Email cmd)) in
  do! liftM (ValidateRegistration (registerPolicy s) email (RegisterCommand.Password cmd)) in
  let! taken := UserRepository.ExistsByEmail ctx email in
  if (taken : bool) then throwM ErrEmailAlreadyExist
  else
    let! hashedPassword := HashPassword (authManager s) (RegisterCommand.Password cmd) in
    let! now := nowM in
    let user := User.mk 0 email (TrimSpace (RegisterCommand.FullName cmd))
                  (normalizeOptionalString (RegisterCommand.Phone cmd)) UserTypeCustomer
                  UserStatusPendingVerification None None None None 1 zero_time zero_time in
    let! user := WithinTransaction (txManager s) ctx (Some (register_tx user hashedPassword now)) in
    retM (mkRegisterOutput (User.ID user) (Email.value (User.Email user))
            "Đăng ký thành công. Vui lòng xác minh email.").

(** [time.Duration(MaxSessionTTL) * 24 * time.Hour] *)
Definition ttlDuration : Z := wrap64 (wrap64 (MaxSessionTTL (devicePolicy s) * 24) * Hour).

(** Steps 1 to 5 of [Login]: the user, once the password is accepted. *)
Definition authenticate (ctx : Ctx) (cmd : LoginCommand.t) : M (World R) User.t :=
  let! email := liftM (NewEmail (LoginCommand.Email cmd)) in
  let! user := UserRepository.GetByEmail ctx email in
  if negb (CanLogin (User.Status user)) then throwM ErrInvalidCredentials
  else
    let! credential := CredentialRepository.GetByUserID ctx (User.ID user) in
    match VerifyPassword (LoginCommand.Password cmd) (Credential.PasswordHash credential) with
    | Err _ => throwM ErrInvalidCredentials
    | Ok _ => retM user
    end.

(** Steps 6 and 7: the device, registered or seen again. *)
Definition upsert_device (ctx : Ctx) (cmd : LoginCommand.t) (user : User.t) (now : Z) :
    M (World R) Device.t :=
  let! activeDevice := DeviceRepository.ListActiveByUserID ctx (User.ID user) in
  let fingerprint := TrimSpace (LoginCommand.DeviceFingerprint cmd) in
  let! existDevice := DeviceRepository.GetByFingerprint ctx (User.ID user) fingerprint in
  do! match existDevice with
      | None => liftM (CanRegisterNewDevice (devicePolicy s) activeDevice)
      | Some _ => retM tt
      end in
  let device := Device.mk
    (match existDevice with Some d => Device.ID d | None => 0 end) (User.ID user) fingerprint
    (LoginCommand.DeviceLabel cmd)
    (match existDevice with Some d => Device.FirstSeenAt d | None => now end) now None None None
    zero_time zero_time in
  DeviceRepository.Upsert ctx device.

Definition Login (ctx : Ctx) (cmd : LoginCommand.t) : M (World R) LoginOutput :=
  let! user := authenticate ctx cmd in
  let! now := nowM in
  let! device := upsert_device ctx cmd user now in
  let deviceID := Device.ID device in
  let! oldSession := attemptM (SessionRepository.GetByDeviceID ctx (User.ID user) deviceID) in
  do! match oldSession with
      | Ok old => do! attemptM (DeleteSession (Session.RefreshTokenHash old)) in retM tt
      | Err _ => retM tt
      end in
  let! rawRefreshToken := GenerateRefreshToken (authManager s) (User.ID user)
      (Email.value (User.Email user)) (User.UserType user) (FormatInt deviceID) in
  let! session := SessionRepository.Upsert ctx
      (Session.mk 0 (User.ID user) (HashToken rawRefreshToken) deviceID AccountStatusActive
         (now + ttlDuration) (Some (LoginCommand.IPAddress cmd)) (LoginCommand.UserAgent cmd) now
         None None zero_time zero_time) in
  let! access := GenerateAccessToken (authManager s) (User.ID user) (Email.value (User.Email user))
      (User.UserType user) (FormatInt (Session.ID session)) (FormatInt deviceID) in
  do! attemptM (StoreSession (Session.RefreshTokenHash session) session ttlDuration) in
  retM (mkLoginOutput access.1 rawRefreshToken access.2 (Session.ExpiredAt session)).

(** Step 1 of [RefreshToken]: the cached session, or the stored one. *)
Definition find_session (ctx : Ctx) (oldHash : string) : M (World R) Session.t :=
  let! cached := attemptM (GetSession oldHash) in
  match cached with
  | Ok (Some session) => retM session
  | _ =>
      let! x := attemptM (SessionRepository.GetByRefreshTokenHash ctx oldHash) in
      match x with
      | Err _ => throwM ErrInvalidCredentials
      | Ok session => retM session
      end
  end.

(** Step 5: the rotation inside the transaction, on any session repository. *)
Definition rotate_session {S : Type} {SR : SessionRepo S} (oldHash newHash : string) (now : Z) (txCtx : Ctx) :
    M S Session.t :=
  let! x := attemptM (sess_GetByRefreshTokenHashForUpdate txCtx oldHash) in
  match x with
  | Err _ => throwM ErrInvalidCredentials
  | Ok session =>
      let session := Session.with_ExpiredAt (Session.Rotate session newHash now) (now + ttlDuration) in
      do! sess_Update txCtx session in
      retM session
  end.

Definition RefreshToken (ctx : Ctx) (refreshToken : string) : M (World R) LoginOutput :=
  let oldHash := HashToken refreshToken in
  let! now := nowM in
  let! session := find_session ctx oldHash in
  if Session.IsRevoked session || negb (String.eqb (Session.SessionStatus session) AccountStatusActive)
  then throwM ErrSessionRevoked
  else if Session.IsExpired session now then throwM ErrSessionExpired
  else
    let! user := UserRepository.GetByID ctx (Session.UserID session) in
    let! newRawRefreshToken := GenerateRefreshToken (authManager s) (User.ID user)
        (Email.value (User.Email user)) (User.UserType user) (FormatInt (Session.DeviceID session)) in
    let newHash := HashToken newRawRefreshToken in
    let! access := GenerateAccessToken (authManager s) (User.ID user) (Email.value (User.Email user))
        (User.UserType user) (FormatInt (Session.ID session)) (FormatInt (Session.DeviceID session)) in
    let! session := WithinTransaction (txManager s) ctx (Some (rotate_session oldHash newHash now)) in
    do! attemptM (DeleteSession oldHash) in
    let! t := nowM in
    do! modifyM (add_task (TStoreSession newHash session (Session.ExpiredAt session - t))) in
    retM (mkLoginOutput access.1 newRawRefreshToken access.2 (Session.ExpiredAt session)).

(** The goroutine: takes one of the pending tasks. *)
Definition run_task (n : nat) : M (World R) unit := fun w =>
  match w_tasks w !! n with
  | None => (w, Ok tt)
  | Some (TStoreSession hash session ttl) =>
      let w := set_tasks (take n (w_tasks w) ++ drop (S n) (w_tasks w)) w in
      (fst (StoreSession hash session ttl w), Ok tt)
  end.

Definition Logout (ctx : Ctx) (cmd : LogoutCommand.t) : M (World R) unit :=
  let! now := nowM in
  SessionRepository.Revoke ctx (LogoutCommand.DeviceID cmd) (LogoutCommand.UserID cmd) now.

Definition VerifyEmail (ctx : Ctx) (token : string) : M (World R) unit :=
  let! userID := ParseVerifyToken token in
  let! now := nowM in
  UserRepository.MarkEmailVerified ctx userID now.

Definition ChangePassword (ctx : Ctx) (cmd : ChangePasswordCommand.t) : M (World R) unit :=
  let! credential := CredentialRepository.GetByUserID ctx (ChangePasswordCommand.UserID cmd) in
  let userID := Credential.UserID credential in
  match VerifyPassword (ChangePasswordCommand.CurrentPassword cmd) (Credential.PasswordHash credential) with
  | Err _ => throwM ErrInvalidCurrentPassword
  | Ok _ =>
      if String.eqb (ChangePasswordCommand.NewPassword cmd) (ChangePasswordCommand.CurrentPassword cmd)
      then throwM ErrSameAsOldPassword
      else
        let! newPasswordHash := HashPassword (authManager s) (ChangePasswordCommand.NewPassword cmd) in
        let! activeSessions := SessionRepository.ListActiveByUserID ctx userID in
        let hashesToDelete := map Session.RefreshTokenHash
          (where_ (fun x => negb (Session.ID x =? ChangePasswordCommand.CurrentSessionID cmd))
                  activeSessions) in
        let! now := nowM in
        do! WithinTransaction (txManager s) ctx (Some (fun txCtx =>
          do! CredentialRepository.UpdatePasswordHash txCtx userID newPasswordHash now in
          SessionRepository.RevokeAllExcept txCtx userID (ChangePasswordCommand.CurrentSessionID cmd) now)) in
        do! attemptM (DeleteSessions hashesToDelete) in
        retM tt
  end.

Definition ForgotPassword (ctx : Ctx) (email : string) : M (World R) unit :=
  let! email := liftM (NewEmail email) in
  let! x := attemptM (UserRepository.GetByEmail ctx email) in
  match x with
  | Err err => if Is err ErrUserNotFound then retM tt else throwM err
  | Ok user =>
      let! token := secureToken in
      do! StorePasswordResetToken token (User.ID user) (15 * Minute) in
      PublishResetPasswordRequested ctx (User.ID user) (Email.value (User.Email user)) token
  end.

Definition ResetPassword (ctx : Ctx) (cmd : ResetPasswordCommand.t) : M (World R) unit :=
  do! liftM (ValidatePassword (registerPolicy s) (ResetPasswordCommand.NewPassword cmd)) in
  let! x := attemptM (ParsePasswordResetToken (ResetPasswordCommand.Token cmd)) in
  match x with
  | Err _ => throwM ErrResetTokenExpired
  | Ok userID =>
      let! user := UserRepository.GetByID ctx userID in
      let! activeSessions := SessionRepository.ListActiveByUserID ctx userID in
      let hashesToDelete := map Session.RefreshTokenHash activeSessions in
      let! hashedPassword := HashPassword (authManager s) (ResetPasswordCommand.NewPassword cmd) in
      do! WithinTransaction (txManager s) ctx (Some (fun txctx =>
        let! now := nowM in
        do! CredentialRepository.UpdatePasswordHash txctx userID hashedPassword now in
        let! now := nowM in
        do! SessionRepository.RevokeAllByUserID txctx userID now in
        PublishResetPasswordCompleted txctx userID (Email.value (User.Email user)))) in
      do! attemptM (DeleteSessions hashesToDelete) in
      retM tt
  end.
End AuthService.

(** ** The profile service: [profile_service.go] *)

Section ProfileService.
Context {E : Env} {R : Type}.
Context (txManager : Manager).

Definition GetMe (ctx : Ctx) (userID : Z) : M (World R) MeView := QueryRepository.GetMe ctx userID.
Definition ListSessions (ctx : Ctx) (userID : Z) : M (World R) (list SessionView) :=
  QueryRepository.ListSessions ctx userID.
Definition ListDevices (ctx : Ctx) (userID : Z) : M (World R) (list DeviceView) :=
  QueryRepository.ListDevices ctx userID.
Definition ListAddresses (ctx : Ctx) (userID : Z) : M (World R) (list AddressView) :=
  QueryRepository.ListAddresses ctx userID.

Definition RevokeAllSessions (ctx : Ctx) (userID : Z) : M (World R) unit :=
  let! now := nowM in
  SessionRepository.RevokeAllByUserID ctx userID now.

Definition RevokeDevice (ctx : Ctx) (userID deviceID : Z) : M (World R) unit :=
  let! device := DeviceRepository.GetByID ctx deviceID in
  do! liftM (Device.AssertOwnership device userID) in
  let! now := nowM in
  WithinTransaction txManager ctx (Some (fun txCtx =>
    do! DeviceRepository.Revoke txCtx deviceID now in
    SessionRepository.RevokeAllByUserID txCtx userID now)).
End ProfileService.

(** ** The address service: [address_service.go] *)

(** [AddAddressCommand] and [UpdateAddressCommand]: the latter also has [ID]. *)
Module AddressCommand.
Record t := mk {
  ID : Z; UserID : Z; RecipientName : string; RecipientPhone : string; Line1 : string;
  Line2 : string; ProvinceCode : string; DistrictCode : string; WardCode : string;
  PostalCode : string; CountryCode : string; IsDefault : bool
}.
End AddressCommand.
Module DeleteAddressCommand.
Record t := mk { ID : Z; UserID : Z }.
End DeleteAddressCommand.

Section AddressService.
Context {E : Env} {R : Type}.
Context (txManager : Manager).

(** The trimmed fields of a command, on the identity of an address. *)
Definition fill_address (id userID version created updated : Z) (cmd : AddressCommand.t) : Address.t :=
  Address.mk id userID (TrimSpace (AddressCommand.RecipientName cmd))
    (TrimSpace (AddressCommand.RecipientPhone cmd)) (TrimSpace (AddressCommand.Line1 cmd))
    (TrimSpace (AddressCommand.Line2 cmd)) (TrimSpace (AddressCommand.ProvinceCode cmd))
    (TrimSpace (AddressCommand.DistrictCode cmd)) (TrimSpace (AddressCommand.WardCode cmd))
    (TrimSpace (AddressCommand.PostalCode cmd)) (TrimSpace (AddressCommand.CountryCode cmd))
    (AddressCommand.IsDefault cmd) version created updated.

Definition unset_others (txCtx : Ctx) (address : Address.t) : M (World R) unit :=
  if Address.IsDefault address
  then AddressRepository.UnsetDefaultByUserID txCtx (Address.UserID address) else retM tt.

Definition AddAddress (ctx : Ctx) (cmd : AddressCommand.t) : M (World R) Z :=
  let address := fill_address 0 (AddressCommand.UserID cmd) 0 zero_time zero_time cmd in
  WithinTransaction txManager ctx (Some (fun txCtx =>
    do! unset_others txCtx address in
    AddressRepository.Insert txCtx address)).

Definition UpdateAddress (ctx : Ctx) (cmd : AddressCommand.t) : M (World R) unit :=
  let! address := AddressRepository.GetByID ctx (AddressCommand.ID cmd) in
  do! liftM (Address.AssertOwnership address (AddressCommand.UserID cmd)) in
  let address := fill_address (Address.ID address) (Address.UserID address) (Address.Version address)
                   (Address.CreatedAt address) (Address.UpdatedAt address) cmd in
  WithinTransaction txManager ctx (Some (fun txCtx =>
    do! unset_others txCtx address in
    AddressRepository.Update txCtx address)).

Definition DeleteAddress (ctx : Ctx) (cmd : DeleteAddressCommand.t) : M (World R) unit :=
  let! address := AddressRepository.GetByID ctx (DeleteAddressCommand.ID cmd) in
  do! liftM (Address.AssertOwnership address (DeleteAddressCommand.UserID cmd)) in
  AddressRepository.Delete ctx (DeleteAddressCommand.ID cmd).
End AddressService.
