(* ===== verification/IdentitySpec.v ===== *)
(** * What the identity services guarantee

    Theorems about the services of IdentityServices: the schema as an invariant,
    registration, login, token rotation, password changes, one-time tokens,
    ownership of addresses and devices, and two places where the code does not do
    what it means to (the device limit and logout). *)

From Stdlib Require Import ZArith NArith String Ascii Lia.
From stdpp Require Import base strings list gmap.
From S2P Require Import Prelude GoStrings Crypto Json Domain Gin RedisClient Idempotency Schema.
From S2P Require Import Database Sql Kafka Outbox IdentityAdapters IdentityRepos SessionStore IdentityServices.

Local Open Scope Z_scope.

(** ** Frames of the remaining effects *)

Section Frames.
Context {E : Env} {R : Type} {BC : Bcrypt}.

Lemma HashPassword_ok a pw : preserves (world_ok (R:=R)) (HashPassword a pw).
Proof. intros w Hw. by destruct Hw. Qed.
Lemma HashPassword_past k a pw : preserves (past (R:=R) k) (HashPassword a pw).
Proof. by intros w Hw. Qed.
Lemma HashPassword_db a pw : keeps (w_db (R:=R)) (HashPassword a pw).
Proof. done. Qed.
Lemma HashPassword_cur ctx a pw : keeps (cur_db (R:=R) ctx) (HashPassword a pw).
Proof. done. Qed.
Lemma HashPassword_redis a pw : keeps (w_redis (R:=R)) (HashPassword a pw).
Proof. done. Qed.
Lemma add_task_ok t : preserves (world_ok (R:=R)) (modifyM (add_task t)).
Proof. intros w Hw. by destruct Hw. Qed.
Lemma add_task_past k t : preserves (past (R:=R) k) (modifyM (add_task t)).
Proof. by intros w Hw. Qed.
Lemma add_task_db t : keeps (w_db (R:=R)) (modifyM (add_task t)).
Proof. done. Qed.
Lemma nowM_redis : keeps (w_redis (R:=R)) nowM.
Proof. done. Qed.
Lemma NewString_redis : keeps (w_redis (R:=R)) NewString.
Proof. done. Qed.
End Frames.

#[export] Hint Resolve HashPassword_ok HashPassword_past HashPassword_db HashPassword_cur
  HashPassword_redis add_task_ok add_task_past add_task_db nowM_redis NewString_redis : go.

(** Forward steps through a bind that succeeded, with the database it leaves. *)
Ltac step H w x Hm := apply bindM_ok in H as (w & x & Hm & H).
(** The observation [f] before and after a call found by search. *)
Ltac frame f Hm :=
  let Hk := fresh in
  lazymatch type of Hm with
  | ?m ?w = (?w', _) =>
      assert (Hk : f w' = f w) by (refine (keeps_inv f m w w' _ _ Hm); go_world);
      clear Hm; rename Hk into Hm
  end.

Section Services.
Context {E : Env} {R : Type} {RC : RedisClient R} {RD : Rand} {U : Unicode} {MP : MailParser}.
Context {JW : JWT} {BC : Bcrypt}.
Implicit Type w : World R.

(** ** The schema is an invariant of every service *)

(** One call of a service, by any caller. *)
Inductive service_call (s : AuthService) : forall A, M (World R) A -> Prop :=
| call_Register ctx cmd : service_call s _ (Register s ctx cmd)
| call_Login ctx cmd : service_call s _ (Login s ctx cmd)
| call_RefreshToken ctx tok : service_call s _ (RefreshToken s ctx tok)
| call_Logout ctx cmd : service_call s _ (Logout ctx cmd)
| call_VerifyEmail ctx tok : service_call s _ (VerifyEmail ctx tok)
| call_ChangePassword ctx cmd : service_call s _ (ChangePassword s ctx cmd)
| call_ForgotPassword ctx email : service_call s _ (ForgotPassword ctx email)
| call_ResetPassword ctx cmd : service_call s _ (ResetPassword s ctx cmd)
| call_RevokeAllSessions ctx uid : service_call s _ (RevokeAllSessions ctx uid)
| call_RevokeDevice ctx uid did : service_call s _ (RevokeDevice (txManager s) ctx uid did)
| call_AddAddress ctx cmd : service_call s _ (AddAddress (txManager s) ctx cmd)
| call_UpdateAddress ctx cmd : service_call s _ (UpdateAddress (txManager s) ctx cmd)
| call_DeleteAddress ctx cmd : service_call s _ (DeleteAddress ctx cmd)
| call_task n : service_call s _ (run_task n).

(** The states reached by any sequence of calls, failing ones included. *)
Inductive service_reach (s : AuthService) : World R -> World R -> Prop :=
| reach_here w : service_reach s w w
| reach_call A (m : M (World R) A) w w1 w2 x :
    service_call s A m -> m w = (w1, x) -> service_reach s w1 w2 -> service_reach s w w2.

Lemma run_task_ok n : preserves world_ok (run_task (R:=R) n).
Proof.
  intros w Hw. unfold run_task. destruct (w_tasks w !! n) as [[h se ttl]|]; [|done].
  cbv zeta. set (w1 := set_tasks _ w). assert (H1 : world_ok w1) by (by destruct Hw).
  assert (Hp : preserves world_ok (StoreSession (R:=R) h se ttl)) by go_world. apply (Hp w1 H1).
Qed.
#[local] Hint Resolve run_task_ok : go.

Lemma service_call_ok s A m : service_call s A m -> preserves world_ok m.
Proof. destruct 1; go_world. Qed.

(** The database satisfies its schema (unique e-mails, token hashes and
    devices, at most one default address per user, no dangling references, valid
    states) after every sequence of service calls, whatever calls failed and
    wherever the driver or Redis broke. *)
Theorem services_keep_schema s w w' :
  world_ok w -> service_reach s w w' -> world_ok w'.
Proof.
  intros Hw Hr. induction Hr as [|A m w w1 w2 x Hc Hm _ IH]; [done|]. apply IH.
  assert (Hp := service_call_ok s A m Hc w Hw). by rewrite Hm in Hp.
Qed.

(** ** Login *)

Definition authenticated (db : DB) (email password : string) (u : Users.row) : Prop :=
  exists c, u ∈ users db /\ Users.email u = email /\ Users.account_status u = UserStatusActive /\
    c ∈ user_credentials db /\ Credentials.user_id c = Users.id u /\
    bcrypt_compare (Credentials.password_hash c) password = Ok tt.

Lemma authenticate_inv ctx cmd w w' user :
  authenticate ctx cmd w = (w', Ok user) ->
  exists email u, NewEmail (LoginCommand.Email cmd) = Ok email /\
    authenticated (cur_db ctx w) (Email.value email) (LoginCommand.Password cmd) u /\
    user_row user u /\ cur_db ctx w' = cur_db ctx w.
Proof.
  unfold authenticate. intros H. step H w1 email He. unfold liftM in He. injection He as -> He.
  step H w2 u Hu. apply user_GetByEmail_inv in Hu as (r & Hr & Hem & Hrow & Hc).
  assert (Hid := Hrow). destruct Hid as (Hid & _ & Hst & _).
  destruct (CanLogin (User.Status u)) eqn:El; [|done]. simpl in H.
  step H w3 c Hcr. apply credential_GetByUserID_inv in Hcr as (rc & Hrc & Hrid & -> & Hc3).
  destruct (VerifyPassword _ _) as [[]|] eqn:Ev; [|done]. unfold retM in H. simplify_eq.
  exists email, r. split; [done|]. split; [|split; congruence].
  exists rc. apply String.eqb_eq in El. rewrite <- Hc. repeat split; try done; congruence.
Qed.

(** The session that is returned carries the id of the row that was stored. *)
Lemma session_Upsert_inv ctx se w w' se' :
  SessionRepository.Upsert ctx se w = (w', Ok se') ->
  Session.RefreshTokenHash se' = Session.RefreshTokenHash se /\
  Session.ExpiredAt se' = Session.ExpiredAt se /\
  exists r, r ∈ user_sessions (cur_db ctx w') /\ Sessions.id r = Session.ID se' /\
    Sessions.user_id r = Session.UserID se /\
    Sessions.device_id r = Session.DeviceID se /\
    Sessions.refresh_token_hash r = Session.RefreshTokenHash se /\
    Sessions.session_status r = Session.SessionStatus se /\ Sessions.revoked_at r = None /\
    Sessions.expires_at r = pg_time (Session.ExpiredAt se).
Proof.
  unfold SessionRepository.Upsert, SessionRepository.queryUpsertSession.
  intros (now & sq & r & rest & Hf & Hs & _)%QueryRow_dml.
  assert (Hse : Session.RefreshTokenHash se' = Session.RefreshTokenHash se /\
                Session.ExpiredAt se' = Session.ExpiredAt se).
  { unfold SessionRepository.scan_stored, next, bindR, finish in Hs.
    repeat case_match; by simplify_eq. }
  assert (Hid : forall x, SessionRepository.scan_stored se (map (Sessions.column x) ["id"; "created_at"; "updated_at"]) = Ok se' ->
    Sessions.id x = Session.ID se').
  { intros x Hx. by injection Hx as <-. }
  destruct Hse as [H1 H2]. split; [done|]. split; [done|]. revert Hf.
  set (p := fun s0 => _ && _). destruct (where_ p (user_sessions (cur_db ctx w))) as [|old l] eqn:Ew;
    intros [= _ <- Hr _]; rewrite <- Hr in Hs; apply Hid in Hs.
  - eexists. split; [simpl; apply elem_of_app; right; left|]. done.
  - assert (Hold : old ∈ user_sessions (cur_db ctx w) /\ p old = true)
      by (apply elem_of_where; rewrite Ew; left).
    destruct Hold as [Hin Hp]. eexists. split.
    + simpl. apply elem_of_update_where. exists old. rewrite Hp. split; [done|reflexivity].
    + unfold p in Hp. apply andb_true_iff in Hp as [Hu Hd]. apply Z.eqb_eq in Hu, Hd. done.
Qed.

(** What a successful login found, stored and issued. *)
Lemma Login_inv s ctx cmd w w' out :
  Login s ctx cmd w = (w', Ok out) ->
  exists email user u r, NewEmail (LoginCommand.Email cmd) = Ok email /\
    authenticated (cur_db ctx w) (Email.value email) (LoginCommand.Password cmd) u /\ user_row user u /\
    (r ∈ user_sessions (cur_db ctx w') /\ Sessions.user_id r = Users.id u /\
     Sessions.refresh_token_hash r = HashToken (RefreshToken_ out) /\
     Sessions.session_status r = "active" /\ Sessions.revoked_at r = None /\
     Sessions.expires_at r = pg_time (RefreshTokenExpiresAt out)) /\
    exists wa wb : World R, GenerateAccessToken (authManager s) (Users.id u) (Email.value (User.Email user))
      (User.UserType user) (FormatInt (Sessions.id r)) (FormatInt (Sessions.device_id r)) wa =
      (wb, Ok (AccessToken out, AccessTokenExpiresAt out)).
Proof.
  unfold Login. intros H. step H w1 user Ha.
  apply authenticate_inv in Ha as (email & u & He & Hau & Hrow & _).
  step H w2 now Hn. step H w3 device Hd. step H w4 old Ho. step H w5 x Hx.
  step H w6 tok Ht. step H w7 se Hse. step H w8 acc Hacc. step H w9 y Hy.
  unfold retM in H. simplify_eq/=. apply session_Upsert_inv in Hse as (Hh & Hex & r & Hr & Hid & Hu & Hdv & Hrest).
  assert (Hgen := Hacc). frame (cur_db (R:=R) ctx) Hacc. frame (cur_db (R:=R) ctx) Hy.
  assert (Hru := Hrow). destruct Hru as [Hru _]. simpl in *.
  exists email, user, u, r. rewrite Hy, Hacc, Hex, Hu, Hru. split; [done|]. split; [done|]. split; [done|].
  split; [done|]. exists w7, w8. rewrite <- Hid, <- Hdv, Hru in Hgen. by destruct acc.
Qed.


(** The limit on devices is not enforced: [Login] behaves in the same way for
    every value of [MaxDevicesPerUser], because the repository answers an unknown
    fingerprint with a pointer to an empty device, which the test [existDevice ==
    nil] does not catch. *)
Theorem device_limit_unused tm a rp max1 max2 ttl ctx cmd w :
  Login (mkAuthService tm a rp (mkDevicePolicy max1 ttl)) ctx cmd w =
  Login (mkAuthService tm a rp (mkDevicePolicy max2 ttl)) ctx cmd w.
Proof.
  unfold Login. apply bindM_cong; [done|]. intros user w1 _. apply bindM_cong; [done|].
  intros now w2 _. apply bindM_cong; [|done].
  unfold upsert_device. apply bindM_cong; [done|]. intros l w3 _. apply bindM_cong; [done|].
  intros [d|] w4 Hf; [done|]. by apply GetByFingerprint_not_nil in Hf.
Qed.

(** ** Refresh tokens *)

Lemma inject_tx ctx : ExtractTx (inject ctx) = true.
Proof. done. Qed.
Lemma cur_begun ctx w : cur_db (inject ctx) (begun w) = w_db w.
Proof. done. Qed.

(** The rotation on any store that keeps the promise of the interface: it consumes
    the old hash, and every other session is as it was. *)
Lemma rotate_session_consumes {S} {SR : SessionRepo S} {view sound_in}
    {SL : SessionRepoLaws S view sound_in} s old new now c (st st' : S) se :
  sound_in c st -> new <> old -> rotate_session s old new now c st = (st', Ok se) ->
  sound_in c st' /\ (forall k e, view c st' !! k = Some e -> e_hash e <> old) /\
  exists k e, view c st !! k = Some e /\ e_hash e = old /\
    forall k', k' <> k -> view c st' !! k' = view c st !! k'.
Proof.
  intros Hs Hne H. unfold rotate_session in H. apply bindM_ok in H as (st1 & x & Hx & H).
  apply attemptM_inv in Hx. destruct x as [se0|]; [|done].
  destruct (law_get _ _ _ _ _ Hs Hx) as (Hs1 & Hv & k & e & Hk & Hh & Hid & _).
  apply bindM_ok in H as (st2 & [] & Hu & H). unfold retM in H. simplify_eq.
  destruct (law_update _ _ _ _ Hs1 Hu) as (Hs2 & Hv2). rewrite Hv in Hv2. split; [done|].
  assert (Hone : forall k' e', view c st !! k' = Some e' -> (e_id e' =? Session.ID se0) = true -> k' = k).
  { intros k' e' Hk' He'%Z.eqb_eq. eapply (law_unique c st); [done|done|done|]. right. congruence. }
  unfold Session.Rotate in Hv2. simpl in Hv2. split.
  - intros k' e'. rewrite Hv2, change_all_lookup. destruct (view c st !! k') as [e0|] eqn:Ek; [|done].
    simpl. destruct (e_id e0 =? Session.ID se0) eqn:Ei; intros [= <-]; [done|]. intros Heq.
    assert (k' = k) as -> by (eapply (law_unique c st); [done|done|done|left; congruence]).
    rewrite Hid in Ei. simplify_eq. by rewrite Z.eqb_refl in Ei.
  - exists k, e. split; [done|]. split; [done|]. intros k' Hne'. rewrite Hv2, change_all_lookup.
    destruct (view c st !! k') as [e'|] eqn:Ek; [|done]. simpl.
    destruct (e_id e' =? Session.ID se0) eqn:Ei; [|done]. by destruct (Hne' (Hone k' e' Ek Ei)).
Qed.

(** The rotation rewrites the one session that has the old hash: [rotated] is what
    the update statement makes of its row at the server's time [t]. *)
Definition rotated s (new : string) (now t : Z) (r : Sessions.row) : Sessions.row :=
  SessionRepository.set_row new (Sessions.session_status r) (pg_time (now + ttlDuration s))
    (Sessions.ip_address r) (Sessions.user_agent r) (pg_time now) (Sessions.revoked_at r) t r.

Lemma rotate_session_effect s old new now c w w' se :
  rotate_session s old new now c w = (w', Ok se) ->
  exists r t, r ∈ user_sessions (cur_db c w) /\ Sessions.refresh_token_hash r = old /\
    cur_db c w' = with_sessions (update_where (fun x => Sessions.id x =? Sessions.id r)
                                   (rotated s new now t)) (cur_db c w).
Proof.
  unfold rotate_session. go_iface. intros H. step H w1 x Hx. apply attemptM_inv in Hx.
  destruct x as [se0|]; [|done]. apply (session_GetByHash_inv c old true) in Hx as (r & Hr & Hh & -> & Hc).
  step H w2 y Hy. unfold SessionRepository.Update in Hy. step Hy w3 n He. unfold retM in Hy, H.
  simplify_eq. unfold SessionRepository.queryUpdateSession in He.
  apply Exec_dml in He as (t & sq & Hf & _). injection Hf as _ Hf _.
  rewrite Hc in Hf. by exists r, t.
Qed.

Lemma rotate_session_inv s old new now c w w' se :
  rotate_session s old new now c w = (w', Ok se) ->
  exists r f, r ∈ user_sessions (cur_db c w) /\ Sessions.refresh_token_hash r = old /\
    cur_db c w' = with_sessions (update_where (fun x => Sessions.id x =? Sessions.id r) f) (cur_db c w) /\
    (forall x, Sessions.refresh_token_hash (f x) = new /\ Sessions.id (f x) = Sessions.id x /\
       Sessions.user_id (f x) = Sessions.user_id x /\ Sessions.device_id (f x) = Sessions.device_id x).
Proof. intros (r & t & Hr & Hh & Hc)%rotate_session_effect. by exists r, (rotated s new now t). Qed.

(** What a successful refresh did: the transaction it ran, with the time it read first. *)
Lemma RefreshToken_ran s ctx tok w w' out :
  pool (txManager s) = true -> ExtractTx ctx = false ->
  RefreshToken s ctx tok w = (w', Ok out) ->
  exists w0 w1 se, w_db w0 = w_db w /\
    rotate_session s (HashToken tok) (HashToken (RefreshToken_ out)) (snd (Now w)) (inject ctx)
      (begun w0) = (w1, Ok se) /\ cur_db (inject ctx) w1 = w_db w'.
Proof.
  intros Hp Hc. unfold RefreshToken. intros H. step H w1 now Hn.
  assert (Hnow : snd (Now w) = now) by (unfold nowM in Hn; destruct (Now w); by simplify_eq/=).
  rewrite Hnow. clear Hnow. step H w2 se Hf.
  destruct (_ || _) eqn:E1; [done|]. destruct (Session.IsExpired se now) eqn:E2; [done|].
  step H w3 user Hu. step H w4 newTok Ht. step H w5 acc Ha. step H w6 se' Htx.
  step H w7 d Hd. step H w8 t Hn2. step H w9 u Hm. unfold retM in H. simplify_eq/=.
  frame (w_db (R:=R)) Hn. frame (w_db (R:=R)) Hf. frame (w_db (R:=R)) Hu. frame (w_db (R:=R)) Ht.
  frame (w_db (R:=R)) Ha. frame (w_db (R:=R)) Hd. frame (w_db (R:=R)) Hn2. frame (w_db (R:=R)) Hm.
  apply WithinTransaction_committed in Htx as (w10 & Hrot & Hdb & _ & _); [|done|done].
  exists w5, w10, se'. split; [congruence|]. split; [done|]. congruence.
Qed.

Lemma RefreshToken_inv s ctx tok w w' out :
  pool (txManager s) = true -> ExtractTx ctx = false ->
  RefreshToken s ctx tok w = (w', Ok out) ->
  exists w0 w1 now se, w_db w0 = w_db w /\
    rotate_session s (HashToken tok) (HashToken (RefreshToken_ out)) now (inject ctx) (begun w0)
      = (w1, Ok se) /\ cur_db (inject ctx) w1 = w_db w'.
Proof. intros Hp Hc (w0 & w1 & se & H)%RefreshToken_ran; [|done..]. by exists w0, w1, (snd (Now w)), se. Qed.

(** A token without a stored session is refused, whatever the cache says. *)
Lemma RefreshToken_unknown s ctx tok w w' x :
  pool (txManager s) = true -> ExtractTx ctx = false ->
  (forall r, r ∈ user_sessions (w_db w) -> Sessions.refresh_token_hash r <> HashToken tok) ->
  RefreshToken s ctx tok w = (w', x) -> exists e, x = Err e.
Proof.
  intros Hp Hc Hno Hx. destruct x as [out|e]; [|eauto]. exfalso.
  destruct (RefreshToken_inv s ctx tok w w' out Hp Hc Hx) as (w0 & w1 & now & se & Hdb & Hrot & _).
  apply rotate_session_inv in Hrot as (r & f & Hr & Hh & _). rewrite cur_begun, Hdb in Hr.
  by apply (Hno r Hr).
Qed.

(** The presented hash is gone, and no transaction is left open. *)
Lemma RefreshToken_consumes s ctx tok w w' out :
  world_ok w -> pool (txManager s) = true -> ExtractTx ctx = false ->
  RefreshToken s ctx tok w = (w', Ok out) -> HashToken (RefreshToken_ out) <> HashToken tok ->
  forall x, x ∈ user_sessions (w_db w') -> Sessions.refresh_token_hash x <> HashToken tok.
Proof.
  intros [Hdb _] Hp Hc Hr Hne x Hx.
  destruct (RefreshToken_inv s ctx tok w w' out Hp Hc Hr) as (w0 & w1 & now & se & Hw0 & Hrot & Hw').
  rewrite <- Hw' in Hx.
  assert (Hs : stored_sound (inject ctx) (begun w0)) by (unfold stored_sound; by rewrite cur_begun, Hw0).
  destruct (rotate_session_consumes _ _ _ _ _ _ _ _ Hs Hne Hrot) as (Hs' & Hold & _).
  apply (Hold (session_key x) (entry_of x)), stored_lookup; [done|]. by exists x.
Qed.
Lemma RefreshToken_closed s ctx tok w w' out :
  ExtractTx ctx = false -> RefreshToken s ctx tok w = (w', Ok out) -> w_tx w' = None.
Proof.
  intros Hc. unfold RefreshToken. intros H. step H w1 now Hn. step H w2 se Hf.
  destruct (_ || _) eqn:E1; [done|]. destruct (Session.IsExpired se now) eqn:E2; [done|].
  step H w3 user Hu. step H w4 newTok Ht. step H w5 acc Ha. step H w6 se' Htx.
  step H w7 d Hd. step H w8 t Hn2. step H w9 u Hm. unfold retM in H. simplify_eq/=.
  frame (w_tx (R:=R)) Hd. frame (w_tx (R:=R)) Hn2. unfold modifyM in Hm. simplify_eq/=.
  rewrite Hn2, Hd. by eapply WithinTransaction_closed.
Qed.

(** C4: The effect of a successful refresh, exactly. A session with the hash of the
    presented token was stored, and the only difference between the database before
    and after is in its row: it carries the hash of the returned token, is valid for
    the session lifetime from the time the call read and was last seen then, with
    every other column but [updated_at] as it was (the same user, device, status and
    revocation). Unless the returned token has the hash of the presented one, no
    session carries the presented hash any more. *)
Theorem refresh_rotates s ctx tok w w' out :
  world_ok w -> pool (txManager s) = true -> ExtractTx ctx = false ->
  RefreshToken s ctx tok w = (w', Ok out) ->
  exists r t, r ∈ user_sessions (w_db w) /\ Sessions.refresh_token_hash r = HashToken tok /\
    w_db w' = with_sessions (update_where (fun x => Sessions.id x =? Sessions.id r)
                (rotated s (HashToken (RefreshToken_ out)) (snd (Now w)) t)) (w_db w) /\
    (HashToken (RefreshToken_ out) <> HashToken tok ->
       forall x, x ∈ user_sessions (w_db w') -> Sessions.refresh_token_hash x <> HashToken tok).
Proof.
  intros Hok Hp Hc Hr. assert (Hgone := RefreshToken_consumes s ctx tok w w' out Hok Hp Hc Hr).
  destruct (RefreshToken_ran s ctx tok w w' out Hp Hc Hr) as (w0 & w1 & se & Hw0 & Hrot & Hw').
  apply rotate_session_effect in Hrot as (r & t & Hin & Hh & Hcur).
  rewrite cur_begun, Hw0 in Hin, Hcur. exists r, t. split; [done|]. split; [done|].
  split; [by rewrite <- Hw'|done].
Qed.
End Services.

(** ** Ownership *)

Section Ownership.
Context {E : Env} {R : Type}.
Implicit Type w : World R.

(** C25: Addresses belong to their user. An update or deletion of an address by
    another user fails and leaves the database unchanged. *)
Theorem address_ownership tm ctx r uid w :
  world_ok w -> ExtractTx ctx = false -> r ∈ addresses (w_db w) -> Addresses.user_id r <> uid ->
  (forall cmd w' x, AddressCommand.ID cmd = Addresses.id r -> AddressCommand.UserID cmd = uid ->
     UpdateAddress tm ctx cmd w = (w', x) -> (exists e, x = Err e) /\ w_db w' = w_db w) /\
  (forall w' x, DeleteAddress ctx (DeleteAddressCommand.mk (Addresses.id r) uid) w = (w', x) ->
     (exists e, x = Err e) /\ w_db w' = w_db w).
Proof.
  intros [Hdb _] Hc Hr Hne.
  assert (Hget : forall w1 a, AddressRepository.GetByID ctx (Addresses.id r) w = (w1, Ok a) ->
    Address.AssertOwnership a uid = Err ErrAddressNotOwned).
  { intros w1 a (r' & Hr' & Hid & -> & _)%address_GetByID_inv. rewrite cur_db_pool in Hr' by done.
    assert (r' = r) as -> by (by eapply (nodup_key_inj _ _ _ _ (unique_address_id _ Hdb))).
    unfold Address.AssertOwnership. simpl. by destruct (Z.eqb_spec (Addresses.user_id r) uid). }
  assert (Hk : keeps w_db (AddressRepository.GetByID (R:=R) ctx (Addresses.id r))) by go_world.
  specialize (Hk w). split.
  - intros cmd w' x Hid Hu. unfold UpdateAddress. rewrite Hid, Hu. unfold bindM at 1.
    destruct (AddressRepository.GetByID ctx (Addresses.id r) w) as [w1 [a|e]] eqn:Eg;
      [|intros; simplify_eq; eauto].
    unfold bindM at 1, liftM. rewrite (Hget _ _ eq_refl). intros. simplify_eq. eauto.
  - intros w' x. unfold DeleteAddress. simpl. unfold bindM at 1.
    destruct (AddressRepository.GetByID ctx (Addresses.id r) w) as [w1 [a|e]] eqn:Eg;
      [|intros; simplify_eq; eauto].
    unfold bindM at 1, liftM. rewrite (Hget _ _ eq_refl). intros. simplify_eq. eauto.
Qed.

(** Devices belong to their user: revoking another user's device fails and
    leaves the database, its sessions included, unchanged. *)
Theorem device_ownership tm ctx r uid w w' x :
  world_ok w -> ExtractTx ctx = false -> r ∈ user_devices (w_db w) -> Devices.user_id r <> uid ->
  RevokeDevice tm ctx uid (Devices.id r) w = (w', x) -> (exists e, x = Err e) /\ w_db w' = w_db w.
Proof.
  intros [Hdb _] Hc Hr Hne. unfold RevokeDevice. unfold bindM at 1.
  assert (Hk : keeps w_db (DeviceRepository.GetByID (R:=R) ctx (Devices.id r))) by go_world.
  specialize (Hk w).
  destruct (DeviceRepository.GetByID ctx (Devices.id r) w) as [w1 [d|e]] eqn:Eg;
    [|intros; simplify_eq; eauto].
  apply device_GetByID_inv in Eg as (r' & Hr' & Hid & Hu & _). rewrite cur_db_pool in Hr' by done.
  assert (r' = r) as -> by (by eapply (nodup_key_inj _ _ _ _ (unique_device_id _ Hdb))).
  unfold bindM at 1, liftM, Device.AssertOwnership. rewrite Hu.
  destruct (Z.eqb_spec (Devices.user_id r) uid); [done|]. simpl. intros. simplify_eq. eauto.
Qed.

(** ** Default addresses *)

Lemma unset_others_inv ctx a w w' :
  unset_others ctx a w = (w', Ok tt) -> Address.IsDefault a = true ->
  forall r, r ∈ addresses (cur_db ctx w') -> Addresses.user_id r = Address.UserID a ->
    Addresses.is_default r = false.
Proof.
  unfold unset_others. intros H Hd. rewrite Hd in H.
  unfold AddressRepository.UnsetDefaultByUserID, AddressRepository.queryUnsetDefaultByUserID in H.
  step H w1 n He. unfold retM in H. simplify_eq. apply Exec_dml in He as (t & sq & Hf & _).
  injection Hf as _ <- _. simpl. intros r (y & Hy & ->)%elem_of_update_where Hu.
  destruct (Addresses.user_id y =? Address.UserID a) eqn:Eu; [done|].
  rewrite Hu, Z.eqb_refl in Eu. done.
Qed.

Lemma address_Insert_inv ctx a w w' id :
  AddressRepository.Insert ctx a w = (w', Ok id) ->
  exists r, addresses (cur_db ctx w') = addresses (cur_db ctx w) ++ [r] /\ Addresses.id r = id /\
    Addresses.user_id r = Address.UserID a /\ Addresses.is_default r = Address.IsDefault a.
Proof.
  unfold AddressRepository.Insert, AddressRepository.queryInsertAddress.
  intros (now & sq & row & rest & Hf & Hs & _)%QueryRow_dml.
  injection Hf as _ Hdb Hrow _. subst row. unfold next, finish, d_int in Hs. simpl in Hs.
  injection Hs as <-. rewrite <- Hdb. simpl. eexists. split; [reflexivity|]. done.
Qed.

(** Adding a default address makes it the user's only default one. *)
Theorem AddAddress_default tm ctx cmd w w' id :
  pool tm = true -> ExtractTx ctx = false -> AddressCommand.IsDefault cmd = true ->
  AddAddress tm ctx cmd w = (w', Ok id) ->
  (exists r, r ∈ addresses (w_db w') /\ Addresses.id r = id /\
     Addresses.user_id r = AddressCommand.UserID cmd /\ Addresses.is_default r = true) /\
  (forall r, r ∈ addresses (w_db w') -> Addresses.user_id r = AddressCommand.UserID cmd ->
     Addresses.is_default r = true -> Addresses.id r = id).
Proof.
  intros Hp Hc Hd Ha. unfold AddAddress in Ha.
  set (a := fill_address _ _ _ _ _ cmd) in Ha.
  apply WithinTransaction_committed in Ha as (w1 & H & Hw' & _ & _); [|done|done]. step H w2 u Hu. destruct u.
  assert (Hun := unset_others_inv _ _ _ _ Hu Hd). apply address_Insert_inv in H as (r & Hl & Hid & Hur & Hdr).
  rewrite <- Hw', Hl. split.
  - exists r. split; [apply elem_of_app; right; left|]. by rewrite Hdr.
  - intros x [Hx|Hx]%elem_of_app Hux Hdx; [by rewrite (Hun x Hx Hux) in Hdx|].
    apply list_elem_of_singleton in Hx. by subst x.
Qed.
End Ownership.

(** ** Registration *)

Section Registration.
Context {E : Env} {R : Type} {RC : RedisClient R} {RD : Rand} {U : Unicode} {MP : MailParser}.
Context {BC : Bcrypt} {BL : BcryptLaws}.
Implicit Type w : World R.

Lemma user_Insert_inv ctx user w w' u' :
  UserRepository.Insert ctx user w = (w', Ok u') ->
  User.Email u' = User.Email user /\
  exists r, cur_db ctx w' = with_users (fun l => l ++ [r]) (cur_db ctx w) /\
    Users.id r = User.ID u' /\ Users.email r = Email.value (User.Email user) /\
    Users.account_status r = User.Status user /\
    Users.email_verified_at r = pg_time <$> User.EmailVerifiedAt user.
Proof.
  unfold UserRepository.Insert. intros H. step H w1 x Hx. apply attemptM_inv in Hx.
  destruct x as [id|e]; [|by destruct (isUniqueViolation e)]. unfold retM in H. simplify_eq.
  unfold UserRepository.queryInsertUser in Hx.
  apply QueryRow_dml in Hx as (now & sq & row & rest & Hf & Hs & _).
  injection Hf as _ Hdb Hrow _. subst row. unfold next, finish, d_int in Hs. simpl in Hs.
  injection Hs as <-. split; [done|]. rewrite <- Hdb. eexists. split; [reflexivity|]. done.
Qed.

Lemma credential_Insert_inv ctx c w w' :
  CredentialRepository.Insert ctx c w = (w', Ok tt) ->
  exists r, cur_db ctx w' = with_credentials (fun l => l ++ [r]) (cur_db ctx w) /\
    Credentials.user_id r = Credential.UserID c /\ Credentials.password_hash r = Credential.PasswordHash c.
Proof.
  unfold CredentialRepository.Insert, CredentialRepository.queryInsert. intros H. step H w1 n He.
  unfold retM in H. simplify_eq. apply Exec_dml in He as (t & sq & Hf & _). injection Hf as _ <- _.
  eexists. split; [reflexivity|]. done.
Qed.

Lemma PublishUserRegistered_inv ctx uid email tok w w' :
  PublishUserRegistered ctx uid email tok w = (w', Ok tt) ->
  exists e, cur_db ctx w' = with_outbox (fun l => l ++ [e]) (cur_db ctx w) /\
    OutboxEvents.state e = StatePending /\ OutboxEvents.event_type e = RegisterEvent /\
    OutboxEvents.aggregate_id e = Some (FormatInt uid).
Proof.
  unfold PublishUserRegistered. destruct (String.eqb tok ""); [done|]. intros H. step H w1 now Hn.
  frame (cur_db (R:=R) ctx) Hn. unfold record_or_wrap in H. step H w2 x Hx. apply attemptM_inv in Hx.
  destruct x as [[]|]; [|done]. unfold retM in H. simplify_eq.
  apply Record_inv in Hx as (seq & t & body & meta & Hdb & _).
  eexists. rewrite Hdb, Hn. split; [reflexivity|]. done.
Qed.

(** The body of the transaction of [Register]. *)
Lemma Register_tx_inv c user hash now w w' u' :
  register_tx user hash now c w = (w', Ok u') ->
  User.Email u' = User.Email user /\
  exists r cr e, cur_db c w' = with_outbox (fun l => l ++ [e])
      (with_credentials (fun l => l ++ [cr]) (with_users (fun l => l ++ [r]) (cur_db c w))) /\
    Users.id r = User.ID u' /\ Users.email r = Email.value (User.Email user) /\
    Users.account_status r = User.Status user /\
    Users.email_verified_at r = pg_time <$> User.EmailVerifiedAt user /\
    Credentials.user_id cr = User.ID u' /\ Credentials.password_hash cr = hash /\
    OutboxEvents.state e = StatePending /\ OutboxEvents.event_type e = RegisterEvent /\
    OutboxEvents.aggregate_id e = Some (FormatInt (User.ID u')).
Proof.
  unfold register_tx. intros H. step H w1 u Hu. step H w2 x Hc. step H w3 tok Ht. step H w4 y Hp. unfold retM in H.
  destruct x, y. simplify_eq. apply user_Insert_inv in Hu as (Hem & r & Hdb & H1 & H2 & H3 & H4).
  apply credential_Insert_inv in Hc as (cr & Hdb2 & H5 & H6). frame (cur_db (R:=R) c) Ht.
  apply PublishUserRegistered_inv in Hp as (e & Hdb3 & H7 & H8 & H9).
  split; [done|]. exists r, cr, e. rewrite Hdb3, Ht, Hdb2, Hdb. done.
Qed.

(** C20: Registration is all or nothing. A successful [Register] adds exactly one
    pending, unverified account with the normalised e-mail, its credential, whose
    hash accepts the password, and one pending event; a failed one changes nothing
    in the database, unless the commit call itself failed, which the error says. *)
Theorem Register_spec s ctx cmd w w' x :
  pool (txManager s) = true -> ExtractTx ctx = false -> Register s ctx cmd w = (w', x) ->
  match x with
  | Ok out => exists u c e, w_db w' = with_outbox (fun l => l ++ [e])
        (with_credentials (fun l => l ++ [c]) (with_users (fun l => l ++ [u]) (w_db w))) /\
      Users.id u = ro_UserID out /\ Users.email u = ro_Email out /\
      NewEmail (RegisterCommand.Email cmd) = Ok (Email.mk (ro_Email out)) /\
      Users.account_status u = UserStatusPendingVerification /\ Users.email_verified_at u = None /\
      Credentials.user_id c = Users.id u /\
      bcrypt_compare (Credentials.password_hash c) (RegisterCommand.Password cmd) = Ok tt /\
      OutboxEvents.state e = StatePending /\ OutboxEvents.event_type e = RegisterEvent /\
      OutboxEvents.aggregate_id e = Some (FormatInt (Users.id u))
  | Err e => w_db w' = w_db w \/ Is e ErrCommitFailed = true
  end.
Proof.
  intros Hp Hc H. unfold Register in H.
  apply bindM_out in H as [(w1 & email & He & H)|(e & He & ->)]; unfold liftM in He; [|simplify_eq; by left].
  injection He as <- He.
  apply bindM_out in H as [(w2 & v & Hv & H)|(e & Hv & ->)]; unfold liftM in Hv; [|simplify_eq; by left].
  injection Hv as <- Hv.
  apply bindM_out in H as [(w3 & taken & Ht & H)|(e & Ht & ->)]; frame (w_db (R:=R)) Ht; [|by left].
  destruct taken; [unfold throwM in H; simplify_eq; by left|].
  apply bindM_out in H as [(w4 & hash & Hh & H)|(e & Hh & ->)];
    [|frame (w_db (R:=R)) Hh; left; congruence].
  assert (Hb : bcrypt_compare hash (RegisterCommand.Password cmd) = Ok tt)
    by (unfold HashPassword in Hh; injection Hh as _ Hh; by apply bcrypt_accepts in Hh).
  frame (w_db (R:=R)) Hh.
  apply bindM_out in H as [(w5 & now & Hn & H)|(e & Hn & ->)]; frame (w_db (R:=R)) Hn; [|left; congruence].
  assert (Hold : w_db w5 = w_db w) by congruence. clear Ht Hh Hn.
  apply bindM_out in H as [(w6 & u' & Htx & H)|(e & Htx & ->)].
  - unfold retM in H. simplify_eq. apply WithinTransaction_committed in Htx as (w7 & Htx & Hw7 & _ & _);
      [|done|done].
    apply Register_tx_inv in Htx as (Hem & r & cr & e & Hdb & H1 & H2 & H3 & H4 & H5 & H6 & H7).
    simpl in *. exists r, cr, e. rewrite <- Hw7, Hdb, cur_begun, Hold, Hem, H6, H5, H2, H1.
    destruct email. by repeat (split; [done|]).
  - apply WithinTransaction_inv in Htx; [|done|done|].
    2:{ assert (Hi := inject_tx ctx). revert Hi. generalize (inject ctx). intros c Hi. go_world. }
    destruct Htx as [Heq|[Hi _]]; [left; congruence|by right].
Qed.
End Registration.

(** ** Passwords and one-time tokens *)

Section Passwords.
Context {E : Env} {R : Type} {RC : RedisClient R} {RV : RedisView R} {RL : RedisLaws R}.
Context {RD : Rand} {U : Unicode} {MP : MailParser} {BC : Bcrypt} {BL : BcryptLaws}.
Implicit Type w : World R.

Lemma UpdatePasswordHash_inv ctx uid hash at_ w w' :
  CredentialRepository.UpdatePasswordHash ctx uid hash at_ w = (w', Ok tt) ->
  (exists c, c ∈ user_credentials (cur_db ctx w') /\ Credentials.user_id c = uid) /\
  (forall c, c ∈ user_credentials (cur_db ctx w') -> Credentials.user_id c = uid ->
     Credentials.password_hash c = hash) /\
  user_sessions (cur_db ctx w') = user_sessions (cur_db ctx w).
Proof.
  unfold CredentialRepository.UpdatePasswordHash, CredentialRepository.queryUpdatePasswordHash.
  intros H. step H w1 n He. apply Exec_dml in He as (t & sq & Hf & _). injection Hf as _ Hdb Hn.
  destruct (Z.eqb_spec n 0) as [|Hnz]; [done|]. unfold retM in H. simplify_eq. rewrite <- Hdb. simpl.
  unfold affected in Hnz. set (p := fun c => Credentials.user_id c =? uid) in *.
  destruct (where_ p (user_credentials (cur_db ctx w))) as [|c l] eqn:Ew; [done|].
  assert (Hc : c ∈ user_credentials (cur_db ctx w) /\ p c = true)
    by (apply elem_of_where; rewrite Ew; left). destruct Hc as [Hin Hp].
  split; [|split; [|done]].
  - eexists. split; [apply elem_of_update_where; exists c; rewrite Hp; split; [done|reflexivity]|].
    by apply Z.eqb_eq in Hp.
  - intros x (y & Hy & ->)%elem_of_update_where Hu. destruct (p y) eqn:Ep; [done|].
    unfold p in Ep. rewrite Hu, Z.eqb_refl in Ep. done.
Qed.

(** The sessions after a revocation: those that were not expired at the reading
    of the clock are revoked. *)
Lemma RevokeAllByUserID_inv ctx uid rev w w' :
  SessionRepository.RevokeAllByUserID ctx uid rev w = (w', Ok tt) ->
  w_ticks w' = S (w_ticks w) /\
  user_credentials (cur_db ctx w') = user_credentials (cur_db ctx w) /\
  forall r, r ∈ user_sessions (cur_db ctx w') -> Sessions.user_id r = uid ->
    pg_time (env_clock (w_ticks w)) < Sessions.expires_at r -> Sessions.revoked_at r <> None.
Proof.
  unfold SessionRepository.RevokeAllByUserID, SessionRepository.queryRevokeAllByUserID.
  intros H. step H w1 now Hn. unfold nowM in Hn. simpl in Hn. injection Hn as <- <-.
  step H w2 n He. unfold retM in H. simplify_eq.
  assert (Ht := keeps_inv _ _ _ _ _ (run_ticks ctx _) He). apply Exec_dml in He as (t & sq & Hf & _).
  injection Hf as _ Hdb _. split; [done|]. rewrite <- Hdb. split; [done|]. simpl.
  intros r (y & Hy & ->)%elem_of_update_where. destruct (_ && _) eqn:Ep; [done|].
  intros Hu Hex Hnone. rewrite <- not_true_iff_false in Ep. apply Ep.
  unfold SessionRepository.revoked_null. rewrite Hu, Z.eqb_refl, Hnone. simpl. by apply Z.ltb_lt.
Qed.

Lemma Record_frame ctx p w w' :
  Record ctx p w = (w', Ok tt) ->
  user_sessions (cur_db ctx w') = user_sessions (cur_db ctx w) /\
  user_credentials (cur_db ctx w') = user_credentials (cur_db ctx w).
Proof. intros (a & b & c & d & -> & _)%Record_inv. done. Qed.

Lemma PublishResetPasswordCompleted_frame ctx uid email w w' :
  PublishResetPasswordCompleted (R:=R) ctx uid email w = (w', Ok tt) ->
  user_sessions (cur_db ctx w') = user_sessions (cur_db ctx w) /\
  user_credentials (cur_db ctx w') = user_credentials (cur_db ctx w) /\ (w_ticks w <= w_ticks w')%nat.
Proof.
  intros H. assert (Hpr : preserves (past (w_ticks w)) (PublishResetPasswordCompleted (R:=R) ctx uid email)) by go_world.
  specialize (Hpr w). rewrite H in Hpr. unfold PublishResetPasswordCompleted, record_or_wrap in H.
  step H w1 now Hn. frame (cur_db (R:=R) ctx) Hn. step H w2 x Hx. apply attemptM_inv in Hx.
  destruct x as [[]|]; [|done]. unfold retM in H. simplify_eq. apply Record_frame in Hx as [H1 H2].
  rewrite Hn in H1, H2. split; [done|]. split; [done|]. apply Hpr. unfold past. lia.
Qed.

(** C23: A reset changes the password and ends the sessions. After a successful
    [ResetPassword] the token was a stored one, the credentials of its user accept
    the new password, and every session of that user which had not expired by the
    end of the call is revoked in the database. *)
Theorem ResetPassword_spec s ctx cmd w w' :
  pool (txManager s) = true -> ExtractTx ctx = false -> ResetPassword s ctx cmd w = (w', Ok tt) ->
  exists v t uid,
    rd_abs (w_redis w) !! (resetPasswordPrefix +:+ HashToken (ResetPasswordCommand.Token cmd)) = Some (v, t) /\
    parse_stored v = Ok uid /\
    (exists c, c ∈ user_credentials (w_db w') /\ Credentials.user_id c = uid) /\
    (forall c, c ∈ user_credentials (w_db w') -> Credentials.user_id c = uid ->
       bcrypt_compare (Credentials.password_hash c) (ResetPasswordCommand.NewPassword cmd) = Ok tt) /\
    (forall r, r ∈ user_sessions (w_db w') -> Sessions.user_id r = uid ->
       (forall n, (n < w_ticks w')%nat -> pg_time (env_clock n) < Sessions.expires_at r) ->
       Sessions.revoked_at r <> None).
Proof.
  intros Hp Hc H. unfold ResetPassword in H. step H w1 u1 Hv. unfold liftM in Hv. injection Hv as <- Hv.
  step H w2 x Ht. apply attemptM_inv in Ht. destruct x as [uid|]; [|done].
  apply take_user_ok in Ht as [(v & t & Hl & Hps) _]. exists v, t, uid.
  step H w3 user Hu. step H w4 l Hls. step H w5 hash Hh. step H w6 y Htx. step H w7 z Hd.
  unfold retM in H. simplify_eq. split; [done|]. split; [done|].
  assert (Hb : bcrypt_compare hash (ResetPasswordCommand.NewPassword cmd) = Ok tt)
    by (unfold HashPassword in Hh; injection Hh as _ Hh; by apply bcrypt_accepts in Hh).
  apply WithinTransaction_committed in Htx as (wt & Htx & Hdb & Htk & _); [|done|done].
  assert (Hpast : (w_ticks wt <= w_ticks w')%nat).
  { assert (Hpr : preserves (past (w_ticks w6)) (attemptM (DeleteSessions (R:=R) (map Session.RefreshTokenHash l)))) by go_world.
    specialize (Hpr w6). rewrite Hd in Hpr. rewrite <- Htk. apply Hpr. unfold past. lia. }
  frame (w_db (R:=R)) Hd. rewrite Hd, <- Hdb. clear Hdb Hd Htk.
  step Htx wa now1 Hn1. step Htx wb q1 Hq1. step Htx wc now2 Hn2. step Htx wd q2 Hq2. destruct y, q1, q2.
  apply UpdatePasswordHash_inv in Hq1 as (Hc1 & Hc2 & _). frame (cur_db (R:=R) (inject ctx)) Hn2.
  apply RevokeAllByUserID_inv in Hq2 as (Hk & Hcr & Hrev).
  apply PublishResetPasswordCompleted_frame in Htx as (Hs1 & Hs2 & Hlast). rewrite Hs1, Hs2, Hcr, Hn2. split; [done|]. split.
  - intros c Hin Hu'. by rewrite (Hc2 c Hin Hu').
  - intros r Hr Hur Hex. apply (Hrev r Hr Hur). apply Hex. lia.
Qed.

(** *** One-time tokens *)

Lemma DeleteSessions_missing k hashes w w' x :
  rd_abs (w_redis w) !! k = None -> DeleteSessions hashes w = (w', x) ->
  rd_abs (w_redis w') !! k = None.
Proof.
  intros Hk. unfold DeleteSessions. destruct hashes as [|h l]; [unfold retM; intros; by simplify_eq|].
  set (keys := map _ _). unfold bindM, attemptM.
  assert (Hfold : foldr delete (rd_abs (w_redis w)) keys !! k = None).
  { generalize keys. induction keys0 as [|y ks IH]; simpl; [done|].
    destruct (decide (y = k)) as [->|]; [apply lookup_delete_eq|by rewrite lookup_delete_ne]. }
  destruct (redisM (rdb_Del keys) w) as [w1 y] eqn:Er. apply redisM_world in Er as (r & Er & ->).
  assert (Hr : rd_abs r !! k = None).
  { unfold rdb_Del in Er. apply do_then in Er as [(rep & Hs & _)|(e & _ & _ & [->| ->])]; simpl in *; [|done|done].
    by injection Hs as <- _. }
  destruct y; unfold retM, throwM; intros; by simplify_eq.
Qed.

Lemma ResetPassword_taken s ctx cmd w w' :
  ResetPassword s ctx cmd w = (w', Ok tt) ->
  rd_abs (w_redis w') !! (resetPasswordPrefix +:+ HashToken (ResetPasswordCommand.Token cmd)) = None.
Proof.
  unfold ResetPassword. intros H. step H w1 u1 Hv. unfold liftM in Hv. injection Hv as <- Hv.
  step H w2 x Ht. apply attemptM_inv in Ht. destruct x as [uid|]; [|done].
  apply take_user_ok in Ht as [_ (r & -> & Hr)].
  step H w3 user Hu. step H w4 l Hls. step H w5 hash Hh. step H w6 y Htx. step H w7 z Hd.
  unfold retM in H. simplify_eq. frame (w_redis (R:=R)) Hu. frame (w_redis (R:=R)) Hls.
  frame (w_redis (R:=R)) Hh. apply (keeps_inv w_redis) in Htx; [|apply WithinTransaction_redis; go_world].
  apply attemptM_inv in Hd. eapply DeleteSessions_missing; [|exact Hd].
  rewrite Htx, Hh, Hls, Hu. simpl. rewrite Hr. apply lookup_delete_eq.
Qed.

(** C24: Verification and reset tokens work once: after a success, a second call
    with the same token fails and leaves the database unchanged. *)
Theorem one_time_tokens ctx w :
  (forall tok w1 w2 x, VerifyEmail ctx tok w = (w1, Ok tt) -> VerifyEmail ctx tok w1 = (w2, x) ->
     (exists e, x = Err e) /\ w_db w2 = w_db w1) /\
  (forall s cmd cmd' w1 w2 x, ResetPasswordCommand.Token cmd' = ResetPasswordCommand.Token cmd ->
     ResetPassword s ctx cmd w = (w1, Ok tt) -> ResetPassword s ctx cmd' w1 = (w2, x) ->
     (exists e, x = Err e) /\ w_db w2 = w_db w1).
Proof.
  split.
  - intros tok w1 w2 x H H2. unfold VerifyEmail in *. step H wa uid Ht. step H wb now Hn.
    apply take_user_ok in Ht as [_ (r & -> & Hr)]. frame (w_redis (R:=R)) Hn. frame (w_redis (R:=R)) H.
    unfold bindM at 1 in H2. destruct (ParseVerifyToken tok w1) as [wc y] eqn:Ep.
    apply take_user_missing in Ep as ([e ->] & Hdb & _); [simplify_eq; eauto|].
    rewrite H, Hn. simpl. rewrite Hr. apply lookup_delete_eq.
  - intros s cmd cmd' w1 w2 x Htok H%ResetPassword_taken H2. unfold ResetPassword in H2.
    apply bindM_out in H2 as [(w3 & u & Hv & H2)|(e & Hv & ->)]; unfold liftM in Hv; [|simplify_eq; eauto].
    injection Hv as <- _. unfold bindM at 1, attemptM in H2. rewrite Htok in H2.
    destruct (ParsePasswordResetToken (ResetPasswordCommand.Token cmd) w1) as [wc y] eqn:Ep.
    apply take_user_missing in Ep as ([e ->] & Hdb & _); [|done].
    unfold throwM in H2. simplify_eq. eauto.
Qed.

(** *** Changing the password *)

Lemma RevokeAllExcept_inv ctx uid keep rev w w' :
  SessionRepository.RevokeAllExcept ctx uid keep rev w = (w', Ok tt) ->
  user_credentials (cur_db ctx w') = user_credentials (cur_db ctx w) /\
  (forall r, r ∈ user_sessions (cur_db ctx w) ->
     Sessions.id r = keep \/ Sessions.user_id r <> uid -> r ∈ user_sessions (cur_db ctx w')) /\
  (forall r, r ∈ user_sessions (cur_db ctx w') -> Sessions.user_id r = uid -> Sessions.id r <> keep ->
     Sessions.session_status r = "active" -> Sessions.revoked_at r <> None).
Proof.
  unfold SessionRepository.RevokeAllExcept, SessionRepository.queryRevokeAllExcept.
  intros H. step H w1 n He. unfold retM in H. simplify_eq. apply Exec_dml in He as (t & sq & Hf & _).
  injection Hf as _ <- _. simpl. split; [done|]. split.
  - intros r Hr Hk. apply elem_of_update_where. exists r. split; [done|].
    destruct Hk as [->|Hu]; [rewrite Z.eqb_refl; simpl; by rewrite andb_false_r|].
    by rewrite (proj2 (Z.eqb_neq _ _) Hu).
  - intros r (y & Hy & ->)%elem_of_update_where. destruct (_ && _) eqn:Ep; [done|].
    intros Hu Hid Hst Hnone. rewrite <- not_true_iff_false in Ep. apply Ep.
    unfold SessionRepository.revoked_null.
    by rewrite Hu, Z.eqb_refl, Hnone, Hst, (proj2 (Z.eqb_neq _ _) Hid).
Qed.

(** C26: Changing the password needs the current one, keeps the session it is
    changed from and ends the user's others: afterwards the credentials accept the
    new password, the current session's row is as before, and no other session of
    the user is active and unrevoked. *)
Theorem ChangePassword_spec s ctx cmd w w' :
  pool (txManager s) = true -> ExtractTx ctx = false -> ChangePassword s ctx cmd w = (w', Ok tt) ->
  let uid := ChangePasswordCommand.UserID cmd in
  (exists c, c ∈ user_credentials (w_db w) /\ Credentials.user_id c = uid /\
     bcrypt_compare (Credentials.password_hash c) (ChangePasswordCommand.CurrentPassword cmd) = Ok tt) /\
  (forall c, c ∈ user_credentials (w_db w') -> Credentials.user_id c = uid ->
     bcrypt_compare (Credentials.password_hash c) (ChangePasswordCommand.NewPassword cmd) = Ok tt) /\
  (forall r, r ∈ user_sessions (w_db w) -> Sessions.id r = ChangePasswordCommand.CurrentSessionID cmd ->
     r ∈ user_sessions (w_db w')) /\
  (forall r, r ∈ user_sessions (w_db w') -> Sessions.user_id r = uid ->
     Sessions.id r <> ChangePasswordCommand.CurrentSessionID cmd ->
     Sessions.session_status r = "active" -> Sessions.revoked_at r <> None).
Proof.
  intros Hp Hc H uid. unfold ChangePassword in H. step H w1 c Hcr.
  assert (Hdb1 := Hcr). frame (w_db (R:=R)) Hdb1.
  apply credential_GetByUserID_inv in Hcr as (rc & Hrc & Hid & -> & _).
  rewrite cur_db_pool in Hrc by done. cbn [mapCredentialRowToEntity credential_of Credential.UserID
    Credential.PasswordHash credentialRow.UserID credentialRow.PasswordHash] in H. rewrite Hid in H.
  destruct (VerifyPassword _ _) as [[]|] eqn:Ev; [|done]. destruct (String.eqb _ _); [done|].
  step H w2 hash Hh. step H w3 l Hl. step H w4 now Hn. step H w5 y Htx. step H w6 z Hd.
  unfold retM in H. simplify_eq.
  assert (Hb : bcrypt_compare hash (ChangePasswordCommand.NewPassword cmd) = Ok tt)
    by (unfold HashPassword in Hh; injection Hh as _ Hh; by apply bcrypt_accepts in Hh).
  frame (w_db (R:=R)) Hh. frame (w_db (R:=R)) Hl. frame (w_db (R:=R)) Hn. frame (w_db (R:=R)) Hd.
  apply WithinTransaction_committed in Htx as (wt & Htx & Hdb & _ & _); [|done|done].
  step Htx wa q Hq. destruct y, q. apply UpdatePasswordHash_inv in Hq as (_ & Hc2 & Hs).
  apply RevokeAllExcept_inv in Htx as (Hcc & Hkeep & Hrev). rewrite Hs, cur_begun in Hkeep.
  rewrite Hd, <- Hdb, Hcc. split; [by exists rc|]. split; [|split; [|done]].
  - intros c Hin Hu. by rewrite (Hc2 c Hin Hu).
  - intros r Hr Hk. apply Hkeep; [congruence|by left].
Qed.

(** [ForgotPassword] does not tell whether an address is registered: for one
    that is not, it answers with success (or a driver error) and changes neither
    the database nor Redis. *)
Theorem ForgotPassword_unknown ctx raw email w w' x :
  ExtractTx ctx = false -> NewEmail raw = Ok email ->
  (forall u, u ∈ users (w_db w) -> Users.email u <> Email.value email) ->
  ForgotPassword ctx raw w = (w', x) ->
  (x = Ok tt \/ exists text, x = Err (EIO text)) /\ w_db w' = w_db w /\ w_redis w' = w_redis w.
Proof.
  intros Hc He Hno. unfold ForgotPassword. rewrite He. unfold bindM at 1, liftM.
  assert (Hw : where_ (fun u => String.eqb (Users.email u) (Email.value email)) (users (w_db w)) = []).
  { apply where_nil. intros u Hu. apply String.eqb_neq. by apply Hno. }
  unfold bindM at 1, attemptM, UserRepository.GetByEmail, or_not_found, QueryRow, run, GetExecutor.
  rewrite Hc. unfold bindM, attemptM, run_pool, UserRepository.queryGetUserByEmail. simpl. rewrite Hw.
  destruct (pg_fault (w_pg w)) as [[[] e]|]; simpl; unfold throwM, retM; intros; simplify_eq/=; eauto 6.
Qed.
End Passwords.

(** ** A run of the services *)

Module Scenario.
Import IdentityDemo.

Definition service : AuthService :=
  mkAuthService (mkManager true) demo_jwt_config NewRegisterPolicy NewDevicePolicy.

(** Ann registers, verifies her address and logs in. *)
Definition register : RegisterCommand.t := RegisterCommand.mk "Ann@Shop.vn" "SuperSecret123" " Ann " (Some "0900").
Definition registered : World Script.t * result RegisterOutput :=
  Register service Background register demo_world.

(** The token in the payload of the last event of the outbox, as the mail shows it. *)
Definition mailed_token (w : World Script.t) : string :=
  match List.last (map OutboxEvents.payload (outbox_events (w_db w))) JNull with
  | JObj f => match jfield "payload" f with
              | Some (JObj g) => match jfield "token" g with Some (JStr t) => t | _ => "" end
              | _ => ""
              end
  | _ => ""
  end.
Definition verified : World Script.t * result unit :=
  VerifyEmail Background (mailed_token (fst registered)) (fst registered).
Definition login : LoginCommand.t :=
  LoginCommand.mk "ann@shop.vn" "SuperSecret123" "fp1" "phone" "10.0.0.1" "curl".
Definition logged_in : World Script.t * result LoginOutput :=
  Login service Background login (fst verified).
Definition refresh_token : string :=
  match snd logged_in with Ok out => RefreshToken_ out | Err _ => "" end.
Definition refreshed : World Script.t * result LoginOutput :=
  RefreshToken service Background refresh_token (fst logged_in).
Definition forgot : World Script.t * result unit :=
  ForgotPassword Background "ann@shop.vn" (fst logged_in).
Definition reset : ResetPasswordCommand.t :=
  ResetPasswordCommand.mk (mailed_token (fst forgot)) "NewSecret456".
Definition reset_done : World Script.t * result unit :=
  ResetPassword service Background reset (fst forgot).
Definition change : ChangePasswordCommand.t := ChangePasswordCommand.mk 1 "SuperSecret123" "Other789x" 1.
Definition home : AddressCommand.t :=
  AddressCommand.mk 0 1 "Ann" "0900" "1 Main St" "" "HN" "D1" "W1" "" "VN" true.
Definition with_home : World Script.t * result Z := AddAddress (mkManager true) Background home (fst logged_in).

(** A result of a computed run. *)
Ltac run_it := vm_compute; reflexivity.

Lemma demo_ok : world_ok demo_world.
Proof. split; [run_it|exact I]. Qed.
Lemma logged_in_ok : world_ok (fst logged_in).
Proof. split; [run_it|exact I]. Qed.
Lemma with_home_ok : world_ok (fst with_home).
Proof. split; [run_it|exact I]. Qed.

(** A pair is its components. *)
Lemma split_run {A B} (p : A * B) b : snd p = b -> p = (fst p, b).
Proof. destruct p. simpl. by intros ->. Qed.

(** Logout does not end the session: after Ann has logged out and every session
    in the database is revoked, the refresh token of the session still gives new
    tokens, because the cached copy of the session is neither deleted nor marked. *)
Theorem logout_leaves_token_usable :
  let out := Logout Background (LogoutCommand.mk 1 1) (fst logged_in) in
  snd out = Ok tt /\
  forallb (fun r => negb (SessionRepository.revoked_null r)) (user_sessions (w_db (fst out))) = true /\
  isOk (snd (RefreshToken service Background refresh_token (fst out))) = true.
Proof. split; [run_it|]. split; run_it. Qed.

(** The steps of the run as equations. *)
Lemma registered_eq : Register service Background register demo_world = (fst registered, snd registered).
Proof. unfold registered. by destruct (Register _ _ _ _). Qed.
Lemma verified_eq :
  VerifyEmail Background (mailed_token (fst registered)) (fst registered) = (fst verified, snd verified).
Proof. unfold verified. by destruct (VerifyEmail _ _ _). Qed.
Lemma logged_in_eq : Login service Background login (fst verified) = (fst logged_in, snd logged_in).
Proof. unfold logged_in. by destruct (Login _ _ _ _). Qed.

Lemma services_keep_schema_witness : world_ok (fst logged_in).
Proof.
  apply (services_keep_schema (E:=demo_environment) (R:=Script.t) service demo_world (fst logged_in) demo_ok).
  exact (reach_call service _ _ _ _ _ _ (call_Register service Background register) registered_eq
    (reach_call service _ _ _ _ _ _ (call_VerifyEmail service Background (mailed_token (fst registered)))
      verified_eq
      (reach_call service _ _ _ _ _ _ (call_Login service Background login) logged_in_eq
        (reach_here service (fst logged_in))))).
Defined.

(** Ann's session is revoked through the interface. *)
Lemma session_repository_refines_witness :
  let w := fst logged_in in
  let out := SessionRepository.Revoke Background 1 1 0 w in
  snd out = Ok tt /\ stored_sound Background (fst out) /\
  book_run [] (stored_book Background w) (stored_book Background (fst out)).
Proof.
  assert (Hr : snd (SessionRepository.Revoke Background 1 1 0 (fst logged_in)) = Ok tt) by run_it.
  split; [exact Hr|]. apply split_run in Hr.
  destruct (session_repository_refines (E:=demo_environment) (R:=Script.t) Background [] (fst logged_in)
    (fst (SessionRepository.Revoke Background 1 1 0 (fst logged_in)))) as (H1 & H2 & _).
  - exact (stored_sound_pool Background _ eq_refl logged_in_ok).
  - exact (revoke_run Background 1 1 0 _ _ Hr).
  - split; [exact H1|exact H2].
Defined.


Lemma refresh_rotates_witness :
  exists r t out, Sessions.refresh_token_hash r = HashToken refresh_token /\
    w_db (fst refreshed) = with_sessions (update_where (fun x => Sessions.id x =? Sessions.id r)
      (rotated service (HashToken (RefreshToken_ out)) (snd (Now (fst logged_in))) t))
      (w_db (fst logged_in)) /\
    forall x, x ∈ user_sessions (w_db (fst refreshed)) ->
      Sessions.refresh_token_hash x <> HashToken refresh_token.
Proof.
  assert (Hr : exists out, RefreshToken service Background refresh_token (fst logged_in) =
    (fst refreshed, Ok out) /\ HashToken (RefreshToken_ out) <> HashToken refresh_token).
  { eexists. split; [run_it|]. by vm_compute. }
  destruct Hr as (out & Hr & Hne).
  destruct (refresh_rotates (E:=demo_environment) (R:=Script.t) service Background refresh_token
    (fst logged_in) (fst refreshed) out logged_in_ok eq_refl eq_refl Hr) as (r & t & _ & Hh & Hdb & Hold).
  exists r, t, out. split; [exact Hh|]. split; [exact Hdb|]. exact (Hold Hne).
Defined.

Lemma address_ownership_witness :
  exists e, snd (DeleteAddress Background (DeleteAddressCommand.mk 1 2) (fst with_home)) = Err e.
Proof.
  assert (Hr : exists r l, addresses (w_db (fst with_home)) = r :: l /\ Addresses.id r = 1 /\
    Addresses.user_id r = 1) by (do 2 eexists; split; [run_it|split; reflexivity]).
  destruct Hr as (r & l & Hl & Hid & Hu).
  destruct (address_ownership (E:=demo_environment) (R:=Script.t) (mkManager true) Background r 2 (fst with_home) with_home_ok eq_refl)
    as [_ Hd]; [rewrite Hl; left|lia|].
  rewrite Hid in Hd. edestruct Hd as [He _]; [apply split_run; reflexivity|]. exact He.
Defined.

Lemma device_ownership_witness :
  exists e, snd (RevokeDevice (mkManager true) Background 2 1 (fst logged_in)) = Err e.
Proof.
  assert (Hr : exists r l, user_devices (w_db (fst logged_in)) = r :: l /\ Devices.id r = 1 /\
    Devices.user_id r = 1) by (do 2 eexists; split; [run_it|split; reflexivity]).
  destruct Hr as (r & l & Hl & Hid & Hu).
  edestruct (device_ownership (E:=demo_environment) (R:=Script.t) (mkManager true) Background r 2 (fst logged_in)) as [He _];
    [apply logged_in_ok|reflexivity|rewrite Hl; left|lia|apply split_run; reflexivity|].
  by rewrite Hid in He.
Defined.

Lemma AddAddress_default_witness :
  exists r, r ∈ addresses (w_db (fst with_home)) /\ Addresses.id r = 1 /\ Addresses.is_default r = true.
Proof.
  destruct (AddAddress_default (E:=demo_environment) (R:=Script.t) (mkManager true) Background home (fst logged_in) (fst with_home) 1)
    as [(r & Hr & Hid & _ & Hd) _]; [reflexivity|reflexivity|reflexivity|run_it|]. by exists r.
Defined.

Lemma Register_spec_witness :
  exists u, u ∈ users (w_db (fst registered)) /\ Users.email u = "ann@shop.vn" /\
    Users.account_status u = UserStatusPendingVerification.
Proof.
  assert (Hr : exists m, Register service Background register demo_world =
    (fst registered, Ok (mkRegisterOutput 1 "ann@shop.vn" m))) by (eexists; run_it).
  destruct Hr as [m Hr].
  destruct (Register_spec (E:=demo_environment) (R:=Script.t) service Background register demo_world (fst registered) _ eq_refl eq_refl Hr)
    as (u & c & e & Hdb & _ & Hem & _ & Hst & _).
  exists u. rewrite Hdb. split; [simpl; left|]. by split.
Defined.

Lemma ResetPassword_spec_witness :
  exists c, c ∈ user_credentials (w_db (fst reset_done)) /\
    bcrypt_compare (Credentials.password_hash c) "NewSecret456" = Ok tt.
Proof.
  destruct (ResetPassword_spec (E:=demo_environment) (R:=Script.t) service Background reset (fst forgot) (fst reset_done) eq_refl eq_refl)
    as (v & t & uid & _ & _ & (c & Hc & Hu) & Hall & _); [run_it|].
  exists c. split; [done|]. by apply Hall.
Defined.

Lemma one_time_tokens_witness :
  exists e, snd (ResetPassword service Background reset (fst reset_done)) = Err e.
Proof.
  destruct (one_time_tokens (E:=demo_environment) (R:=Script.t) Background (fst forgot)) as [_ Hr].
  edestruct (Hr service reset reset (fst reset_done)) as [He _];
    [reflexivity|run_it|apply split_run; reflexivity|exact He].
Defined.

Lemma ChangePassword_spec_witness :
  exists c, c ∈ user_credentials (w_db (fst (ChangePassword service Background change (fst logged_in)))) /\
    bcrypt_compare (Credentials.password_hash c) "Other789x" = Ok tt.
Proof.
  assert (Hc : exists c, head (user_credentials (w_db (fst (ChangePassword service Background change (fst logged_in))))) = Some c /\
    Credentials.user_id c = 1) by (eexists; split; run_it).
  destruct Hc as (c & Hc & Hu). apply head_Some_elem_of in Hc. exists c. split; [exact Hc|].
  refine (proj1 (proj2 (ChangePassword_spec (E:=demo_environment) (R:=Script.t) service Background change (fst logged_in) _ eq_refl eq_refl _)) c Hc Hu).
  run_it.
Defined.

Lemma ForgotPassword_unknown_witness :
  w_db (fst (ForgotPassword Background "bob@shop.vn" (fst logged_in))) = w_db (fst logged_in).
Proof.
  edestruct (ForgotPassword_unknown (E:=demo_environment) (R:=Script.t) Background "bob@shop.vn" (Email.mk "bob@shop.vn") (fst logged_in))
    as (_ & Hdb & _); [reflexivity|run_it| |apply split_run; reflexivity|exact Hdb].
  assert (Hu : exists u, users (w_db (fst logged_in)) = [u] /\ Users.email u = "ann@shop.vn")
    by (eexists; split; run_it).
  destruct Hu as (u & -> & He). intros x Hx. apply list_elem_of_singleton in Hx as ->. by rewrite He.
Defined.
End Scenario.
