(* ===== verification/Typing.v ===== *)
(** * The database keeps its types

    Go reads a row by scanning its columns into typed variables, and a NULL or a
    JSON value of the wrong shape makes the scan fail at run time. The columns
    [user_agent], [device_label], [address_line2], [postal_code] and [metadata] may
    be NULL in the schema but are scanned into variables that cannot be. [typed]
    says that no stored row has such a value and that every identifier is below its
    sequence; every statement of the program keeps it, so the reads of the services
    never fail on a row. *)

From Stdlib Require Import ZArith NArith String Ascii Lia Sorted.
From stdpp Require Import base strings list gmap.
From S2P Require Import Prelude GoStrings Crypto Json Domain Gin RedisClient Idempotency Schema.
From S2P Require Import Database Sql Kafka Outbox IdentityAdapters IdentityRepos SessionStore IdentityServices IdentitySpec.

Local Open Scope Z_scope.

(** ** Typed databases *)

Definition user_typed (sq : Seqs) (r : Users.row) : Prop :=
  Users.id r < users_seq sq /\ map_ok (Users.metadata r) = true.
Definition device_typed (sq : Seqs) (r : Devices.row) : Prop :=
  Devices.id r < devices_seq sq /\ is_Some (Devices.device_label r) /\
  map_ok (Some (Devices.metadata r)) = true.
Definition session_typed (sq : Seqs) (r : Sessions.row) : Prop :=
  Sessions.id r < sessions_seq sq /\ is_Some (Sessions.user_agent r).
Definition address_typed (sq : Seqs) (r : Addresses.row) : Prop :=
  Addresses.id r < addresses_seq sq /\ is_Some (Addresses.address_line2 r) /\
  is_Some (Addresses.postal_code r).
Definition event_typed (sq : Seqs) (r : OutboxEvents.row) : Prop := OutboxEvents.id r < outbox_seq sq.

Record typed (sq : Seqs) (db : DB) : Prop := mkTyped {
  typed_users : Forall (user_typed sq) (users db);
  typed_devices : Forall (device_typed sq) (user_devices db);
  typed_sessions : Forall (session_typed sq) (user_sessions db);
  typed_addresses : Forall (address_typed sq) (addresses db);
  typed_events : Forall (event_typed sq) (outbox_events db)
}.

Definition seq_le (a b : Seqs) : Prop :=
  users_seq a <= users_seq b /\ devices_seq a <= devices_seq b /\ sessions_seq a <= sessions_seq b /\
  addresses_seq a <= addresses_seq b /\ outbox_seq a <= outbox_seq b.

#[global] Instance seq_le_refl : Reflexive seq_le.
Proof. intros a. unfold seq_le. lia. Qed.

(** Sequences only grow, also in a transaction that is rolled back. *)
Lemma typed_mono sq sq' db : seq_le sq sq' -> typed sq db -> typed sq' db.
Proof.
  intros (H1 & H2 & H3 & H4 & H5) [Hu Hd Hs Ha He].
  split; (eapply Forall_impl; [eassumption|]); intros r; unfold user_typed, device_typed,
    session_typed, address_typed, event_typed; intuition lia.
Qed.

Lemma typed_dml_maintains {A} (f : Z -> DB -> Seqs -> Seqs * DB * A) :
  (forall now db sq sq' db' a, f now db sq = (sq', db', a) ->
     seq_le sq sq' /\ (typed sq db -> typed sq' db')) -> maintains typed (dml f).
Proof.
  intros Hf. apply dml_maintains. intros now db sq sq' db' a Hq. apply Hf in Hq as [Hle Ht].
  split; [|done]. intros db0. by apply typed_mono.
Qed.

Lemma Forall_update {A} (P : A -> Prop) p f l :
  (forall r, P r -> P (f r)) -> Forall P l -> Forall P (update_where p f l).
Proof.
  intros Hf Hl. unfold update_where. apply Forall_fmap. eapply Forall_impl; [done|].
  intros r Hr. simpl. destruct (p r); auto.
Qed.
Lemma Forall_where {A} (P : A -> Prop) p l : Forall P l -> Forall P (where_ p l).
Proof.
  intros Hl. apply Forall_forall. intros x [Hx _]%elem_of_where. by eapply Forall_forall.
Qed.

(** The statements one by one: the changed table row by row, the others by
    monotonicity. *)
Ltac typed_rows :=
  first [ assumption
        | apply Forall_app; split; [assumption|apply Forall_singleton]
        | apply Forall_where; assumption
        | apply Forall_update; [|assumption]; intros ? ? ].
Ltac typed_dml :=
  apply typed_dml_maintains; intros ? ? ? ? ? ? Hq; cbv zeta in Hq; repeat case_match; simplify_eq;
  (split; [unfold seq_le; simpl; lia|]);
  intros Ht; lazymatch goal with
  | |- typed ?sq' _ => apply (typed_mono _ sq') in Ht; [|unfold seq_le; simpl; lia]
  end; destruct Ht; split; simpl; typed_rows;
  unfold user_typed, device_typed, session_typed, address_typed, event_typed in *; simpl in *;
  intuition (eauto using is_Some_None; lia).

Lemma insertUser_upholds email name phone ty st ver md v :
  map_ok md = true -> maintains typed (UserRepository.queryInsertUser email name phone ty st ver md v).
Proof. intros Hm. unfold UserRepository.queryInsertUser. typed_dml. Qed.
Lemma updateStatus_upholds st id : maintains typed (UserRepository.queryUpdateStatus st id).
Proof. unfold UserRepository.queryUpdateStatus. typed_dml. Qed.
Lemma markVerified_upholds t id : maintains typed (UserRepository.queryMarkEmailVerified t id).
Proof. unfold UserRepository.queryMarkEmailVerified. typed_dml. Qed.
Lemma credInsert_upholds uid h al t n lf : maintains typed (CredentialRepository.queryInsert uid h al t n lf).
Proof. unfold CredentialRepository.queryInsert. typed_dml. Qed.
Lemma credUpdate_upholds uid h t : maintains typed (CredentialRepository.queryUpdatePasswordHash uid h t).
Proof. unfold CredentialRepository.queryUpdatePasswordHash. typed_dml. Qed.
Lemma insertSession_upholds u d h st ex ip ua ls :
  maintains typed (SessionRepository.queryInsertSession u d h st ex ip ua ls).
Proof. unfold SessionRepository.queryInsertSession. typed_dml. Qed.
Lemma revokeSession_upholds d t u : maintains typed (SessionRepository.queryRevokeSession d t u).
Proof. unfold SessionRepository.queryRevokeSession. typed_dml. Qed.
Lemma revokeAll_upholds u t n : maintains typed (SessionRepository.queryRevokeAllByUserID u t n).
Proof. unfold SessionRepository.queryRevokeAllByUserID. typed_dml. Qed.
Lemma updateSession_upholds i h ex ls : maintains typed (SessionRepository.queryUpdateSession i h ex ls).
Proof. unfold SessionRepository.queryUpdateSession. typed_dml. Qed.
Lemma upsertSession_upholds u d h st ex ip ua ls :
  maintains typed (SessionRepository.queryUpsertSession u d h st ex ip ua ls).
Proof. unfold SessionRepository.queryUpsertSession. typed_dml. Qed.
Lemma revokeExcept_upholds u e t : maintains typed (SessionRepository.queryRevokeAllExcept u e t).
Proof. unfold SessionRepository.queryRevokeAllExcept. typed_dml. Qed.
Lemma upsertDevice_upholds u fp l fs ls rv :
  maintains typed (DeviceRepository.queryUpsertDevice u fp l fs ls rv).
Proof. unfold DeviceRepository.queryUpsertDevice. typed_dml. Qed.
Lemma revokeDevice_upholds i t : maintains typed (DeviceRepository.queryRevokeDevice i t).
Proof. unfold DeviceRepository.queryRevokeDevice. typed_dml. Qed.
Lemma insertAddress_upholds a : maintains typed (AddressRepository.queryInsertAddress a).
Proof. unfold AddressRepository.queryInsertAddress. typed_dml. Qed.
Lemma updateAddress_upholds a : maintains typed (AddressRepository.queryUpdateAddress a).
Proof. unfold AddressRepository.queryUpdateAddress. typed_dml. Qed.
Lemma deleteAddress_upholds i : maintains typed (AddressRepository.queryDeleteAddress i).
Proof. unfold AddressRepository.queryDeleteAddress. typed_dml. Qed.
Lemma unsetDefault_upholds u : maintains typed (AddressRepository.queryUnsetDefaultByUserID u).
Proof. unfold AddressRepository.queryUnsetDefaultByUserID. typed_dml. Qed.

Lemma outboxInsert_upholds e : maintains typed (outbox_insert e).
Proof.
  intros now db sq sq' x. unfold outbox_insert.
  destruct (jsonb_in (OutboxEvent.Payload e)) as [body|], (jsonb_in_opt (OutboxEvent.Metadata e)) as [meta|];
    try (intros; by simplify_eq).
  revert now db sq sq' x. lazymatch goal with
  | |- forall now db sq sq' x, ?s now db sq = _ -> _ => change (maintains typed s) end.
  typed_dml.
Qed.
Lemma outboxClaim_upholds n : maintains typed (outbox_claim n).
Proof. apply guarded_maintains. typed_dml. Qed.
Lemma outboxPublished_upholds i t : maintains typed (outbox_mark_published i t).
Proof. unfold outbox_mark_published. typed_dml. Qed.
Lemma outboxFailed_upholds i m : maintains typed (outbox_mark_failed i m).
Proof. unfold outbox_mark_failed. typed_dml. Qed.
Lemma processed_upholds c e t m : maintains typed (insert_processed c e t m).
Proof. unfold insert_processed. typed_dml. Qed.

#[export] Hint Resolve insertUser_upholds updateStatus_upholds markVerified_upholds
  credInsert_upholds credUpdate_upholds insertSession_upholds revokeSession_upholds revokeAll_upholds
  updateSession_upholds upsertSession_upholds revokeExcept_upholds upsertDevice_upholds
  revokeDevice_upholds insertAddress_upholds updateAddress_upholds deleteAddress_upholds
  unsetDefault_upholds outboxInsert_upholds outboxClaim_upholds outboxPublished_upholds
  outboxFailed_upholds processed_upholds : go.
#[export] Hint Extern 1 (map_ok _ = true) => reflexivity : go.

(** ** Typed worlds *)

Definition well_typed {R} (w : World R) : Prop := holds typed w.

(** Any invariant of the data through the remaining effects of the services. *)
Section OtherEffects.
Context {E : Env} {R : Type} (P : Seqs -> DB -> Prop).

Lemma HashPassword_holds `{Bcrypt} a pw : preserves (holds (R:=R) P) (HashPassword a pw).
Proof. by apply keeps_holds. Qed.
Lemma add_task_holds t : preserves (holds (R:=R) P) (modifyM (add_task t)).
Proof. by apply keeps_holds. Qed.
Lemma repository_Insert_holds ctx e :
  maintains P (outbox_insert e) -> preserves (holds (R:=R) P) (ob_Insert ctx e).
Proof.
  intros He. change (preserves (holds P) (PostgresRepository.Insert (R:=R) ctx e)).
  unfold PostgresRepository.Insert, Exec. go_preserve.
Qed.
Lemma run_task_holds `{RedisClient R} n : preserves (holds (R:=R) P) (run_task n).
Proof.
  intros w Hw. unfold run_task. destruct (w_tasks w !! n) as [[h se ttl]|]; [|done].
  cbv zeta. set (w1 := set_tasks _ w). assert (H1 : holds P w1) by (by destruct Hw).
  assert (Hp : preserves (holds (R:=R) P) (StoreSession h se ttl)) by go_world. apply (Hp w1 H1).
Qed.
End OtherEffects.

#[export] Hint Resolve HashPassword_holds add_task_holds repository_Insert_holds run_task_holds : go.

Section TypeSafety.
Context {E : Env} {R : Type} {RC : RedisClient R} {RD : Rand} {U : Unicode} {MP : MailParser}.
Context {JW : JWT} {BC : Bcrypt}.
Implicit Type w : World R.

Lemma service_call_typed s A m : service_call s A m -> preserves (well_typed (R:=R)) m.
Proof. unfold well_typed. destruct 1; go_world. Qed.

Lemma service_reach_typed s w w' : service_reach s w w' -> well_typed w -> well_typed w'.
Proof.
  induction 1 as [|A m w w1 w2 x Hc Hm _ IH]; [done|]. intros Hw. apply IH.
  assert (Hp := service_call_typed s A m Hc w Hw). by rewrite Hm in Hp.
Qed.

(** Every row a table holds can be scanned, whole. *)
Definition scannable (db : DB) : Prop :=
  (forall r, r ∈ users db -> scanUser (map (Users.column r) user_columns) = Ok (user_of r)) /\
  (forall r, r ∈ user_devices db -> scanDevice (map (Devices.column r) device_columns) = Ok (device_of r)) /\
  (forall r, r ∈ user_sessions db -> scanSession (map (Sessions.column r) session_columns) = Ok (session_of r)) /\
  (forall r, r ∈ addresses db -> scanAddress (map (Addresses.column r) address_columns) = Ok (address_of r)).

Lemma typed_scannable sq db : typed sq db -> scannable db.
Proof.
  intros [Hu Hd Hs Ha _]. repeat split; intros r Hr;
    [eapply Forall_forall in Hu as Ht|eapply Forall_forall in Hd as Ht
    |eapply Forall_forall in Hs as Ht|eapply Forall_forall in Ha as Ht]; try done.
  - by apply scanUser_column, Ht.
  - destruct Ht as (_ & H1 & H2). by apply scanDevice_column.
  - by apply scanSession_column, Ht.
  - destruct Ht as (_ & H1 & H2). by apply scanAddress_column.
Qed.

(** Stored rows keep their types. Through every sequence of service calls,
    failing ones and rolled back transactions included, every identifier stays
    below its sequence and no column that Go scans into a variable without NULL is
    NULL or JSON of another shape; so every stored user, device, session and
    address can be scanned into the row struct with the same field values. *)
Theorem services_keep_types s w w' :
  well_typed w -> service_reach s w w' -> well_typed w' /\ scannable (w_db w').
Proof.
  intros Hw Hr. assert (Hw' := service_reach_typed s w w' Hr Hw). split; [done|].
  by eapply typed_scannable, Hw'.
Qed.
End TypeSafety.

(** ** The read models *)

(** What a view shows of a stored row. *)
Definition me_view (r : Users.row) : MeView :=
  mkMeView (Users.id r) (Users.email r) (Users.full_name r) (Users.account_status r)
    (Users.email_verified_at r) (Users.created_at r).
Definition session_view (r : Sessions.row) : SessionView :=
  mkSessionView (Sessions.id r) (Sessions.device_id r) (Sessions.ip_address r)
    (default "" (Sessions.user_agent r)) (Sessions.expires_at r) (Sessions.revoked_at r)
    (Sessions.created_at r).
Definition device_view (r : Devices.row) : DeviceView :=
  mkDeviceView (Devices.id r) (Devices.fingerprint_hash r) (default "" (Devices.device_label r))
    (Devices.first_seen_at r) (Devices.last_seen_at r) (Devices.revoked_at r).
Definition address_view (r : Addresses.row) : AddressView :=
  mkAddressView (Addresses.id r) (Addresses.recipient_name r) (Addresses.recipient_phone r)
    (Addresses.province_code r) (Addresses.district_code r) (Addresses.ward_code r)
    (Addresses.address_line1 r) (default "" (Addresses.address_line2 r)) (Addresses.is_default r).

Lemma scan_all_map {T A} (col : T -> string -> sqlval) cols (scan : list sqlval -> result A) f l :
  (forall r, r ∈ l -> scan (map (col r) cols) = Ok (f r)) -> scan_all scan (pick col cols l) = Ok (map f l).
Proof.
  induction l as [|r l IH]; intros Hl; simpl; [done|]. rewrite (Hl r) by left. simpl.
  rewrite IH; [done|]. intros x Hx. apply Hl. by right.
Qed.

Lemma default_first_sorted l :
  StronglySorted (fun a b => default_first a b = true) (order_by default_first l).
Proof.
  apply order_by_sorted; unfold default_first.
  - intros a b. destruct (Addresses.is_default a), (Addresses.is_default b); simpl; auto;
      rewrite !Z.leb_le; lia.
  - intros a b c. destruct (Addresses.is_default a), (Addresses.is_default b), (Addresses.is_default c);
      simpl; try done; rewrite !Z.leb_le; lia.
Qed.

Section Reads.
Context {E : Env} {R : Type}.
Implicit Type w : World R.

(** The result [x] of a single driver call, or the call's fault. *)
Definition answer {A} w (x : result A) : result A :=
  match pg_fault (w_pg w) with Some (_, e) => Err (EIO e) | None => x end.

Lemma Query_pool {T A B} ctx (tbl : DB -> list T) (rows : list T -> list T) col cols
    (scan : list sqlval -> result A) (f : T -> A) (g : A -> B) w :
  ExtractTx ctx = false -> (forall r, r ∈ rows (tbl (w_db w)) -> scan (map (col r) cols) = Ok (f r)) ->
  (let! l := Query ctx (select (fun db => pick col cols (rows (tbl db)))) scan in retM (map g l)) w =
    (tick_pg w, answer w (Ok (map (fun r => g (f r)) (rows (tbl (w_db w)))))).
Proof.
  intros Hc Hs. unfold Query. unfold bindM. rewrite run_select_pool by done. unfold answer.
  destruct (pg_fault (w_pg w)) as [[b e]|]; [done|]. unfold liftM.
  rewrite (scan_all_map _ _ _ f) by done. unfold retM. by rewrite map_map.
Qed.

Lemma QueryRow_pool {T A} ctx (tbl : DB -> list T) (rows : list T -> list T) col cols
    (scan : list sqlval -> result A) (f : T -> A) w :
  ExtractTx ctx = false -> (forall r, r ∈ rows (tbl (w_db w)) -> scan (map (col r) cols) = Ok (f r)) ->
  QueryRow ctx (select (fun db => pick col cols (rows (tbl db)))) scan w =
    (tick_pg w, answer w (match rows (tbl (w_db w)) with [] => Err ErrNoRows | r :: _ => Ok (f r) end)).
Proof.
  intros Hc Hs. unfold QueryRow. unfold bindM. rewrite run_select_pool by done. unfold answer.
  destruct (pg_fault (w_pg w)) as [[b e]|]; [done|].
  destruct (rows (tbl (w_db w))) as [|r l]; [done|]. simpl. unfold liftM. by rewrite Hs by left.
Qed.

Lemma or_not_found_answer {A} e (m : M (World R) A) w w' (x : result A) :
  m w = (w', answer w x) ->
  or_not_found e m w =
    (w', answer w (match x with Err err => if isNoRows err then Err e else Err err | Ok a => Ok a end)).
Proof.
  intros Hm. unfold or_not_found, bindM, attemptM. rewrite Hm. unfold answer.
  destruct (pg_fault (w_pg w)) as [[b t]|]; [done|]. destruct x as [a|err]; [done|].
  by destruct (isNoRows err).
Qed.

Lemma where_key {T} (key : T -> Z) (l : list T) r :
  NoDup (key <$> l) -> r ∈ l -> exists l', where_ (fun x => key x =? key r) l = r :: l'.
Proof.
  intros Hd Hr. destruct (where_ _ l) as [|x l'] eqn:Ew.
  - rewrite where_nil in Ew. specialize (Ew r Hr). by rewrite Z.eqb_refl in Ew.
  - assert (Hx : x ∈ where_ (fun y => key y =? key r) l) by (rewrite Ew; left).
    apply elem_of_where in Hx as [Hx Hk%Z.eqb_eq]. exists l'. f_equal.
    by apply (nodup_key_inj key l).
Qed.

Lemma GetMe_pool ctx uid w :
  ExtractTx ctx = false ->
  (forall r, r ∈ users (w_db w) -> scanUser (map (Users.column r) user_columns) = Ok (user_of r)) ->
  GetMe ctx uid w =
    (tick_pg w, answer w (match where_ (fun u => Users.id u =? uid) (users (w_db w)) with
                          | [] => Err ErrUserNotFound
                          | u :: _ => Ok (me_view u)
                          end)).
Proof.
  intros Hc Hu. unfold GetMe, QueryRepository.GetMe. unfold bindM at 1.
  erewrite or_not_found_answer;
    [|apply (QueryRow_pool ctx users (where_ _) _ _ _ user_of); [done|];
      intros r [Hr _]%elem_of_where; by apply Hu].
  unfold answer. destruct (pg_fault (w_pg w)) as [[b e]|]; [done|]. by destruct (where_ _ _).
Qed.

(** C38: The profile endpoints show a user exactly their own data. On a typed
    database [ListSessions], [ListDevices] and [ListAddresses] make one driver call
    and return, unless it fails, the views of all rows of the given user and of no
    other, newest first (the default address before the others); [GetMe] returns
    the account with the given identifier, or [ErrUserNotFound] if there is none. *)
Theorem profile_reads ctx uid w :
  world_ok w -> well_typed w -> ExtractTx ctx = false ->
  (exists l, l ≡ₚ where_ (fun r => Sessions.user_id r =? uid) (user_sessions (w_db w)) /\
     StronglySorted (fun a b => Sessions.created_at b <= Sessions.created_at a) l /\
     ListSessions ctx uid w = (tick_pg w, answer w (Ok (map session_view l)))) /\
  (exists l, l ≡ₚ where_ (fun r => Devices.user_id r =? uid) (user_devices (w_db w)) /\
     StronglySorted (fun a b => Devices.created_at b <= Devices.created_at a) l /\
     ListDevices ctx uid w = (tick_pg w, answer w (Ok (map device_view l)))) /\
  (exists l, l ≡ₚ where_ (fun r => Addresses.user_id r =? uid) (addresses (w_db w)) /\
     StronglySorted (fun a b => default_first a b = true) l /\
     ListAddresses ctx uid w = (tick_pg w, answer w (Ok (map address_view l)))) /\
  (forall u, u ∈ users (w_db w) -> Users.id u = uid ->
     GetMe ctx uid w = (tick_pg w, answer w (Ok (me_view u)))) /\
  ((forall u, u ∈ users (w_db w) -> Users.id u <> uid) ->
     GetMe ctx uid w = (tick_pg w, answer w (Err ErrUserNotFound))).
Proof.
  intros [Hok _] [Hty _] Hc. apply typed_scannable in Hty as (Hu & Hd & Hs & Ha).
  assert (Hin : forall T (before : T -> T -> bool) p l r, r ∈ order_by before (where_ p l) -> r ∈ l).
  { intros T before p l r. rewrite order_by_perm. by intros [? _]%elem_of_where. }
  split; [|split; [|split; [|split]]].
  - eexists. split; [apply order_by_perm|]. split; [apply desc_sorted|].
    apply (Query_pool ctx user_sessions (fun t => order_by _ (where_ _ t)) _ _ _ session_of); [done|].
    intros r Hr. by eapply Hs, Hin.
  - eexists. split; [apply order_by_perm|]. split; [apply desc_sorted|].
    apply (Query_pool ctx user_devices (fun t => order_by _ (where_ _ t)) _ _ _ device_of); [done|].
    intros r Hr. by eapply Hd, Hin.
  - eexists. split; [apply order_by_perm|]. split; [apply default_first_sorted|].
    apply (Query_pool ctx addresses (fun t => order_by _ (where_ _ t)) _ _ _ address_of); [done|].
    intros r Hr. by eapply Ha, Hin.
  - intros u Hin' <-. destruct (where_key Users.id _ u (unique_user_id _ Hok) Hin') as [l Hl].
    eapply (GetMe_pool ctx (Users.id u)) in Hu; [|done]. by rewrite Hl in Hu.
  - intros Hno. eapply (GetMe_pool ctx uid) in Hu; [|done]. rewrite (proj2 (where_nil _ _)) in Hu; [done|].
    intros u Hin'. by apply Z.eqb_neq, Hno.
Qed.
End Reads.

(** ** On the run of the services *)

Module TypingScenario.
Import IdentityDemo Scenario.

Lemma demo_typed : well_typed demo_world.
Proof. split; [|exact I]. split; constructor. Qed.

(** Ann's registration, verification and login, as calls. *)
Lemma logged_in_reach : service_reach (E:=demo_environment) (R:=Script.t) service demo_world (fst logged_in).
Proof.
  exact (reach_call service _ _ _ _ _ _ (call_Register service Background register) registered_eq
    (reach_call service _ _ _ _ _ _ (call_VerifyEmail service Background (mailed_token (fst registered)))
      verified_eq
      (reach_call service _ _ _ _ _ _ (call_Login service Background login) logged_in_eq
        (reach_here service (fst logged_in))))).
Qed.

Lemma services_keep_types_witness : well_typed (fst logged_in) /\ scannable (w_db (fst logged_in)).
Proof.
  apply (services_keep_types (E:=demo_environment) (R:=Script.t) service demo_world (fst logged_in));
    [exact demo_typed|exact logged_in_reach].
Defined.

Lemma profile_reads_witness :
  exists l, length l = 1%nat /\
    ListSessions Background 1 (fst logged_in) = (tick_pg (fst logged_in), Ok (map session_view l)).
Proof.
  destruct (profile_reads (E:=demo_environment) (R:=Script.t) Background 1 (fst logged_in) logged_in_ok
    (service_reach_typed _ _ _ logged_in_reach demo_typed) eq_refl) as [(l & Hl & _ & Hs) _].
  exists l. split; [|exact Hs]. rewrite Hl. run_it.
Defined.
End TypingScenario.
