(* ===== verification/Accounts.v ===== *)
(** * Accounts are complete, and what is stored can be read

    Three facts about the stored accounts that no constraint of the schema states and
    that the services rely on: every account has credentials, its address is one that
    [NewEmail] reads back as itself (the mapper of the user repository fails on any
    other), and it is pending exactly while the address is unverified; and every
    session is bound to a device of its own user. Every sequence of service calls
    keeps them, because [Register] writes account and credentials in one transaction,
    [MarkEmailVerified] changes status and time together and [Login] opens its session
    on the device it has just stored for the user. Together with the types of the rows
    (file Typing) they make every read of the repositories total. *)

From Stdlib Require Import ZArith NArith String Ascii Lia.
From stdpp Require Import base strings list gmap.
From S2P Require Import Prelude GoStrings Crypto Json Domain Gin RedisClient Idempotency Schema.
From S2P Require Import Database Sql Kafka Outbox IdentityAdapters IdentityRepos SessionStore IdentityServices IdentitySpec Typing.

Local Open Scope Z_scope.

(** ** Invariants of the committed database *)

Section Committed.
Context {E : Env} {R : Type} (P : Seqs -> DB -> Prop).
Implicit Type w : World R.

Definition committed w : Prop := P (w_seq w) (w_db w).

Lemma keeps_committed {A} (m : M (World R) A) :
  keeps (fun w => (w_seq w, w_db w)) m -> preserves committed m.
Proof.
  intros Hk. by apply (preserves_keeps _ _ (fun x => P x.1 x.2) m (fun w => iff_refl _) Hk).
Qed.

Lemma redisM_committed {A} (m : M R A) : preserves committed (redisM m).
Proof. apply keeps_committed. by apply keeps_zoom. Qed.

Lemma run_committed {A} ctx (s : stmt A) : maintains P s -> preserves committed (run ctx s).
Proof.
  intros Hs w Hw. unfold committed, run, run_pool, run_tx in *. destruct (GetExecutor ctx).
  - destruct (s (pg_clock (w_pg w)) (w_db w) (w_seq w)) as [sq x] eqn:Es.
    apply Hs in Es as [Hle Ht]. specialize (Ht Hw).
    destruct (pg_fault (w_pg w)) as [[[] ?]|]; destruct x as [[db a]|e]; simpl; auto.
  - destruct (w_tx w) as [t|]; [|done]. destruct (tx_failed t); [done|].
    destruct (pg_fault (w_pg w)) as [[]|]; [done|].
    destruct (s (tx_now t) (tx_db t) (w_seq w)) as [sq [[db a]|e]] eqn:Es;
      apply Hs in Es as [Hle _]; simpl; auto.
Qed.

(** A transaction starts from the committed database, whatever was open before. *)
Lemma WithinTransaction_commits {A} m ctx (fn : Ctx -> M (World R) A) :
  (forall c, preserves (holds P) (fn c)) -> (forall c, preserves committed (fn c)) ->
  preserves committed (WithinTransaction m ctx (Some fn)).
Proof.
  intros Hh Hcm w Hw. unfold WithinTransaction. destruct (negb (pool m)); [done|].
  destruct (ExtractTx ctx); [by apply Hcm|].
  unfold bindM at 1. unfold BeginTx. destruct (pg_fault (w_pg w)) as [[]|]; [done|].
  lazymatch goal with |- committed (?m ?w0).1 =>
    assert (Hp : preserves (holds P) m) by (destruct (holds_stable (R:=R) P); go_preserve) end.
  apply Hp. by split.
Qed.

Lemma repository_Insert_committed ctx e :
  maintains P (outbox_insert e) -> preserves committed (ob_Insert ctx e).
Proof.
  intros He. change (preserves committed (PostgresRepository.Insert (R:=R) ctx e)).
  unfold PostgresRepository.Insert, Exec.
  assert (Hr := run_committed ctx _ He). go_preserve.
Qed.

(** Whatever a call of the transaction manager answers, the committed database is as
    it was or is the working copy of a callback that succeeded. *)
Lemma WithinTransaction_outcome {A} m ctx (fn : Ctx -> M (World R) A) w w' x :
  (forall c, ExtractTx c = true -> keeps w_db (fn c)) ->
  WithinTransaction m ctx (Some fn) w = (w', x) ->
  w_db w' = w_db w \/
  exists w1 a, fn (inject ctx) (begun w) = (w1, Ok a) /\ cur_db (inject ctx) w1 = w_db w'.
Proof.
  intros Hk H. destruct (pool m) eqn:Hp.
  2:{ unfold WithinTransaction in H. rewrite Hp in H. simpl in H. unfold throwM in H. simplify_eq. by left. }
  destruct (ExtractTx ctx) eqn:Hc.
  { unfold WithinTransaction in H. rewrite Hp, Hc in H. simpl in H.
    specialize (Hk ctx Hc w). rewrite H in Hk. by left. }
  apply WithinTransaction_inv in H; [|done|done|by apply Hk].
  assert (Hcur : forall w1 t, w_tx w1 = Some t -> cur_db (inject ctx) w1 = tx_db t)
    by (intros w1 t Ht; unfold cur_db; simpl; by rewrite Ht).
  destruct x as [a|e]; [|destruct H as [H|[_ H]]; [by left|]]; right.
  - destruct H as (w1 & t & Hr & Ht & _ & Hw). exists w1, a. split; [done|]. by rewrite (Hcur _ _ Ht).
  - destruct H as (w1 & t & a & Hr & Ht & _ & Hw). exists w1, a. split; [done|]. by rewrite (Hcur _ _ Ht).
Qed.
End Committed.

#[export] Hint Resolve run_committed redisM_committed repository_Insert_committed : go.

Ltac go_committed :=
  intros;
  lazymatch goal with
  | |- forall _, _ => intro; go_committed
  | |- preserves _ (bindM _ _) => apply preserves_bind; go_committed
  | |- preserves _ (attemptM _) => apply preserves_attempt; go_committed
  | |- preserves _ (if ?b then _ else _) => destruct b; go_committed
  | |- preserves _ (match ?x with _ => _ end) => destruct x; go_committed
  | |- preserves _ (WithinTransaction _ _ (Some _)) =>
      apply WithinTransaction_commits; [go_world|go_committed]
  | |- preserves _ (run _ ?q) =>
      first [ solve [eauto with go]
            | let h := head_of q in unfold h; cbv beta zeta; solve [eauto with go] ]
  | |- _ => first [ solve [eauto with go] | by apply keeps_committed
                  | go_iface; go_committed | go_unfold; go_committed ]
  end.

(** ** Complete accounts *)

Definition owned (db : DB) (uid did : Z) : Prop :=
  exists d, d ∈ user_devices db /\ Devices.id d = did /\ Devices.user_id d = uid.

Section Complete.
Context {U : Unicode} {MP : MailParser}.

Definition account_ok (db : DB) (u : Users.row) : Prop :=
  NewEmail (Users.email u) = Ok (Email.mk (Users.email u)) /\
  (Users.email_verified_at u = None <-> Users.account_status u = UserStatusPendingVerification) /\
  exists c, c ∈ user_credentials db /\ Credentials.user_id c = Users.id u.

Definition accounts (db : DB) : Prop :=
  (forall u, u ∈ users db -> account_ok db u) /\
  (forall s, s ∈ user_sessions db -> owned db (Sessions.user_id s) (Sessions.device_id s)).

(** The invariant, and what a call knows of the device it stored. *)
Definition pinned (k : option (Z * Z)) (_ : Seqs) (db : DB) : Prop :=
  accounts db /\ match k with Some (uid, did) => owned db uid did | None => True end.

(** How a statement may change the tables. *)
Lemma accounts_users db p f :
  (forall r, account_ok db r -> account_ok db (f r)) ->
  accounts db -> accounts (with_users (update_where p f) db).
Proof.
  intros Hf [Ha Hs]. split; [|done]. intros u (r & Hr & ->)%elem_of_update_where.
  destruct (p r); [apply (Hf r)|]; by apply Ha.
Qed.

Lemma accounts_credentials db p f :
  (forall r, Credentials.user_id (f r) = Credentials.user_id r) ->
  accounts db -> accounts (with_credentials (update_where p f) db).
Proof.
  intros Hf [Ha Hs]. split; [|done]. intros u Hu. destruct (Ha u Hu) as (He & Hv & c & Hc & Hid).
  split; [done|]. split; [done|]. exists (if p c then f c else c). split.
  - apply elem_of_update_where. by exists c.
  - destruct (p c); by rewrite ?Hf.
Qed.

Lemma owned_update db p f uid did :
  (forall r, Devices.id (f r) = Devices.id r /\ Devices.user_id (f r) = Devices.user_id r) ->
  owned db uid did -> owned (with_devices (update_where p f) db) uid did.
Proof.
  intros Hf (d & Hd & Hi & Hu). exists (if p d then f d else d). split.
  - apply elem_of_update_where. by exists d.
  - destruct (Hf d). destruct (p d); split; congruence.
Qed.
Lemma owned_insert db d uid did : owned db uid did -> owned (with_devices (fun l => l ++ [d]) db) uid did.
Proof. intros (x & Hx & H). exists x. split; [apply elem_of_app; by left|done]. Qed.

Lemma accounts_devices db g :
  (forall uid did, owned db uid did -> owned (with_devices g db) uid did) ->
  accounts db -> accounts (with_devices g db).
Proof. intros Hg [Ha Hs]. split; [done|]. intros s Hin. by apply Hg, Hs. Qed.

Lemma accounts_sessions db p f :
  (forall r, Sessions.user_id (f r) = Sessions.user_id r /\ Sessions.device_id (f r) = Sessions.device_id r) ->
  accounts db -> accounts (with_sessions (update_where p f) db).
Proof.
  intros Hf [Ha Hs]. split; [done|]. intros s (r & Hr & ->)%elem_of_update_where.
  destruct (Hf r) as [H1 H2]. destruct (p r); rewrite ?H1, ?H2; by apply (Hs r).
Qed.
Lemma accounts_session_insert db r :
  owned db (Sessions.user_id r) (Sessions.device_id r) ->
  accounts db -> accounts (with_sessions (fun l => l ++ [r]) db).
Proof.
  intros Ho [Ha Hs]. split; [done|]. intros s [Hin|Hin]%elem_of_app; [by apply (Hs s)|].
  by apply list_elem_of_singleton in Hin as ->.
Qed.

(** A registration: the account and its credentials together. *)
Lemma accounts_register db u c e :
  NewEmail (Users.email u) = Ok (Email.mk (Users.email u)) ->
  Users.email_verified_at u = None -> Users.account_status u = UserStatusPendingVerification ->
  Credentials.user_id c = Users.id u -> accounts db ->
  accounts (with_outbox (fun l => l ++ [e])
    (with_credentials (fun l => l ++ [c]) (with_users (fun l => l ++ [u]) db))).
Proof.
  intros He Hv Hst Hc [Ha Hs]. split; [|done]. intros x [Hx|Hx]%elem_of_app.
  - destruct (Ha x Hx) as (H1 & H2 & y & Hy & H3). split; [done|]. split; [done|].
    exists y. split; [apply elem_of_app; by left|done].
  - apply list_elem_of_singleton in Hx as ->. split; [done|]. split; [by rewrite Hv, Hst|].
    exists c. split; [|done]. apply elem_of_app. right. by apply list_elem_of_singleton.
Qed.

(** The statements one by one. *)
Lemma pinned_dml {A} k (f : Z -> DB -> Seqs -> Seqs * DB * A) :
  (forall now db sq sq' db' a, f now db sq = (sq', db', a) -> pinned k sq db -> pinned k sq' db') ->
  maintains (pinned k) (dml f).
Proof. intros Hf. apply dml_maintains. intros. split; [done|]. by eapply Hf. Qed.

Ltac pinned_dml :=
  apply pinned_dml; intros ? ? ? ? ? ? Hq; cbv zeta in Hq; repeat case_match; simplify_eq;
  intros [Ha Hk]; try exact (conj Ha Hk).

Lemma markVerified_pinned k t id : maintains (pinned k) (UserRepository.queryMarkEmailVerified t id).
Proof.
  unfold UserRepository.queryMarkEmailVerified. pinned_dml. split; [|done].
  apply accounts_users; [|done]. intros r (He & _ & Hc). by repeat split.
Qed.
Lemma credUpdate_pinned k uid h t : maintains (pinned k) (CredentialRepository.queryUpdatePasswordHash uid h t).
Proof.
  unfold CredentialRepository.queryUpdatePasswordHash. pinned_dml. split; [|done].
  by apply accounts_credentials.
Qed.
Lemma revokeSession_pinned k d t u : maintains (pinned k) (SessionRepository.queryRevokeSession d t u).
Proof. unfold SessionRepository.queryRevokeSession. pinned_dml. split; [by apply accounts_sessions|done]. Qed.
Lemma revokeAll_pinned k u t n : maintains (pinned k) (SessionRepository.queryRevokeAllByUserID u t n).
Proof. unfold SessionRepository.queryRevokeAllByUserID. pinned_dml. split; [by apply accounts_sessions|done]. Qed.
Lemma updateSession_pinned k i h ex ls : maintains (pinned k) (SessionRepository.queryUpdateSession i h ex ls).
Proof. unfold SessionRepository.queryUpdateSession. pinned_dml. split; [by apply accounts_sessions|done]. Qed.
Lemma revokeExcept_pinned k u e t : maintains (pinned k) (SessionRepository.queryRevokeAllExcept u e t).
Proof. unfold SessionRepository.queryRevokeAllExcept. pinned_dml. split; [by apply accounts_sessions|done]. Qed.
Lemma upsertSession_pinned u d h st ex ip ua ls :
  maintains (pinned (Some (u, d))) (SessionRepository.queryUpsertSession u d h st ex ip ua ls).
Proof.
  unfold SessionRepository.queryUpsertSession. pinned_dml; split; try done.
  - by apply accounts_session_insert.
  - by apply accounts_sessions.
Qed.
Lemma upsertDevice_pinned k u fp l fs ls rv :
  maintains (pinned k) (DeviceRepository.queryUpsertDevice u fp l fs ls rv).
Proof.
  assert (Hpin : forall g db sq sq', (forall a b, owned db a b -> owned (with_devices g db) a b) ->
    pinned k sq db -> pinned k sq' (with_devices g db)).
  { intros g db sq sq' Hg [Ha Hk]. split; [by apply accounts_devices|]. destruct k as [[]|]; auto. }
  unfold DeviceRepository.queryUpsertDevice. apply pinned_dml. intros now db sq sq' db' a Hq. cbv zeta in Hq.
  destruct (where_ _ _); simplify_eq; apply Hpin; intros; [by apply owned_insert|by apply owned_update].
Qed.
Lemma revokeDevice_pinned k i t : maintains (pinned k) (DeviceRepository.queryRevokeDevice i t).
Proof.
  unfold DeviceRepository.queryRevokeDevice. apply pinned_dml. intros now db sq sq' db' a Hq. cbv zeta in Hq.
  simplify_eq. intros [Ha Hk]. split; [apply accounts_devices; [|done]; intros; by apply owned_update|].
  destruct k as [[]|]; [by apply owned_update|done].
Qed.
Lemma insertAddress_pinned k a : maintains (pinned k) (AddressRepository.queryInsertAddress a).
Proof. unfold AddressRepository.queryInsertAddress. pinned_dml. Qed.
Lemma updateAddress_pinned k a : maintains (pinned k) (AddressRepository.queryUpdateAddress a).
Proof. unfold AddressRepository.queryUpdateAddress. pinned_dml. Qed.
Lemma deleteAddress_pinned k i : maintains (pinned k) (AddressRepository.queryDeleteAddress i).
Proof. unfold AddressRepository.queryDeleteAddress. pinned_dml. Qed.
Lemma unsetDefault_pinned k u : maintains (pinned k) (AddressRepository.queryUnsetDefaultByUserID u).
Proof. unfold AddressRepository.queryUnsetDefaultByUserID. pinned_dml. Qed.
Lemma outboxInsert_pinned k e : maintains (pinned k) (outbox_insert e).
Proof.
  intros now db sq sq' x. unfold outbox_insert.
  destruct (jsonb_in (OutboxEvent.Payload e)) as [body|], (jsonb_in_opt (OutboxEvent.Metadata e)) as [meta|];
    try (intros; by simplify_eq).
  revert now db sq sq' x. lazymatch goal with
  | |- forall now db sq sq' x, ?s now db sq = _ -> _ => change (maintains (pinned k) s) end.
  pinned_dml.
Qed.
End Complete.

#[export] Hint Resolve markVerified_pinned credUpdate_pinned revokeSession_pinned revokeAll_pinned
  updateSession_pinned revokeExcept_pinned upsertSession_pinned upsertDevice_pinned revokeDevice_pinned
  insertAddress_pinned updateAddress_pinned deleteAddress_pinned unsetDefault_pinned
  outboxInsert_pinned : go.

(** ** The services *)

Section Services.
Context {E : Env} {R : Type} {RC : RedisClient R} {RD : Rand} {U : Unicode} {MP : MailParser}.
Context {JW : JWT} {BC : Bcrypt}.
Implicit Type w : World R.

(** Go's lower-casing of a trimmed string leaves nothing to trim or to lower. *)
Hypothesis lower_trim : forall s, ToLower (TrimSpace (ToLower (TrimSpace s))) = ToLower (TrimSpace s).

Lemma NewEmail_again raw e : NewEmail raw = Ok e -> NewEmail (Email.value e) = Ok e.
Proof. intros Hn. assert (Hv := NewEmail_value _ _ Hn). unfold NewEmail in *. by rewrite Hv, lower_trim. Qed.

(** What a call of [Register] leaves: the database as it was, or with the account. *)
Lemma Register_effect s ctx cmd w w' x :
  Register s ctx cmd w = (w', x) ->
  w_db w' = w_db w \/
  exists u c e email, w_db w' = with_outbox (fun l => l ++ [e])
      (with_credentials (fun l => l ++ [c]) (with_users (fun l => l ++ [u]) (w_db w))) /\
    NewEmail (RegisterCommand.Email cmd) = Ok email /\ Users.email u = Email.value email /\
    Users.account_status u = UserStatusPendingVerification /\ Users.email_verified_at u = None /\
    Credentials.user_id c = Users.id u.
Proof.
  intros H. unfold Register in H.
  apply bindM_out in H as [(w1 & email & He & H)|(e & He & ->)]; unfold liftM in He; [|simplify_eq; by left].
  injection He as <- He.
  apply bindM_out in H as [(w2 & v & Hv & H)|(e & Hv & ->)]; unfold liftM in Hv; [|simplify_eq; by left].
  injection Hv as <- Hv.
  apply bindM_out in H as [(w3 & taken & Ht & H)|(e & Ht & ->)]; frame (w_db (R:=R)) Ht; [|by left].
  destruct taken; [unfold throwM in H; simplify_eq; by left|].
  apply bindM_out in H as [(w4 & hash & Hh & H)|(e & Hh & ->)]; frame (w_db (R:=R)) Hh; [|left; congruence].
  apply bindM_out in H as [(w5 & now & Hn & H)|(e & Hn & ->)]; frame (w_db (R:=R)) Hn; [|left; congruence].
  assert (Hold : w_db w5 = w_db w) by congruence. clear Ht Hh Hn.
  set (user := User.mk _ _ _ _ _ _ _ _ _ _ _ _ _) in H.
  assert (Hkeep : forall c, ExtractTx c = true -> keeps w_db (register_tx (R:=R) user hash now c)) by go_world.
  assert (Htx : exists y, WithinTransaction (txManager s) ctx (Some (register_tx user hash now)) w5 = (w', y)).
  { apply bindM_out in H as [(w6 & u' & Htx & H)|(e & Htx & ->)]; unfold retM in *; simplify_eq; eauto. }
  destruct Htx as [y [Heq|(w6 & a & Hr & Hw)]%WithinTransaction_outcome]; [left; congruence| |done].
  right. apply Register_tx_inv in Hr as (_ & r & cr & e & Hdb & H1 & H2 & H3 & H4 & H5 & _).
  rewrite Hw, cur_begun, Hold in Hdb. exists r, cr, e, email. by repeat split; try congruence.
Qed.

Lemma Register_committed s ctx cmd : preserves (committed (R:=R) (pinned None)) (Register s ctx cmd).
Proof.
  intros w [Ha _]. destruct (Register s ctx cmd w) as [w' x] eqn:H. split; [|done]. simpl.
  apply Register_effect in H as [->|(u & c & e & email & -> & He & Hem & Hst & Hv & Hc)]; [done|].
  apply NewEmail_again in He. apply accounts_register; try done. rewrite Hem, He. by destruct email.
Qed.

(** The device a login stores is one of the user. *)
Lemma upsert_device_owned s ctx cmd user now w w' d :
  ExtractTx ctx = false -> upsert_device s ctx cmd user now w = (w', Ok d) ->
  owned (w_db w') (User.ID user) (Device.ID d).
Proof.
  intros Hc. unfold upsert_device. intros H. step H w1 l Hl. step H w2 old0 He. step H w3 u Hu.
  unfold DeviceRepository.Upsert, DeviceRepository.queryUpsertDevice in H.
  apply QueryRow_dml in H as (t & sq & r & rest & Hf & Hs & _). cbv zeta in Hf.
  rewrite (cur_db_pool _ w') in Hf by done. simpl in Hf.
  destruct (where_ _ (user_devices (cur_db ctx w3))) as [|old l'] eqn:Ew;
    injection Hf as _ Hdb Hr _; rewrite <- Hdb; subst r; simpl in Hs;
    unfold DeviceRepository.scan_stored in Hs; simpl in Hs; simplify_eq; simpl.
  - eexists. split; [apply elem_of_app; right; by apply list_elem_of_singleton|]. done.
  - assert (Hold : old ∈ where_ (fun d => (Devices.user_id d =? User.ID user) &&
      String.eqb (Devices.fingerprint_hash d) (TrimSpace (LoginCommand.DeviceFingerprint cmd)))
      (user_devices (cur_db ctx w3))) by (rewrite Ew; left).
    apply elem_of_where in Hold as [Hin Hp]. assert (Hu' := Hp). apply andb_prop in Hu' as [Hu'%Z.eqb_eq _].
    eexists. split; [apply elem_of_update_where; exists old; rewrite Hp; split; [done|reflexivity]|]. done.
Qed.

Lemma session_Upsert_pinned ctx se uid did :
  Session.UserID se = uid -> Session.DeviceID se = did ->
  preserves (committed (R:=R) (pinned (Some (uid, did)))) (SessionRepository.Upsert ctx se).
Proof. intros <- <-. go_committed. Qed.
#[local] Hint Resolve session_Upsert_pinned : go.

Lemma Login_committed s ctx cmd : preserves (committed (R:=R) (pinned None)) (Login s ctx cmd).
Proof.
  destruct (ExtractTx ctx) eqn:Hc.
  { assert (Hk : keeps w_db (Login (R:=R) s ctx cmd)) by go_world.
    intros w Hw. unfold committed, pinned in *. by rewrite Hk. }
  unfold Login. apply preserves_bind; [go_committed|]. intros user.
  apply preserves_bind; [go_committed|]. intros now w Hw. unfold bindM at 1.
  assert (Hp : preserves (committed (R:=R) (pinned None)) (upsert_device s ctx cmd user now)) by go_committed.
  specialize (Hp w Hw). destruct (upsert_device s ctx cmd user now w) as [w1 [d|e]] eqn:Hd; [|done].
  apply upsert_device_owned in Hd; [|done]. destruct Hp as [Ha _]. simpl in Ha.
  assert (H1 : committed (pinned (Some (User.ID user, Device.ID d))) w1) by done.
  revert w1 H1 Hd Ha. cbv zeta.
  lazymatch goal with |- forall w1, _ -> _ -> _ -> committed _ (?m w1).1 =>
    assert (Hm : preserves (committed (R:=R) (pinned (Some (User.ID user, Device.ID d)))) m) by go_committed
  end.
  intros w1 H1 _ _. by destruct (Hm w1 H1) as [Ha _].
Qed.

Lemma run_task_committed n : preserves (committed (R:=R) (pinned None)) (run_task n).
Proof.
  intros w Hw. unfold run_task. destruct (w_tasks w !! n) as [[h se ttl]|]; [|done].
  cbv zeta. set (w1 := set_tasks _ w). assert (H1 : committed (pinned None) w1) by done.
  assert (Hp : preserves (committed (R:=R) (pinned None)) (StoreSession h se ttl)) by go_committed. apply (Hp w1 H1).
Qed.
#[local] Hint Resolve run_task_committed : go.

Lemma service_call_accounts s A m : service_call s A m -> preserves (committed (R:=R) (pinned None)) m.
Proof.
  destruct 1; [apply Register_committed|apply Login_committed|go_committed..].
Qed.

Lemma service_reach_accounts s w w' : service_reach s w w' -> accounts (w_db w) -> accounts (w_db w').
Proof.
  induction 1 as [|A m w w1 w2 x Hc Hm _ IH]; [done|]. intros Hw. apply IH.
  assert (Hp := service_call_accounts s A m Hc w (conj Hw I)). rewrite Hm in Hp. by destruct Hp.
Qed.

(** C10: Accounts stay complete. Through every sequence of service calls and
    background tasks, failing ones, lost commit replies and any driver faults
    included: every stored account has a credentials row, its address is a normal
    form that [NewEmail] reads back as itself, and it is pending exactly while the
    address is not verified; and every session belongs to a device of its own user.
    None of this is a constraint of the schema. *)
Theorem accounts_complete s w w' :
  service_reach s w w' -> accounts (w_db w) -> accounts (w_db w').
Proof. apply service_reach_accounts. Qed.
End Services.

(** ** The reads of the repositories *)

(** The entity a stored row is mapped to. *)
Definition user_entity (r : Users.row) : User.t :=
  User.mk (Users.id r) (Email.mk (Users.email r)) (Users.full_name r) (Users.phone r)
    (Users.user_type r) (Users.account_status r) (Users.email_verified_at r) None None None 0
    (Users.created_at r) (Users.updated_at r).
Definition session_entity (r : Sessions.row) : Session.t := mapSessionRowToEntity (session_of r).
Definition device_entity (r : Devices.row) : Device.t := mapDeviceRowToEntity (device_of r).
Definition address_entity (r : Addresses.row) : Address.t := mapAddressRowToEntity (address_of r).
Definition credential_entity (r : Credentials.row) : Credential.t :=
  mapCredentialRowToEntity (credential_of r).
(** [GetByDeviceID] reads nine of the columns. *)
Definition short_session (r : Sessions.row) : Session.t :=
  Session.mk (Sessions.id r) (Sessions.user_id r) (Sessions.refresh_token_hash r) (Sessions.device_id r)
    (Sessions.session_status r) (Sessions.expires_at r) (Sessions.ip_address r)
    (default "" (Sessions.user_agent r)) (Sessions.last_seen_at r) None None zero_time zero_time.

(** The first row, or the error for none. *)
Definition first_or {A B} (e : error) (f : A -> B) (l : list A) : result B :=
  match l with [] => Err e | r :: _ => Ok (f r) end.

Section Reads.
Context {E : Env} {R : Type} {U : Unicode} {MP : MailParser}.
Implicit Type w : World R.

Lemma row_read {T A B} ctx (tbl : DB -> list T) rows col cols (scan : list sqlval -> result A)
    (f : T -> A) nf (g : A -> result B) (h : T -> B) w :
  ExtractTx ctx = false ->
  (forall r, r ∈ rows (tbl (w_db w)) -> scan (map (col r) cols) = Ok (f r) /\ g (f r) = Ok (h r)) ->
  (let! row := or_not_found nf (QueryRow ctx (select (fun db => pick col cols (rows (tbl db)))) scan) in
   liftM (g row)) w = (tick_pg w, answer w (first_or nf h (rows (tbl (w_db w))))).
Proof.
  intros Hc Hs. unfold bindM at 1.
  erewrite or_not_found_answer;
    [|apply (QueryRow_pool ctx tbl rows _ _ _ f); [done|]; intros r Hr; by apply Hs].
  unfold answer. destruct (pg_fault (w_pg w)) as [[b e]|]; [done|].
  destruct (rows (tbl (w_db w))) as [|r l] eqn:El; simpl; [done|].
  unfold liftM. by rewrite (proj2 (Hs r ltac:(left))).
Qed.

Lemma user_entity_of db r :
  accounts db -> r ∈ users db -> mapUserRowToEntity (user_of r) = Ok (user_entity r).
Proof. intros [Ha _] Hr. destruct (Ha r Hr) as [He _]. unfold mapUserRowToEntity. simpl. by rewrite He. Qed.

(** The readers of users and credentials. *)
Lemma user_reads ctx w :
  scannable (w_db w) -> accounts (w_db w) -> ExtractTx ctx = false ->
  (forall uid, UserRepository.GetByID ctx uid w = (tick_pg w, answer w
     (first_or ErrUserNotFound user_entity (where_ (fun u => Users.id u =? uid) (users (w_db w)))))) /\
  (forall e, UserRepository.GetByEmail ctx e w = (tick_pg w, answer w
     (first_or ErrUserNotFound user_entity
        (where_ (fun u => String.eqb (Users.email u) (Email.value e)) (users (w_db w)))))) /\
  (forall e, UserRepository.ExistsByEmail ctx e w = (tick_pg w, answer w
     (Ok (existsb (fun u => String.eqb (Users.email u) (Email.value e)) (users (w_db w)))))) /\
  (forall uid, CredentialRepository.GetByUserID ctx uid w = (tick_pg w, answer w
     (first_or ErrCredentialNotFound credential_entity
        (where_ (fun c => Credentials.user_id c =? uid) (user_credentials (w_db w)))))).
Proof.
  intros (Hu & _) Ha Hc. split; [|split; [|split]].
  - intros uid. apply (row_read ctx users (where_ _) _ _ _ user_of); [done|].
    intros r [Hr _]%elem_of_where. split; [by apply Hu|by eapply user_entity_of].
  - intros e. apply (row_read ctx users (where_ _) _ _ _ user_of); [done|].
    intros r [Hr _]%elem_of_where. split; [by apply Hu|by eapply user_entity_of].
  - intros e. unfold UserRepository.ExistsByEmail, UserRepository.queryCheckExistEmail, QueryRow.
    unfold bindM. rewrite run_select_pool by done. unfold answer.
    by destruct (pg_fault (w_pg w)) as [[]|].
  - intros uid. apply (row_read ctx user_credentials (where_ _) _ _ _ credential_of _
      (fun x => Ok (mapCredentialRowToEntity x))); [done|].
    intros r _. split; [apply scanCredential_column|done].
Qed.

(** The readers of sessions; [ListActiveByUserID] asks the clock first. *)
Lemma session_reads ctx w :
  well_typed w -> ExtractTx ctx = false ->
  (forall h, SessionRepository.GetByRefreshTokenHash ctx h w = (tick_pg w, answer w
     (first_or ErrSessionNotFound session_entity
        (where_ (fun x => String.eqb (Sessions.refresh_token_hash x) h) (user_sessions (w_db w)))))) /\
  (forall uid did, SessionRepository.GetByDeviceID ctx uid did w = (tick_pg w, answer w
     (first_or ErrSessionNotFound short_session
        (where_ (fun x => (Sessions.user_id x =? uid) && (Sessions.device_id x =? did) &&
                          SessionRepository.revoked_null x) (user_sessions (w_db w)))))) /\
  (forall uid, SessionRepository.ListActiveByUserID ctx uid w = (tick_pg (fst (Now w)), answer w
     (Ok (map session_entity (order_by (desc Sessions.created_at)
        (where_ (fun x => (Sessions.user_id x =? uid) && SessionRepository.revoked_null x &&
                          (pg_time (snd (Now w)) <? Sessions.expires_at x)) (user_sessions (w_db w)))))))).
Proof.
  intros [Ht _] Hc. assert (Hsc := typed_scannable _ _ Ht). destruct Hsc as (_ & _ & Hs & _).
  split; [|split].
  - intros h. apply (row_read ctx user_sessions (where_ _) _ _ _ session_of _
      (fun x => Ok (mapSessionRowToEntity x))); [done|].
    intros r [Hr _]%elem_of_where. split; [by apply Hs|done].
  - intros uid did.
    set (f := fun r => sessionRow.mk (Sessions.id r) (Sessions.user_id r) (Sessions.device_id r)
      (Sessions.refresh_token_hash r) (Sessions.session_status r) (Sessions.expires_at r)
      (Sessions.ip_address r) (default "" (Sessions.user_agent r)) (Sessions.last_seen_at r) None None
      zero_time zero_time).
    apply (row_read ctx user_sessions (where_ _) _ _ _ f _ (fun x => Ok (mapSessionRowToEntity x))); [done|].
    intros r [Hr _]%elem_of_where. destruct Ht as [_ _ Ht _ _]. rewrite Forall_forall in Ht.
    destruct (Ht r Hr) as [_ [a Ha]]. destruct r; simpl in *; subst. by destruct ip_address.
  - intros uid. unfold SessionRepository.ListActiveByUserID. unfold bindM at 1.
    change (nowM w) with (let '(s', t) := Now w in (s', Ok t)). destruct (Now w) as [w1 now] eqn:En.
    assert (Hw : w_db w1 = w_db w /\ w_pg w1 = w_pg w) by (by simplify_eq/=). destruct Hw as [Hdb Hpg].
    unfold answer. rewrite <- Hpg, <- Hdb.
    apply (Query_pool ctx user_sessions (fun t => order_by _ (where_ _ t)) _ _ _ session_of); [done|].
    intros r Hr. rewrite order_by_perm in Hr. apply elem_of_where in Hr as [Hr _]. apply Hs. by rewrite <- Hdb.
Qed.

(** The readers of devices and addresses. *)
Lemma device_reads ctx w :
  scannable (w_db w) -> ExtractTx ctx = false ->
  (forall did, DeviceRepository.GetByID ctx did w = (tick_pg w, answer w
     (first_or ErrNoRows device_entity (where_ (fun d => Devices.id d =? did) (user_devices (w_db w)))))) /\
  (forall uid fp, DeviceRepository.GetByFingerprint ctx uid fp w = (tick_pg w, answer w
     (Ok (Some (match where_ (fun d => (Devices.user_id d =? uid) &&
                                String.eqb (Devices.fingerprint_hash d) fp) (user_devices (w_db w)) with
                | [] => Device.zero
                | d :: _ => device_entity d
                end))))) /\
  (forall uid, DeviceRepository.ListActiveByUserID ctx uid w = (tick_pg w, answer w
     (Ok (map device_entity (order_by (desc Devices.last_seen_at)
        (where_ (fun d => (Devices.user_id d =? uid) &&
           match Devices.revoked_at d with None => true | _ => false end) (user_devices (w_db w)))))))).
Proof.
  intros (_ & Hd & _) Hc.
  assert (Hrow : forall p, QueryRow ctx (select (fun db => pick Devices.column device_columns
      (where_ p (user_devices db)))) scanDevice w =
    (tick_pg w, answer w (match where_ p (user_devices (w_db w)) with
                          | [] => Err ErrNoRows | r :: _ => Ok (device_of r) end))).
  { intros p. apply (QueryRow_pool ctx user_devices (where_ p) _ _ _ device_of); [done|].
    intros r [Hr _]%elem_of_where. by apply Hd. }
  split; [|split].
  - intros did. unfold DeviceRepository.GetByID, DeviceRepository.queryGetDeviceByID. unfold bindM.
    rewrite Hrow. unfold answer. destruct (pg_fault (w_pg w)) as [[]|]; [done|]. by destruct (where_ _ _).
  - intros uid fp. unfold DeviceRepository.GetByFingerprint, DeviceRepository.queryGetDeviceByFingerprint.
    unfold bindM, attemptM. rewrite Hrow. unfold answer.
    destruct (pg_fault (w_pg w)) as [[]|]; [done|]. by destruct (where_ _ _).
  - intros uid. unfold DeviceRepository.ListActiveByUserID. unfold bindM, attemptM.
    unfold DeviceRepository.queryListActiveDeviceByUserID, Query, bindM.
    rewrite run_select_pool by done. unfold answer. destruct (pg_fault (w_pg w)) as [[]|]; [done|].
    unfold liftM. rewrite (scan_all_map _ _ _ device_of); [unfold retM; by rewrite map_map|].
    intros r Hr. rewrite order_by_perm in Hr. apply elem_of_where in Hr as [Hr _]. by apply Hd.
Qed.

Lemma address_reads ctx w :
  scannable (w_db w) -> ExtractTx ctx = false ->
  (forall aid, AddressRepository.GetByID ctx aid w = (tick_pg w, answer w
     (first_or ErrAddressNotFound address_entity
        (where_ (fun a => Addresses.id a =? aid) (addresses (w_db w)))))) /\
  (forall uid, AddressRepository.ListByUserID ctx uid w = (tick_pg w, answer w
     (Ok (map address_entity (order_by default_first
        (where_ (fun a => Addresses.user_id a =? uid) (addresses (w_db w)))))))).
Proof.
  intros (_ & _ & _ & Ha) Hc. split.
  - intros aid. apply (row_read ctx addresses (where_ _) _ _ _ address_of _
      (fun x => Ok (mapAddressRowToEntity x))); [done|].
    intros r [Hr _]%elem_of_where. split; [by apply Ha|done].
  - intros uid.
    apply (Query_pool ctx addresses (fun t => order_by _ (where_ _ t)) _ _ _ address_of); [done|].
    intros r Hr. rewrite order_by_perm in Hr. apply elem_of_where in Hr as [Hr _]. by apply Ha.
Qed.
End Reads.

Section ReachedReads.
Context {E : Env} {R : Type} {RC : RedisClient R} {RD : Rand} {U : Unicode} {MP : MailParser}.
Context {JW : JWT} {BC : Bcrypt}.
Implicit Type w : World R.

(** C11: No read fails on what is stored. In every state that service calls reach
    from complete, typed data, with any faults on the way, each reader of the five
    repositories, used outside a transaction, makes one driver call and returns the
    driver's error if that fails; otherwise a reader of one row returns the entity
    of the first stored row that matches, or its error for none
    ([GetByFingerprint] an empty device, [ExistsByEmail] false), and a reader of
    several the entities of all rows that match, in the order of the query. *)
Theorem repository_reads s w0 w ctx :
  (forall t, ToLower (TrimSpace (ToLower (TrimSpace t))) = ToLower (TrimSpace t)) ->
  well_typed w0 -> accounts (w_db w0) -> service_reach s w0 w -> ExtractTx ctx = false ->
  (forall uid, UserRepository.GetByID ctx uid w = (tick_pg w, answer w
     (first_or ErrUserNotFound user_entity (where_ (fun u => Users.id u =? uid) (users (w_db w)))))) /\
  (forall e, UserRepository.GetByEmail ctx e w = (tick_pg w, answer w
     (first_or ErrUserNotFound user_entity
        (where_ (fun u => String.eqb (Users.email u) (Email.value e)) (users (w_db w)))))) /\
  (forall e, UserRepository.ExistsByEmail ctx e w = (tick_pg w, answer w
     (Ok (existsb (fun u => String.eqb (Users.email u) (Email.value e)) (users (w_db w)))))) /\
  (forall uid, CredentialRepository.GetByUserID ctx uid w = (tick_pg w, answer w
     (first_or ErrCredentialNotFound credential_entity
        (where_ (fun c => Credentials.user_id c =? uid) (user_credentials (w_db w)))))) /\
  (forall h, SessionRepository.GetByRefreshTokenHash ctx h w = (tick_pg w, answer w
     (first_or ErrSessionNotFound session_entity
        (where_ (fun x => String.eqb (Sessions.refresh_token_hash x) h) (user_sessions (w_db w)))))) /\
  (forall uid did, SessionRepository.GetByDeviceID ctx uid did w = (tick_pg w, answer w
     (first_or ErrSessionNotFound short_session
        (where_ (fun x => (Sessions.user_id x =? uid) && (Sessions.device_id x =? did) &&
                          SessionRepository.revoked_null x) (user_sessions (w_db w)))))) /\
  (forall uid, SessionRepository.ListActiveByUserID ctx uid w = (tick_pg (fst (Now w)), answer w
     (Ok (map session_entity (order_by (desc Sessions.created_at)
        (where_ (fun x => (Sessions.user_id x =? uid) && SessionRepository.revoked_null x &&
                          (pg_time (snd (Now w)) <? Sessions.expires_at x)) (user_sessions (w_db w)))))))) /\
  (forall did, DeviceRepository.GetByID ctx did w = (tick_pg w, answer w
     (first_or ErrNoRows device_entity (where_ (fun d => Devices.id d =? did) (user_devices (w_db w)))))) /\
  (forall uid fp, DeviceRepository.GetByFingerprint ctx uid fp w = (tick_pg w, answer w
     (Ok (Some (match where_ (fun d => (Devices.user_id d =? uid) &&
                                String.eqb (Devices.fingerprint_hash d) fp) (user_devices (w_db w)) with
                | [] => Device.zero
                | d :: _ => device_entity d
                end))))) /\
  (forall uid, DeviceRepository.ListActiveByUserID ctx uid w = (tick_pg w, answer w
     (Ok (map device_entity (order_by (desc Devices.last_seen_at)
        (where_ (fun d => (Devices.user_id d =? uid) &&
           match Devices.revoked_at d with None => true | _ => false end) (user_devices (w_db w)))))))) /\
  (forall aid, AddressRepository.GetByID ctx aid w = (tick_pg w, answer w
     (first_or ErrAddressNotFound address_entity
        (where_ (fun a => Addresses.id a =? aid) (addresses (w_db w)))))) /\
  (forall uid, AddressRepository.ListByUserID ctx uid w = (tick_pg w, answer w
     (Ok (map address_entity (order_by default_first
        (where_ (fun a => Addresses.user_id a =? uid) (addresses (w_db w)))))))).
Proof.
  intros Hlow Ht Ha Hr Hc. apply (service_reach_typed s w0 w Hr) in Ht.
  apply (service_reach_accounts Hlow s w0 w Hr) in Ha.
  assert (Hs : scannable (w_db w)) by (eapply typed_scannable, Ht).
  destruct (user_reads ctx w Hs Ha Hc) as (H1 & H2 & H3 & H4).
  destruct (session_reads ctx w Ht Hc) as (H5 & H6 & H7).
  destruct (device_reads ctx w Hs Hc) as (H8 & H9 & H10).
  destruct (address_reads ctx w Hs Hc) as (H11 & H12).
  exact (conj H1 (conj H2 (conj H3 (conj H4 (conj H5 (conj H6 (conj H7 (conj H8 (conj H9 (conj H10
    (conj H11 H12))))))))))).
Qed.
End ReachedReads.

(** ** On the run of the services *)

Module AccountsScenario.
Import IdentityDemo Scenario TypingScenario.

Lemma demo_lower t : ToLower (TrimSpace (ToLower (TrimSpace t))) = ToLower (TrimSpace t).
Proof.
  unfold ToLower at 2 3. destruct (is_ascii (TrimSpace t)) eqn:Ea.
  - destruct (ToLower_TrimSpace_idem (TrimSpace t) Ea) as [_ Hi]. rewrite TrimSpace_idem in Hi.
    by rewrite <- (ToLower_ascii _ Ea).
  - change (map_to_lower (TrimSpace t)) with (TrimSpace t). rewrite TrimSpace_idem.
    unfold ToLower. by rewrite Ea.
Qed.

Lemma demo_accounts : accounts (w_db demo_world).
Proof. split; intros x Hx; inversion Hx. Qed.

(** Ann's registration, verification and login leave a complete account. *)
Lemma accounts_complete_witness :
  accounts (w_db (fst logged_in)) /\ length (users (w_db (fst logged_in))) = 1%nat /\
  length (user_sessions (w_db (fst logged_in))) = 1%nat.
Proof.
  split; [|split; run_it].
  exact (accounts_complete (E:=demo_environment) (R:=Script.t) demo_lower service demo_world
    (fst logged_in) logged_in_reach demo_accounts).
Defined.

Lemma repository_reads_witness :
  exists r, UserRepository.GetByID Background 1 (fst logged_in) = (tick_pg (fst logged_in), Ok (user_entity r)).
Proof.
  destruct (repository_reads (E:=demo_environment) (R:=Script.t) service demo_world (fst logged_in)
    Background demo_lower demo_typed demo_accounts logged_in_reach eq_refl) as [Hu _].
  specialize (Hu 1). assert (Hr : exists r l, where_ (fun u => Users.id u =? 1) (users (w_db (fst logged_in)))
    = r :: l) by (do 2 eexists; run_it).
  destruct Hr as (r & l & Hr). rewrite Hr in Hu. exists r.
  assert (Hf : pg_fault (w_pg (fst logged_in)) = None) by run_it. unfold answer in Hu. rewrite Hf in Hu.
  exact Hu.
Defined.
End AccountsScenario.
