(* ===== verification/SchemaFacts.v ===== *)
(** * Changes the schema accepts

    A statement fails when the database it would leave violates a constraint. The
    lemmas here say, table by table, which changes are accepted: the new rows pass
    the row checks, the keys stay unique and the references have their targets.
    The progress theorems (Progress.v) use them to show that operations succeed. *)

From Stdlib Require Import ZArith NArith String Ascii Lia.
From stdpp Require Import base strings list.
From S2P Require Import Prelude GoStrings Crypto Json Domain Gin Schema Database Sql.

Local Open Scope Z_scope.

(** ** The constraints one by one *)

Lemma consistent_forall db : consistent db <-> Forall (fun c => c.2 db = true) constraints.
Proof.
  rewrite violated_none, Forall_forall. split.
  - intros H [[code name] ok] Hin. by apply (H code name).
  - intros H code name ok Hin. by apply (H _ Hin).
Qed.

(** Row checks, in one test per table. *)
Definition user_row_ok (r : Users.row) : bool := user_texts r && user_lengths r && user_checks r.
Definition device_row_ok (r : Devices.row) : bool := device_texts r && device_lengths r.
Definition session_row_ok (r : Sessions.row) : bool :=
  session_texts r && session_lengths r && session_checks r.
Definition address_row_ok (r : Addresses.row) : bool :=
  address_texts r && address_lengths r && (0 <? Addresses.version r).
Definition event_row_ok (r : OutboxEvents.row) : bool :=
  outbox_texts r && outbox_lengths r && outbox_checks r.

Lemma forallb_and {A} (p q : A -> bool) l :
  forallb (fun r => p r && q r) l = forallb p l && forallb q l.
Proof.
  induction l as [|x l IH]; simpl; [done|]. rewrite IH. by destruct (p x), (q x), (forallb p l).
Qed.

Lemma forallb_elem {A} (p : A -> bool) l : forallb p l = true <-> forall x, x ∈ l -> p x = true.
Proof. rewrite forallb_forall. setoid_rewrite list_elem_of_In. done. Qed.

(** The row checks of a consistent database: the constraints with the given numbers. *)
Ltac row_checks Hc Hr l :=
  lazymatch l with
  | ?n :: ?l' =>
      let H := fresh in
      assert (H := consistent_nth _ Hc n ltac:(simpl; lia)); cbn [nth constraints snd] in H;
      rewrite forallb_elem in H; rewrite (H _ Hr); clear H; row_checks Hc Hr l'
  | _ => done
  end.

(** A changed database: the constraints it shares with the old one are assumptions. *)
Ltac repack Hc :=
  apply consistent_forall in Hc; apply consistent_forall; unfold constraints in *;
  repeat (let H := fresh "Hk" in apply Forall_cons in Hc as [H Hc]; cbn [snd] in H);
  repeat (apply Forall_cons; split; cbn [snd]); simpl; try assumption; try apply Forall_nil_2.

Section Tables.
Context (db : DB) (Hc : consistent db).

Lemma user_rows_ok r : r ∈ users db -> user_row_ok r = true.
Proof. intros Hr. unfold user_row_ok. row_checks Hc Hr [0; 6; 12]%nat. Qed.
Lemma credential_rows_ok r : r ∈ user_credentials db -> credential_checks r = true.
Proof. intros Hr. row_checks Hc Hr [13]%nat. Qed.
Lemma device_rows_ok r : r ∈ user_devices db -> device_row_ok r = true.
Proof. intros Hr. unfold device_row_ok. row_checks Hc Hr [1; 7]%nat. Qed.
Lemma session_rows_ok r : r ∈ user_sessions db -> session_row_ok r = true.
Proof. intros Hr. unfold session_row_ok. row_checks Hc Hr [2; 8; 14]%nat. Qed.
Lemma address_rows_ok r : r ∈ addresses db -> address_row_ok r = true.
Proof. intros Hr. unfold address_row_ok. row_checks Hc Hr [3; 9; 15]%nat. Qed.
Lemma event_rows_ok r : r ∈ outbox_events db -> event_row_ok r = true.
Proof. intros Hr. unfold event_row_ok. row_checks Hc Hr [4; 10; 16]%nat. Qed.
Lemma unique_event_id : NoDup (OutboxEvents.id <$> outbox_events db).
Proof. apply nodupb_spec. apply (consistent_nth db Hc 27). simpl. lia. Qed.

(** References. *)
Lemma credential_user r : r ∈ user_credentials db -> user_exists db (Credentials.user_id r) = true.
Proof. intros Hr. row_checks Hc Hr [29]%nat. Qed.
Lemma device_user r : r ∈ user_devices db -> user_exists db (Devices.user_id r) = true.
Proof. intros Hr. row_checks Hc Hr [30]%nat. Qed.
Lemma session_user r : r ∈ user_sessions db -> user_exists db (Sessions.user_id r) = true.
Proof. intros Hr. row_checks Hc Hr [31]%nat. Qed.
Lemma session_device r : r ∈ user_sessions db -> device_exists db (Sessions.device_id r) = true.
Proof. intros Hr. row_checks Hc Hr [32]%nat. Qed.
Lemma address_user r : r ∈ addresses db -> user_exists db (Addresses.user_id r) = true.
Proof. intros Hr. row_checks Hc Hr [33]%nat. Qed.

(** ** Accepted tables *)

Lemma accept_sessions l :
  (forall r, r ∈ l -> session_row_ok r = true /\ user_exists db (Sessions.user_id r) = true /\
     device_exists db (Sessions.device_id r) = true) ->
  NoDup (Sessions.id <$> l) -> NoDup (Sessions.refresh_token_hash <$> l) ->
  NoDup ((fun s => (Sessions.user_id s, Sessions.device_id s)) <$> l) ->
  consistent (with_sessions (fun _ => l) db).
Proof.
  intros Hr H1 H2 H3. apply nodupb_spec in H1, H2, H3.
  assert (Hrow : forallb session_row_ok l = true) by (apply forallb_elem; intros; by apply Hr).
  unfold session_row_ok in Hrow. rewrite !forallb_and in Hrow.
  apply andb_true_iff in Hrow as [[Ha Hb]%andb_true_iff Hd].
  repack Hc; apply forallb_elem; intros r Hin; by apply Hr.
Qed.

Lemma accept_credentials l :
  (forall r, r ∈ l -> credential_checks r = true /\ user_exists db (Credentials.user_id r) = true) ->
  NoDup (Credentials.user_id <$> l) -> consistent (with_credentials (fun _ => l) db).
Proof.
  intros Hr H1. apply nodupb_spec in H1. repack Hc; apply forallb_elem; intros r Hin; by apply Hr.
Qed.

Lemma accept_addresses l :
  (forall r, r ∈ l -> address_row_ok r = true /\ user_exists db (Addresses.user_id r) = true) ->
  NoDup (Addresses.id <$> l) -> NoDup (Addresses.user_id <$> where_ Addresses.is_default l) ->
  consistent (with_addresses (fun _ => l) db).
Proof.
  intros Hr H1 H2. apply nodupb_spec in H1, H2.
  assert (Hrow : forallb address_row_ok l = true) by (apply forallb_elem; intros; by apply Hr).
  unfold address_row_ok in Hrow. rewrite !forallb_and in Hrow.
  apply andb_true_iff in Hrow as [[Ha Hb]%andb_true_iff Hd].
  repack Hc; apply forallb_elem; intros r Hin; by apply Hr.
Qed.

Lemma accept_events l :
  (forall r, r ∈ l -> event_row_ok r = true) -> NoDup (OutboxEvents.id <$> l) ->
  consistent (with_outbox (fun _ => l) db).
Proof.
  intros Hr H1. apply nodupb_spec in H1.
  assert (Hrow : forallb event_row_ok l = true) by (apply forallb_elem; intros; by apply Hr).
  unfold event_row_ok in Hrow. rewrite !forallb_and in Hrow.
  apply andb_true_iff in Hrow as [[Ha Hb]%andb_true_iff Hd]. repack Hc.
Qed.

(** Devices and users are referenced: the identifiers must stay. *)
Lemma exists_mono {A} (key : A -> Z) (l l' : list A) k :
  (key <$> l) ⊆ (key <$> l') -> existsb (fun r => key r =? k) l = true ->
  existsb (fun r => key r =? k) l' = true.
Proof.
  intros Hsub (r & Hr & Hk)%existsb_exists. apply Z.eqb_eq in Hk as <-.
  apply list_elem_of_In in Hr. assert (Hin : key r ∈ key <$> l') by (apply Hsub, list_elem_of_fmap_2, Hr).
  apply list_elem_of_fmap in Hin as (r' & Hk & Hr'). apply existsb_exists. exists r'.
  split; [by apply list_elem_of_In|]. by apply Z.eqb_eq.
Qed.

Lemma accept_devices l :
  (forall r, r ∈ l -> device_row_ok r = true /\ user_exists db (Devices.user_id r) = true) ->
  (Devices.id <$> user_devices db) ⊆ (Devices.id <$> l) -> NoDup (Devices.id <$> l) ->
  NoDup ((fun d => (Devices.user_id d, Devices.fingerprint_hash d)) <$> l) ->
  consistent (with_devices (fun _ => l) db).
Proof.
  intros Hr Hsub H1 H2. apply nodupb_spec in H1, H2.
  assert (Hrow : forallb device_row_ok l = true) by (apply forallb_elem; intros; by apply Hr).
  unfold device_row_ok in Hrow. rewrite !forallb_and in Hrow. apply andb_true_iff in Hrow as [Ha Hb].
  assert (Hdev := session_device). repack Hc; apply forallb_elem; intros r Hin; [by apply Hr|].
  eapply exists_mono; [done|]. by apply Hdev.
Qed.

Lemma accept_users l :
  (forall r, r ∈ l -> user_row_ok r = true) -> (Users.id <$> users db) ⊆ (Users.id <$> l) ->
  NoDup (Users.id <$> l) -> NoDup (Users.email <$> l) -> consistent (with_users (fun _ => l) db).
Proof.
  intros Hr Hsub H1 H2. apply nodupb_spec in H1, H2.
  assert (Hrow : forallb user_row_ok l = true) by (apply forallb_elem; intros; by apply Hr).
  unfold user_row_ok in Hrow. rewrite !forallb_and in Hrow.
  apply andb_true_iff in Hrow as [[Ha Hb]%andb_true_iff Hd].
  assert (F1 := credential_user). assert (F2 := device_user). assert (F3 := session_user).
  assert (F4 := address_user).
  repack Hc; apply forallb_elem; intros r Hin; (eapply exists_mono; [done|]); auto.
  - by apply F1.
  - by apply F2.
  - by apply F3.
  - by apply F4.
Qed.
End Tables.

(** ** Keys under the two kinds of change *)

Section Keys.
Context {A K : Type} (key : A -> K).

Lemma nodup_insert (l : list A) x :
  NoDup (key <$> l) -> (forall y, y ∈ l -> key y <> key x) -> NoDup (key <$> (l ++ [x])).
Proof.
  intros Hl Hx. rewrite fmap_app. apply NoDup_app. split; [done|]. split; [|apply NoDup_singleton].
  intros k (y & -> & Hy)%list_elem_of_fmap Hk%list_elem_of_singleton. by apply (Hx y).
Qed.

Lemma fmap_update (p : A -> bool) f (l : list A) :
  (forall x, key (f x) = key x) -> key <$> update_where p f l = key <$> l.
Proof.
  intros Hf. induction l as [|x l IH]; csimpl; [done|]. rewrite IH.
  by destruct (p x); rewrite ?Hf.
Qed.

(** One row gets a new key no other row has. *)
Lemma nodup_update (p : A -> bool) f (l : list A) k :
  NoDup (key <$> l) -> (forall x, key (f x) = k) -> (forall x, x ∈ l -> p x = false -> key x <> k) ->
  (length (where_ p l) <= 1)%nat -> NoDup (key <$> update_where p f l).
Proof.
  intros Hl Hf Hk. induction l as [|x l IH]; csimpl; [constructor|].
  apply NoDup_cons in Hl as [Hx Hl]. destruct (p x) eqn:Ep; simpl.
  - intros Hlen. assert (Hw : where_ p l = []) by (destruct (where_ p l); [done|simpl in Hlen; lia]).
    rewrite (update_where_none p f l Hw). constructor; [|done].
    rewrite Hf. intros (y & Hy & Hin)%list_elem_of_fmap.
    apply (Hk y); [by right| |done]. by apply (proj1 (where_nil p l) Hw).
  - intros Hlen. constructor; [|apply IH; [done| |done]; intros y Hy; apply Hk; by right].
    intros (y & Hy & Hin)%list_elem_of_fmap. apply elem_of_update_where in Hin as (z & Hz & ->).
    destruct (p z); [rewrite Hf in Hy; apply (Hk x); [left|done|done]|].
    apply Hx. rewrite Hy. by apply list_elem_of_fmap_2.
Qed.
End Keys.

(** A test on a unique key selects at most one row. *)
Lemma where_unique {A K} (key : A -> K) (p : A -> bool) (l : list A) k :
  NoDup (key <$> l) -> (forall x, p x = true -> key x = k) -> (length (where_ p l) <= 1)%nat.
Proof.
  intros Hl Hp. induction l as [|x l IH]; csimpl; [lia|]. apply NoDup_cons in Hl as [Hx Hl].
  destruct (p x) eqn:Ep; [|by apply IH]. rewrite (proj2 (where_nil p l)); [done|].
  intros y Hy. destruct (p y) eqn:Ey; [|done]. destruct Hx. rewrite (Hp x Ep), <- (Hp y Ey).
  by apply list_elem_of_fmap_2.
Qed.

(** ** Inserted and updated rows *)

Section Rows.
Context (db : DB) (Hc : consistent db).

Lemma elem_of_update_cases {A} (p : A -> bool) f l x (P : A -> Prop) :
  x ∈ update_where p f l -> (forall y, y ∈ l -> p y = true -> P (f y)) -> (forall y, y ∈ l -> P y) -> P x.
Proof. intros (y & Hy & ->)%elem_of_update_where H1 H2. destruct (p y) eqn:E; auto. Qed.
Lemma elem_of_insert_cases {A} l (z x : A) (P : A -> Prop) :
  x ∈ l ++ [z] -> P z -> (forall y, y ∈ l -> P y) -> P x.
Proof.
  intros [Hx|Hx]%elem_of_app Hz Hl; [auto|]. by apply list_elem_of_singleton in Hx as ->.
Qed.

Lemma insert_user_ok u :
  user_row_ok u = true -> (forall r, r ∈ users db -> Users.id r <> Users.id u) ->
  (forall r, r ∈ users db -> Users.email r <> Users.email u) ->
  consistent (with_users (fun l => l ++ [u]) db).
Proof.
  intros Hu Hid He. apply (accept_users db Hc (users db ++ [u])).
  - intros r Hr. pattern r. eapply elem_of_insert_cases; [done|done|by apply user_rows_ok].
  - rewrite fmap_app. intros x Hx. apply elem_of_app. by left.
  - apply nodup_insert; [by apply unique_user_id|done].
  - apply nodup_insert; [by apply unique_email|done].
Qed.

Lemma insert_credential_ok c :
  credential_checks c = true -> user_exists db (Credentials.user_id c) = true ->
  (forall r, r ∈ user_credentials db -> Credentials.user_id r <> Credentials.user_id c) ->
  consistent (with_credentials (fun l => l ++ [c]) db).
Proof.
  intros Hk Hu Hid. apply (accept_credentials db Hc (user_credentials db ++ [c])).
  - intros r Hr. pattern r. eapply elem_of_insert_cases; [done|done|].
    intros y Hy. split; [by apply (credential_rows_ok db)|by apply credential_user].
  - apply nodup_insert; [by apply unique_credential|done].
Qed.

Lemma insert_event_ok e :
  event_row_ok e = true -> (forall r, r ∈ outbox_events db -> OutboxEvents.id r <> OutboxEvents.id e) ->
  consistent (with_outbox (fun l => l ++ [e]) db).
Proof.
  intros Hk Hid. apply (accept_events db Hc (outbox_events db ++ [e])).
  - intros r Hr. pattern r. eapply elem_of_insert_cases; [done|done|by apply event_rows_ok].
  - apply nodup_insert; [by apply unique_event_id|done].
Qed.

Lemma insert_device_ok d :
  device_row_ok d = true -> user_exists db (Devices.user_id d) = true ->
  (forall r, r ∈ user_devices db -> Devices.id r <> Devices.id d) ->
  (forall r, r ∈ user_devices db -> (Devices.user_id r, Devices.fingerprint_hash r) <>
                                    (Devices.user_id d, Devices.fingerprint_hash d)) ->
  consistent (with_devices (fun l => l ++ [d]) db).
Proof.
  intros Hd Hu Hid Hf. apply (accept_devices db Hc (user_devices db ++ [d])).
  - intros r Hr. pattern r. eapply elem_of_insert_cases; [done|done|].
    intros y Hy. split; [by apply (device_rows_ok db)|by apply device_user].
  - rewrite fmap_app. intros x Hx. apply elem_of_app. by left.
  - apply nodup_insert; [by apply unique_device_id|done].
  - apply nodup_insert; [by apply unique_fingerprint|done].
Qed.

Lemma update_device_ok p f :
  (forall d, d ∈ user_devices db -> p d = true -> device_row_ok (f d) = true) ->
  (forall d, Devices.id (f d) = Devices.id d /\ Devices.user_id (f d) = Devices.user_id d /\
             Devices.fingerprint_hash (f d) = Devices.fingerprint_hash d) ->
  consistent (with_devices (update_where p f) db).
Proof.
  intros Hf Hk. apply (accept_devices db Hc (update_where p f (user_devices db))).
  - intros r Hr. pattern r. eapply elem_of_update_cases; [done| |].
    + intros y Hy Hp. split; [by apply Hf|]. destruct (Hk y) as (_ & -> & _). by apply device_user.
    + intros y Hy. split; [by apply (device_rows_ok db)|by apply device_user].
  - rewrite fmap_update; [done|]. intros x. apply Hk.
  - rewrite fmap_update; [by apply unique_device_id|]. intros x. apply Hk.
  - rewrite fmap_update; [by apply unique_fingerprint|]. intros x. by destruct (Hk x) as (_ & -> & ->).
Qed.

Lemma insert_session_ok s :
  session_row_ok s = true -> user_exists db (Sessions.user_id s) = true ->
  device_exists db (Sessions.device_id s) = true ->
  (forall r, r ∈ user_sessions db -> Sessions.id r <> Sessions.id s) ->
  (forall r, r ∈ user_sessions db -> Sessions.refresh_token_hash r <> Sessions.refresh_token_hash s) ->
  (forall r, r ∈ user_sessions db -> (Sessions.user_id r, Sessions.device_id r) <>
                                     (Sessions.user_id s, Sessions.device_id s)) ->
  consistent (with_sessions (fun l => l ++ [s]) db).
Proof.
  intros Hs Hu Hd Hid Hh Hk. apply (accept_sessions db Hc (user_sessions db ++ [s])).
  - intros r Hr. pattern r. eapply elem_of_insert_cases; [done|done|]. intros y Hy.
    split; [by apply (session_rows_ok db)|]. split; [by apply session_user|by apply session_device].
  - apply nodup_insert; [by apply unique_session_id|done].
  - apply nodup_insert; [by apply unique_refresh_hash|done].
  - apply nodup_insert; [by apply unique_session_device|done].
Qed.

(** One session gets a new hash. *)
Lemma update_session_ok p f h :
  (forall s, s ∈ user_sessions db -> p s = true -> session_row_ok (f s) = true) ->
  (forall s, Sessions.id (f s) = Sessions.id s /\ Sessions.user_id (f s) = Sessions.user_id s /\
             Sessions.device_id (f s) = Sessions.device_id s /\ Sessions.refresh_token_hash (f s) = h) ->
  (length (where_ p (user_sessions db)) <= 1)%nat ->
  (forall r, r ∈ user_sessions db -> Sessions.refresh_token_hash r <> h) ->
  consistent (with_sessions (update_where p f) db).
Proof.
  intros Hf Hk H1 Hh. apply (accept_sessions db Hc (update_where p f (user_sessions db))).
  - intros r Hr. pattern r. eapply elem_of_update_cases; [done| |].
    + intros y Hy Hp. split; [by apply Hf|]. destruct (Hk y) as (_ & -> & -> & _).
      split; [by apply session_user|by apply session_device].
    + intros y Hy. split; [by apply (session_rows_ok db)|].
      split; [by apply session_user|by apply session_device].
  - rewrite fmap_update; [by apply unique_session_id|]. intros x. apply Hk.
  - eapply nodup_update; [by apply unique_refresh_hash|intros x; apply Hk|by intros; apply Hh|done].
  - rewrite fmap_update; [by apply unique_session_device|]. intros x. by destruct (Hk x) as (_ & -> & -> & _).
Qed.

(** An account whose e-mail is taken and which is fine otherwise is refused by the
    unique index, whose name and SQLSTATE the driver reports. *)
Lemma insert_taken_email u :
  user_row_ok u = true -> (forall r, r ∈ users db -> Users.id r <> Users.id u) ->
  Users.email u ∈ (Users.email <$> users db) ->
  violated (with_users (fun l => l ++ [u]) db) = Some (EPg "23505" "users_email_key").
Proof.
  intros Hu Hid He. assert (Hrow : forallb user_row_ok (users db ++ [u]) = true).
  { apply forallb_elem. intros r Hr. pattern r. eapply elem_of_insert_cases; [done|done|by apply user_rows_ok]. }
  unfold user_row_ok in Hrow. rewrite !forallb_and in Hrow.
  apply andb_true_iff in Hrow as [[Ha Hb]%andb_true_iff Hd].
  assert (Hn : nodupb Users.id (users db ++ [u]) = true)
    by (apply nodupb_spec, nodup_insert; [by apply unique_user_id|done]).
  assert (Hm : nodupb Users.email (users db ++ [u]) = false).
  { apply not_true_iff_false. intros Hm%nodupb_spec. rewrite fmap_app in Hm.
    apply NoDup_app in Hm as (_ & Hm & _). apply (Hm _ He). left. }
  apply consistent_forall in Hc. unfold constraints in Hc.
  repeat (let H := fresh "Hk" in apply Forall_cons in Hc as [H Hc]; cbn [snd] in H).
  unfold violated, first_violated, constraints. cbn [List.find]. cbn [with_users users user_credentials
    user_devices user_sessions addresses outbox_events processed_events].
  rewrite Ha, Hb, Hd, Hn, Hm, Hk0, Hk1, Hk2, Hk3, Hk4. cbn [negb].
  rewrite Hk6, Hk7, Hk8, Hk9, Hk10, Hk12, Hk13, Hk14, Hk15. reflexivity.
Qed.
End Rows.
