(* ===== verification/Progress.v ===== *)
(** * The services succeed when nothing breaks

    The theorems of IdentitySpec say what a call that succeeded has done. Here is
    the other half: on a consistent and typed database, with no driver fault, valid
    calls do succeed. [succeeds m w Q] is total correctness: [m] returns without an
    error from [w], in a state and with a result that satisfy [Q]. *)

From Stdlib Require Import ZArith NArith String Ascii Lia.
From stdpp Require Import base strings list gmap.
From S2P Require Import Prelude GoStrings Config Crypto Json Domain Gin RedisClient Idempotency Schema.
From S2P Require Import Database Sql Kafka Outbox IdentityAdapters IdentityRepos SessionStore IdentityServices IdentitySpec.
From S2P Require Import Typing SchemaFacts.

Local Open Scope Z_scope.
#[local] Opaque violated.

(** ** Total correctness *)

Definition succeeds {S A} (m : M S A) (w : S) (Q : S -> A -> Prop) : Prop :=
  exists w' a, m w = (w', Ok a) /\ Q w' a.

Section Succeeds.
Context {S A B : Type}.
Implicit Type w : S.

Lemma succeeds_ret (a : A) w Q : Q w a -> succeeds (retM a) w Q.
Proof. intros HQ. by exists w, a. Qed.
Lemma succeeds_lift (r : result A) a w Q : r = Ok a -> Q w a -> succeeds (liftM r) w Q.
Proof. intros -> HQ. by exists w, a. Qed.
Lemma succeeds_bind (m : M S A) (k : A -> M S B) w Q1 Q :
  succeeds m w Q1 -> (forall w1 a, Q1 w1 a -> succeeds (k a) w1 Q) -> succeeds (bindM m k) w Q.
Proof.
  intros (w1 & a & Hm & H1) Hk. destruct (Hk w1 a H1) as (w' & b & Hb & HQ).
  exists w', b. split; [|done]. by rewrite (bindM_step _ _ _ _ _ Hm).
Qed.
(** A call whose error is looked at always returns. *)
Lemma succeeds_attempt (m : M S A) w Q :
  (forall w' x, m w = (w', x) -> Q w' x) -> succeeds (attemptM m) w Q.
Proof.
  intros H. unfold attemptM, succeeds. destruct (m w) as [w' x]. exists w', x. split; [done|]. by apply H.
Qed.
Lemma succeeds_attempt_bind (m : M S A) (k : result A -> M S B) w Q1 Q :
  succeeds m w Q1 -> (forall w1 a, Q1 w1 a -> succeeds (k (Ok a)) w1 Q) ->
  succeeds (bindM (attemptM m) k) w Q.
Proof.
  intros (w1 & a & Hm & H1) Hk. destruct (Hk w1 a H1) as (w' & b & Hb & HQ).
  exists w', b. split; [|done]. unfold bindM, attemptM. by rewrite Hm.
Qed.
Lemma succeeds_weaken (m : M S A) w Q1 Q :
  succeeds m w Q1 -> (forall w' a, Q1 w' a -> Q w' a) -> succeeds m w Q.
Proof. intros (w' & a & Hm & H1) H. exists w', a. auto. Qed.
Lemma succeeds_keeps {T} (f : S -> T) (m : M S A) w Q :
  keeps f m -> succeeds m w Q -> succeeds m w (fun w' a => Q w' a /\ f w' = f w).
Proof. intros Hk (w' & a & Hm & H1). exists w', a. split; [done|]. split; [done|]. by eapply keeps_inv. Qed.
End Succeeds.

(** ** Statements *)

Section Live.
Context {E : Env} {R : Type} (no_fault : forall n, pg_fault n = None).
Implicit Type w : World R.

(** The transaction a context names is open and has not failed. *)
Definition open_in (ctx : Ctx) w : Prop :=
  if ExtractTx ctx then exists t, w_tx w = Some t /\ tx_failed t = false else True.

(** A state in which statements through [ctx] work. *)
Definition ready (ctx : Ctx) w : Prop :=
  open_in ctx w /\ consistent (cur_db ctx w) /\ typed (w_seq w) (cur_db ctx w).

(** What statements leave alone. *)
Definition outside w : R * nat * nat * nat * list task :=
  (w_redis w, w_ticks w, w_reads w, w_uuids w, w_tasks w).

Lemma run_live {A} ctx (s : stmt A) w (Q : World R -> A -> Prop) :
  open_in ctx w ->
  (forall now, exists sq db a, s now (cur_db ctx w) (w_seq w) = (sq, Ok (db, a)) /\
     forall w', open_in ctx w' -> cur_db ctx w' = db -> w_seq w' = sq -> outside w' = outside w ->
       Q w' a) ->
  succeeds (run ctx s) w Q.
Proof.
  unfold succeeds, run, GetExecutor, open_in, cur_db, run_pool, run_tx.
  destruct (ExtractTx ctx).
  - intros (t & Ht & Hf) Hs. rewrite Ht in *. rewrite Hf, no_fault.
    destruct (Hs (tx_now t)) as (sq & db & a & -> & HQ). do 2 eexists. split; [done|].
    by apply HQ; [eexists|..].
  - intros _ Hs. rewrite no_fault. destruct (Hs (pg_clock (w_pg w))) as (sq & db & a & -> & HQ).
    do 2 eexists. split; [done|]. by apply HQ.
Qed.

Lemma select_live {A} ctx (q : DB -> A) w :
  ready ctx w ->
  succeeds (run ctx (select q)) w (fun w' a => a = q (cur_db ctx w) /\ ready ctx w' /\
    cur_db ctx w' = cur_db ctx w /\ outside w' = outside w).
Proof.
  intros (Ho & Hc & Ht). apply run_live; [done|]. intros now. do 3 eexists. split; [done|].
  intros w' Ho' Hd Hq Hout. unfold ready. rewrite Hd, Hq. done.
Qed.

(** A change the schema accepts is carried out. *)
Lemma stmt_live {A} ctx (s : stmt A) w (Q : World R -> A -> Prop) :
  ready ctx w -> maintains typed s ->
  (forall now, exists sq db a, s now (cur_db ctx w) (w_seq w) = (sq, Ok (db, a)) /\ consistent db /\
     forall w', ready ctx w' -> cur_db ctx w' = db -> w_seq w' = sq -> outside w' = outside w -> Q w' a) ->
  succeeds (run ctx s) w Q.
Proof.
  intros (Ho & Hc & Ht) Hu Hs. apply run_live; [done|]. intros now.
  destruct (Hs now) as (sq & db & a & Hd & Hcon & HQ). exists sq, db, a. split; [exact Hd|].
  intros w' Ho' Hdb Hsq Hout. apply HQ; [|assumption..]. unfold ready.
  rewrite Hdb, Hsq. split; [exact Ho'|]. split; [exact Hcon|]. apply Hu in Hd as [_ Hd]. exact (Hd Ht).
Qed.
Lemma dml_live {A} ctx (f : Z -> DB -> Seqs -> Seqs * DB * A) w (Q : World R -> A -> Prop) :
  ready ctx w -> maintains typed (dml f) ->
  (forall now, exists sq db a, f now (cur_db ctx w) (w_seq w) = (sq, db, a) /\ consistent db /\
     forall w', ready ctx w' -> cur_db ctx w' = db -> w_seq w' = sq -> outside w' = outside w -> Q w' a) ->
  succeeds (run ctx (dml f)) w Q.
Proof.
  intros Hr Hu Hf. apply stmt_live; [done|done|]. intros now.
  destruct (Hf now) as (sq & db & a & Ef & Hcon & HQ). exists sq, db, a. split; [|done].
  unfold dml. rewrite Ef. unfold consistent in Hcon. by rewrite Hcon.
Qed.

(** *** Reads *)

(** The database, the readiness and the position in the stream of UUIDs are kept. *)
Definition kept (ctx : Ctx) w w' : Prop :=
  ready ctx w' /\ cur_db ctx w' = cur_db ctx w /\ w_uuids w' = w_uuids w.

Lemma kept_trans ctx w1 w2 w3 : kept ctx w1 w2 -> kept ctx w2 w3 -> kept ctx w1 w3.
Proof. intros (_ & H1 & H2) (Hr & H3 & H4). split; [done|]. split; congruence. Qed.

(** Effects outside the database. *)
Definition dbview w := (w_seq w, w_db w, w_tx w, w_uuids w).

Lemma kept_view {A} ctx (m : M (World R) A) w w' x :
  keeps dbview m -> ready ctx w -> m w = (w', x) -> kept ctx w w'.
Proof.
  intros Hk Hr Hm. apply (keeps_inv dbview) in Hm; [|done]. unfold dbview in Hm.
  injection Hm as Hq Hd Ht Hu. unfold kept, ready, open_in, cur_db in *. rewrite Hq, Hd, Ht, Hu. done.
Qed.
Lemma attempt_kept {A} ctx (m : M (World R) A) w :
  keeps dbview m -> ready ctx w -> succeeds (attemptM m) w (fun w' _ => kept ctx w w').
Proof. intros Hk Hr. apply succeeds_attempt. intros w' x Hm. by eapply kept_view. Qed.
Lemma now_kept ctx w : ready ctx w -> succeeds nowM w (fun w' t => t = env_clock (w_ticks w) /\ kept ctx w w').
Proof.
  intros Hr. eexists _, _. split; [done|]. split; [done|]. by apply (kept_view ctx nowM _ _ (Ok (env_clock (w_ticks w)))).
Qed.
Lemma redisM_view {A} (m : M R A) : keeps dbview (redisM m).
Proof. by apply keeps_zoom. Qed.

Lemma QueryRow_live {T A} ctx (tbl : DB -> list T) (rows : list T -> list T) col cols
    (scan : list sqlval -> result A) w r l a :
  ready ctx w -> rows (tbl (cur_db ctx w)) = r :: l -> scan (map (col r) cols) = Ok a ->
  succeeds (QueryRow ctx (select (fun db => pick col cols (rows (tbl db)))) scan) w
    (fun w' a' => a' = a /\ kept ctx w w').
Proof.
  intros Hr Hl Hs. unfold QueryRow. eapply succeeds_bind; [by apply select_live|].
  intros w1 x (-> & H1 & H2 & H3). rewrite Hl. simpl. eapply succeeds_lift; [done|].
  split; [done|]. split; [done|]. split; [done|]. unfold outside in H3. congruence.
Qed.

Lemma Query_live {T A} ctx (tbl : DB -> list T) (rows : list T -> list T) col cols
    (scan : list sqlval -> result A) (f : T -> A) w :
  ready ctx w -> (forall r, r ∈ rows (tbl (cur_db ctx w)) -> scan (map (col r) cols) = Ok (f r)) ->
  succeeds (Query ctx (select (fun db => pick col cols (rows (tbl db)))) scan) w
    (fun w' a => a = map f (rows (tbl (cur_db ctx w))) /\ kept ctx w w').
Proof.
  intros Hr Hs. unfold Query. eapply succeeds_bind; [by apply select_live|].
  intros w1 x (-> & H1 & H2 & H3). eapply succeeds_lift; [by apply scan_all_map|].
  split; [done|]. split; [done|]. split; [done|]. unfold outside in H3. congruence.
Qed.

(** Without a fault a query returns, also when no row fits its condition. *)
Lemma QueryRow_attempt {A} ctx (q : DB -> rowset) (scan : list sqlval -> result A) w :
  ready ctx w ->
  succeeds (attemptM (QueryRow ctx (select q) scan)) w (fun w' x => kept ctx w w' /\
    x = match q (cur_db ctx w) with [] => Err ErrNoRows | r :: _ => scan r end).
Proof.
  intros Hr. apply succeeds_attempt. intros w' x. unfold QueryRow.
  destruct (select_live ctx q w Hr) as (w1 & a & Hm & -> & H1 & H2 & H3).
  rewrite (bindM_step _ _ _ _ _ Hm). unfold outside in H3.
  destruct (q (cur_db ctx w)) as [|r l]; unfold throwM, liftM; intros; simplify_eq/=;
    (split; [|done]); (split; [done|]); split; congruence.
Qed.

(** A read whose error is looked at: the state is kept, whatever it found. *)
Lemma QueryRow_kept {A} ctx (q : DB -> rowset) (scan : list sqlval -> result A) w w' x :
  ready ctx w -> QueryRow ctx (select q) scan w = (w', x) -> kept ctx w w'.
Proof.
  intros Hr Hx. destruct (QueryRow_attempt ctx q scan w Hr) as (w1 & y & Hy & Hk & _).
  apply attemptM_inv in Hy. rewrite Hx in Hy. by simplify_eq.
Qed.
Lemma or_not_found_kept {A} ctx e (m : M (World R) A) w w' x :
  (forall w1 y, m w = (w1, y) -> kept ctx w w1) -> or_not_found e m w = (w', x) -> kept ctx w w'.
Proof.
  intros Hm. unfold or_not_found, bindM, attemptM. destruct (m w) as [w1 [a|err]] eqn:Em.
  - unfold retM. intros. simplify_eq. by eapply Hm.
  - destruct (isNoRows err); unfold throwM; intros; simplify_eq; by eapply Hm.
Qed.

Lemma or_not_found_live {A} e (m : M (World R) A) w Q : succeeds m w Q -> succeeds (or_not_found e m) w Q.
Proof.
  intros Hm. unfold or_not_found.
  eapply succeeds_attempt_bind; [done|]. intros w1 a Ha. by apply succeeds_ret.
Qed.
End Live.

#[export] Hint Resolve redisM_view : go.

(** ** Repositories *)

(** The row with a unique key comes first among those a test on the key selects. *)
Lemma where_first {T K} (key : T -> K) (p : T -> bool) (l : list T) r :
  NoDup (key <$> l) -> r ∈ l -> p r = true -> (forall x, p x = true -> key x = key r) ->
  exists l', where_ p l = r :: l'.
Proof.
  intros Hd Hr Hp Hk. assert (Hin : r ∈ where_ p l) by (by apply elem_of_where).
  destruct (where_ p l) as [|x l'] eqn:Ew; [by apply elem_of_nil in Hin|]. exists l'. f_equal.
  assert (Hx : x ∈ where_ p l) by (rewrite Ew; left). apply elem_of_where in Hx as [Hx Hpx].
  apply (nodup_key_inj key l); auto.
Qed.

Lemma text_ascii s : is_ascii s = true -> no_nul s = true -> valid_text s = true.
Proof.
  intros Ha Hn. unfold valid_text. rewrite utf8_clean_ascii by done. by rewrite String.eqb_refl.
Qed.

(** A hash is text PostgreSQL stores. *)
Lemma HashToken_text raw : valid_text (HashToken raw) = true.
Proof. apply text_ascii; [apply sha256_hex_ascii|apply sha256_hex_no_nul]. Qed.

Section Repositories.
Context {E : Env} {R : Type} {U : Unicode} {MP : MailParser}.
Context (no_fault : forall n, pg_fault n = None).
Implicit Type w : World R.

Lemma GetByEmail_live ctx email u e w :
  ready ctx w -> u ∈ users (cur_db ctx w) -> Users.email u = Email.value email ->
  NewEmail (Users.email u) = Ok e ->
  succeeds (UserRepository.GetByEmail ctx email) w (fun w' user => user_row user u /\ kept ctx w w').
Proof.
  intros Hr Hu He Hn. assert (Hr' := Hr). destruct Hr' as (_ & Hc & Ht).
  destruct (typed_scannable _ _ Ht) as (Hs & _). specialize (Hs u Hu).
  destruct (where_first Users.email (fun x => String.eqb (Users.email x) (Email.value email))
    (users (cur_db ctx w)) u (unique_email _ Hc) Hu) as [l Hl];
    [by apply String.eqb_eq|intros x Hx; apply String.eqb_eq in Hx; congruence|].
  eapply succeeds_bind.
  - apply or_not_found_live. by apply (QueryRow_live no_fault ctx users (where_ _) _ _ _ w u l (user_of u)).
  - intros w1 a (-> & Hk). assert (Hm : mapUserRowToEntity (user_of u) = Ok _)
      by (unfold mapUserRowToEntity; simpl; by rewrite Hn).
    eapply succeeds_lift; [done|]. split; [by eapply mapUser_row|done].
Qed.

Lemma GetByID_live ctx id u e w :
  ready ctx w -> u ∈ users (cur_db ctx w) -> Users.id u = id -> NewEmail (Users.email u) = Ok e ->
  succeeds (UserRepository.GetByID ctx id) w (fun w' user => user_row user u /\ kept ctx w w').
Proof.
  intros Hr Hu He Hn. assert (Hr' := Hr). destruct Hr' as (_ & Hc & Ht).
  destruct (typed_scannable _ _ Ht) as (Hs & _). specialize (Hs u Hu).
  destruct (where_first Users.id (fun x => Users.id x =? id)
    (users (cur_db ctx w)) u (unique_user_id _ Hc) Hu) as [l Hl];
    [by apply Z.eqb_eq|intros x Hx; apply Z.eqb_eq in Hx; congruence|].
  eapply succeeds_bind.
  - apply or_not_found_live. by apply (QueryRow_live no_fault ctx users (where_ _) _ _ _ w u l (user_of u)).
  - intros w1 a (-> & Hk). assert (Hm : mapUserRowToEntity (user_of u) = Ok _)
      by (unfold mapUserRowToEntity; simpl; by rewrite Hn).
    eapply succeeds_lift; [done|]. split; [by eapply mapUser_row|done].
Qed.

Lemma GetByUserID_live ctx c w :
  ready ctx w -> c ∈ user_credentials (cur_db ctx w) ->
  succeeds (CredentialRepository.GetByUserID ctx (Credentials.user_id c)) w
    (fun w' a => a = mapCredentialRowToEntity (credential_of c) /\ kept ctx w w').
Proof.
  intros Hr Hin. assert (Hr' := Hr). destruct Hr' as (_ & Hc & _).
  destruct (where_first Credentials.user_id (fun x => Credentials.user_id x =? Credentials.user_id c)
    (user_credentials (cur_db ctx w)) c (unique_credential _ Hc) Hin) as [l Hl];
    [by apply Z.eqb_eq|intros x Hx; by apply Z.eqb_eq in Hx|].
  eapply succeeds_bind.
  - apply or_not_found_live.
    by apply (QueryRow_live no_fault ctx user_credentials (where_ _) _ _ _ w c l (credential_of c)),
      scanCredential_column.
  - intros w1 a (-> & Hk). by apply succeeds_ret.
Qed.

Lemma GetByHash_live ctx r fu w :
  ready ctx w -> r ∈ user_sessions (cur_db ctx w) ->
  succeeds (SessionRepository.getByRefreshTokenHash ctx (Sessions.refresh_token_hash r) fu) w
    (fun w' a => a = mapSessionRowToEntity (session_of r) /\ kept ctx w w').
Proof.
  intros Hr Hin. assert (Hr' := Hr). destruct Hr' as (_ & Hc & Ht).
  destruct (typed_scannable _ _ Ht) as (_ & _ & Hs & _). specialize (Hs r Hin).
  destruct (where_first Sessions.refresh_token_hash
    (fun x => String.eqb (Sessions.refresh_token_hash x) (Sessions.refresh_token_hash r))
    (user_sessions (cur_db ctx w)) r (unique_refresh_hash _ Hc) Hin) as [l Hl];
    [by apply String.eqb_eq|intros x Hx; by apply String.eqb_eq in Hx|].
  eapply succeeds_bind.
  - apply or_not_found_live.
    by apply (QueryRow_live no_fault ctx user_sessions (where_ _) _ _ _ w r l (session_of r)).
  - intros w1 a (-> & Hk). by apply succeeds_ret.
Qed.

Lemma ListActive_live ctx uid w :
  ready ctx w -> succeeds (DeviceRepository.ListActiveByUserID ctx uid) w (fun w' _ => kept ctx w w').
Proof.
  intros Hr. assert (Hr' := Hr). destruct Hr' as (_ & _ & Ht).
  destruct (typed_scannable _ _ Ht) as (_ & Hs & _).
  unfold DeviceRepository.ListActiveByUserID. eapply succeeds_attempt_bind.
  - apply (Query_live no_fault ctx user_devices (fun t => order_by _ (where_ _ t)) _ _ _ device_of w Hr).
    intros r. rewrite order_by_perm. intros [Hin _]%elem_of_where. by apply Hs.
  - intros w1 a (_ & Hk). by apply succeeds_ret.
Qed.

Lemma GetByFingerprint_live ctx uid fp w :
  ready ctx w ->
  succeeds (DeviceRepository.GetByFingerprint ctx uid fp) w (fun w' d => is_Some d /\ kept ctx w w').
Proof.
  intros Hr. assert (Hr' := Hr). destruct Hr' as (_ & _ & Ht).
  destruct (typed_scannable _ _ Ht) as (_ & Hs & _).
  unfold DeviceRepository.GetByFingerprint. eapply succeeds_bind; [by apply QueryRow_attempt|].
  cbv beta. intros w1 x (Hk & ->). destruct (where_ _ (user_devices (cur_db ctx w))) as [|d l] eqn:Ew; cbn [pick map].
  - rewrite bool_decide_true by done. by apply succeeds_ret.
  - assert (Hd : d ∈ user_devices (cur_db ctx w)).
    { eapply elem_of_where. rewrite Ew. left. }
    rewrite (Hs d Hd). by apply succeeds_ret.
Qed.
End Repositories.

(** ** Writes *)

Section Writes.
Context {E : Env} {R : Type} (no_fault : forall n, pg_fault n = None).
Implicit Type w : World R.

(** The texts of a device and of a session that PostgreSQL can store. *)
Definition device_text_ok (fingerprint label : string) : bool :=
  valid_text fingerprint && valid_text label && varchar 255 label.
Definition session_text_ok (ip : option string) (agent : string) : bool :=
  optb valid_text ip && valid_text agent && optb (varchar 45) ip.

(** What follows a statement with [RETURNING]. *)
Lemma QueryRow_dml_live {A} ctx f (scan : list sqlval -> result A) w (Q : World R -> A -> Prop) :
  ready ctx w -> maintains typed (dml f) ->
  (forall now, exists sq db r l a, f now (cur_db ctx w) (w_seq w) = (sq, db, r :: l) /\ consistent db /\
     scan r = Ok a /\
     forall w', ready ctx w' -> cur_db ctx w' = db -> w_uuids w' = w_uuids w -> Q w' a) ->
  succeeds (QueryRow ctx (dml f) scan) w Q.
Proof.
  intros Hr Hu Hf. unfold QueryRow.
  apply (succeeds_bind _ _ _ (fun w' rows => exists r l a, rows = r :: l /\ scan r = Ok a /\ Q w' a)).
  - apply (dml_live no_fault); [done|done|]. intros now.
    destruct (Hf now) as (sq & db & r & l & a & He & Hc & Hs & HQ). exists sq, db, (r :: l).
    split; [done|]. split; [done|]. intros w' Hr' Hd _ Ho. exists r, l, a. split; [done|]. split; [done|].
    apply HQ; [done|done|]. unfold outside in Ho. congruence.
  - intros w1 rows (r & l & a & -> & Hs & HQ). by eapply succeeds_lift.
Qed.

Lemma fresh_seq {A} (key : A -> Z) (l : list A) n (P : A -> Prop) :
  Forall P l -> (forall r, P r -> key r < n) -> forall r, r ∈ l -> key r <> n.
Proof.
  intros Hl HP r Hr. rewrite Forall_forall in Hl. specialize (HP r (Hl r Hr)). lia.
Qed.

Lemma existsb_key {A} (key : A -> Z) (l : list A) r :
  r ∈ l -> existsb (fun x => key x =? key r) l = true.
Proof.
  intros Hr. apply existsb_exists. exists r. split; [by apply list_elem_of_In|apply Z.eqb_refl].
Qed.

Lemma device_Upsert_live ctx d w :
  ready ctx w -> user_exists (cur_db ctx w) (Device.UserID d) = true ->
  device_text_ok (Device.Fingerprint d) (Device.Label d) = true ->
  succeeds (DeviceRepository.Upsert ctx d) w (fun w' d' => ready ctx w' /\
    device_exists (cur_db ctx w') (Device.ID d') = true /\
    users (cur_db ctx w') = users (cur_db ctx w) /\
    user_sessions (cur_db ctx w') = user_sessions (cur_db ctx w) /\ w_uuids w' = w_uuids w).
Proof.
  intros Hr Hu Hx. assert (Hr' := Hr). destruct Hr' as (_ & Hc & Ht).
  unfold device_text_ok in Hx. apply andb_true_iff in Hx as [[Hfp Hlb]%andb_true_iff Hlen].
  unfold DeviceRepository.Upsert. assert (Hup := upsertDevice_upholds (Device.UserID d)
    (Device.Fingerprint d) (Device.Label d) (Device.FirstSeenAt d) (Device.LastSeenAt d) (Device.RevokedAt d)).
  unfold DeviceRepository.queryUpsertDevice in *. apply QueryRow_dml_live; [done|done|]. intros now.
  cbv zeta. set (p := fun x => _ && _). set (db := cur_db ctx w) in *.
  destruct (where_ p (user_devices db)) as [|old l] eqn:Ew.
  - do 5 eexists. split; [reflexivity|]. split; [|split; [reflexivity|]].
    + apply insert_device_ok; [done| |done| |]; simpl.
      * unfold device_row_ok, device_texts, device_lengths. simpl. by rewrite Hfp, Hlb, Hlen.
      * eapply fresh_seq; [apply (typed_devices _ _ Ht)|]. by intros r (H & _).
      * intros r Hin Heq. rewrite where_nil in Ew. specialize (Ew r Hin). unfold p in Ew.
        injection Heq as H1 H2. by rewrite H1, H2, Z.eqb_refl, String.eqb_refl in Ew.
    + intros w' Hrd -> Huu. simpl. split; [done|]. split; [|done]. unfold device_exists. simpl.
      rewrite existsb_app. simpl. by rewrite Z.eqb_refl, orb_true_r.
  - assert (Hold : old ∈ user_devices db /\ p old = true) by (apply elem_of_where; rewrite Ew; left).
    destruct Hold as [Hold Hp].
    do 5 eexists. split; [reflexivity|]. split; [|split; [reflexivity|]].
    + apply update_device_ok; [done| |by intros].
      intros y Hy _. assert (Hrow := device_rows_ok _ Hc y Hy). revert Hrow.
      unfold device_row_ok, device_texts, device_lengths. simpl. rewrite Hlb, Hlen.
      by destruct (valid_text (Devices.fingerprint_hash y)), (optb _ (Devices.device_label y)),
        (optb _ (Devices.device_label y)), (optb _ (Devices.revoked_reason y)).
    + intros w' Hrd -> Huu. simpl. split; [done|]. split; [|done]. unfold device_exists. simpl.
      set (f := DeviceRepository.set_row _ _ _ _).
      apply (existsb_key Devices.id _ (f old)). apply elem_of_update_where. exists old. by rewrite Hp.
Qed.

(** A session row with a hash of ours and storable texts. *)
Lemma session_row_new id uid did tok exp ip agent seen rev reason created updated :
  session_text_ok ip agent = true -> optb (varchar 255) reason = true ->
  session_row_ok (Sessions.mk id uid did (HashToken tok) "active" exp ip (Some agent) seen rev reason
                    created updated) = true.
Proof.
  unfold session_text_ok. intros [[H1 H2]%andb_true_iff H3]%andb_true_iff H4.
  unfold session_row_ok, session_texts, session_lengths, session_checks. simpl.
  by rewrite HashToken_text, H1, H2, H3, H4.
Qed.

Lemma session_reason_ok r : session_row_ok r = true -> optb (varchar 255) (Sessions.revoked_reason r) = true.
Proof.
  unfold session_row_ok, session_lengths. intros [[_ H]%andb_true_iff _]%andb_true_iff.
  by apply andb_true_iff in H as [_ H].
Qed.

Lemma session_Upsert_live ctx s tok w :
  ready ctx w -> user_exists (cur_db ctx w) (Session.UserID s) = true ->
  device_exists (cur_db ctx w) (Session.DeviceID s) = true ->
  Session.RefreshTokenHash s = HashToken tok -> Session.SessionStatus s = "active" ->
  session_text_ok (Session.IPAddress s) (Session.UserAgent s) = true ->
  (forall r, r ∈ user_sessions (cur_db ctx w) -> Sessions.refresh_token_hash r <> HashToken tok) ->
  succeeds (SessionRepository.Upsert ctx s) w (fun w' s' => ready ctx w').
Proof.
  intros Hr Hu Hd Hh Hst Hx Hfresh. assert (Hr' := Hr). destruct Hr' as (_ & Hc & Ht).
  unfold SessionRepository.Upsert. rewrite Hh, Hst.
  assert (Hup := upsertSession_upholds (Session.UserID s) (Session.DeviceID s) (HashToken tok) "active"
    (Session.ExpiredAt s) (Session.IPAddress s) (Session.UserAgent s) (Session.LastSeenAt s)).
  unfold SessionRepository.queryUpsertSession in *. apply QueryRow_dml_live; [done|done|]. intros now.
  cbv zeta. set (p := fun x => _ && _). set (db := cur_db ctx w) in *.
  destruct (where_ p (user_sessions db)) as [|old l] eqn:Ew;
    (do 5 eexists; split; [reflexivity|]; split; [|split; [reflexivity|by intros]]).
  - apply insert_session_ok; [done|by apply session_row_new|done|done| |done|]; simpl.
    + eapply fresh_seq; [apply (typed_sessions _ _ Ht)|]. by intros r (H & _).
    + intros r Hin Heq. rewrite where_nil in Ew. specialize (Ew r Hin). unfold p in Ew.
      injection Heq as H1 H2. by rewrite H1, H2, !Z.eqb_refl in Ew.
  - apply (update_session_ok db Hc _ _ (HashToken tok)); [|by intros| |done].
    + intros y Hy _. apply session_row_new; [done|]. by apply session_reason_ok, (session_rows_ok db).
    + apply (where_unique (fun x => (Sessions.user_id x, Sessions.device_id x)) _ _
        (Session.UserID s, Session.DeviceID s)); [by apply unique_session_device|].
      unfold p. intros x [H1 H2]%andb_true_iff. apply Z.eqb_eq in H1, H2. congruence.
Qed.

Lemma session_Update_live ctx s r tok w :
  ready ctx w -> r ∈ user_sessions (cur_db ctx w) -> Session.ID s = Sessions.id r ->
  Session.RefreshTokenHash s = HashToken tok ->
  (forall x, x ∈ user_sessions (cur_db ctx w) -> Sessions.refresh_token_hash x <> HashToken tok) ->
  succeeds (SessionRepository.Update ctx s) w (fun w' _ => ready ctx w').
Proof.
  intros Hr Hin Hid Hh Hfresh. assert (Hr' := Hr). destruct Hr' as (_ & Hc & Ht).
  unfold SessionRepository.Update. rewrite Hh, Hid.
  apply (succeeds_bind _ _ _ (fun w' _ => ready ctx w')); [|intros w' n Hw'; by apply succeeds_ret].
  assert (Hup := updateSession_upholds (Sessions.id r) (HashToken tok) (Session.ExpiredAt s) (Session.LastSeenAt s)).
  unfold SessionRepository.queryUpdateSession in *. apply (dml_live no_fault); [done|done|]. intros now.
  do 3 eexists. split; [reflexivity|]. split; [|by intros].
  apply (update_session_ok _ Hc _ _ (HashToken tok)); [|by intros| |done].
  - intros y Hy _. assert (Hrow := session_rows_ok _ Hc y Hy). revert Hrow.
    unfold session_row_ok, session_texts, session_lengths, session_checks. simpl.
    rewrite HashToken_text. by destruct (valid_text (Sessions.refresh_token_hash y)).
  - apply (where_unique Sessions.id _ _ (Sessions.id r)); [by apply unique_session_id|].
    intros x Hx. by apply Z.eqb_eq in Hx.
Qed.
End Writes.

(** ** Login *)

Section Services.
Context {E : Env} {R : Type} {RC : RedisClient R} {RD : Rand} {U : Unicode} {MP : MailParser}.
Context {JW : JWT} {BC : Bcrypt}.
Context (no_fault : forall n, pg_fault n = None).
(** [SignedString] with HMAC and a key of bytes signs any claims. *)
Context (signs : forall secret c, isOk (jwt_sign secret c) = true).
Implicit Type w : World R.

Lemma pool_ready ctx w : world_ok w -> well_typed w -> ExtractTx ctx = false -> ready ctx w.
Proof.
  intros [Hc _] [Ht _] Hp. unfold ready, open_in, cur_db. by rewrite Hp.
Qed.

Lemma GenerateRefreshToken_live a uid email role did ctx w :
  ready ctx w ->
  succeeds (GenerateRefreshToken a uid email role did) w (fun w' t => ready ctx w' /\
    cur_db ctx w' = cur_db ctx w /\
    exists c, jwt_sign (JWTConfig.Secret a) c = Ok t /\ Claims.ID c = env_uuid (w_uuids w)).
Proof.
  intros Hr. unfold GenerateRefreshToken, succeeds, bindM, nowM, NewString, liftM. simpl.
  set (c := Claims.mk _ _ _ _ _ _ _ _ _). specialize (signs (JWTConfig.Secret a) c).
  destruct (jwt_sign (JWTConfig.Secret a) c) as [t|] eqn:Es; [|done]. do 2 eexists. split; [done|].
  split; [done|]. split; [done|]. by exists c.
Qed.

Lemma GenerateAccessToken_live a uid email role sid did ctx w :
  ready ctx w ->
  succeeds (GenerateAccessToken a uid email role sid did) w (fun w' _ => ready ctx w' /\
    cur_db ctx w' = cur_db ctx w).
Proof.
  intros Hr. unfold GenerateAccessToken, succeeds, bindM, nowM, NewString, liftM, retM. simpl.
  set (c := Claims.mk _ _ _ _ _ _ _ _ _). specialize (signs (JWTConfig.Secret a) c).
  destruct (jwt_sign (JWTConfig.Secret a) c) as [t|] eqn:Es; [|done]. by do 2 eexists.
Qed.

Lemma authenticate_live ctx cmd email e u w :
  ready ctx w -> NewEmail (LoginCommand.Email cmd) = Ok email ->
  authenticated (cur_db ctx w) (Email.value email) (LoginCommand.Password cmd) u ->
  NewEmail (Users.email u) = Ok e ->
  succeeds (authenticate ctx cmd) w (fun w' user => user_row user u /\ kept ctx w w').
Proof.
  intros Hr He (c & Hu & Hem & Hst & Hcr & Hcu & Hb) Hn. unfold authenticate.
  eapply succeeds_bind; [by eapply (succeeds_lift _ _ _ (fun w' a => w' = w /\ a = email))|].
  intros w0 a [-> ->]. eapply succeeds_bind; [by apply (GetByEmail_live no_fault ctx email u e w)|].
  intros w1 user [Hrow Hk]. assert (Hrow' := Hrow). destruct Hrow' as (Hid & _ & Hs & _).
  rewrite Hs, Hst. simpl. assert (Hk' := Hk). destruct Hk' as (Hr1 & Hd1 & _).
  rewrite Hid, <- Hcu. eapply succeeds_bind; [apply (GetByUserID_live no_fault); [done|by rewrite Hd1]|].
  intros w2 cr [-> Hk2]. unfold VerifyPassword. simpl. rewrite Hb. apply succeeds_ret.
  split; [done|]. by eapply kept_trans.
Qed.

Lemma upsert_device_live s ctx cmd user now w :
  ready ctx w -> user_exists (cur_db ctx w) (User.ID user) = true ->
  device_text_ok (TrimSpace (LoginCommand.DeviceFingerprint cmd)) (LoginCommand.DeviceLabel cmd) = true ->
  succeeds (upsert_device s ctx cmd user now) w (fun w' d => ready ctx w' /\
    device_exists (cur_db ctx w') (Device.ID d) = true /\
    users (cur_db ctx w') = users (cur_db ctx w) /\
    user_sessions (cur_db ctx w') = user_sessions (cur_db ctx w) /\ w_uuids w' = w_uuids w).
Proof.
  intros Hr Hu Hx. unfold upsert_device. eapply succeeds_bind; [by apply (ListActive_live no_fault)|].
  intros w1 act (Hr1 & Hd1 & Hu1). eapply succeeds_bind; [by apply (GetByFingerprint_live no_fault)|].
  intros w2 ex ([dev ->] & Hr2 & Hd2 & Hu2).
  eapply succeeds_bind; [by apply (succeeds_ret _ _ (fun w' _ => w' = w2))|]. intros w3 _ ->.
  eapply succeeds_weaken; [apply (device_Upsert_live no_fault); simpl; [done|by rewrite Hd2, Hd1|done]|].
  cbv beta. intros w' d (H1 & H2 & H3 & H4 & H5).
  rewrite H3, H4, H5, Hd2, Hd1. split; [done|]. split; [done|]. split; [done|]. split; [done|]. congruence.
Qed.

Lemma GetByDeviceID_kept ctx uid did w :
  ready ctx w ->
  succeeds (attemptM (SessionRepository.GetByDeviceID ctx uid did)) w (fun w' _ => kept ctx w w').
Proof.
  intros Hr. apply succeeds_attempt. intros w' x Hx. unfold SessionRepository.GetByDeviceID in Hx.
  apply bindM_out in Hx as [(w1 & a & Hq & Hx)|(e & Hq & _)].
  - unfold retM in Hx. simplify_eq. eapply or_not_found_kept; [|done]. intros w1 y Hy.
    by eapply (QueryRow_kept no_fault).
  - eapply or_not_found_kept; [|done]. intros w1 y Hy. by eapply (QueryRow_kept no_fault).
Qed.

(** Tokens that carry the next UUID are not among the stored ones. *)
Definition next_token_fresh (secret : string) w : Prop :=
  forall c t r, jwt_sign secret c = Ok t -> Claims.ID c = env_uuid (w_uuids w) ->
    r ∈ user_sessions (w_db w) -> Sessions.refresh_token_hash r <> HashToken t.

Lemma user_exists_elem db u : u ∈ users db -> user_exists db (Users.id u) = true.
Proof. apply existsb_key. Qed.

Lemma DeleteSession_view h : keeps (dbview (R:=R)) (DeleteSession h).
Proof. go_world. Qed.
Lemma StoreSession_view h se ttl : keeps (dbview (R:=R)) (StoreSession h se ttl).
Proof. go_world. Qed.

Lemma Login_live s ctx cmd email e u w :
  ready ctx w -> ExtractTx ctx = false -> NewEmail (LoginCommand.Email cmd) = Ok email ->
  authenticated (w_db w) (Email.value email) (LoginCommand.Password cmd) u ->
  NewEmail (Users.email u) = Ok e ->
  device_text_ok (TrimSpace (LoginCommand.DeviceFingerprint cmd)) (LoginCommand.DeviceLabel cmd) = true ->
  session_text_ok (Some (LoginCommand.IPAddress cmd)) (LoginCommand.UserAgent cmd) = true ->
  next_token_fresh (JWTConfig.Secret (authManager s)) w ->
  succeeds (Login s ctx cmd) w (fun _ _ => True).
Proof.
  intros Hr Hp He Ha Hn Hdt Hst Hfresh. rewrite <- (cur_db_pool ctx) in Ha by done.
  unfold next_token_fresh in Hfresh. rewrite <- (cur_db_pool ctx w Hp) in Hfresh.
  assert (Hu : u ∈ users (cur_db ctx w)) by (by destruct Ha as (c & Hu & _)).
  unfold Login. eapply succeeds_bind; [by apply (authenticate_live ctx cmd email e u)|].
  intros w1 user (Hrow & Hr1 & Hd1 & Hu1). assert (Hid : User.ID user = Users.id u) by apply Hrow.
  eapply succeeds_bind; [by apply (now_kept ctx)|]. intros w2 now (_ & Hr2 & Hd2 & Hu2).
  eapply succeeds_bind; [apply (upsert_device_live s ctx cmd user now w2 Hr2); [|done];
    rewrite Hid, Hd2, Hd1; by apply user_exists_elem|].
  intros w3 dev (Hr3 & Hde & Hus & Hss & Hu3).
  eapply succeeds_bind; [by apply GetByDeviceID_kept|]. intros w4 old Hk4.
  eapply (succeeds_bind _ _ _ (fun w' _ => kept ctx w3 w')).
  { destruct old as [o|]; [|by apply succeeds_ret].
    eapply succeeds_bind; [apply (attempt_kept ctx); [apply DeleteSession_view|apply Hk4]|].
    intros w5 x Hk5. apply succeeds_ret. by eapply kept_trans. }
  intros w5 _ (Hr5 & Hd5 & Hu5).
  eapply succeeds_bind; [by apply (GenerateRefreshToken_live _ _ _ _ _ ctx)|].
  intros w6 tok (Hr6 & Hd6 & c & Hc & Hcid).
  eapply succeeds_bind; [apply (session_Upsert_live no_fault ctx _ tok); simpl; try done;
    rewrite Hd6, Hd5|].
  - unfold user_exists. rewrite Hus, Hd2, Hd1, Hid. by apply user_exists_elem.
  - done.
  - rewrite Hss, Hd2, Hd1. intros r. eapply Hfresh; [done|]. congruence.
  - intros w7 se Hr7. eapply succeeds_bind; [by apply (GenerateAccessToken_live _ _ _ _ _ _ ctx)|].
    intros w8 acc [Hr8 _]. eapply succeeds_bind; [apply (attempt_kept ctx); [apply StoreSession_view|done]|].
    intros w9 x _. by apply succeeds_ret.
Qed.


(** ** Transactions *)

(** A transaction whose callback succeeds commits. *)
Lemma WithinTransaction_live {A} m ctx (fn : Ctx -> M (World R) A) w (Q : World R -> A -> Prop) :
  pool m = true -> ExtractTx ctx = false -> ready ctx w ->
  (forall w1, ready (inject ctx) w1 -> cur_db (inject ctx) w1 = w_db w -> w_seq w1 = w_seq w ->
     w_redis w1 = w_redis w -> w_reads w1 = w_reads w ->
     succeeds (fn (inject ctx)) w1 (fun w2 a => open_in (inject ctx) w2 /\ Q w2 a)) ->
  succeeds (WithinTransaction m ctx (Some fn)) w (fun w' a => exists w2, Q w2 a /\
    w_db w' = cur_db (inject ctx) w2).
Proof.
  intros Hp Hc (_ & Hcon & Hty) Hfn. rewrite cur_db_pool in Hcon, Hty by done.
  destruct (Hfn (begun w)) as (w2 & a & Hf & (t & Ht & Hnf) & HQ);
    [split; [by eexists|done]|done..|].
  unfold succeeds, WithinTransaction. rewrite Hp, Hc. cbn [negb]. unfold bindM at 1, BeginTx at 1.
  rewrite no_fault. fold (begun w). unfold bindM at 1, attemptM at 1. rewrite Hf.
  unfold bindM at 1, attemptM at 1, Commit. rewrite Ht, no_fault, Hnf.
  unfold bindM at 1, attemptM at 1, Rollback. cbn [w_tx tick_pg set_tx]. unfold retM.
  do 2 eexists. split; [done|]. exists w2. split; [done|]. unfold cur_db. simpl. by rewrite Ht.
Qed.

(** ** Refresh *)

(** A session that may be used at [now]. *)
Definition usable (now : Z) (se : Session.t) : bool :=
  negb (Session.IsRevoked se || negb (String.eqb (Session.SessionStatus se) AccountStatusActive)) &&
  negb (Session.IsExpired se now).
Definition session_entity (r : Sessions.row) : Session.t := mapSessionRowToEntity (session_of r).

(** The cached copy of a session, if Redis has one, says what the stored row says. *)
Definition cache_coherent (now : Z) (hash : string) w : Prop :=
  forall se r, snd (GetSession hash w) = Ok (Some se) ->
    r ∈ user_sessions (w_db w) -> Sessions.refresh_token_hash r = hash ->
    Session.UserID se = Sessions.user_id r /\ usable now se = usable now (session_entity r).

Lemma GetSession_tick hash w : snd (GetSession hash (tick_clock w)) = snd (GetSession hash w).
Proof.
  unfold GetSession, bindM, attemptM, redisM, zoomM. simpl.
  destruct (rdb_Get _ (w_redis w)) as [rd [data|err]].
  - by destruct (unmarshal_session data).
  - by destruct (Is err ERedisNil).
Qed.
Lemma GetSession_view hash : keeps (dbview (R:=R)) (GetSession hash).
Proof. go_world. Qed.

(** The first step of a refresh finds a session for a stored hash, ... *)
Lemma find_session_live ctx now r w :
  ready ctx w -> ExtractTx ctx = false -> r ∈ user_sessions (w_db w) ->
  cache_coherent now (Sessions.refresh_token_hash r) w -> usable now (session_entity r) = true ->
  succeeds (find_session ctx (Sessions.refresh_token_hash r)) w
    (fun w' se => Session.UserID se = Sessions.user_id r /\ usable now se = true /\ kept ctx w w').
Proof.
  intros Hr Hp Hin Hcoh Hus. unfold find_session. set (hash := Sessions.refresh_token_hash r) in *.
  eapply (succeeds_bind _ _ _ (fun w' y => y = snd (GetSession hash w) /\ kept ctx w w')).
  { apply succeeds_attempt. intros w' x Hx. split; [by rewrite Hx|].
    by eapply (kept_view ctx); [apply GetSession_view|..]. }
  intros w1 y (-> & Hk). assert (Hdb : succeeds
    (let! x := attemptM (SessionRepository.GetByRefreshTokenHash ctx hash) in
     match x with Err _ => throwM ErrInvalidCredentials | Ok session => retM session end) w1
    (fun w' se => Session.UserID se = Sessions.user_id r /\ usable now se = true /\ kept ctx w w')).
  { assert (Hk' := Hk). destruct Hk' as (Hr1 & Hd1 & _). eapply succeeds_attempt_bind.
    - apply (GetByHash_live no_fault ctx r false); [done|]. by rewrite Hd1, cur_db_pool.
    - intros w2 se (-> & Hk2). apply succeeds_ret. split; [done|]. split; [done|]. by eapply kept_trans. }
  destruct (snd (GetSession hash w)) as [[se|]|] eqn:Eg; [|done|done].
  destruct (Hcoh se r Eg Hin eq_refl) as [Hu Hs]. apply succeeds_ret. by rewrite Hs.
Qed.

(** ... and what it found was cached or stored. *)
Lemma find_session_inv ctx hash w w' se :
  find_session ctx hash w = (w', Ok se) ->
  snd (GetSession hash w) = Ok (Some se) \/
  exists r, r ∈ user_sessions (cur_db ctx w) /\ Sessions.refresh_token_hash r = hash /\ se = session_entity r.
Proof.
  unfold find_session. intros (w1 & y & Hy & H)%bindM_ok. apply attemptM_inv in Hy.
  assert (Hd : cur_db ctx w1 = cur_db ctx w) by (refine (keeps_inv (cur_db ctx) _ _ _ _ _ Hy); go_world).
  destruct y as [[se'|]|]; [unfold retM in H; simplify_eq; left; by rewrite Hy|..]; right;
    apply bindM_ok in H as (w2 & x & Hx & H); apply attemptM_inv in Hx;
    (destruct x as [se'|]; [|done]); unfold retM in H; simplify_eq;
    apply (session_GetByHash_inv ctx hash false) in Hx as (r & Hr & Hh & -> & _);
    exists r; by rewrite <- Hd.
Qed.

Lemma rotate_session_live s old r new now c w :
  ready c w -> r ∈ user_sessions (cur_db c w) -> Sessions.refresh_token_hash r = old ->
  (forall x, x ∈ user_sessions (cur_db c w) -> Sessions.refresh_token_hash x <> HashToken new) ->
  succeeds (rotate_session s old (HashToken new) now c) w (fun w' _ => open_in c w' /\ True).
Proof.
  intros Hr Hin <- Hf. unfold rotate_session. go_iface. eapply succeeds_attempt_bind.
  - by apply (GetByHash_live no_fault c r true).
  - intros w1 se (-> & Hr1 & Hd1 & _).
    eapply succeeds_bind; [apply (session_Update_live no_fault c _ r new); rewrite ?Hd1; done|].
    intros w2 u Hr2. apply succeeds_ret. split; [apply Hr2|done].
Qed.

(** The checks of a refresh that succeeded. *)
Lemma RefreshToken_usable s ctx tok w w' out :
  RefreshToken s ctx tok w = (w', Ok out) ->
  exists w1 se, find_session ctx (HashToken tok) (tick_clock w) = (w1, Ok se) /\
    usable (env_clock (w_ticks w)) se = true.
Proof.
  unfold RefreshToken. intros H. step H w1 now Hn. unfold nowM in Hn. simpl in Hn. simplify_eq.
  step H w2 se Hf. exists w2, se. split; [done|]. unfold usable.
  destruct (_ || _); [done|]. by destruct (Session.IsExpired se _).
Qed.

Lemma RefreshToken_live s ctx tok r w :
  ready ctx w -> pool (txManager s) = true -> ExtractTx ctx = false ->
  (forall u, u ∈ users (w_db w) -> isOk (NewEmail (Users.email u)) = true) ->
  cache_coherent (env_clock (w_ticks w)) (HashToken tok) (tick_clock w) ->
  next_token_fresh (JWTConfig.Secret (authManager s)) w ->
  r ∈ user_sessions (w_db w) -> Sessions.refresh_token_hash r = HashToken tok ->
  usable (env_clock (w_ticks w)) (session_entity r) = true ->
  succeeds (RefreshToken s ctx tok) w (fun _ _ => True).
Proof.
  intros Hr0 Hp Hc Hem Hcoh Hfr Hin Hh Hus. unfold RefreshToken.
  eapply (succeeds_bind _ _ _ (fun w' t => t = env_clock (w_ticks w) /\ w' = tick_clock w));
    [by eexists _, _|]. intros w1 now (-> & ->). rewrite <- Hh in Hcoh.
  assert (Hr1 : ready ctx (tick_clock w)) by done.
  eapply succeeds_bind; [rewrite <- Hh; by apply (find_session_live ctx (env_clock (w_ticks w)) r)|].
  intros w2 se (Huid & Hse & Hr2 & Hd2 & Hu2). rewrite (cur_db_pool ctx (tick_clock w) Hc) in Hd2.
  change (w_db (tick_clock w)) with (w_db w) in Hd2. change (w_uuids (tick_clock w)) with (w_uuids w) in Hu2.
  unfold usable in Hse. apply andb_true_iff in Hse as [H1 H2]. apply negb_true_iff in H1, H2. rewrite H1, H2.
  assert (Hue : user_exists (w_db w) (Sessions.user_id r) = true).
  { apply session_user; [|done]. rewrite <- (cur_db_pool ctx) by done. apply Hr0. }
  apply existsb_exists in Hue as (u & Hu%list_elem_of_In & Hid%Z.eqb_eq).
  specialize (Hem u Hu). destruct (NewEmail (Users.email u)) as [e|] eqn:Ee; [|done].
  eapply succeeds_bind;
    [apply (GetByID_live no_fault ctx (Session.UserID se) u e); [done|by rewrite Hd2|congruence|done]|].
  intros w3 user (_ & Hr3 & Hd3 & Hu3).
  eapply succeeds_bind; [by apply (GenerateRefreshToken_live _ _ _ _ _ ctx)|].
  intros w4 new (Hr4 & Hd4 & c & Hsg & Hcid).
  eapply succeeds_bind; [by apply (GenerateAccessToken_live _ _ _ _ _ _ ctx)|].
  intros w5 acc (Hr5 & Hd5). assert (Hdb : w_db w5 = w_db w).
  { rewrite <- !(cur_db_pool ctx) by done. rewrite Hd5, Hd4, Hd3, Hd2. by rewrite cur_db_pool. }
  eapply succeeds_bind; [apply (WithinTransaction_live _ _ _ _ (fun _ _ => True)); [done|done|done|]|].
  - intros w6 Hr6 Hd6 _ _ _. apply (rotate_session_live s _ r); [done|by rewrite Hd6, Hdb|done|].
    rewrite Hd6, Hdb. intros x. eapply Hfr; [done|]. congruence.
  - intros w6 se' _. eapply (succeeds_bind _ _ _ (fun _ _ => True)); [by apply succeeds_attempt|].
    intros w7 x _. eapply (succeeds_bind _ _ _ (fun _ _ => True)); [by eexists _, _|]. intros w8 t _.
    eapply (succeeds_bind _ _ _ (fun _ _ => True)); [by eexists _, _|]. intros w9 y _. by apply succeeds_ret.
Qed.

(** C14: A refresh succeeds exactly for a usable session. On a consistent, typed
    database whose e-mails can be read back, with no driver fault and a cache that
    agrees with the table where it has a copy, [RefreshToken] returns new tokens if
    and only if a stored session has the hash of the token and is active, not
    revoked and not expired. *)
Theorem RefreshToken_succeeds s ctx tok w :
  world_ok w -> well_typed w -> pool (txManager s) = true -> ExtractTx ctx = false ->
  (forall u, u ∈ users (w_db w) -> isOk (NewEmail (Users.email u)) = true) ->
  cache_coherent (env_clock (w_ticks w)) (HashToken tok) w ->
  next_token_fresh (JWTConfig.Secret (authManager s)) w ->
  (exists w' out, RefreshToken s ctx tok w = (w', Ok out)) <->
  (exists r, r ∈ user_sessions (w_db w) /\ Sessions.refresh_token_hash r = HashToken tok /\
     usable (env_clock (w_ticks w)) (session_entity r) = true).
Proof.
  intros Hok Hty Hp Hc Hem Hcoh Hfr.
  assert (Hcoh' : cache_coherent (env_clock (w_ticks w)) (HashToken tok) (tick_clock w)).
  { intros se r Hg. rewrite GetSession_tick in Hg. by apply Hcoh. }
  split.
  - intros (w' & out & Hr).
    destruct (RefreshToken_inv s ctx tok w w' out Hp Hc Hr) as (w0 & w1 & now & se & Hw0 & Hrot & _).
    apply rotate_session_inv in Hrot as (r & f & Hin & Hh & _). rewrite cur_begun, Hw0 in Hin.
    apply RefreshToken_usable in Hr as (w2 & se' & Hf & Hus).
    apply find_session_inv in Hf as [Hg|(r' & Hin' & Hh' & ->)].
    + exists r. destruct (Hcoh' se' r Hg Hin Hh) as [_ <-]. done.
    + exists r'. rewrite cur_db_pool in Hin' by done. done.
  - intros (r & Hin & Hh & Hus).
    destruct (RefreshToken_live s ctx tok r w) as (w' & out & Hr & _); eauto using pool_ready.
Qed.
End Services.

(** ** On the run of the services *)

Module ProgressScenario.
Import IdentityDemo Scenario TypingScenario.

(** Tokens that are the secret and the identifier of the claims: every claim is
    signed. *)
Definition plain_jwt : JWT := {|
  jwt_sign secret c := Ok (secret +:+ Claims.ID c);
  jwt_parse _ _ _ := Err (ENew "token is malformed")
|}.

Lemma demo_no_fault n : pg_fault (Env := demo_environment) n = None.
Proof. done. Qed.
Lemma verified_ok : world_ok (fst verified).
Proof. split; [run_it|exact I]. Qed.
Lemma verified_reach : service_reach (E:=demo_environment) (R:=Script.t) service demo_world (fst verified).
Proof.
  exact (reach_call service _ _ _ _ _ _ (call_Register service Background register) registered_eq
    (reach_call service _ _ _ _ _ _ (call_VerifyEmail service Background (mailed_token (fst registered)))
      verified_eq (reach_here service (fst verified)))).
Qed.
Lemma verified_typed : well_typed (fst verified).
Proof. exact (service_reach_typed _ _ _ verified_reach demo_typed). Qed.
Lemma logged_in_typed : well_typed (fst logged_in).
Proof. exact (service_reach_typed _ _ _ logged_in_reach demo_typed). Qed.

(** Ann's account, with her password. *)
Lemma verified_account : exists u, authenticated (w_db (fst verified)) "ann@shop.vn" "SuperSecret123" u.
Proof.
  assert (H : exists u c, users (w_db (fst verified)) = [u] /\ Users.email u = "ann@shop.vn" /\
    Users.account_status u = UserStatusActive /\ user_credentials (w_db (fst verified)) = [c] /\
    Credentials.user_id c = Users.id u /\
    bcrypt_compare (Credentials.password_hash c) "SuperSecret123" = Ok tt)
    by (do 2 eexists; repeat (split; [run_it|]); run_it).
  destruct H as (u & c & Hu & He & Hs & Hc & Hid & Hb). exists u, c. rewrite Hu, Hc.
  split; [left|]. split; [exact He|]. split; [exact Hs|]. split; [left|]. by split.
Qed.


(** Ann's session, and the copy of it in the cache. *)
Definition now_in : Z := env_clock (Env := demo_environment) (w_ticks (fst logged_in)).
Lemma logged_in_session : exists r, user_sessions (w_db (fst logged_in)) = [r] /\
  Sessions.refresh_token_hash r = HashToken refresh_token /\ usable now_in (session_entity r) = true /\
  Sessions.user_id r = 1.
Proof. eexists. repeat (split; [run_it|]). run_it. Qed.
Lemma logged_in_cached : exists se, snd (GetSession (HashToken refresh_token) (fst logged_in)) = Ok (Some se) /\
  Session.UserID se = 1 /\ usable now_in se = true.
Proof. eexists. repeat (split; [run_it|]). run_it. Qed.

Lemma logged_in_emails u : u ∈ users (w_db (fst logged_in)) -> isOk (NewEmail (Users.email u)) = true.
Proof.
  assert (He : exists u, users (w_db (fst logged_in)) = [u] /\ isOk (NewEmail (Users.email u)) = true)
    by (eexists; split; run_it). destruct He as (u0 & Hus & He).
  rewrite Hus. intros Hu. apply list_elem_of_singleton in Hu as ->. exact He.
Qed.
Lemma logged_in_coherent : cache_coherent now_in (HashToken refresh_token) (fst logged_in).
Proof.
  destruct logged_in_session as (r & Hs & Hh & Hu & Hid). destruct logged_in_cached as (se & Hse & Hsu & Huse).
  intros se' r' Hse' Hr' _. rewrite Hse in Hse'. injection Hse' as <-.
  rewrite Hs in Hr'. apply list_elem_of_singleton in Hr' as ->. rewrite Hid, Hsu. split; [reflexivity|].
  exact (eq_trans Huse (eq_sym Hu)).
Qed.
Lemma logged_in_fresh :
  next_token_fresh (JW:=plain_jwt) (JWTConfig.Secret (authManager service)) (fst logged_in).
Proof.
  destruct logged_in_session as (r & Hs & _).
  assert (Hfresh : bool_decide (Sessions.refresh_token_hash <$> user_sessions (w_db (fst logged_in)) =
    [HashToken ("k" +:+ env_uuid (Env := demo_environment) (w_uuids (fst logged_in)))]) = false) by run_it.
  intros c t x Ht Hc Hx Heq. rewrite Hs in Hx, Hfresh. apply list_elem_of_singleton in Hx as ->.
  cbn [jwt_sign plain_jwt] in Ht. change (JWTConfig.Secret (authManager service)) with "k" in Ht.
  injection Ht as <-. rewrite Hc in Heq.
  apply bool_decide_eq_false in Hfresh. apply Hfresh. exact (f_equal (fun h => [h]) Heq).
Qed.
(** The session is stored and usable. *)
Lemma logged_in_usable : exists r, r ∈ user_sessions (w_db (fst logged_in)) /\
  Sessions.refresh_token_hash r = HashToken refresh_token /\ usable now_in (session_entity r) = true.
Proof.
  destruct logged_in_session as (r & Hs & Hh & Hu & _). exists r. rewrite Hs. split; [left|]. split; [exact Hh|exact Hu].
Qed.

Lemma RefreshToken_succeeds_witness :
  exists w' out, RefreshToken (JW:=plain_jwt) service Background refresh_token (fst logged_in) = (w', Ok out).
Proof.
  apply (RefreshToken_succeeds (E:=demo_environment) (R:=Script.t) (JW:=plain_jwt) demo_no_fault (fun _ _ => eq_refl)
    service Background refresh_token (fst logged_in) logged_in_ok logged_in_typed eq_refl eq_refl
    logged_in_emails logged_in_coherent logged_in_fresh). exact logged_in_usable.
Defined.
End ProgressScenario.
