(* ===== verification/Registration.v ===== *)
(** * Registration succeeds, and the race for an e-mail

    A valid registration of a new e-mail address succeeds when PostgreSQL, Redis and
    the random source work; and when another request takes the address after the
    test [ExistsByEmail], the unique index refuses the second account, [Insert]
    reports it as [ErrEmailAlreadyExist] and nothing is stored. *)

From Stdlib Require Import ZArith NArith String Ascii Lia.
From stdpp Require Import base strings list gmap relations.
From S2P Require Import Prelude GoStrings Config Crypto Json Domain Gin RedisClient Idempotency Schema.
From S2P Require Import Database Sql Kafka Outbox IdentityAdapters IdentityRepos SessionStore IdentityServices IdentitySpec.
From S2P Require Import Typing SchemaFacts Progress.

Local Open Scope Z_scope.
#[local] Opaque violated.

(** ** Texts and numbers the columns can hold *)

(** ASCII text without the byte 0. *)
Definition plain (s : string) : bool := is_ascii s && no_nul s.

Lemma plain_app s t : plain (s +:+ t) = plain s && plain t.
Proof.
  unfold plain, is_ascii, no_nul. rewrite bytes_of_app, !forallb_app.
  by destruct (forallb (fun c => (code c <? 128)%N) (bytes_of s)),
    (forallb (fun c => (code c <? 128)%N) (bytes_of t)), (forallb _ (bytes_of s)), (forallb _ (bytes_of t)).
Qed.
Lemma plain_text s : plain s = true -> valid_text s = true.
Proof. intros [H1 H2]%andb_true_iff. by apply text_ascii. Qed.
Lemma plain_jstr s : plain s = true -> jsonb_ok (jstr s) = true.
Proof. intros [H1 H2]%andb_true_iff. unfold jstr. simpl. by rewrite utf8_clean_ascii. Qed.

Lemma digit_byte_nonzero d : 0 <= d < 10 -> digit_byte d <> byte 0.
Proof. intros Hd Hz. apply (f_equal digit_value) in Hz. by rewrite digit_value_byte in Hz. Qed.

Lemma format_digits_no_nul fuel n acc :
  0 <= n -> forallb (fun c => negb (Ascii.eqb c (byte 0))) acc = true ->
  forallb (fun c => negb (Ascii.eqb c (byte 0))) (format_digits fuel n acc) = true.
Proof.
  assert (Hd : forall d l, 0 <= d < 10 -> forallb (fun c => negb (Ascii.eqb c (byte 0))) l = true ->
    forallb (fun c => negb (Ascii.eqb c (byte 0))) (digit_byte d :: l) = true).
  { intros d l H Hl. cbn [forallb]. rewrite Hl, andb_true_r.
    apply negb_true_iff, Ascii.eqb_neq. by apply digit_byte_nonzero. }
  revert n acc. induction fuel as [|f IH]; intros n acc Hn Hacc; [done|]. cbn [format_digits].
  destruct (Z.ltb_spec n 10); [by apply Hd|]. apply IH; [by apply Z.div_pos; lia|].
  apply Hd; [apply Z.mod_pos_bound; lia|done].
Qed.

Lemma plain_FormatInt z : plain (FormatInt z) = true.
Proof.
  unfold plain. rewrite FormatInt_ascii. unfold no_nul, FormatInt. rewrite bytes_of_string_of.
  destruct (Z.ltb_spec z 0); [cbn [forallb]; change (Ascii.eqb (byte 45) (byte 0)) with false|];
    apply format_digits_no_nul; done || lia.
Qed.

Lemma format_digits_length fuel n acc : (length (format_digits fuel n acc) <= fuel + length acc)%nat.
Proof.
  revert n acc. induction fuel as [|f IH]; intros n acc; simpl; [lia|].
  destruct (n <? 10); simpl; [lia|]. specialize (IH (n / 10) (digit_byte (n mod 10) :: acc)).
  simpl in IH. lia.
Qed.

Lemma length_string_of l : String.length (string_of l) = length l.
Proof. induction l as [|c l IH]; simpl; [done|]. by rewrite IH. Qed.

Lemma runes_length s : (length (runes s) <= String.length s)%nat.
Proof.
  unfold runes. generalize (bytes_of s). induction (String.length s) as [|n IH]; intros l; simpl; [done|].
  destruct (decode_rune l) as [[r l']|]; simpl; [|lia]. specialize (IH l'). lia.
Qed.

(** A 64-bit number has at most 65 characters, by the fuel of [FormatInt]. *)
Lemma FormatInt_length z : is_int64 z = true -> (String.length (FormatInt z) <= 65)%nat.
Proof.
  unfold is_int64, int64_min, int64_max. intros [H1%Z.leb_le H2%Z.leb_le]%andb_true_iff.
  unfold FormatInt. rewrite length_string_of.
  assert (Hl : forall n, 0 <= n <= 2 ^ 63 -> (length (format_nat n) <= 64)%nat).
  { intros n Hn. unfold format_nat. assert (Hf := format_digits_length (S (Z.to_nat (Z.log2 n))) n []).
    assert (Hg : Z.log2 n <= 63) by (change 63 with (Z.log2 (2 ^ 63)); apply Z.log2_le_mono; lia).
    simpl in Hf |- *. simpl in Hf. lia. }
  destruct (Z.ltb_spec z 0); simpl; [specialize (Hl (- z))|specialize (Hl z)]; lia.
Qed.

Lemma varchar_short n s : (String.length s <= n)%nat -> varchar n s = true.
Proof. intros H. unfold varchar. apply Nat.leb_le. pose proof (runes_length s). lia. Qed.

Lemma length_app_string s t : String.length (s +:+ t) = (String.length s + String.length t)%nat.
Proof. induction s as [|c s IH]; [done|]. change ((S (String.length (s +:+ t))) = S (String.length s + String.length t))%nat. by rewrite IH. Qed.

(** The key of a user's event fits its column. *)
Lemma user_key_ok z :
  is_int64 z = true ->
  valid_text (EventKey AggUser (FormatInt z)) = true /\ varchar 255 (EventKey AggUser (FormatInt z)) = true /\
  valid_text (FormatInt z) = true /\ varchar 255 (FormatInt z) = true.
Proof.
  intros Hz. assert (Hp := plain_FormatInt z). assert (Hl := FormatInt_length z Hz).
  unfold EventKey. split; [|split; [|split]].
  - apply plain_text. rewrite !plain_app, Hp. reflexivity.
  - apply varchar_short. rewrite !length_app_string. change (String.length AggUser) with 4%nat.
    change (String.length ":") with 1%nat. lia.
  - by apply plain_text.
  - apply varchar_short. lia.
Qed.

(** Fields of a document the column [jsonb] accepts. *)
Definition fields_ok (f : list (string * json)) : bool := forallb (fun '(k, v) => no_nul k && jsonb_ok v) f.
Lemma fields_app f g : fields_ok f = true -> fields_ok g = true -> fields_ok (f ++ g) = true.
Proof. unfold fields_ok. rewrite forallb_app. by intros -> ->. Qed.
Lemma fields_cons k v f :
  no_nul k = true -> jsonb_ok v = true -> fields_ok f = true -> fields_ok ((k, v) :: f) = true.
Proof. intros Hk Hv Hf. unfold fields_ok in *. simpl. by rewrite Hk, Hv. Qed.
Lemma fields_omitempty b k v : no_nul k = true -> jsonb_ok v = true -> fields_ok (omitempty b k v) = true.
Proof. intros Hk Hv. destruct b; [done|]. by apply fields_cons. Qed.

(** A document field by field: names are literals, values are known. *)
Ltac fields :=
  lazymatch goal with
  | |- fields_ok [] = true => reflexivity
  | |- fields_ok (_ ++ _) = true => apply fields_app; fields
  | |- fields_ok ((_, _) :: _) = true => apply fields_cons; [reflexivity|first [assumption|reflexivity]|fields]
  | |- fields_ok (omitempty _ _ _) = true => apply fields_omitempty; [reflexivity|first [assumption|reflexivity]]
  end.
Lemma jsonb_in_fields f : fields_ok f = true -> jsonb_in (PJson (JObj f)) = Ok (JObj f).
Proof. intros Hf. unfold jsonb_in. simpl. fold (fields_ok f). by rewrite Hf. Qed.

(** ** The steps of the transaction *)

Section Steps.
Context {E : Env} {R : Type} {RC : RedisClient R} {RV : RedisView R} {RL : RedisLaws R}.
Context {RD : Rand} {RDL : RandLaws}.
Context (no_fault : forall n, pg_fault n = None).
Implicit Type w : World R.

Lemma user_Insert_live ctx user w :
  ready ctx w -> User.Metadata user = None ->
  (forall now, user_row_ok (Users.mk (users_seq (w_seq w)) (Email.value (User.Email user))
     (User.FullName user) (User.Phone user) (User.UserType user) (User.Status user)
     (pg_time <$> User.EmailVerifiedAt user) None None None (User.Version user) (pg_time now) (pg_time now)) = true) ->
  (forall u, u ∈ users (cur_db ctx w) -> Users.email u <> Email.value (User.Email user)) ->
  succeeds (UserRepository.Insert ctx user) w (fun w' user' => ready ctx w' /\
    User.ID user' = users_seq (w_seq w) /\ User.Email user' = User.Email user /\
    (forall c, c ∈ user_credentials (cur_db ctx w') -> Credentials.user_id c <> User.ID user') /\
    user_exists (cur_db ctx w') (User.ID user') = true).
Proof.
  intros Hr Hm Hrow Hem. assert (Hr' := Hr). destruct Hr' as (_ & Hc & Ht).
  assert (Hid : forall u, u ∈ users (cur_db ctx w) -> Users.id u <> users_seq (w_seq w)).
  { eapply fresh_seq; [apply (typed_users _ _ Ht)|]. by intros r (H & _). }
  unfold UserRepository.Insert. rewrite Hm. eapply succeeds_attempt_bind.
  - assert (Hup := insertUser_upholds (Email.value (User.Email user)) (User.FullName user) (User.Phone user)
      (User.UserType user) (User.Status user) (User.EmailVerifiedAt user) None (User.Version user) eq_refl).
    unfold UserRepository.queryInsertUser in *.
    apply (QueryRow_dml_live no_fault _ _ _ _ (fun w' id => ready ctx w' /\ id = users_seq (w_seq w) /\
      user_credentials (cur_db ctx w') = user_credentials (cur_db ctx w) /\
      user_exists (cur_db ctx w') id = true)); [done|done|].
    intros now. do 5 eexists. split; [reflexivity|]. split; [|split; [reflexivity|]].
    + apply insert_user_ok; [done|apply Hrow|done|done].
    + intros w' Hr' -> _. split; [done|]. split; [done|]. split; [done|]. unfold user_exists. simpl.
      rewrite existsb_app. simpl. by rewrite Z.eqb_refl, orb_true_r.
  - intros w1 id (Hr1 & -> & Hcr & Hue). apply succeeds_ret. simpl. split; [done|]. split; [done|].
    split; [done|]. split; [|done]. rewrite Hcr. intros c Hin Heq.
    assert (Hcu := credential_user _ Hc c Hin). apply existsb_exists in Hcu as (u & Hu%list_elem_of_In & Hk%Z.eqb_eq).
    apply (Hid u Hu). congruence.
Qed.

Lemma credential_Insert_live ctx c w :
  ready ctx w -> valid_text (Credential.PasswordHash c) = true -> Credential.PasswordAlgo c = "bcrypt" ->
  Credential.FailedLoginCount c = 0 -> user_exists (cur_db ctx w) (Credential.UserID c) = true ->
  (forall r, r ∈ user_credentials (cur_db ctx w) -> Credentials.user_id r <> Credential.UserID c) ->
  succeeds (CredentialRepository.Insert ctx c) w (fun w' _ => ready ctx w').
Proof.
  intros Hr Hh Ha Hf Hu Hid. assert (Hr' := Hr). destruct Hr' as (_ & Hc & Ht).
  unfold CredentialRepository.Insert. rewrite Ha, Hf.
  apply (succeeds_bind _ _ _ (fun w' _ => ready ctx w')); [|intros w' n Hw'; by apply succeeds_ret].
  assert (Hup := credInsert_upholds (Credential.UserID c) (Credential.PasswordHash c) "bcrypt"
    (Credential.PasswordChangedAt c) 0 (Credential.LastFailedLoginAt c)).
  unfold CredentialRepository.queryInsert in *. apply (dml_live no_fault); [done|done|]. intros now.
  do 3 eexists. split; [reflexivity|]. split; [|by intros].
  apply insert_credential_ok; [done| |done|done]. unfold credential_checks. simpl. by rewrite Hh.
Qed.

(** Redis takes a [SET] in this state. *)
Definition redis_up (rd : R) : Prop := forall k v ttl, isOk (snd (rd_do (SET k v ttl) rd)) = true.

Lemma Set_live k v ttl (rd : R) : redis_up rd -> exists rd', rdb_Set k v ttl rd = (rd', Ok tt).
Proof.
  intros Hup. unfold rdb_Set, bindM. specialize (Hup k v ttl).
  destruct (rd_do (SET k v ttl) rd) as [rd' [rep|]] eqn:Ed; [|done].
  apply rd_ok in Ed. simpl in Ed. injection Ed as _ <-. by exists rd'.
Qed.

Lemma IssueVerifyToken_live ctx uid w :
  ready ctx w -> redis_up (w_redis w) -> isOk (rand_Read (w_reads w)) = true ->
  succeeds (IssueVerifyToken uid) w (fun w' t => ready ctx w' /\ plain t = true /\ t <> "" /\
    w_seq w' = w_seq w).
Proof.
  intros Hr Hup Hrand. unfold IssueVerifyToken, succeeds, bindM, attemptM, secureToken, GenerateSecureToken.
  destruct (rand_Read (w_reads w)) as [b|] eqn:Eb; [|done].
  unfold redisM, zoomM. simpl.
  destruct (Set_live (emailVerifyPrefix +:+ EncodeToString b) (PRaw (FormatInt uid)) emailVerifyTTL (w_redis w) Hup)
    as [rd' ->]. do 2 eexists. split; [reflexivity|]. split; [done|]. destruct (rand_full _ _ Eb) as [Hl Hb].
  split; [|split; [|done]].
  - unfold plain, no_nul. by rewrite EncodeToString_ascii, EncodeToString_no_nul.
  - intros Hz. apply (f_equal String.length) in Hz. rewrite EncodeToString_length, Hl in Hz. done.
Qed.

(** UUIDs are text. *)
Context (uuid_ok : forall n, plain (env_uuid n) = true).

(** The documents of a user's event can be stored, ... *)
Lemma user_event_json ctx id uid type_ now idem body :
  plain id = true -> plain type_ = true -> plain (GetRequestIdKey ctx) = true -> plain idem = true ->
  jsonb_ok body = true -> year_ok now = true ->
  let p := user_event ctx (FormatInt uid) type_ now idem body in
  exists j m, marshal_outbox (record_envelope id p) = Ok (PJson j) /\ jsonb_in (PJson j) = Ok j /\
    jsonb_in_opt (metadataJSON p) = Ok m.
Proof.
  intros Hid Hty Hreq Hidem Hb Hnow p.
  assert (H1 := plain_jstr _ Hid). assert (H2 := plain_jstr _ Hty). assert (H3 := plain_jstr _ Hreq).
  assert (H4 := plain_jstr _ Hidem). assert (H5 := plain_jstr _ (plain_FormatInt uid)).
  assert (Hm : exists m, jsonb_in_opt (metadataJSON p) = Ok m).
  { unfold metadataJSON. cbv zeta. destruct (_ || _); [|by exists None]. unfold jsonb_in_opt.
    rewrite jsonb_in_fields; [by eexists|]. simpl RecordParams.TraceID. fields. }
  destruct Hm as [m Hm]. eexists (JObj ?[f]), m. unfold marshal_outbox. simpl. rewrite Hnow.
  split; [reflexivity|]. split; [|done]. apply jsonb_in_fields. fields.
Qed.

(** ... and so can its row. *)
Lemma user_event_live ctx uid type_ now idem body w :
  ready ctx w -> is_int64 uid = true -> plain type_ = true -> varchar 100 type_ = true ->
  plain (GetRequestIdKey ctx) = true -> plain idem = true -> jsonb_ok body = true -> year_ok now = true ->
  succeeds (Record ctx (user_event ctx (FormatInt uid) type_ now idem body)) w (fun w' _ => ready ctx w').
Proof.
  intros Hr Hid Hty Htl Hreq Hidem Hb Hnow.
  destruct (user_key_ok uid Hid) as (Hk1 & Hk2 & Hk3 & Hk4).
  destruct (user_event_json ctx (env_uuid (w_uuids w)) uid type_ now idem body) as (j & m & Hj & Hji & Hm);
    [done..|].
  unfold Record, succeeds. unfold bindM at 1, NewString. rewrite Hj. unfold bindM at 1, nowM. simpl Now. cbv iota beta.
  set (w1 := tick_clock (tick_uuid w)). assert (Hr1 : ready ctx w1) by done. revert Hr1. generalize w1.
  clear w1. intros w1 Hr1. assert (Hr' := Hr1). destruct Hr' as (_ & Hc & Ht).
  lazymatch goal with |- exists w' a, ?m w1 = _ /\ ?Q => change (succeeds m w1 (fun w' _ => ready ctx w')) end.
  change (succeeds (PostgresRepository.Insert ctx (OutboxEvent.mk 0 TopicNotificationCmds
    (EventKey AggUser (FormatInt uid)) AggUser (Some (FormatInt uid)) type_ (PJson j)
    (metadataJSON (user_event ctx (FormatInt uid) type_ now idem body)) StatePending
    (env_clock (w_ticks (tick_uuid w))) None None)) w1 (fun w' _ => ready ctx w')).
  unfold PostgresRepository.Insert, Exec.
  eapply (succeeds_attempt_bind _ _ _ (fun w' _ => ready ctx w')); [|intros w2 n Hr2; by apply succeeds_ret].
  apply (stmt_live no_fault); [done|apply outboxInsert_upholds|]. intros t.
  unfold outbox_insert. cbn [OutboxEvent.Payload OutboxEvent.Metadata]. rewrite Hji, Hm. unfold dml.
  lazymatch goal with |- context [violated ?d] => assert (Hcon : consistent d) end.
  { apply insert_event_ok; [done| |].
    - unfold event_row_ok, outbox_texts, outbox_lengths, outbox_checks. simpl.
      by rewrite Hk1, Hk2, Hk3, Hk4, Htl.
    - simpl. eapply fresh_seq; [apply (typed_events _ _ Ht)|]. by intros r H. }
  assert (Hv := Hcon). unfold consistent in Hv. rewrite Hv.
  do 3 eexists. split; [reflexivity|]. split; [done|]. by intros.
Qed.
End Steps.

(** ** Registration *)

Section Register.
Context {E : Env} {R : Type} {RC : RedisClient R} {RV : RedisView R} {RL : RedisLaws R}.
Context {RD : Rand} {RDL : RandLaws} {U : Unicode} {MP : MailParser} {BC : Bcrypt}.
Context (no_fault : forall n, pg_fault n = None).
(** The clock is in the years a timestamp can be written for, and UUIDs are text. *)
Context (clock_ok : forall n, year_ok (env_clock n) = true).
Context (uuid_ok : forall n, plain (env_uuid n) = true).
Implicit Type w : World R.

Lemma run_select_seq {A} ctx (q : DB -> A) : keeps (w_seq (R:=R)) (run ctx (select q)).
Proof.
  intros w. unfold run, run_tx, run_pool, select. destruct (GetExecutor ctx).
  - by destruct (pg_fault (w_pg w)) as [[[] ?]|].
  - destruct (w_tx w) as [t|]; [|done]. destruct (tx_failed t); [done|].
    by destruct (pg_fault (w_pg w)) as [[]|].
Qed.

Lemma ExistsByEmail_live ctx email w :
  ready ctx w ->
  succeeds (UserRepository.ExistsByEmail ctx email) w (fun w' b =>
    b = existsb (fun u => String.eqb (Users.email u) (Email.value email)) (users (cur_db ctx w)) /\
    ready ctx w' /\ cur_db ctx w' = cur_db ctx w /\ w_seq w' = w_seq w).
Proof.
  intros Hr. unfold UserRepository.ExistsByEmail, QueryRow. eapply succeeds_bind.
  - eapply (succeeds_keeps (w_seq (R:=R))); [apply run_select_seq|]. by apply (select_live no_fault).
  - intros w1 rows ((-> & H1 & H2 & _) & H3). by eapply succeeds_lift.
Qed.

(** The texts of a registration the columns can hold. *)
Definition storable (email name : string) (phone : option string) : bool :=
  valid_text email && varchar 255 email && valid_text name && varchar 255 name &&
  optb valid_text phone && optb (varchar 20) phone.

Lemma new_user_row id email name phone now :
  user_row_ok (Users.mk id email name phone UserTypeCustomer UserStatusPendingVerification None None None
    None 1 (pg_time now) (pg_time now)) = storable email name phone.
Proof.
  unfold user_row_ok, storable, user_texts, user_lengths, user_checks. simpl.
  by destruct (valid_text email), (valid_text name), (optb valid_text phone), (varchar 255 email),
    (varchar 255 name), (optb (varchar 20) phone).
Qed.

Lemma plain_stored s : is_ascii s = true -> valid_text s = true -> plain s = true.
Proof. intros Ha [_ Hn]%andb_true_iff. unfold plain. by rewrite Ha. Qed.

(** A stored account has a row the columns can hold. *)
Lemma user_Insert_stored c user w w' u' :
  UserRepository.Insert c user w = (w', Ok u') ->
  exists id t, user_row_ok (Users.mk id (Email.value (User.Email user)) (User.FullName user) (User.Phone user)
    (User.UserType user) (User.Status user) (pg_time <$> User.EmailVerifiedAt user) None None
    (User.Metadata user) (User.Version user) (pg_time t) (pg_time t)) = true.
Proof.
  unfold UserRepository.Insert. intros H. step H w1 x Hx. apply attemptM_inv in Hx.
  destruct x as [id|e]; [|by destruct (isUniqueViolation e)]. unfold retM in H. simplify_eq.
  unfold UserRepository.queryInsertUser in Hx.
  apply QueryRow_dml in Hx as (t & sq & r & rest & Hf & _ & Hcon). injection Hf as _ Hdb _.
  exists (users_seq (w_seq w)), t. eapply user_rows_ok; [exact Hcon|]. rewrite <- Hdb. simpl.
  apply elem_of_app. right. by apply list_elem_of_singleton.
Qed.

Lemma PublishUserRegistered_live ctx uid email tok w :
  ready ctx w -> is_int64 uid = true -> plain email = true -> plain tok = true -> tok <> "" ->
  plain (GetRequestIdKey ctx) = true -> plain (GetIdempotencyKey ctx) = true ->
  succeeds (PublishUserRegistered ctx uid email tok) w (fun w' _ => ready ctx w').
Proof.
  intros Hr Hid He Ht Hne Hreq Hidem. unfold PublishUserRegistered.
  rewrite (proj2 (String.eqb_neq _ _) Hne). eapply succeeds_bind; [by apply (now_kept ctx)|].
  intros w1 now (-> & Hr1 & _). unfold record_or_wrap. eapply succeeds_attempt_bind.
  - apply (user_event_live no_fault uuid_ok); try done.
    assert (H1 := plain_jstr _ He). assert (H2 := plain_jstr _ Ht). apply (fields_cons _ _ _); [done..|]. fields.
  - intros w2 u Hr2. by apply succeeds_ret.
Qed.

(** Redis and the position in the random stream through a statement. *)
Lemma succeeds_tools {A} (m : M (World R) A) w Q :
  keeps w_redis m -> keeps w_reads m -> succeeds m w Q ->
  succeeds m w (fun w' a => Q w' a /\ w_redis w' = w_redis w /\ w_reads w' = w_reads w).
Proof.
  intros H1 H2 Hm. eapply succeeds_weaken; [by apply (succeeds_keeps w_reads), (succeeds_keeps w_redis)|].
  intros w' a ((HQ & Hr) & Hn). done.
Qed.

(** The body of the transaction. *)
Lemma Register_tx_live c user hash now w :
  ready c w -> redis_up (w_redis w) -> isOk (rand_Read (w_reads w)) = true -> is_int64 (users_seq (w_seq w)) = true -> User.Metadata user = None ->
  (forall t, user_row_ok (Users.mk (users_seq (w_seq w)) (Email.value (User.Email user))
     (User.FullName user) (User.Phone user) (User.UserType user) (User.Status user)
     (pg_time <$> User.EmailVerifiedAt user) None None None (User.Version user) (pg_time t) (pg_time t)) = true) ->
  (forall u, u ∈ users (cur_db c w) -> Users.email u <> Email.value (User.Email user)) ->
  plain (Email.value (User.Email user)) = true -> valid_text hash = true ->
  plain (GetRequestIdKey c) = true -> plain (GetIdempotencyKey c) = true ->
  succeeds (register_tx user hash now c) w (fun w' _ => open_in c w' /\ True).
Proof.
  unfold register_tx. intros Hr Hup Hrand Hid Hm Hrow Hno Hpl Hh Hreq Hidem.
  eapply succeeds_bind; [apply succeeds_tools; [go_world|go_world|by apply (user_Insert_live no_fault)]|].
  intros w1 u ((Hr1 & Hu & He & Hcr & Hue) & Hrd1 & Hre1).
  eapply succeeds_bind; [apply succeeds_tools; [go_world|go_world|by apply (credential_Insert_live no_fault)]|].
  intros w2 x (Hr2 & Hrd2 & Hre2).
  eapply succeeds_bind; [apply (IssueVerifyToken_live c); [done|by rewrite Hrd2, Hrd1|by rewrite Hre2, Hre1]|].
  intros w3 tok (Hr3 & Hpt & Hne & _). rewrite He, Hu.
  eapply succeeds_bind; [by apply PublishUserRegistered_live|]. intros w4 y (Ho & _). by apply succeeds_ret.
Qed.

(** What a request must be like to be registered: its address is one [NewEmail]
    accepts, the register policy accepts the password and bcrypt hashes it, the columns
    can hold its texts, and no account has the address. *)
Definition registrable s (cmd : RegisterCommand.t) w : Prop :=
  exists email, NewEmail (RegisterCommand.Email cmd) = Ok email /\
    ValidateRegistration (registerPolicy s) email (RegisterCommand.Password cmd) = Ok tt /\
    isOk (bcrypt_hash (JWTConfig.BcryptCost (authManager s)) (w_reads w) (RegisterCommand.Password cmd)) = true /\
    storable (Email.value email) (TrimSpace (RegisterCommand.FullName cmd))
      (normalizeOptionalString (RegisterCommand.Phone cmd)) = true /\
    forall u, u ∈ users (w_db w) -> Users.email u <> Email.value email.

(** The lookup of the address, with what it leaves alone. *)
Lemma address_lookup ctx email w :
  ready ctx w -> ExtractTx ctx = false ->
  exists w1, UserRepository.ExistsByEmail ctx email w =
      (w1, Ok (existsb (fun u => String.eqb (Users.email u) (Email.value email)) (users (w_db w)))) /\
    ready ctx w1 /\ w_db w1 = w_db w /\ w_seq w1 = w_seq w /\ w_redis w1 = w_redis w /\ w_reads w1 = w_reads w.
Proof.
  intros Hr Hc.
  assert (Hk1 : keeps (w_redis (R:=R)) (UserRepository.ExistsByEmail ctx email)) by go_world.
  assert (Hk2 : keeps (w_reads (R:=R)) (UserRepository.ExistsByEmail ctx email)) by go_world.
  destruct (succeeds_tools _ _ _ Hk1 Hk2 (ExistsByEmail_live ctx email w Hr))
    as (w1 & taken & Hex & (-> & Hr1 & Hd1 & Hs1) & Hrd1 & Hre1).
  rewrite (cur_db_pool ctx w Hc) in Hex, Hd1. rewrite (cur_db_pool ctx w1 Hc) in Hd1. by exists w1.
Qed.

(** Whatever is registered was registrable. *)
Lemma Register_registrable s ctx cmd w w' out :
  ready ctx w -> pool (txManager s) = true -> ExtractTx ctx = false ->
  Register s ctx cmd w = (w', Ok out) -> registrable s cmd w.
Proof.
  intros Hr Hp Hc. unfold Register. intros H. step H w0 email He. unfold liftM in He. injection He as <- He.
  step H w0 v Hv. unfold liftM in Hv. injection Hv as <- Hv. destruct v.
  destruct (address_lookup ctx email w Hr Hc) as (w1 & Hex & _ & _ & _ & _ & Hre).
  rewrite (bindM_step _ _ _ _ _ Hex) in H. destruct (existsb _ _) eqn:Et; [done|].
  step H w2 hash Hh. step H w3 now Hn. step H w4 u Htx. exists email. split; [done|]. split; [done|]. split.
  { unfold HashPassword in Hh. injection Hh as _ Hh. rewrite Hre in Hh. by rewrite Hh. }
  split.
  - apply WithinTransaction_committed in Htx as (w5 & Htx & _); [|done|done].
    unfold register_tx in Htx. step Htx w6 u' Hu. apply user_Insert_stored in Hu as (id & t & Hrow).
    simpl in Hrow. by rewrite new_user_row in Hrow.
  - intros x Hx Heq. apply not_true_iff_false in Et. apply Et, existsb_exists.
    exists x. split; [by apply list_elem_of_In|]. by apply String.eqb_eq.
Qed.

(** C21: Registration succeeds exactly for a well-formed request with a free address.
    On a consistent, typed database, with PostgreSQL, Redis and the random source
    working, bcrypt's hashes text, an ASCII address and request identifiers that can be
    stored, [Register] succeeds if and only if the request is [registrable]. *)
Theorem Register_succeeds s ctx cmd w :
  world_ok w -> well_typed w -> redis_up (w_redis w) ->
  isOk (rand_Read (S (w_reads w))) = true -> pool (txManager s) = true -> ExtractTx ctx = false ->
  is_int64 (users_seq (w_seq w)) = true -> plain (GetRequestIdKey ctx) = true ->
  plain (GetIdempotencyKey ctx) = true -> is_ascii (RegisterCommand.Email cmd) = true ->
  (forall n h, bcrypt_hash (JWTConfig.BcryptCost (authManager s)) n (RegisterCommand.Password cmd) = Ok h ->
     valid_text h = true) ->
  (exists w' out, Register s ctx cmd w = (w', Ok out)) <-> registrable s cmd w.
Proof.
  intros Hok Hty Hup Hrand Hp Hc Hid Hreq Hidem Hascii Hbt. assert (Hr := pool_ready ctx w Hok Hty Hc).
  split; [intros (w' & out & H); by eapply Register_registrable|].
  intros (email & He & Hv & Hbc & Htx & Hno).
  destruct (address_lookup ctx email w Hr Hc) as (w1 & Hex & Hr1 & Hd1 & Hs1 & Hrd1 & Hre1).
  enough (succeeds (Register s ctx cmd) w (fun _ _ => True)) as (w' & out & H & _) by eauto.
  unfold Register. rewrite He.
  eapply succeeds_bind; [by apply (succeeds_lift _ email _ (fun w' a => w' = w /\ a = email))|].
  intros ? ? [-> ->]. rewrite Hv.
  eapply succeeds_bind; [by apply (succeeds_lift _ tt _ (fun w' _ => w' = w))|]. intros ? ? ->.
  assert (Hfree : existsb (fun u => String.eqb (Users.email u) (Email.value email)) (users (w_db w)) = false).
  { apply not_true_iff_false. intros (u & Hu%list_elem_of_In & Hk%String.eqb_eq)%existsb_exists.
    by apply (Hno u). }
  rewrite Hfree in Hex. eapply (succeeds_bind _ _ _ (fun w' b => w' = w1 /\ b = false)); [by exists w1, false|].
  intros ? ? [-> ->]. rewrite <- Hre1 in Hbc. destruct (bcrypt_hash _ (w_reads w1) _) as [h|] eqn:Hh; [|done].
  eapply (succeeds_bind _ _ _ (fun w' a => w' = tick_rand w1 /\ a = h));
    [eexists _, _; unfold HashPassword; by rewrite Hh|]. intros ? ? [-> ->].
  eapply (succeeds_bind _ _ _ (fun w' _ => w' = tick_clock (tick_rand w1))); [by eexists _, _|].
  intros ? now ->. eapply succeeds_bind; [|intros w3 u _; by apply succeeds_ret].
  apply (WithinTransaction_live no_fault _ _ _ _ (fun _ _ => True)); [done|done|done|].
  intros w2 Hr2 Hd2 Hs2 Hrd2 Hre2. change (w_seq (tick_clock (tick_rand w1))) with (w_seq w1) in Hs2.
  change (w_db (tick_clock (tick_rand w1))) with (w_db w1) in Hd2.
  change (w_redis (tick_clock (tick_rand w1))) with (w_redis w1) in Hrd2.
  apply Register_tx_live; try done.
  - by rewrite Hrd2, Hrd1.
  - rewrite Hre2. change (w_reads (tick_clock (tick_rand w1))) with (S (w_reads w1)). by rewrite Hre1.
  - by rewrite Hs2, Hs1.
  - intros t. rewrite <- Htx. apply new_user_row.
  - by rewrite Hd2, Hd1.
  - simpl. apply plain_stored.
    + rewrite (NewEmail_value _ _ He). by destruct (ToLower_TrimSpace_idem _ Hascii).
    + revert Htx. unfold storable. by destruct (valid_text (Email.value email)).
  - by eapply Hbt.
Qed.
End Register.

(** ** Accounts are never removed *)

(** The account with this identifier and e-mail is stored. *)
Definition has_account (id : Z) (email : string) (sq : Seqs) (db : DB) : Prop :=
  (id, email) ∈ ((fun u => (Users.id u, Users.email u)) <$> users db).

Lemma has_account_insert id email sq sq' db u :
  has_account id email sq db -> has_account id email sq' (with_users (fun l => l ++ [u]) db).
Proof. unfold has_account. simpl. rewrite fmap_app. intros H. apply elem_of_app. by left. Qed.
Lemma has_account_update id email sq sq' db p f :
  (forall u, Users.id (f u) = Users.id u /\ Users.email (f u) = Users.email u) ->
  has_account id email sq db -> has_account id email sq' (with_users (update_where p f) db).
Proof.
  intros Hf. unfold has_account. simpl. rewrite fmap_update; [done|].
  intros u. by destruct (Hf u) as [-> ->].
Qed.

(** The statements: only three of them touch the accounts. *)
Ltac account_stmt :=
  lazymatch goal with |- maintains _ ?s => let h := head_of s in unfold h end;
  try apply guarded_maintains; apply dml_maintains; intros ? ? ? ? ? ? Hq; cbv zeta in Hq;
  repeat case_match; simplify_eq; (split; [done|]);
  first [done | apply has_account_insert | apply has_account_update; done].
#[local] Hint Extern 2 (maintains (has_account _ _) _) => account_stmt : go.

Lemma outboxInsert_account id email e : maintains (has_account id email) (outbox_insert e).
Proof.
  intros now db sq sq' x. unfold outbox_insert.
  destruct (jsonb_in (OutboxEvent.Payload e)), (jsonb_in_opt (OutboxEvent.Metadata e));
    try (intros; by simplify_eq).
  unfold dml. destruct (violated _); intros; by simplify_eq.
Qed.
#[local] Hint Resolve outboxInsert_account : go.

Section Accounts.
Context {E : Env} {R : Type} {RC : RedisClient R} {RD : Rand} {U : Unicode} {MP : MailParser}.
Context {JW : JWT} {BC : Bcrypt}.
Implicit Type w : World R.

Lemma service_call_account id email s A m :
  service_call s A m -> preserves (holds (R:=R) (has_account id email)) m.
Proof. destruct 1; go_world. Qed.

Lemma register_tx_account id email user hash now c :
  preserves (holds (R:=R) (has_account id email)) (register_tx user hash now c).
Proof. go_world. Qed.
Lemma ExistsByEmail_account id email ctx e :
  preserves (holds (R:=R) (has_account id email)) (UserRepository.ExistsByEmail ctx e).
Proof. go_world. Qed.
End Accounts.

(** ** The race for an e-mail

    Requests run [Register] concurrently. A request first asks [ExistsByEmail]; then
    it runs its transaction, which PostgreSQL serialises against another insert of
    the same e-mail by the unique index. Between the two, other requests and any
    other service may run. *)

Section Race.
Context {E : Env} {R : Type} {RC : RedisClient R} {RD : Rand} {U : Unicode} {MP : MailParser}.
Context {JW : JWT} {BC : Bcrypt}.
Context (s : AuthService) (ctx : Ctx).
Implicit Type w : World R.

Inductive reg_phase := RArrived | RFree | RDone (id : Z) | RFailed (e : error).

(** The requests by number: the account each wants to create, and how far it is. *)
Abbreviation requests := (gmap nat (User.t * reg_phase)).

Definition checked (x : result bool) : reg_phase :=
  match x with
  | Ok false => RFree
  | Ok true => RFailed ErrEmailAlreadyExist
  | Err e => RFailed e
  end.
Definition committed (x : result User.t) : reg_phase :=
  match x with Ok user => RDone (User.ID user) | Err e => RFailed e end.

Inductive reg_step : World R * requests -> World R * requests -> Prop :=
| reg_arrive i user w rs :
    rs !! i = None -> reg_step (w, rs) (w, <[i := (user, RArrived)]> rs)
| reg_check i user w w' x rs :
    rs !! i = Some (user, RArrived) ->
    UserRepository.ExistsByEmail ctx (User.Email user) w = (w', x) ->
    reg_step (w, rs) (w', <[i := (user, checked x)]> rs)
| reg_commit i user hash now w w' x rs :
    rs !! i = Some (user, RFree) ->
    WithinTransaction (txManager s) ctx (Some (register_tx user hash now)) w = (w', x) ->
    reg_step (w, rs) (w', <[i := (user, committed x)]> rs)
| reg_other A (m : M (World R) A) w w' x rs :
    service_call s A m -> m w = (w', x) -> reg_step (w, rs) (w', rs).

(** An account that was reported created is stored, and nobody else was told so
    for the same e-mail. *)
Record reg_inv (st : World R * requests) : Prop := {
  reg_schema : world_ok (fst st);
  reg_stored i user id : snd st !! i = Some (user, RDone id) ->
    holds (has_account id (Email.value (User.Email user))) (fst st);
  reg_once i j user user' id id' : snd st !! i = Some (user, RDone id) ->
    snd st !! j = Some (user', RDone id') ->
    Email.value (User.Email user) = Email.value (User.Email user') -> i = j
}.

Context (Hpool : pool (txManager s) = true) (Hctx : ExtractTx ctx = false).

(** A transaction that committed is closed. *)
Lemma committed_closed {A} m (fn : Ctx -> M (World R) A) w w' a :
  pool m = true -> WithinTransaction m ctx (Some fn) w = (w', Ok a) -> w_tx w' = None.
Proof.
  intros Hp. unfold WithinTransaction. rewrite Hp, Hctx. simpl. unfold bindM at 1, BeginTx.
  destruct (pg_fault (w_pg w)) as [[d e]|]; [done|]. unfold bindM at 1, attemptM at 1.
  destruct (fn _ _) as [w1 [b|err]].
  - unfold bindM, attemptM, Commit. destruct (w_tx w1) as [t|] eqn:Et; [|by destruct (Rollback w1)].
    destruct (pg_fault (w_pg w1)) as [[d e]|]; [by destruct (Rollback _)|].
    destruct (tx_failed t); [by destruct (Rollback _)|]. unfold Rollback, retM. simpl. by intros; simplify_eq.
  - unfold bindM, attemptM. destruct (Rollback w1) as [w2 [|re]]; [done|].
    by destruct (negb (Is re ErrTxClosed)).
Qed.

(** The transaction adds an account whose e-mail no stored account has. *)
Lemma register_commit_inv user hash now w w' u' :
  world_ok w -> WithinTransaction (txManager s) ctx (Some (register_tx user hash now)) w = (w', Ok u') ->
  world_ok w' /\ holds (has_account (User.ID u') (Email.value (User.Email user))) w' /\
  (forall id, ~ holds (has_account id (Email.value (User.Email user))) w).
Proof.
  intros Hok Hw. assert (Hok' : world_ok w').
  { assert (Hp : preserves world_ok (WithinTransaction (R:=R) (txManager s) ctx (Some (register_tx user hash now))))
      by go_world. specialize (Hp w Hok). by rewrite Hw in Hp. }
  assert (Hcl := committed_closed _ _ _ _ _ Hpool Hw).
  apply WithinTransaction_committed in Hw as (w1 & Htx & Hdb & _ & _); [|done|done].
  apply Register_tx_inv in Htx as (_ & r & cr & e & Hcur & Hid & Hem & _).
  rewrite cur_begun, Hdb in Hcur. split; [done|]. split.
  - split; [|by rewrite Hcl]. unfold has_account. rewrite Hcur. simpl. rewrite fmap_app, <- Hid, <- Hem.
    apply elem_of_app. right. left.
  - intros id [Hin _]. destruct Hok' as [Hc' _]. assert (Hnd := unique_email _ Hc').
    rewrite Hcur in Hnd. simpl in Hnd. rewrite fmap_app in Hnd. apply NoDup_app in Hnd as (_ & Hnd & _).
    unfold has_account in Hin. apply list_elem_of_fmap in Hin as (u & Hu & Hin). injection Hu as _ Hu.
    apply (Hnd (Users.email u)); [by apply list_elem_of_fmap_2|]. rewrite <- Hu, <- Hem. left.
Qed.

(** A request that is not reported created. *)
Lemma reg_inv_idle w w' rs i user p :
  (forall id, p <> RDone id) -> world_ok w' ->
  (forall id email, holds (has_account id email) w -> holds (has_account id email) w') ->
  reg_inv (w, rs) -> reg_inv (w', <[i := (user, p)]> rs).
Proof.
  intros Hp Hok Hk [H1 H2 H3]. split; simpl in *.
  - done.
  - intros j u id Hj. apply lookup_insert_Some in Hj as [[_ [= _ ->]]|[_ Hj]]; [by destruct (Hp id)|].
    by eapply Hk, H2.
  - intros j k u u' id id' Hj Hk' He. apply lookup_insert_Some in Hj as [[_ [= _ ->]]|[_ Hj]]; [by destruct (Hp id)|].
    apply lookup_insert_Some in Hk' as [[_ [= _ ->]]|[_ Hk']]; [by destruct (Hp id')|]. by eapply H3.
Qed.

Lemma reg_step_inv st st' : reg_step st st' -> reg_inv st -> reg_inv st'.
Proof.
  intros Hs Hinv. assert (Hok := reg_schema _ Hinv).
  destruct Hs as [i user w rs Hi|i user w w' x rs Hi Hx|i user hash now w w' x rs Hi Hx|A m w w' x rs Hc Hm];
    simpl in Hok.
  - by apply (reg_inv_idle w).
  - apply (reg_inv_idle w); [by destruct x as [[]|]| | |done].
    + assert (Hp : preserves world_ok (UserRepository.ExistsByEmail (R:=R) ctx (User.Email user))) by go_world.
      specialize (Hp w Hok). by rewrite Hx in Hp.
    + intros id email Hh. assert (Hp := ExistsByEmail_account id email ctx (User.Email user) w Hh).
      by rewrite Hx in Hp.
  - assert (Hk : forall id email, holds (has_account id email) w -> holds (has_account id email) w').
    { intros id email Hh. assert (Hp := WithinTransaction_preserves (holds (has_account id email))
        (txManager s) ctx (register_tx user hash now) (register_tx_account id email user hash now) w Hh).
      by rewrite Hx in Hp. }
    destruct x as [u|e].
    + apply register_commit_inv in Hx as (Hok' & Hacc & Hfree); [|done]. destruct Hinv as [H1 H2 H3]. simpl in *.
      assert (Hnone : forall j u' id', rs !! j = Some (u', RDone id') ->
        Email.value (User.Email u') = Email.value (User.Email user) -> False).
      { intros j u' id' Hj He. apply (Hfree id'). rewrite <- He. by eapply H2. }
      split; simpl; [done| |].
      * intros j u' id Hj. apply lookup_insert_Some in Hj as [[_ [= <- <-]]|[_ Hj]]; [done|]. by eapply Hk, H2.
      * intros j k u1 u2 id1 id2 Hj Hk' He. apply lookup_insert_Some in Hj as [[<- [= <- _]]|[_ Hj]];
          apply lookup_insert_Some in Hk' as [[<- [= <- _]]|[_ Hk']]; [done| | |by eapply H3].
        -- by destruct (Hnone _ _ _ Hk').
        -- by destruct (Hnone _ _ _ Hj).
    + apply (reg_inv_idle w); [done| |done|done].
      assert (Hp : preserves world_ok (WithinTransaction (R:=R) (txManager s) ctx (Some (register_tx user hash now))))
        by go_world. specialize (Hp w Hok). by rewrite Hx in Hp.
  - destruct Hinv as [H1 H2 H3]. split; simpl in *; [|intros i user id Hi|done].
    + assert (Hp := service_call_ok s A m Hc w Hok). by rewrite Hm in Hp.
    + assert (Hp := service_call_account id (Email.value (User.Email user)) s A m Hc w (H2 _ _ _ Hi)).
      by rewrite Hm in Hp.
Qed.

(** C22: Of all registrations of one e-mail, interleaved in any order with each other
    and with every other service, at most one is reported successful, even if all
    of them found the address free; and the account it reported is stored, with
    that identifier and e-mail, and stays. *)
Theorem concurrent_register_once w st i j user user' id id' :
  world_ok w -> rtc reg_step (w, ∅) st ->
  snd st !! i = Some (user, RDone id) -> snd st !! j = Some (user', RDone id') ->
  Email.value (User.Email user) = Email.value (User.Email user') ->
  i = j /\ exists u, u ∈ users (w_db (fst st)) /\ Users.id u = id /\
    Users.email u = Email.value (User.Email user).
Proof.
  intros Hok Hst Hi Hj He. assert (Hinv : reg_inv st).
  { assert (H0 : reg_inv (w, ∅)).
    { split; simpl; [done|intros k u n Hk|intros k ? ? ? ? ? Hk]; by rewrite lookup_empty in Hk. }
    revert H0.
    induction Hst as [st|st st1 st2 Hs _ IH]; [done|]. intros H0. by apply IH, (reg_step_inv st). }
  split; [by eapply (reg_once _ Hinv)|].
  destruct (reg_stored _ Hinv i user id Hi) as [Hin _]. apply list_elem_of_fmap in Hin as (u & Hu & Hin).
  injection Hu as -> ->. by exists u.
Qed.

(** Losing the race is reported as what it is. When the address was taken after
    the test, the transaction of [Register] (on an otherwise acceptable account and
    with no driver fault) ends with [ErrEmailAlreadyExist], through the unique
    violation of the index, and leaves the database as it was, with no transaction
    open. *)
Theorem register_race_lost user hash now w w' x :
  (forall n, pg_fault n = None) -> world_ok w -> well_typed w ->
  (forall t, user_row_ok (Users.mk (users_seq (w_seq w)) (Email.value (User.Email user))
     (User.FullName user) (User.Phone user) (User.UserType user) (User.Status user)
     (pg_time <$> User.EmailVerifiedAt user) None None (User.Metadata user) (User.Version user)
     (pg_time t) (pg_time t)) = true) ->
  Email.value (User.Email user) ∈ (Users.email <$> users (w_db w)) ->
  WithinTransaction (txManager s) ctx (Some (register_tx user hash now)) w = (w', x) ->
  x = Err ErrEmailAlreadyExist /\ w_db w' = w_db w /\ w_tx w' = None.
Proof.
  intros Hnf [Hc _] [Ht _] Hrow He Hw.
  assert (Hv := insert_taken_email (w_db w) Hc _ (Hrow (pg_clock (w_pg w)))
    (fresh_seq Users.id _ _ _ (typed_users _ _ Ht) (fun r H => proj1 H)) He).
  unfold WithinTransaction in Hw. rewrite Hpool, Hctx in Hw. cbn [negb] in Hw.
  unfold bindM at 1, BeginTx in Hw. rewrite Hnf in Hw. fold (begun w) in Hw.
  assert (Htx : register_tx user hash now (inject ctx) (begun w) =
    (tick_pg (set_seq (mkSeqs (users_seq (w_seq w) + 1) (devices_seq (w_seq w)) (sessions_seq (w_seq w))
       (addresses_seq (w_seq w)) (outbox_seq (w_seq w)))
       (set_tx (Some (fail_tx (mkTx (w_db w) (pg_clock (w_pg w)) false))) (begun w))), Err ErrEmailAlreadyExist)).
  { unfold register_tx. apply bindM_stop. unfold UserRepository.Insert, QueryRow, bindM, attemptM, run.
    change (GetExecutor (inject ctx)) with ExTx. unfold run_tx. cbn [w_tx begun tick_pg set_tx tx_failed].
    rewrite Hnf. unfold UserRepository.queryInsertUser, dml. cbn [tx_now tx_db w_seq begun tick_pg set_tx].
    rewrite Hv. reflexivity. }
  unfold bindM at 1, attemptM at 1 in Hw. rewrite Htx in Hw. unfold bindM, attemptM, Rollback in Hw.
  cbn [w_tx tick_pg set_seq set_tx begun] in Hw. rewrite Hnf in Hw. unfold throwM in Hw. by simplify_eq/=.
Qed.
End Race.

(** ** On concrete requests *)

Module RegistrationScenario.
Import IdentityDemo Scenario TypingScenario ProgressScenario.

(** An environment whose clock stands still. *)
Definition steady : Env := {|
  env_clock _ := 0; env_uuid n := "uuid-" +:+ FormatInt (Z.of_nat n); pg_clock _ := 0;
  pg_fault _ := None
|}.

Lemma steady_uuid n : plain (env_uuid (Env := steady) n) = true.
Proof. simpl env_uuid. rewrite plain_app, plain_FormatInt. reflexivity. Qed.

Lemma Register_succeeds_witness :
  exists w' out, Register (E:=steady) service Background register demo_world = (w', Ok out).
Proof.
  apply (Register_succeeds (E:=steady) (R:=Script.t) (fun _ => eq_refl) (fun _ => eq_refl) steady_uuid
    service Background register demo_world demo_ok demo_typed); try run_it.
  - intros n h [= <-]. run_it.
  - exists (Email.mk "ann@shop.vn"). do 4 (split; [run_it|]).
    intros u Hu. destruct (proj1 (elem_of_nil u) Hu).
Defined.

(** Two requests for Ann's address: both find it free, the first is committed. *)
Definition ann : User.t :=
  User.mk 0 (Email.mk "ann@shop.vn") "Ann" None UserTypeCustomer UserStatusPendingVerification None None
    None None 1 zero_time zero_time.
Definition w1 : World Script.t := fst (UserRepository.ExistsByEmail Background (Email.mk "ann@shop.vn") demo_world).
Definition w2 : World Script.t := fst (UserRepository.ExistsByEmail Background (Email.mk "ann@shop.vn") w1).
Definition first_commit : World Script.t * result User.t :=
  WithinTransaction (mkManager true) Background (Some (register_tx ann "bcrypt$x" 0)) w2.

Lemma race_run : exists st id, rtc (reg_step service Background) (demo_world, ∅) st /\
  snd st !! 0%nat = Some (ann, RDone id) /\ snd st !! 1%nat = Some (ann, RFree).
Proof.
  assert (H1 : UserRepository.ExistsByEmail Background (User.Email ann) demo_world = (w1, Ok false))
    by (apply split_run; run_it).
  assert (H2 : UserRepository.ExistsByEmail Background (User.Email ann) w1 = (w2, Ok false))
    by (apply split_run; run_it).
  assert (H3 : exists u, WithinTransaction (txManager service) Background (Some (register_tx ann "bcrypt$x" 0)) w2
    = (fst first_commit, Ok u)) by (eexists; run_it).
  destruct H3 as [u H3]. exists (fst first_commit, <[0%nat := (ann, RDone (User.ID u))]>
    (<[1%nat := (ann, RFree)]> (<[0%nat := (ann, RFree)]> (<[1%nat := (ann, RArrived)]>
      {[0%nat := (ann, RArrived)]})))), (User.ID u). split.
  - eapply rtc_l; [by apply (reg_arrive _ _ 0%nat ann)|].
    eapply rtc_l; [by apply (reg_arrive _ _ 1%nat ann)|].
    eapply rtc_l; [by apply (reg_check _ _ 0%nat ann); [|exact H1]|].
    eapply rtc_l; [by apply (reg_check _ _ 1%nat ann); [|exact H2]|].
    eapply rtc_l; [eapply (reg_commit _ _ 0%nat ann); [|exact H3]; reflexivity|]. apply rtc_refl.
  - split; reflexivity.
Qed.

Lemma concurrent_register_once_witness :
  exists st u, rtc (reg_step service Background) (demo_world, ∅) st /\
    u ∈ users (w_db (fst st)) /\ Users.email u = "ann@shop.vn".
Proof.
  destruct race_run as (st & id & Hrun & Hi & _).
  destruct (concurrent_register_once (E:=demo_environment) (R:=Script.t) service Background eq_refl eq_refl
    demo_world st 0%nat 0%nat ann ann id id demo_ok Hrun Hi Hi eq_refl) as (_ & u & Hu & _ & He).
  exists st, u. split; [exact Hrun|]. split; [exact Hu|exact He].
Defined.

(** The second one finds the address taken. *)
Lemma first_commit_ok : world_ok (fst first_commit).
Proof. split; [run_it|exact I]. Qed.
Lemma first_commit_typed : well_typed (fst first_commit).
Proof.
  assert (H : preserves (holds typed) (WithinTransaction (R:=Script.t) (mkManager true) Background
    (Some (register_tx ann "bcrypt$x" 0)))) by go_world.
  assert (H0 : holds typed w2).
  { assert (Hp : forall w, holds typed w -> holds typed (fst (UserRepository.ExistsByEmail (R:=Script.t)
      Background (Email.mk "ann@shop.vn") w))) by (assert (Hq : preserves (holds (R:=Script.t) typed)
        (UserRepository.ExistsByEmail Background (Email.mk "ann@shop.vn"))) by go_world; exact Hq).
    apply Hp, Hp, demo_typed. }
  exact (H w2 H0).
Qed.

Lemma register_race_lost_witness :
  snd (WithinTransaction (mkManager true) Background (Some (register_tx ann "bcrypt$y" 1)) (fst first_commit)) =
    Err ErrEmailAlreadyExist.
Proof.
  refine (proj1 (register_race_lost (E:=demo_environment) (R:=Script.t) service Background eq_refl eq_refl ann
    "bcrypt$y" 1 (fst first_commit) _ _ demo_no_fault first_commit_ok first_commit_typed _ _ _));
    [intros t; apply (new_user_row _ "ann@shop.vn" "Ann" None t); run_it| |apply surjective_pairing].
  assert (H : Users.email <$> users (w_db (fst first_commit)) = ["ann@shop.vn"]) by run_it.
  rewrite H. left.
Defined.
End RegistrationScenario.
