(* ===== verification/Passwords.v ===== *)
(** * A password can be changed

    The other half of [ChangePassword_spec]: on a consistent and typed database, with
    no driver fault, the change of a password succeeds exactly when the current one
    is right and the new one differs. Redis does not matter, since the eviction of
    the cached sessions is best effort. *)

From Stdlib Require Import ZArith NArith String Ascii Lia.
From stdpp Require Import base strings list gmap.
From S2P Require Import Prelude GoStrings Config Crypto Json Domain Gin RedisClient Idempotency Schema.
From S2P Require Import Database Sql Kafka Outbox IdentityAdapters IdentityRepos SessionStore IdentityServices IdentitySpec.
From S2P Require Import Typing SchemaFacts Progress.

Local Open Scope Z_scope.
#[local] Opaque violated.

(** ** Statements the schema accepts *)

Section Tables.
Context (db : DB) (Hc : consistent db).

(** A new hash for the credentials of a user. *)
Lemma update_credentials_ok p f :
  (forall c, c ∈ user_credentials db -> p c = true -> credential_checks (f c) = true) ->
  (forall c, Credentials.user_id (f c) = Credentials.user_id c) ->
  consistent (with_credentials (update_where p f) db).
Proof.
  intros Hf Hk. apply (accept_credentials db Hc (update_where p f (user_credentials db))).
  - intros r Hr. pattern r. eapply elem_of_update_cases; [done| |].
    + intros y Hy Hp. split; [by apply Hf|]. rewrite Hk. by apply credential_user.
    + intros y Hy. split; [by apply (credential_rows_ok db)|by apply credential_user].
  - rewrite fmap_update; [by apply unique_credential|done].
Qed.

(** Sessions that are revoked keep their keys. *)
Lemma revoke_sessions_ok p at_ now :
  consistent (with_sessions (update_where p (SessionRepository.revoke_row at_ "revoked" now)) db).
Proof.
  set (f := SessionRepository.revoke_row at_ "revoked" now).
  apply (accept_sessions db Hc (update_where p f (user_sessions db))).
  - intros r Hr. pattern r. eapply elem_of_update_cases; [done| |]; intros y Hy; [intros _|];
      assert (Hrow := session_rows_ok db Hc y Hy).
    + split; [|split; [by apply (session_user db Hc y)|by apply (session_device db Hc y)]]. revert Hrow.
      unfold session_row_ok, session_texts, session_lengths, session_checks, f, SessionRepository.revoke_row. simpl.
      rewrite !andb_true_iff. naive_solver.
    + split; [done|]. split; [by apply session_user|by apply session_device].
  - rewrite fmap_update; [by apply unique_session_id|done].
  - rewrite fmap_update; [by apply unique_refresh_hash|done].
  - rewrite fmap_update; [by apply unique_session_device|done].
Qed.
End Tables.

(** ** The calls *)

Section Change.
Context {E : Env} {R : Type} {RC : RedisClient R} {RD : Rand} {U : Unicode} {MP : MailParser} {BC : Bcrypt}.
Context (no_fault : forall n, pg_fault n = None).
Implicit Type w : World R.

Lemma UpdatePasswordHash_live ctx c hash now w :
  ready ctx w -> c ∈ user_credentials (cur_db ctx w) -> valid_text hash = true ->
  succeeds (CredentialRepository.UpdatePasswordHash ctx (Credentials.user_id c) hash now) w (fun w' _ => ready ctx w').
Proof.
  intros Hr Hin Hh. assert (Hr' := Hr). destruct Hr' as (_ & Hc & _).
  unfold CredentialRepository.UpdatePasswordHash, Exec.
  eapply (succeeds_bind _ _ _ (fun w' n => ready ctx w' /\ n <> 0)).
  - assert (Hup := credUpdate_upholds (Credentials.user_id c) hash now).
    unfold CredentialRepository.queryUpdatePasswordHash in *. apply (dml_live no_fault); [done|done|]. intros t.
    do 3 eexists. split; [reflexivity|]. split.
    + apply update_credentials_ok; [done| |done]. intros y Hy _. assert (Hrow := credential_rows_ok _ Hc y Hy).
      revert Hrow. unfold credential_checks. simpl. rewrite Hh, !andb_true_iff. naive_solver.
    + intros w' Hw' _ _ _. split; [done|]. unfold affected.
      destruct (where_ _ _) eqn:Ew; [|by simpl]. exfalso.
      rewrite where_nil in Ew. specialize (Ew c Hin). by rewrite Z.eqb_refl in Ew.
  - intros w1 n [H1 Hn]. apply Z.eqb_neq in Hn. rewrite Hn. by apply succeeds_ret.
Qed.

Lemma RevokeAllExcept_live ctx uid keep now w :
  ready ctx w -> succeeds (SessionRepository.RevokeAllExcept ctx uid keep now) w (fun w' _ => ready ctx w').
Proof.
  intros Hr. assert (Hr' := Hr). destruct Hr' as (_ & Hc & _). unfold SessionRepository.RevokeAllExcept, Exec.
  eapply (succeeds_bind _ _ _ (fun w' _ => ready ctx w')); [|intros w1 n H1; by apply succeeds_ret].
  assert (Hup := revokeExcept_upholds uid keep now).
  unfold SessionRepository.queryRevokeAllExcept in *. apply (dml_live no_fault); [done|done|]. intros t.
  do 3 eexists. split; [reflexivity|]. split; [by apply revoke_sessions_ok|by intros].
Qed.

Lemma sessions_ListActive_live ctx uid w :
  ready ctx w -> succeeds (SessionRepository.ListActiveByUserID ctx uid) w (fun w' _ => kept ctx w w').
Proof.
  intros Hr. unfold SessionRepository.ListActiveByUserID.
  eapply succeeds_bind; [by apply (now_kept ctx)|]. intros w1 now (_ & Hk). assert (Hk' := Hk).
  destruct Hk' as (Hr1 & _). assert (Hr' := Hr1). destruct Hr' as (_ & _ & Ht).
  destruct (typed_scannable _ _ Ht) as (_ & _ & Hs & _). eapply succeeds_bind.
  - apply (Query_live no_fault ctx user_sessions (fun t => order_by _ (where_ _ t)) _ _ _ session_of w1 Hr1).
    intros r. rewrite order_by_perm. intros [Hin _]%elem_of_where. by apply Hs.
  - intros w2 a (_ & Hk2). apply succeeds_ret. by eapply kept_trans.
Qed.

(** The current password of the account is right and the new one is another. *)
Definition may_change (db : DB) (cmd : ChangePasswordCommand.t) : Prop :=
  ChangePasswordCommand.NewPassword cmd <> ChangePasswordCommand.CurrentPassword cmd /\
  exists c, c ∈ user_credentials db /\ Credentials.user_id c = ChangePasswordCommand.UserID cmd /\
    bcrypt_compare (Credentials.password_hash c) (ChangePasswordCommand.CurrentPassword cmd) = Ok tt.

Lemma ChangePassword_live s ctx cmd w :
  ready ctx w -> pool (txManager s) = true -> ExtractTx ctx = false ->
  (forall n, exists h, bcrypt_hash (JWTConfig.BcryptCost (authManager s)) n (ChangePasswordCommand.NewPassword cmd) = Ok h /\
     valid_text h = true) ->
  may_change (w_db w) cmd -> succeeds (ChangePassword s ctx cmd) w (fun _ _ => True).
Proof.
  intros Hr Hp Hc Hbc (Hne & c & Hin & Hu & Hcmp). unfold ChangePassword. rewrite <- Hu.
  rewrite <- (cur_db_pool ctx w Hc) in Hin.
  eapply succeeds_bind; [by apply (GetByUserID_live no_fault ctx c w)|]. intros w1 cr (-> & Hr1 & Hd1 & _).
  cbn [mapCredentialRowToEntity credential_of Credential.UserID Credential.PasswordHash credentialRow.UserID
    credentialRow.PasswordHash]. unfold VerifyPassword. rewrite Hcmp. apply String.eqb_neq in Hne. rewrite Hne.
  eapply (succeeds_bind _ _ _ (fun w' h => valid_text h = true /\ kept ctx w1 w')).
  { destruct (Hbc (w_reads w1)) as (h & Hh & Ht). exists (tick_rand w1), h. unfold HashPassword. rewrite Hh.
    split; [done|]. split; [done|].
    by eapply (kept_view ctx (HashPassword (authManager s) (ChangePasswordCommand.NewPassword cmd)) w1). }
  intros w2 hash (Ht & Hr2 & Hd2 & _).
  eapply succeeds_bind; [by apply sessions_ListActive_live|]. intros w3 l (Hr3 & Hd3 & _).
  eapply succeeds_bind; [by apply (now_kept ctx)|]. intros w4 now (_ & Hr4 & Hd4 & _).
  eapply succeeds_bind; [apply (WithinTransaction_live no_fault _ _ _ _ (fun _ _ => True)); [done|done|done|]|].
  - intros w5 Hr5 Hd5 _ _ _. eapply succeeds_bind.
    + apply (UpdatePasswordHash_live _ c); [done| |done]. rewrite Hd5, <- (cur_db_pool ctx w4 Hc). congruence.
    + intros w6 u Hr6. eapply succeeds_weaken; [by apply RevokeAllExcept_live|]. intros w7 a Hr7. split; [apply Hr7|done].
  - intros w5 u _. eapply (succeeds_bind _ _ _ (fun _ _ => True)); [by apply succeeds_attempt|].
    intros w6 x _. by apply succeeds_ret.
Qed.

(** A password can be changed exactly by who knows it. On a consistent, typed database
    and with no driver fault, for a new password that bcrypt accepts, [ChangePassword]
    succeeds if and only if the current password is right and the new one differs,
    whatever Redis answers. *)
Theorem ChangePassword_succeeds s ctx cmd w :
  world_ok w -> well_typed w -> pool (txManager s) = true -> ExtractTx ctx = false ->
  (forall n, exists h, bcrypt_hash (JWTConfig.BcryptCost (authManager s)) n (ChangePasswordCommand.NewPassword cmd) = Ok h /\
     valid_text h = true) ->
  (exists w', ChangePassword s ctx cmd w = (w', Ok tt)) <-> may_change (w_db w) cmd.
Proof.
  intros Hok Hty Hp Hc Hbc. split.
  - intros [w' H]. unfold ChangePassword in H. step H w1 cr Hcr.
    apply credential_GetByUserID_inv in Hcr as (c & Hin & Hu & -> & _). rewrite cur_db_pool in Hin by done.
    simpl in H. unfold VerifyPassword in H.
    destruct (bcrypt_compare _ _) as [[]|] eqn:Eb; [|done]. destruct (String.eqb_spec (ChangePasswordCommand.NewPassword cmd)
      (ChangePasswordCommand.CurrentPassword cmd)) as [|Hne]; [done|]. split; [done|]. by exists c.
  - intros Hm. destruct (ChangePassword_live s ctx cmd w) as (w' & [] & H & _); eauto using pool_ready.
Qed.
End Change.

Module PasswordScenario.
Import IdentityDemo Scenario TypingScenario ProgressScenario.

(** Ann changes her password. *)
Lemma ChangePassword_succeeds_witness :
  exists w', ChangePassword service Background change (fst logged_in) = (w', Ok tt).
Proof.
  apply (ChangePassword_succeeds (E:=demo_environment) (R:=Script.t) demo_no_fault service Background change
    (fst logged_in) logged_in_ok logged_in_typed eq_refl eq_refl).
  - intros n. eexists. split; [reflexivity|]. run_it.
  - split; [discriminate|].
    assert (H : exists c, user_credentials (w_db (fst logged_in)) = [c] /\ Credentials.user_id c = 1 /\
      bcrypt_compare (Credentials.password_hash c) "SuperSecret123" = Ok tt)
      by (eexists; split; [run_it|]; split; run_it).
    destruct H as (c & Hs & Hu & Hb). exists c. rewrite Hs. split; [left|]. split; [exact Hu|exact Hb].
Defined.
End PasswordScenario.
