(* ===== verification/Issued.v ===== *)
(** * The tokens the services issue

    What no call of a service can do to one refresh token: bring it back. The
    services write sessions with the hashes of new tokens, or revoke them; so a
    property of the rows that holds for every other hash and is not undone by a
    revocation ([RowGuard]) survives every statement, and a property of the process
    that rests on it ([TokenGuard]) survives every call, every background task and
    the time that passes. Revocation and the spending of tokens are two such
    properties. *)

From Stdlib Require Import ZArith NArith String Ascii Lia.
From stdpp Require Import base strings list gmap relations.
From S2P Require Import Prelude GoStrings Config Crypto Json Domain Gin RedisClient Idempotency Schema.
From S2P Require Import Database Sql Kafka Outbox IdentityAdapters IdentityRepos SessionStore IdentityServices IdentitySpec.
From S2P Require Import Typing SchemaFacts Progress.

Local Open Scope Z_scope.
#[local] Opaque violated HashToken.

(** ** Rows *)

(** A property of the rows with hash [h]. *)
Class RowGuard (h : string) (Q : Sessions.row -> Prop) : Prop := {
  rg_other r : Sessions.refresh_token_hash r <> h -> Q r;
  rg_revoked r r' : Sessions.refresh_token_hash r' = Sessions.refresh_token_hash r ->
    (Sessions.revoked_at r <> None -> Sessions.revoked_at r' <> None) -> Q r -> Q r'
}.

Definition rows (Q : Sessions.row -> Prop) (sq : Seqs) (db : DB) : Prop := Forall Q (user_sessions db).

Lemma rows_insert h Q `{!RowGuard h Q} sq sq' db r :
  Sessions.refresh_token_hash r <> h -> rows Q sq db -> rows Q sq' (with_sessions (fun l => l ++ [r]) db).
Proof.
  intros Hr Hd. apply Forall_app. split; [exact Hd|]. apply Forall_singleton. by apply rg_other.
Qed.
Lemma rows_update h Q `{!RowGuard h Q} sq sq' db p f :
  (forall r, Sessions.refresh_token_hash (f r) <> h \/
     Sessions.refresh_token_hash (f r) = Sessions.refresh_token_hash r /\
     (Sessions.revoked_at r <> None -> Sessions.revoked_at (f r) <> None)) ->
  rows Q sq db -> rows Q sq' (with_sessions (update_where p f) db).
Proof.
  intros Hf Hd. apply Forall_update; [|exact Hd]. intros r Hr.
  destruct (Hf r) as [Hne|[Hh Hv]]; [by apply rg_other|by apply (rg_revoked r)].
Qed.

(** The statements: a session is only written with another hash, or revoked. *)
Ltac row_stmt :=
  lazymatch goal with |- maintains _ ?s => let h := head_of s in unfold h end;
  try apply guarded_maintains; apply dml_maintains; intros ? ? ? ? ? ? Hq; cbv zeta in Hq;
  repeat case_match; simplify_eq; (split; [done|]);
  first [ done | by eapply rows_insert
        | eapply rows_update; [done|]; intros ?; simpl in *;
          first [by left | right; split; [done|]; simpl in *; first [done | by case_match]] ].
#[export] Hint Extern 2 (maintains (rows _) _) => row_stmt : go.

Lemma outboxInsert_rows Q e : maintains (rows Q) (outbox_insert e).
Proof.
  intros now db sq sq' x. unfold outbox_insert.
  destruct (jsonb_in (OutboxEvent.Payload e)), (jsonb_in_opt (OutboxEvent.Metadata e));
    try (intros; by simplify_eq).
  unfold dml. destruct (violated _); intros; by simplify_eq.
Qed.
#[export] Hint Resolve outboxInsert_rows : go.

(** ** The process *)

Section Guard.
Context {E : Env} {R : Type} {RC : RedisClient R} {RD : Rand} {BC : Bcrypt}.
Implicit Type w : World R.

(** A property that rests on [rows Q]: what it has to survive. Writing the cached
    session of the hash is not required, [k] UUIDs have been drawn. *)
Class TokenGuard (h : string) (k : nat) (Q : Sessions.row -> Prop) (P : World R -> Prop) : Prop := {
  tg_run {A} ctx (s : stmt A) : maintains (rows Q) s -> preserves P (run ctx s);
  tg_now : preserves P nowM;
  tg_secureToken : preserves P secureToken;
  tg_HashPassword a pw : preserves P (HashPassword a pw);
  tg_NewString : preserves P NewString;
  tg_add_task hash se ttl : hash <> h -> preserves P (modifyM (add_task (TStoreSession hash se ttl)));
  tg_Set key v ttl : key <> sessionPrefix +:+ h -> preserves P (redisM (rdb_Set key v ttl));
  tg_Get key : preserves P (redisM (rdb_Get key));
  tg_GetDel key : preserves P (redisM (rdb_GetDel key));
  tg_Del keys : preserves P (redisM (rdb_Del keys));
  tg_run_task n : preserves P (run_task n);
  tg_time d w : 0 <= d -> P w -> P (set_rd (rd_elapse d (w_redis w)) w);
  tg_stable :: TxStable P;
  tg_uuids w : P w -> (k <= w_uuids w)%nat
}.

(** Tokens issued after [k] UUIDs have other hashes. *)
Definition issued_fresh {JW : JWT} (h : string) (k : nat) (secret : string) : Prop :=
  forall n c t, (k <= n)%nat -> jwt_sign secret c = Ok t -> Claims.ID c = env_uuid n -> HashToken t <> h.
End Guard.

(** Keys with other prefixes. *)
Lemma verify_key_other h t : emailVerifyPrefix +:+ t <> sessionPrefix +:+ h.
Proof. discriminate. Qed.
Lemma reset_key_other h t : resetPasswordPrefix +:+ t <> sessionPrefix +:+ h.
Proof. discriminate. Qed.
Lemma session_key_other h hash : hash <> h -> sessionPrefix +:+ hash <> sessionPrefix +:+ h.
Proof. intros Hne Heq. apply Hne. unfold sessionPrefix in Heq. simpl in Heq. by injection Heq. Qed.
#[export] Hint Resolve verify_key_other reset_key_other session_key_other : go.

(** A continuation that only runs on the results of its computation. *)
Lemma preserves_bind_post {S A B} (P : S -> Prop) (m : M S A) (k : A -> M S B) (Post : A -> Prop) :
  preserves P m -> (forall s s' a, P s -> m s = (s', Ok a) -> Post a) ->
  (forall a, Post a -> preserves P (k a)) -> preserves P (bindM m k).
Proof.
  intros Hm Hpost Hk s Hs. unfold bindM. specialize (Hm s Hs).
  destruct (m s) as [s1 [a|e]] eqn:Em; simpl in *; [|done]. apply Hk; [by eapply Hpost|done].
Qed.

Section Services.
Context {E : Env} {R : Type} {RC : RedisClient R}.
Context {RD : Rand} {U : Unicode} {MP : MailParser} {JW : JWT} {BC : Bcrypt}.
Context (h : string) (k : nat) (Q : Sessions.row -> Prop) {RG : RowGuard h Q}.
Context (P : World R -> Prop) {TG : TokenGuard h k Q P}.
Context (s : AuthService) (fresh : issued_fresh h k (JWTConfig.Secret (authManager s))).
Implicit Type w : World R.

Lemma guard_run {A} ctx (q : stmt A) : maintains (rows Q) q -> preserves P (run ctx q).
Proof. exact (tg_run ctx q). Qed.
Lemma guard_add_task hash se ttl : hash <> h -> preserves P (modifyM (add_task (TStoreSession hash se ttl))).
Proof. exact (tg_add_task hash se ttl). Qed.
Lemma guard_Set key v ttl : key <> sessionPrefix +:+ h -> preserves P (redisM (rdb_Set key v ttl)).
Proof. exact (tg_Set key v ttl). Qed.
#[local] Hint Resolve guard_run guard_add_task guard_Set : go.
#[local] Hint Extern 1 (preserves P nowM) => exact (tg_now) : go.
#[local] Hint Extern 1 (preserves P secureToken) => exact (tg_secureToken) : go.
#[local] Hint Extern 1 (preserves P (HashPassword _ _)) => exact (tg_HashPassword _ _) : go.
#[local] Hint Extern 1 (preserves P NewString) => exact (tg_NewString) : go.
#[local] Hint Extern 1 (preserves P (redisM (rdb_Get _))) => exact (tg_Get _) : go.
#[local] Hint Extern 1 (preserves P (redisM (rdb_GetDel _))) => exact (tg_GetDel _) : go.
#[local] Hint Extern 1 (preserves P (redisM (rdb_Del _))) => exact (tg_Del _) : go.
#[local] Hint Extern 1 (preserves P (run_task _)) => exact (tg_run_task _) : go.

Lemma repository_Insert_guarded ctx e : preserves P (ob_Insert (S := World R) ctx e).
Proof.
  change (preserves P (PostgresRepository.Insert (R:=R) ctx e)).
  unfold PostgresRepository.Insert, Exec. go_preserve.
Qed.
#[local] Hint Resolve repository_Insert_guarded : go.

(** The tokens the services issue are not that one. *)
Lemma issued_other uid email role did w w' t :
  P w -> GenerateRefreshToken (authManager s) uid email role did w = (w', Ok t) -> HashToken t <> h.
Proof.
  intros Hp Ht. assert (Hk := tg_uuids w Hp). unfold GenerateRefreshToken in Ht. step Ht w1 now Hn. step Ht w2 jti Hi.
  step Ht w3 now' Hn'. unfold nowM in Hn, Hn'. simpl in Hn, Hn'. unfold NewString in Hi. simplify_eq/=.
  unfold liftM in Ht. injection Ht as _ Ht. by eapply (fresh (w_uuids w)); [exact Hk|exact Ht|].
Qed.

Lemma Upsert_hash ctx se w w' se' :
  SessionRepository.Upsert (R:=R) ctx se w = (w', Ok se') ->
  Session.RefreshTokenHash se' = Session.RefreshTokenHash se.
Proof.
  unfold SessionRepository.Upsert. intros (now & sq & r & rest & _ & Hs & _)%QueryRow_dml.
  unfold SessionRepository.scan_stored, next, bindR, finish in Hs. repeat case_match; by simplify_eq.
Qed.

Lemma Login_guarded ctx cmd : preserves P (Login (R:=R) s ctx cmd).
Proof.
  unfold Login. apply preserves_bind; [go_world|]. intros user. apply preserves_bind; [go_world|]. intros now.
  apply preserves_bind; [go_world|]. intros device. apply preserves_bind; [go_world|]. intros old.
  apply preserves_bind; [go_world|]. intros [].
  eapply preserves_bind_post; [go_world|intros w w' t; apply issued_other|]. intros t Ht.
  eapply (preserves_bind_post _ _ _ (fun se => Session.RefreshTokenHash se <> h)); [go_world| |].
  - intros w w' se _ Hu. by rewrite (Upsert_hash _ _ _ _ _ Hu).
  - intros se Hse. go_world.
Qed.

Lemma RefreshToken_guarded ctx tok : preserves P (RefreshToken (R:=R) s ctx tok).
Proof.
  unfold RefreshToken. apply preserves_bind; [go_world|]. intros now. apply preserves_bind; [go_world|].
  intros se. destruct (_ || _); [go_world|]. destruct (Session.IsExpired se now); [go_world|].
  apply preserves_bind; [go_world|]. intros user.
  eapply preserves_bind_post; [go_world|intros w w' t; apply issued_other|]. intros t Ht. go_world.
Qed.

#[local] Hint Resolve Login_guarded RefreshToken_guarded : go.

Lemma service_call_guarded A m : service_call s A m -> preserves P m.
Proof. destruct 1; go_world. Qed.

(** What happens next: calls of the services, and time that passes in Redis. *)
Inductive later : World R -> World R -> Prop :=
| later_call A (m : M (World R) A) w w' x : service_call s A m -> m w = (w', x) -> later w w'
| later_time d w : 0 <= d -> later w (set_rd (rd_elapse d (w_redis w)) w).

Lemma guarded_later w w' : rtc later w w' -> P w -> P w'.
Proof.
  induction 1 as [|w w1 w2 Hs _ IH]; [done|]. intros Hr. apply IH. destruct Hs as [A m w w' x Hc Hm|d w Hd].
  - assert (Hp := service_call_guarded A m Hc w Hr). by rewrite Hm in Hp.
  - exact (tg_time d w Hd Hr).
Qed.
End Services.
