(* ===== verification/Spent.v ===== *)
(** * A refresh token works once, for ever

    A refresh replaces the hash of its session. From then on no session carries the
    old hash, and since the services only write hashes of new tokens this stays so:
    the second property of Issued. The cache does not matter, because a refresh
    that trusts a cached session still needs the row. *)

From Stdlib Require Import ZArith NArith String Ascii Lia.
From stdpp Require Import base strings list gmap relations.
From S2P Require Import Prelude GoStrings Config Crypto Json Domain Gin RedisClient Idempotency Schema.
From S2P Require Import Database Sql Kafka Outbox IdentityAdapters IdentityRepos SessionStore IdentityServices IdentitySpec.
From S2P Require Import Typing SchemaFacts Progress Issued.

Local Open Scope Z_scope.
#[local] Opaque violated HashToken.

Definition other_hash (h : string) (r : Sessions.row) : Prop := Sessions.refresh_token_hash r <> h.
#[export] Instance other_hash_guard h : RowGuard h (other_hash h).
Proof. split; [done|]. intros r r' Hh _ Hr. unfold other_hash. by rewrite Hh. Qed.

Section Spent.
Context {E : Env} {R : Type} {RC : RedisClient R} {RD : Rand} {U : Unicode} {MP : MailParser}.
Context {JW : JWT} {BC : Bcrypt}.
Implicit Type w : World R.

(** No session has the hash; [k] UUIDs have been drawn. *)
Definition spent (h : string) (k : nat) w : Prop := holds (rows (other_hash h)) w /\ (k <= w_uuids w)%nat.

Section Guarded.
Context (h : string) (k : nat).

Lemma spent_frame {A} (m : M (World R) A) :
  preserves (holds (rows (other_hash h))) m -> keeps (w_uuids (R:=R)) m -> preserves (spent h k) m.
Proof. intros Hp Hk w [Hd Hu]. split; [by apply Hp|]. by rewrite (Hk w). Qed.

Lemma spent_redis {A} (m : M R A) : preserves (spent h k) (redisM m).
Proof. apply spent_frame; [apply redisM_holds|by apply keeps_zoom]. Qed.

Lemma spent_run_task n : preserves (spent h k) (run_task (R:=R) n).
Proof.
  intros w [Hd Hu]. unfold run_task. destruct (w_tasks w !! n) as [[hash se ttl]|]; [|done]. cbv zeta. cbn [fst].
  unfold StoreSession. destruct (marshal_session se); [|by destruct Hd]. apply spent_redis. by destruct Hd.
Qed.

#[export] Instance spent_stable : TxStable (spent h k).
Proof.
  split; (apply spent_frame; [apply (holds_stable (rows (other_hash h)))|]); intros w.
  - unfold BeginTx. by destruct (pg_fault (w_pg w)) as [[]|].
  - unfold Commit. destruct (w_tx w) as [t|]; [|done].
    by destruct (pg_fault (w_pg w)) as [[[] ?]|], (tx_failed t).
  - unfold Rollback. by destruct (w_tx w).
Qed.

#[export] Instance spent_guard : TokenGuard h k (other_hash h) (spent h k).
Proof.
  split; try (intros; by apply spent_redis).
  - intros A ctx q Hq. apply spent_frame; [by apply run_holds|by apply run_keeps].
  - apply spent_frame; [apply nowM_holds|done].
  - apply spent_frame; [apply secureToken_holds|done].
  - intros a pw. apply spent_frame; [apply HashPassword_holds|done].
  - intros w [Hd Hu]. split; [by apply NewString_holds|]. simpl. lia.
  - intros hash se ttl _ w [Hd Hu]. by split; [destruct Hd|].
  - apply spent_run_task.
  - intros d w _ [Hd Hu]. by split; [destruct Hd|].
  - apply spent_stable.
  - by intros w [_ Hu].
Qed.
End Guarded.

(** C5: A refresh token works once, for ever: after a successful refresh with a token,
    every later refresh with it fails, whatever service calls, background tasks and
    time come in between and whatever Redis answers, as long as the token is not
    issued a second time. *)
Theorem used_token_refused s ctx tok w w' out :
  world_ok w -> pool (txManager s) = true -> ExtractTx ctx = false ->
  RefreshToken s ctx tok w = (w', Ok out) -> HashToken (RefreshToken_ out) <> HashToken tok ->
  issued_fresh (HashToken tok) (w_uuids w') (JWTConfig.Secret (authManager s)) ->
  forall w1 ctx' w2 out2, rtc (later s) w' w1 -> ExtractTx ctx' = false ->
    RefreshToken s ctx' tok w1 <> (w2, Ok out2).
Proof.
  intros Hok Hp Hc Hr Hne Hf w1 ctx' w2 out2 Hl Hc' Hr2.
  assert (Hs : spent (HashToken tok) (w_uuids w') w').
  { split; [|done]. unfold holds. rewrite (RefreshToken_closed s ctx tok w w' out Hc Hr). split; [|done].
    apply Forall_forall. exact (RefreshToken_consumes s ctx tok w w' out Hok Hp Hc Hr Hne). }
  eapply (guarded_later _ _ _ (spent _ _)) in Hs as [[Hd _] _]; [|exact Hf|exact Hl].
  destruct (RefreshToken_unknown s ctx' tok w1 w2 (Ok out2) Hp Hc') as [e He]; [|exact Hr2|done].
  intros r Hin. by eapply Forall_forall in Hd.
Qed.
End Spent.

Module SpentScenario.
Import IdentityDemo Scenario ProgressScenario.

(** An environment that no longer changes, and Ann's refresh in it. *)
Definition still : Env := {|
  env_clock _ := 1000; env_uuid _ := "later"; pg_clock _ := 0; pg_fault _ := None
|}.
Definition rotated : World Script.t * result LoginOutput :=
  RefreshToken (E:=still) (JW:=plain_jwt) service Background refresh_token (fst logged_in).

Lemma still_fresh k : issued_fresh (E:=still) (JW:=plain_jwt) (HashToken refresh_token) k
  (JWTConfig.Secret (authManager service)).
Proof.
  intros n c t _ Ht Hc. cbn [jwt_sign plain_jwt] in Ht. injection Ht as <-. rewrite Hc. cbn [env_uuid still].
  assert (Hh : bool_decide (HashToken "klater" = HashToken refresh_token) = false) by run_it.
  exact (proj1 (bool_decide_eq_false _) Hh).
Qed.

Lemma rotated_other :
  match snd rotated with Ok out => HashToken (RefreshToken_ out) <> HashToken refresh_token | Err _ => True end.
Proof.
  assert (H : match snd rotated with
    | Ok out => bool_decide (HashToken (RefreshToken_ out) = HashToken refresh_token) | Err _ => false end = false)
    by run_it.
  destruct (snd rotated); [|exact I]. exact (proj1 (bool_decide_eq_false _) H).
Qed.

Lemma used_token_refused_witness :
  isOk (snd rotated) = true /\
  forall w1 ctx' w2 out2, rtc (later (E:=still) (JW:=plain_jwt) service) (fst rotated) w1 -> ExtractTx ctx' = false ->
    RefreshToken (E:=still) (JW:=plain_jwt) service ctx' refresh_token w1 <> (w2, Ok out2).
Proof.
  assert (Hk : isOk (snd rotated) = true) by run_it. assert (Hne := rotated_other). split; [exact Hk|].
  destruct (snd rotated) as [out|] eqn:Hr; [|discriminate]. apply split_run in Hr. unfold rotated at 1 in Hr.
  exact (used_token_refused (E:=still) (R:=Script.t) (JW:=plain_jwt) service Background refresh_token (fst logged_in)
    (fst rotated) out logged_in_ok eq_refl eq_refl Hr Hne (still_fresh _)).
Defined.
End SpentScenario.
