(* ===== verification/Revocation.v ===== *)
(** * A session that was ended stays ended

    A refresh token works while its session is cached in Redis, or stored and not
    revoked. A token is retired when it is neither, and no goroutine is about to
    cache its session. No service brings a retired token back; changing the password
    retires the tokens of all other sessions of the user, if Redis carries out the
    deletion. The converse is a defect: a session that a goroutine caches after the
    password was changed lives on. *)

From Stdlib Require Import ZArith NArith String Ascii Lia.
From stdpp Require Import base strings list gmap relations.
From S2P Require Import Prelude GoStrings Config Crypto Json Domain Gin RedisClient Idempotency Schema.
From S2P Require Import Database Sql Kafka Outbox IdentityAdapters IdentityRepos SessionStore IdentityServices IdentitySpec.
From S2P Require Import Typing SchemaFacts Progress Issued.

Local Open Scope Z_scope.
#[local] Opaque violated HashToken.
#[local] Arguments session_key _ : simpl never.
#[local] Arguments entry_of _ : simpl never.

(** ** The stored sessions *)

(** The session with this hash, if there is one, is revoked. *)
Definition dead_row (h : string) (r : Sessions.row) : Prop :=
  Sessions.refresh_token_hash r = h -> Sessions.revoked_at r <> None.
#[export] Instance dead_row_guard h : RowGuard h (dead_row h).
Proof.
  split.
  - by intros r Hne Hh.
  - intros r r' Hh Hv Hd Hh'. apply Hv, Hd. congruence.
Qed.
#[local] Notation dead_rows h := (rows (dead_row h)).

(** ** Retired tokens *)

Definition task_hash (t : task) : string := match t with TStoreSession hash _ _ => hash end.

Section Retired.
Context {E : Env} {R : Type} {RC : RedisClient R} {RV : RedisView R} {RL : RedisLaws R}.
Context {RD : Rand} {U : Unicode} {MP : MailParser} {JW : JWT} {BC : Bcrypt}.
Context (h : string) (k : nat).
Implicit Type w : World R.

(** No copy of the session is cached, and no task will cache one; [k] UUIDs have
    been drawn. *)
Definition uncached w : Prop :=
  rd_abs (w_redis w) !! (sessionPrefix +:+ h) = None /\
  Forall (fun t => task_hash t <> h) (w_tasks w) /\ (k <= w_uuids w)%nat.

Definition retired w : Prop := holds (dead_rows h) w /\ uncached w.

(** *** What the effects of the services do to it *)

(** Effects that leave Redis and the tasks alone. *)
Lemma retired_frame {A} (m : M (World R) A) :
  preserves (holds (dead_rows h)) m -> keeps (fun w => (w_redis w, w_tasks w, w_uuids w)) m ->
  preserves retired m.
Proof.
  intros Hp Hk w [Hd Hu]. split; [by apply Hp|]. specialize (Hk w). simpl in Hk. injection Hk as H1 H2 H3.
  unfold uncached. by rewrite H1, H2, H3.
Qed.
Lemma retired_run {A} ctx (s : stmt A) : maintains (dead_rows h) s -> preserves retired (run ctx s).
Proof. intros Hs. apply retired_frame; [by apply run_holds|by apply run_keeps]. Qed.
Lemma retired_now : preserves retired nowM.
Proof. by apply retired_frame; [apply nowM_holds|]. Qed.
Lemma retired_secureToken : preserves retired secureToken.
Proof. by apply retired_frame; [apply secureToken_holds|]. Qed.
Lemma retired_HashPassword a pw : preserves retired (HashPassword a pw).
Proof. by apply retired_frame; [apply HashPassword_holds|]. Qed.
Lemma retired_NewString : preserves retired NewString.
Proof.
  intros w (Hd & Hc & Ht & Hk). split; [by apply NewString_holds|]. split; [done|]. split; [done|]. simpl. lia.
Qed.
Lemma retired_add_task hash se ttl : hash <> h -> preserves retired (modifyM (add_task (TStoreSession hash se ttl))).
Proof.
  intros Hne w (Hd & Hc & Ht & Hk). split; [by destruct Hd|]. split; [done|]. split; [|done].
  apply Forall_app. split; [done|]. by apply Forall_singleton.
Qed.

#[export] Instance retired_stable : TxStable retired.
Proof.
  split; (apply retired_frame; [apply (holds_stable (dead_rows h))|]); intros w.
  - unfold BeginTx. by destruct (pg_fault (w_pg w)) as [[]|].
  - unfold Commit. destruct (w_tx w) as [t|]; [|done].
    by destruct (pg_fault (w_pg w)) as [[[] ?]|], (tx_failed t).
  - unfold Rollback. by destruct (w_tx w).
Qed.

(** A command that does not write the key of the session. *)
Lemma retired_redis {A} c (f : reply -> result A) :
  (forall m, m !! (sessionPrefix +:+ h) = None -> fst (cmd_spec c m) !! (sessionPrefix +:+ h) = None) ->
  preserves retired (redisM (let! rep := rd_do c in liftM (f rep))).
Proof.
  intros Hc w (Hd & Hn & Ht & Hk). unfold redisM, zoomM. simpl.
  destruct ((let! rep := rd_do c in liftM (f rep)) (w_redis w)) as [r x] eqn:Ed. simpl.
  split; [by destruct Hd|]. split; [|done]. simpl. specialize (Hc _ Hn).
  apply do_then in Ed as [(rep & Hs & _)|(e & _ & _ & [-> | ->])]; [by rewrite Hs in Hc|done|done].
Qed.
Lemma retired_Set key v ttl : key <> sessionPrefix +:+ h -> preserves retired (redisM (rdb_Set key v ttl)).
Proof. intros Hne. apply retired_redis. intros m Hm. simpl. by rewrite lookup_insert_ne. Qed.
Lemma retired_Get key : preserves retired (redisM (rdb_Get key)).
Proof. by apply retired_redis. Qed.
Lemma retired_GetDel key : preserves retired (redisM (rdb_GetDel key)).
Proof. apply retired_redis. intros m Hm. simpl. by apply lookup_delete_None; right. Qed.
Lemma retired_Del keys : preserves retired (redisM (rdb_Del keys)).
Proof.
  apply retired_redis. intros m Hm. simpl. induction keys as [|key keys IH]; simpl; [done|].
  by apply lookup_delete_None; right.
Qed.

Lemma retired_run_task n : preserves retired (run_task (R:=R) n).
Proof.
  intros w (Hd & Hc & Ht & Hk). unfold run_task. destruct (w_tasks w !! n) as [[hash se ttl]|] eqn:En; [|done].
  cbv zeta. set (w1 := set_tasks _ w). simpl.
  assert (H1 : retired w1).
  { split; [by destruct Hd|]. split; [done|]. split; [|done]. simpl.
    apply Forall_app. split; [by apply Forall_take|by apply Forall_drop]. }
  assert (Hne : hash <> h) by (eapply Forall_lookup_1 in Ht; [|exact En]; exact Ht).
  unfold StoreSession. destruct (marshal_session se); [|done]. by apply retired_Set; [apply session_key_other|].
Qed.

#[export] Instance retired_guard : TokenGuard h k (dead_row h) retired.
Proof.
  split; eauto using retired_run, retired_now, retired_secureToken, retired_HashPassword, retired_NewString,
    retired_add_task, retired_Set, retired_Get, retired_GetDel, retired_Del, retired_run_task, retired_stable.
  - intros d w Hd (Hdb & Hn & Ht). split; [by destruct Hdb|]. split; [|done]. simpl.
    rewrite rd_time by done. unfold elapse. by rewrite lookup_omap, Hn.
  - by intros w (_ & _ & _ & Hk).
Qed.
End Retired.


(** ** Who retires a token *)

Section Retire.
Context {E : Env} {R : Type} {RC : RedisClient R} {RV : RedisView R} {RL : RedisLaws R}.
Context {RD : Rand} {U : Unicode} {MP : MailParser} {JW : JWT} {BC : Bcrypt}.
Implicit Type w : World R.

(** A retired token is refused, in whatever context. *)
Lemma retired_refused s h k ctx tok w w' out :
  retired h k w -> HashToken tok = h -> RefreshToken s ctx tok w <> (w', Ok out).
Proof.
  intros ([Hdb Htx] & Hn & _) Hh (w1 & se & Hf & Hus)%RefreshToken_usable. rewrite Hh in Hf.
  apply find_session_inv in Hf as [Hg|(r & Hr & Hrh & ->)].
  - rewrite GetSession_tick in Hg. unfold GetSession, bindM, attemptM in Hg.
    destruct (redisM _ w) as [w2 [v|e]] eqn:Eg; apply redisM_world in Eg as (rd & Eg & ->).
    + apply rdb_Get_ok in Eg as [_ [t Ht]]. by rewrite Hn in Ht.
    + by destruct (Is e ERedisNil).
  - assert (Hd : dead_row h r).
    { unfold cur_db in Hr. simpl in Hr. destruct (ExtractTx ctx), (w_tx w);
        (eapply Forall_forall; [|exact Hr]); assumption. }
    specialize (Hd Hrh). unfold usable, session_entity, Session.IsRevoked in Hus. simpl in Hus.
    by destruct (Sessions.revoked_at r).
Qed.

(** An update that revokes every session it selects leaves no live row with the hash
    of a selected one. *)
Lemma change_dead c w w' P F r sq :
  stored_sound c w -> stored_sound c w' -> stored_book c w' = change_all P F (stored_book c w) ->
  (forall e, e_hash (F e) = e_hash e /\ e_revoked (F e) <> None) ->
  r ∈ user_sessions (cur_db c w) -> P (session_key r) (entry_of r) = true ->
  dead_rows (Sessions.refresh_token_hash r) sq (cur_db c w').
Proof.
  intros Hs Hs' Hb HF Hr HP. apply Forall_forall. intros r' Hr' Hh.
  assert (Hl := stored_entry c w' r' Hs' Hr'). assert (Hr0 := stored_entry c w r Hs Hr).
  rewrite Hb, change_all_lookup in Hl. destruct (stored_book c w !! session_key r') as [e|] eqn:Ek; [|done].
  cbn [fmap option_fmap option_map] in Hl. apply (inj Some) in Hl.
  assert (Heh : e_hash e = e_hash (entry_of r)).
  { change (e_hash (entry_of r)) with (Sessions.refresh_token_hash r). rewrite <- Hh.
    change (e_hash e = e_hash (entry_of r')). rewrite <- Hl. destruct (P _ e); [by destruct (HF e) as [-> _]|done]. }
  assert (Hk := stored_unique c w _ _ _ _ Hs Ek Hr0 (or_introl Heh)). rewrite Hk, Hr0 in Ek.
  apply (inj Some) in Ek as <-. rewrite Hk, HP in Hl. change (e_revoked (entry_of r') <> None).
  rewrite <- Hl. apply HF.
Qed.

(** A session of the user that is neither revoked nor over at [now]. *)
Definition open_session (uid now : Z) (r : Sessions.row) (db : DB) : Prop :=
  r ∈ user_sessions db /\ Sessions.user_id r = uid /\ Sessions.revoked_at r = None /\ now < Sessions.expires_at r.

Lemma open_listed uid now r db : open_session uid now r db -> listed uid now (session_key r) (entry_of r) = true.
Proof.
  intros (_ & Hu & Hn & He). unfold listed, not_revoked, entry_of, session_key. simpl.
  rewrite Hu, Hn, Z.eqb_refl. by apply Z.ltb_lt.
Qed.

(** The hash of an open session is among those of the listed ones. *)
Lemma list_open ctx uid w w' l r (p : Session.t -> bool) :
  ExtractTx ctx = false -> consistent (w_db w) -> SessionRepository.ListActiveByUserID ctx uid w = (w', Ok l) ->
  open_session uid (pg_time (env_clock (w_ticks w))) r (w_db w) ->
  (forall se, shows (session_key r) (entry_of r) se -> p se = true) ->
  Sessions.refresh_token_hash r ∈ map Session.RefreshTokenHash (where_ p l).
Proof.
  intros Hc Hok Hl Ho Hp. assert (Hs : stored_sound ctx w) by (unfold stored_sound; by rewrite cur_db_pool).
  destruct (stored_list_now _ _ _ _ _ Hs Hl) as (_ & _ & _ & Hall).
  destruct (Hall (session_key r) (entry_of r)) as (se & Hin & Hsh);
    [apply stored_entry; [exact Hs|rewrite cur_db_pool by done; apply Ho]|by eapply open_listed|].
  apply list_elem_of_fmap. exists se. split; [symmetry; apply Hsh|]. apply elem_of_where. split; [done|by apply Hp].
Qed.

(** Redis carries out a [DEL] in this state. *)
Definition del_works (rd : R) : Prop := forall ks, isOk (snd (rd_do (DEL ks) rd)) = true.

Lemma foldr_delete_lookup (m : store) ks key : key ∈ ks -> foldr delete m ks !! key = None.
Proof.
  induction 1 as [key ks|key k' ks _ IH]; simpl; [by rewrite lookup_delete_eq|].
  apply lookup_delete_None. by right.
Qed.

(** The deletion evicts every hash it is given. *)
Lemma DeleteSessions_evicts hashes h w :
  del_works (w_redis w) -> h ∈ hashes ->
  rd_abs (w_redis (fst (attemptM (DeleteSessions hashes) w))) !! (sessionPrefix +:+ h) = None.
Proof.
  intros Hd Hin. unfold DeleteSessions. destruct hashes as [|h0 hs]; [by apply elem_of_nil in Hin|].
  set (keys := map _ (h0 :: hs)). assert (Hk : sessionPrefix +:+ h ∈ keys).
  { apply list_elem_of_fmap. by exists h. }
  clearbody keys. specialize (Hd keys). unfold attemptM at 1, bindM at 1, attemptM.
  destruct (redisM (rdb_Del keys) w) as [w1 x] eqn:Ed. apply redisM_world in Ed as (rd & Ed & ->).
  unfold rdb_Del, bindM at 1 in Ed. destruct (rd_do (DEL keys) (w_redis w)) as [rd' [rep|]] eqn:Er; [|done].
  apply rd_ok in Er. simpl in Er. injection Er as Hab _. unfold liftM in Ed. injection Ed as <- _.
  assert (Hl : rd_abs rd' !! (sessionPrefix +:+ h) = None) by (rewrite <- Hab; by apply foldr_delete_lookup).
  by destruct x.
Qed.

(** The last step of both password services, once the rows are revoked. *)
Lemma evicted_retired hashes h w w' z :
  dead_rows h (w_seq w) (w_db w) -> w_tx w = None -> Forall (fun t => task_hash t <> h) (w_tasks w) ->
  del_works (w_redis w) -> h ∈ hashes -> attemptM (DeleteSessions hashes) w = (w', Ok z) ->
  retired h (w_uuids w') w'.
Proof.
  intros Hd Ht Hk Hdel Hin Hx. assert (He := DeleteSessions_evicts hashes h w Hdel Hin). rewrite Hx in He.
  assert (Hf : keeps (fun w : World R => (w_seq w, w_db w, w_tx w, w_tasks w)) (attemptM (DeleteSessions hashes))).
  { apply keeps_attempt. unfold DeleteSessions. destruct hashes; [done|]. apply keeps_bind;
      [by apply keeps_attempt, keeps_zoom|]. by intros []. }
  apply (keeps_inv _ _ _ _ _ Hf) in Hx. injection Hx as Hx1 Hx2 Hx3 Hx4.
  split; [|split; [exact He|]]; [|by rewrite Hx4]. unfold holds. by rewrite Hx1, Hx2, Hx3, Ht.
Qed.

(** What the password services leave alone until their transaction. *)
Definition backstage w : R * list task * nat := (w_redis w, w_tasks w, w_ticks w).

Lemma run_backstage {A} ctx (q : stmt A) : keeps backstage (run ctx q).
Proof. by apply run_keeps. Qed.
Lemma HashPassword_backstage a pw : keeps backstage (HashPassword a pw).
Proof. done. Qed.
#[local] Hint Resolve run_backstage HashPassword_backstage run_ticks : go.

(** Everything but the clock. *)
Definition stage w : R * list task := (w_redis w, w_tasks w).
Lemma run_stage {A} ctx (q : stmt A) : keeps stage (run ctx q).
Proof. by apply run_keeps. Qed.
Lemma nowM_stage : keeps stage nowM.
Proof. done. Qed.
Lemma NewString_stage : keeps stage NewString.
Proof. done. Qed.
#[local] Hint Resolve run_stage nowM_stage NewString_stage : go.
Lemma repository_Insert_stage ctx e : keeps stage (ob_Insert (S := World R) ctx e).
Proof. change (keeps stage (PostgresRepository.Insert (R:=R) ctx e)). go_world. Qed.
#[local] Hint Resolve repository_Insert_stage : go.

(** What the transaction of [ChangePassword] does to the other sessions. *)
Lemma change_tx_dead ctx uid keep hash now w w' r sq :
  consistent (w_db w) -> r ∈ user_sessions (w_db w) -> Sessions.user_id r = uid -> Sessions.id r <> keep ->
  Sessions.revoked_at r = None -> Sessions.session_status r = "active" ->
  (do! CredentialRepository.UpdatePasswordHash (inject ctx) uid hash now in
   SessionRepository.RevokeAllExcept (inject ctx) uid keep now) (begun w) = (w', Ok tt) ->
  dead_rows (Sessions.refresh_token_hash r) sq (cur_db (inject ctx) w').
Proof.
  intros Hdb Hr Hu Hid Hn Ha H. step H w1 u Hup. destruct u.
  assert (Ho : world_ok w1).
  { assert (Hp : preserves (world_ok (R:=R)) (CredentialRepository.UpdatePasswordHash (inject ctx) uid hash now))
      by go_world. specialize (Hp (begun w) (conj Hdb Hdb)). by rewrite Hup in Hp. }
  apply UpdatePasswordHash_inv in Hup as (_ & _ & Hs). rewrite cur_begun in Hs.
  assert (Hs1 := stored_sound_ok (inject ctx) w1 Ho).
  destruct (stored_revoke_except _ _ _ _ _ _ Hs1 H) as [Hs2 Hb].
  eapply (change_dead _ _ _ _ _ r _ Hs1 Hs2 Hb); [by intros e|by rewrite Hs|].
  unfold active, not_revoked, entry_of, session_key. simpl.
  apply Z.eqb_neq in Hid. by rewrite Hu, Z.eqb_refl, Hid, Hn, Ha.
Qed.

Lemma ChangePassword_retires s ctx cmd w w' r :
  consistent (w_db w) -> pool (txManager s) = true -> ExtractTx ctx = false -> del_works (w_redis w) ->
  Forall (fun t => task_hash t <> Sessions.refresh_token_hash r) (w_tasks w) ->
  open_session (ChangePasswordCommand.UserID cmd) (pg_time (env_clock (w_ticks w))) r (w_db w) ->
  Sessions.session_status r = "active" -> Sessions.id r <> ChangePasswordCommand.CurrentSessionID cmd ->
  ChangePassword s ctx cmd w = (w', Ok tt) -> retired (Sessions.refresh_token_hash r) (w_uuids w') w'.
Proof.
  intros Hok Hp Hc Hdel Htk Ho Hst Hid H. unfold ChangePassword in H. step H w1 c Hcr.
  assert (D1 := Hcr). frame (w_db (R:=R)) D1. assert (B1 := Hcr). frame backstage B1.
  apply credential_GetByUserID_inv in Hcr as (rc & _ & Hu & -> & _).
  cbn [mapCredentialRowToEntity credential_of Credential.UserID Credential.PasswordHash
    credentialRow.UserID credentialRow.PasswordHash] in H. rewrite Hu in H.
  destruct (VerifyPassword _ _) as [[]|]; [|done]. destruct (String.eqb _ _); [done|].
  step H w2 hash Hh. assert (D2 := Hh). frame (w_db (R:=R)) D2. frame backstage Hh. rewrite D1 in D2.
  rewrite B1 in Hh. injection Hh as R2 T2 C2.
  step H w3 l Hl. assert (D3 := Hl). frame (w_db (R:=R)) D3. assert (S3 := Hl). frame stage S3.
  step H w4 now Hn. assert (D4 := Hn). frame (w_db (R:=R)) D4. frame stage Hn.
  step H w5 y Htx. step H w6 z Hd. unfold retM in H. injection H as ->.
  assert (S5 := Htx). apply (keeps_inv stage) in S5; [|apply WithinTransaction_keeps; [done|done|done|go_world]].
  rewrite Hn, S3 in S5. unfold stage in S5. injection S5 as R5 T5. rewrite R2 in R5. rewrite T2 in T5.
  destruct y. assert (Hcl := WithinTransaction_closed _ _ _ _ _ _ Hc Htx).
  apply WithinTransaction_committed in Htx as (wt & Htx & Hdb & _ & _); [|done|done].
  rewrite D3, D2 in D4. destruct Ho as (Hr & Hus & Hrv & Hex).
  eapply evicted_retired; [|exact Hcl|by rewrite T5|by rewrite R5| |exact Hd].
  - rewrite <- Hdb. eapply change_tx_dead; [| | | | | |exact Htx]; [by rewrite D4|by rewrite D4|done..].
  - apply (list_open ctx (ChangePasswordCommand.UserID cmd) w2 w3); [done|by rewrite D2|done|by rewrite C2, D2|].
    intros se (Hi & _). apply negb_true_iff, Z.eqb_neq. by rewrite Hi.
Qed.

(** What the transaction of [ResetPassword] does to the sessions. *)
Lemma reset_tx_dead ctx uid hash email w w' r sq :
  consistent (w_db w) -> r ∈ user_sessions (w_db w) -> Sessions.user_id r = uid ->
  Sessions.revoked_at r = None -> (forall n, (n < w_ticks w')%nat -> pg_time (env_clock n) < Sessions.expires_at r) ->
  (let! now := nowM in
   do! CredentialRepository.UpdatePasswordHash (inject ctx) uid hash now in
   let! now := nowM in
   do! SessionRepository.RevokeAllByUserID (inject ctx) uid now in
   PublishResetPasswordCompleted (inject ctx) uid email) (begun w) = (w', Ok tt) ->
  dead_rows (Sessions.refresh_token_hash r) sq (cur_db (inject ctx) w').
Proof.
  intros Hdb Hr Hu Hn Hex H. step H w1 now1 Hn1. unfold nowM in Hn1. simpl in Hn1. injection Hn1 as <- _.
  step H w2 u Hup. destruct u. assert (Ho : world_ok w2).
  { assert (Hp : preserves (world_ok (R:=R)) (CredentialRepository.UpdatePasswordHash (inject ctx) uid hash now1))
      by go_world. specialize (Hp (tick_clock (begun w)) (conj Hdb Hdb)). by rewrite Hup in Hp. }
  apply UpdatePasswordHash_inv in Hup as (_ & _ & Hs). change (cur_db (inject ctx) (tick_clock (begun w))) with (w_db w) in Hs.
  step H w3 now2 Hn2. unfold nowM in Hn2. simpl in Hn2. injection Hn2 as <- _.
  step H w4 u Hrv. destruct u. assert (Hs1 : stored_sound (inject ctx) (tick_clock w2)) by (apply stored_sound_ok; by destruct Ho).
  destruct (stored_revoke_all_now _ _ _ _ _ Hs1 Hrv) as [Hs2 Hb]. apply RevokeAllByUserID_inv in Hrv as (Htk & _).
  apply PublishResetPasswordCompleted_frame in H as (Hss & _ & Hle). unfold rows. rewrite Hss.
  eapply (change_dead _ _ _ _ _ r sq Hs1 Hs2 Hb); [by intros e|by rewrite <- Hs in Hr|].
  eapply (open_listed _ _ _ (w_db w)). repeat split; try done. apply Hex. simpl in Htk |- *. lia.
Qed.

Lemma ResetPassword_retires s ctx cmd uid w w' r :
  consistent (w_db w) -> pool (txManager s) = true -> ExtractTx ctx = false ->
  snd (ParsePasswordResetToken (ResetPasswordCommand.Token cmd) w) = Ok uid ->
  del_works (w_redis (fst (ParsePasswordResetToken (ResetPasswordCommand.Token cmd) w))) ->
  Forall (fun t => task_hash t <> Sessions.refresh_token_hash r) (w_tasks w) ->
  r ∈ user_sessions (w_db w) -> Sessions.user_id r = uid -> Sessions.revoked_at r = None ->
  (forall n, (n < w_ticks w')%nat -> pg_time (env_clock n) < Sessions.expires_at r) ->
  ResetPassword s ctx cmd w = (w', Ok tt) -> retired (Sessions.refresh_token_hash r) (w_uuids w') w'.
Proof.
  intros Hok Hp Hc Huid Hdel Htk Hr Hu Hrv Hex H. unfold ResetPassword in H.
  step H w0 u0 Hv. unfold liftM in Hv. injection Hv as <- _.
  step H w1 x Ht. apply attemptM_inv in Ht. rewrite Ht in Huid, Hdel. simpl in Huid, Hdel. subst x.
  apply take_user_ok in Ht as [_ (rd & -> & _)]. set (w1 := set_rd rd w) in *.
  step H w2 user Hus. assert (D2 := Hus). frame (w_db (R:=R)) D2. frame backstage Hus. injection Hus as R2 T2 C2.
  step H w3 l Hl. assert (D3 := Hl). frame (w_db (R:=R)) D3. assert (S3 := Hl). frame stage S3.
  assert (P3 : (w_ticks w2 < w_ticks w3)%nat).
  { unfold SessionRepository.ListActiveByUserID in Hl. step Hl wa now Hn. unfold nowM in Hn. simpl in Hn.
    injection Hn as <- _. step Hl wb found Hq. unfold retM in Hl. injection Hl as -> _. frame (w_ticks (R:=R)) Hq.
    rewrite Hq. simpl. lia. }
  step H w4 hash Hh. assert (D4 := Hh). frame (w_db (R:=R)) D4. frame backstage Hh. injection Hh as R4 T4 C4.
  step H w5 y Htx. step H w6 z Hd. unfold retM in H. injection H as ->.
  assert (S5 := Htx). apply (keeps_inv stage) in S5; [|apply WithinTransaction_keeps; [done|done|done|go_world]].
  unfold stage in S3, S5. injection S3 as R3 T3. injection S5 as R5 T5.
  assert (P5 : (w_ticks w4 <= w_ticks w5)%nat).
  { assert (Hpr : preserves (past (w_ticks w4)) (WithinTransaction (R:=R) (txManager s) ctx (Some (fun txctx =>
      let! now := nowM in
      do! CredentialRepository.UpdatePasswordHash txctx uid hash now in
      let! now := nowM in
      do! SessionRepository.RevokeAllByUserID txctx uid now in
      PublishResetPasswordCompleted txctx uid (Email.value (User.Email user)))))) by go_world.
    specialize (Hpr w4). rewrite Htx in Hpr. apply Hpr. unfold past. lia. }
  assert (P6 : (w_ticks w5 <= w_ticks w')%nat).
  { assert (Hpr : preserves (past (w_ticks w5)) (attemptM (DeleteSessions (R:=R) (map Session.RefreshTokenHash l)))) by go_world.
    specialize (Hpr w5). rewrite Hd in Hpr. apply Hpr. unfold past. lia. }
  destruct y. assert (Hcl := WithinTransaction_closed _ _ _ _ _ _ Hc Htx).
  apply WithinTransaction_committed in Htx as (wt & Htx & Hdb & Htt & _); [|done|done].
  assert (D : w_db w4 = w_db w) by (rewrite D4, D3, D2; reflexivity).
  eapply evicted_retired; [|exact Hcl|by rewrite T5, T4, T3, T2|by rewrite R5, R4, R3, R2| |exact Hd].
  - rewrite <- Hdb. eapply reset_tx_dead; [| | | | |exact Htx]; [by rewrite D|by rewrite D|done|done|].
    intros n Hn. apply Hex. lia.
  - rewrite <- (where_all l). apply (list_open ctx uid w2 w3); [done|by rewrite D2|done| |done].
    split; [by rewrite D2|]. split; [done|]. split; [done|]. apply Hex. lia.
Qed.

(** C7: Changing the password ends the other devices for good: if no background task
    is about to cache the session and Redis carries out the deletion, then after a
    successful change the refresh token of every other open session of the user is
    refused, whatever calls, background tasks and time come in between, as long as
    the token is not issued a second time. *)
Theorem password_change_ends_tokens s ctx cmd w w' r :
  consistent (w_db w) -> pool (txManager s) = true -> ExtractTx ctx = false -> del_works (w_redis w) ->
  Forall (fun t => task_hash t <> Sessions.refresh_token_hash r) (w_tasks w) ->
  open_session (ChangePasswordCommand.UserID cmd) (pg_time (env_clock (w_ticks w))) r (w_db w) ->
  Sessions.session_status r = "active" -> Sessions.id r <> ChangePasswordCommand.CurrentSessionID cmd ->
  ChangePassword s ctx cmd w = (w', Ok tt) ->
  issued_fresh (Sessions.refresh_token_hash r) (w_uuids w') (JWTConfig.Secret (authManager s)) ->
  forall w1 ctx' tok, rtc (later s) w' w1 -> HashToken tok = Sessions.refresh_token_hash r ->
    forall w2 out, RefreshToken s ctx' tok w1 <> (w2, Ok out).
Proof.
  intros Hok Hp Hc Hdel Htk Ho Hst Hid H Hf w1 ctx' tok Hl Hh w2 out. eapply retired_refused; [|exact Hh].
  eapply (guarded_later _ _ _ (retired _ _)); [exact Hf|exact Hl|]. by eapply ChangePassword_retires.
Qed.

(** C8: Resetting a forgotten password ends every device for good: under the same
    conditions, after a successful reset the refresh token of every session that is
    not over by then is refused, whatever comes in between. *)
Theorem password_reset_ends_tokens s ctx cmd uid w w' r :
  consistent (w_db w) -> pool (txManager s) = true -> ExtractTx ctx = false ->
  snd (ParsePasswordResetToken (ResetPasswordCommand.Token cmd) w) = Ok uid ->
  del_works (w_redis (fst (ParsePasswordResetToken (ResetPasswordCommand.Token cmd) w))) ->
  Forall (fun t => task_hash t <> Sessions.refresh_token_hash r) (w_tasks w) ->
  r ∈ user_sessions (w_db w) -> Sessions.user_id r = uid -> Sessions.revoked_at r = None ->
  (forall n, (n < w_ticks w')%nat -> pg_time (env_clock n) < Sessions.expires_at r) ->
  ResetPassword s ctx cmd w = (w', Ok tt) ->
  issued_fresh (Sessions.refresh_token_hash r) (w_uuids w') (JWTConfig.Secret (authManager s)) ->
  forall w1 ctx' tok, rtc (later s) w' w1 -> HashToken tok = Sessions.refresh_token_hash r ->
    forall w2 out, RefreshToken s ctx' tok w1 <> (w2, Ok out).
Proof.
  intros Hok Hp Hc Huid Hdel Htk Hr Hu Hrv Hex H Hf w1 ctx' tok Hl Hh w2 out. eapply retired_refused; [|exact Hh].
  eapply (guarded_later _ _ _ (retired _ _)); [exact Hf|exact Hl|]. by eapply ResetPassword_retires.
Qed.
End Retire.

(** ** Two devices *)

Module RevocationScenario.
Import IdentityDemo Scenario ProgressScenario.

(** Ann logs in on a second device, and that device refreshes its session: the task
    that caches the session is still to run. *)
Definition login2 : LoginCommand.t :=
  LoginCommand.mk "ann@shop.vn" "SuperSecret123" "fp2" "laptop" "10.0.0.2" "curl".
Definition both : World Script.t * result LoginOutput := Login service Background login2 (fst logged_in).
Definition token2 : string := match snd both with Ok out => RefreshToken_ out | Err _ => "" end.
Definition refreshed2 : World Script.t * result LoginOutput := RefreshToken service Background token2 (fst both).
Definition token3 : string := match snd refreshed2 with Ok out => RefreshToken_ out | Err _ => "" end.

(** The password is changed on the first device while the task of the second one's
    refresh is pending: the task caches the revoked session, and the token of the
    second device gives new tokens. Had the task run before, the token is refused. *)
Theorem late_cache_survives_change :
  let task_last := run_task 0 (fst (ChangePassword service Background change (fst refreshed2))) in
  let task_first := ChangePassword service Background change (fst (run_task 0 (fst refreshed2))) in
  snd (ChangePassword service Background change (fst refreshed2)) = Ok tt /\ snd task_first = Ok tt /\
  isOk (snd (RefreshToken service Background token3 (fst task_last))) = true /\
  isOk (snd (RefreshToken service Background token3 (fst task_first))) = false.
Proof. repeat (split; [run_it|]). run_it. Qed.

(** An environment that no longer changes. *)
Definition quiet : Env := {|
  env_clock _ := 1000; env_uuid _ := "late"; pg_clock _ := 0; pg_fault _ := None
|}.

Lemma quiet_fresh h k : bool_decide (HashToken "klate" = h) = false ->
  issued_fresh (E:=quiet) (JW:=plain_jwt) h k (JWTConfig.Secret (authManager service)).
Proof.
  intros Hh%bool_decide_eq_false n c t _ Ht Hc. cbn [jwt_sign plain_jwt] in Ht. injection Ht as <-.
  rewrite Hc. exact Hh.
Qed.
Lemma script_del w : Script.faults (w_redis w) = [] -> del_works (w_redis w).
Proof. intros Hf ks. cbn [rd_do script_client]. unfold Script.exec. rewrite Hf. by destruct (cmd_spec _ _). Qed.

(** Ann's two sessions. *)
Lemma both_sessions : exists r1 r2, user_sessions (w_db (fst both)) = [r1; r2] /\
  HashToken token2 = Sessions.refresh_token_hash r2 /\ Sessions.user_id r2 = 1 /\
  Sessions.revoked_at r2 = None /\ (pg_time 1000 <? Sessions.expires_at r2) = true /\
  Sessions.session_status r2 = "active" /\ Sessions.id r2 = 2 /\
  bool_decide (HashToken "klate" = Sessions.refresh_token_hash r2) = false.
Proof. do 2 eexists. repeat (split; [run_it|]). run_it. Qed.
Lemma both_quiet : Script.faults (w_redis (fst both)) = [] /\ w_tasks (fst both) = [].
Proof. split; run_it. Qed.
Lemma both_ok : world_ok (fst both).
Proof. split; [run_it|exact I]. Qed.

Definition changed : World Script.t * result unit :=
  ChangePassword (E:=quiet) service Background change (fst both).

Lemma password_change_ends_tokens_witness :
  snd changed = Ok tt /\
  forall w1 ctx' w2 out, rtc (later (E:=quiet) (JW:=plain_jwt) service) (fst changed) w1 ->
    RefreshToken (E:=quiet) (JW:=plain_jwt) service ctx' token2 w1 <> (w2, Ok out).
Proof.
  assert (Hd : snd changed = Ok tt) by run_it. split; [exact Hd|]. apply split_run in Hd.
  unfold changed at 1 in Hd.
  destruct both_sessions as (r1 & r2 & Hs & Hh & Hu & Hn & He & Ha & Hid & Hf).
  destruct both_ok as [Hdb _]. destruct both_quiet as [Hq Ht].
  intros w1 ctx' w2 out Hl.
  refine (password_change_ends_tokens (E:=quiet) (R:=Script.t) (JW:=plain_jwt) service Background change (fst both)
    (fst changed) r2 Hdb eq_refl eq_refl (script_del _ Hq) _ _ Ha _ Hd (quiet_fresh _ _ Hf)
    w1 ctx' token2 Hl Hh w2 out).
  - rewrite Ht. apply Forall_nil_2.
  - unfold open_session. rewrite Hs. split; [right; left|]. split; [exact Hu|]. split; [exact Hn|].
    exact (proj1 (Z.ltb_lt _ _) He).
  - rewrite Hid. discriminate.
Defined.

(** She forgets her password and resets it. *)
Definition forgot2 : World Script.t * result unit := ForgotPassword Background "ann@shop.vn" (fst both).
Definition reset2 : ResetPasswordCommand.t := ResetPasswordCommand.mk (mailed_token (fst forgot2)) "NewSecret456".
Definition reset_both : World Script.t * result unit :=
  ResetPassword (E:=quiet) service Background reset2 (fst forgot2).

Lemma forgot2_sessions : exists r1 r2, user_sessions (w_db (fst forgot2)) = [r1; r2] /\
  HashToken token2 = Sessions.refresh_token_hash r2 /\ Sessions.user_id r2 = 1 /\
  Sessions.revoked_at r2 = None /\ (pg_time 1000 <? Sessions.expires_at r2) = true /\
  bool_decide (HashToken "klate" = Sessions.refresh_token_hash r2) = false.
Proof. do 2 eexists. repeat (split; [run_it|]). run_it. Qed.
Lemma forgot2_quiet :
  let p := ParsePasswordResetToken (ResetPasswordCommand.Token reset2) (fst forgot2) in
  snd p = Ok 1 /\ Script.faults (w_redis (fst p)) = [] /\ w_tasks (fst forgot2) = [].
Proof. repeat (split; [run_it|]). run_it. Qed.
Lemma forgot2_ok : world_ok (fst forgot2).
Proof. split; [run_it|exact I]. Qed.

Lemma password_reset_ends_tokens_witness :
  snd reset_both = Ok tt /\
  forall w1 ctx' w2 out, rtc (later (E:=quiet) (JW:=plain_jwt) service) (fst reset_both) w1 ->
    RefreshToken (E:=quiet) (JW:=plain_jwt) service ctx' token2 w1 <> (w2, Ok out).
Proof.
  assert (Hd : snd reset_both = Ok tt) by run_it. split; [exact Hd|]. apply split_run in Hd.
  unfold reset_both at 1 in Hd.
  destruct forgot2_sessions as (r1 & r2 & Hs & Hh & Hu & Hn & He & Hf).
  destruct forgot2_ok as [Hdb _]. destruct forgot2_quiet as (Hp & Hq & Ht).
  intros w1 ctx' w2 out Hl.
  refine (password_reset_ends_tokens (E:=quiet) (R:=Script.t) (JW:=plain_jwt) service Background reset2 1
    (fst forgot2) (fst reset_both) r2 Hdb eq_refl eq_refl Hp (script_del _ Hq) _ _ Hu Hn
    (fun _ _ => proj1 (Z.ltb_lt _ _) He) Hd (quiet_fresh _ _ Hf) w1 ctx' token2 Hl Hh w2 out).
  - rewrite Ht. apply Forall_nil_2.
  - rewrite Hs. right. left.
Defined.
End RevocationScenario.
