(* ===== verification/Rotation.v ===== *)
(** * Concurrent refreshes

    The rotation of [RefreshToken] in [auth_service.go] is guarded against two
    requests with one token by [SELECT ... FOR UPDATE]. This file lets any number
    of refresh transactions run interleaved over the shared table of sessions, with
    the row locks of PostgreSQL at the isolation level READ COMMITTED: a locking
    [SELECT] waits until no other transaction holds the row and then tests the
    committed row; an [UPDATE] becomes visible at the commit, which releases the
    lock. Other transactions change rows that are not locked. The sequential
    service of IdentityServices is simulated by these steps. *)

From Stdlib Require Import ZArith NArith String Ascii Lia.
From stdpp Require Import base strings list gmap relations.
From S2P Require Import Prelude GoStrings Config Crypto Json Domain Gin RedisClient Idempotency Schema.
From S2P Require Import Database Sql Kafka Outbox IdentityAdapters IdentityRepos SessionStore IdentityServices IdentitySpec.

Local Open Scope Z_scope.

(** ** Transactions *)

(** A refresh on its way into the transaction: the hash of the presented token,
    the hash of the token made for it, and the time it read. *)
Record refresh := mkRefresh { rf_old : string; rf_new : string; rf_now : Z }.

(** [PLocked r]: the [SELECT ... FOR UPDATE] returned [r] and its lock is held. *)
Inductive phase := PStart | PLocked (r : Sessions.row) | PDone | PFailed.

Record shared := mkShared { sh_db : DB; sh_txs : gmap nat (refresh * phase) }.

Section Steps.
Context (s : AuthService).

(** The [UPDATE] of [rotate_session] for a locked row. *)
Definition rotation (q : refresh) (r : Sessions.row) : stmt Z :=
  let session := mapSessionRowToEntity (session_of r) in
  let session := Session.with_ExpiredAt (Session.Rotate session (rf_new q) (rf_now q))
                   (rf_now q + ttlDuration s) in
  SessionRepository.queryUpdateSession (Session.ID session) (Session.RefreshTokenHash session)
    (Session.ExpiredAt session) (Session.LastSeenAt session).

Definition locked_by (txs : gmap nat (refresh * phase)) (i : nat) (id : Z) : Prop :=
  exists q r, txs !! i = Some (q, PLocked r) /\ Sessions.id r = id.

Inductive refresh_step : shared -> shared -> Prop :=
| step_arrive i q db txs :
    txs !! i = None ->
    refresh_step (mkShared db txs) (mkShared db (<[i := (q, PStart)]> txs))
| step_lock i q r db txs :
    txs !! i = Some (q, PStart) ->
    r ∈ where_ (fun x => String.eqb (Sessions.refresh_token_hash x) (rf_old q)) (user_sessions db) ->
    (forall j, ~ locked_by txs j (Sessions.id r)) ->
    refresh_step (mkShared db txs) (mkShared db (<[i := (q, PLocked r)]> txs))
| step_commit i q r t db sq sq' db' n txs :
    txs !! i = Some (q, PLocked r) ->
    rotation q r t db sq = (sq', Ok (db', n)) ->
    (* the new token is known to nobody before this commit *)
    (forall j q' p, txs !! j = Some (q', p) -> rf_old q' <> rf_new q) ->
    refresh_step (mkShared db txs) (mkShared db' (<[i := (q, PDone)]> txs))
| step_fail i q p db txs :
    txs !! i = Some (q, p) -> p <> PDone ->
    refresh_step (mkShared db txs) (mkShared db (<[i := (q, PFailed)]> txs))
| step_other db db' txs :
    consistent db' ->
    (* locked rows stay *)
    (forall i r, r ∈ user_sessions db -> locked_by txs i (Sessions.id r) -> r ∈ user_sessions db') ->
    (* a presented token is not issued again *)
    (forall i q p r', txs !! i = Some (q, p) -> r' ∈ user_sessions db' ->
       Sessions.refresh_token_hash r' = rf_old q ->
       exists r, r ∈ user_sessions db /\ Sessions.refresh_token_hash r = rf_old q) ->
    refresh_step (mkShared db txs) (mkShared db' txs).

(** What holds at every moment: a locked row is the committed one with the
    presented hash, locks are exclusive, and a finished refresh has removed the
    hash it was presented with. *)
Record rotation_inv (st : shared) : Prop := {
  inv_db : consistent (sh_db st);
  inv_locked i q r : sh_txs st !! i = Some (q, PLocked r) ->
    r ∈ user_sessions (sh_db st) /\ Sessions.refresh_token_hash r = rf_old q;
  inv_exclusive i j id : locked_by (sh_txs st) i id -> locked_by (sh_txs st) j id -> i = j;
  inv_done i q r : sh_txs st !! i = Some (q, PDone) -> r ∈ user_sessions (sh_db st) ->
    Sessions.refresh_token_hash r <> rf_old q;
  inv_once i j q q' : sh_txs st !! i = Some (q, PDone) -> sh_txs st !! j = Some (q', PDone) ->
    rf_old q = rf_old q' -> i = j
}.

(** The effect of the [UPDATE] on the table. *)
Lemma rotation_effect q r t db sq sq' db' n :
  rotation q r t db sq = (sq', Ok (db', n)) ->
  consistent db' /\ exists f,
    user_sessions db' = update_where (fun x => Sessions.id x =? Sessions.id r) f (user_sessions db) /\
    forall x, Sessions.refresh_token_hash (f x) = rf_new q /\ Sessions.id (f x) = Sessions.id x.
Proof.
  unfold rotation, SessionRepository.queryUpdateSession, dml. cbv zeta.
  destruct (violated _) eqn:Ev; [done|]. intros [= _ <- _]. split; [exact Ev|].
  eexists. split; [reflexivity|]. intros x. by split.
Qed.

(** A transaction that holds no lock does not matter for the locks. *)
Lemma locked_by_insert txs i q p j id :
  (forall r, p <> PLocked r) -> locked_by (<[i := (q, p)]> txs) j id -> locked_by txs j id.
Proof.
  intros Hp (q' & r & Hj & Hid). apply lookup_insert_Some in Hj as [[_ [= _ ->]]|[_ Hj]].
  - by destruct (Hp r).
  - by exists q', r.
Qed.

(** A transaction that starts or fails. *)
Lemma inv_idle db txs i q p :
  (forall r, p <> PLocked r) -> p <> PDone ->
  rotation_inv (mkShared db txs) -> rotation_inv (mkShared db (<[i := (q, p)]> txs)).
Proof.
  intros Hl Hd [H1 H2 H3 H4 H5]. split; simpl in *.
  - done.
  - intros j q' r Hj. apply lookup_insert_Some in Hj as [[_ [= _ ->]]|[_ Hj]]; [by destruct (Hl r)|by eapply H2].
  - intros j k id Hj%locked_by_insert Hk%locked_by_insert; [by eapply H3|done..].
  - intros j q' r Hj. apply lookup_insert_Some in Hj as [[_ [= _ ->]]|[_ Hj]]; [done|by eapply H4].
  - intros j k q1 q2 Hj Hk. apply lookup_insert_Some in Hj as [[_ [= _ ->]]|[_ Hj]]; [done|].
    apply lookup_insert_Some in Hk as [[_ [= _ ->]]|[_ Hk]]; [done|]. by eapply H5.
Qed.

Lemma inv_lock db txs i q r :
  r ∈ where_ (fun x => String.eqb (Sessions.refresh_token_hash x) (rf_old q)) (user_sessions db) ->
  (forall j, ~ locked_by txs j (Sessions.id r)) ->
  rotation_inv (mkShared db txs) -> rotation_inv (mkShared db (<[i := (q, PLocked r)]> txs)).
Proof.
  intros [Hin Hh%String.eqb_eq]%elem_of_where Hfree [H1 H2 H3 H4 H5].
  assert (Hlk : forall j id, locked_by (<[i := (q, PLocked r)]> txs) j id ->
    j = i /\ id = Sessions.id r \/ locked_by txs j id).
  { intros j id (q' & r' & Hj & Hid).
    apply lookup_insert_Some in Hj as [[-> [= _ ->]]|[_ Hj]]; [by left|right; by exists q', r']. }
  split; simpl in *.
  - done.
  - intros j q' r' Hj. apply lookup_insert_Some in Hj as [[_ [= <- <-]]|[_ Hj]]; [done|by eapply H2].
  - intros j k id [[-> ->]|Hj]%Hlk [[-> Hk]|Hk]%Hlk; [done|by destruct (Hfree k)| |by eapply H3].
    subst id. by destruct (Hfree j).
  - intros j q' x Hj. apply lookup_insert_Some in Hj as [[_ [=]]|[_ Hj]]. by eapply H4.
  - intros j k q1 q2 Hj Hk. apply lookup_insert_Some in Hj as [[_ [=]]|[_ Hj]].
    apply lookup_insert_Some in Hk as [[_ [=]]|[_ Hk]]. by eapply H5.
Qed.

(** A row of the new table with another hash than the new one was there before. *)
Lemma rotated_row db db' q r f x :
  user_sessions db' = update_where (fun y => Sessions.id y =? Sessions.id r) f (user_sessions db) ->
  (forall y, Sessions.refresh_token_hash (f y) = rf_new q /\ Sessions.id (f y) = Sessions.id y) ->
  x ∈ user_sessions db' -> Sessions.refresh_token_hash x <> rf_new q ->
  x ∈ user_sessions db /\ Sessions.id x <> Sessions.id r.
Proof.
  intros -> Hf (y & Hy & ->)%elem_of_update_where Hx.
  destruct (Z.eqb_spec (Sessions.id y) (Sessions.id r)); [|done]. by destruct (Hf y) as [He _].
Qed.

Lemma inv_commit db db' txs i q r f :
  txs !! i = Some (q, PLocked r) -> consistent db' ->
  user_sessions db' = update_where (fun y => Sessions.id y =? Sessions.id r) f (user_sessions db) ->
  (forall y, Sessions.refresh_token_hash (f y) = rf_new q /\ Sessions.id (f y) = Sessions.id y) ->
  (forall j q' p, txs !! j = Some (q', p) -> rf_old q' <> rf_new q) ->
  rotation_inv (mkShared db txs) -> rotation_inv (mkShared db' (<[i := (q, PDone)]> txs)).
Proof.
  intros Hi Hdb' Hup Hf Hfresh [H1 H2 H3 H4 H5]. simpl in *. destruct (H2 _ _ _ Hi) as [Hin Hh].
  assert (Hgone : forall x, x ∈ user_sessions db' -> Sessions.refresh_token_hash x <> rf_old q).
  { intros x Hx He. pose proof (Hfresh _ _ _ Hi) as Hne.
    destruct (rotated_row db db' q r f x Hup Hf Hx) as [Hx' Hid]; [congruence|]. apply Hid. f_equal.
    eapply (nodup_key_inj _ _ _ _ (unique_refresh_hash _ H1)); [done|done|congruence]. }
  split; simpl.
  - done.
  - intros j q' r' Hj. apply lookup_insert_Some in Hj as [[_ [=]]|[Hij Hj]].
    destruct (H2 _ _ _ Hj) as [Hr' Hh']. split; [|done]. rewrite Hup. apply elem_of_update_where.
    exists r'. split; [done|]. destruct (Z.eqb_spec (Sessions.id r') (Sessions.id r)) as [He|]; [|done].
    destruct Hij. eapply (H3 i j (Sessions.id r)); [by exists q, r|by exists q', r'].
  - intros j k id Hj%locked_by_insert Hk%locked_by_insert; [by eapply H3|done..].
  - intros j q' x Hj Hx. apply lookup_insert_Some in Hj as [[_ [= <-]]|[_ Hj]]; [by apply Hgone|].
    intros He. pose proof (Hfresh _ _ _ Hj) as Hne.
    destruct (rotated_row db db' q r f x Hup Hf Hx) as [Hx' _]; [congruence|]. by eapply H4.
  - assert (Hno : forall j q', txs !! j = Some (q', PDone) -> rf_old q' = rf_old q -> False).
    { intros j q' Hj He. eapply (H4 _ _ _ Hj Hin). congruence. }
    intros j k q1 q2 Hj Hk He. apply lookup_insert_Some in Hj as [[<- [= <-]]|[_ Hj]];
      apply lookup_insert_Some in Hk as [[<- [= <-]]|[_ Hk]]; [done| | |by eapply H5].
    + by destruct (Hno _ _ Hk).
    + by destruct (Hno _ _ Hj).
Qed.

Lemma step_inv st st' : refresh_step st st' -> rotation_inv st -> rotation_inv st'.
Proof.
  intros Hs. destruct Hs as [i q db txs Hi|i q r db txs Hi Hr Hfree|i q r t db sq sq' db' n txs Hi Hrot Hf
    |i q p db txs Hi Hp|db db' txs Hdb Hlock Hissue]; intros Hinv.
  - by apply inv_idle.
  - by apply inv_lock.
  - apply rotation_effect in Hrot as (Hdb' & f & Hup & Hff). by eapply inv_commit.
  - by apply inv_idle.
  - destruct Hinv as [H1 H2 H3 H4 H5]. split; simpl in *; try done.
    + intros i q r Hi. destruct (H2 _ _ _ Hi) as [Hin Hh]. split; [|done].
      eapply Hlock; [done|]. by exists q, r.
    + intros i q r Hi Hr He. destruct (Hissue _ _ _ _ Hi Hr He) as (r0 & Hr0 & He0). by eapply H4.
Qed.

Lemma steps_inv db st : consistent db -> rtc refresh_step (mkShared db ∅) st -> rotation_inv st.
Proof.
  intros Hdb Hst. assert (H0 : rotation_inv (mkShared db ∅)).
  { split; simpl; try done; intros i; intros; try by rewrite lookup_empty in *.
    match goal with H : locked_by ∅ i _ |- _ => destruct H as (? & ? & H & _) end. by rewrite lookup_empty in H. }
  revert H0. induction Hst as [st|st st1 st2 Hs _ IH]; [done|]. intros H0. by apply IH, (step_inv st).
Qed.

(** C6: Of all refreshes that present one token, interleaved in any order and with
    any other transactions, at most one commits; when it has, no session carries
    the hash of that token any more. *)
Theorem concurrent_refresh_once db st i j q q' :
  consistent db -> rtc refresh_step (mkShared db ∅) st ->
  sh_txs st !! i = Some (q, PDone) -> sh_txs st !! j = Some (q', PDone) -> rf_old q = rf_old q' ->
  i = j /\ (forall r, r ∈ user_sessions (sh_db st) -> Sessions.refresh_token_hash r <> rf_old q).
Proof.
  intros Hdb Hst Hi Hj He. destruct (steps_inv db st Hdb Hst) as [_ _ _ H4 H5].
  split; [by eapply H5|]. intros r Hr. by eapply H4.
Qed.
End Steps.

(** ** The service performs these steps *)

Section Simulation.
Context {E : Env} {R : Type} {RC : RedisClient R} {RD : Rand} {U : Unicode} {MP : MailParser}.
Context {JW : JWT} {BC : Bcrypt}.
Implicit Type w : World R.

Lemma rotate_session_steps s old new now c w w' se :
  rotate_session s old new now c w = (w', Ok se) ->
  exists r t sq sq' n, r ∈ user_sessions (cur_db c w) /\ Sessions.refresh_token_hash r = old /\
    rotation s (mkRefresh old new now) r t (cur_db c w) sq = (sq', Ok (cur_db c w', n)).
Proof.
  unfold rotate_session. go_iface. intros H. step H w1 x Hx. apply attemptM_inv in Hx.
  destruct x as [se0|]; [|done]. apply (session_GetByHash_inv c old true) in Hx as (r & Hr & Hh & -> & Hc).
  step H w2 y Hy. unfold SessionRepository.Update in Hy. step Hy w3 n He. unfold retM in Hy, H.
  simplify_eq. unfold Exec in He. apply run_inv in He as (t & sq & db & Hrun & <- & _ & _).
  rewrite Hc in Hrun. exists r, t, (w_seq w1), sq, n. done.
Qed.

(** A successful [RefreshToken] arrives, locks the row and commits. *)
Theorem RefreshToken_steps s ctx tok w w' out :
  pool (txManager s) = true -> ExtractTx ctx = false ->
  RefreshToken s ctx tok w = (w', Ok out) -> HashToken (RefreshToken_ out) <> HashToken tok ->
  exists now, rtc (refresh_step s) (mkShared (w_db w) ∅)
    (mkShared (w_db w') {[0%nat := (mkRefresh (HashToken tok) (HashToken (RefreshToken_ out)) now, PDone)]}).
Proof.
  intros Hp Hc Hr Hne.
  destruct (RefreshToken_inv s ctx tok w w' out Hp Hc Hr) as (w0 & w1 & now & se & Hw0 & Hrot & Hw').
  apply rotate_session_steps in Hrot as (r & t & sq & sq' & n & Hin & Hh & Hrot).
  rewrite cur_begun, Hw0, Hw' in *. exists now. set (q := mkRefresh _ _ now) in *.
  eapply rtc_l; [by apply (step_arrive s 0%nat q)|].
  eapply rtc_l; [apply (step_lock s 0%nat q r); [done| |]|].
  { apply elem_of_where. split; [done|]. by apply String.eqb_eq. }
  { intros j (q' & r' & Hj & _). by apply lookup_singleton_Some in Hj as [_ [=]]. }
  eapply rtc_l; [eapply (step_commit s 0%nat q r); [done|exact Hrot|]|].
  { intros j q' p Hj. apply lookup_insert_Some in Hj as [[_ [= <- _]]|[_ Hj]]; [by apply not_eq_sym|].
    apply lookup_insert_Some in Hj as [[_ [= <- _]]|[_ Hj]]; [by apply not_eq_sym|done]. }
  by rewrite !insert_insert_eq.
Qed.
End Simulation.

Module RotationDemo.
Import IdentityDemo Scenario.

Lemma concurrent_refresh_once_witness :
  exists st, rtc (refresh_step service) (mkShared (w_db (fst logged_in)) ∅) st /\
    (forall r, r ∈ user_sessions (sh_db st) -> Sessions.refresh_token_hash r <> HashToken refresh_token).
Proof.
  assert (Hr : exists out, RefreshToken service Background refresh_token (fst logged_in) =
    (fst refreshed, Ok out) /\ HashToken (RefreshToken_ out) <> HashToken refresh_token)
    by (eexists; split; [run_it|by vm_compute]).
  destruct Hr as (out & Hr & Hne).
  destruct (RefreshToken_steps (E:=demo_environment) (R:=Script.t) service Background refresh_token
    (fst logged_in) (fst refreshed) out eq_refl eq_refl Hr Hne) as [now Hst].
  destruct logged_in_ok as [Hdb _]. revert Hst Hdb.
  generalize (w_db (fst logged_in)), (w_db (fst refreshed)), (HashToken (RefreshToken_ out)), (HashToken refresh_token).
  intros db db' new old Hst Hdb. eexists. split; [exact Hst|].
  exact (proj2 (concurrent_refresh_once service _ _ 0%nat 0%nat _ _ Hdb Hst
    (lookup_singleton_eq _ _) (lookup_singleton_eq _ _) eq_refl)).
Defined.
End RotationDemo.
