(* ===== verification/IdentityHttp.v ===== *)
(** * The HTTP interface of the identity module

    [internal/modules/identity/http]: the requests with their validation tags, the
    use-case interfaces, the handlers, the bearer and the strict middleware and the
    route table. The handlers are written against the interfaces, as in the
    program; the services implement them. Decoding a request body is done by [gin]
    ([Decoder]); the [email] rule and the wording of validation errors belong to
    the validator library ([Validator]). *)

From Stdlib Require Import ZArith NArith String Ascii Lia.
From stdpp Require Import base strings list gmap.
From S2P Require Import Prelude GoStrings Config Crypto Json Domain Gin RedisClient Idempotency Schema.
From S2P Require Import Database Httpx Sql Kafka Outbox IdentityAdapters IdentityRepos.
From S2P Require Import IdentityServices.

Local Open Scope Z_scope.

(** ** Requests: [request.go] *)

Module RegisterRequest.
Record t := mk { Email : string; Password : string; FullName : string; Phone : option string }.
End RegisterRequest.
Module LoginRequest.
Record t := mk {
  Email : string; Password : string; DeviceFingerprint : string; DeviceLabel : string
}.
End LoginRequest.
Module VerifyEmailRequest.
Record t := mk { Token : string }.
End VerifyEmailRequest.
Module AddressRequest.
Record t := mk {
  RecipientName : string; RecipientPhone : string; Line1 : string; Line2 : string;
  ProvinceCode : string; DistrictCode : string; WardCode : string; PostalCode : string;
  CountryCode : string; IsDefault : bool
}.
End AddressRequest.
Module ChangePasswordRequest.
Record t := mk { CurrentPassword : string; NewPassword : string }.
End ChangePasswordRequest.

(** The body decoded into a zero value of the request type. *)
Class Decoder (T : Type) := { decode_body : string -> result T }.

(** The rule of the [email] tag, and the text of the error for the fields of a
    struct that failed, each with the tag that failed first. *)
Class Validator := {
  is_email : string -> bool;
  validation_text : string -> list (string * string) -> string
}.

Inductive tag := required | email | min (n : nat) | max (n : nat).

Section Validation.
Context {V : Validator}.

(** Lengths of strings are counted in runes. *)
Definition tag_ok (v : string) (t : tag) : bool :=
  match t with
  | required => negb (String.eqb v "")
  | email => is_email v
  | min n => (n <=? length (runes v))%nat
  | max n => (length (runes v) <=? n)%nat
  end.

Definition tag_name (t : tag) : string :=
  match t with required => "required" | email => "email" | min _ => "min" | max _ => "max" end.

Fixpoint first_failing (v : string) (tags : list tag) : option tag :=
  match tags with
  | [] => None
  | t :: tags => if tag_ok v t then first_failing v tags else Some t
  end.

Definition field : Type := string * string * list tag.

Definition field_error (f : field) : option (string * string) :=
  let '(name, v, tags) := f in (fun t => (name, tag_name t)) <$> first_failing v tags.

Definition validate (struct : string) (fields : list field) : result unit :=
  match omap field_error fields with
  | [] => Ok tt
  | failed => Err (EIO (validation_text struct failed))
  end.
End Validation.

(** A request type with its [binding] tags. *)
Class Bindable (T : Type) := { struct_name : string; bind_fields : T -> list field }.

#[export] Instance RegisterRequest_tags : Bindable RegisterRequest.t := {|
  struct_name := "RegisterRequest";
  bind_fields r := [("Email", RegisterRequest.Email r, [required; email; max 255]);
    ("Password", RegisterRequest.Password r, [required; min 8; max 72]);
    ("FullName", RegisterRequest.FullName r, [required])]
|}.
#[export] Instance LoginRequest_tags : Bindable LoginRequest.t := {|
  struct_name := "LoginRequest";
  bind_fields r := [("Email", LoginRequest.Email r, [required; email]);
    ("Password", LoginRequest.Password r, [required]);
    ("DeviceFingerprint", LoginRequest.DeviceFingerprint r, [required]);
    ("DeviceLabel", LoginRequest.DeviceLabel r, [required])]
|}.
#[export] Instance VerifyEmailRequest_tags : Bindable VerifyEmailRequest.t := {|
  struct_name := "VerifyEmailRequest";
  bind_fields r := [("Token", VerifyEmailRequest.Token r, [required])]
|}.
#[export] Instance AddressRequest_tags : Bindable AddressRequest.t := {|
  struct_name := "AddressRequest";
  bind_fields r := [("RecipientName", AddressRequest.RecipientName r, [required; max 255]);
    ("RecipientPhone", AddressRequest.RecipientPhone r, [required; max 20]);
    ("Line1", AddressRequest.Line1 r, [required]);
    ("ProvinceCode", AddressRequest.ProvinceCode r, [required]);
    ("DistrictCode", AddressRequest.DistrictCode r, [required]);
    ("WardCode", AddressRequest.WardCode r, [required])]
|}.
#[export] Instance ChangePasswordRequest_tags : Bindable ChangePasswordRequest.t := {|
  struct_name := "ChangePasswordRequest";
  bind_fields r := [("CurrentPassword", ChangePasswordRequest.CurrentPassword r, [required]);
    ("NewPassword", ChangePasswordRequest.NewPassword r, [required])]
|}.

Definition ErrInvalidRequest : error := ENew "invalid request".

(** [c.ShouldBindJSON]: decode, then validate. *)
Definition ShouldBindJSON {V : Validator} {T} `{Decoder T} `{Bindable T} (c : gctx) : result T :=
  match g_body c with
  | None => Err ErrInvalidRequest
  | Some b =>
      let? r := decode_body b in
      let? _ := validate struct_name (bind_fields r) in Ok r
  end.

(** ** Interfaces of the services *)

Class AuthUseCase (S : Type) := {
  uc_Register : Ctx -> RegisterCommand.t -> M S RegisterOutput;
  uc_Login : Ctx -> LoginCommand.t -> M S LoginOutput;
  uc_RefreshToken : Ctx -> string -> M S LoginOutput;
  uc_Logout : Ctx -> LogoutCommand.t -> M S unit;
  uc_VerifyEmail : Ctx -> string -> M S unit;
  uc_ChangePassword : Ctx -> ChangePasswordCommand.t -> M S unit
}.
Class ProfileUseCase (S : Type) := {
  uc_GetMe : Ctx -> Z -> M S MeView;
  uc_ListSessions : Ctx -> Z -> M S (list SessionView);
  uc_RevokeAllSessions : Ctx -> Z -> M S unit;
  uc_ListDevices : Ctx -> Z -> M S (list DeviceView);
  uc_RevokeDevice : Ctx -> Z -> Z -> M S unit
}.
Class AddressUseCase (S : Type) := {
  uc_AddAddress : Ctx -> AddressCommand.t -> M S Z;
  uc_UpdateAddress : Ctx -> AddressCommand.t -> M S unit;
  uc_DeleteAddress : Ctx -> DeleteAddressCommand.t -> M S unit
}.
Class AddressQueryUseCase (S : Type) := {
  uc_ListAddresses : Ctx -> Z -> M S (list AddressView)
}.
(** What the middlewares need: [auth.Auth] and [ports.BlacklistPort]. *)
Class TokenValidator (S : Type) := { mw_ValidateAccessToken : string -> M S Claims.t }.
Class BlacklistPort (S : Type) := { bl_IsTokenBlacklisted : string -> M S bool }.

(** ** Middlewares: [middleware/auth_middleware.go], [middleware/strict_auth.go] *)

Definition authContextKey : string := "auth_context".

Section Middleware.
Context {S : Type}.

Definition auth_error (code message : string) (c : gctx) : gctx :=
  AbortWithStatusJSON 401
    (JObj [("error", JObj [("code", jstr code); ("message", jstr message)])]) c.

Definition auth_context_of (claims : Claims.t) : AuthContext :=
  mkAuthContext (Claims.UserID claims) (Claims.Email claims) (Claims.Role claims)
    (fst (ParseInt (Claims.DeviceID claims))) (fst (ParseInt (Claims.SessionID claims)))
    (Claims.ID claims).

Definition NewAuthMiddleware `{TokenValidator S} (next : Handler S) : Handler S := fun c s =>
  let authHeader := GetHeader c "Authorization" in
  if String.eqb authHeader "" then (s, auth_error "MISSING_TOKEN" "authorization header is required" c)
  else match SplitN2 authHeader " " with
  | [scheme; rest] =>
      if negb (EqualFold scheme "Bearer")
      then (s, auth_error "INVALID_TOKEN_FORMAT" "authorization header must be 'Bearer <token>'" c)
      else
        let '(s, x) := mw_ValidateAccessToken (TrimSpace rest) s in
        match x with
        | Err _ => (s, auth_error "INVALID_TOKEN" "token is invalid or expired" c)
        | Ok claims => next (g_Set authContextKey (AAuth (auth_context_of claims)) c) s
        end
  | _ => (s, auth_error "INVALID_TOKEN_FORMAT" "authorization header must be 'Bearer <token>'" c)
  end.

Definition GetAuthContext (c : gctx) : option AuthContext :=
  match g_keys c !! authContextKey with
  | Some (AAuth ac) => Some ac
  | _ => None
  end.

Definition NewStrictAuthMiddleware `{BlacklistPort S} (next : Handler S) : Handler S := fun c s =>
  let missing := AbortWithStatusJSON 401 (JObj [("error", jstr "Unauthorized: Missing JTI")]) c in
  match GetAuthContext c with
  | None => (s, missing)
  | Some ac =>
      if String.eqb (ac_JTI ac) "" then (s, missing)
      else
        let '(s, x) := bl_IsTokenBlacklisted (ac_JTI ac) s in
        match x with
        | Err _ => (s, AbortWithStatusJSON 500 (JObj [("error", jstr "Internal server error")]) c)
        | Ok true => (s, AbortWithStatusJSON 401 (JObj [("error", jstr "Unauthorized: Token revoked")]) c)
        | Ok false => next c s
        end
  end.
End Middleware.

(** ** Responses: [response.go] and the views as JSON

    Views have no tags, so their fields appear under their Go names; an empty
    result of a query is a nil slice. *)

Definition slice_json {A} (f : A -> json) (l : list A) : json :=
  match l with [] => JNull | _ => JArr (map f l) end.

Definition RegisterResponse_json (userID : Z) (email message : string) : json :=
  JObj [("user_id", JNum userID); ("email", jstr email); ("message", jstr message)].
(** [LoginResponse] and [RefreshTokenResponse] have the same fields. *)
Definition LoginResponse_json (accessToken : string) (expiresAt : Z) : json :=
  JObj [("access_token", jstr accessToken); ("expires_at", JTime expiresAt)].
Definition MeView_json (v : MeView) : json :=
  JObj [("UserID", JNum (me_UserID v)); ("Email", jstr (me_Email v)); ("FullName", jstr (me_FullName v));
    ("Status", jstr (me_Status v)); ("EmailVerifiedAt", jopt JTime (me_EmailVerifiedAt v));
    ("CreatedAt", JTime (me_CreatedAt v))].
Definition SessionView_json (v : SessionView) : json :=
  JObj [("ID", JNum (sv_ID v)); ("DeviceID", JNum (sv_DeviceID v)); ("IPAddress", jopt jstr (sv_IPAddress v));
    ("UserAgent", jstr (sv_UserAgent v)); ("ExpiredAt", JTime (sv_ExpiredAt v));
    ("RevokedAt", jopt JTime (sv_RevokedAt v)); ("CreatedAt", JTime (sv_CreatedAt v))].
Definition DeviceView_json (v : DeviceView) : json :=
  JObj [("ID", JNum (dv_ID v)); ("Fingerprint", jstr (dv_Fingerprint v)); ("Label", jstr (dv_Label v));
    ("FirstSeenAt", JTime (dv_FirstSeenAt v)); ("LastSeenAt", JTime (dv_LastSeenAt v));
    ("RevokedAt", jopt JTime (dv_RevokedAt v))].
Definition AddressView_json (v : AddressView) : json :=
  JObj [("ID", JNum (av_ID v)); ("RecipientName", jstr (av_RecipientName v));
    ("RecipientPhone", jstr (av_RecipientPhone v)); ("Province", jstr (av_Province v));
    ("District", jstr (av_District v)); ("Ward", jstr (av_Ward v)); ("Line1", jstr (av_Line1 v));
    ("Line2", jstr (av_Line2 v)); ("IsDefault", JBool (av_IsDefault v))].

(** ** Codes and messages: [response.go] *)

Definition RegisterSuccess : string := "REGISTER_SUCCESS".
Definition LoginSuccess : string := "LOGIN_SUCCESS".
Definition RefreshTokenSuccess : string := "REFRESH_TOKEN_SUCCESS".
Definition VerifyEmailSuccess : string := "VERIFY_EMAIL_SUCCESS".
Definition LogoutSuccess : string := "LOGOUT_SUCCESS".
Definition RevokeAllSessionsSuccess : string := "REVOKE_ALL_SESSIONS_SUCCESS".
Definition RevokeDeviceSuccess : string := "REVOKE_DEVICE_SUCCESS".
Definition ListSessionsSuccess : string := "LIST_SESSIONS_SUCCESS".
Definition ListDevicesSuccess : string := "LIST_DEVICES_SUCCESS".
Definition ListAddressesSuccess : string := "LIST_ADDRESSES_SUCCESS".
Definition AddAddressSuccess : string := "ADD_ADDRESS_SUCCESS".
Definition UpdateAddressSuccess : string := "UPDATE_ADDRESS_SUCCESS".
Definition DeleteAddressSuccess : string := "DELETE_ADDRESS_SUCCESS".
Definition ChangePasswordSuccess : string := "CHANGE_PASSWORD_SUCCESS".
Definition NotAuthenticated : string := "NOT_AUTHENTICATED".
Definition SessionRevoked : string := "SESSION_REVOKED".
Definition ValidationErr : string := "VALIDATION_ERROR".
Definition RegisterSuccessMessage : string := "Registration successful, please verify your email".
Definition LoginSuccessMessage : string := "Login successful".
Definition RefreshTokenSuccessMessage : string := "Refresh token successful".
Definition VerifyEmailSuccessMessage : string := "Verify email successful".
Definition LogoutSuccessMessage : string := "Logout successful".
Definition RevokeAllSessionsSuccessMessage : string := "Revoke all sessions successful".
Definition RevokeDeviceSuccessMessage : string := "Revoke device successful".
Definition ListSessionsSuccessMessage : string := "List sessions successful".
Definition ListDevicesSuccessMessage : string := "List devices successful".
Definition ListAddressesSuccessMessage : string := "List addresses successful".
Definition AddAddressSuccessMessage : string := "Add address successful".
Definition UpdateAddressSuccessMessage : string := "Update address successful".
Definition DeleteAddressSuccessMessage : string := "Delete address successful".
Definition MissingRefreshTokenMessage : string := "missing refresh token".
Definition MissingAuthContextMessage : string := "missing auth context".

(** ** Handlers *)

Definition RefreshTokenCookieName : string := "refresh_token".
Definition RefreshTokenCookiePath : string := "/api/v1/auth/refresh-token".
Definition RefreshTokenCookieSecure : bool := false.
Definition RefreshTokenCookieHttpOnly : bool := true.

Definition writeAuthError (err : error) (c : gctx) : gctx :=
  if Is err ErrEmailAlreadyExist
  then Error 409 "IDENTITY_EMAIL_ALREADY_EXIST" "email already exists" c
  else if Is err ErrInvalidCredentials
  then Error 401 "IDENTITY_INVALID_CREDENTIALS" "invalid email or password" c
  else if Is err ErrEmailNotVerified
  then Error 403 "IDENTITY_EMAIL_NOT_VERIFIED" "email is not verified" c
  else if Is err ErrSessionExpired
  then Error 401 "IDENTITY_SESSION_EXPIRED" "session expired" c
  else if Is err ErrSessionRevoked
  then Error 401 "IDENTITY_SESSION_REVOKED" "session revoked" c
  else if Is err ErrDeviceLimitReached
  then Error 422 "IDENTITY_DEVICE_LIMIT_REACHED" "device limit reached" c
  else Error 500 "INTERNAL_ERROR" (ErrorText err) c.

Definition writeProfileError (operation : string) (err : error) (c : gctx) : gctx :=
  if Is err ErrUserNotFound then Error 404 "USER_NOT_FOUND" "user not found" c
  else if Is err ErrDeviceNotFound then Error 404 "DEVICE_NOT_FOUND" "device not found" c
  else Error 500 operation "internal server error" c.

Definition writeAddressError (operation : string) (err : error) (c : gctx) : gctx :=
  if Is err ErrAddressNotFound then Error 404 "ADDRESS_NOT_FOUND" "address not found" c
  else Error 500 operation "internal server error" c.

Definition setCookie (refreshToken : string) (maxAge : Z) (c : gctx) : gctx :=
  SetCookie RefreshTokenCookieName refreshToken maxAge RefreshTokenCookiePath RefreshTokenCookieSecure
    RefreshTokenCookieHttpOnly c.

(** [int(time.Until(t).Seconds())] *)
Definition seconds_until (t now : Z) : Z := Z.quot (t - now) Second.

Section Handlers.
Context {S : Type} {V : Validator}.

(** [bindJSON], then the rest of the handler. *)
Definition bindJSON {T} `{Decoder T} `{Bindable T} (k : T -> Handler S) : Handler S := fun c s =>
  match ShouldBindJSON c with
  | Err err => (s, Error 422 ValidationErr (ErrorText err) c)
  | Ok req => k req c s
  end.

(** [getAuthUser], then the rest of the handler. *)
Definition getAuthUser (k : Z -> Handler S) : Handler S := fun c s =>
  match GetAuthContext c with
  | None => (s, Error 401 "UNAUTHORIZED" "missing auth context" c)
  | Some ac => k (ac_UserID ac) c s
  end.

(** A call of a service: the error goes to [fail], the value to [ok]. *)
Definition answer {A} (m : M S A) (fail : error -> gctx -> gctx) (ok : A -> gctx -> gctx) : Handler S :=
  fun c s => let '(s, x) := m s in
    match x with Err err => (s, fail err c) | Ok a => (s, ok a c) end.
End Handlers.

(** *** [auth_handler.go] *)

Module AuthHandler.
Section AuthHandler.
Context {S : Type} {CL : Clock S} {V : Validator} {UC : AuthUseCase S}.

Definition Register `{Decoder RegisterRequest.t} : Handler S := bindJSON (fun req c =>
  answer (uc_Register (g_ctx c) (RegisterCommand.mk (RegisterRequest.Email req)
            (RegisterRequest.Password req) (RegisterRequest.FullName req) (RegisterRequest.Phone req)))
    writeAuthError
    (fun out => Success 201 RegisterSuccess (Some (RegisterResponse_json (ro_UserID out) (ro_Email out)
       RegisterSuccessMessage))) c).

Definition ChangePassword `{Decoder ChangePasswordRequest.t} : Handler S := fun c s =>
  match GetAuthContext c with
  | None => (s, Error 401 "NOT_AUTHENTICATED" "missing auth context" c)
  | Some ac => bindJSON (fun req c =>
      answer (uc_ChangePassword (g_ctx c) (ChangePasswordCommand.mk (ac_UserID ac)
                (ChangePasswordRequest.CurrentPassword req) (ChangePasswordRequest.NewPassword req)
                (ac_SessionID ac)))
        writeAuthError (fun _ => Success 200 ChangePasswordSuccess None) c) c s
  end.

(** The tokens of a login or a refresh: the refresh token as a cookie, the access
    token in the body. *)
Definition issue (message : string) (out : LoginOutput) : Handler S := fun c s =>
  let '(s, now) := Now s in
  (s, Success 200 message (Some (LoginResponse_json (AccessToken out) (AccessTokenExpiresAt out)))
        (setCookie (RefreshToken_ out) (seconds_until (RefreshTokenExpiresAt out) now) c)).

Definition Login `{Decoder LoginRequest.t} : Handler S := bindJSON (fun req c s =>
  let cmd := LoginCommand.mk (LoginRequest.Email req) (LoginRequest.Password req)
               (LoginRequest.DeviceFingerprint req) (LoginRequest.DeviceLabel req) (g_ip c)
               (GetHeader c "User-Agent") in
  let '(s, x) := uc_Login (g_ctx c) cmd s in
  match x with
  | Err err => (s, writeAuthError err c)
  | Ok out => issue LoginSuccess out c s
  end).

Definition RefreshToken : Handler S := fun c s =>
  match Cookie c RefreshTokenCookieName with
  | Err _ => (s, Error 401 NotAuthenticated MissingRefreshTokenMessage c)
  | Ok refreshToken =>
      let '(s, x) := uc_RefreshToken (g_ctx c) refreshToken s in
      match x with
      | Err err => (s, writeAuthError err c)
      | Ok out => issue RefreshTokenSuccess out c s
      end
  end.

Definition Logout : Handler S := fun c s =>
  match GetAuthContext c with
  | None => (s, Error 401 NotAuthenticated MissingAuthContextMessage c)
  | Some ac =>
      answer (uc_Logout (g_ctx c) (LogoutCommand.mk (ac_DeviceID ac) (ac_UserID ac)))
        writeAuthError (fun _ => Success 200 LogoutSuccess None) c s
  end.

Definition VerifyEmail `{Decoder VerifyEmailRequest.t} : Handler S := bindJSON (fun req c =>
  answer (uc_VerifyEmail (g_ctx c) (VerifyEmailRequest.Token req))
    writeAuthError (fun _ => Success 200 VerifyEmailSuccess None) c).
End AuthHandler.
End AuthHandler.

(** *** [profile_handler.go] *)

Module ProfileHandler.
Section ProfileHandler.
Context {S : Type} {UC : ProfileUseCase S}.

Definition GetMe : Handler S := getAuthUser (fun userID c =>
  answer (uc_GetMe (g_ctx c) userID) (writeProfileError "GET_ME_FAILED")
    (fun out => Success 200 "OK" (Some (MeView_json out))) c).
Definition ListSessions : Handler S := getAuthUser (fun userID c =>
  answer (uc_ListSessions (g_ctx c) userID) (writeProfileError "LIST_SESSIONS_FAILED")
    (fun out => Success 200 "OK" (Some (slice_json SessionView_json out))) c).
Definition RevokeAllSessions : Handler S := getAuthUser (fun userID c =>
  answer (uc_RevokeAllSessions (g_ctx c) userID) (writeProfileError "REVOKE_ALL_SESSIONS_FAILED")
    (fun _ => Success 200 "OK" None) c).
Definition ListDevices : Handler S := getAuthUser (fun userID c =>
  answer (uc_ListDevices (g_ctx c) userID) (writeProfileError "LIST_DEVICES_FAILED")
    (fun out => Success 200 "OK" (Some (slice_json DeviceView_json out))) c).

Definition RevokeDevice : Handler S := getAuthUser (fun userID c s =>
  let '(deviceID, err) := ParseInt (Param c "device_id") in
  if match err with Some _ => true | None => deviceID <=? 0 end
  then (s, Error 400 "INVALID_DEVICE_ID" "device_id must be a valid integer" c)
  else answer (uc_RevokeDevice (g_ctx c) userID deviceID) (writeProfileError "REVOKE_DEVICE_FAILED")
         (fun _ => Success 200 "OK" None) c s).
End ProfileHandler.
End ProfileHandler.

(** *** [address_handler.go] *)

Module AddressHandler.
Section AddressHandler.
Context {S : Type} {V : Validator} {UC : AddressUseCase S} {QC : AddressQueryUseCase S}.
Context {DA : Decoder AddressRequest.t}.

Definition ListAddresses : Handler S := getAuthUser (fun userID c =>
  answer (uc_ListAddresses (g_ctx c) userID) (writeAddressError "LIST_ADDRESSES_FAILED")
    (fun out => Success 200 "OK" (Some (slice_json AddressView_json out))) c).

Definition command_of (id userID : Z) (req : AddressRequest.t) : AddressCommand.t :=
  AddressCommand.mk id userID (AddressRequest.RecipientName req) (AddressRequest.RecipientPhone req)
    (AddressRequest.Line1 req) (AddressRequest.Line2 req) (AddressRequest.ProvinceCode req)
    (AddressRequest.DistrictCode req) (AddressRequest.WardCode req) (AddressRequest.PostalCode req)
    (AddressRequest.CountryCode req) (AddressRequest.IsDefault req).

Definition AddAddress : Handler S := getAuthUser (fun userID => bindJSON (fun req c =>
  answer (uc_AddAddress (g_ctx c) (command_of 0 userID req)) (writeAddressError "ADD_ADDRESS_FAILED")
    (fun id => Success 201 "ADDRESS_CREATED" (Some (JObj [("id", JNum id)]))) c)).

(** The address id of the path, then the rest of the handler. *)
Definition address_id (k : Z -> Handler S) : Handler S := fun c s =>
  let '(addrID, err) := ParseInt (Param c "address_id") in
  if match err with Some _ => true | None => addrID <=? 0 end
  then (s, Error 400 "INVALID_ADDRESS_ID" "address_id must be a valid integer" c)
  else k addrID c s.

Definition UpdateAddress : Handler S := getAuthUser (fun userID => address_id (fun addrID =>
  bindJSON (fun req c =>
    answer (uc_UpdateAddress (g_ctx c) (command_of addrID userID req))
      (writeAddressError "UPDATE_ADDRESS_FAILED") (fun _ => Success 200 "ADDRESS_UPDATED" None) c))).

Definition DeleteAddress : Handler S := getAuthUser (fun userID => address_id (fun addrID c =>
  answer (uc_DeleteAddress (g_ctx c) (DeleteAddressCommand.mk addrID userID))
    (writeAddressError "DELETE_ADDRESS_FAILED") (fun _ => Success 200 "ADDRESS_DELETED" None) c)).
End AddressHandler.
End AddressHandler.

(** ** Routes: [router.go] and [bootstrap/providers.go] *)

Record route (S : Type) := mkRoute { r_method : string; r_path : string; r_handler : Handler S }.
Arguments mkRoute {S} _ _ _.
Arguments r_method {S} _.
Arguments r_path {S} _.
Arguments r_handler {S} _.

(** Segments of a pattern against segments of a path: [:name] takes any one
    segment that is not empty. *)
Fixpoint match_segments (pattern path : list string) (params : gmap string string) :
    option (gmap string string) :=
  match pattern, path with
  | [], [] => Some params
  | p :: pattern, s :: path =>
      match bytes_of p with
      | ":"%char :: name =>
          if String.eqb s "" then None
          else match_segments pattern path (<[string_of name := s]> params)
      | _ => if String.eqb p s then match_segments pattern path params else None
      end
  | _, _ => None
  end.

Definition match_path (pattern path : string) : option (gmap string string) :=
  match_segments (Split pattern "/") (Split path "/") ∅.

Definition with_params (params : gmap string string) (c : gctx) : gctx :=
  mkGctx (g_method c) (g_ip c) (g_header c) params (g_cookies c) (g_body c) (g_ctx c) (g_keys c)
         (g_w c) (g_aborted c).

(** The engine's dispatch; [not_found] is what [gin] does with other requests. *)
Fixpoint dispatch {S} (not_found : Handler S) (routes : list (route S)) (path : string) : Handler S :=
  fun c s =>
  match routes with
  | [] => not_found c s
  | r :: routes =>
      match (if String.eqb (r_method r) (g_method c) then match_path (r_path r) path else None) with
      | Some params => r_handler r (with_params params c) s
      | None => dispatch not_found routes path c s
      end
  end.

(** [ScopeResolver] of [ProvideGinEngine]: the last segment of [c.FullPath()]. *)
Definition route_scope (fullPath : string) : string :=
  "identity:" +:+ List.last (Split fullPath "/") "".

Section Routes.
Context {S : Type} {CL : Clock S} {U : Unicode} {ST : Store S} {V : Validator}.
Context {AU : AuthUseCase S} {PU : ProfileUseCase S} {DU : AddressUseCase S} {QU : AddressQueryUseCase S}.
Context {TV : TokenValidator S} {BP : BlacklistPort S}.
Context {D1 : Decoder RegisterRequest.t} {D2 : Decoder LoginRequest.t} {D3 : Decoder VerifyEmailRequest.t}
  {D4 : Decoder AddressRequest.t} {D5 : Decoder ChangePasswordRequest.t}.
Context (idem : Config).

Definition idempotencyMiddleware (fullPath : string) : Handler S -> Handler S :=
  GinMiddleware idem (mkMiddlewareConfig "Idempotency-Key" (Some (fun _ => route_scope fullPath)) None).

(** One route of a group: its full path is known to the middlewares. *)
Definition handle (method group path : string) (h : string -> Handler S) : route S :=
  mkRoute method (group +:+ path) (h (group +:+ path)).

Definition auth_routes : list (route S) :=
  let auth := "/api/v1/auth" in
  [ handle "POST" auth "/register" (fun p => idempotencyMiddleware p AuthHandler.Register);
    handle "POST" auth "/login" (fun p => idempotencyMiddleware p AuthHandler.Login);
    handle "POST" auth "/refresh-token"
      (fun p => NewAuthMiddleware (idempotencyMiddleware p AuthHandler.RefreshToken));
    handle "POST" auth "/verify-email" (fun p => idempotencyMiddleware p AuthHandler.VerifyEmail);
    handle "POST" auth "/logout" (fun p => NewAuthMiddleware (idempotencyMiddleware p AuthHandler.Logout)) ].

Definition me_routes : list (route S) :=
  let me method path h := handle method "/api/v1/me" path (fun p => NewAuthMiddleware (h p)) in
  [ me "GET" "" (fun _ => ProfileHandler.GetMe);
    me "GET" "/sessions" (fun _ => ProfileHandler.ListSessions);
    me "DELETE" "/sessions" (fun _ => ProfileHandler.RevokeAllSessions);
    me "POST" "/change-password"
      (fun p => NewStrictAuthMiddleware (idempotencyMiddleware p AuthHandler.ChangePassword));
    me "GET" "/devices" (fun _ => ProfileHandler.ListDevices);
    me "DELETE" "/devices/:deviceId" (fun _ => ProfileHandler.RevokeDevice);
    me "GET" "/addresses" (fun _ => AddressHandler.ListAddresses);
    me "POST" "/addresses" (fun _ => AddressHandler.AddAddress);
    me "PATCH" "/addresses/:addressId" (fun _ => AddressHandler.UpdateAddress);
    me "DELETE" "/addresses/:addressId" (fun _ => AddressHandler.DeleteAddress) ].

Definition RegisterRoutes : list (route S) := auth_routes ++ me_routes.
End Routes.

(** ** The program: services behind the interfaces *)

Section Program.
Context {E : Env} {R : Type} {RC : RedisClient R} {RD : Rand} {U : Unicode} {MP : MailParser}.
Context {JW : JWT} {BC : Bcrypt} {V : Validator}.
Context {D1 : Decoder RegisterRequest.t} {D2 : Decoder LoginRequest.t} {D3 : Decoder VerifyEmailRequest.t}
  {D4 : Decoder AddressRequest.t} {D5 : Decoder ChangePasswordRequest.t}.
Context (s : AuthService).

Definition auth_use_case : AuthUseCase (World R) := {|
  uc_Register := Register s; uc_Login := Login s; uc_RefreshToken := RefreshToken s;
  uc_Logout := Logout; uc_VerifyEmail := VerifyEmail; uc_ChangePassword := ChangePassword s
|}.
Definition profile_use_case : ProfileUseCase (World R) := {|
  uc_GetMe := GetMe; uc_ListSessions := ListSessions; uc_RevokeAllSessions := RevokeAllSessions;
  uc_ListDevices := ListDevices; uc_RevokeDevice := RevokeDevice (txManager s)
|}.
Definition address_use_case : AddressUseCase (World R) := {|
  uc_AddAddress := AddAddress (txManager s); uc_UpdateAddress := UpdateAddress (txManager s);
  uc_DeleteAddress := DeleteAddress
|}.
Definition address_query : AddressQueryUseCase (World R) := {| uc_ListAddresses := ListAddresses |}.
Definition token_validator : TokenValidator (World R) := {|
  mw_ValidateAccessToken := ValidateAccessToken (authManager s)
|}.
Definition blacklist : BlacklistPort (World R) := {| bl_IsTokenBlacklisted := IsTokenBlacklisted |}.

Definition routes (idem : Config) : list (route (World R)) :=
  RegisterRoutes (AU := auth_use_case) (PU := profile_use_case) (DU := address_use_case)
    (QU := address_query) (TV := token_validator) (BP := blacklist) idem.

(** [ProvideGinEngine]: a request with the given path. *)
Definition ProvideGinEngine (cors : CORSConfig.t) (rate : RateLimitConfig.t) (idem : Config)
    (not_found : Handler (World R)) (path : string) : Handler (World R) :=
  NewRouter cors rate (dispatch not_found (routes idem) path).
End Program.
