(* ===== verification/HttpSpec.v ===== *)
(** * Properties of the HTTP interface

    Who may call what, how the tokens travel between the handlers and the client,
    how errors are answered, and the composition of the idempotency layer with the
    routes. *)

From Stdlib Require Import ZArith NArith String Ascii Lia.
From stdpp Require Import base strings list gmap.
From S2P Require Import Prelude GoStrings Config Crypto Json Domain Gin RedisClient Idempotency Schema.
From S2P Require Import Database Httpx Sql Kafka Outbox IdentityAdapters IdentityRepos.
From S2P Require Import IdentityServices IdentitySpec IdentityHttp.

Local Open Scope Z_scope.

(** ** Authentication of the routes *)

Section Auth.
Context {S : Type} {TV : TokenValidator S}.

(** The token a request presents. *)
Definition bearer (c : gctx) : option string :=
  match SplitN2 (GetHeader c "Authorization") " " with
  | [scheme; rest] => if EqualFold scheme "Bearer" then Some (TrimSpace rest) else None
  | _ => None
  end.

(** The middleware in terms of the presented token. *)
Lemma NewAuthMiddleware_bearer next c s :
  NewAuthMiddleware next c s =
  match bearer c with
  | None => (s, if String.eqb (GetHeader c "Authorization") ""
                then auth_error "MISSING_TOKEN" "authorization header is required" c
                else auth_error "INVALID_TOKEN_FORMAT" "authorization header must be 'Bearer <token>'" c)
  | Some t =>
      let '(s, x) := mw_ValidateAccessToken t s in
      match x with
      | Err _ => (s, auth_error "INVALID_TOKEN" "token is invalid or expired" c)
      | Ok claims => next (g_Set authContextKey (AAuth (auth_context_of claims)) c) s
      end
  end.
Proof.
  unfold NewAuthMiddleware, bearer.
  destruct (String.eqb_spec (GetHeader c "Authorization") "") as [->|]; [done|].
  destruct (SplitN2 _ _) as [|a [|b [|]]]; try done. by destruct (EqualFold a "Bearer").
Qed.

Lemma auth_error_response code message c :
  w_written (g_w c) = false ->
  g_aborted (auth_error code message c) = true /\ w_status (g_w (auth_error code message c)) = 401.
Proof. intros Hw. split; [done|]. by apply render_fresh. Qed.
End Auth.

Section Protected.
Context {E : Env} {R : Type} {RC : RedisClient R} {RD : Rand} {U : Unicode} {MP : MailParser}.
Context {JW : JWT} {BC : Bcrypt} {V : Validator}.
Context {D1 : Decoder RegisterRequest.t} {D2 : Decoder LoginRequest.t} {D3 : Decoder VerifyEmailRequest.t}
  {D4 : Decoder AddressRequest.t} {D5 : Decoder ChangePasswordRequest.t}.
Context (s : AuthService) (idem : Config).

Definition public_paths : list string :=
  ["/api/v1/auth/register"; "/api/v1/auth/login"; "/api/v1/auth/verify-email"].

Lemma protected_middleware (r : route (World R)) :
  r ∈ routes s idem -> r_path r ∉ public_paths ->
  exists next, r_handler r = @NewAuthMiddleware _ (token_validator s) next.
Proof.
  revert r. refine (proj1 (Forall_forall (fun r => _ -> _) _) _).
  unfold routes, RegisterRoutes, auth_routes, me_routes. simpl.
  repeat (constructor; [first [by eexists|intros []; by apply (bool_decide_unpack _)]|]). constructor.
Qed.

Lemma ValidateAccessToken_db a t : keeps (w_db (R:=R)) (ValidateAccessToken a t).
Proof. go_world. Qed.
Lemma ValidateAccessToken_redis a t : keeps (w_redis (R:=R)) (ValidateAccessToken a t).
Proof. go_world. Qed.

(** C15: Every route but registration, login and e-mail verification requires a valid
    access token: a request that presents none, or one that does not validate, is
    answered 401 and aborted, and neither the database nor Redis is touched. *)
Theorem protected_routes_need_token r c w w' c' :
  r ∈ routes s idem -> r_path r ∉ public_paths -> w_written (g_w c) = false ->
  (forall t, bearer c = Some t -> isOk (snd (ValidateAccessToken (authManager s) t w)) = false) ->
  r_handler r c w = (w', c') ->
  w_db w' = w_db w /\ w_redis w' = w_redis w /\ g_aborted c' = true /\ w_status (g_w c') = 401.
Proof.
  intros Hr Hp Hw Hv. destruct (protected_middleware r Hr Hp) as [next ->].
  rewrite NewAuthMiddleware_bearer. destruct (bearer c) as [t|].
  - specialize (Hv t eq_refl). simpl.
    assert (H1 := ValidateAccessToken_db (authManager s) t w).
    assert (H2 := ValidateAccessToken_redis (authManager s) t w).
    destruct (ValidateAccessToken (authManager s) t w) as [w1 [claims|e]]; [done|].
    intros [= <- <-]. split; [done|]. split; [done|]. by apply auth_error_response.
  - intros [= <- <-]. split; [done|]. split; [done|]. by case_match; apply auth_error_response.
Qed.

(** ** Routes with a parameter *)

(** A parameter that the pattern does not name is not bound. *)
Lemma match_segments_unbound pattern path ps params k :
  match_segments pattern path ps = Some params -> ps !! k = None -> String ":" k ∉ pattern ->
  params !! k = None.
Proof.
  revert path ps. induction pattern as [|p pattern IH]; intros [|x path] ps; simpl; try done.
  { by intros [= <-]. }
  intros Hm Hk Hn. apply not_elem_of_cons in Hn as [Hp Hn].
  destruct (bytes_of p) as [|c name] eqn:Ep; [case_match; [by eapply IH|done]|].
  destruct (Ascii.eqb_spec c ":") as [->|Hc].
  - destruct (String.eqb x ""); [done|]. eapply IH; [exact Hm| |done].
    rewrite lookup_insert_ne; [done|]. intros <-. apply Hp. rewrite <- (string_of_bytes_of p), Ep. done.
  - assert (Hd : (if String.eqb p x then match_segments pattern path ps else None) = Some params)
      by (destruct c as [[] [] [] [] [] [] [] []]; try exact Hm; by destruct Hc).
    case_match; [by eapply IH|done].
Qed.

(** The routes whose handlers read the parameter under another name. *)
Definition id_paths : list string := ["/api/v1/me/devices/:deviceId"; "/api/v1/me/addresses/:addressId"].

Lemma id_path_params r path params k :
  r ∈ id_paths -> k ∈ ["device_id"; "address_id"] -> match_path r path = Some params -> params !! k = None.
Proof.
  intros Hr Hk Hm. eapply match_segments_unbound; [exact Hm|done|].
  apply (bool_decide_unpack _). unfold id_paths in Hr. set_unfold in Hr. set_unfold in Hk.
  destruct Hr as [->|[->|[]]], Hk as [->|[->|[]]]; vm_compute; exact I.
Qed.

(** The handlers of these routes, past the bearer middleware. *)
Lemma id_route_handler (r : route (World R)) :
  r ∈ routes s idem -> r_path r ∈ id_paths ->
  exists next k msg, r_handler r = @NewAuthMiddleware _ (token_validator s) next /\
    forall ac c w, Param c "device_id" = "" -> Param c "address_id" = "" ->
      next (g_Set authContextKey (AAuth ac) c) w = (w, Error 400 k msg (g_Set authContextKey (AAuth ac) c)).
Proof.
  revert r. refine (proj1 (Forall_forall (fun r => _ -> _) _) _).
  unfold routes, RegisterRoutes, auth_routes, me_routes. simpl.
  repeat (constructor; [first
    [ intros Hp; exfalso; revert Hp; apply (bool_decide_unpack _); vm_compute; exact I
    | intros _; do 3 eexists; split; [reflexivity|]; intros ac c w Hd Ha;
      unfold ProfileHandler.RevokeDevice, AddressHandler.UpdateAddress, AddressHandler.DeleteAddress,
        getAuthUser, AddressHandler.address_id, GetAuthContext; simpl; rewrite lookup_insert_eq;
      unfold Param in *; simpl; rewrite ?Hd, ?Ha; reflexivity ]|]). constructor.
Qed.

(** C40: The routes that name a device or an address cannot be used: whatever path
    matches and whatever valid token is presented, the request is answered 400
    (401 without a token) and the database stays as it is, because the handlers
    read the path parameter under a name the route does not bind. *)
Theorem id_routes_always_400 r path params c w w' c' :
  r ∈ routes s idem -> r_path r ∈ id_paths -> match_path (r_path r) path = Some params ->
  w_written (g_w c) = false -> r_handler r (with_params params c) w = (w', c') ->
  w_db w' = w_db w /\ (w_status (g_w c') = 400 \/ w_status (g_w c') = 401).
Proof.
  intros Hr Hi Hm Hw. assert (Hd := id_path_params _ _ _ "device_id" Hi ltac:(set_solver) Hm).
  assert (Ha := id_path_params _ _ _ "address_id" Hi ltac:(set_solver) Hm).
  destruct (id_route_handler r Hr Hi) as (next & k & msg & -> & Hn).
  rewrite NewAuthMiddleware_bearer. destruct (bearer _) as [tok|].
  - simpl. assert (H1 := ValidateAccessToken_db (authManager s) tok w).
    destruct (ValidateAccessToken (authManager s) tok w) as [w1 [claims|e]]; simpl in H1.
    + rewrite Hn by (unfold Param; simpl; by rewrite ?Hd, ?Ha). intros [= <- <-]. split; [done|left].
      by apply render_fresh.
    + intros [= <- <-]. split; [done|right]. by apply auth_error_response.
  - intros [= <- <-]. split; [done|right]. by case_match; apply auth_error_response.
Qed.
End Protected.

(** ** The blacklist *)

Section Strict.
Context {E : Env} {R : Type} {RC : RedisClient R} {RV : RedisView R} {RL : RedisLaws R}.

Definition blacklist_key (jti : string) : string := "blacklist:access_token:" +:+ jti.

Lemma IsTokenBlacklisted_inv jti (w w' : World R) x :
  IsTokenBlacklisted jti w = (w', x) -> w_db w' = w_db w /\
  match x with
  | Ok b => b = bool_decide (is_Some (rd_abs (w_redis w) !! blacklist_key jti))
  | Err _ => True
  end.
Proof.
  unfold IsTokenBlacklisted. intros [(w1 & n & Hn & Hx)|(e & Hn & ->)]%bindM_out;
    apply redisM_world in Hn as (r & Hn & ->); [|done].
  unfold retM in Hx. simplify_eq. split; [done|]. apply rdb_Exists_ok in Hn as [_ Hn].
  fold (blacklist_key jti) in Hn. destruct (Z.ltb_spec 0 n).
  - by rewrite bool_decide_eq_true_2 by (by apply Hn).
  - rewrite bool_decide_eq_false_2; [done|]. intros Hs%Hn. lia.
Qed.

(** The two ways through the strict middleware. *)
Definition passed (next : Handler (World R)) (c : gctx) (w w' : World R) (c' : gctx) : Prop :=
  exists ac w1, GetAuthContext c = Some ac /\ ac_JTI ac <> "" /\
    IsTokenBlacklisted (ac_JTI ac) w = (w1, Ok false) /\
    rd_abs (w_redis w) !! blacklist_key (ac_JTI ac) = None /\ next c w1 = (w', c').
Definition refused (w w' : World R) (c' : gctx) : Prop :=
  w_db w' = w_db w /\ g_aborted c' = true /\ (w_status (g_w c') = 401 \/ w_status (g_w c') = 500).

Lemma refused_with w w' code j c :
  w_written (g_w c) = false -> w_db w' = w_db w -> code = 401 \/ code = 500 ->
  refused w w' (AbortWithStatusJSON code j c).
Proof.
  intros Hw Hdb Hc. split; [done|]. split; [done|].
  destruct Hc as [->| ->]; [left|right]; by apply render_fresh.
Qed.

Lemma strict_cases next c (w w' : World R) c' :
  w_written (g_w c) = false -> @NewStrictAuthMiddleware _ blacklist next c w = (w', c') ->
  passed next c w w' c' \/ refused w w' c'.
Proof.
  intros Hw. unfold NewStrictAuthMiddleware.
  destruct (GetAuthContext c) as [ac|] eqn:Eac; [|intros [= <- <-]; right; apply refused_with; auto].
  destruct (String.eqb_spec (ac_JTI ac) "") as [He|He]; [intros [= <- <-]; right; apply refused_with; auto|].
  simpl. destruct (IsTokenBlacklisted (ac_JTI ac) w) as [w1 x] eqn:Eb.
  destruct (IsTokenBlacklisted_inv _ _ _ _ Eb) as [Hdb Hx]. destruct x as [[]|e].
  - intros [= <- <-]. right. apply refused_with; auto.
  - intros Hn. left. exists ac, w1. split_and!; try done.
    symmetry in Hx. apply bool_decide_eq_false in Hx. by apply eq_None_not_Some.
  - intros [= <- <-]. right. apply refused_with; auto.
Qed.

(** C35: The strict middleware fails closed. The rest of the chain runs only for an
    authenticated request whose token id Redis has answered for and does not list;
    in every other case (no token id, a listed one, a Redis that does not answer)
    the request is answered 401 or 500, aborted, and the database is unchanged. In
    particular, once [AddToBlacklist] has succeeded and until its time is over, no
    request with that token id passes. *)
Theorem strict_auth_fail_closed next c (w w' : World R) c' :
  w_written (g_w c) = false -> @NewStrictAuthMiddleware _ blacklist next c w = (w', c') ->
  (passed next c w w' c' \/ refused w w' c') /\
  forall ac ttl d w0 w1, GetAuthContext c = Some ac -> 0 < ttl -> 0 <= d < ms_ttl ttl ->
    AddToBlacklist (ac_JTI ac) ttl w0 = (w1, Ok tt) -> w = set_rd (rd_elapse d (w_redis w1)) w1 ->
    refused w w' c'.
Proof.
  intros Hw H. assert (Hc := strict_cases _ _ _ _ _ Hw H). split; [done|].
  intros ac ttl d w0 w1 Hac Ht Hd Ha ->. destruct Hc as [(ac' & w2 & Hac' & _ & _ & Hno & _)|Hc]; [|done].
  exfalso. rewrite Hac in Hac'. injection Hac' as <-. apply redisM_world in Ha as (r & Ha & ->).
  apply rdb_Set_ok in Ha. fold (blacklist_key (ac_JTI ac)) in Ha. simpl in Hno.
  rewrite rd_time, Ha in Hno by lia. unfold set_ttl in Hno. rewrite (proj2 (Z.ltb_lt 0 ttl) Ht) in Hno.
  erewrite elapse_lookup_live in Hno; [done|apply lookup_insert_eq|lia].
Qed.
End Strict.

(** ** Errors *)

Definition is_leaf (e : error) : bool := match e with EWrap _ _ _ => false | _ => true end.

(** An error wraps at most one sentinel. *)
Lemma Is_other err e1 e2 :
  Is err e1 = true -> is_leaf e1 && is_leaf e2 && bool_decide (e1 <> e2) = true -> Is err e2 = false.
Proof.
  intros H1 [[L1 L2]%andb_true_iff Hne%bool_decide_eq_true]%andb_true_iff. apply not_true_iff_false. intros H2. revert H1 H2.
  induction err as [| |pre inner IH post| |]; simpl; repeat case_decide; try congruence; by subst.
Qed.

Definition auth_statuses : list (error * Z) :=
  [(ErrEmailAlreadyExist, 409); (ErrInvalidCredentials, 401); (ErrEmailNotVerified, 403);
   (ErrSessionExpired, 401); (ErrSessionRevoked, 401); (ErrDeviceLimitReached, 422)].

Lemma Error_status code m e c :
  0 < code -> bodyAllowedForStatus code = true -> w_written (g_w c) = false ->
  w_status (g_w (Error code m e c)) = code.
Proof. intros. by apply render_fresh. Qed.

(** Errors of the authentication services are answered by what they wrap: an
    error that is or wraps one of the six listed domain errors is answered with
    that error's status, whichever it is; every other error is answered 500 with
    its own text in the body. *)
Theorem auth_errors_mapped err c :
  w_written (g_w c) = false ->
  (forall e code, (e, code) ∈ auth_statuses -> Is err e = true -> w_status (g_w (writeAuthError err c)) = code) /\
  ((forall e code, (e, code) ∈ auth_statuses -> Is err e = false) ->
   writeAuthError err c = Error 500 "INTERNAL_ERROR" (ErrorText err) c).
Proof.
  intros Hw. split.
  - intros e code Hin Hi. unfold auth_statuses in Hin. set_unfold in Hin.
    repeat destruct Hin as [Hin|Hin]; try done; injection Hin as -> ->; unfold writeAuthError;
      repeat match goal with |- context [Is err ?x] =>
        first [rewrite Hi | rewrite (Is_other err _ x Hi eq_refl)] end;
      by apply Error_status.
  - intros Hno. unfold writeAuthError.
    by rewrite (Hno ErrEmailAlreadyExist 409), (Hno ErrInvalidCredentials 401), (Hno ErrEmailNotVerified 403),
      (Hno ErrSessionExpired 401), (Hno ErrSessionRevoked 401), (Hno ErrDeviceLimitReached 422)
      by (unfold auth_statuses; set_solver).
Qed.

(** ** Tokens between the handlers and the client *)

Lemma Success_status code m d c :
  0 < code -> bodyAllowedForStatus code = true -> w_written (g_w c) = false ->
  w_status (g_w (Success code m d c)) = code.
Proof. intros. by apply render_fresh. Qed.
Lemma Success_header code m d c k :
  k <> "Content-Type" -> w_header (g_w (Success code m d c)) !! k = w_header (g_w c) !! k.
Proof. intros. by apply render_header_other. Qed.

Section Cookies.
Context {S : Type} {CL : Clock S} {V : Validator} {UC : AuthUseCase S}.

(** The refresh token reaches the service again as it was issued. A successful
    login answers 200 with exactly one [Set-Cookie] header, for the refresh path,
    not readable by scripts; a client that sends the cookie's value back to the
    refresh handler has the service called with the issued token, byte for byte. *)
Theorem refresh_cookie_roundtrip `{Decoder LoginRequest.t} req c c2 s s1 s2 out :
  ShouldBindJSON c = Ok req ->
  w_written (g_w c) = false -> w_header (g_w c) !! "Set-Cookie" = None ->
  uc_Login (g_ctx c) (LoginCommand.mk (LoginRequest.Email req) (LoginRequest.Password req)
    (LoginRequest.DeviceFingerprint req) (LoginRequest.DeviceLabel req) (g_ip c)
    (GetHeader c "User-Agent")) s = (s1, Ok out) ->
  find_cookie RefreshTokenCookieName (g_cookies c2) = Some (QueryEscape (RefreshToken_ out)) ->
  (exists age, let c' := snd (AuthHandler.Login c s) in
     w_status (g_w c') = 200 /\
     w_header (g_w c') !! "Set-Cookie" = Some [cookie_string "refresh_token" (RefreshToken_ out) age
       "/api/v1/auth/refresh-token" false true]) /\
  (forall e, uc_RefreshToken (g_ctx c2) (RefreshToken_ out) s1 = (s2, Err e) ->
     AuthHandler.RefreshToken c2 s1 = (s2, writeAuthError e c2)) /\
  (forall out2, uc_RefreshToken (g_ctx c2) (RefreshToken_ out) s1 = (s2, Ok out2) ->
     AuthHandler.RefreshToken c2 s1 = AuthHandler.issue RefreshTokenSuccess out2 c2 s2).
Proof.
  intros Hb Hw Hh Hl Hck. split; [|split].
  - unfold AuthHandler.Login, bindJSON. rewrite Hb, Hl. unfold AuthHandler.issue.
    destruct (Now s1) as [s3 now]. eexists. cbn [snd]. split; [by apply Success_status|].
    rewrite Success_header by done. simpl. unfold header_Add.
    change (CanonicalKey "Set-Cookie") with "Set-Cookie". rewrite lookup_insert_eq, Hh. reflexivity.
  - intros e He. unfold AuthHandler.RefreshToken, Cookie. rewrite Hck, QueryUnescape_QueryEscape. simpl.
    by rewrite He.
  - intros out2 Ho. unfold AuthHandler.RefreshToken, Cookie. rewrite Hck, QueryUnescape_QueryEscape. simpl.
    by rewrite Ho.
Qed.
End Cookies.

Lemma clean_ascii s : is_ascii s = true -> clean s = true.
Proof. intros H. unfold clean. by apply String.eqb_eq, utf8_clean_ascii. Qed.

Lemma EqualFold_refl s : EqualFold s s = true.
Proof. apply bool_decide_eq_true. done. Qed.

Lemma cut_bytes_prefix sep p l acc :
  sep ∉ p -> cut_bytes sep (p ++ sep :: l) acc = Some (rev acc ++ p, l).
Proof.
  revert acc. induction p as [|c p IH]; intros acc Hp; simpl.
  - by rewrite Ascii.eqb_refl, app_nil_r.
  - apply not_elem_of_cons in Hp as [Hc Hp]. destruct (Ascii.eqb_spec c sep); [congruence|].
    rewrite IH by done. simpl. by rewrite <- app_assoc.
Qed.

Lemma SplitN2_cut a b sep : sep ∉ bytes_of a -> SplitN2 (a +:+ String sep b) sep = [a; b].
Proof.
  intros Hn. unfold SplitN2. rewrite bytes_of_app. simpl. rewrite cut_bytes_prefix by done. simpl.
  by rewrite !string_of_bytes_of.
Qed.

Lemma bearer_header c t :
  GetHeader c "Authorization" = "Bearer " +:+ t -> TrimSpace t = t -> bearer c = Some t.
Proof.
  intros Hh Ht. unfold bearer. rewrite Hh. change ("Bearer " +:+ t) with ("Bearer" +:+ String " " t).
  rewrite SplitN2_cut by (by apply (bool_decide_unpack _)). rewrite EqualFold_refl. by rewrite Ht.
Qed.

Section LoginToken.
Context {E : Env} {R : Type} {RC : RedisClient R} {RD : Rand} {U : Unicode} {MP : MailParser}.
Context {JW : JWT} {JL : JwtLaws} {BC : Bcrypt}.

(** C17: The access token of a login authenticates its user. After a successful
    [Login], a request that carries the returned token as a bearer token before
    its expiry reaches the next handler with the id of the account the password
    was checked for, and with the ids of the session and the device that the login
    stored. *)
Theorem login_token_authenticates s ctx cmd (w w' v : World R) out next c :
  is_ascii (LoginCommand.Email cmd) = true ->
  (forall u, u ∈ users (cur_db ctx w) -> clean (Users.user_type u) = true) ->
  (forall n, clean (env_uuid n) = true) ->
  (forall r, r ∈ user_sessions (cur_db ctx w') ->
     is_int64 (Sessions.id r) = true /\ is_int64 (Sessions.device_id r) = true) ->
  Login s ctx cmd w = (w', Ok out) ->
  GetHeader c "Authorization" = "Bearer " +:+ AccessToken out ->
  TrimSpace (AccessToken out) = AccessToken out ->
  env_clock (w_ticks v) < NewNumericDate (AccessTokenExpiresAt out) ->
  exists email u r jti, NewEmail (LoginCommand.Email cmd) = Ok email /\
    authenticated (cur_db ctx w) (Email.value email) (LoginCommand.Password cmd) u /\
    r ∈ user_sessions (cur_db ctx w') /\ Sessions.user_id r = Users.id u /\
    Sessions.refresh_token_hash r = HashToken (RefreshToken_ out) /\
    @NewAuthMiddleware _ (token_validator s) next c v =
      next (g_Set authContextKey (AAuth (mkAuthContext (Users.id u) (Users.email u) (Users.user_type u)
        (Sessions.device_id r) (Sessions.id r) jti)) c) (tick_clock v).
Proof.
  intros Ha Hty Huu Hi Hl Hh Ht Hv.
  apply Login_inv in Hl as (email & user & u & r & He & Hau & Hrow & (Hr & Hu & Hrt & _) & wa & wb & Hg).
  assert (Hau' := Hau). destruct Hau' as (_ & Hin & Hem & _).
  destruct Hrow as (_ & Hut & _ & _ & Hue). rewrite Hem, (NewEmail_stable _ _ Ha He) in Hue. injection Hue as Hue.
  destruct (Hi r Hr) as [Hi1 Hi2]. apply GenerateAccessToken_inv in Hg as [issued Hs].
  exists email, u, r, (env_uuid (w_uuids wa)). split_and!; try done.
  rewrite NewAuthMiddleware_bearer, (bearer_header _ _ Hh Ht). simpl.
  erewrite ValidateAccessToken_signed; [|exact Hs| |done|by intros e [= <-]].
  - simpl. unfold auth_context_of. simpl. by rewrite !ParseInt_FormatInt, <- Hue, <- Hem, <- Hut by done.
  - unfold claims_clean. simpl. rewrite Hut, Hty, Huu, !(clean_ascii (FormatInt _)) by (done || apply FormatInt_ascii).
    rewrite clean_ascii; [done|]. rewrite <- Hue, (NewEmail_value _ _ He). by apply ToLower_TrimSpace_idem.
Qed.
End LoginToken.

(** ** Idempotent routes *)

Section Keyed.
Context {E : Env} {R : Type} {RC : RedisClient R} {RV : RedisView R} {RL : RedisLaws R} {RD : Rand}.
Context {U : Unicode} {MP : MailParser} {JW : JWT} {BC : Bcrypt} {V : Validator}.
Context {D1 : Decoder RegisterRequest.t} {D2 : Decoder LoginRequest.t} {D3 : Decoder VerifyEmailRequest.t}
  {D4 : Decoder AddressRequest.t} {D5 : Decoder ChangePasswordRequest.t}.
Context (s : AuthService) (idem : Config).

Lemma public_middleware (r : route (World R)) :
  r ∈ routes s idem -> r_path r ∈ public_paths ->
  exists h, r_handler r = idempotencyMiddleware idem (r_path r) h.
Proof.
  revert r. refine (proj1 (Forall_forall (fun r => _ -> _) _) _).
  unfold routes, RegisterRoutes, auth_routes, me_routes. simpl.
  repeat (constructor; [first [by eexists|intros Hp; exfalso; revert Hp; by apply (bool_decide_unpack _)]|]).
  constructor.
Qed.

Lemma Reserve_db rec ttl : keeps (w_db (R:=R)) (Reserve rec ttl).
Proof. by apply redisM_db. Qed.
Hint Resolve Reserve_db : go.

Lemma world_clock_frame (w : World R) : st_view (fst (Now w)) = st_view w.
Proof. done. Qed.

Lemma public_scope_ascii p : p ∈ public_paths -> is_ascii (route_scope p) = true.
Proof. revert p. apply Forall_forall. by repeat constructor. Qed.

(** While Redis has a record for a client's key, whether in progress or
    completed, a registration, login or verification request with that key is
    answered without running its handler: the database is unchanged and the
    request is aborted with the recorded answer, a conflict or a store error. *)
Theorem keyed_request_not_repeated r c w w' c' rec t :
  r ∈ routes s idem -> r_path r ∈ public_paths ->
  TrimSpace (GetHeader c "Idempotency-Key") <> "" ->
  st_view w !! BuildKey (route_scope (r_path r)) (GetHeader c "Idempotency-Key") = Some (rec, t) ->
  r_handler r c w = (w', c') -> w_db w' = w_db w /\ g_aborted c' = true.
Proof.
  intros Hr Hp Hk Hv. destruct (public_middleware r Hr Hp) as [h ->]. unfold idempotencyMiddleware.
  set (cfg := mkMiddlewareConfig _ _ _). intros H.
  destruct (mw_reserve idem cfg c w) as [w1 x] eqn:Er.
  rewrite (GinMiddleware_existing world_clock_frame idem cfg h c w rec t w1 x eq_refl
    (public_scope_ascii _ Hp) Hk Hv Er) in H. injection H as <- <-. split.
  - unfold mw_reserve in Er. frame (w_db (R:=R)) Er. done.
  - destruct x; [unfold Idempotency.answer; by repeat case_match; simplify_eq|done].
Qed.
End Keyed.

(** ** Cross-origin requests and the second bearer middleware *)

Section Cors.
Context {S : Type}.

(** What a preflight answer allows. *)
Definition allowed_by (name value : string) (c : gctx) : bool :=
  existsb (String.eqb value) (Split (header_Get (w_header (g_w c)) name) ",").

Lemma cors_headers_get cfg origin c :
  header_Get (w_header (g_w (cors_headers cfg origin c))) "Access-Control-Allow-Methods" =
    Join (CORSConfig.AllowedMethods cfg) "," /\
  header_Get (w_header (g_w (cors_headers cfg origin c))) "Access-Control-Allow-Headers" =
    Join (CORSConfig.AllowedHeaders cfg) ",".
Proof.
  unfold cors_headers, header_Get, header_Set. cbn [g_w with_w set_header w_header]. split.
  - by rewrite !lookup_insert_ne, lookup_insert_eq by (by vm_compute).
  - by rewrite lookup_insert_ne, lookup_insert_eq by (by vm_compute).
Qed.

Lemma AbortWithStatus_response code c :
  w_written (g_w c) = false -> 0 < code ->
  w_status (g_w (AbortWithStatus code c)) = code /\
  w_header (g_w (AbortWithStatus code c)) = w_header (g_w c).
Proof.
  intros Hw Hc. unfold AbortWithStatus, WriteHeaderNow, WriteHeader. simpl.
  rewrite Hw, (proj2 (Z.ltb_lt 0 code) Hc). destruct (Z.eqb_spec (w_status (g_w c)) code); by simpl.
Qed.

(** Preflight requests. For a listed origin the answer to [OPTIONS] is 204, ends
    there, and allows the configured methods and headers; under the configuration
    of the program these leave out the header [Idempotency-Key] and the method
    [PATCH], which routes of the program require. *)
Theorem preflight_refuses_clients (next : Handler S) c s :
  let origin := GetHeader c "Origin" in
  origin ∈ CORSConfig.AllowedOrigins loadCORSConfig -> g_method c = "OPTIONS" ->
  w_written (g_w c) = false ->
  exists c', CORSMiddleware loadCORSConfig next c s = (s, c') /\
    w_status (g_w c') = 204 /\ g_aborted c' = true /\
    allowed_by "Access-Control-Allow-Methods" "POST" c' = true /\
    allowed_by "Access-Control-Allow-Headers" "Authorization" c' = true /\
    allowed_by "Access-Control-Allow-Headers" "Idempotency-Key" c' = false /\
    allowed_by "Access-Control-Allow-Methods" "PATCH" c' = false.
Proof.
  intros origin Ho Hm Hw. unfold CORSMiddleware. fold origin.
  assert (Hl : existsb (fun a => String.eqb (TrimSpace a) origin) (CORSConfig.AllowedOrigins loadCORSConfig) = true
    /\ String.eqb origin "" = false).
  { set_unfold in Ho. destruct Ho as [->|[->|[]]]; by vm_compute. }
  destruct Hl as [-> ->]. change (g_method (cors_headers loadCORSConfig origin c)) with (g_method c). rewrite Hm.
  eexists. split; [reflexivity|].
  destruct (cors_headers_get loadCORSConfig origin c) as [H1 H2].
  destruct (AbortWithStatus_response 204 (cors_headers loadCORSConfig origin c) Hw eq_refl) as [H3 H4].
  unfold allowed_by. rewrite H3, H4, H1, H2. by split_and!.
Qed.
End Cors.

(** Documented behaviour of [jwt.MapClaims]: the claims of a valid token as the JSON
    object they were signed as. *)
Class MapJwtLaws `{JWT} `{MapJWT} : Prop := {
  map_parse_claims secret now t c : jwt_parse secret now t = Ok c ->
    exists m, map_parse secret now t = Ok (m, true) /\ m !! "user_id" = Some (JNum (Claims.UserID c))
}.

Section Legacy.
Context {S : Type} {CL : Clock S} {JW : JWT} {MJ : MapJWT} {ML : MapJwtLaws}.

(** The bearer middleware of the HTTP platform cannot be used with the tokens the
    program issues: it answers 401 to every token that the token library accepts,
    because their user id is a number and the middleware expects a string. *)
Theorem httpx_bearer_refuses_tokens secret next c s s1 now t claims :
  Split (GetHeader c "Authorization") " " = ["Bearer"; t] -> Now s = (s1, now) ->
  jwt_parse secret now t = Ok claims -> w_written (g_w c) = false ->
  exists c', AuthMiddleware secret next c s = (s1, c') /\ g_aborted c' = true /\ w_status (g_w c') = 401.
Proof.
  intros Hs Hn Hp Hw. unfold AuthMiddleware.
  destruct (String.eqb_spec (GetHeader c "Authorization") "") as [He|_]; [by rewrite He in Hs|].
  rewrite Hs, Hn. destruct (map_parse_claims _ _ _ _ Hp) as (m & -> & Hm). simpl. rewrite Hm.
  eexists. split; [reflexivity|]. split; [done|]. by apply render_fresh.
Qed.
End Legacy.

(** ** A run over HTTP *)

Module HttpScenario.
Import IdentityDemo Scenario.

#[export] Instance demo_validator : Validator := {|
  is_email s := existsb (Ascii.eqb "@") (bytes_of s);
  validation_text struct _ := "validation of " +:+ struct +:+ " failed"
|}.
(** Decoders that know the two bodies of the run. *)
Definition login_body : string := "login".
#[export] Instance decode_login : Decoder LoginRequest.t := {|
  decode_body b := if String.eqb b login_body
                   then Ok (LoginRequest.mk "ann@shop.vn" "SuperSecret123" "fp1" "phone")
                   else Err ErrJsonSyntax
|}.
#[export] Instance decode_register : Decoder RegisterRequest.t := {|
  decode_body b := if String.eqb b "register"
                   then Ok (RegisterRequest.mk "Ann@Shop.vn" "SuperSecret123" " Ann " (Some "0900"))
                   else Err ErrJsonSyntax
|}.
#[export] Instance decode_verify : Decoder VerifyEmailRequest.t := {| decode_body _ := Err ErrJsonSyntax |}.
#[export] Instance decode_address : Decoder AddressRequest.t := {| decode_body _ := Err ErrJsonSyntax |}.
#[export] Instance decode_change : Decoder ChangePasswordRequest.t := {| decode_body _ := Err ErrJsonSyntax |}.

Definition idem : Config := NewService NewDefaultConfig.
Definition request (method : string) (headers : Header) (body : option string) : gctx :=
  mkGctx method "10.0.0.1" headers ∅ [] body Background ∅ new_writer false.
Definition all_routes : list (route (World Script.t)) := routes service idem.
Definition handler_of (method path : string) : route (World Script.t) :=
  default (mkRoute "" "" (fun c w => (w, c)))
    (head (List.filter (fun r => String.eqb (r_method r) method && String.eqb (r_path r) path) all_routes)).

Lemma handler_of_in method path :
  r_path (handler_of method path) <> "" -> handler_of method path ∈ all_routes.
Proof.
  unfold handler_of. destruct (List.filter _ all_routes) as [|r l] eqn:Ef; [done|]. intros _. simpl.
  apply list_elem_of_In. eapply (proj1 (filter_In _ _ _)). rewrite Ef. by left.
Qed.

Definition anonymous : gctx := request "GET" ∅ None.
Definition me : route (World Script.t) := handler_of "GET" "/api/v1/me".

Lemma protected_routes_need_token_witness :
  w_status (g_w (snd (r_handler me anonymous (fst logged_in)))) = 401.
Proof.
  refine (proj2 (proj2 (proj2 (protected_routes_need_token (E:=demo_environment) service idem me anonymous
    (fst logged_in) (fst (r_handler me anonymous (fst logged_in))) _ _ _ _ _ _)))).
  - apply handler_of_in. by vm_compute.
  - by apply (bool_decide_unpack _).
  - reflexivity.
  - intros t Ht. discriminate Ht.
  - apply surjective_pairing.
Defined.

(** Ann's access token. *)
Definition access : string := match snd logged_in with Ok out => AccessToken out | Err _ => "" end.
Definition with_token (method : string) : gctx :=
  request method {["Authorization" := ["Bearer " +:+ access]]} None.
Definition revoke_device : route (World Script.t) := handler_of "DELETE" "/api/v1/me/devices/:deviceId".
Definition revoked_by_path : World Script.t * gctx :=
  r_handler revoke_device (with_params {["deviceId" := "1"]} (with_token "DELETE")) (fst logged_in).

Lemma id_routes_always_400_witness :
  w_db (fst revoked_by_path) = w_db (fst logged_in) /\ w_status (g_w (snd revoked_by_path)) = 400.
Proof.
  destruct (id_routes_always_400 (E:=demo_environment) service idem revoke_device
    "/api/v1/me/devices/1" {["deviceId" := "1"]} (with_token "DELETE") (fst logged_in)
    (fst revoked_by_path) (snd revoked_by_path)) as [Hdb _].
  - apply handler_of_in. by vm_compute.
  - left.
  - vm_compute. reflexivity.
  - reflexivity.
  - apply surjective_pairing.
  - split; [exact Hdb|]. vm_compute. reflexivity.
Defined.

(** A request past the bearer middleware, with a token id. *)
Definition authed : gctx :=
  g_Set authContextKey (AAuth (mkAuthContext 1 "ann@shop.vn" "customer" 1 1 "jti-1")) (request "POST" ∅ None).
Definition ok_handler : Handler (World Script.t) := fun c w => (w, Success 200 "OK" None c).
Definition listed : World Script.t := fst (AddToBlacklist "jti-1" Hour (fst logged_in)).

Lemma listed_eq : AddToBlacklist "jti-1" Hour (fst logged_in) = (listed, Ok tt).
Proof.
  assert (Hs : snd (AddToBlacklist "jti-1" Hour (fst logged_in)) = Ok tt) by run_it.
  unfold listed. revert Hs. generalize (AddToBlacklist "jti-1" Hour (fst logged_in)).
  intros [w x]. simpl. by intros ->.
Qed.

Lemma strict_auth_fail_closed_witness :
  let w := set_rd (rd_elapse Minute (w_redis listed)) listed in
  let out := @NewStrictAuthMiddleware _ blacklist ok_handler authed w in
  refused w (fst out) (snd out).
Proof.
  intros w out.
  refine (proj2 (strict_auth_fail_closed ok_handler authed w (fst out) (snd out) eq_refl _)
    (mkAuthContext 1 "ann@shop.vn" "customer" 1 1 "jti-1") Hour Minute (fst logged_in) listed _ _ _ _ _).
  - apply surjective_pairing.
  - reflexivity.
  - reflexivity.
  - split; [by vm_compute|reflexivity].
  - exact listed_eq.
  - reflexivity.
Defined.

Lemma auth_errors_mapped_witness :
  w_status (g_w (writeAuthError (EWrap "login: " ErrInvalidCredentials "") anonymous)) = 401.
Proof.
  refine (proj1 (auth_errors_mapped (EWrap "login: " ErrInvalidCredentials "") anonymous eq_refl)
    ErrInvalidCredentials 401 _ eq_refl).
  right. left.
Defined.

(** The login over HTTP, and the request that returns the cookie. *)
Definition login_request : gctx := request "POST" ∅ (Some login_body).
Definition out_of {A} (d : A) (x : result A) : A := match x with Ok a => a | Err _ => d end.
Definition no_tokens : LoginOutput := mkLoginOutput "" "" 0 0.
Definition http_login : World Script.t * result LoginOutput :=
  Login service Background (LoginCommand.mk "ann@shop.vn" "SuperSecret123" "fp1" "phone" "10.0.0.1" "")
    (fst verified).
Definition refresh_request : gctx :=
  mkGctx "POST" "10.0.0.1" ∅ ∅ [("refresh_token", QueryEscape (RefreshToken_ (out_of no_tokens (snd http_login))))]
    None Background ∅ new_writer false.

(** A run whose result is a value. *)
Lemma run_ok_eq {A B} (p : A * result B) d : isOk (snd p) = true -> p = (fst p, Ok (out_of d (snd p))).
Proof. by destruct p as [w []]. Qed.

Lemma http_login_call w :
  uc_Login (AuthUseCase := auth_use_case service) (g_ctx login_request)
    (LoginCommand.mk "ann@shop.vn" "SuperSecret123" "fp1" "phone" (g_ip login_request)
      (GetHeader login_request "User-Agent")) w =
  Login service Background (LoginCommand.mk "ann@shop.vn" "SuperSecret123" "fp1" "phone" "10.0.0.1" "") w.
Proof. replace (GetHeader login_request "User-Agent") with "" by run_it. reflexivity. Qed.

Lemma http_login_eq :
  Login service Background (LoginCommand.mk "ann@shop.vn" "SuperSecret123" "fp1" "phone" "10.0.0.1" "")
    (fst verified) = (fst http_login, Ok (out_of no_tokens (snd http_login))).
Proof.
  assert (Hs : isOk (snd http_login) = true) by run_it. revert Hs. unfold http_login.
  generalize (Login service Background (LoginCommand.mk "ann@shop.vn" "SuperSecret123" "fp1" "phone" "10.0.0.1" "")
    (fst verified)). intros p. apply run_ok_eq.
Qed.

Lemma refresh_cookie_roundtrip_witness :
  exists age, w_header (g_w (snd (AuthHandler.Login (UC := auth_use_case service) login_request (fst verified))))
    !! "Set-Cookie" = Some [cookie_string "refresh_token" (RefreshToken_ (out_of no_tokens (snd http_login))) age
       "/api/v1/auth/refresh-token" false true].
Proof.
  destruct (refresh_cookie_roundtrip (S := World Script.t) (UC := auth_use_case service)
    (LoginRequest.mk "ann@shop.vn" "SuperSecret123" "fp1" "phone") login_request refresh_request
    (fst verified) (fst http_login)
    (fst (RefreshToken service Background (RefreshToken_ (out_of no_tokens (snd http_login))) (fst http_login)))
    (out_of no_tokens (snd http_login))) as [(age & _ & Hc) _].
  - vm_compute. reflexivity.
  - reflexivity.
  - reflexivity.
  - exact (eq_trans (http_login_call (fst verified)) http_login_eq).
  - reflexivity.
  - exists age. exact Hc.
Defined.

Lemma demo_uuid_ascii n : is_ascii (env_uuid (Env := demo_environment) n) = true.
Proof.
  apply is_ascii_bytes. change (env_uuid n) with ("uuid-" +:+ FormatInt (Z.of_nat n)).
  rewrite bytes_of_app. apply Forall_app. split; [by repeat constructor|].
  apply is_ascii_bytes, FormatInt_ascii.
Qed.

Definition no_op : Handler (World Script.t) := fun c w => (w, c).

Lemma login_token_authenticates_witness :
  exists email u r jti,
    @NewAuthMiddleware _ (token_validator service) no_op (with_token "GET") (fst logged_in) =
    no_op (g_Set authContextKey (AAuth (mkAuthContext (Users.id u) email (Users.user_type u)
      (Sessions.device_id r) (Sessions.id r) jti)) (with_token "GET")) (tick_clock (fst logged_in)).
Proof.
  assert (Hl : exists out, Login service Background login (fst verified) = (fst logged_in, Ok out) /\
    AccessToken out = access /\ TrimSpace (AccessToken out) = AccessToken out /\
    env_clock (Env := demo_environment) (w_ticks (fst logged_in)) < NewNumericDate (AccessTokenExpiresAt out))
    by (eexists; split; [run_it|split; [run_it|split; run_it]]).
  destruct Hl as (out & Hl & Ha & Ht & Hn).
  destruct (login_token_authenticates (E:=demo_environment) (R:=Script.t) service Background login (fst verified)
    (fst logged_in) (fst logged_in) out no_op (with_token "GET")) as (email & u & r & jti & _ & _ & _ & _ & _ & Hm).
  - reflexivity.
  - rewrite cur_db_pool by reflexivity.
    assert (Hu : exists u, users (w_db (fst verified)) = [u] /\ clean (Users.user_type u) = true)
      by (eexists; split; run_it).
    destruct Hu as (u & -> & Hc). intros x Hx. apply list_elem_of_singleton in Hx as ->. exact Hc.
  - intros n. apply clean_ascii. exact (demo_uuid_ascii n).
  - rewrite cur_db_pool by reflexivity.
    assert (Hr : exists r, user_sessions (w_db (fst logged_in)) = [r] /\ is_int64 (Sessions.id r) = true /\
      is_int64 (Sessions.device_id r) = true) by (eexists; split; [run_it|split; run_it]).
    destruct Hr as (r & -> & H1 & H2). intros x Hx. apply list_elem_of_singleton in Hx as ->. by split.
  - exact Hl.
  - rewrite Ha. reflexivity.
  - exact Ht.
  - exact Hn.
  - exists (Users.email u), u, r, jti. exact Hm.
Defined.

(** A registration sent twice with one key. *)
Definition register_request : gctx :=
  request "POST" {["Idempotency-Key" := ["k1"]]} (Some "register").
Definition register_route : route (World Script.t) := handler_of "POST" "/api/v1/auth/register".
Definition once : World Script.t * gctx := r_handler register_route register_request demo_world.
Definition twice : World Script.t * gctx := r_handler register_route register_request (fst once).

Example registered_once : length (users (w_db (fst once))) = 1%nat /\ w_status (g_w (snd once)) = 201.
Proof. split; run_it. Qed.

Lemma keyed_request_not_repeated_witness :
  w_db (fst twice) = w_db (fst once) /\ g_aborted (snd twice) = true.
Proof.
  assert (Hv : exists rec t, st_view (fst once) !!
    BuildKey (route_scope (r_path register_route)) (GetHeader register_request "Idempotency-Key") = Some (rec, t))
    by (do 2 eexists; run_it).
  destruct Hv as (rec & t & Hv).
  refine (keyed_request_not_repeated (E:=demo_environment) service idem register_route register_request (fst once)
    (fst twice) (snd twice) rec t _ _ _ Hv _).
  - apply handler_of_in. by vm_compute.
  - left.
  - by vm_compute.
  - apply surjective_pairing.
Defined.

Lemma preflight_refuses_clients_witness :
  exists c', CORSMiddleware loadCORSConfig no_op (request "OPTIONS" {["Origin" := ["http://localhost:3000"]]} None)
    (fst logged_in) = (fst logged_in, c') /\ w_status (g_w c') = 204.
Proof.
  destruct (preflight_refuses_clients no_op (request "OPTIONS" {["Origin" := ["http://localhost:3000"]]} None)
    (fst logged_in)) as (c' & Hc & Hs & _); [left|reflexivity|reflexivity|].
  exists c'. exact (conj Hc Hs).
Defined.

(** The claims as the JSON object of the token; every string counts as a UUID. *)
#[export] Instance demo_map_jwt : MapJWT := {|
  map_parse secret now t := match jwt_parse secret now t with
                            | Ok c => Ok ({["user_id" := JNum (Claims.UserID c)]}, true)
                            | Err e => Err e
                            end;
  uuid_parse s := Ok s
|}.
#[export] Instance demo_map_jwt_laws : MapJwtLaws.
Proof. split. intros secret now t c Hp. cbn [map_parse demo_map_jwt]. rewrite Hp. by eexists. Qed.

Lemma httpx_bearer_refuses_tokens_witness :
  exists c', AuthMiddleware "k" no_op (with_token "GET") (fst logged_in) = (tick_clock (fst logged_in), c') /\
    w_status (g_w c') = 401.
Proof.
  assert (Hp : exists c, jwt_parse "k" (env_clock (Env := demo_environment) (w_ticks (fst logged_in))) access = Ok c)
    by (eexists; run_it).
  destruct Hp as [claims Hp].
  destruct (httpx_bearer_refuses_tokens "k" no_op (with_token "GET") (fst logged_in) (tick_clock (fst logged_in))
    (env_clock (w_ticks (fst logged_in))) access claims) as (c' & Hc & _ & Hs);
    [run_it|reflexivity|exact Hp|reflexivity|]. exists c'. exact (conj Hc Hs).
Defined.
End HttpScenario.
