(* ===== verification/Answers.v ===== *)
(** * What the client is told

    The answers of the authentication handlers when nothing breaks: with no fault of
    the drivers the status depends on the request and the stored rows alone.
    [fails m w e Q] is the counterpart of [succeeds]: [m] returns the error [e], in a
    state that satisfies [Q]. *)

From Stdlib Require Import ZArith NArith String Ascii Lia.
From stdpp Require Import base strings list gmap.
From S2P Require Import Prelude GoStrings Config Crypto Json Domain Gin RedisClient Idempotency Schema.
From S2P Require Import Database Httpx Sql Kafka Outbox IdentityAdapters IdentityRepos SessionStore.
From S2P Require Import IdentityServices IdentitySpec Typing SchemaFacts Progress IdentityHttp HttpSpec.

Local Open Scope Z_scope.
#[local] Opaque violated HashToken.

(** ** Calls that fail *)

Definition fails {S A} (m : M S A) (w : S) (e : error) (Q : S -> Prop) : Prop :=
  exists w', m w = (w', Err e) /\ Q w'.

Section Fails.
Context {S A B : Type}.
Implicit Type w : S.

Lemma fails_throw e w Q : Q w -> fails (throwM (A:=A) e) w e Q.
Proof. intros HQ. by exists w. Qed.
Lemma fails_stop (m : M S A) (k : A -> M S B) w e Q : fails m w e Q -> fails (bindM m k) w e Q.
Proof. intros (w' & Hm & HQ). exists w'. split; [by apply bindM_stop|done]. Qed.
Lemma fails_bind (m : M S A) (k : A -> M S B) w e Q1 Q :
  succeeds m w Q1 -> (forall w1 a, Q1 w1 a -> fails (k a) w1 e Q) -> fails (bindM m k) w e Q.
Proof.
  intros (w1 & a & Hm & H1) Hk. destruct (Hk w1 a H1) as (w' & Hb & HQ).
  exists w'. split; [|done]. by rewrite (bindM_step _ _ _ _ _ Hm).
Qed.
End Fails.

Section Services.
Context {E : Env} {R : Type} {RC : RedisClient R} {RV : RedisView R} {RL : RedisLaws R}.
Context {RD : Rand} {U : Unicode} {MP : MailParser} {JW : JWT} {BC : Bcrypt}.
Context (no_fault : forall n, pg_fault n = None).
Context (can_sign : forall secret c, isOk (jwt_sign secret c) = true).
Implicit Type w : World R.

(** A lookup that finds no row. *)
Lemma or_not_found_fails {A} ctx e (q : DB -> rowset) (scan : list sqlval -> result A) w :
  ready ctx w -> q (cur_db ctx w) = [] ->
  fails (or_not_found e (QueryRow ctx (select q) scan)) w e (kept ctx w).
Proof.
  intros Hr Hq. unfold or_not_found. eapply fails_bind; [by apply (QueryRow_attempt no_fault)|].
  intros w1 x (Hk & ->). rewrite Hq. by apply fails_throw.
Qed.

Lemma GetByEmail_missing ctx email w :
  ready ctx w -> (forall u, u ∈ users (cur_db ctx w) -> Users.email u <> Email.value email) ->
  fails (UserRepository.GetByEmail ctx email) w ErrUserNotFound (kept ctx w).
Proof.
  intros Hr Hno. unfold UserRepository.GetByEmail. apply fails_stop, or_not_found_fails; [done|].
  unfold pick. rewrite (proj2 (where_nil _ _)); [done|]. intros u Hu. by apply String.eqb_neq, Hno.
Qed.

(** The account of an address, with its credentials. *)
Definition account (db : DB) (email : string) (u : Users.row) (c : Credentials.row) : Prop :=
  u ∈ users db /\ Users.email u = email /\ c ∈ user_credentials db /\ Credentials.user_id c = Users.id u.

Lemma authenticate_refuses ctx cmd email u c w :
  ready ctx w -> is_ascii (LoginCommand.Email cmd) = true -> NewEmail (LoginCommand.Email cmd) = Ok email ->
  account (cur_db ctx w) (Email.value email) u c ->
  CanLogin (Users.account_status u) = false \/
    isOk (bcrypt_compare (Credentials.password_hash c) (LoginCommand.Password cmd)) = false ->
  fails (authenticate ctx cmd) w ErrInvalidCredentials (kept ctx w).
Proof.
  intros Hr Hasc He (Hu & Hem & Hc & Hcu) Hbad. unfold authenticate.
  eapply fails_bind; [by eapply (succeeds_lift _ _ _ (fun w' a => w' = w /\ a = email))|].
  intros w0 a [-> ->]. assert (Hn : NewEmail (Users.email u) = Ok email) by (rewrite Hem; by eapply NewEmail_stable).
  eapply fails_bind; [by apply (GetByEmail_live no_fault ctx email u email w)|].
  intros w1 user [Hrow Hk]. destruct Hrow as (Hid & _ & Hs & _). rewrite Hs.
  destruct (CanLogin (Users.account_status u)) eqn:Ecan; [|by apply fails_throw].
  destruct Hbad as [|Hbad]; [done|]. assert (Hk' := Hk). destruct Hk' as (Hr1 & Hd1 & _). simpl. rewrite Hid, <- Hcu.
  eapply fails_bind; [apply (GetByUserID_live no_fault); [done|by rewrite Hd1]|]. intros w2 cr [-> Hk2].
  unfold VerifyPassword. simpl. destruct (bcrypt_compare _ _); [done|].
  apply fails_throw. by eapply kept_trans.
Qed.

(** ** Login *)

Context {V : Validator} {D2 : Decoder LoginRequest.t}.

(** The handler in terms of the service. *)
Definition login_command (c : gctx) (req : LoginRequest.t) : LoginCommand.t :=
  LoginCommand.mk (LoginRequest.Email req) (LoginRequest.Password req) (LoginRequest.DeviceFingerprint req)
    (LoginRequest.DeviceLabel req) (g_ip c) (GetHeader c "User-Agent").

Lemma Login_refused s c req w e Q :
  ShouldBindJSON c = Ok req -> fails (authenticate (g_ctx c) (login_command c req)) w e Q ->
  snd (AuthHandler.Login (UC := auth_use_case s) c w) = writeAuthError e c.
Proof.
  intros Hb Ha. unfold AuthHandler.Login, bindJSON. rewrite Hb. cbn [uc_Login auth_use_case].
  fold (login_command c req). assert (Hl : fails (Login s (g_ctx c) (login_command c req)) w e Q) by (by apply fails_stop).
  destruct Hl as (w' & -> & _). done.
Qed.


(** ** Refresh *)

(** Whatever the cache and the table say, the first step of a refresh finds a session
    or refuses the token. *)
Lemma find_session_refuses ctx hash w w' e : find_session ctx hash w = (w', Err e) -> e = ErrInvalidCredentials.
Proof.
  unfold find_session, bindM, attemptM, retM, throwM. destruct (GetSession hash w) as [w1 [[se|]|]]; [done|..];
    (destruct (SessionRepository.GetByRefreshTokenHash ctx hash w1) as [w2 []]; intros; by simplify_eq).
Qed.

Definition refusals : list error := [ErrInvalidCredentials; ErrSessionRevoked; ErrSessionExpired].

(** A token without a usable session is refused with one of three errors. *)
Lemma RefreshToken_refuses s ctx tok w :
  (forall w1 se, find_session ctx (HashToken tok) (tick_clock w) = (w1, Ok se) ->
     usable (env_clock (w_ticks w)) se = false) ->
  exists e w', RefreshToken s ctx tok w = (w', Err e) /\ e ∈ refusals.
Proof.
  intros Hno. unfold RefreshToken.
  assert (Hn : nowM w = (tick_clock w, Ok (env_clock (w_ticks w)))) by done. rewrite (bindM_step _ _ _ _ _ Hn).
  destruct (find_session ctx (HashToken tok) (tick_clock w)) as [w1 [se|e]] eqn:Ef.
  - rewrite (bindM_step _ _ _ _ _ Ef). specialize (Hno w1 se eq_refl). unfold usable in Hno.
    destruct (_ || _); [by eexists _, w1; split; [done|set_solver]|].
    destruct (Session.IsExpired se _); [by eexists _, w1; split; [done|set_solver]|done].
  - rewrite (bindM_stop _ _ _ _ _ Ef). apply find_session_refuses in Ef as ->.
    by eexists _, w1; split; [done|set_solver].
Qed.

Lemma refusal_401 e c : e ∈ refusals -> w_written (g_w c) = false -> w_status (g_w (writeAuthError e c)) = 401.
Proof.
  intros He Hw. unfold refusals in He. set_unfold in He.
  destruct He as [-> | [-> | [-> | []]]]; by apply Error_status.
Qed.

(** C19: What a client learns from a refresh. With no driver fault, on a consistent and
    typed database, when every cached session is stored and the copy agrees with the
    row: a cookie whose session is active, not revoked and not expired is answered
    200 with new tokens, and every other cookie is answered 401. *)
Theorem refresh_answers s c tok w :
  Cookie c RefreshTokenCookieName = Ok tok -> w_written (g_w c) = false ->
  world_ok w -> well_typed w -> pool (txManager s) = true -> ExtractTx (g_ctx c) = false ->
  (forall u, u ∈ users (w_db w) -> isOk (NewEmail (Users.email u)) = true) ->
  cache_coherent (env_clock (w_ticks w)) (HashToken tok) w ->
  (forall se, snd (GetSession (HashToken tok) w) = Ok (Some se) ->
     exists r, r ∈ user_sessions (w_db w) /\ Sessions.refresh_token_hash r = HashToken tok) ->
  next_token_fresh (JWTConfig.Secret (authManager s)) w ->
  let response := snd (AuthHandler.RefreshToken (UC := auth_use_case s) c w) in
  let valid := exists r, r ∈ user_sessions (w_db w) /\ Sessions.refresh_token_hash r = HashToken tok /\
    usable (env_clock (w_ticks w)) (session_entity r) = true in
  (valid -> exists out age, response = Success 200 RefreshTokenSuccess
     (Some (LoginResponse_json (AccessToken out) (AccessTokenExpiresAt out))) (setCookie (RefreshToken_ out) age c)) /\
  (~ valid -> w_status (g_w response) = 401).
Proof.
  intros Hck Hw Hok Hty Hp Hc Hem Hcoh Hst Hfr response valid.
  assert (Hcoh' : cache_coherent (env_clock (w_ticks w)) (HashToken tok) (tick_clock w)).
  { intros se r Hg. rewrite GetSession_tick in Hg. by apply Hcoh. }
  subst response. unfold AuthHandler.RefreshToken. rewrite Hck. cbn [uc_RefreshToken auth_use_case]. split.
  - intros (r & Hin & Hh & Hus).
    destruct (RefreshToken_live no_fault can_sign s (g_ctx c) tok r w) as (w' & out & Hr & _); eauto using pool_ready.
    rewrite Hr. unfold AuthHandler.issue. destruct (Now w'). by do 2 eexists.
  - intros Hno. destruct (RefreshToken_refuses s (g_ctx c) tok w) as (e & w' & -> & He); [|by apply refusal_401].
    intros w1 se Hf. apply not_true_is_false. intros Hus. apply Hno.
    apply find_session_inv in Hf as [Hg|(r & Hin & Hh & ->)].
    + destruct (Hst se) as (r & Hin & Hh); [by rewrite <- GetSession_tick|].
      exists r. split; [done|]. split; [done|]. by destruct (Hcoh' se r Hg Hin Hh) as [_ <-].
    + exists r. rewrite cur_db_pool in Hin by done. done.
Qed.

(** ** Mistakes of the client *)

Context {D1 : Decoder RegisterRequest.t} {D3 : Decoder VerifyEmailRequest.t} {D5 : Decoder ChangePasswordRequest.t}.

(** A key that Redis reports missing. *)
Lemma take_user_nil key missing get parse w :
  rd_abs (w_redis w) !! key = None -> isOk (snd (rd_do (GETDEL key) (w_redis w))) = true ->
  fails (take_user key missing get parse) w (ENew missing) (fun _ => True).
Proof.
  intros Hn Hd. unfold take_user. eapply (fails_bind _ _ _ _ (fun _ x => x = Err ERedisNil)).
  - apply succeeds_attempt. intros w' x (rd & Hg & _)%redisM_world. unfold rdb_GetDel, bindM in Hg.
    destruct (rd_do (GETDEL key) (w_redis w)) as [rd' [rep|]] eqn:Er; [|done].
    apply rd_ok in Er. simpl in Er. rewrite Hn in Er. injection Er as _ <-. unfold liftM in Hg. by simplify_eq.
  - intros w1 x ->. by apply fails_throw.
Qed.

(** A password that passes the validation of the request and not the policy is a
    server error for the client, and so are a wrong current password and a used
    verification token: none of their errors is known to [writeAuthError]. *)
Theorem client_mistakes_500 s c w :
  (forall req email, ShouldBindJSON c = Ok req -> NewEmail (RegisterRequest.Email req) = Ok email ->
     ValidateRegistration (registerPolicy s) email (RegisterRequest.Password req) = Err ErrPasswordTooWeak ->
     AuthHandler.Register (UC := auth_use_case s) c w =
       (w, Error 500 "INTERNAL_ERROR" "[IDENTITY_PASSWORD_TOO_WEAK]: password does not meet requirements" c)) /\
  (forall req ac cr, GetAuthContext c = Some ac -> ShouldBindJSON c = Ok req ->
     ready (g_ctx c) w -> cr ∈ user_credentials (cur_db (g_ctx c) w) -> Credentials.user_id cr = ac_UserID ac ->
     isOk (bcrypt_compare (Credentials.password_hash cr) (ChangePasswordRequest.CurrentPassword req)) = false ->
     snd (AuthHandler.ChangePassword (UC := auth_use_case s) c w) =
       Error 500 "INTERNAL_ERROR" "invalid current password" c) /\
  (forall req, ShouldBindJSON c = Ok req ->
     rd_abs (w_redis w) !! (emailVerifyPrefix +:+ VerifyEmailRequest.Token req) = None ->
     isOk (snd (rd_do (GETDEL (emailVerifyPrefix +:+ VerifyEmailRequest.Token req)) (w_redis w))) = true ->
     snd (AuthHandler.VerifyEmail (UC := auth_use_case s) c w) =
       Error 500 "INTERNAL_ERROR" "verification token not found or already used" c).
Proof.
  split; [|split].
  - intros req email Hb He Hv. unfold AuthHandler.Register, bindJSON. rewrite Hb. unfold answer.
    cbn [uc_Register auth_use_case]. unfold Register, bindM, liftM. cbn [RegisterCommand.Email RegisterCommand.Password].
    by rewrite He, Hv.
  - intros req ac cr Ha Hb Hr Hcr Hid Hbad. unfold AuthHandler.ChangePassword. rewrite Ha. unfold bindJSON. rewrite Hb.
    unfold answer. cbn [uc_ChangePassword auth_use_case].
    destruct (GetByUserID_live no_fault (g_ctx c) cr w Hr Hcr) as (w1 & a & Hg & -> & _).
    unfold ChangePassword. cbn [ChangePasswordCommand.UserID]. rewrite <- Hid.
    rewrite (bindM_step _ _ _ _ _ Hg). unfold VerifyPassword. simpl. by destruct (bcrypt_compare _ _).
  - intros req Hb Hn Hd. unfold AuthHandler.VerifyEmail, bindJSON. rewrite Hb. unfold answer.
    cbn [uc_VerifyEmail auth_use_case]. set (key := emailVerifyPrefix +:+ _) in *.
    assert (Hf : fails (VerifyEmail (g_ctx c) (VerifyEmailRequest.Token req)) w
      (ENew "verification token not found or already used") (fun _ => True))
      by (by apply fails_stop, take_user_nil).
    by destruct Hf as (w' & -> & _).
Qed.
End Services.

(** ** Ann's requests *)

Module AnswersScenario.
Import IdentityDemo Scenario TypingScenario ProgressScenario HttpScenario.

Definition handler_Login : Handler (World Script.t) := AuthHandler.Login (UC := auth_use_case (JW := plain_jwt) service).
Definition handler_RefreshToken : Handler (World Script.t) :=
  AuthHandler.RefreshToken (UC := auth_use_case (JW := plain_jwt) service).

Lemma login_bound :
  ShouldBindJSON login_request = Ok (LoginRequest.mk "ann@shop.vn" "SuperSecret123" "fp1" "phone").
Proof. run_it. Qed.
Lemma registered_ok : world_ok (fst registered).
Proof. split; [run_it|exact I]. Qed.
Lemma registered_reach : service_reach (E:=demo_environment) (R:=Script.t) service demo_world (fst registered).
Proof.
  exact (reach_call service _ _ _ _ _ _ (call_Register service Background register) registered_eq
    (reach_here service (fst registered))).
Qed.
Lemma registered_typed : well_typed (fst registered).
Proof. exact (service_reach_typed _ _ _ registered_reach demo_typed). Qed.
Lemma registered_account : exists u c, account (w_db (fst registered)) "ann@shop.vn" u c /\
  CanLogin (Users.account_status u) = false.
Proof.
  assert (H : exists u c, users (w_db (fst registered)) = [u] /\ Users.email u = "ann@shop.vn" /\
    user_credentials (w_db (fst registered)) = [c] /\ Credentials.user_id c = Users.id u /\
    CanLogin (Users.account_status u) = false) by (do 2 eexists; repeat (split; [run_it|]); run_it).
  destruct H as (u & c & Hu & He & Hc & Hid & Hs). exists u, c. split; [|exact Hs]. unfold account. rewrite Hu, Hc.
  split; [left|]. split; [exact He|]. split; [left|]. exact Hid.
Qed.


(** Ann's cookie while she is logged in, and the same cookie in a new shop. *)
Definition cookie_request : gctx :=
  mkGctx "POST" "10.0.0.1" ∅ ∅ [("refresh_token", QueryEscape refresh_token)] None Background ∅ new_writer false.
Lemma cookie_read : Cookie cookie_request RefreshTokenCookieName = Ok refresh_token.
Proof. run_it. Qed.

Lemma refresh_answers_witness :
  (exists out age, snd (handler_RefreshToken cookie_request (fst logged_in)) = Success 200 RefreshTokenSuccess
     (Some (LoginResponse_json (AccessToken out) (AccessTokenExpiresAt out)))
     (setCookie (RefreshToken_ out) age cookie_request)) /\
  w_status (g_w (snd (handler_RefreshToken cookie_request demo_world))) = 401.
Proof.
  split.
  - refine (proj1 (refresh_answers (JW:=plain_jwt) demo_no_fault (fun _ _ => eq_refl) service cookie_request
      refresh_token (fst logged_in) cookie_read eq_refl logged_in_ok logged_in_typed eq_refl eq_refl
      logged_in_emails logged_in_coherent _ logged_in_fresh) logged_in_usable).
    intros se _. destruct logged_in_usable as (r & Hr & Hh & _). exists r. split; [exact Hr|exact Hh].
  - refine (proj2 (refresh_answers (JW:=plain_jwt) demo_no_fault (fun _ _ => eq_refl) service cookie_request
      refresh_token demo_world cookie_read eq_refl demo_ok demo_typed eq_refl eq_refl _ _ _ _) _).
    + intros u Hu. destruct (proj1 (elem_of_nil u) Hu).
    + intros se r _ Hr. destruct (proj1 (elem_of_nil r) Hr).
    + intros se Hse. assert (Hg : snd (GetSession (HashToken refresh_token) demo_world) = Ok None) by run_it.
      rewrite Hg in Hse. discriminate.
    + intros c t r _ _ Hr. destruct (proj1 (elem_of_nil r) Hr).
    + intros (r & Hr & _). destruct (proj1 (elem_of_nil r) Hr).
Defined.
End AnswersScenario.
