(* ===== verification/Bootstrap.v ===== *)
(** * Start-up and shutdown of the API process

    [internal/bootstrap] (the providers, the injector [InitializeAPIApp] of
    [wire_gen.go], [APIApp]), [cmd/api/main.go], and what they construct: the
    logger of [platform/logger], the pool of [platform/db], the client of
    [platform/redis/redis.go], the server of [platform/httpx], the Kafka writer
    and the health handlers of [platform/observability]. The resources a process
    holds are explicit: what was opened and not closed again. The calls of zap,
    pgx, go-redis and net/http are the class [Runtime]. *)

From Stdlib Require Import ZArith NArith String Ascii Lia.
From stdpp Require Import base strings list gmap.
From S2P Require Import Prelude GoStrings Config Crypto Json Domain Gin RedisClient RedisKit.
From S2P Require Import Idempotency Schema Database Httpx Sql Kafka Outbox IdentityAdapters.
From S2P Require Import IdentityRepos IdentityServices IdentitySpec IdentityHttp HttpSpec.

Local Open Scope Z_scope.

(** ** Resources *)

Inductive resource := RLogger | RPool | RRedis.

#[global] Instance resource_eq_dec : EqDecision resource.
Proof. solve_decision. Defined.

(** The libraries' state and the resources that are open, the latest first. *)
Record Boot (X : Type) := mkBoot { b_ext : X; b_open : list resource }.
Arguments mkBoot {X} _ _.
Arguments b_ext {X} _.
Arguments b_open {X} _.

(** What [zap.Config], [pgxpool.Config] and [redis.Options] receive. *)
Inductive zap_level := DebugLevel | InfoLevel | WarnLevel | ErrorLevel.
Record ZapConfig := mkZap {
  z_Level : zap_level; z_Development : bool; z_Encoding : string;
  z_OutputPaths : list string; z_ErrorOutputPaths : list string
}.
Record PoolConfig := mkPool {
  p_conn : string; p_MaxConns : Z; p_MinConns : Z; p_MaxConnLifetime : Z; p_MaxConnIdleTime : Z;
  p_HealthCheckPeriod : Z
}.
Record RedisOptions := mkOptions {
  o_Addr : string; o_Password : string; o_DB : Z; o_PoolSize : Z; o_MinIdleConns : Z;
  o_MaxRetries : Z; o_ReadTimeout : Z; o_WriteTimeout : Z
}.

(** [zap_Build] is [Config.Build], [pgx_ParseConfig] and [pgx_NewWithConfig] make
    a pool, the pings ask the servers, [srv_Shutdown] is [http.Server.Shutdown]
    with its timeout. [redis.NewClient] cannot fail. *)
Class Runtime (X : Type) := {
  zap_Build : ZapConfig -> M X unit;
  pgx_ParseConfig : string -> result PoolConfig;
  pgx_NewWithConfig : PoolConfig -> M X unit;
  pgx_Ping : M X unit;
  redis_Ping : RedisOptions -> M X unit;
  srv_Shutdown : Z -> M X unit
}.

Section Resources.
Context {X : Type} {RT : Runtime X}.

Definition extM {A} (m : M X A) : M (Boot X) A :=
  zoomM b_ext (fun x b => mkBoot x (b_open b)) m.
Definition openM (r : resource) : M (Boot X) unit :=
  modifyM (fun b => mkBoot (b_ext b) (r :: b_open b)).
(** [Close] and [Sync]; their errors are dropped. *)
Definition closeM (r : resource) : M (Boot X) unit :=
  modifyM (fun b => mkBoot (b_ext b) (filter (fun r' => r' <> r) (b_open b))).

(** ** Logger: [logger.go] *)

Definition logger_level (level : string) : zap_level :=
  if String.eqb level "debug" then DebugLevel
  else if String.eqb level "warn" then WarnLevel
  else if String.eqb level "error" then ErrorLevel else InfoLevel.

Definition logger_New (cfg : LoggerConfig.t) : M (Boot X) unit :=
  let out := LoggerConfig.Output cfg in
  do! extM (zap_Build (mkZap (logger_level (LoggerConfig.Level cfg))
        (String.eqb (LoggerConfig.Level cfg) "debug") (LoggerConfig.Format cfg) [out] [out])) in
  openM RLogger.

Definition cleanup : Type := M (Boot X) unit.

Definition ProvideLogger (cfg : AppSettings.t) : M (Boot X) cleanup :=
  do! logger_New (AppSettings.Logger cfg) in
  retM (closeM RLogger).

(** ** Database pool: [db.go] *)

Definition NewPool (cfg : DBConfig.t) : M (Boot X) unit :=
  let! poolCfg := liftM (pgx_ParseConfig (DSN cfg)) in
  let poolCfg := mkPool (p_conn poolCfg) (DBConfig.MaxOpenConns cfg) (DBConfig.MinIdleConns cfg)
    (DBConfig.MaxConnLifetime cfg) (DBConfig.MaxConnIdleTime cfg) (DBConfig.HealthcheckPeriod cfg) in
  do! extM (pgx_NewWithConfig poolCfg) in
  do! openM RPool in
  let! pinged := attemptM (extM pgx_Ping) in
  match pinged with
  | Err err => do! closeM RPool in throwM err
  | Ok _ => retM tt
  end.

Definition ProvideDBPool (cfg : AppSettings.t) : M (Boot X) cleanup :=
  do! NewPool (AppSettings.DB cfg) in
  retM (closeM RPool).

(** ** Redis: [redis/redis.go] *)

Definition NewRedisClient (cfg : ConfigRedis.t) : M (Boot X) unit :=
  do! openM RRedis in
  extM (redis_Ping (mkOptions (ConfigRedis.Addr cfg) (ConfigRedis.Password cfg) (ConfigRedis.DB cfg)
    (ConfigRedis.PoolSize cfg) (ConfigRedis.MinIdleConns cfg) (ConfigRedis.MaxRetries cfg)
    (ConfigRedis.ReadTimeout cfg) (ConfigRedis.WriteTimeout cfg))).

Definition ProvideRedis (cfg : AppSettings.t) : M (Boot X) cleanup :=
  do! NewRedisClient (AppSettings.Redis cfg) in
  retM (closeM RRedis).
End Resources.

(** ** Kafka: [ProvideKafkaConfig] and [NewProducer] *)

Definition ProvideKafkaConfig (cfg : AppSettings.t) : KafkaConfig.t :=
  let k := AppSettings.Kafka cfg in
  let d := DefaultConfig in
  KafkaConfig.mk
    (match ConfigKafka.Brokers k with [] => KafkaConfig.Brokers d | bs => bs end)
    (if String.eqb (ConfigKafka.ClientID k) "" then KafkaConfig.ClientID d else ConfigKafka.ClientID k)
    (KafkaConfig.ProducerMaxRetries d) (KafkaConfig.ProducerRetryBackoff d)
    (KafkaConfig.ProducerWriteTimeout d) (KafkaConfig.ProducerRequiredAcks d)
    (KafkaConfig.ProducerIdempotent d) (KafkaConfig.ProducerBatchSize d) (KafkaConfig.ProducerLingerMs d)
    (if String.eqb (ConfigKafka.ConsumerGroupID k) "" then KafkaConfig.ConsumerGroupID d
     else ConfigKafka.ConsumerGroupID k)
    (KafkaConfig.ConsumerReadTimeout d) (KafkaConfig.ConsumerMaxRetries d)
    (KafkaConfig.ConsumerRetryBackoff d) (KafkaConfig.ConsumerAutoOffsetReset d)
    (KafkaConfig.ConsumerEnableAutoCommit d) (KafkaConfig.DLQTopic d) (KafkaConfig.SASLUsername d)
    (KafkaConfig.SASLPassword d) (KafkaConfig.TLSEnabled d).

(** The fields of [kafka.Writer] the program sets. *)
Record WriterConfig := mkWriter {
  kw_Addr : list string; kw_HashBalancer : bool; kw_RequiredAcks : Z; kw_MaxAttempts : Z;
  kw_WriteTimeout : Z; kw_BatchBytes : Z; kw_BatchTimeout : Z; kw_AllowAutoTopicCreation : bool;
  kw_Async : bool
}.

Definition NewProducer (cfg : KafkaConfig.t) : WriterConfig :=
  mkWriter (KafkaConfig.Brokers cfg) true (KafkaConfig.ProducerRequiredAcks cfg)
    (KafkaConfig.ProducerMaxRetries cfg) (KafkaConfig.ProducerWriteTimeout cfg)
    (KafkaConfig.ProducerBatchSize cfg) (KafkaConfig.ProducerLingerMs cfg) false false.

(** ** Health: [observability/health.go] *)

(** [kafka.Dial] to a broker and [Brokers] on the connection. *)
Class KafkaDialer (S : Type) := {
  kafka_Dial : string -> M S unit;
  conn_Brokers : M S unit
}.

Section Health.
Context {S R : Type} {HR : HasRedis S R} {RC : RedisClient R} {KD : KafkaDialer S}.

(** The handler; a nil client and a nil configuration are [false] and [None]. *)
Record HealthHandler := mkHealth { hh_client : bool; hh_cfg : option AppSettings.t }.

Definition health_error (code : Z) (message : string) (c : gctx) : gctx :=
  c_JSON code (JObj [("message", jstr message); ("status", jstr "error")]) c.
Definition health_ok (message : string) (c : gctx) : gctx :=
  c_JSON 200 (JObj [("message", jstr message); ("status", jstr "ok")]) c.

Definition Health : Handler S := fun c s => (s, c_JSON 200 (JObj [("status", jstr "ok")]) c).

Definition HealthRedis (h : HealthHandler) : Handler S := fun c s =>
  if negb (hh_client h) then (s, health_error 500 "redis client not initialized" c)
  else match redisM rdb_Ping s with
       | (s, Err err) => (s, health_error 503 (ErrorText err) c)
       | (s, Ok _) => (s, health_ok "redis is up" c)
       end.

Definition HealthKafka (h : HealthHandler) : Handler S := fun c s =>
  match (match hh_cfg h with None => [] | Some cfg => ConfigKafka.Brokers (AppSettings.Kafka cfg) end) with
  | [] => (s, health_error 500 "kafka brokers not configured" c)
  | broker :: _ =>
      match (do! kafka_Dial broker in conn_Brokers) s with
      | (s, Err err) => (s, health_error 503 (ErrorText err) c)
      | (s, Ok _) => (s, health_ok "kafka is up" c)
      end
  end.

Definition health_routes (h : HealthHandler) : list (route S) :=
  [ mkRoute "GET" "/health" Health; mkRoute "GET" "/health/redis" (HealthRedis h);
    mkRoute "GET" "/health/kafka" (HealthKafka h) ].
End Health.

(** ** The application *)

(** [http.Server] with the engine as a function of the request path. *)
Record Server (R : Type) := mkServer {
  s_Addr : string; s_Handler : string -> Handler (World R); s_ReadHeaderTimeout : Z
}.
Arguments mkServer {R} _ _ _.
Arguments s_Addr {R} _.
Arguments s_Handler {R} _.
Arguments s_ReadHeaderTimeout {R} _.

Definition NewServer {R} (engine : string -> Handler (World R)) (port : string) : Server R :=
  mkServer (":" +:+ port) engine (5 * Second).

Record APIApp (R : Type) := mkAPIApp { server : Server R; shutdownTimeout : Z }.
Arguments mkAPIApp {R} _ _.
Arguments server {R} _.
Arguments shutdownTimeout {R} _.

Definition NewAPIApp {R} (server : Server R) (shutdownTimeout : Z) : APIApp R :=
  mkAPIApp server shutdownTimeout.

Definition ErrServerClosed : error := ENew "http: Server closed".

(** [APIApp.Run], given what [ListenAndServe] returned. *)
Definition Run (served : error) : result unit :=
  if Is served ErrServerClosed then Ok tt else Err served.

Section App.
Context {E : Env} {R : Type} {RC : RedisClient R} {RD : Rand} {U : Unicode} {MP : MailParser}.
Context {JW : JWT} {BC : Bcrypt} {V : Validator}.
Context {D1 : Decoder RegisterRequest.t} {D2 : Decoder LoginRequest.t} {D3 : Decoder VerifyEmailRequest.t}
  {D4 : Decoder AddressRequest.t} {D5 : Decoder ChangePasswordRequest.t}.
Context {DE : Dotenv} {X : Type} {RT : Runtime X}.
Context (not_found : Handler (World R)).

Definition ProvideConfig (env : environ) : exit AppSettings.t := MustLoad env.

(** The manager of a pool that is not nil; the interface is the same value. *)
Definition ProvideTxManager : Manager := mkManager true.
(** [NewAuthManager] keeps the settings of the tokens. *)
Definition ProvideAuthManager (cfg : AppSettings.t) : JWTConfig.t := AppSettings.JWT cfg.
Definition ProvideHealthHandler (cfg : AppSettings.t) : HealthHandler := mkHealth true (Some cfg).

(** [NewAuthService] with the repositories, adapters and policies of the
    injector. *)
Definition NewAuthService (cfg : AppSettings.t) : AuthService :=
  mkAuthService ProvideTxManager (ProvideAuthManager cfg) NewRegisterPolicy NewDevicePolicy.

Definition engine_of (cfg : AppSettings.t) : string -> Handler (World R) :=
  ProvideGinEngine (NewAuthService cfg) (AppSettings.CORS cfg) (AppSettings.RateLimit cfg)
    (NewService NewDefaultConfig) not_found.

Definition ProvideHTTPServer (cfg : AppSettings.t) : Server R :=
  NewServer (engine_of cfg) (AppConfig.Port (AppSettings.App cfg)).
Definition ProvideShutdownTimeout (cfg : AppSettings.t) : Z :=
  AppConfig.GracefulShutdownTimeout (AppSettings.App cfg).
Definition ProvideAPIApp (cfg : AppSettings.t) : APIApp R :=
  NewAPIApp (ProvideHTTPServer cfg) (ProvideShutdownTimeout cfg).

(** [wire_gen.go]: on an error the cleanups run, the latest resource first. *)
Definition initialize (cfg : AppSettings.t) : M (Boot X) (APIApp R * cleanup (X := X)) :=
  let! cleanup1 := ProvideLogger cfg in
  let! pool := attemptM (ProvideDBPool cfg) in
  match pool with
  | Err err => do! cleanup1 in throwM err
  | Ok cleanup2 =>
      let! client := attemptM (ProvideRedis cfg) in
      match client with
      | Err err => do! cleanup2 in do! cleanup1 in throwM err
      | Ok cleanup3 =>
          retM (ProvideAPIApp cfg, do! cleanup3 in do! cleanup2 in cleanup1)
      end
  end.

(** The configuration is loaded first and may end the process. *)
Definition InitializeAPIApp (env : environ) (b : Boot X) :
    exit (Boot X * result (APIApp R * cleanup (X := X))) :=
  match ProvideConfig env with
  | Value cfg => Value (initialize cfg b)
  | Fatal message => Fatal message
  | Panic message => Panic message
  end.

Definition Shutdown (a : APIApp R) : M (Boot X) unit := extM (srv_Shutdown (shutdownTimeout a)).

(** [cmd/api/main.go]. [served] is what [ListenAndServe] returned before the
    first signal, if it did: the goroutine of [Run] ends the process on an error.
    [log.Fatalf] does not run the deferred cleanup. *)
Definition main (env : environ) (served : option error) (b : Boot X) : exit (Boot X) :=
  match InitializeAPIApp env b with
  | Fatal message => Fatal message
  | Panic message => Panic message
  | Value (b, Err err) => Fatal ("failed to initialize api app: " +:+ ErrorText err)
  | Value (b, Ok (app, cleanup)) =>
      match (match served with None => Ok tt | Some err => Run err end) with
      | Err err => Fatal ("api app stopped with error: " +:+ ErrorText err)
      | Ok _ =>
          match Shutdown app b with
          | (b, Err err) => Fatal ("failed to shutdown api app: " +:+ ErrorText err)
          | (b, Ok _) => Value (fst (cleanup b))
          end
      end
  end.
End App.

(** ** Resources are released *)

Section ResourceSpec.
Context {X : Type} {RT : Runtime X}.
Implicit Types b : Boot X.

Lemma extM_open {A} (m : M X A) : keeps b_open (extM m).
Proof. intros b. unfold extM, zoomM. by destruct (m (b_ext b)). Qed.

(** Closing the resource opened last leaves the ones before it. *)
Lemma close_last (r : resource) l : r ∉ l -> filter (fun r' => r' <> r) (r :: l) = l.
Proof.
  intros Hn. rewrite filter_cons_False by auto. induction l as [|a l IH]; [done|].
  apply not_elem_of_cons in Hn as [Ha Hl]. rewrite filter_cons_True by auto. by rewrite IH.
Qed.

Lemma logger_open cfg b b' x :
  ProvideLogger cfg b = (b', x) ->
  match x with Ok c => c = closeM RLogger /\ b_open b' = RLogger :: b_open b | Err _ => b_open b' = b_open b end.
Proof.
  unfold ProvideLogger, logger_New, bindM. set (m := zap_Build _).
  pose proof (extM_open m b) as H. destruct (extM m b) as [b1 [u|e]]; simpl in *;
    intros [= <- <-]; simpl; by rewrite ?H.
Qed.

Lemma pool_open cfg b b' x :
  RPool ∉ b_open b -> ProvideDBPool cfg b = (b', x) ->
  match x with Ok c => c = closeM RPool /\ b_open b' = RPool :: b_open b | Err _ => b_open b' = b_open b end.
Proof.
  intros Hn. unfold ProvideDBPool, NewPool, bindM, liftM.
  destruct (pgx_ParseConfig _) as [p|e]; [|by intros [= <- <-]]. set (m := pgx_NewWithConfig _).
  pose proof (extM_open m b) as H. destruct (extM m b) as [b1 [u|e]]; simpl in *; [|by intros [= <- <-]].
  unfold attemptM. set (b2 := mkBoot _ _). pose proof (extM_open pgx_Ping b2) as H2.
  destruct (extM pgx_Ping b2) as [b3 [u'|e]]; simpl in *; intros [= <- <-]; simpl; rewrite H2, H; [done|].
  by apply close_last.
Qed.

Lemma redis_open cfg b b' x :
  ProvideRedis cfg b = (b', x) ->
  b_open b' = RRedis :: b_open b /\
  match x with
  | Ok c => c = closeM RRedis
  | Err e => exists o y, snd (redis_Ping o y) = Err e
  end.
Proof.
  unfold ProvideRedis, NewRedisClient, bindM. simpl. set (o := mkOptions _ _ _ _ _ _ _ _).
  set (b1 := mkBoot _ _). pose proof (extM_open (redis_Ping o) b1) as H.
  destruct (extM (redis_Ping o) b1) as [b2 y] eqn:E. simpl in H. unfold extM, zoomM in E.
  destruct (redis_Ping o (b_ext b1)) as [x1 r] eqn:Er. simplify_eq.
  destruct y as [u|e]; intros [= <- <-]; (split; [done|]); [done|].
  exists o, (b_ext b1). by rewrite Er.
Qed.
End ResourceSpec.

Section AppSpec.
Context {E : Env} {R : Type} {RC : RedisClient R} {RD : Rand} {U : Unicode} {MP : MailParser}.
Context {JW : JWT} {BC : Bcrypt} {V : Validator}.
Context {D1 : Decoder RegisterRequest.t} {D2 : Decoder LoginRequest.t} {D3 : Decoder VerifyEmailRequest.t}
  {D4 : Decoder AddressRequest.t} {D5 : Decoder ChangePasswordRequest.t}.
Context {DE : Dotenv} {X : Type} {RT : Runtime X}.
Context (not_found : Handler (World R)).

(** What [initialize] leaves open. *)
Lemma initialize_open cfg (b b' : Boot X) x :
  b_open b = [] -> initialize not_found cfg b = (b', x) ->
  match x with
  | Ok (app, cleanup) => app = ProvideAPIApp not_found cfg /\
      b_open b' = [RRedis; RPool; RLogger] /\
      (forall b1, b_open b1 = b_open b' -> b_open (fst (cleanup b1)) = [])
  | Err e => b_open b' = [] \/ b_open b' = [RRedis] /\ exists o y, snd (redis_Ping o y) = Err e
  end.
Proof.
  intros Hb. unfold initialize, attemptM, bindM at 1.
  destruct (ProvideLogger cfg b) as [b1 [c1|e]] eqn:El; apply logger_open in El; rewrite Hb in El;
    [destruct El as [-> El]|intros [= <- <-]; by left].
  unfold bindM at 1. destruct (ProvideDBPool cfg b1) as [b2 [c2|e]] eqn:Ep;
    (apply pool_open in Ep; [|rewrite El; set_solver]); rewrite El in Ep.
  2: { intros [= <- <-]. left. simpl. by rewrite Ep. }
  destruct Ep as [-> Ep]. unfold bindM at 1.
  destruct (ProvideRedis cfg b2) as [b3 [c3|e]] eqn:Er; apply redis_open in Er as [Er Hr]; rewrite Ep in Er;
    intros [= <- <-].
  - split; [done|]. split; [done|]. intros b4 H4. rewrite Hr. simpl. by rewrite H4, Er.
  - right. split; [|done]. simpl. by rewrite Er.
Qed.

(** Initialisation either succeeds with logger, pool and Redis client open and
    a cleanup that closes all of them, or fails and has closed what it had opened;
    only a Redis client whose first ping failed stays open. *)
Theorem InitializeAPIApp_resources env (b b' : Boot X) x :
  b_open b = [] -> InitializeAPIApp not_found env b = Value (b', x) ->
  match x with
  | Ok (app, cleanup) => (exists cfg, MustLoad env = Value cfg /\ app = ProvideAPIApp not_found cfg) /\
      b_open b' = [RRedis; RPool; RLogger] /\ b_open (fst (cleanup b')) = []
  | Err e => b_open b' = [] \/ b_open b' = [RRedis] /\ exists o y, snd (redis_Ping o y) = Err e
  end.
Proof.
  intros Hb. unfold InitializeAPIApp, ProvideConfig. destruct (MustLoad env) as [cfg| |] eqn:Hc; [|done..].
  intros [= H]. apply (initialize_open cfg) in H; [|done]. destruct x as [[app c]|e]; [|done].
  destruct H as (-> & Ho & Hcl). split; [by exists cfg|]. split; [done|]. by apply Hcl.
Qed.

(** Every call of the libraries succeeds. *)
Definition all_up : Prop :=
  (forall z x, isOk (snd (zap_Build z x)) = true) /\ (forall d, isOk (pgx_ParseConfig d) = true) /\
  (forall p x, isOk (snd (pgx_NewWithConfig p x)) = true) /\ (forall x, isOk (snd (pgx_Ping x)) = true) /\
  (forall o x, isOk (snd (redis_Ping o x)) = true) /\ (forall t x, isOk (snd (srv_Shutdown t x)) = true).

Lemma extM_up {A} (m : M X A) (b : Boot X) :
  isOk (snd (m (b_ext b))) = true -> exists b' a, extM m b = (b', Ok a).
Proof. unfold extM, zoomM. destruct (m (b_ext b)) as [x [a|e]]; [|done]. eauto. Qed.

Lemma initialize_up cfg (b : Boot X) :
  all_up -> exists b' app c, initialize not_found cfg b = (b', Ok (app, c)).
Proof.
  intros (Hz & Hd & Hn & Hp & Hr & _).
  unfold initialize, ProvideLogger, logger_New, ProvideDBPool, NewPool, ProvideRedis, NewRedisClient, attemptM.
  set (z := mkZap _ _ _ _ _). unfold bindM.
  destruct (extM_up (zap_Build z) b (Hz _ _)) as (b1 & u1 & ->). simpl.
  specialize (Hd (DSN (AppSettings.DB cfg))). destruct (pgx_ParseConfig _) as [p|]; [|done]. simpl.
  set (p' := mkPool _ _ _ _ _ _). set (b2 := mkBoot _ _).
  destruct (extM_up (pgx_NewWithConfig p') b2 (Hn _ _)) as (b3 & u3 & ->). simpl. set (b4 := mkBoot _ _).
  destruct (extM_up pgx_Ping b4 (Hp _)) as (b5 & u5 & ->). simpl. set (b6 := mkBoot _ _).
  set (o := mkOptions _ _ _ _ _ _ _ _).
  destruct (extM_up (redis_Ping o) b6 (Hr _ _)) as (b7 & u7 & ->). simpl. eauto.
Qed.

(** With every required variable set and all servers reachable, the process
    serves until the signal and then ends normally with nothing left open;
    whenever it ends normally, nothing is left open. *)
Theorem main_exit env (b : Boot X) :
  b_open b = [] ->
  (find (unset (godotenv_Load env)) required_keys = None -> all_up ->
     exists b', main not_found env None b = Value b') /\
  (forall served b', main not_found env served b = Value b' -> b_open b' = []).
Proof.
  intros Hb. split.
  - intros Hset Hup. unfold main, InitializeAPIApp, ProvideConfig, MustLoad.
    destruct (loadConfig_reads (godotenv_Load env)) as (cfg & Hr & _). unfold Reads in Hr.
    rewrite Hset in Hr. rewrite Hr. destruct (initialize_up cfg b Hup) as (b1 & app & c & ->).
    unfold Shutdown. destruct Hup as (_ & _ & _ & _ & _ & Hs).
    destruct (extM_up (srv_Shutdown (shutdownTimeout app)) b1 (Hs _ _)) as (b2 & u & ->). eauto.
  - intros served b' H. unfold main, InitializeAPIApp, ProvideConfig in H. destruct (MustLoad env) as [cfg| |]; try done.
    destruct (initialize not_found cfg b) as [b1 [[app c]|e]] eqn:Hi; [|done].
    apply initialize_open in Hi as (_ & Ho & Hc); [|done].
    destruct (match served with None => _ | Some _ => _ end); [|done].
    unfold Shutdown in H. destruct (extM _ b1) as [b2 [u|e]] eqn:Es; [|done]. injection H as <-.
    apply Hc. eapply keeps_inv; [apply extM_open|exact Es].
Qed.

(** *** The engine the process serves *)

(** [h] leaves the database alone on requests that satisfy [P]. *)
Definition spares_db (P : gctx -> Prop) (h : Handler (World R)) : Prop :=
  forall c w, P c -> w_db (fst (h c w)) = w_db w.

(** The request carries no token that validates, now or later. *)
Definition unauthenticated (a : JWTConfig.t) (c : gctx) : Prop :=
  forall t (w : World R), bearer c = Some t -> isOk (snd (ValidateAccessToken a t w)) = false.

(** What the middlewares write into the context is not part of the request. *)
Lemma unauthenticated_header a c c' :
  g_header c' = g_header c -> unauthenticated a c -> unauthenticated a c'.
Proof. intros Hh Hu t w. unfold bearer, GetHeader. rewrite Hh. apply Hu. Qed.

Lemma redisM_spares {A} (m : M R A) : keeps (w_db (R:=R)) (redisM m).
Proof. apply keeps_zoom. done. Qed.

Lemma NewRouter_spares a cors rate next :
  spares_db (unauthenticated a) next -> spares_db (unauthenticated a) (NewRouter cors rate next).
Proof.
  intros Hn c w Hu. unfold NewRouter, RequestIDMiddleware. destruct (if String.eqb _ _ then _ else _) as [w1 id] eqn:Eid.
  assert (Hd : w_db w1 = w_db w) by (destruct (String.eqb _ _); by simplify_eq). rewrite <- Hd. clear Eid Hd w.
  unfold Httpx.RecoveryMiddleware, no_panic, LoggerMiddleware. simpl.
  set (c1 := c_Header _ _ _). assert (Hu1 : unauthenticated a c1) by (by eapply unauthenticated_header, Hu).
  clearbody c1. clear Hu. set (w2 := tick_clock w1). change (w_db w1) with (w_db w2). clearbody w2.
  enough (H : w_db (fst (CORSMiddleware cors (RateLimitMiddleware rate next) c1 w2)) = w_db w2).
  { by destruct (CORSMiddleware _ _ c1 w2). }
  assert (Hr : spares_db (unauthenticated a) (RateLimitMiddleware rate next)).
  { intros c2 w3 Hu2. unfold RateLimitMiddleware. destruct (negb _); [by apply Hn|].
    pose proof (redisM_spares (rdb_Incr (rate_key (g_ip c2))) w3) as H1.
    destruct (redisM _ w3) as [w4 [n|e]]; simpl in H1; rewrite <- H1; [|by apply Hn].
    set (w5 := if n =? 1 then _ else _). assert (H5 : w_db w5 = w_db w4)
      by (unfold w5; case_match; [apply redisM_spares|done]).
    rewrite <- H5. case_match; [done|]. apply Hn. by eapply unauthenticated_header, Hu2. }
  unfold CORSMiddleware. destruct (String.eqb _ ""); [by apply Hr|]. case_match; [done|].
  apply Hr. case_match; [by eapply unauthenticated_header, Hu1|done].
Qed.

Lemma auth_spares s next :
  spares_db (unauthenticated (authManager s)) (@NewAuthMiddleware _ (token_validator s) next).
Proof.
  intros c w Hu. rewrite NewAuthMiddleware_bearer. destruct (bearer c) as [t|] eqn:Hb; [|done].
  simpl. specialize (Hu t w Hb). pose proof (ValidateAccessToken_db (authManager s) t w) as H1.
  by destruct (ValidateAccessToken (authManager s) t w) as [w1 [claims|e]].
Qed.

Lemma dispatch_spares s idem path l :
  (forall r, r ∈ l -> r ∈ routes s idem) -> spares_db (fun _ => True) not_found ->
  Forall (fun p => match_path p path = None) public_paths ->
  spares_db (unauthenticated (authManager s)) (dispatch not_found l path).
Proof.
  intros Hl Hnf Hp c w Hu. induction l as [|r l IH]; simpl; [by apply Hnf|].
  destruct (if String.eqb _ _ then _ else _) as [params|] eqn:Em; [|apply IH; set_solver].
  assert (Hm : match_path (r_path r) path = Some params) by (by destruct (String.eqb _ _)).
  destruct (protected_middleware s idem r) as [next ->]; [set_solver| |].
  { intros Hr. rewrite Forall_forall in Hp. by rewrite (Hp _ Hr) in Hm. }
  apply auth_spares. by eapply unauthenticated_header, Hu.
Qed.

(** C16: Through the whole engine the process serves, middlewares and dispatch
    included, a request without a valid access token whose path is not one of the
    three public ones leaves the database as it is, whatever the configuration. *)
Theorem engine_needs_token cfg path c w w' c' :
  (forall c w, w_db (fst (not_found c w)) = w_db w) ->
  Forall (fun p => match_path p path = None) public_paths ->
  unauthenticated (AppSettings.JWT cfg) c ->
  s_Handler (server (ProvideAPIApp not_found cfg)) path c w = (w', c') -> w_db w' = w_db w.
Proof.
  intros Hnf Hp Hu H.
  change w' with (fst (w', c')). rewrite <- H. apply (NewRouter_spares (AppSettings.JWT cfg)); [|done].
  apply (dispatch_spares (NewAuthService cfg) (NewService NewDefaultConfig)); [done| |done].
  intros c1 w1 _. apply Hnf.
Qed.
End AppSpec.

(** ** Configuration of Kafka *)

Lemma split_bytes_not_nil sep l acc : split_bytes sep l acc <> [].
Proof. revert acc. induction l as [|c l IH]; intros acc; simpl; [done|]. by case_match. Qed.

(** With loaded settings, brokers, client and group come from the environment;
    retries, backoff, timeouts and the dead letter topic are the defaults of the
    package whatever the variables [KAFKA_MAX_RETRY], [KAFKA_RETRY_BACKOFF_MS],
    [KAFKA_PRODUCER_TIMEOUT_MS] and [KAFKA_CONSUMER_TIMEOUT_MS] say. *)
Theorem ProvideKafkaConfig_loaded e cfg :
  loaded e cfg ->
  let k := ProvideKafkaConfig cfg in
  KafkaConfig.Brokers k = Split (Getenv e "KAFKA_BROKERS") "," /\
  KafkaConfig.ClientID k = Getenv e "KAFKA_CLIENT_ID" /\
  KafkaConfig.ConsumerGroupID k = Getenv e "KAFKA_CONSUMER_GROUP_ID" /\
  KafkaConfig.ConsumerMaxRetries k = 5 /\ KafkaConfig.ConsumerRetryBackoff k = Second /\
  KafkaConfig.ProducerMaxRetries k = 3 /\ KafkaConfig.ProducerWriteTimeout k = 10 * Second /\
  KafkaConfig.DLQTopic k = "".
Proof.
  intros Hl k. apply loaded_kafka in Hl. destruct (kafka_reads e) as (c & Hr & Hb & Hg & Hc).
  destruct (reads_value_inv _ _ _ _ _ Hr Hl) as [-> Hf]. unfold k, ProvideKafkaConfig. simpl.
  rewrite Hb, Hg, Hc.
  pose proof (set_of_find _ _ "KAFKA_CLIENT_ID" Hf ltac:(set_solver)) as H1.
  pose proof (set_of_find _ _ "KAFKA_CONSUMER_GROUP_ID" Hf ltac:(set_solver)) as H2.
  unfold unset in H1, H2. rewrite H1, H2. split; [|done].
  destruct (Split (Getenv e "KAFKA_BROKERS") ",") eqn:Es; [|done].
  unfold Split in Es. apply map_eq_nil, split_bytes_not_nil in Es as [].
Qed.

(** The dead letter topic is never configured: the publisher the process would
    give its consumers writes no message, and a message whose handling failed is
    committed without a trace of it. *)
Theorem provided_dlq_never_writes {S : Type} {KW : KafkaWriter S} {KR : KafkaReader S} {CK : Clock S}
    {SL : Sleeper S} {BL : BrokerLaws S} settings :
  let cfg := ProvideKafkaConfig settings in
  (forall raw reason err s, exists s' e,
     dlq_Publish (ProvideDLQPublisher cfg) raw reason err s = (s', Err e) /\
     written s' = written s /\ committed s' = committed s) /\
  (forall handler raw msg e s s1 s2,
     ctxDone s = false -> FetchMessage s = (s1, Ok raw) -> parseMessage raw = Ok msg ->
     handleWithRetry cfg (injectTraceContext kBackground msg) handler msg s1 = (s2, Returned (Err e)) ->
     exists s3, consume_turn cfg (ProvideDLQPublisher cfg) handler s = (fst (CommitMessages [raw] s3), Continue) /\
       written s3 = written s2).
Proof.
  intros cfg. split; [intros; apply dlq_no_topic|]. intros handler raw msg e s s1 s2 Hc Hf Hp Hh.
  destruct (dlq_no_topic raw "retry_exhausted" (Some e) s2) as (s3 & e' & Hd & Hw & _).
  exists s3. split; [|done]. unfold consume_turn. rewrite Hc, Hf, Hp, Hh. unfold ignore.
  change (ProvideDLQPublisher cfg) with "". by rewrite Hd.
Qed.

(** ** A start and stop of the process *)

Module BootDemo.
Import ConfigDemo IdentityDemo Scenario HttpScenario.

(** Libraries whose calls succeed, but for the ping of Redis when it is down. *)
Definition demo_runtime (redis_up : bool) : Runtime unit := {|
  zap_Build _ := retM tt;
  pgx_ParseConfig dsn := Ok (mkPool dsn 4 0 0 0 0);
  pgx_NewWithConfig _ := retM tt;
  pgx_Ping := retM tt;
  redis_Ping _ := if redis_up then retM tt else throwM (EIO "connection refused");
  srv_Shutdown _ := retM tt
|}.

#[export] Instance demo_dotenv : Dotenv := dotenv_file env_dev.
Definition demo_vars : environ := {["REDIS_PASSWORD" := "secret"]}.
Definition nothing_open : Boot unit := mkBoot tt [].

Lemma InitializeAPIApp_resources_witness :
  exists b' e, InitializeAPIApp (RT := demo_runtime false) no_op demo_vars nothing_open = Value (b', Err e) /\
    (b_open b' = [] \/ b_open b' = [RRedis]).
Proof.
  assert (Hi : exists b' e, InitializeAPIApp (RT := demo_runtime false) no_op demo_vars nothing_open = Value (b', Err e))
    by (do 2 eexists; by vm_compute).
  destruct Hi as (b' & e & Hi). exists b', e. split; [exact Hi|].
  destruct (InitializeAPIApp_resources (E:=demo_environment) (RT := demo_runtime false) no_op demo_vars
    nothing_open b' (Err e) eq_refl Hi) as [H|[H _]]; [by left|by right].
Defined.

Lemma main_exit_witness :
  exists b', main (RT := demo_runtime true) no_op demo_vars None nothing_open = Value b' /\ b_open b' = [].
Proof.
  destruct (main_exit (E:=demo_environment) (RT := demo_runtime true) no_op demo_vars nothing_open eq_refl)
    as [Hrun Hopen].
  destruct Hrun as [b' Hb]; [by vm_compute|by split_and!|]. exists b'. split; [exact Hb|]. by eapply Hopen.
Defined.

(** The settings of the template with a password. *)
Definition demo_settings : AppSettings.t :=
  match MustLoad demo_vars with
  | Value cfg => cfg
  | _ => AppSettings.mk (AppConfig.mk "" "" "" "" false 0)
      (DBConfig.mk "" "" "" "" "" "" 0 0 0 0 0 "") (ConfigRedis.mk "" "" 0 0 0 0 0 0 0)
      (ConfigKafka.mk [] "" "" 0 0 0 0 "") (MinioConfig.mk "" "" "" false 0 "" "") demo_jwt_config
      (EmailConfig.mk "" 0 "" "" "" "" false) (VNPayConfig.mk "" "" "" "" "")
      (AsynqConfig.mk "" 0 "" 0 ∅ 0) (RateLimitConfig.mk true 0 0) loadCORSConfig (LoggerConfig.mk "" "" "")
  end.

Lemma engine_needs_token_witness :
  w_db (fst (s_Handler (server (ProvideAPIApp no_op demo_settings)) "/api/v1/me/sessions" (request "DELETE" ∅ None)
    (fst logged_in))) = w_db (fst logged_in).
Proof.
  refine (engine_needs_token (E:=demo_environment) (R:=Script.t) no_op demo_settings "/api/v1/me/sessions"
    (request "DELETE" ∅ None) (fst logged_in) _ _ _ _ _ (surjective_pairing _)).
  - reflexivity.
  - repeat constructor.
  - intros t w Hb. exfalso. revert Hb. vm_compute. discriminate.
Defined.
End BootDemo.
