(* ===== verification/Commands.v ===== *)
(** * The other commands

    [cmd/migrate/main.go] on the interface of golang-migrate, and the worker and
    scheduler applications of [internal/bootstrap] with their [main] functions,
    whose bodies are commented out. *)

From Stdlib Require Import ZArith NArith String Ascii Lia.
From stdpp Require Import base strings list gmap.
From S2P Require Import Prelude GoStrings Config.

Local Open Scope Z_scope.

(** ** The migration command *)

(** golang-migrate: [migrate.New] with the source and the database URL, and the
    three methods of the instance the command calls. *)
Class Migrate (X : Type) := {
  migrate_New : string -> string -> M X unit;
  m_Up : M X unit;
  m_Steps : Z -> M X unit;
  m_Version : M X (Z * bool)
}.

Definition ErrNoChange : error := ENew "no change".

Section MigrateMain.
Context {X : Type} {MG : Migrate X} {DE : Dotenv}.

(** [if err := m; err != nil && err != migrate.ErrNoChange { log.Fatal(err) }] *)
Definition unless_no_change (m : M X unit) (x : X) : exit (X * string) :=
  match m x with
  | (x, Ok _) => Value (x, "")
  | (x, Err err) => if bool_decide (err = ErrNoChange) then Value (x, "") else Fatal (ErrorText err)
  end.

Definition version_line (v : Z) (dirty : bool) : string :=
  "version=" +:+ FormatInt v +:+ " dirty=" +:+ (if dirty then "true" else "false") +:+ string_of ["010"%char].

(** The subcommands; the string is what the command prints. *)
Definition migrate_command (command : string) (x : X) : exit (X * string) :=
  if String.eqb command "up" then unless_no_change m_Up x
  else if String.eqb command "down" then unless_no_change (m_Steps (-1)) x
  else if String.eqb command "version" then
    match m_Version x with
    | (x, Ok (v, dirty)) => Value (x, version_line v dirty)
    | (x, Err err) => Fatal (ErrorText err)
    end
  else Fatal ("unknown command: " +:+ command).

(** [main] with [os.Args] and the environment. *)
Definition migrate_main (args : list string) (env : environ) (x : X) : exit (X * string) :=
  match args with
  | _ :: command :: _ =>
      match MustLoad env with
      | Value cfg =>
          match migrate_New ("file://" +:+ DBConfig.MigrationDir (AppSettings.DB cfg))
                  (DSN (AppSettings.DB cfg)) x with
          | (x, Ok _) => migrate_command command x
          | (x, Err err) => Fatal (ErrorText err)
          end
      | Fatal message => Fatal message
      | Panic message => Panic message
      end
  | _ => Fatal "usage: migrate [up|down|version]"
  end.
End MigrateMain.

(** What golang-migrate documents: [applied] counts the migrations of the database
    that are applied, [total] those of the source. Opening and asking for the
    version change nothing; [Up] applies all that are left and reports when there
    is none; [Steps (-1)] takes back one. *)
Class MigrateLaws (X : Type) `{Migrate X} := {
  applied : X -> nat;
  total : X -> nat;
  new_same src url x x' r : migrate_New src url x = (x', r) -> applied x' = applied x /\ total x' = total x;
  version_same x x' r : m_Version x = (x', r) -> applied x' = applied x /\ total x' = total x;
  up_applies x x' : m_Up x = (x', Ok tt) -> (applied x < total x)%nat /\ applied x' = total x /\ total x' = total x;
  up_no_change x x' : m_Up x = (x', Err ErrNoChange) ->
    applied x = total x /\ applied x' = applied x /\ total x' = total x;
  down_one x x' : m_Steps (-1) x = (x', Ok tt) -> applied x = Datatypes.S (applied x') /\ total x' = total x;
  down_no_change x x' : m_Steps (-1) x = (x', Err ErrNoChange) -> applied x' = applied x /\ total x' = total x
}.

Section MigrateSpec.
Context {X : Type} {MG : Migrate X} {ML : MigrateLaws X} {DE : Dotenv}.
Implicit Types x : X.

Lemma unless_no_change_value (m : M X unit) x x' out :
  unless_no_change m x = Value (x', out) -> m x = (x', Ok tt) \/ m x = (x', Err ErrNoChange).
Proof.
  unfold unless_no_change. destruct (m x) as [y [[]|err]]; [intros [= <- _]; by left|].
  case_bool_decide as He; [|done]. intros [= <- _]. right. by rewrite He.
Qed.

(** A command that ended normally was the one that was asked for, on the database
    of the loaded configuration. *)
Lemma migrate_main_value args env x x' out :
  migrate_main args env x = Value (x', out) ->
  exists name command rest cfg x1, args = name :: command :: rest /\ MustLoad env = Value cfg /\
    applied x1 = applied x /\ total x1 = total x /\ migrate_command command x1 = Value (x', out).
Proof.
  unfold migrate_main. destruct args as [|name [|command rest]]; [done..|].
  destruct (MustLoad env) as [cfg| |] eqn:Hc; [|done..].
  destruct (migrate_New _ _ x) as [x1 [u|err]] eqn:Hn; [|done]. intros Hm.
  destruct (new_same _ _ _ _ _ Hn) as [H1 H2]. by exists name, command, rest, cfg, x1.
Qed.

(** The command does to the schema what it is asked to. When it ends normally, [up]
    has applied every migration of the directory, so that a second [up] which ends
    normally changes nothing; [down] has taken back at most one; [version] none;
    and there is no other command that ends normally. *)
Theorem migrate_main_spec name command rest env x x' out :
  migrate_main (name :: command :: rest) env x = Value (x', out) ->
  total x' = total x /\
  ((command = "up" /\ applied x' = total x' /\
    forall env' x'' out', migrate_main (name :: command :: rest) env' x' = Value (x'', out') ->
      applied x'' = applied x') \/
   (command = "down" /\ (applied x' <= applied x <= Datatypes.S (applied x'))%nat) \/
   (command = "version" /\ applied x' = applied x)).
Proof.
  assert (Hup : forall env x x' out, migrate_main (name :: "up" :: rest) env x = Value (x', out) ->
    total x' = total x /\ applied x' = total x').
  { intros env0 y y' o (n & c & r & cfg & y1 & [= <- <- <-] & _ & H1 & H2 & Hm)%migrate_main_value.
    apply unless_no_change_value in Hm as [Hm|Hm];
      [apply up_applies in Hm|apply up_no_change in Hm]; destruct Hm as (? & ? & ?); split; congruence. }
  intros Hm. destruct (migrate_main_value _ _ _ _ _ Hm) as (n & c & r & cfg & x1 & [= <- <- <-] & _ & H1 & H2 & Hc).
  unfold migrate_command in Hc. destruct (String.eqb_spec command "up") as [->|_].
  - destruct (Hup _ _ _ _ Hm) as [Ht Ha]. split; [done|]. left. split; [done|]. split; [done|].
    intros env' x'' out' Hm'. destruct (Hup _ _ _ _ Hm') as [Ht' Ha']. congruence.
  - destruct (String.eqb_spec command "down") as [->|_].
    + apply unless_no_change_value in Hc as [Hc|Hc];
        [apply down_one in Hc|apply down_no_change in Hc]; destruct Hc as [Ha Ht]; (split; [congruence|]);
        right; left; (split; [done|]); lia.
    + destruct (String.eqb_spec command "version") as [->|_]; [|done].
      destruct (m_Version x1) as [x2 [[v d]|err]] eqn:Hv; [|done]. injection Hc as <- _.
      destruct (version_same _ _ _ Hv) as [Ha Ht]. split; [congruence|]. right. right. split; [done|congruence].
Qed.
End MigrateSpec.

(** ** Worker and scheduler *)

(** [worker.go] and [scheduler.go]: both applications only call their runner. *)
Class Runner (X : Type) := { runner_Run : M X unit }.

Record WorkerApp := mkWorkerApp { wa_shutdownTimeout : Z }.
Record SchedulerApp := mkSchedulerApp { sa_shutdownTimeout : Z }.
Definition NewWorkerApp (shutdownTimeout : Z) : WorkerApp := mkWorkerApp shutdownTimeout.
Definition NewSchedulerApp (shutdownTimeout : Z) : SchedulerApp := mkSchedulerApp shutdownTimeout.

Definition worker_Run {X : Type} {RN : Runner X} (a : WorkerApp) : M X unit := runner_Run.
Definition scheduler_Run {X : Type} {RN : Runner X} (a : SchedulerApp) : M X unit := runner_Run.

(** [cmd/worker] and [cmd/scheduler]: the processes end at once. *)
Definition worker_main : exit unit := Value tt.
Definition scheduler_main : exit unit := Value tt.

(** ** A directory with three migrations *)

Module MigrateDemo.
Import ConfigDemo.

(** The applied and the available migrations. *)
Record t := mk { done_ : nat; all : nat }.

#[export] Instance demo_migrate : Migrate t := {|
  migrate_New _ _ := retM tt;
  m_Up x := if (done_ x <? all x)%nat then (mk (all x) (all x), Ok tt)
            else (x, Err (if (done_ x =? all x)%nat then ErrNoChange else EIO "no migration found for version"));
  m_Steps n x := match done_ x with
                 | O => (x, Err (EIO "file does not exist"))
                 | Datatypes.S k => (mk k (all x), Ok tt)
                 end;
  m_Version x := if (done_ x =? 0)%nat then (x, Err (EIO "no migration")) else (x, Ok (Z.of_nat (done_ x), false))
|}.

#[export] Program Instance demo_migrate_laws : MigrateLaws t := {| applied := done_; total := all |}.
Next Obligation. intros src url x x' r [= <- _]. done. Qed.
Next Obligation. intros x x' r. simpl. by destruct (done_ x =? 0)%nat; intros; simplify_eq. Qed.
Next Obligation. intros x x'. simpl. destruct (Nat.ltb_spec (done_ x) (all x)); intros; by simplify_eq. Qed.
Next Obligation.
  intros x x'. simpl. destruct (Nat.ltb_spec (done_ x) (all x)); [done|].
  destruct (Nat.eqb_spec (done_ x) (all x)); intros; by simplify_eq.
Qed.
Next Obligation. intros [[|k] n] x'; simpl; intros; by simplify_eq. Qed.
Next Obligation. intros [[|k] n] x'; simpl; intros; by simplify_eq. Qed.

#[export] Instance demo_dotenv : Dotenv := dotenv_file env_dev.
Definition vars : environ := {["REDIS_PASSWORD" := "secret"]}.

(** [up] on an empty database, then [down], then [version]. *)
Example migrate_run :
  migrate_main ["migrate"; "up"] vars (mk 0 3) = Value (mk 3 3, "") /\
  migrate_main ["migrate"; "down"] vars (mk 3 3) = Value (mk 2 3, "") /\
  migrate_main ["migrate"; "version"] vars (mk 2 3) = Value (mk 2 3, version_line 2 false) /\
  migrate_main ["migrate"; "redo"] vars (mk 2 3) = Fatal "unknown command: redo".
Proof. split_and!; vm_compute; reflexivity. Qed.

Lemma migrate_main_spec_witness : applied (mk 3 3) = total (mk 3 3).
Proof.
  destruct (migrate_main_spec "migrate" "up" [] vars (mk 0 3) (mk 3 3) "") as [_ [(_ & H & _)|[[H _]|[H _]]]];
    [vm_compute; reflexivity|exact H|discriminate H|discriminate H].
Defined.
End MigrateDemo.
