(* ===== verification/Wire.v ===== *)
(** * How the parts are put together: the provider sets and the injector

    The packages list their constructors in [wire] provider sets, with bindings of
    interfaces to implementations ([provider.go], [bootstrap/providers.go]);
    [bootstrap/wire.go] asks for a [*APIApp] from [APISet], and the generated
    [bootstrap/wire_gen.go] calls the constructors. A constructor is its signature
    here, what it does is modelled with its component; a Go type is its name. The
    sets are checked to be what [wire] requires of them, and the injector to
    construct exactly what they say. *)

From Stdlib Require Import String.
From stdpp Require Import base strings list gmap sets.
From S2P Require Import Prelude.

(** ** Provider sets *)

Record provider := mkProvider { p_name : string; p_params : list string; p_result : string }.

Inductive item :=
| Provider (p : provider)
| Bind (iface impl : string)
| NewSet (items : list item).

Definition fn (name : string) (params : list string) (result : string) : item :=
  Provider (mkProvider name params result).

(** What a set contains, through the sets it includes. *)
Fixpoint providers (i : item) : list provider :=
  match i with
  | Provider p => [p]
  | Bind _ _ => []
  | NewSet items => flat_map providers items
  end.
Fixpoint bindings (i : item) : list (string * string) :=
  match i with
  | Provider _ => []
  | Bind iface impl => [(iface, impl)]
  | NewSet items => flat_map bindings items
  end.

(** The type whose value is used where a parameter has type [t]. *)
Definition resolve (s : item) (t : string) : string :=
  match list_find (fun b => b.1 = t) (bindings s) with
  | Some (_, (_, impl)) => impl
  | None => t
  end.

(** The types that a value of type [root] depends on. *)
Inductive needs (s : item) (root : string) : string -> Prop :=
| needs_root : needs s root root
| needs_param p t : p ∈ providers s -> needs s root (p_result p) -> t ∈ p_params p ->
    needs s root (resolve s t).

(** ** The sets of the program *)

Definition kafka_ProviderSet : item := NewSet [
  fn "kafka.ProvideProducer" ["kafka.Config"; "*zap.Logger"] "*kafka.Producer";
  fn "kafka.ProvideDLQPublisher" ["*kafka.Producer"; "kafka.Config"; "*zap.Logger"] "*kafka.DLQPublisher";
  fn "kafka.ProvideConsumerGroup" ["kafka.Config"; "*zap.Logger"; "*kafka.DLQPublisher"] "*kafka.ConsumerGroup"].

Definition idempotency_ProviderSet : item := NewSet [
  fn "idempotency.NewClock" [] "idempotency.Clock";
  fn "idempotency.NewDefaultConfig" [] "idempotency.Config";
  fn "idempotency.ProvideRedisStore" ["goredis.UniversalClient"] "idempotency.Store";
  fn "idempotency.ProvideProcessedEventStore" ["idempotency.DBTX"] "idempotency.ProcessedEventStore";
  fn "idempotency.NewDefaultService"
    ["idempotency.Store"; "idempotency.ProcessedEventStore"; "idempotency.Clock"; "idempotency.Config"]
    "idempotency.Service"].

Definition outbox_ProviderSet : item := NewSet [
  fn "outbox.ProvideRepository" ["*pgxpool.Pool"] "*outbox.PostgresRepository";
  fn "outbox.ProvideRecorder" ["*outbox.PostgresRepository"] "*outbox.OutboxRecorder";
  fn "outbox.ProvidePublisher" ["*kafka.Producer"; "*zap.Logger"] "*outbox.KafkaPublisher";
  fn "outbox.ProvideDispatcher" ["*outbox.PostgresRepository"; "*outbox.KafkaPublisher"; "*zap.Logger"]
    "*outbox.OutboxDispatcher";
  Bind "outbox.Repository" "*outbox.PostgresRepository";
  Bind "outbox.Recorder" "*outbox.OutboxRecorder";
  Bind "outbox.Publisher" "*outbox.KafkaPublisher";
  Bind "outbox.Dispatcher" "*outbox.OutboxDispatcher"].

Definition redis_ProviderSet : item := NewSet [
  fn "redis.NewClient" ["redis.Config"] "redis.Client";
  fn "redis.NewCache" ["redis.Client"] "*redis.Cache";
  fn "redis.NewLocker" ["redis.Client"] "*redis.Locker";
  fn "redis.NewRateLimiter" ["redis.Client"] "*redis.RateLimiter";
  fn "redis.NewQuotaStore" ["redis.Client"] "*redis.QuotaStore";
  fn "redis.NewHealthChecker" ["redis.Client"] "*redis.HealthChecker";
  fn "redis.ProvideKeyBuilder" ["redis.Config"] "redis.KeyBuilder"].

Definition postgres_ProviderSet : item := NewSet [
  fn "postgres.NewUserRepository" ["*pgxpool.Pool"] "domain.UserRepository";
  fn "postgres.NewCredentialRepository" ["*pgxpool.Pool"] "domain.CredentialRepository";
  fn "postgres.NewSessionRepository" ["*pgxpool.Pool"] "domain.SessionRepository";
  fn "postgres.NewDeviceRepository" ["*pgxpool.Pool"] "domain.DeviceRepository";
  fn "postgres.NewAddressRepository" ["*pgxpool.Pool"] "domain.AddressRepository";
  fn "postgres.NewQueryRepository" ["*pgxpool.Pool"] "query.QueryRepository"].

Definition adapters_ProviderSet : item := NewSet [
  fn "adapters.ProvideJWTAuthManager" ["*config.Config"] "ports.AuthManager";
  fn "adapters.ProvideRedisSessionService" ["goredis.UniversalClient"] "ports.RedisSessionService";
  fn "adapters.ProvideOutboxEventPublisher" ["outbox.Recorder"; "*zap.Logger"] "ports.EventPublisher";
  fn "adapters.ProvideRealClock" [] "ports.Clock";
  fn "adapters.ProvideRedisBlacklistAdapter" ["*goredis.Client"] "ports.BlacklistPort"].

Definition service_ProviderSet : item := NewSet [
  fn "service.NewAuthService"
    ["tx.TxManager"; "domain.UserRepository"; "domain.CredentialRepository"; "domain.SessionRepository";
     "domain.DeviceRepository"; "query.QueryRepository"; "ports.AuthManager"; "ports.RedisSessionService";
     "ports.EventPublisher"; "ports.Clock"; "policy.RegisterPolicy"; "policy.DevicePolicy"] "*service.AuthService";
  fn "service.NewProfileService"
    ["tx.TxManager"; "domain.UserRepository"; "domain.DeviceRepository"; "query.QueryRepository";
     "domain.SessionRepository"; "ports.Clock"] "*service.ProfileService";
  fn "service.NewAddressService" ["domain.AddressRepository"; "tx.TxManager"] "*service.AddressService";
  fn "service.ProvideRegisterPolicy" [] "policy.RegisterPolicy";
  fn "service.ProvideDevicePolicy" [] "policy.DevicePolicy"].

Definition http_ProviderSet : item := NewSet [
  fn "http.NewAuthHandler" ["http.AuthUseCase"] "*http.AuthHandler";
  fn "http.NewProfileHandler" ["http.ProfileUseCase"] "*http.ProfileHandler";
  fn "http.NewAddressHandler" ["http.AddressUseCase"; "http.AddressQueryUseCase"] "*http.AddressHandler";
  fn "middleware.NewAuthMiddleware" ["*auth.Auth"] "middleware.AuthMiddleware";
  fn "middleware.NewStrictAuthMiddleware" ["ports.BlacklistPort"] "middleware.StrictAuthMiddleware"].

Definition PlatformSet : item := NewSet [
  fn "ProvideConfig" [] "*config.Config";
  fn "ProvideLogger" ["*config.Config"] "*zap.Logger";
  fn "ProvideDBPool" ["*config.Config"] "*pgxpool.Pool";
  fn "ProvideTxManager" ["*pgxpool.Pool"] "*tx.Manager";
  fn "ProvideTxManagerInterface" ["*tx.Manager"] "tx.TxManager";
  fn "ProvideRedis" ["*config.Config"] "*goredis.Client";
  fn "ProvideUniversalRedisClient" ["*goredis.Client"] "goredis.UniversalClient";
  fn "ProvideAuthManager" ["*config.Config"] "*auth.Auth";
  fn "ProvideHealthHandler" ["*config.Config"; "*goredis.Client"] "*observability.HealthHandler";
  fn "ProvideKafkaConfig" ["*config.Config"] "kafka.Config";
  kafka_ProviderSet;
  fn "ProvideIdempotencyDBTX" ["*pgxpool.Pool"] "idempotency.DBTX";
  idempotency_ProviderSet;
  outbox_ProviderSet].

Definition HTTPSet : item := NewSet [
  fn "ProvideGinEngine"
    ["*config.Config"; "*zap.Logger"; "*goredis.Client"; "*http.AuthHandler"; "*http.ProfileHandler";
     "*http.AddressHandler"; "middleware.AuthMiddleware"; "idempotency.Service";
     "middleware.StrictAuthMiddleware"] "*gin.Engine";
  fn "ProvideHTTPServer" ["*config.Config"; "*gin.Engine"] "*http.Server";
  fn "ProvideShutdownTimeout" ["*config.Config"] "time.Duration"].

Definition IdentityModuleSet : item := NewSet [
  postgres_ProviderSet;
  adapters_ProviderSet;
  service_ProviderSet;
  http_ProviderSet;
  Bind "http.AuthUseCase" "*service.AuthService";
  Bind "http.ProfileUseCase" "*service.ProfileService";
  Bind "http.AddressUseCase" "*service.AddressService";
  Bind "http.AddressQueryUseCase" "*service.ProfileService"].

Definition ModuleSet : item := NewSet [IdentityModuleSet].

Definition APISet : item := NewSet [
  PlatformSet;
  HTTPSet;
  ModuleSet;
  fn "ProvideAPIApp" ["*http.Server"; "*zap.Logger"; "time.Duration"] "*APIApp"].

(** ** The injector *)

(** The calls of [InitializeAPIApp] in [wire_gen.go], each with the types of its
    arguments. *)
Definition injector : list (string * list string) := [
  ("ProvideConfig", []);
  ("ProvideLogger", ["*config.Config"]);
  ("ProvideDBPool", ["*config.Config"]);
  ("ProvideTxManager", ["*pgxpool.Pool"]);
  ("ProvideTxManagerInterface", ["*tx.Manager"]);
  ("postgres.NewUserRepository", ["*pgxpool.Pool"]);
  ("postgres.NewCredentialRepository", ["*pgxpool.Pool"]);
  ("postgres.NewSessionRepository", ["*pgxpool.Pool"]);
  ("postgres.NewDeviceRepository", ["*pgxpool.Pool"]);
  ("postgres.NewQueryRepository", ["*pgxpool.Pool"]);
  ("adapters.ProvideJWTAuthManager", ["*config.Config"]);
  ("ProvideRedis", ["*config.Config"]);
  ("adapters.ProvideRedisSessionService", ["*goredis.Client"]);
  ("outbox.ProvideRepository", ["*pgxpool.Pool"]);
  ("outbox.ProvideRecorder", ["*outbox.PostgresRepository"]);
  ("adapters.ProvideOutboxEventPublisher", ["*outbox.OutboxRecorder"; "*zap.Logger"]);
  ("adapters.ProvideRealClock", []);
  ("service.ProvideRegisterPolicy", []);
  ("service.ProvideDevicePolicy", []);
  ("service.NewAuthService",
    ["tx.TxManager"; "domain.UserRepository"; "domain.CredentialRepository"; "domain.SessionRepository";
     "domain.DeviceRepository"; "query.QueryRepository"; "ports.AuthManager"; "ports.RedisSessionService";
     "ports.EventPublisher"; "ports.Clock"; "policy.RegisterPolicy"; "policy.DevicePolicy"]);
  ("http.NewAuthHandler", ["*service.AuthService"]);
  ("service.NewProfileService",
    ["tx.TxManager"; "domain.UserRepository"; "domain.DeviceRepository"; "query.QueryRepository";
     "domain.SessionRepository"; "ports.Clock"]);
  ("http.NewProfileHandler", ["*service.ProfileService"]);
  ("postgres.NewAddressRepository", ["*pgxpool.Pool"]);
  ("service.NewAddressService", ["domain.AddressRepository"; "tx.TxManager"]);
  ("http.NewAddressHandler", ["*service.AddressService"; "*service.ProfileService"]);
  ("ProvideAuthManager", ["*config.Config"]);
  ("middleware.NewAuthMiddleware", ["*auth.Auth"]);
  ("ProvideUniversalRedisClient", ["*goredis.Client"]);
  ("idempotency.ProvideRedisStore", ["goredis.UniversalClient"]);
  ("ProvideIdempotencyDBTX", ["*pgxpool.Pool"]);
  ("idempotency.ProvideProcessedEventStore", ["idempotency.DBTX"]);
  ("idempotency.NewClock", []);
  ("idempotency.NewDefaultConfig", []);
  ("idempotency.NewDefaultService",
    ["idempotency.Store"; "idempotency.ProcessedEventStore"; "idempotency.Clock"; "idempotency.Config"]);
  ("adapters.ProvideRedisBlacklistAdapter", ["*goredis.Client"]);
  ("middleware.NewStrictAuthMiddleware", ["ports.BlacklistPort"]);
  ("ProvideGinEngine",
    ["*config.Config"; "*zap.Logger"; "*goredis.Client"; "*http.AuthHandler"; "*http.ProfileHandler";
     "*http.AddressHandler"; "middleware.AuthMiddleware"; "idempotency.Service";
     "middleware.StrictAuthMiddleware"]);
  ("ProvideHTTPServer", ["*config.Config"; "*gin.Engine"]);
  ("ProvideShutdownTimeout", ["*config.Config"]);
  ("ProvideAPIApp", ["*http.Server"; "*zap.Logger"; "time.Duration"])].

(** The root that [wire.go] asks for. *)
Definition api_root : string := "*APIApp".

(** ** Checks *)

(** Every provider's parameters are provided, and no type is provided twice. *)
Definition outputs (s : item) : list string := map p_result (providers s) ++ map fst (bindings s).

Definition complete (s : item) : bool :=
  forallb (fun p => forallb (fun t => bool_decide (t ∈ outputs s)) (p_params p)) (providers s) &&
  forallb (fun b => bool_decide (b.2 ∈ map p_result (providers s))) (bindings s).

(** The values in scope after the calls, from the ones before: a call finds its
    arguments in scope, each assignable to the parameter of its provider, and
    constructs the provider's result. [*goredis.Client] implements the interface
    [goredis.UniversalClient] of its library. *)
Definition provider_named (s : item) (name : string) : option provider :=
  List.find (fun p => String.eqb (p_name p) name) (providers s).
Definition assignable (s : item) (arg param : string) : bool :=
  String.eqb arg (resolve s param) ||
  (String.eqb arg "*goredis.Client" && String.eqb param "goredis.UniversalClient").
Fixpoint fits (s : item) (args params : list string) : bool :=
  match args, params with
  | [], [] => true
  | a :: args, p :: params => assignable s a p && fits s args params
  | _, _ => false
  end.
Fixpoint exec (s : item) (calls : list (string * list string)) (scope : list string) : option (list string) :=
  match calls with
  | [] => Some scope
  | (name, args) :: calls =>
      match provider_named s name with
      | Some p => if forallb (fun t => bool_decide (t ∈ scope)) args && fits s args (p_params p)
                  then exec s calls (p_result p :: scope) else None
      | None => None
      end
  end.

(** The parameters of a call as the set resolves them. *)
Definition resolved (s : item) (name : string) : list string :=
  match provider_named s name with Some p => map (resolve s) (p_params p) | None => [] end.

(** A worklist that collects what [root] needs, in [n] rounds. *)
Definition step_needs (s : item) (have : list string) : list string :=
  have ++ flat_map (fun p => if bool_decide (p_result p ∈ have) then map (resolve s) (p_params p) else []) (providers s).
Fixpoint collect (s : item) (n : nat) (have : list string) : list string :=
  match n with O => have | S n => collect s n (remove_dups (step_needs s have)) end.

Section Needs.
Context (s : item) (root : string).

Lemma step_needs_sound have : Forall (needs s root) have -> Forall (needs s root) (step_needs s have).
Proof.
  intros Hh. apply Forall_app. split; [done|]. apply Forall_forall. intros t Ht.
  apply list_elem_of_In, in_flat_map in Ht as (p & Hp%list_elem_of_In & Ht). case_bool_decide as Hr; [|done].
  apply list_elem_of_In, list_elem_of_fmap in Ht as (q & -> & Hq).
  eapply needs_param; [done| |done]. by eapply Forall_forall in Hh.
Qed.
Lemma collect_sound n have : Forall (needs s root) have -> Forall (needs s root) (collect s n have).
Proof.
  revert have. induction n as [|n IH]; simpl; [done|]. intros have Hh. apply IH.
  apply Forall_forall. intros t Ht. rewrite elem_of_remove_dups in Ht.
  exact (proj1 (Forall_forall _ _) (step_needs_sound have Hh) t Ht).
Qed.

(** A set of types with the root that is closed under parameters has all that the
    root needs. *)
Definition closed (have : list string) : bool :=
  bool_decide (root ∈ have) &&
  forallb (fun p => bool_decide (p_result p ∉ have) ||
                    forallb (fun t => bool_decide (resolve s t ∈ have)) (p_params p)) (providers s).

Lemma closed_needs have t : closed have = true -> needs s root t -> t ∈ have.
Proof.
  intros [Hroot%bool_decide_eq_true Hc]%andb_true_iff. induction 1 as [|p t Hp _ IH Ht]; [done|].
  rewrite forallb_forall in Hc. apply list_elem_of_In in Hp. specialize (Hc p Hp).
  apply orb_true_iff in Hc as [Hn%bool_decide_eq_true|Hc]; [done|].
  rewrite forallb_forall in Hc. apply list_elem_of_In in Ht. specialize (Hc t Ht).
  by apply bool_decide_eq_true in Hc.
Qed.
End Needs.

(** What the injector has constructed at the end. *)
Definition constructed : list string := default [] (exec APISet injector []).

(** [APISet] is a set [wire] accepts: every parameter of every provider is provided
    or bound to something provided, and no type is provided twice. *)
Theorem api_set_accepted : complete APISet = true /\ NoDup (outputs APISet).
Proof. split; [by vm_compute|]. apply (bool_decide_unpack (NoDup (outputs APISet))). by vm_compute. Qed.

(** The generated injector constructs what the application needs according to the
    provider sets, and nothing else: every call finds arguments for the parameters of
    its provider, and a type is constructed if and only if [*APIApp] needs it. *)
Theorem injector_exact :
  is_Some (exec APISet injector []) /\ NoDup constructed /\
  forall t, needs APISet api_root t <-> t ∈ constructed.
Proof.
  split; [eexists; by vm_compute|]. split; [apply (bool_decide_unpack (NoDup constructed)); by vm_compute|].
  intros t. split.
  - apply closed_needs. by vm_compute.
  - intros Ht. assert (Hall : forallb (fun t => bool_decide (t ∈ collect APISet 8 [api_root])) constructed = true)
      by (by vm_compute). rewrite forallb_forall in Hall. 
    apply list_elem_of_In, Hall in Ht. apply bool_decide_eq_true in Ht.
    eapply Forall_forall; [|exact Ht]. apply collect_sound, Forall_singleton, needs_root.
Qed.

(** The handler of the health endpoints, the dispatcher of the outbox and the Kafka
    consumers are provided and never constructed: the application does not need
    them. *)
Theorem not_constructed :
  map p_name (filter (fun p => p_result p ∉ constructed) (providers APISet)) =
  ["ProvideHealthHandler"; "ProvideKafkaConfig"; "kafka.ProvideProducer"; "kafka.ProvideDLQPublisher";
   "kafka.ProvideConsumerGroup"; "outbox.ProvidePublisher"; "outbox.ProvideDispatcher"].
Proof. by vm_compute. Qed.

(** The injector is older than the sets: one call passes another value than the one
    the sets resolve its parameter to. *)
Theorem injector_outdated :
  filter (fun c => c.2 <> resolved APISet c.1) injector =
    [("adapters.ProvideRedisSessionService", ["*goredis.Client"])] /\
  resolved APISet "adapters.ProvideRedisSessionService" = ["goredis.UniversalClient"].
Proof. split; by vm_compute. Qed.

(** The set of the Redis kit needs a configuration that nothing provides, so it can
    not be added to [APISet] as it is. *)
Theorem redis_set_incomplete : complete (NewSet [APISet; redis_ProviderSet]) = false.
Proof. by vm_compute. Qed.
